(* ===== verification/_CoqProject ===== *)
-Q . S2P
Prelude.v
CString.v
Digits.v
CritbitTree.v
Critbit.v
CritbitNodes.v
Text.v
LinkedList.v
Vlink.v
VlinkProps.v
NameMap.v
Types.v
NetTypes.v
Kernel.v
NetDev.v
EthvlinkDev.v
Fblock.v
FblockNs.v
FblockLife.v
FblockBind.v
PerCpu.v
FblockCtor.v
FbDummy.v
Engine.v
FbTee.v
FbCounter.v
FbBpf.v
FbBpfProps.v
FbEth.v
FbEthvlink.v
FbPflana.v
Procfs.v
Modules.v
EngineProps.v
EngineSinks.v
FbProps.v
ModuleLife.v
Tables.v
Builder.v
Core.v
Userctl.v
UserctlProps.v
NetDevProps.v
FbEthProps.v
FbEthvlinkProps.v
FbEthvlinkFrames.v
EthvlinkWf.v
FbPflanaProps.v
EngineOrder.v
FbPflanaLife.v
NetPaths.v
UserTools.v
EthSystem.v
VlinkSystem.v
Scenarios.v
Runs.v
EthRuns.v
VlinkRuns.v
Process.v
XMalloc.v
Alsa.v
AlsaProps.v
Voe.v
VoeProps.v
VoeMain.v
VoeNet.v
AppRuns.v
