(* ===== verification/Prelude.v ===== *)
(** * Verification of the LANA protocol stack

    LANA (Lightweight Autonomic Network Architecture) is a protocol stack in
    the Linux kernel that is put together at run time.  Its units are
    functional blocks: a block has a name and a number (IDP), receives packets
    and passes each on to the block that one of its ports is bound to.  A
    control tool in user space adds, removes, binds and replaces blocks while
    packets flow.  A demo sends voice over the stack's sockets.  This library
    models the kernel modules under src/src/, the tools under src/usr/ and the
    demo under src/app/ as executable functions and proves what makes them
    correct.

    ** The parts of the program and the files that model them

    - Crit-bit trees (xt_critbit.c), the sets of strings below the namespaces.
      CritbitTree has the tree as a value with its invariant, Critbit the same
      loops as a pointer program on a heap; the second refines the first, and
      the first a finite map.  CritbitNodes has histories of operations: it
      accounts for the memory of the nodes and shows that the tree does not
      depend on the history.  NameMap states as a class what the clients rely
      on, with the trees as an instance, and as a second class ([KernelApi])
      what is used of the kernel: radix trees, notifier chains, the filter
      machine.
    - Functional blocks (xt_fblock.c, xt_fblock.h, xt_idp.h).  Types has the
      structs, Kernel the state of the machine and the monad of kernel code,
      Fblock the functions.  Modules that implement blocks are called through
      the class [FblockOps].  FblockNs proves the invariant [core_ok] of name
      and IDP table and what registration does, FblockLife references, options
      and migration, FblockBind subscriptions and bindings (against the class
      [EventLaws] of what an event handler promises), FblockCtor what the
      constructors share, Tables the set-up of the tables.
    - Block modules: FbDummy (fb_dummy.c), FbTee (fb_tee.c), FbCounter
      (fb_counter.c), FbBpf (fb_bpf.c), on the per-CPU patterns of PerCpu.
      Modules ties them and the network modules to [FblockOps] and discharges
      [EventLaws]; ModuleLife proves constructors and destructors, FbProps and
      FbBpfProps what each block does.
    - Network modules.  NetTypes has the devices, sockets and static data,
      NetDev and EthvlinkDev the kernel's device functions and the network
      operations of the virtual devices; FbEth (fb_eth.c) makes a real device
      a block, FbEthvlink (fb_ethvlink.c) has the virtual devices with tags on
      a shared carrier, FbPflana (fb_pflana.c) the sockets.  NetDevProps has
      the lemmas they share; FbEthProps, FbEthvlinkProps (commands),
      FbEthvlinkFrames (frames, packets, statistics, events), EthvlinkWf (the
      table of virtual devices), FbPflanaProps (sending and receiving) and
      FbPflanaLife (creation, release, the module) the theorems.
    - The engine (xt_engine.c, xt_skb.h) with its backlogs and timers: Engine,
      with its theorems in EngineProps; EngineSinks follows a packet through
      forwarding blocks to a block that takes it over, EngineOrder a whole
      backlog into the queue of a socket, and NetPaths composes this with the
      network modules, from the wire to a socket and back.
    - Builder (xt_builder.c), control interface (xt_user.c): Builder, Userctl,
      UserctlProps.
    - Virtual link subsystems (xt_vlink.c): Vlink, VlinkProps, on the linked
      lists of LinkedList.
    - Files in /proc: Procfs, with the text functions of Text and Digits.
    - Loading and unloading (core.c): Core.
    - Tools (usr/fbctl.c, usr/vlink.c): UserTools; EthSystem and VlinkSystem
      compose the vlink tool, the virtual link subsystem and the two Ethernet
      modules.
    - The voice demo (app/voe.c) and its libraries of functions.  Process has
      the state of a user process, its calls and the monad of user code;
      XMalloc has app/xmalloc.c, strlcpy.c and die.h, Alsa the sound device of
      alsa.c, Voe the program with app/signals.h.  AlsaProps, VoeProps (the
      main loop) and VoeMain (the whole program) have the theorems; VoeNet
      sends a message of one demo through the network modules to another.
    - Scenarios, Runs, EthRuns, VlinkRuns and AppRuns run the model on concrete
      machines; they hold the witnesses of the general theorems.
    - This file and CString have what all share: error numbers, machine
      integers, list and map lemmas, C strings.

    ** How code is modelled

    Kernel code is a function from the state to an outcome, a value with the
    new state or a crash.  Objects live in maps by address; an access to an
    object that is not there, a lock taken twice, a [BUG()] and a loop that is
    out of fuel are crashes, so that a theorem that names the result also says
    that none of them happens.  Addresses are handed out once; the slab cache
    of the blocks recycles contents as the kernel does.  [k_oom] decides which
    allocations fail.  [call_rcu] queues its callback in [k_rcu];
    [grace_period] runs the callbacks, but not while a read-side section is
    open.  Reference counts wrap at 32 bits, counters at their width.
    Per-CPU data are lists with one entry for each CPU, [k_cpu] is the CPU that
    runs.  The code runs one operation at a time; where a seqlock lets a writer
    in between, the handler takes the values its rounds saw as an argument.
    Messages, names and file contents are lists of bytes with their C
    operations.  Devices and sockets are tables in [k_net]; a packet given to
    a driver is recorded at its device, and [nd_late] tells whether the driver
    frees it at once or after it was sent.

    User code of the demo is a function from the process to a value, an exit
    status, or something C gives no meaning to: an access outside a block, to
    a freed block or through NULL, a use of memory that was never written, an
    overflow of a signed integer.  Bytes that were not written are [None].
    Calls to the kernel and to ALSA, CELT and Speex are recorded; the answers
    come from a function of all calls before, an argument of the theorems
    ([Env]).  [env_ok] states the documented behaviour of the libraries as laws
    of that function, errors included: a read may be short or fail, a poll may
    be interrupted, a message may be short.  [faulted] says that such an answer
    was given where the demo does not check for it.  Signals are delivered between two rounds of the main loop;
    the handlers touch nothing the round uses but counters they read.

    Fuel: the walks of Critbit need any number above the number of nodes;
    [notifs_fuel] and [cbs_fuel] are the number of objects a list can have; the
    engine's [hops] and [pkts] are arguments, and the theorems say how many are
    enough (the length of the longest way, the packets in the backlog).
    [RECURSION_LIMIT] is the kernel's limit for devices stacked on devices, and
    [notify_depth] bounds a removal within a removal: carriers are real devices,
    so one level is all there is.  [voe_loop] has a number of rounds, any number; they
    are enough if the interrupt comes within them.

    ** What is proved

    - Crit-bit trees: lookup, insertion and deletion refine a finite map, the
      tree depends only on its contents, not on the history of operations, a
      deleted node waits for RCU, none is lost or freed twice, the node cache lives as long as its users.
    - Core: registration, lookup, unregistration, IDPs; bind and unbind with
      all errors; the life of a block from constructor to grace period; the
      commands add, remove, replace as a whole.
    - Engine: packets reach the end of their way, backlogs are drained,
      and into a socket in their order, statistics add up, timers arm
      themselves again; a cycle of bindings never ends.
    - Blocks: which packets they forward, drop, copy and count; the lines of a
      filter are read back, but not with the head shown above them; devices become blocks and give everything back;
      frames cross from device to device.
    - Virtual devices: adding and removing are inverse, the table stays well
      formed, a tag selects one device, what becomes of each frame and packet,
      the statistics; the accesses to freed packets and the devices left by a
      carrier that goes away are proved as such.
    - Sockets: creation with a block of their own, sending and receiving on
      every branch, messages from socket to socket, from the wire to a socket
      and from a socket to the wire; releasing a socket accesses freed memory.
    - Virtual links: callbacks stay in order of priority, messages are offered
      in that order, types are unique.
    - Core module: set-up and tear-down are inverse, errors roll back, with the
      exceptions that are proved as such (timers left armed in freed memory,
      failures that are not noticed).
    - Tools: a command line becomes the message whose handler the kernel runs.
    - Demo: over libraries that keep to their documentation the program sends a
      stream of frames and ends on the interrupt, and comes to something
      undefined only after an answer it should have checked, after 2^23 - 1
      frames or after 2^31 - 1 rounds; four of these ways are proved to be
      undefined; the sound device
      gives back its memory; a message sent on one machine is put into the
      jitter buffer of the other.

    ** What is not modelled

    - The socket layer's locks and wait queues (fb_pflana.c), and waiting for a
      packet: the result of waiting is an argument of [lana_proto_recvmsg].
      The stream receive function of that file is compiled out.
    - The netlink sockets themselves: they are there or not; messages are
      given to the handlers as lists of bytes.
    - The time at which timers expire and signals arrive, and handlers that
      run in the middle of another operation: a theorem on the timer is one on
      its handler.
    - The read-write semaphores of the virtual link subsystems: each is taken
      and released within one function and the operations run one at a time, so
      it has no state between them.
    - The insides of the kernel functions for packets, devices and sockets
      (such as [sock_queue_rcv_skb], [register_netdev], [dev_queue_xmit]): they
      are defined by what they do to the tables the modules see.
    - The width of the byte index in a node of a crit-bit tree, 32 bits: names
      are far shorter than 2^32 bytes.
    - The formatting of the demo's and the tools' error messages (the text of
      the format is recorded), their usage texts, and the helpers of app/die.h
      that nothing calls.
    - The scripts, tests and hardware descriptions. *)
From Stdlib Require Import ZArith Lia.
From stdpp Require Import base gmap numbers list.

Local Open Scope Z_scope.

(** Addresses of kernel objects; 0 is NULL. *)
Abbreviation addr := Z (only parsing).

(** ** Error numbers and kernel constants the sources use *)

Definition EPERM : Z := 1.
Definition ENOENT : Z := 2.
Definition EIO : Z := 5.
Definition ENOMEM : Z := 12.
Definition EFAULT : Z := 14.
Definition EBUSY : Z := 16.
Definition EEXIST : Z := 17.
Definition ENODEV : Z := 19.
Definition EINVAL : Z := 22.
Definition EAGAIN : Z := 11.
Definition ENFILE : Z := 23.
Definition EDESTADDRREQ : Z := 89.
Definition EPROTONOSUPPORT : Z := 93.
Definition EAFNOSUPPORT : Z := 97.
Definition EADDRNOTAVAIL : Z := 99.
Definition ENETDOWN : Z := 100.
Definition ENOBUFS : Z := 105.

(** ** Machine-width integers

    A w-bit unsigned integer is a [Z] in [0, 2^w); every C operation that can
    leave the range is followed by the corresponding wrap. *)

Definition u8 (z : Z) : Z := z mod 2 ^ 8.
Definition u16 (z : Z) : Z := z mod 2 ^ 16.
Definition u32 (z : Z) : Z := z mod 2 ^ 32.
Definition u64 (z : Z) : Z := z mod 2 ^ 64.

(** Signed: the two's-complement value of the low bits ([atomic_t],
    [atomic64_t]). *)
Definition s32 (z : Z) : Z := (z + 2 ^ 31) mod 2 ^ 32 - 2 ^ 31.
Definition s64 (z : Z) : Z := (z + 2 ^ 63) mod 2 ^ 64 - 2 ^ 63.

Definition is_byte (z : Z) : Prop := 0 <= z < 256.

#[export] Instance is_byte_dec z : Decision (is_byte z).
Proof. unfold is_byte; apply _. Defined.

Lemma u8_range z : is_byte (u8 z).
Proof. unfold u8, is_byte. pose proof (Z.mod_pos_bound z (2 ^ 8)). lia. Qed.

Lemma u32_range z : 0 <= u32 z < 2 ^ 32.
Proof. apply Z.mod_pos_bound. lia. Qed.

Lemma u32_small z : 0 <= z < 2 ^ 32 -> u32 z = z.
Proof. intros; unfold u32; by rewrite Z.mod_small. Qed.

Lemma u64_small z : 0 <= z < 2 ^ 64 -> u64 z = z.
Proof. intros; unfold u64; by rewrite Z.mod_small. Qed.

Lemma s32_small z : - 2 ^ 31 <= z < 2 ^ 31 -> s32 z = z.
Proof. intros; unfold s32; rewrite Z.mod_small; lia. Qed.

Lemma s64_small z : - 2 ^ 63 <= z < 2 ^ 63 -> s64 z = z.
Proof. intros; unfold s64; rewrite Z.mod_small; lia. Qed.

Lemma s32_range z : - 2 ^ 31 <= s32 z < 2 ^ 31.
Proof. unfold s32. pose proof (Z.mod_pos_bound (z + 2 ^ 31) (2 ^ 32)). lia. Qed.

Lemma s32_s32 a b : s32 (s32 a + b) = s32 (a + b).
Proof.
  unfold s32. f_equal.
  replace ((a + 2 ^ 31) mod 2 ^ 32 - 2 ^ 31 + b + 2 ^ 31)
    with ((a + 2 ^ 31) mod 2 ^ 32 + b) by lia.
  rewrite Zplus_mod_idemp_l. f_equal. lia.
Qed.

(** ** Exhaustive checking over bytes

    A decidable statement about one or two bytes is proved by evaluating its
    boolean form on all of them. *)

Definition below (n : Z) : list Z := seqZ 0 n.
Definition bytes : list Z := below 256.

Lemma all_below (f : Z -> bool) n :
  forallb f (below n) = true -> forall z, 0 <= z < n -> f z = true.
Proof.
  intros H z Hz. rewrite forallb_forall in H. apply H.
  apply list_elem_of_In. apply elem_of_seqZ. lia.
Qed.

Lemma all_bytes (f : Z -> bool) :
  forallb f bytes = true -> forall z, is_byte z -> f z = true.
Proof. intros H z Hz. by apply (all_below f 256). Qed.

Lemma all_bytes2 (f : Z -> Z -> bool) :
  forallb (fun x => forallb (f x) bytes) bytes = true ->
  forall x y, is_byte x -> is_byte y -> f x y = true.
Proof.
  intros H x y Hx Hy.
  pose proof (all_bytes (fun x => forallb (f x) bytes) H x Hx) as H'.
  by apply (all_bytes (f x) H').
Qed.

(** ** Automation *)

Create HintDb lana.
Create Rewrite HintDb keys.
#[export] Hint Resolve u8_range u32_range s32_range : lana.

(** Split a boolean test of the code into its two cases, with the arithmetic
    meaning of the test in the context. *)
Ltac case_bool :=
  match goal with
  | |- context [ Z.eqb ?a ?b ] => destruct (Z.eqb_spec a b)
  | |- context [ Z.ltb ?a ?b ] => destruct (Z.ltb_spec a b)
  | |- context [ Z.leb ?a ?b ] => destruct (Z.leb_spec a b)
  | |- context [ Nat.ltb ?a ?b ] => destruct (Nat.ltb_spec a b)
  | |- context [ Nat.leb ?a ?b ] => destruct (Nat.leb_spec a b)
  | |- context [ Nat.eqb ?a ?b ] => destruct (Nat.eqb_spec a b)
  | H : context [ Z.eqb ?a ?b ] |- _ => destruct (Z.eqb_spec a b)
  | H : context [ Z.ltb ?a ?b ] |- _ => destruct (Z.ltb_spec a b)
  | H : context [ Z.leb ?a ?b ] |- _ => destruct (Z.leb_spec a b)
  | H : context [ Nat.ltb ?a ?b ] |- _ => destruct (Nat.ltb_spec a b)
  | H : context [ Nat.leb ?a ?b ] |- _ => destruct (Nat.leb_spec a b)
  | H : context [ Nat.eqb ?a ?b ] |- _ => destruct (Nat.eqb_spec a b)
  end.

Ltac bool_cases := repeat (case_bool; simplify_eq/=); try lia.

(** ** Lists *)

Lemma nth_lookup_some {A} (l : list A) i d x : l !! i = Some x -> nth i l d = x.
Proof. intros H. by rewrite nth_lookup, H. Qed.

Lemma nth_ge {A} (l : list A) i d : (length l <= i)%nat -> nth i l d = d.
Proof. apply nth_overflow. Qed.
