(* ===== verification/CString.v ===== *)
(** * C strings

    A C string is the list of its bytes before the terminating NUL; a buffer
    is the list of all the bytes of a [char] array.  This file models the
    string routines the sources define ([strlcpy], the same text in
    app/strlcpy.c, usr/fbctl.c and usr/vlink.c) or take from the C library
    ([strlen], [strcmp], [strncmp]). *)
From Stdlib Require Import ZArith Lia.
From stdpp Require Import base gmap numbers list.
From S2P Require Import Prelude.

Local Open Scope Z_scope.

Definition cstr := list Z.

(** The bytes of a C string: none is NUL. *)
Definition cstr_ok (s : cstr) : Prop := Forall (fun b => 0 < b < 256) s.

#[export] Instance cstr_ok_dec s : Decision (cstr_ok s).
Proof. unfold cstr_ok; apply _. Defined.

(** The string a buffer holds: its bytes up to the first NUL. *)
Fixpoint c_str (buf : list Z) : cstr :=
  match buf with
  | [] => []
  | b :: buf' => if b =? 0 then [] else b :: c_str buf'
  end.

(** [strlen] on a buffer; [None] when the buffer has no NUL and the scan
    leaves it. *)
Fixpoint strlen (buf : list Z) : option nat :=
  match buf with
  | [] => None
  | b :: buf' => if b =? 0 then Some 0%nat else S <$> strlen buf'
  end.

(** [strcmp] on the strings' bytes, unsigned as the kernel's. *)
Fixpoint strcmp (s1 s2 : cstr) : Z :=
  match s1, s2 with
  | [], [] => 0
  | [], _ :: _ => -1
  | _ :: _, [] => 1
  | a :: s1', b :: s2' => if a =? b then strcmp s1' s2' else if a <? b then -1 else 1
  end.

(** [strncmp]: the comparison stops after [n] bytes. *)
Definition strncmp (s1 s2 : cstr) (n : nat) : Z := strcmp (take n s1) (take n s2).

(** [strlcpy (dest, src, size)]: returns the source's length and the
    destination buffer after the copy. *)
Definition strlcpy (dest : list Z) (src : cstr) (size : nat) : nat * list Z :=
  let ret := length src in
  if (size =? 0)%nat then (ret, dest)
  else
    let len := if (size <=? ret)%nat then (size - 1)%nat else ret in
    (ret, take len src ++ [0] ++ drop (len + 1) dest).

(** ** Basic facts *)

Lemma cstr_ok_nil : cstr_ok [].
Proof. constructor. Qed.

Lemma cstr_ok_take s n : cstr_ok s -> cstr_ok (take n s).
Proof. apply Forall_take. Qed.

Lemma cstr_ok_lookup s i : cstr_ok s -> (i < length s)%nat -> 0 < nth i s 0 < 256.
Proof.
  intros Hs Hi. destruct (lookup_lt_is_Some_2 _ _ Hi) as [x Hx].
  rewrite (nth_lookup_some _ _ _ _ Hx).
  exact (Forall_lookup_1 _ _ _ _ Hs Hx).
Qed.

Lemma cstr_ok_nth_byte s i : cstr_ok s -> is_byte (nth i s 0).
Proof.
  intros Hs. destruct (decide (i < length s)%nat) as [Hi|Hi].
  - pose proof (cstr_ok_lookup s i Hs Hi). unfold is_byte; lia.
  - rewrite nth_ge by lia. unfold is_byte; lia.
Qed.

#[export] Hint Resolve cstr_ok_nil cstr_ok_take cstr_ok_nth_byte : lana.

Lemma strcmp_refl s : strcmp s s = 0.
Proof. induction s; simpl; [done|]. by rewrite Z.eqb_refl. Qed.

Lemma strcmp_0 s1 s2 : strcmp s1 s2 = 0 <-> s1 = s2.
Proof.
  split; [|intros ->; apply strcmp_refl].
  revert s2; induction s1 as [|a s1 IH]; intros [|b s2]; simpl; try done.
  case_bool; [intros; f_equal; auto|]. case_bool; lia.
Qed.

Lemma c_str_ok buf : Forall is_byte buf -> cstr_ok (c_str buf).
Proof.
  induction 1 as [|b buf Hb _ IH]; simpl; [constructor|].
  case_bool; [constructor|]. constructor; [unfold is_byte in Hb; lia|done].
Qed.

Lemma c_str_app s rest : cstr_ok s -> c_str (s ++ 0 :: rest) = s.
Proof.
  induction 1 as [|b s Hb _ IH]; simpl; [done|].
  case_bool; [lia|]. by rewrite IH.
Qed.

Lemma strlen_c_str buf n : strlen buf = Some n -> length (c_str buf) = n.
Proof.
  revert n; induction buf as [|b buf IH]; intros n; simpl; [done|].
  case_bool; [by intros [= <-]|].
  destruct (strlen buf) as [m|]; simpl; [|done]. intros [= <-].
  simpl. f_equal. by apply IH.
Qed.

Lemma strlen_terminated buf : 0 ∈ buf -> is_Some (strlen buf).
Proof.
  induction buf as [|b buf IH]; simpl; [set_solver|].
  case_bool; [eauto|]. intros [?|H]%elem_of_cons; [done|].
  destruct (IH H) as [m ->]. simpl. eauto.
Qed.

(** ** [strlcpy] *)

(** The destination ends up holding the longest prefix of the source that
    leaves room for the NUL, and nothing beyond it is written. *)
Lemma strlcpy_c_str dest src size :
  cstr_ok src -> (0 < size)%nat ->
  c_str (strlcpy dest src size).2 = take (size - 1) src.
Proof.
  intros Hs Hn. unfold strlcpy.
  destruct (Nat.eqb_spec size 0) as [?|_]; [lia|]. simpl.
  case_bool.
  - apply c_str_app, cstr_ok_take, Hs.
  - rewrite c_str_app by (by apply cstr_ok_take).
    rewrite !take_ge by lia. done.
Qed.

Lemma strlcpy_length dest src size :
  (size <= length dest)%nat -> length (strlcpy dest src size).2 = length dest.
Proof.
  intros Hd. unfold strlcpy.
  destruct (Nat.eqb_spec size 0) as [->|Hn]; [done|]. simpl.
  rewrite length_app, length_take. simpl. rewrite length_drop.
  case_bool; lia.
Qed.

Lemma strlcpy_terminated dest src size :
  (0 < size)%nat -> 0 ∈ (strlcpy dest src size).2.
Proof.
  intros Hn. unfold strlcpy. destruct (Nat.eqb_spec size 0) as [?|_]; [lia|].
  simpl. set_solver.
Qed.
