(* ===== verification/Digits.v ===== *)
(** * Numbers as text

    What printf writes for "%u" and "%x", and the value of a string of
    digits.  Reading back what was printed gives the number. *)
From Stdlib Require Import ZArith Lia.
From stdpp Require Import base numbers list.
From S2P Require Import Prelude CString.

Local Open Scope Z_scope.

(** The character of a digit: '0' to '9', then 'a' to 'f'. *)
Definition digit_char (d : Z) : Z := if d <? 10 then 48 + d else 87 + d.

(** The value of a character as a digit; upper case letters count, too. *)
Definition digit_val (c : Z) : option Z :=
  if (48 <=? c) && (c <=? 57) then Some (c - 48)
  else if (97 <=? c) && (c <=? 102) then Some (c - 87)
  else if (65 <=? c) && (c <=? 70) then Some (c - 55)
  else None.

(** A digit of the base. *)
Definition is_digit (base c : Z) : bool :=
  match digit_val c with Some d => d <? base | None => false end.

(** The digits of a number, at most [fuel] of them. *)
Fixpoint digits (base : Z) (fuel : nat) (n : Z) : cstr :=
  match fuel with
  | O => []
  | S fuel' => (if n <? base then [] else digits base fuel' (n / base)) ++ [digit_char (n mod base)]
  end.

(** "%u" and "%llu", "%x": twenty decimal digits are enough for 64 bits,
    sixteen hexadecimal ones as well. *)
Definition dec (n : Z) : cstr := digits 10 20 n.
Definition hex (n : Z) : cstr := digits 16 16 n.

(** The value of digits, most significant first. *)
Definition digits_val (base acc : Z) (s : cstr) : Z :=
  fold_left (fun acc c => base * acc + default 0 (digit_val c)) s acc.

Lemma digit_char_val d : 0 <= d < 16 -> digit_val (digit_char d) = Some d.
Proof.
  intros Hd. unfold digit_char, digit_val. destruct (Z.ltb_spec d 10).
  - destruct (Z.leb_spec 48 (48 + d)), (Z.leb_spec (48 + d) 57); simpl; try lia. f_equal. lia.
  - destruct (Z.leb_spec 48 (87 + d)), (Z.leb_spec (87 + d) 57), (Z.leb_spec 97 (87 + d)),
      (Z.leb_spec (87 + d) 102); simpl; try lia. f_equal. lia.
Qed.

Lemma digits_nonempty base fuel n : digits base (S fuel) n <> [].
Proof. simpl. by destruct (if n <? base then [] else digits base fuel (n / base)). Qed.

Section base.
Variable base : Z.
Hypothesis Hbase : 2 <= base <= 16.

Lemma digits_ok fuel : forall n, 0 <= n -> Forall (fun c => is_digit base c = true) (digits base fuel n).
Proof.
  induction fuel as [|fuel IH]; intros n Hn; simpl; [constructor|].
  pose proof (Z.mod_pos_bound n base). apply Forall_app. split.
  - destruct (n <? base); [constructor|]. apply IH. apply Z.div_pos; lia.
  - constructor; [|constructor]. unfold is_digit. rewrite digit_char_val by lia.
    apply Z.ltb_lt. lia.
Qed.

(** Reading back what was printed. *)
Lemma digits_val_digits fuel : forall n acc,
  0 <= n < base ^ Z.of_nat fuel ->
  exists j, digits_val base acc (digits base fuel n) = base ^ j * acc + n.
Proof.
  induction fuel as [|fuel IH]; intros n acc Hn.
  - exists 0. simpl in *. change (digits_val base acc []) with acc. lia.
  - rewrite Nat2Z.inj_succ, Z.pow_succ_r in Hn by lia.
    pose proof (Z.mod_pos_bound n base). pose proof (Z.div_mod n base).
    assert (Hlast : forall s, digits_val base acc (s ++ [digit_char (n mod base)]) =
              base * digits_val base acc s + n mod base).
    { intros s. unfold digits_val. rewrite fold_left_app. simpl.
      by rewrite digit_char_val by lia. }
    simpl digits. rewrite Hlast. destruct (Z.ltb_spec n base).
    + exists 1. change (digits_val base acc []) with acc. rewrite Z.mod_small by lia. lia.
    + destruct (IH (n / base) acc) as [j Hj].
      { split; [apply Z.div_pos; lia|]. apply Z.div_lt_upper_bound; lia. }
      assert (0 <= j \/ j < 0) as [Hj0|Hj0] by lia.
      * exists (Z.succ j). rewrite Hj, Z.pow_succ_r by lia. lia.
      * exists j. rewrite Hj, (Z.pow_neg_r base j) by lia. lia.
Qed.

Lemma digits_val_0 fuel n :
  0 <= n < base ^ Z.of_nat fuel -> digits_val base 0 (digits base fuel n) = n.
Proof. intros Hn. destruct (digits_val_digits fuel n 0 Hn) as [j ->]. lia. Qed.

(** How many digits a number has. *)
Lemma digits_length fuel : forall n m, 0 <= n < base ^ Z.of_nat (S m) ->
  (length (digits base fuel n) <= S m)%nat.
Proof.
  induction fuel as [|fuel IH]; intros n m Hn; simpl; [lia|]. rewrite length_app. simpl.
  destruct (Z.ltb_spec n base); simpl; [lia|].
  rewrite Nat2Z.inj_succ, Z.pow_succ_r in Hn by lia.
  destruct m as [|m]; [rewrite Z.pow_0_r in Hn; lia|].
  assert (length (digits base fuel (n / base)) <= S m)%nat; [|lia]. apply IH.
  split; [apply Z.div_pos; lia|]. apply Z.div_lt_upper_bound; lia.
Qed.
End base.
