(* ===== verification/CritbitTree.v ===== *)
(** * Crit-bit trees: the tree as a value

    src/xt_critbit.c keeps a set of NUL-terminated strings in a binary tree.
    A pointer with its low bit set is an inner node, any other non-NULL
    pointer is the element's own string.  Here the tag is the constructor of
    [ctree]: a leaf carries the element's address and its string, a node its
    critical byte, its [otherbits] mask and two children.  The functions
    follow the C loops step by step; Critbit.v runs the same loops on a heap
    of nodes and relates the two.

    The invariant [cwf] says that a node's mask names one bit of one byte,
    that all keys below agree before that bit, that the bit separates the two
    children, and that critical positions increase along every path. *)
From Stdlib Require Import ZArith Lia.
From stdpp Require Import base gmap list numbers sorting.
From S2P Require Import Prelude CString.

Local Open Scope Z_scope.

Inductive ctree : Type :=
| CLeaf (a : addr) (s : cstr)
| CNode (byte : nat) (otherbits : Z) (l r : ctree).

(** [struct critbit_tree]'s root: NULL or a tree. *)
Abbreviation critbit_tree := (option ctree).

(** ** The C loops *)

(** [direction = (1 + (q->otherbits | c)) >> 8] with [c] the key's byte at
    [q->byte], or 0 beyond its end. *)
Definition direction (byte : nat) (otherbits : Z) (u : cstr) : Z :=
  let c := if (byte <? length u)%nat then nth byte u 0 else 0 in
  Z.shiftr (1 + Z.lor otherbits c) 8.

(** The descent [while (1 & (intptr_t) p)] to the leaf the key selects. *)
Fixpoint cwalk (t : ctree) (u : cstr) : addr * cstr :=
  match t with
  | CLeaf a s => (a, s)
  | CNode b o l r => if direction b o u =? 0 then cwalk l u else cwalk r u
  end.

Definition tree_contains (t : critbit_tree) (u : cstr) : Z :=
  match t with
  | None => 0
  | Some t => if strcmp u (cwalk t u).2 =? 0 then 1 else 0
  end.

Definition tree_get (t : critbit_tree) (u : cstr) : option addr :=
  match t with
  | None => None
  | Some t => let '(a, s) := cwalk t u in
              if strcmp u s =? 0 then Some a else None
  end.

(** The loop [for (newbyte = 0; newbyte < ulen; ++newbyte)] with [n]
    iterations left: the byte it stops at and the difference found there. *)
Fixpoint diff_scan (p u : cstr) (newbyte n : nat) : nat * option Z :=
  match n with
  | O => (newbyte, None)
  | S n' =>
      if nth newbyte p 0 =? nth newbyte u 0 then diff_scan p u (S newbyte) n'
      else (newbyte, Some (Z.lxor (nth newbyte p 0) (nth newbyte u 0)))
  end.

(** [newbyte] and the raw [newotherbits]; [None] is the [-EEXIST] case. *)
Definition find_diff (p u : cstr) : option (nat * Z) :=
  match diff_scan p u 0 (length u) with
  | (newbyte, Some d) => Some (newbyte, d)
  | (newbyte, None) =>
      if nth newbyte p 0 =? 0 then None else Some (newbyte, nth newbyte p 0)
  end.

(** [while (x & (x - 1)) x &= x - 1;] on a [u32]; each round clears one set
    bit, so 32 rounds are enough. *)
Fixpoint isolate (fuel : nat) (x : Z) : Z :=
  match fuel with
  | O => x
  | S f => if Z.land x (x - 1) =? 0 then x else isolate f (Z.land x (x - 1))
  end.

Definition new_otherbits (raw : Z) : Z := Z.lxor (isolate 32 raw) 255.

Arguments isolate : simpl never.
Arguments new_otherbits : simpl never.
#[global] Strategy 1000 [new_otherbits isolate].

(** The new node with the new element on the side [1 - newdirection]. *)
Definition link_node (newbyte : nat) (otherbits newdirection : Z)
    (t new : ctree) : ctree :=
  if newdirection =? 0 then CNode newbyte otherbits t new
  else CNode newbyte otherbits new t.

(** The second descent: [for (wherep = &tree->root;;)], then the splice. *)
Fixpoint splice (t : ctree) (u : cstr) (newbyte : nat)
    (newotherbits newdirection : Z) (new : ctree) : ctree :=
  match t with
  | CLeaf _ _ => link_node newbyte newotherbits newdirection t new
  | CNode b o l r =>
      if (newbyte <? b)%nat then link_node newbyte newotherbits newdirection t new
      else if (b =? newbyte)%nat && (newotherbits <? o)
      then link_node newbyte newotherbits newdirection t new
      else if direction b o u =? 0
      then CNode b o (splice l u newbyte newotherbits newdirection new) r
      else CNode b o l (splice r u newbyte newotherbits newdirection new)
  end.

(** [__critbit_insert]; [node_ok] is whether [critbit_alloc_node_aligned]
    succeeds, [a] the address of the element. *)
Definition tree_insert (node_ok : bool) (t : critbit_tree) (a : addr)
    (u : cstr) : Z * critbit_tree :=
  match t with
  | None => (0, Some (CLeaf a u))
  | Some t0 =>
      let p := (cwalk t0 u).2 in
      match find_diff p u with
      | None => (- EEXIST, t)
      | Some (newbyte, raw) =>
          let newotherbits := new_otherbits raw in
          let newdirection := Z.shiftr (1 + Z.lor newotherbits (nth newbyte p 0)) 8 in
          if node_ok
          then (0, Some (splice t0 u newbyte newotherbits newdirection (CLeaf a u)))
          else (- ENOMEM, t)
      end
  end.

(** The part of [__critbit_delete] below the root: the leaf the key selects
    is cut out and its parent replaced by the sibling; [None] for a leaf,
    which the caller unlinks from its own slot. *)
Fixpoint prune (t : ctree) (u : cstr) : option ctree :=
  match t with
  | CLeaf _ _ => None
  | CNode b o l r =>
      if direction b o u =? 0
      then match prune l u with Some l' => Some (CNode b o l' r) | None => Some r end
      else match prune r u with Some r' => Some (CNode b o l r') | None => Some l end
  end.

Definition tree_delete (t : critbit_tree) (u : cstr) : Z * critbit_tree :=
  match t with
  | None => (0, None)
  | Some t0 =>
      if strcmp u (cwalk t0 u).2 =? 0 then (0, prune t0 u) else (- ENOENT, t)
  end.

(** ** Keys and critical positions *)

Fixpoint leaves (t : ctree) : list (addr * cstr) :=
  match t with
  | CLeaf a s => [(a, s)]
  | CNode _ _ l r => leaves l ++ leaves r
  end.

Definition keys (t : ctree) : list cstr := (leaves t).*2.

Definition tree_leaves (t : critbit_tree) : list (addr * cstr) :=
  match t with None => [] | Some t => leaves t end.

(** Bit [p] of a string, most significant bit of the first byte first; zero
    beyond the end, as the C loops read it. *)
Definition sbit (s : cstr) (p : nat) : bool :=
  Z.testbit (nth (p / 8) s 0) (7 - Z.of_nat (p mod 8)).

(** A mask with exactly one zero bit. *)
Definition one_cold (o : Z) : Prop := exists k, 0 <= k < 8 /\ o = Z.lxor 255 (2 ^ k).

(** The bit of the byte such a mask singles out, and the position in the
    string it stands for. *)
Definition kbit (o : Z) : Z := Z.log2 (Z.lxor 255 o).

Definition crit_pos (byte : nat) (o : Z) : nat := (8 * byte + Z.to_nat (7 - kbit o))%nat.

Definition agree_upto (n : nat) (s1 s2 : cstr) : Prop :=
  forall p, (p < n)%nat -> sbit s1 p = sbit s2 p.

(** Lower bound on the root's critical position; a leaf has none. *)
Definition root_above (n : nat) (t : ctree) : Prop :=
  match t with CLeaf _ _ => True | CNode b o _ _ => (n < crit_pos b o)%nat end.

Inductive cwf : ctree -> Prop :=
| cwf_leaf a s : cstr_ok s -> cwf (CLeaf a s)
| cwf_node b o l r :
    cwf l -> cwf r -> one_cold o ->
    (forall k, k ∈ keys l -> sbit k (crit_pos b o) = false) ->
    (forall k, k ∈ keys r -> sbit k (crit_pos b o) = true) ->
    (forall k1 k2, k1 ∈ keys l ++ keys r -> k2 ∈ keys l ++ keys r ->
       agree_upto (crit_pos b o) k1 k2) ->
    root_above (crit_pos b o) l -> root_above (crit_pos b o) r ->
    cwf (CNode b o l r).

Definition cwf_tree (t : critbit_tree) : Prop :=
  match t with None => True | Some t => cwf t end.

#[export] Hint Constructors cwf : lana.

(** ** Bit-level lemmas *)

Lemma lxor_255_involutive x : Z.lxor 255 (Z.lxor 255 x) = x.
Proof. by rewrite <- Z.lxor_assoc, Z.lxor_nilpotent, Z.lxor_0_l. Qed.

Lemma one_cold_kbit o : one_cold o -> 0 <= kbit o < 8 /\ o = Z.lxor 255 (2 ^ kbit o).
Proof.
  intros (k & Hk & ->). unfold kbit.
  rewrite lxor_255_involutive, Z.log2_pow2 by lia. done.
Qed.

Lemma one_cold_byte o : one_cold o -> is_byte o.
Proof.
  intros (k & Hk & ->). unfold is_byte.
  pose proof (all_below (fun k => (0 <=? Z.lxor 255 (2 ^ k)) && (Z.lxor 255 (2 ^ k) <? 256))
    8 eq_refl k Hk) as H.
  simpl in H. lia.
Qed.

(** The carry trick: the direction is the key's critical bit. *)
Definition dir_check (k c : Z) : bool :=
  (Z.shiftr (1 + Z.lor (Z.lxor 255 (2 ^ (k mod 8))) c) 8
   =? if Z.testbit c (k mod 8) then 1 else 0).

Lemma carry_is_bit o c :
  one_cold o -> is_byte c ->
  Z.shiftr (1 + Z.lor o c) 8 = if Z.testbit c (kbit o) then 1 else 0.
Proof.
  intros Ho Hc. destruct (one_cold_kbit o Ho) as [Hk Heq].
  rewrite Heq at 1. set (k := kbit o) in *.
  assert (dir_check k c = true) as H.
  { apply (all_bytes2 dir_check); [vm_compute; reflexivity| |done].
    unfold is_byte; lia. }
  unfold dir_check in H. rewrite Z.mod_small in H by lia. by apply Z.eqb_eq.
Qed.

(** Isolating the highest set bit. *)
Definition isolate_check (x : Z) : bool :=
  (x =? 0) || ((isolate 32 x =? 2 ^ Z.log2 x) && (Z.log2 x <? 8)).

Lemma isolate_top x : 0 < x < 256 -> isolate 32 x = 2 ^ Z.log2 x /\ 0 <= Z.log2 x < 8.
Proof.
  intros Hx.
  assert (isolate_check x = true) as H.
  { apply (all_bytes isolate_check); [vm_compute; reflexivity|unfold is_byte; lia]. }
  unfold isolate_check in H. pose proof (Z.log2_nonneg x). lia.
Qed.

Lemma new_otherbits_spec x :
  0 < x < 256 -> one_cold (new_otherbits x) /\ kbit (new_otherbits x) = Z.log2 x.
Proof.
  intros Hx. destruct (isolate_top x Hx) as [Hi Hl].
  unfold new_otherbits, kbit. rewrite Hi, (Z.lxor_comm _ 255).
  split; [by exists (Z.log2 x)|].
  by rewrite lxor_255_involutive, Z.log2_pow2 by lia.
Qed.

Lemma sbit_crit s b o :
  one_cold o -> sbit s (crit_pos b o) = Z.testbit (nth b s 0) (kbit o).
Proof.
  intros Ho. destruct (one_cold_kbit o Ho) as [Hk _].
  unfold sbit, crit_pos.
  set (m := Z.to_nat (7 - kbit o)).
  assert (m < 8)%nat by (subst m; lia).
  rewrite Nat.mul_comm, Nat.div_add_l, Nat.div_small, Nat.add_0_r by lia.
  replace ((b * 8 + m) mod 8)%nat with m
    by (rewrite Nat.add_comm, Nat.Div0.mod_add, Nat.mod_small; lia).
  f_equal. subst m. lia.
Qed.

Lemma direction_sbit b o u :
  one_cold o -> cstr_ok u ->
  direction b o u = if sbit u (crit_pos b o) then 1 else 0.
Proof.
  intros Ho Hu. rewrite sbit_crit by done. unfold direction.
  replace (if (b <? length u)%nat then nth b u 0 else 0) with (nth b u 0).
  - apply carry_is_bit; eauto with lana.
  - case_bool; [done|]. apply nth_ge. lia.
Qed.

(** The comparison of the second descent is the order of positions. *)
Lemma crit_pos_lt b1 o1 b2 o2 :
  one_cold o1 -> one_cold o2 ->
  (crit_pos b1 o1 < crit_pos b2 o2)%nat <-> (b1 < b2)%nat \/ (b2 = b1 /\ o1 < o2).
Proof.
  intros H1 H2.
  destruct (one_cold_kbit o1 H1) as [Hk1 E1], (one_cold_kbit o2 H2) as [Hk2 E2].
  unfold crit_pos.
  assert (o1 < o2 <-> kbit o2 < kbit o1) as Ho; [|lia].
  rewrite E1, E2 at 1. revert Hk1 Hk2. generalize (kbit o1) (kbit o2).
  intros x y Hx Hy.
  pose proof (all_below (fun x => forallb (fun y =>
    Bool.eqb (Z.lxor 255 (2 ^ x) <? Z.lxor 255 (2 ^ y)) (y <? x)) (below 8))
    8 eq_refl x Hx) as H.
  pose proof (all_below _ 8 H y Hy) as H'. simpl in H'.
  apply eqb_prop in H'. lia.
Qed.

Lemma crit_pos_inj b1 o1 b2 o2 :
  one_cold o1 -> one_cold o2 -> crit_pos b1 o1 = crit_pos b2 o2 -> b1 = b2 /\ o1 = o2.
Proof.
  intros H1 H2 E. pose proof (crit_pos_lt b1 o1 b2 o2 H1 H2).
  pose proof (crit_pos_lt b2 o2 b1 o1 H2 H1). lia.
Qed.

(** ** The first difference of two strings *)

Lemma diff_scan_spec p u n : forall i,
  match diff_scan p u i n with
  | (j, Some d) => (i <= j < i + n)%nat /\ nth j p 0 <> nth j u 0 /\
                   d = Z.lxor (nth j p 0) (nth j u 0) /\
                   (forall m, (i <= m < j)%nat -> nth m p 0 = nth m u 0)
  | (j, None) => j = (i + n)%nat /\ (forall m, (i <= m < j)%nat -> nth m p 0 = nth m u 0)
  end.
Proof.
  induction n as [|n IH]; intros i; simpl.
  { split; [lia|]. intros; lia. }
  case_bool; [|repeat split; try lia; done].
  specialize (IH (S i)). destruct (diff_scan p u (S i) n) as [j [d|]].
  - destruct IH as (? & ? & ? & Hm). repeat split; try lia; try done.
    intros m Hmj. destruct (decide (m = i)) as [->|]; [done|]. apply Hm; lia.
  - destruct IH as (? & Hm). split; [lia|].
    intros m Hmj. destruct (decide (m = i)) as [->|]; [done|]. apply Hm; lia.
Qed.

Lemma find_diff_some p u nb raw :
  find_diff p u = Some (nb, raw) ->
  nth nb p 0 <> nth nb u 0 /\ raw = Z.lxor (nth nb p 0) (nth nb u 0) /\
  (forall m, (m < nb)%nat -> nth m p 0 = nth m u 0).
Proof.
  unfold find_diff. pose proof (diff_scan_spec p u (length u) 0) as H.
  destruct (diff_scan p u 0 (length u)) as [j [d|]].
  - intros [= <- <-]. destruct H as (? & ? & ? & Hm). repeat split; try done.
    intros; apply Hm; lia.
  - destruct H as [-> Hm]. case_bool; [done|]. intros [= <- <-].
    rewrite (nth_ge u) by lia. rewrite Z.lxor_0_r. repeat split; try done.
    intros; apply Hm; lia.
Qed.

Lemma find_diff_none p u : cstr_ok p -> cstr_ok u -> find_diff p u = None <-> p = u.
Proof.
  intros Hp Hu. split.
  - unfold find_diff. pose proof (diff_scan_spec p u (length u) 0) as H.
    destruct (diff_scan p u 0 (length u)) as [j [d|]]; [done|].
    destruct H as [-> Hm]. case_bool; [|done]. intros _. simpl in *.
    assert (length p = length u) as Hl.
    { destruct (Nat.lt_trichotomy (length p) (length u)) as [?|[?|?]]; [|done|].
      - pose proof (cstr_ok_lookup u (length p) Hu ltac:(lia)) as Hx.
        rewrite <- Hm in Hx by lia. rewrite nth_ge in Hx by lia. lia.
      - pose proof (cstr_ok_lookup p (length u) Hp ltac:(lia)). lia. }
    apply (nth_ext _ _ 0 0); [done|]. intros; apply Hm; lia.
  - intros ->. destruct (find_diff u u) as [[nb raw]|] eqn:E; [|done].
    apply find_diff_some in E as [? _]. done.
Qed.

Lemma lxor_byte x y : is_byte x -> is_byte y -> is_byte (Z.lxor x y).
Proof.
  intros Hx Hy. unfold is_byte in *.
  assert (0 <= Z.lxor x y) by (apply Z.lxor_nonneg; lia).
  split; [done|]. destruct (decide (Z.lxor x y = 0)); [lia|].
  apply (Z.log2_lt_pow2 _ 8); [lia|].
  eapply Z.le_lt_trans; [apply Z.log2_lxor; lia|].
  apply Z.max_lub_lt; destruct (decide (x = 0)), (decide (y = 0)); subst; simpl;
    try lia; apply Z.log2_lt_pow2; lia.
Qed.

Lemma lxor_pos x y : is_byte x -> is_byte y -> x <> y -> 0 < Z.lxor x y < 256.
Proof.
  intros Hx Hy Hne. pose proof (lxor_byte x y Hx Hy) as H. unfold is_byte in H.
  assert (Z.lxor x y <> 0); [intros ?%Z.lxor_eq; done|]. lia.
Qed.

Lemma testbit_log2_lxor x y :
  0 < Z.lxor x y -> Z.testbit x (Z.log2 (Z.lxor x y)) <> Z.testbit y (Z.log2 (Z.lxor x y)).
Proof.
  intros H. pose proof (Z.bit_log2 (Z.lxor x y) H) as Hb.
  rewrite Z.lxor_spec in Hb. by destruct (Z.testbit x _), (Z.testbit y _).
Qed.

Lemma testbit_above_log2_lxor x y j :
  0 < Z.lxor x y -> Z.log2 (Z.lxor x y) < j -> Z.testbit x j = Z.testbit y j.
Proof.
  intros H Hj. assert (Z.testbit (Z.lxor x y) j = false) as Hb
    by (apply Z.bits_above_log2; lia).
  rewrite Z.lxor_spec in Hb. by destruct (Z.testbit x _), (Z.testbit y _).
Qed.

(** The position [__critbit_insert] computes is the first bit in which the
    new key and the selected leaf differ. *)
Lemma find_diff_crit p u nb raw :
  cstr_ok p -> cstr_ok u -> find_diff p u = Some (nb, raw) ->
  one_cold (new_otherbits raw) /\
  agree_upto (crit_pos nb (new_otherbits raw)) p u /\
  sbit p (crit_pos nb (new_otherbits raw)) <> sbit u (crit_pos nb (new_otherbits raw)).
Proof.
  intros Hp Hu (Hne & -> & Hm)%find_diff_some.
  set (x := nth nb p 0) in *. set (y := nth nb u 0) in *.
  pose proof (lxor_pos x y (cstr_ok_nth_byte p nb Hp) (cstr_ok_nth_byte u nb Hu) Hne) as Hx.
  destruct (new_otherbits_spec _ Hx) as [Hoc Hk].
  split; [done|]. split; cycle 1.
  { rewrite !sbit_crit by done. fold x y. rewrite Hk. apply testbit_log2_lxor. lia. }
  intros q Hq. unfold crit_pos in Hq.
  rewrite Hk in Hq. unfold sbit.
  pose proof (Nat.div_mod_eq q 8). pose proof (Nat.mod_upper_bound q 8).
  destruct (decide (q / 8 < nb)%nat) as [Hlt|Hge]; [by rewrite Hm|].
  destruct (isolate_top _ Hx) as [_ Hl].
  assert (q / 8 = nb)%nat as Hnb by lia. rewrite Hnb. fold x y.
  apply testbit_above_log2_lxor; lia.
Qed.

(** ** Walking *)

Lemma keys_node b o l r : keys (CNode b o l r) = keys l ++ keys r.
Proof. unfold keys. simpl. by rewrite fmap_app. Qed.

Lemma keys_leaf a s : keys (CLeaf a s) = [s].
Proof. done. Qed.

Lemma leaf_key t a s : (a, s) ∈ leaves t -> s ∈ keys t.
Proof. intros H. unfold keys. apply list_elem_of_fmap. by exists (a, s). Qed.

Lemma key_leaf t s : s ∈ keys t -> exists a, (a, s) ∈ leaves t.
Proof. unfold keys. intros ([a s'] & -> & H)%list_elem_of_fmap. eauto. Qed.

#[export] Hint Rewrite keys_node keys_leaf (@elem_of_app cstr) (@list_elem_of_singleton cstr) : keys.

Lemma cwalk_leaf t u : cwalk t u ∈ leaves t.
Proof.
  induction t as [a s|b o l IHl r IHr]; simpl; [set_solver|].
  case_bool; set_solver.
Qed.

Lemma cwalk_key t u : (cwalk t u).2 ∈ keys t.
Proof. unfold keys. apply list_elem_of_fmap. eauto using cwalk_leaf. Qed.

Lemma cwf_keys_ok t s : cwf t -> s ∈ keys t -> cstr_ok s.
Proof.
  induction 1; autorewrite with keys; [by intros ->|]. intros [?|?]; auto.
Qed.

Lemma cwalk_ok t u : cwf t -> cstr_ok (cwalk t u).2.
Proof. intros H. eapply cwf_keys_ok; [done|apply cwalk_key]. Qed.

(** One step of a descent, in terms of the key's critical bit. *)
Lemma direction_0 b o u :
  one_cold o -> cstr_ok u -> (direction b o u =? 0) = negb (sbit u (crit_pos b o)).
Proof. intros. rewrite direction_sbit by done. by destruct (sbit _ _). Qed.

Lemma cwalk_node b o l r u :
  one_cold o -> cstr_ok u ->
  cwalk (CNode b o l r) u = if sbit u (crit_pos b o) then cwalk r u else cwalk l u.
Proof. intros. simpl. rewrite direction_0 by done. by destruct (sbit _ _). Qed.

(** A stored key leads to its own leaf. *)
Lemma cwalk_stored t a s : cwf t -> (a, s) ∈ leaves t -> cwalk t s = (a, s).
Proof.
  induction 1 as [b s' Hs|b o l r Hl IHl Hr IHr Ho Hkl Hkr Hag Hal Har]; intros Hin.
  { simpl in *. by apply list_elem_of_singleton in Hin as [= -> ->]. }
  assert (cstr_ok s) as Hs.
  { apply (cwf_keys_ok (CNode b o l r)); [by apply cwf_node|]. by eapply leaf_key. }
  rewrite cwalk_node by done. simpl in Hin. apply elem_of_app in Hin as [Hin|Hin].
  - rewrite (Hkl s) by (by eapply leaf_key). auto.
  - rewrite (Hkr s) by (by eapply leaf_key). auto.
Qed.

Lemma cwalk_same_bit b o l r u :
  cwf (CNode b o l r) -> cstr_ok u ->
  sbit (cwalk (CNode b o l r) u).2 (crit_pos b o) = sbit u (crit_pos b o).
Proof.
  inversion 1; subst. intros Hu. rewrite cwalk_node by done.
  destruct (sbit u (crit_pos b o)); eauto using cwalk_key.
Qed.

(** ** Insertion *)

Lemma agree_upto_trans n s1 s2 s3 :
  agree_upto n s1 s2 -> agree_upto n s2 s3 -> agree_upto n s1 s3.
Proof. intros H1 H2 p Hp. by rewrite H1, H2. Qed.

Lemma agree_upto_sym n s1 s2 : agree_upto n s1 s2 -> agree_upto n s2 s1.
Proof. intros H p Hp. by rewrite H. Qed.

Lemma agree_upto_le n m s1 s2 : (n <= m)%nat -> agree_upto m s1 s2 -> agree_upto n s1 s2.
Proof. intros Hle H p Hp. apply H. lia. Qed.

(** Keys below a root that tests a later position agree at this one. *)
Lemma agree_below t n k1 k2 :
  cwf t -> root_above n t -> k1 ∈ keys t -> k2 ∈ keys t -> agree_upto (S n) k1 k2.
Proof.
  intros Hwf Hra H1 H2. inversion Hwf; subst.
  - autorewrite with keys in *. by subst.
  - rewrite keys_node in *. simpl in Hra. eapply agree_upto_le; [|eauto]. lia.
Qed.

Section link.
Context (t : ctree) (a : addr) (u p : cstr) (nb : nat) (o : Z).
Let d := crit_pos nb o.
Context (Hwf : cwf t) (Hu : cstr_ok u) (Hp : p ∈ keys t) (Ho : one_cold o).
Context (Hag : agree_upto d p u) (Hne : sbit p d <> sbit u d).

Lemma link_agree k1 k2 :
  root_above d t -> (k1 = u \/ k1 ∈ keys t) -> (k2 = u \/ k2 ∈ keys t) ->
  agree_upto d k1 k2.
Proof.
  intros Hra.
  assert (forall k, k = u \/ k ∈ keys t -> agree_upto d p k) as Hk.
  { intros k [->|Hin]; [done|].
    eapply agree_upto_le; [|by eapply (agree_below t d)]. lia. }
  intros H1 H2. eapply agree_upto_trans; [by apply agree_upto_sym, Hk|by apply Hk].
Qed.

Lemma link_bit k : root_above d t -> k ∈ keys t -> sbit k d = sbit p d.
Proof. intros Hra Hin. eapply (agree_below t d); eauto. Qed.

Lemma link_cwf :
  root_above d t ->
  cwf (link_node nb o (if sbit p d then 1 else 0) t (CLeaf a u)).
Proof.
  intros Hra. unfold link_node. destruct (sbit p d) eqn:E; simpl;
    apply cwf_node; try done; try (by constructor); fold d;
    try (intros k; autorewrite with keys; intros ->; by destruct (sbit u d));
    try (intros k Hk; rewrite (link_bit k Hra Hk); done);
    intros k1 k2; autorewrite with keys; intros H1 H2; apply link_agree; tauto.
Qed.
End link.

Lemma link_leaves nb o nd t a u : leaves (link_node nb o nd t (CLeaf a u)) ≡ₚ (a, u) :: leaves t.
Proof.
  unfold link_node. case_bool; simpl; [|done].
  by rewrite (Permutation_app_comm (leaves t)).
Qed.

Lemma link_root_above n nb o nd t new :
  (n < crit_pos nb o)%nat -> root_above n (link_node nb o nd t new).
Proof. unfold link_node. by case_bool. Qed.

(** The stop test of the second descent. *)
Lemma splice_stop b o nb no :
  one_cold o -> one_cold no ->
  ((nb <? b)%nat || (b =? nb)%nat && (no <? o)) = bool_decide (crit_pos nb no < crit_pos b o)%nat.
Proof.
  intros H1 H2. pose proof (crit_pos_lt nb no b o H2 H1).
  case_bool_decide; destruct (Nat.ltb_spec nb b), (Nat.eqb_spec b nb), (Z.ltb_spec no o);
    simpl; try done; lia.
Qed.

Lemma splice_node b o l r u nb no nd new :
  one_cold o -> one_cold no -> cstr_ok u ->
  splice (CNode b o l r) u nb no nd new =
    if decide (crit_pos nb no < crit_pos b o)%nat then link_node nb no nd (CNode b o l r) new
    else if sbit u (crit_pos b o) then CNode b o l (splice r u nb no nd new)
    else CNode b o (splice l u nb no nd new) r.
Proof.
  intros H1 H2 Hu. pose proof (splice_stop b o nb no H1 H2) as Hs.
  simpl. rewrite direction_0 by done.
  destruct (nb <? b)%nat, ((b =? nb)%nat && (no <? o)); simpl in Hs;
    case_decide; case_bool_decide; try done; by destruct (sbit _ _).
Qed.

(** A node stays well formed when a key that takes one of its sides is added
    on that side. *)
Section grow.
Context (b : nat) (o : Z) (l r : ctree) (u q : cstr).
Context (Hwf : cwf (CNode b o l r)) (Hq : q ∈ keys l ++ keys r).
Context (Hag : agree_upto (crit_pos b o) q u).

Lemma grow_agree k1 k2 :
  (k1 = u \/ k1 ∈ keys l ++ keys r) -> (k2 = u \/ k2 ∈ keys l ++ keys r) ->
  agree_upto (crit_pos b o) k1 k2.
Proof.
  assert (forall k, k = u \/ k ∈ keys l ++ keys r -> agree_upto (crit_pos b o) q k) as Hk.
  { inversion Hwf; subst. intros k [->|?]; auto. }
  intros H1 H2. eapply agree_upto_trans; [by apply agree_upto_sym, Hk|by apply Hk].
Qed.

Lemma grow_right r' :
  cwf r' -> (forall k, k ∈ keys r' <-> k = u \/ k ∈ keys r) ->
  sbit u (crit_pos b o) = true -> root_above (crit_pos b o) r' -> cwf (CNode b o l r').
Proof.
  intros Hr' Hk Hb Hra. inversion Hwf; subst. apply cwf_node; try done.
  - intros k [->|?]%Hk; auto.
  - intros k1 k2. rewrite !elem_of_app, !Hk. intros.
    apply grow_agree; rewrite elem_of_app; tauto.
Qed.

Lemma grow_left l' :
  cwf l' -> (forall k, k ∈ keys l' <-> k = u \/ k ∈ keys l) ->
  sbit u (crit_pos b o) = false -> root_above (crit_pos b o) l' -> cwf (CNode b o l' r).
Proof.
  intros Hl' Hk Hb Hra. inversion Hwf; subst. apply cwf_node; try done.
  - intros k [->|?]%Hk; auto.
  - intros k1 k2. rewrite !elem_of_app, !Hk. intros.
    apply grow_agree; rewrite elem_of_app; tauto.
Qed.
End grow.

Lemma keys_perm_cons t t' a u k :
  leaves t' ≡ₚ (a, u) :: leaves t -> k ∈ keys t' <-> k = u \/ k ∈ keys t.
Proof. intros H. unfold keys. rewrite H. simpl. apply elem_of_cons. Qed.

(** Splicing the new leaf in at the first differing bit keeps the invariant
    and adds exactly that leaf. *)
Lemma splice_correct t a u nb o :
  let d := crit_pos nb o in
  let p := (cwalk t u).2 in
  cwf t -> cstr_ok u -> one_cold o -> agree_upto d p u -> sbit p d <> sbit u d ->
  let t' := splice t u nb o (if sbit p d then 1 else 0) (CLeaf a u) in
  cwf t' /\ leaves t' ≡ₚ (a, u) :: leaves t /\
  (forall n, root_above n t -> (n < d)%nat -> root_above n t').
Proof.
  intros d p Hwf Hu Ho. subst p. induction t as [b s|b o' l IHl r IHr]; intros Hag Hne.
  { simpl in *. split_and!; [|apply link_leaves|].
    - apply (link_cwf (CLeaf b s) a u s); try done. by rewrite keys_leaf, list_elem_of_singleton.
    - intros n _ Hn. by apply link_root_above. }
  pose proof (cwalk_same_bit b o' l r u Hwf Hu) as Hsame.
  pose proof (cwalk_key (CNode b o' l r) u) as Hq. rewrite keys_node in Hq.
  pose proof Hwf as Hwf'.
  inversion Hwf' as [|? ? ? ? Hl Hr Ho' Hkl Hkr Hag' Hal Har]; subst; clear Hwf'.
  rewrite splice_node by done. rewrite cwalk_node in * by done.
  destruct (decide (crit_pos nb o < crit_pos b o')%nat) as [Hlt|Hge].
  { split_and!; [|apply link_leaves|].
    - eapply link_cwf; try done. by rewrite keys_node.
    - intros n _ Hn. by apply link_root_above. }
  assert (crit_pos b o' < d)%nat as Hltd.
  { destruct (decide (crit_pos b o' = d)) as [E|]; [|subst d; lia].
    exfalso. apply Hne. by rewrite <- E. }
  assert (agree_upto (crit_pos b o') (if sbit u (crit_pos b o') then cwalk r u else cwalk l u).2 u)
    as Hag2 by (eapply agree_upto_le; [|done]; lia).
  destruct (sbit u (crit_pos b o')) eqn:Eu.
  - destruct (IHr Hr Hag Hne) as (Hw & Hlv & Hra). split_and!; [..|by intros].
    + apply (grow_right b o' l r u _ Hwf Hq Hag2); auto. intros k. by eapply keys_perm_cons.
    + simpl. rewrite Hlv. by rewrite Permutation_middle.
  - destruct (IHl Hl Hag Hne) as (Hw & Hlv & Hra). split_and!; [..|by intros].
    + apply (grow_left b o' l r u _ Hwf Hq Hag2); auto. intros k. by eapply keys_perm_cons.
    + simpl. by rewrite Hlv.
Qed.

(** ** Deletion *)

(** A node stays well formed when a side loses keys. *)
Lemma shrink_node b o l r l' r' :
  cwf (CNode b o l r) -> cwf l' -> cwf r' -> keys l' ⊆ keys l -> keys r' ⊆ keys r ->
  root_above (crit_pos b o) l' -> root_above (crit_pos b o) r' -> cwf (CNode b o l' r').
Proof.
  intros Hwf Hl' Hr' Hsl Hsr Hal Har. inversion Hwf; subst. apply cwf_node; try done; auto.
  intros k1 k2 Hk1%elem_of_app Hk2%elem_of_app.
  match goal with H : forall k1 k2, _ -> _ -> agree_upto _ _ _ |- _ => apply H end;
    apply elem_of_app; [destruct Hk1|destruct Hk2]; auto.
Qed.

Lemma root_above_trans n b o t : root_above (crit_pos b o) t -> (n < crit_pos b o)%nat -> root_above n t.
Proof. destruct t; simpl; [done|lia]. Qed.

Lemma keys_subset t t' x : leaves t ≡ₚ x :: leaves t' -> keys t' ⊆ keys t.
Proof. intros H k Hk. unfold keys. rewrite H. by apply elem_of_cons; right. Qed.

Lemma prune_correct t u :
  cwf t -> cstr_ok u ->
  match prune t u with
  | None => exists a s, t = CLeaf a s
  | Some t' => cwf t' /\ leaves t ≡ₚ cwalk t u :: leaves t' /\
               forall n, root_above n t -> root_above n t'
  end.
Proof.
  intros Hwf Hu. induction t as [a s|b o l IHl r IHr]; [simpl; eauto|].
  pose proof Hwf as Hwf'.
  inversion Hwf' as [|? ? ? ? Hl Hr Ho Hkl Hkr Hag Hal Har]; subst; clear Hwf'.
  specialize (IHl Hl). specialize (IHr Hr). simpl prune. rewrite cwalk_node by done.
  rewrite direction_0 by done. destruct (sbit u (crit_pos b o)); simpl.
  - destruct (prune r u) as [r'|].
    + destruct IHr as (Hw & Hlv & Hra). split_and!; [|by rewrite Hlv, <- Permutation_middle|done].
      eapply shrink_node; eauto using keys_subset.
    + destruct IHr as (a & s & ->). split_and!; [done|simpl|eauto using root_above_trans].
      by rewrite Permutation_app_comm.
  - destruct (prune l u) as [l'|].
    + destruct IHl as (Hw & Hlv & Hra). split_and!; [|by rewrite Hlv|done].
      eapply shrink_node; eauto using keys_subset.
    + destruct IHl as (a & s & ->). split_and!; [done|done|eauto using root_above_trans].
Qed.

(** ** The finite map a tree stands for *)

Lemma cwf_NoDup t : cwf t -> NoDup (keys t).
Proof.
  induction 1 as [|b o l r Hl IHl Hr IHr Ho Hkl Hkr]; [apply NoDup_singleton|].
  rewrite keys_node. apply NoDup_app. split_and!; try done.
  intros k Hk1 Hk2. pose proof (Hkl k Hk1). pose proof (Hkr k Hk2). congruence.
Qed.

Definition tree_map (t : critbit_tree) : gmap cstr addr :=
  list_to_map ((fun x => (x.2, x.1)) <$> tree_leaves t).

Lemma tree_leaves_NoDup t :
  cwf_tree t -> NoDup (((fun x : addr * cstr => (x.2, x.1)) <$> tree_leaves t).*1).
Proof.
  intros H. rewrite <- list_fmap_compose. destruct t as [t|]; [|constructor].
  apply cwf_NoDup in H. done.
Qed.

Lemma tree_map_Some t u a :
  cwf_tree t -> tree_map t !! u = Some a <-> (a, u) ∈ tree_leaves t.
Proof.
  intros H. unfold tree_map. rewrite <- elem_of_list_to_map by (by apply tree_leaves_NoDup).
  rewrite list_elem_of_fmap. split.
  - intros ([a' u'] & [= -> ->] & Hin). done.
  - intros Hin. by exists (a, u).
Qed.

Lemma tree_map_None t u :
  cwf_tree t -> tree_map t !! u = None <-> forall a, (a, u) ∉ tree_leaves t.
Proof.
  intros H. rewrite eq_None_not_Some. split.
  - intros Hn a Hin. apply Hn. exists a. by apply tree_map_Some.
  - intros Hn [a Ha]. apply tree_map_Some in Ha; [|done]. by eapply Hn.
Qed.

Lemma tree_map_perm t t' :
  cwf_tree t -> tree_leaves t ≡ₚ tree_leaves t' -> tree_map t = tree_map t'.
Proof.
  intros H Hp. unfold tree_map. apply list_to_map_proper; [by apply tree_leaves_NoDup|].
  by apply fmap_Permutation.
Qed.

Lemma tree_map_cons t t' a u :
  cwf_tree t' -> tree_leaves t' ≡ₚ (a, u) :: tree_leaves t -> tree_map t' = <[u := a]> (tree_map t).
Proof.
  intros H Hp. unfold tree_map at 1.
  erewrite list_to_map_proper; [|by apply tree_leaves_NoDup|by apply fmap_Permutation].
  done.
Qed.

(** ** The operations as operations on the map *)

Lemma tree_get_spec t u :
  cwf_tree t -> cstr_ok u -> tree_get t u = tree_map t !! u.
Proof.
  intros Hwf Hu. destruct t as [t|]; [|done]. unfold tree_get.
  destruct (cwalk t u) as [a s] eqn:E. pose proof (cwalk_leaf t u) as Hin. rewrite E in Hin.
  case_bool.
  - assert (u = s) as -> by (by apply strcmp_0). symmetry. by apply tree_map_Some.
  - symmetry. apply tree_map_None; [done|]. intros a' Hin'. simpl in *.
    pose proof (cwalk_stored t a' u Hwf Hin') as E'. rewrite E in E'. injection E' as -> ->.
    rewrite strcmp_refl in *. done.
Qed.

Lemma tree_contains_get t u :
  tree_contains t u = match tree_get t u with Some _ => 1 | None => 0 end.
Proof.
  destruct t as [t|]; [|done]. unfold tree_contains, tree_get.
  destruct (cwalk t u) as [a s]. simpl. by case_bool.
Qed.

Lemma insert_some_spec t a u :
  cwf t -> cstr_ok u ->
  (tree_map (Some t) !! u = None /\
   exists t', tree_insert true (Some t) a u = (0, Some t') /\
     tree_insert false (Some t) a u = (- ENOMEM, Some t) /\
     cwf t' /\ leaves t' ≡ₚ (a, u) :: leaves t) \/
  (is_Some (tree_map (Some t) !! u) /\
   forall ok, tree_insert ok (Some t) a u = (- EEXIST, Some t)).
Proof.
  intros Hwf Hu. rewrite <- tree_get_spec by done.
  pose proof (cwalk_ok t u Hwf) as Hp.
  unfold tree_insert, tree_get. destruct (cwalk t u) as [b p] eqn:Ew. simpl in *.
  destruct (find_diff p u) as [[nb raw]|] eqn:E.
  - left. destruct (find_diff_crit p u nb raw Hp Hu E) as (Ho & Hag & Hne).
    split.
    { case_bool; [|done]. assert (u = p) as -> by (by apply strcmp_0). done. }
    pose proof (splice_correct t a u nb (new_otherbits raw)) as H. rewrite Ew in H. simpl in H.
    destruct (H Hwf Hu Ho Hag Hne) as (Hw & Hlv & _). eexists. split_and!; [|done|exact Hw|done].
    rewrite carry_is_bit by eauto with lana. by rewrite <- sbit_crit.
  - right. apply find_diff_none in E as ->; [|done..]. rewrite strcmp_refl. simpl. eauto.
Qed.

Definition insert_spec (ok : bool) (m : gmap cstr addr) (a : addr) (u : cstr) :
    Z * gmap cstr addr :=
  match m !! u with
  | Some _ => (- EEXIST, m)
  | None => if ok || bool_decide (m = ∅) then (0, <[u := a]> m) else (- ENOMEM, m)
  end.

Definition delete_spec (m : gmap cstr addr) (u : cstr) : Z * gmap cstr addr :=
  match m !! u with
  | Some _ => (0, delete u m)
  | None => (if bool_decide (m = ∅) then 0 else - ENOENT, m)
  end.

Lemma tree_map_empty t : cwf_tree t -> tree_map t = ∅ <-> t = None.
Proof.
  intros Hwf. split; [|by intros ->]. destruct t as [t|]; [|done]. intros H.
  destruct (cwalk t []) as [a s] eqn:E. pose proof (cwalk_leaf t []) as Hin. rewrite E in Hin.
  apply (tree_map_Some (Some t)) in Hin; [|done]. by rewrite H in Hin.
Qed.

Lemma tree_insert_spec ok t a u :
  cwf_tree t -> cstr_ok u ->
  cwf_tree (tree_insert ok t a u).2 /\
  ((tree_insert ok t a u).1, tree_map (tree_insert ok t a u).2)
    = insert_spec ok (tree_map t) a u.
Proof.
  intros Hwf Hu. unfold insert_spec. destruct t as [t|].
  - assert (tree_map (Some t) <> ∅) as Hne by (by rewrite tree_map_empty).
    rewrite (bool_decide_false _ Hne).
    destruct (insert_some_spec t a u Hwf Hu) as [(Hn & t' & Ht & Hf & Hw & Hlv)|[[x Hx] He]].
    + rewrite Hn. destruct ok; [rewrite Ht|rewrite Hf]; simpl; (split; [done|]); [|done].
      f_equal. by apply tree_map_cons.
    + by rewrite He, Hx.
  - simpl. split; [by constructor|]. by destruct ok.
Qed.

Lemma tree_delete_spec t u :
  cwf_tree t -> cstr_ok u ->
  cwf_tree (tree_delete t u).2 /\
  ((tree_delete t u).1, tree_map (tree_delete t u).2) = delete_spec (tree_map t) u.
Proof.
  intros Hwf Hu. unfold delete_spec. destruct t as [t|]; [|done].
  assert (tree_map (Some t) <> ∅) as Hne by (by rewrite tree_map_empty).
  rewrite (bool_decide_false _ Hne), <- tree_get_spec by done.
  unfold tree_delete, tree_get. pose proof (cwalk_leaf t u) as Hin.
  pose proof (prune_correct t u Hwf Hu) as Hpr.
  destruct (cwalk t u) as [a s] eqn:Ew. simpl. case_bool; [|done].
  assert (u = s) as <- by (by apply strcmp_0). simpl.
  destruct (prune t u) as [t'|].
  - destruct Hpr as (Hw & Hlv & _). split; [done|]. f_equal.
    rewrite (tree_map_cons (Some t') (Some t) a u) by done. rewrite delete_insert_id; [done|].
    apply tree_map_None; [done|]. intros b Hb. pose proof (cwf_NoDup t Hwf) as Hnd.
    unfold keys in Hnd. rewrite Hlv in Hnd. simpl in Hnd. apply NoDup_cons in Hnd as [Hnd _].
    apply Hnd, list_elem_of_fmap. by exists (b, u).
  - destruct Hpr as (b & s' & ->). split; [done|]. f_equal. simpl in *. injection Ew as -> ->.
    unfold tree_map. simpl. by rewrite insert_empty, delete_singleton_eq.
Qed.

(** ** The tree is determined by its contents *)

Lemma leaves_inhabited t : exists x, x ∈ leaves t.
Proof. exists (cwalk t []). apply cwalk_leaf. Qed.

Lemma keys_inhabited t : exists k, k ∈ keys t.
Proof. exists (cwalk t []).2. apply cwalk_key. Qed.

(** A node's position is not later than any position at which two of its
    keys differ, and two of its keys differ there. *)
Lemma crit_pos_le b o l r b' o' l' r' :
  cwf (CNode b o l r) -> cwf (CNode b' o' l' r') ->
  (forall k, k ∈ keys (CNode b o l r) <-> k ∈ keys (CNode b' o' l' r')) ->
  (crit_pos b' o' <= crit_pos b o)%nat.
Proof.
  intros H1 H2 Hk. inversion H1 as [|? ? ? ? Hl Hr Ho Hkl Hkr]; subst.
  inversion H2 as [|? ? ? ? ? ? ? ? ? Hag]; subst.
  destruct (keys_inhabited l) as [x Hx], (keys_inhabited r) as [y Hy].
  apply Nat.le_ngt. intros Hlt.
  assert (agree_upto (crit_pos b' o') x y) as Hxy.
  { apply Hag; rewrite <- (keys_node b' o'); apply Hk; rewrite keys_node; apply elem_of_app; auto. }
  specialize (Hxy _ Hlt). rewrite (Hkl x Hx), (Hkr y Hy) in Hxy. done.
Qed.

Definition side (pos : nat) (bit : bool) (x : addr * cstr) : Prop := sbit x.2 pos = bit.

#[export] Instance side_dec pos bit x : Decision (side pos bit x).
Proof. unfold side. apply _. Defined.

Lemma filter_all {A} (P : A -> Prop) `{!forall x, Decision (P x)} (l : list A) :
  (forall x, x ∈ l -> P x) -> filter P l = l.
Proof.
  induction l as [|x l IH]; intros Hl; [done|].
  rewrite filter_cons_True by (apply Hl; set_solver). f_equal. apply IH. set_solver.
Qed.

Lemma filter_none {A} (P : A -> Prop) `{!forall x, Decision (P x)} (l : list A) :
  (forall x, x ∈ l -> ¬ P x) -> filter P l = [].
Proof.
  induction l as [|x l IH]; intros Hl; [done|].
  rewrite filter_cons_False by (apply Hl; set_solver). apply IH. set_solver.
Qed.

Lemma filter_side b o l r bit :
  cwf (CNode b o l r) ->
  filter (side (crit_pos b o) bit) (leaves (CNode b o l r)) = leaves (if bit then r else l).
Proof.
  inversion 1 as [|? ? ? ? Hl Hr Ho Hkl Hkr]; subst. simpl.
  assert (forall x, x ∈ leaves l -> sbit x.2 (crit_pos b o) = false) as Hl0.
  { intros [a s] Hin. apply Hkl. by eapply leaf_key. }
  assert (forall x, x ∈ leaves r -> sbit x.2 (crit_pos b o) = true) as Hr1.
  { intros [a s] Hin. apply Hkr. by eapply leaf_key. }
  rewrite filter_app. unfold side. destruct bit.
  - rewrite (filter_none _ (leaves l)), (filter_all _ (leaves r)); [done|auto|].
    intros x Hx. rewrite Hl0 by done. done.
  - rewrite (filter_all _ (leaves l)), (filter_none _ (leaves r)); [apply app_nil_r| |auto].
    intros x Hx. rewrite Hr1 by done. done.
Qed.

Lemma leaves_length_node b o l r : (2 <= length (leaves (CNode b o l r)))%nat.
Proof.
  simpl. rewrite length_app.
  destruct (leaves_inhabited l) as [x Hx], (leaves_inhabited r) as [y Hy].
  destruct (leaves l); [by apply not_elem_of_nil in Hx|].
  destruct (leaves r); [by apply not_elem_of_nil in Hy|]. simpl. lia.
Qed.

Lemma cwf_unique t1 : forall t2, cwf t1 -> cwf t2 -> leaves t1 ≡ₚ leaves t2 -> t1 = t2.
Proof.
  induction t1 as [a s|b o l IHl r IHr]; intros [a' s'|b' o' l' r'] H1 H2 Hp.
  - simpl in Hp. apply Permutation_singleton_r in Hp. by injection Hp as -> ->.
  - apply Permutation_length in Hp. pose proof (leaves_length_node b' o' l' r').
    simpl in *. lia.
  - apply Permutation_length in Hp. pose proof (leaves_length_node b o l r).
    simpl in *. lia.
  - assert (forall k, k ∈ keys (CNode b o l r) <-> k ∈ keys (CNode b' o' l' r')) as Hk.
    { intros k. unfold keys. by rewrite Hp. }
    pose proof (crit_pos_le _ _ _ _ _ _ _ _ H1 H2 Hk) as Hle1.
    pose proof (crit_pos_le _ _ _ _ _ _ _ _ H2 H1 ltac:(intros; symmetry; auto)) as Hle2.
    assert (forall bit, leaves (if bit : bool then r else l) ≡ₚ leaves (if bit then r' else l')) as Hs.
    { intros bit. rewrite <- (filter_side b o l r bit H1), <- (filter_side b' o' l' r' bit H2).
      replace (crit_pos b' o') with (crit_pos b o) by lia. by rewrite Hp. }
    pose proof (Hs true) as Hsr. pose proof (Hs false) as Hsl. simpl in Hsr, Hsl.
    inversion H1; inversion H2; subst.
    destruct (crit_pos_inj b o b' o') as [-> ->]; [done..|lia|].
    f_equal; auto.
Qed.

(** ** In-order traversal is [strcmp] order *)

Lemma shiftr_step x k :
  0 <= k -> Z.shiftr x k = 2 * Z.shiftr x (k + 1) + Z.b2z (Z.testbit x k).
Proof.
  intros Hk. rewrite <- Z.shiftr_shiftr by lia.
  rewrite <- (Z.div2_spec (Z.shiftr x k)), Z.testbit_odd.
  rewrite (Z.div2_odd (Z.shiftr x k)) at 1. done.
Qed.

Lemma lt_by_bits x y k :
  0 <= x -> 0 <= y -> 0 <= k -> Z.testbit x k = false -> Z.testbit y k = true ->
  (forall j, k < j -> Z.testbit x j = Z.testbit y j) -> x < y.
Proof.
  intros Hx Hy Hk Bx By Hj.
  assert (Z.shiftr x (k + 1) = Z.shiftr y (k + 1)) as E.
  { apply Z.bits_inj'. intros n Hn. rewrite !Z.shiftr_spec by lia. apply Hj. lia. }
  pose proof (shiftr_step x k Hk) as E1. pose proof (shiftr_step y k Hk) as E2.
  rewrite Bx in E1. rewrite By in E2. simpl in E1, E2.
  rewrite !Z.shiftr_div_pow2 in * by lia.
  pose proof (Z.pow_pos_nonneg 2 k). Z.div_mod_to_equations. nia.
Qed.

Lemma strcmp_first_byte i : forall s1 s2,
  cstr_ok s1 -> cstr_ok s2 ->
  (forall m, (m < i)%nat -> nth m s1 0 = nth m s2 0) -> nth i s1 0 < nth i s2 0 ->
  strcmp s1 s2 = -1.
Proof.
  induction i as [|i IH]; intros [|x s1] [|y s2] H1 H2 Hm Hlt; simpl in *; try done; try lia.
  - inversion H1; subst. lia.
  - case_bool; [lia|]. by case_bool; [|lia].
  - inversion H1; subst. specialize (Hm 0%nat ltac:(lia)). simpl in Hm. lia.
  - pose proof (Hm 0%nat ltac:(lia)) as E. simpl in E. subst. rewrite Z.eqb_refl.
    inversion H1; inversion H2; subst. apply IH; try done.
    intros m Hmi. apply (Hm (S m)). lia.
Qed.

Lemma testbit_byte_high x j : is_byte x -> 8 <= j -> Z.testbit x j = false.
Proof.
  intros Hx Hj. unfold is_byte in Hx. destruct (decide (x = 0)) as [->|]; [apply Z.bits_0|].
  apply Z.bits_above_log2; [lia|]. eapply Z.lt_le_trans; [|done].
  apply Z.log2_lt_pow2; lia.
Qed.

Lemma sbit_strcmp p s1 s2 :
  cstr_ok s1 -> cstr_ok s2 -> agree_upto p s1 s2 ->
  sbit s1 p = false -> sbit s2 p = true -> strcmp s1 s2 = -1.
Proof.
  intros H1 H2 Hag B1 B2.
  pose proof (Nat.mod_upper_bound p 8). pose proof (Nat.div_mod_eq p 8) as Hp.
  assert (forall m j, 0 <= j < 8 -> (8 * m + Z.to_nat (7 - j) < p)%nat ->
            Z.testbit (nth m s1 0) j = Z.testbit (nth m s2 0) j) as Hb.
  { intros m j Hj Hlt. specialize (Hag (8 * m + Z.to_nat (7 - j))%nat Hlt). unfold sbit in Hag.
    replace ((8 * m + Z.to_nat (7 - j)) / 8)%nat with m in Hag
      by (apply (Nat.div_unique _ 8 _ (Z.to_nat (7 - j))); lia).
    replace ((8 * m + Z.to_nat (7 - j)) mod 8)%nat with (Z.to_nat (7 - j)) in Hag
      by (apply (Nat.mod_unique _ 8 m); lia).
    by replace (7 - Z.of_nat (Z.to_nat (7 - j))) with j in Hag by lia. }
  assert (forall i j, 8 <= j -> Z.testbit (nth i s1 0) j = Z.testbit (nth i s2 0) j) as Hhi.
  { intros i j Hj. rewrite !testbit_byte_high by eauto with lana. done. }
  apply (strcmp_first_byte (p / 8)); try done.
  - intros m Hm. apply Z.bits_inj'. intros j Hj. destruct (decide (j < 8)); [|apply Hhi; lia].
    apply Hb; lia.
  - pose proof (cstr_ok_nth_byte s1 (p / 8) H1) as [Hx _].
    pose proof (cstr_ok_nth_byte s2 (p / 8) H2) as [Hy _].
    apply (lt_by_bits _ _ (7 - Z.of_nat (p mod 8))); try done; try lia.
    intros j Hj. destruct (decide (j < 8)); [|apply Hhi; lia]. apply Hb; lia.
Qed.

Lemma cwf_sorted t : cwf t -> StronglySorted (fun s1 s2 => strcmp s1 s2 = -1) (keys t).
Proof.
  induction 1 as [|b o l r Hl IHl Hr IHr Ho Hkl Hkr Hag]; [by repeat constructor|].
  rewrite keys_node. apply StronglySorted_app_2; [|done|done].
  intros x y Hx Hy. apply (sbit_strcmp (crit_pos b o)); auto.
  - by apply (cwf_keys_ok l).
  - by apply (cwf_keys_ok r).
  - apply Hag; apply elem_of_app; auto.
Qed.
