(* ===== verification/Critbit.v ===== *)
(** * Crit-bit trees: the pointer program

    src/xt_critbit.c on a heap.  A pointer is a number: 0 is NULL, an odd
    pointer [p] is the inner node at [p - 1], an even pointer the string of an
    element.  [cb_nodes] holds the live nodes, [cb_strs] the buffers of the
    elements' strings, [cb_rcu] the nodes handed to [call_rcu], [cb_modrefs] the
    references on the module, one for each allocated node.  Every access
    is checked: [None] stands for a [BUG()], a bad access or a loop that ran
    out of fuel, and the theorems show that none of them happens.

    [rep] relates a pointer into the heap to a [ctree]; each operation
    preserves it and computes what the function of CritbitTree.v computes. *)
From Stdlib Require Import ZArith Lia.
From stdpp Require Import base gmap numbers sorting list.
From S2P Require Import Prelude CString CritbitTree.

Local Open Scope Z_scope.

(** ** Data *)

Record critbit_node := Node {
  n_child0 : addr;
  n_child1 : addr;
  n_byte : nat;
  n_otherbits : Z;
}.

Record critbit_mem := Mem {
  cb_nodes : gmap addr critbit_node;
  cb_strs : gmap addr (list Z);
  cb_root : addr;
  cb_rcu : list addr;
  cb_rcu_nesting : nat;
  cb_wr_lock : bool;
  cb_modrefs : Z;
}.

Definition SMP_CACHE_BYTES : Z := 64.

(** [1 & (intptr_t) p] *)
Definition is_node (p : addr) : bool := Z.land 1 p =? 1.

Definition set_nodes (h : critbit_mem) (ns : gmap addr critbit_node) : critbit_mem :=
  Mem ns (cb_strs h) (cb_root h) (cb_rcu h) (cb_rcu_nesting h) (cb_wr_lock h) (cb_modrefs h).
Definition set_root (h : critbit_mem) (p : addr) : critbit_mem :=
  Mem (cb_nodes h) (cb_strs h) p (cb_rcu h) (cb_rcu_nesting h) (cb_wr_lock h) (cb_modrefs h).
Definition add_rcu (h : critbit_mem) (q : addr) : critbit_mem :=
  Mem (cb_nodes h) (cb_strs h) (cb_root h) (cb_rcu h ++ [q]) (cb_rcu_nesting h) (cb_wr_lock h) (cb_modrefs h).
Definition set_nesting (h : critbit_mem) (n : nat) : critbit_mem :=
  Mem (cb_nodes h) (cb_strs h) (cb_root h) (cb_rcu h) n (cb_wr_lock h) (cb_modrefs h).
Definition set_wr_lock (h : critbit_mem) (b : bool) : critbit_mem :=
  Mem (cb_nodes h) (cb_strs h) (cb_root h) (cb_rcu h) (cb_rcu_nesting h) b (cb_modrefs h).

(** [__module_get] and [module_put] of this module. *)
Definition mod_modrefs (h : critbit_mem) (d : Z) : critbit_mem :=
  Mem (cb_nodes h) (cb_strs h) (cb_root h) (cb_rcu h) (cb_rcu_nesting h) (cb_wr_lock h) (cb_modrefs h + d).

Definition rcu_read_lock (h : critbit_mem) : critbit_mem := set_nesting h (S (cb_rcu_nesting h)).
Definition rcu_read_unlock (h : critbit_mem) : critbit_mem := set_nesting h (pred (cb_rcu_nesting h)).
Definition rcu_read_lock_held (h : critbit_mem) : bool := (0 <? cb_rcu_nesting h)%nat.

(** Taking a spinlock that is held would spin forever. *)
Definition spin_lock (h : critbit_mem) : option critbit_mem :=
  if cb_wr_lock h then None else Some (set_wr_lock h true).
Definition spin_unlock (h : critbit_mem) : critbit_mem := set_wr_lock h false.

(** [q->child[direction]]; an index outside the array is a bad access. *)
Definition child (n : critbit_node) (dir : Z) : option addr :=
  if dir =? 0 then Some (n_child0 n) else if dir =? 1 then Some (n_child1 n) else None.

Definition set_child (n : critbit_node) (dir : Z) (p : addr) : option critbit_node :=
  if dir =? 0 then Some (Node p (n_child1 n) (n_byte n) (n_otherbits n))
  else if dir =? 1 then Some (Node (n_child0 n) p (n_byte n) (n_otherbits n))
  else None.

(** What a [void **] into the tree points at: the root field or a child
    field of a node. *)
Inductive slot :=
| SRoot
| SChild (q : addr) (dir : Z).

Definition load (h : critbit_mem) (w : slot) : option addr :=
  match w with
  | SRoot => Some (cb_root h)
  | SChild q dir => cb_nodes h !! q ≫= fun n => child n dir
  end.

Definition store (h : critbit_mem) (w : slot) (p : addr) : option critbit_mem :=
  match w with
  | SRoot => Some (set_root h p)
  | SChild q dir =>
      n ← cb_nodes h !! q; n' ← set_child n dir p; Some (set_nodes h (<[q := n']> (cb_nodes h)))
  end.

(** The string of a buffer, when its terminator is inside the buffer. *)
Definition load_cstr (buf : list Z) : option cstr :=
  match strlen buf with Some _ => Some (c_str buf) | None => None end.

(** ** Lookup *)

Fixpoint walk (fuel : nat) (h : critbit_mem) (u : cstr) (p : addr) : option addr :=
  match fuel with
  | O => None
  | S f =>
      if is_node p
      then q ← cb_nodes h !! (p - 1);
           p' ← child q (direction (n_byte q) (n_otherbits q) u);
           walk f h u p'
      else Some p
  end.

Definition __critbit_get (fuel : nat) (h : critbit_mem) (elem : list Z) : option addr :=
  u ← load_cstr elem;
  if negb (rcu_read_lock_held h) then None
  else if cb_root h =? 0 then Some 0
  else p ← walk fuel h u (cb_root h);
       buf ← cb_strs h !! p;
       s ← load_cstr buf;
       Some (if strcmp u s =? 0 then p else 0).

Definition __critbit_contains (fuel : nat) (h : critbit_mem) (elem : list Z) : option Z :=
  u ← load_cstr elem;
  if negb (rcu_read_lock_held h) then None
  else if cb_root h =? 0 then Some 0
  else p ← walk fuel h u (cb_root h);
       buf ← cb_strs h !! p;
       s ← load_cstr buf;
       Some (if strcmp u s =? 0 then 1 else 0).

Definition critbit_get (fuel : nat) (h : critbit_mem) (elem : list Z) :
    option (addr * critbit_mem) :=
  let h1 := rcu_read_lock h in
  ret ← __critbit_get fuel h1 elem; Some (ret, rcu_read_unlock h1).

Definition critbit_contains (fuel : nat) (h : critbit_mem) (elem : list Z) :
    option (Z * critbit_mem) :=
  let h1 := rcu_read_lock h in
  ret ← __critbit_contains fuel h1 elem; Some (ret, rcu_read_unlock h1).

(** ** Insertion *)

(** The difference scan on the buffers, each byte read checked. *)
Fixpoint scan (p u : list Z) (newbyte n : nat) : option (nat * option Z) :=
  match n with
  | O => Some (newbyte, None)
  | S n' =>
      x ← p !! newbyte; y ← u !! newbyte;
      if x =? y then scan p u (S newbyte) n' else Some (newbyte, Some (Z.lxor x y))
  end.

Definition first_diff (p u : list Z) (ulen : nat) : option (option (nat * Z)) :=
  r ← scan p u 0 ulen;
  match r with
  | (newbyte, Some d) => Some (Some (newbyte, d))
  | (newbyte, None) =>
      x ← p !! newbyte; Some (if x =? 0 then None else Some (newbyte, x))
  end.

(** [for (wherep = &tree->root;;)]: the slot the new node goes to. *)
Fixpoint locate (fuel : nat) (h : critbit_mem) (u : cstr) (newbyte : nat)
    (newotherbits : Z) (wherep : slot) : option slot :=
  match fuel with
  | O => None
  | S f =>
      p ← load h wherep;
      if negb (is_node p) then Some wherep
      else q ← cb_nodes h !! (p - 1);
           if (newbyte <? n_byte q)%nat then Some wherep
           else if (n_byte q =? newbyte)%nat && (newotherbits <? n_otherbits q) then Some wherep
           else locate f h u newbyte newotherbits
                  (SChild (p - 1) (direction (n_byte q) (n_otherbits q) u))
  end.

(** [newnode] is the memory the cache has for a node, [None] if there is none:
    a node as the constructor [critbit_ctor] of the cache left it, for which the
    module is referenced.  (Memory that is used again keeps what it held; both
    children are written before the node is published.) *)
Definition critbit_alloc_node_aligned (h : critbit_mem) (newnode : option addr) : option addr * critbit_mem :=
  match newnode with
  | None => (None, h)
  | Some a => (Some a, mod_modrefs (set_nodes h (<[a := Node 0 0 0 0]> (cb_nodes h))) 1)
  end.

(** The part of [__critbit_insert] after [different_byte_found]: allocate the
    node, find its place and publish it. *)
Definition publish (fuel : nat) (h : critbit_mem) (u : cstr) (elem : addr) (newnode : option addr)
    (newbyte : nat) (newotherbits newdirection : Z) : option (Z * critbit_mem) :=
  match critbit_alloc_node_aligned h newnode with
  | (None, h) => Some (- ENOMEM, h)
  | (Some a, h) =>
      n ← cb_nodes h !! a;
      n ← set_child (Node (n_child0 n) (n_child1 n) newbyte newotherbits) (1 - newdirection) elem;
      let h1 := set_nodes h (<[a := n]> (cb_nodes h)) in
      wherep ← locate fuel h1 u newbyte newotherbits SRoot;
      v ← load h1 wherep;
      h2 ← store h1 (SChild a newdirection) v;
      h3 ← store h2 wherep (1 + a);
      Some (0, h3)
  end.

Definition __critbit_insert (fuel : nat) (h : critbit_mem) (elem : addr)
    (newnode : option addr) : option (Z * critbit_mem) :=
  ubytes ← cb_strs h !! elem;
  u ← load_cstr ubytes;
  let p0 := cb_root h in
  if negb (elem mod SMP_CACHE_BYTES =? 0) then None
  else if p0 =? 0 then Some (0, set_root h elem)
  else
    p ← walk fuel h u p0;
    pbytes ← cb_strs h !! p;
    d ← first_diff pbytes ubytes (length u);
    match d with
    | None => Some (- EEXIST, h)
    | Some (newbyte, raw) =>
        let newotherbits := new_otherbits raw in
        c ← pbytes !! newbyte;
        let newdirection := Z.shiftr (1 + Z.lor newotherbits c) 8 in
        publish fuel h u elem newnode newbyte newotherbits newdirection
    end.

Definition critbit_insert (fuel : nat) (h : critbit_mem) (elem : addr)
    (newnode : option addr) : option (Z * critbit_mem) :=
  h1 ← spin_lock h;
  r ← __critbit_insert fuel h1 elem newnode;
  Some (r.1, spin_unlock r.2).

(** ** Deletion *)

(** The descent that remembers the parent: [whereq], [q] and [direction]. *)
Fixpoint walk_parent (fuel : nat) (h : critbit_mem) (u : cstr) (wherep : slot) (p : addr)
    (par : option (slot * addr * Z)) : option (addr * option (slot * addr * Z)) :=
  match fuel with
  | O => None
  | S f =>
      if is_node p
      then q ← cb_nodes h !! (p - 1);
           let dir := direction (n_byte q) (n_otherbits q) u in
           p' ← load h (SChild (p - 1) dir);
           walk_parent f h u (SChild (p - 1) dir) p' (Some (wherep, p - 1, dir))
      else Some (p, par)
  end.

Definition __critbit_delete (fuel : nat) (h : critbit_mem) (elem : list Z) :
    option (Z * critbit_mem) :=
  u ← load_cstr elem;
  if cb_root h =? 0 then Some (0, h)
  else
    r ← walk_parent fuel h u SRoot (cb_root h) None;
    let '(p, par) := r in
    buf ← cb_strs h !! p;
    s ← load_cstr buf;
    if negb (strcmp u s =? 0) then Some (- ENOENT, h)
    else match par with
         | None => Some (0, set_root h 0)
         | Some (whereq, q, dir) =>
             v ← load h (SChild q (1 - dir));
             h1 ← store h whereq v;
             Some (0, add_rcu h1 q)
         end.

Definition critbit_delete (fuel : nat) (h : critbit_mem) (elem : list Z) :
    option (Z * critbit_mem) :=
  h1 ← spin_lock h;
  r ← __critbit_delete fuel h1 elem;
  Some (r.1, spin_unlock r.2).

(** Freeing a node that is not there is an error. *)
Definition critbit_free_node (h : critbit_mem) (q : addr) : option critbit_mem :=
  n ← cb_nodes h !! q; Some (mod_modrefs (set_nodes h (delete q (cb_nodes h))) (-1)).

(** The callback for one node: the grace period is over. *)
Definition critbit_do_free_rcu (h : critbit_mem) (q : addr) : option critbit_mem :=
  critbit_free_node (Mem (cb_nodes h) (cb_strs h) (cb_root h) (filter (.≠ q) (cb_rcu h))
                       (cb_rcu_nesting h) (cb_wr_lock h) (cb_modrefs h)) q.

(** ** Representation *)

Inductive rep (h : critbit_mem) : addr -> ctree -> list addr -> Prop :=
| rep_leaf p buf :
    p <> 0 -> is_node p = false -> cb_strs h !! p = Some buf -> 0 ∈ buf ->
    rep h p (CLeaf p (c_str buf)) []
| rep_node a n l r nl nr :
    is_node (1 + a) = true -> cb_nodes h !! a = Some n ->
    rep h (n_child0 n) l nl -> rep h (n_child1 n) r nr ->
    rep h (1 + a) (CNode (n_byte n) (n_otherbits n) l r) (a :: nl ++ nr).

(** The whole structure: an empty root, or a tree of distinct nodes whose
    keys are in order. *)
Definition tree_nodes (h : critbit_mem) (t : critbit_tree) (ns : list addr) : Prop :=
  match t with
  | None => cb_root h = 0 /\ ns = []
  | Some t => rep h (cb_root h) t ns /\ NoDup ns
  end.

Definition rep_tree (h : critbit_mem) (t : critbit_tree) : Prop := exists ns, tree_nodes h t ns.

Fixpoint height (t : ctree) : nat :=
  match t with CLeaf _ _ => 1 | CNode _ _ l r => S (height l `max` height r) end.

Definition tree_height (t : critbit_tree) : nat :=
  match t with None => 0 | Some t => height t end.

Lemma rep_nonzero h p t ns : rep h p t ns -> p <> 0.
Proof. destruct 1 as [|a n l r nl nr Hn]; [done|]. intros E. rewrite E in Hn. done. Qed.

Lemma rep_frame h h' p t ns :
  rep h p t ns -> (forall x, x ∈ ns -> cb_nodes h' !! x = cb_nodes h !! x) ->
  cb_strs h' = cb_strs h -> rep h' p t ns.
Proof.
  induction 1 as [|a n l r nl nr Hn Ha Hl IHl Hr IHr]; intros Hns Hs.
  - by constructor; rewrite ?Hs.
  - constructor; [done|rewrite Hns by set_solver; done|..];
      [apply IHl|apply IHr]; try done; intros x Hx; apply Hns; set_solver.
Qed.

Lemma load_cstr_some buf : 0 ∈ buf -> load_cstr buf = Some (c_str buf).
Proof. intros H. unfold load_cstr. by destruct (strlen_terminated buf H) as [n ->]. Qed.

Lemma child_dir n b o u l0 l1 :
  n_child0 n = l0 -> n_child1 n = l1 -> one_cold o -> cstr_ok u ->
  child n (direction b o u) = Some (if sbit u (crit_pos b o) then l1 else l0).
Proof.
  intros <- <- Ho Hu. rewrite direction_sbit by done. by destruct (sbit _ _).
Qed.

(** ** Reading strings never leaves their buffers *)

Lemma buf_nth buf : forall i,
  0 ∈ buf -> (i <= length (c_str buf))%nat -> buf !! i = Some (nth i (c_str buf) 0).
Proof.
  induction buf as [|b buf IH]; intros i H0 Hi; [by apply not_elem_of_nil in H0|].
  simpl in *. destruct (Z.eqb_spec b 0) as [->|Hb].
  - simpl in Hi. destruct i; [done|lia].
  - apply elem_of_cons in H0 as [?|H0]; [done|]. destruct i; [done|]. simpl in *.
    apply IH; [done|lia].
Qed.

Lemma common_prefix_length p u i :
  cstr_ok u -> (i <= length u)%nat ->
  (forall m, (m < i)%nat -> nth m p 0 = nth m u 0) -> (i <= length p)%nat.
Proof.
  intros Hu Hi Hm. apply Nat.le_ngt. intros Hlt.
  pose proof (cstr_ok_lookup u (length p) Hu ltac:(lia)) as H.
  rewrite <- Hm, nth_ge in H by lia. lia.
Qed.

Section scan.
Context (pbuf ubuf : list Z).
Context (Hp0 : 0 ∈ pbuf) (Hu0 : 0 ∈ ubuf) (Hu : cstr_ok (c_str ubuf)).

Lemma scan_safe n : forall i,
  (i + n = length (c_str ubuf))%nat ->
  (forall m, (m < i)%nat -> nth m (c_str pbuf) 0 = nth m (c_str ubuf) 0) ->
  scan pbuf ubuf i n = Some (diff_scan (c_str pbuf) (c_str ubuf) i n).
Proof.
  induction n as [|n IH]; intros i Hi Hm; [done|]. simpl.
  pose proof (common_prefix_length _ _ i Hu ltac:(lia) Hm).
  rewrite (buf_nth pbuf), (buf_nth ubuf) by (done || lia). simpl.
  case_bool; [|done]. apply IH; [lia|].
  intros m Hlt. destruct (decide (m = i)) as [->|]; [done|]. apply Hm. lia.
Qed.

Lemma first_diff_safe :
  first_diff pbuf ubuf (length (c_str ubuf)) = Some (find_diff (c_str pbuf) (c_str ubuf)).
Proof.
  unfold first_diff, find_diff. rewrite scan_safe by (done || lia). simpl.
  pose proof (diff_scan_spec (c_str pbuf) (c_str ubuf) (length (c_str ubuf)) 0) as H.
  destruct (diff_scan _ _ _ _) as [j [d|]]; [done|]. destruct H as [-> Hm]. simpl in *.
  pose proof (common_prefix_length _ _ (length (c_str ubuf)) Hu ltac:(lia)
    ltac:(intros; apply Hm; lia)).
  rewrite (buf_nth pbuf) by (done || lia). simpl. by case_bool.
Qed.

Lemma diff_byte_safe nb raw :
  find_diff (c_str pbuf) (c_str ubuf) = Some (nb, raw) ->
  pbuf !! nb = Some (nth nb (c_str pbuf) 0).
Proof.
  intros E. apply buf_nth; [done|].
  assert (nb <= length (c_str ubuf))%nat as Hle.
  { unfold find_diff in E.
    pose proof (diff_scan_spec (c_str pbuf) (c_str ubuf) (length (c_str ubuf)) 0) as H.
    destruct (diff_scan _ _ _ _) as [j [d|]].
    - injection E as -> _. destruct H. lia.
    - destruct H as [-> _]. case_bool; [done|]. injection E as <- _. lia. }
  apply find_diff_some in E as (_ & _ & Hm). by eapply common_prefix_length.
Qed.
End scan.

(** ** Lookup on the heap *)

Lemma walk_rep h t u : forall p ns fuel,
  rep h p t ns -> cwf t -> cstr_ok u -> (height t <= fuel)%nat ->
  walk fuel h u p = Some (cwalk t u).1 /\ (cwalk t u).1 <> 0 /\
  exists buf, cb_strs h !! (cwalk t u).1 = Some buf /\ 0 ∈ buf /\ c_str buf = (cwalk t u).2.
Proof.
  induction t as [a s|b o l IHl r IHr]; intros p ns fuel Hrep Hwf Hu Hf.
  - inversion Hrep; subst. destruct fuel as [|fuel]; simpl in *; [lia|].
    match goal with H : is_node _ = false |- _ => rewrite H end. split_and!; eauto.
  - destruct fuel as [|fuel]; simpl in Hf; [lia|]. inversion Hwf; subst.
    rewrite cwalk_node by done.
    inversion Hrep as [|x n l' r' nl nr Hn Hx Hl Hr]; subst. simpl walk. rewrite Hn.
    replace (1 + x - 1) with x by lia. rewrite Hx. simpl.
    erewrite child_dir by done. simpl. destruct (sbit u _).
    + eapply IHr; eauto. lia.
    + eapply IHl; eauto. lia.
Qed.

Lemma get_refines fuel h t elem :
  rep_tree h t -> cwf_tree t -> 0 ∈ elem -> cstr_ok (c_str elem) ->
  (0 < cb_rcu_nesting h)%nat -> (tree_height t <= fuel)%nat ->
  __critbit_get fuel h elem = Some (default 0 (tree_get t (c_str elem))) /\
  __critbit_contains fuel h elem = Some (tree_contains t (c_str elem)).
Proof.
  intros Hrep Hwf H0 Hok Hn Hf. unfold __critbit_get, __critbit_contains.
  rewrite load_cstr_some by done. simpl. unfold rcu_read_lock_held.
  destruct (Nat.ltb_spec 0 (cb_rcu_nesting h)); [|lia]. simpl.
  destruct t as [t|].
  - destruct Hrep as (ns & Hrep & _). pose proof (rep_nonzero _ _ _ _ Hrep).
    destruct (Z.eqb_spec (cb_root h) 0); [done|].
    destruct (walk_rep h t (c_str elem) _ _ fuel Hrep Hwf Hok Hf) as (-> & _ & buf & Hb & H0' & E).
    simpl. rewrite Hb. simpl. rewrite load_cstr_some by done. simpl. rewrite E.
    destruct (cwalk t (c_str elem)) as [a s]. simpl. by case_bool.
  - destruct Hrep as (ns & Hrep & _). by rewrite Hrep.
Qed.

(** ** Insertion on the heap *)

Definition slot_outside (w : slot) (ns : list addr) : Prop :=
  match w with SRoot => True | SChild q _ => q ∉ ns end.

Lemma slot_outside_mono w ns ns' :
  slot_outside w ns -> (forall x, x ∈ ns' -> x ∈ ns) -> slot_outside w ns'.
Proof. destruct w; simpl; auto. Qed.

Lemma child_set_child n dir p n' : set_child n dir p = Some n' -> child n' dir = Some p.
Proof. unfold set_child, child. by bool_cases; intros [= <-]. Qed.

Lemma load_store h w p h' : store h w p = Some h' -> load h' w = Some p.
Proof.
  destruct w as [|q dir]; simpl; [by intros [= <-]|].
  destruct (cb_nodes h !! q) as [n|]; simpl; [|done].
  destruct (set_child n dir p) as [n'|] eqn:E; simpl; [|done].
  intros [= <-]. simpl. rewrite lookup_insert_eq. simpl. by eapply child_set_child.
Qed.

Lemma store_strs h w p h' : store h w p = Some h' -> cb_strs h' = cb_strs h.
Proof.
  destruct w as [|q dir]; simpl; [by intros [= <-]|].
  destruct (cb_nodes h !! q) as [n|]; simpl; [|done].
  destruct (set_child n dir p) as [n'|]; simpl; [|done]. by intros [= <-].
Qed.

Lemma store_nodes_ne h w p h' x :
  store h w p = Some h' -> slot_outside w [x] -> cb_nodes h' !! x = cb_nodes h !! x.
Proof.
  destruct w as [|q dir]; simpl; [by intros [= <-]|].
  destruct (cb_nodes h !! q) as [n|]; simpl; [|done].
  destruct (set_child n dir p) as [n'|]; simpl; [|done]. intros [= <-] Hq. simpl.
  apply lookup_insert_ne. set_solver.
Qed.

Lemma set_child_same n dir p : child n dir = Some p -> set_child n dir p = Some n.
Proof. destruct n. unfold set_child, child. by bool_cases; intros [= <-]. Qed.

Lemma store_same h w p : load h w = Some p -> store h w p = Some h.
Proof.
  destruct h. destruct w as [|q dir]; simpl; [by intros [= <-]|].
  destruct (cb_nodes0 !! q) as [n|] eqn:E; simpl; [|done]. intros H.
  rewrite (set_child_same _ _ _ H). simpl. unfold set_nodes. simpl. by rewrite insert_id.
Qed.

Lemma store_defined h w p p' : load h w = Some p -> exists h', store h w p' = Some h'.
Proof.
  destruct w as [|q dir]; simpl; [eauto|].
  destruct (cb_nodes h !! q) as [n|]; simpl; [|done].
  unfold child, set_child. bool_cases; intros; simpl; eauto; done.
Qed.

(** Everything but the nodes and the root. *)
Definition same_env (h h' : critbit_mem) : Prop :=
  cb_strs h' = cb_strs h /\ cb_rcu h' = cb_rcu h /\ cb_rcu_nesting h' = cb_rcu_nesting h /\
  cb_wr_lock h' = cb_wr_lock h.

Lemma store_env h w p h' : store h w p = Some h' -> same_env h h'.
Proof.
  destruct w as [|q dir]; simpl; [by intros [= <-]|].
  destruct (cb_nodes h !! q) as [n|]; simpl; [|done].
  destruct (set_child n dir p) as [n'|]; simpl; [|done]. by intros [= <-].
Qed.

(** The same nodes are allocated. *)
Definition keeps (h h' : critbit_mem) : Prop :=
  (forall x, is_Some (cb_nodes h' !! x) <-> is_Some (cb_nodes h !! x)) /\ cb_modrefs h' = cb_modrefs h.

(** The node [a] was allocated. *)
Definition allocates (a : addr) (h h' : critbit_mem) : Prop :=
  (forall x, is_Some (cb_nodes h' !! x) <-> x = a \/ is_Some (cb_nodes h !! x)) /\
  cb_modrefs h' = cb_modrefs h + 1.

Lemma keeps_refl h : keeps h h.
Proof. done. Qed.

Lemma store_keeps h w p h' : store h w p = Some h' -> keeps h h'.
Proof.
  destruct w as [|q dir]; simpl; [by intros [= <-]|].
  destruct (cb_nodes h !! q) as [n|] eqn:Eq; simpl; [|done].
  destruct (set_child n dir p) as [n'|]; simpl; [|done]. intros [= <-]. split; [|done]. intros x. simpl.
  destruct (decide (x = q)) as [->|]; [by rewrite lookup_insert_eq, Eq|by rewrite lookup_insert_ne].
Qed.

Lemma allocates_keeps a h h1 h2 : allocates a h h1 -> keeps h1 h2 -> allocates a h h2.
Proof. intros [H1 E1] [H2 E2]. split; [|congruence]. intros x. by rewrite H2. Qed.

Lemma same_env_trans h1 h2 h3 : same_env h1 h2 -> same_env h2 h3 -> same_env h1 h3.
Proof. unfold same_env. intros (?&?&?&?) (?&?&?&?). split_and!; congruence. Qed.

(** [h'] is [h] with the slot [w] redirected to [p], up to the nodes [ns]
    below it. *)
Definition redirected (h h' : critbit_mem) (w : slot) (p : addr) (ns : list addr) : Prop :=
  exists hw, store h w p = Some hw /\ cb_root h' = cb_root hw /\ same_env h h' /\
    forall x, x ∉ ns -> cb_nodes h' !! x = cb_nodes hw !! x.

(** Writing another node first does not change what a store does elsewhere. *)
Lemma store_after_node h a n w p h3 :
  store (set_nodes h (<[a := n]> (cb_nodes h))) w p = Some h3 -> slot_outside w [a] ->
  redirected h h3 w p [a] /\ cb_nodes h3 !! a = Some n.
Proof.
  unfold redirected. destruct w as [|q dir]; simpl; intros E Hq.
  - injection E as <-. simpl. split; [|by rewrite lookup_insert_eq].
    eexists. split_and!; try done. intros x Hx. simpl. apply lookup_insert_ne. set_solver.
  - assert (a <> q) as Hne by set_solver. rewrite lookup_insert_ne in E by done.
    destruct (cb_nodes h !! q) as [m|]; simpl in *; [|done].
    destruct (set_child m dir p) as [m'|]; simpl in *; [|done]. injection E as <-. simpl.
    split; [|by rewrite lookup_insert_ne, lookup_insert_eq].
    eexists. split_and!; try done. intros x Hx. simpl.
    destruct (decide (x = q)) as [->|]; [by rewrite !lookup_insert_eq|].
    rewrite !lookup_insert_ne by set_solver. done.
Qed.

(** A change inside a child's subtree, seen from the parent's slot. *)
Lemma redirected_up h h3 w x n dir p' ns ns' :
  load h w = Some (1 + x) -> cb_nodes h !! x = Some n -> x ∉ ns' ->
  redirected h h3 (SChild x dir) p' ns' -> (forall y, y ∈ ns' -> y ∈ ns) -> x ∈ ns ->
  redirected h h3 w (1 + x) ns /\
  exists n', set_child n dir p' = Some n' /\ cb_nodes h3 !! x = Some n'.
Proof.
  intros Hl Hx Hnx (hw & Hst & Hroot & Henv & Hfr) Hsub Hin. simpl in Hst. rewrite Hx in Hst.
  simpl in Hst. destruct (set_child n dir p') as [n'|] eqn:E; simpl in Hst; [|done].
  injection Hst as <-. split.
  - exists h. split_and!; [by apply store_same|done|done|]. intros y Hy. rewrite Hfr by auto.
    simpl. apply lookup_insert_ne. by intros ->.
  - exists n'. split; [done|]. rewrite Hfr by done. apply lookup_insert_eq.
Qed.

Lemma redirected_frame h h3 w p ns p0 t nt :
  redirected h h3 w p ns -> rep h p0 t nt -> (forall x, x ∈ nt -> x ∉ ns) ->
  slot_outside w nt -> rep h3 p0 t nt.
Proof.
  intros (hw & Hst & _ & Henv & Hfr) Hrep Hd Hw. apply (rep_frame h); [done| |apply Henv].
  intros x Hx. rewrite Hfr by auto. eapply store_nodes_ne; [done|].
  eapply slot_outside_mono; [done|]. set_solver.
Qed.

(** The parent of a rewritten right, or left, subtree represents the new
    tree. *)
Section update.
Context (h h3 : critbit_mem) (w : slot) (x : addr) (n : critbit_node) (p' : addr).
Context (l r t' : ctree) (nl nr ns ns' ts : list addr).
Context (Hw : load h w = Some (1 + x)) (Hn : is_node (1 + x) = true).
Context (Hx : cb_nodes h !! x = Some n).
Context (Hl : rep h (n_child0 n) l nl) (Hr : rep h (n_child1 n) r nr).
Context (Hnx : x ∉ nl ++ nr) (Hts : x ∉ ts).
Context (Hns : forall y, y ∈ ts -> y ∈ ns) (Hxns : x ∈ ns) (Hrep : rep h3 p' t' ns').

Lemma update_right :
  redirected h h3 (SChild x 1) p' ts -> (forall y, y ∈ nl -> y ∉ ts) ->
  redirected h h3 w (1 + x) ns /\
  rep h3 (1 + x) (CNode (n_byte n) (n_otherbits n) l t') (x :: nl ++ ns').
Proof.
  intros Hred Hd.
  destruct (redirected_up h h3 w x n 1 p' ns ts) as (Hup & n' & [= <-] & Hx3); try done.
  split; [done|].
  apply (rep_node h3 x (Node (n_child0 n) p' (n_byte n) (n_otherbits n))); try done. simpl.
  apply (redirected_frame h h3 (SChild x 1) p' ts); try done. simpl. set_solver.
Qed.

Lemma update_left :
  redirected h h3 (SChild x 0) p' ts -> (forall y, y ∈ nr -> y ∉ ts) ->
  redirected h h3 w (1 + x) ns /\
  rep h3 (1 + x) (CNode (n_byte n) (n_otherbits n) t' r) (x :: ns' ++ nr).
Proof.
  intros Hred Hd.
  destruct (redirected_up h h3 w x n 0 p' ns ts) as (Hup & n' & [= <-] & Hx3); try done.
  split; [done|].
  apply (rep_node h3 x (Node p' (n_child1 n) (n_byte n) (n_otherbits n))); try done. simpl.
  apply (redirected_frame h h3 (SChild x 0) p' ts); try done. simpl. set_solver.
Qed.
End update.

Lemma redirected_mono h h' w p ns ns' :
  redirected h h' w p ns -> (forall x, x ∈ ns -> x ∈ ns') -> redirected h h' w p ns'.
Proof. intros (hw & ? & ? & ? & Hfr) Hsub. exists hw. split_and!; auto. Qed.

Section insert.
Context (h : critbit_mem) (a elem : addr) (u : cstr) (nb : nat) (no : Z) (bd : bool).
Context (n0 : critbit_node).
Let nd : Z := if bd then 1 else 0.
Context (Ha : is_node (1 + a) = true) (Hno : one_cold no) (Hu : cstr_ok u).
Context (Hn0 : set_child (Node 0 0 nb no) (1 - nd) elem = Some n0).
Context (Ha0 : cb_nodes h !! a = Some n0).
Context (Helem : rep h elem (CLeaf elem u) []).

(** What the code does from the slot it has found. *)
Definition splice_at (w : slot) : option critbit_mem :=
  v ← load h w; h2 ← store h (SChild a nd) v; store h2 w (1 + a).

Lemma splice_here w p t ns :
  load h w = Some p -> rep h p t ns -> NoDup (a :: ns) -> slot_outside w (a :: ns) ->
  exists h3, splice_at w = Some h3 /\ redirected h h3 w (1 + a) [a] /\
    rep h3 (1 + a) (link_node nb no nd t (CLeaf elem u)) (a :: ns).
Proof.
  intros Hw Hrep [Hna Hnd]%NoDup_cons Hout. unfold splice_at. rewrite Hw. simpl. rewrite Ha0.
  simpl.
  assert (exists n1, set_child n0 nd p = Some n1 /\ n_byte n1 = nb /\ n_otherbits n1 = no /\
    n_child0 n1 = (if bd then elem else p) /\ n_child1 n1 = (if bd then p else elem))
    as (n1 & -> & Hb & Ho & Hc0 & Hc1).
  { revert Hn0. subst nd. unfold set_child. destruct bd; simpl; intros [= <-]; simpl; by eexists. }
  simpl. destruct (store_defined (set_nodes h (<[a:=n1]> (cb_nodes h))) w p (1 + a)) as [h3 E].
  { destruct w as [|q dir]; [done|]. simpl in *. rewrite lookup_insert_ne by set_solver. done. }
  exists h3. split; [done|]. destruct (store_after_node h a n1 w (1 + a) h3 E) as [Hr Hn1].
  { eapply slot_outside_mono; [done|]. set_solver. }
  split; [done|].
  assert (rep h3 p t ns) as Hp.
  { eapply redirected_frame; [done..| |]; [set_solver|].
    eapply slot_outside_mono; [done|]. set_solver. }
  assert (rep h3 elem (CLeaf elem u) []) as He.
  { eapply redirected_frame; [done..| |]; [set_solver|].
    eapply slot_outside_mono; [done|]. set_solver. }
  subst nd. unfold link_node. destruct bd; simpl.
  - rewrite <- Hb, <- Ho. apply (rep_node h3 a n1 _ _ [] ns); try done; congruence.
  - rewrite <- Hb, <- Ho. rewrite <- (app_nil_r ns) at 1.
    apply (rep_node h3 a n1 _ _ ns []); try done; congruence.
Qed.

Lemma locate_node fuel w x n :
  load h w = Some (1 + x) -> cb_nodes h !! x = Some n -> is_node (1 + x) = true ->
  one_cold (n_otherbits n) ->
  locate (S fuel) h u nb no w =
    if decide (crit_pos nb no < crit_pos (n_byte n) (n_otherbits n))%nat then Some w
    else locate fuel h u nb no (SChild x (direction (n_byte n) (n_otherbits n) u)).
Proof.
  intros Hw Hx Hn Ho. simpl. rewrite Hw. simpl. rewrite Hn. simpl.
  replace (1 + x - 1) with x by lia. rewrite Hx. simpl.
  pose proof (splice_stop (n_byte n) (n_otherbits n) nb no Ho Hno) as Hs.
  destruct (nb <? n_byte n)%nat, ((n_byte n =? nb)%nat && (no <? n_otherbits n));
    simpl in Hs; case_decide; case_bool_decide; done.
Qed.

Lemma splice_rep t : forall w p ns fuel,
  load h w = Some p -> rep h p t ns -> NoDup (a :: ns) -> slot_outside w (a :: ns) ->
  cwf t -> (height t <= fuel)%nat ->
  exists w' h3 p' ns', locate fuel h u nb no w = Some w' /\ splice_at w' = Some h3 /\
    redirected h h3 w p' (a :: ns) /\
    rep h3 p' (splice t u nb no nd (CLeaf elem u)) ns' /\ ns' ≡ₚ a :: ns.
Proof.
  induction t as [b s|b o l IHl r IHr]; intros w p ns fuel Hw Hrep Hnd Hout Hwf Hf;
    (destruct fuel as [|fuel]; simpl in Hf; [lia|]);
    destruct (splice_here w p _ ns Hw Hrep Hnd Hout) as (h3 & Hsp & Hred & Hrep3).
  { exists w, h3, (1 + a), (a :: ns). split_and!; try done.
    - inversion Hrep; subst. simpl. rewrite Hw. simpl.
      by match goal with H : is_node _ = false |- _ => rewrite H end.
    - eapply redirected_mono; [done|]. set_solver. }
  inversion Hrep as [|x n l' r' nl nr Hn Hx Hl Hr]; subst.
  inversion Hwf as [|? ? ? ? Hwl Hwr Ho]; subst.
  rewrite splice_node by done. rewrite (locate_node fuel w x n) by done.
  destruct (decide _) as [Hlt|Hge].
  { exists w, h3, (1 + a), (a :: x :: nl ++ nr). split_and!; try done.
    eapply redirected_mono; [done|]. set_solver. }
  clear h3 Hsp Hred Hrep3. rewrite direction_sbit by done.
  apply NoDup_cons in Hnd as [Hna [Hnx (Hndl & Hdis & Hndr)%NoDup_app]%NoDup_cons].
  destruct (sbit u _) eqn:Eu.
  - destruct (IHr (SChild x 1) (n_child1 n) nr fuel)
      as (w' & h3 & p' & ns' & Hloc & Hsp & Hred & Hrep' & Hp);
      try done; try lia; [by simpl; rewrite Hx|by apply NoDup_cons; set_solver|set_solver|].
    destruct (update_right h h3 w x n p' l r (splice r u nb no nd (CLeaf elem u)) nl nr (a :: x :: nl ++ nr) ns' (a :: nr))
      as [Hup Hrep3]; try done; [set_solver..|].
    exists w', h3, (1 + x), (x :: nl ++ ns'). split_and!; try done.
    rewrite Hp. solve_Permutation.
  - destruct (IHl (SChild x 0) (n_child0 n) nl fuel)
      as (w' & h3 & p' & ns' & Hloc & Hsp & Hred & Hrep' & Hp);
      try done; try lia; [by simpl; rewrite Hx|by apply NoDup_cons; set_solver|set_solver|].
    destruct (update_left h h3 w x n p' l r (splice l u nb no nd (CLeaf elem u)) nl nr (a :: x :: nl ++ nr) ns' (a :: nl))
      as [Hup Hrep3]; try done; [set_solver..|].
    exists w', h3, (1 + x), (x :: ns' ++ nr). split_and!; try done.
    rewrite Hp. solve_Permutation.
Qed.
End insert.

Lemma rep_nodes_live h p t ns x : rep h p t ns -> x ∈ ns -> is_Some (cb_nodes h !! x).
Proof.
  induction 1 as [|a n l r nl nr Hn Ha]; [set_solver|].
  rewrite elem_of_cons, elem_of_app. intros [->|[?|?]]; eauto.
Qed.

Lemma aligned_not_node p : p mod SMP_CACHE_BYTES = 0 -> is_node p = false.
Proof.
  intros H. unfold is_node, SMP_CACHE_BYTES in *. apply Z.eqb_neq.
  rewrite Z.land_comm. change 1 with (Z.ones 1) at 1. rewrite Z.land_ones by lia.
  change (2 ^ 1) with 2. Z.div_mod_to_equations. lia.
Qed.

(** A node address the allocator may hand out: tagged by the low bit, not in
    use. *)
Definition fresh_node (h : critbit_mem) (newnode : option addr) : Prop :=
  match newnode with
  | None => True
  | Some a => is_node (1 + a) = true /\ cb_nodes h !! a = None
  end.

Definition node_ok (newnode : option addr) : bool :=
  match newnode with Some _ => true | None => false end.

(** The tail of [__critbit_insert], from the found difference to the
    published node. *)
Lemma insert_tail fuel h t elem u a ns nb no bd n0 :
  rep h (cb_root h) t ns -> NoDup ns -> cwf t -> (height t <= fuel)%nat ->
  one_cold no -> cstr_ok u -> rep h elem (CLeaf elem u) [] -> fresh_node h (Some a) ->
  set_child (Node 0 0 nb no) (1 - (if bd : bool then 1 else 0)) elem = Some n0 ->
  let h1 := set_nodes h (<[a := n0]> (cb_nodes h)) in
  exists w h3, locate fuel h1 u nb no SRoot = Some w /\
    splice_at h1 a bd w = Some h3 /\ same_env h h3 /\
    exists ns', tree_nodes h3 (Some (splice t u nb no (if bd then 1 else 0) (CLeaf elem u))) ns' /\ ns' ≡ₚ a :: ns.
Proof.
  intros Hrep Hnd Hwf Hf Hno Hu Helem [Ha Hfr] Hn0 h1.
  assert (a ∉ ns) as Hna.
  { intros Hin. destruct (rep_nodes_live _ _ _ _ _ Hrep Hin) as [? E]. congruence. }
  assert (forall p t ns, rep h p t ns -> a ∉ ns -> rep h1 p t ns) as Hframe.
  { intros p0 t0 ns0 Hr0 Hn. apply (rep_frame h); [done| |done]. intros x Hx. simpl.
    apply lookup_insert_ne. by intros ->. }
  destruct (splice_rep h1 a elem u nb no bd n0 Ha Hno Hu Hn0
    ltac:(apply lookup_insert_eq) ltac:(apply Hframe; [done|set_solver])
    t SRoot (cb_root h1) ns fuel) as (w' & h3 & p' & ns' & Hloc & Hsp & Hred & Hrep3 & Hp);
    try done; [by apply Hframe|by apply NoDup_cons|].
  exists w', h3. destruct Hred as (hw & [= <-] & Hroot & Henv & _).
  split_and!; try done. exists ns'. simpl in Hroot. split; [split; [by rewrite Hroot|]|done].
  rewrite Hp. by apply NoDup_cons.
Qed.

(** The nodes of a tree and of the heap after an insertion. *)
Definition grown (newnode : option addr) (h h' : critbit_mem) (ns ns' : list addr) : Prop :=
  (ns' = ns /\ keeps h h') \/ (exists a, newnode = Some a /\ ns' ≡ₚ a :: ns /\ allocates a h h').

Lemma publish_refines fuel h t elem u ns newnode nb no bd :
  rep h (cb_root h) t ns -> NoDup ns -> cwf t -> (height t <= fuel)%nat ->
  one_cold no -> cstr_ok u -> rep h elem (CLeaf elem u) [] -> fresh_node h newnode ->
  let nd := if bd : bool then 1 else 0 in
  exists h' ns', publish fuel h u elem newnode nb no nd =
      Some (if node_ok newnode then 0 else - ENOMEM, h') /\ same_env h h' /\ grown newnode h h' ns ns' /\
    tree_nodes h' (Some (if node_ok newnode then splice t u nb no nd (CLeaf elem u) else t)) ns'.
Proof.
  intros Hrep Hnd Hwf Hf Hno Hu Helem Hfresh nd. unfold publish, critbit_alloc_node_aligned.
  destruct newnode as [a|]; [|exists h, ns; split_and!; try done; by left].
  destruct (set_child (Node 0 0 nb no) (1 - nd) elem) as [n0|] eqn:En;
    [|subst nd; by destruct bd].
  set (h0 := mod_modrefs h 1).
  destruct (insert_tail fuel h0 t elem u a ns nb no bd n0) as (w & h3 & Hl & Hs & He & ns' & Hr & Hp);
    try done; [by apply (rep_frame h)|by apply (rep_frame h)|].
  cbn [cb_nodes mod_modrefs set_nodes]. rewrite lookup_insert_eq. cbn [mbind option_bind n_child0 n_child1]. rewrite En.
  cbn [mbind option_bind]. rewrite insert_insert_eq.
  change (set_nodes _ (<[a := n0]> (cb_nodes h))) with (set_nodes h0 (<[a := n0]> (cb_nodes h0))).
  exists h3, ns'. unfold mbind, option_bind. rewrite Hl.
  unfold splice_at, mbind, option_bind in Hs. destruct (load _ w) as [v|]; [|done].
  fold nd in Hs. destruct (store _ (SChild a nd) v) as [h2|] eqn:Hs2; [|done]. rewrite Hs. split_and!; [done|done| |done].
  right. exists a. split_and!; [done|done|]. eapply allocates_keeps; [|by eapply store_keeps].
  eapply allocates_keeps; [|by eapply store_keeps]. split; [|done]. intros x. simpl.
  rewrite lookup_insert_is_Some. destruct (decide (a = x)); naive_solver.
Qed.

Lemma insert_refines fuel h t ns elem buf newnode :
  tree_nodes h t ns -> cwf_tree t -> (tree_height t <= fuel)%nat ->
  cb_strs h !! elem = Some buf -> 0 ∈ buf -> cstr_ok (c_str buf) ->
  elem <> 0 -> elem mod SMP_CACHE_BYTES = 0 -> fresh_node h newnode ->
  exists h' ns', __critbit_insert fuel h elem newnode =
    Some ((tree_insert (node_ok newnode) t elem (c_str buf)).1, h') /\
    tree_nodes h' (tree_insert (node_ok newnode) t elem (c_str buf)).2 ns' /\ same_env h h' /\ grown newnode h h' ns ns'.
Proof.
  intros Hrep Hwf Hf Hbuf H0 Hok Hnz Hal Hfresh. unfold __critbit_insert.
  rewrite Hbuf. cbn [mbind option_bind]. rewrite load_cstr_some by done. cbn [mbind option_bind].
  rewrite Hal, Z.eqb_refl. cbn [negb].
  assert (rep h elem (CLeaf elem (c_str buf)) []) as Helem
    by (constructor; auto using aligned_not_node).
  destruct t as [t|]; cycle 1.
  { destruct Hrep as [Hrep ->]. rewrite Hrep. eexists _, []. split_and!; [done| |done|by left].
    split; [|constructor]. by apply (rep_frame h). }
  destruct Hrep as [Hrep Hnd]. pose proof (rep_nonzero _ _ _ _ Hrep) as Hr0.
  destruct (Z.eqb_spec (cb_root h) 0); [done|]. unfold tree_insert.
  pose proof (cwalk_ok t (c_str buf) Hwf) as Hp.
  destruct (walk_rep h t (c_str buf) _ _ fuel Hrep Hwf Hok Hf) as (-> & _ & pb & Hpb & Hp0 & Epb).
  cbn [mbind option_bind]. rewrite Hpb. cbn [mbind option_bind]. rewrite <- Epb in *.
  rewrite first_diff_safe by done. cbn [mbind option_bind].
  destruct (find_diff (c_str pb) (c_str buf)) as [[nb raw]|] eqn:Ed;
    [|exists h, ns; split_and!; try done; by left].
  destruct (find_diff_crit _ _ _ _ Hp Hok Ed) as (Hno & _).
  rewrite (diff_byte_safe pb buf Hp0 Hok nb raw Ed). cbn [mbind option_bind].
  rewrite carry_is_bit by eauto with lana.
  generalize (Z.testbit (nth nb (c_str pb) 0) (kbit (new_otherbits raw))). intros bd.
  destruct (publish_refines fuel h t elem (c_str buf) ns newnode nb (new_otherbits raw) bd)
    as (h' & ns' & Hpub & He & Hg & Hr); try done.
  exists h', ns'. rewrite Hpub. by destruct newnode.
Qed.

(** ** Deletion on the heap *)

(** The update [__critbit_delete] makes once the parent is known. *)
Definition unlinked (h h' : critbit_mem) (w : slot) (par : slot * addr * Z) (p : addr)
    (t' : ctree) (ns : list addr) : Prop :=
  let '(whereq, q, dir) := par in
  exists v ns', load h (SChild q (1 - dir)) = Some v /\ store h whereq v = Some h' /\
    redirected h h' w p ns /\ rep h' p t' ns' /\ ns ≡ₚ q :: ns'.

(** The parent of the cut leaf: its slot is redirected to the sibling. *)
Lemma unlink_here h w x n dir s t' ns :
  load h w = Some (1 + x) -> cb_nodes h !! x = Some n ->
  child n (1 - dir) = Some s -> rep h s t' ns -> slot_outside w (x :: ns) ->
  exists h', unlinked h h' w (w, x, dir) s t' (x :: ns).
Proof.
  intros Hw Hx Hs Hrep Hout. destruct (store_defined h w _ s Hw) as [h' Hst].
  exists h', s, ns. assert (redirected h h' w s []) as Hred.
  { exists h'. split_and!; try done. by eapply store_env. }
  split_and!; try done.
  - simpl. by rewrite Hx.
  - eapply redirected_mono; [done|]. set_solver.
  - eapply redirected_frame; [done|done|set_solver|].
    eapply slot_outside_mono; [done|]. set_solver.
Qed.

(** The same, seen from the parent of the subtree that was changed. *)
Section unlinked_up.
Context (h h' : critbit_mem) (w : slot) (x : addr) (n : critbit_node) (p' : addr).
Context (l r t' : ctree) (nl nr : list addr) (par : slot * addr * Z).
Context (Hw : load h w = Some (1 + x)) (Hn : is_node (1 + x) = true).
Context (Hx : cb_nodes h !! x = Some n) (Hl : rep h (n_child0 n) l nl).
Context (Hr : rep h (n_child1 n) r nr) (Hnd : NoDup (x :: nl ++ nr)).

Lemma unlinked_right :
  unlinked h h' (SChild x 1) par p' t' nr ->
  unlinked h h' w par (1 + x) (CNode (n_byte n) (n_otherbits n) l t') (x :: nl ++ nr).
Proof.
  apply NoDup_cons in Hnd as [Hnx (Hndl & Hdis & Hndr)%NoDup_app].
  destruct par as [[wq q] dir]. intros (v & ns' & Hv & Hst & Hred & Hrep' & Hp).
  destruct (update_right h h' w x n p' l r t' nl nr (x :: nl ++ nr) ns' nr)
    as [Hup Hrep3]; try done; [set_solver..|].
  exists v, (x :: nl ++ ns'). split_and!; try done. rewrite Hp. solve_Permutation.
Qed.

Lemma unlinked_left :
  unlinked h h' (SChild x 0) par p' t' nl ->
  unlinked h h' w par (1 + x) (CNode (n_byte n) (n_otherbits n) t' r) (x :: nl ++ nr).
Proof.
  apply NoDup_cons in Hnd as [Hnx (Hndl & Hdis & Hndr)%NoDup_app].
  destruct par as [[wq q] dir]. intros (v & ns' & Hv & Hst & Hred & Hrep' & Hp).
  destruct (update_left h h' w x n p' l r t' nl nr (x :: nl ++ nr) ns' nl)
    as [Hup Hrep3]; try done; [set_solver..|].
  exists v, (x :: ns' ++ nr). split_and!; try done. rewrite Hp. solve_Permutation.
Qed.
End unlinked_up.

Section delete.
Context (h : critbit_mem) (u : cstr) (Hu : cstr_ok u).

Lemma walk_parent_rep t : forall w p ns fuel par,
  load h w = Some p -> rep h p t ns -> NoDup ns -> slot_outside w ns ->
  cwf t -> (height t <= fuel)%nat ->
  match prune t u with
  | None => walk_parent fuel h u w p par = Some ((cwalk t u).1, par)
  | Some t' => exists par' h' p', walk_parent fuel h u w p par = Some ((cwalk t u).1, Some par') /\
      unlinked h h' w par' p' t' ns
  end.
Proof.
  induction t as [b s|b o l IHl r IHr]; intros w p ns fuel par Hw Hrep Hnd Hout Hwf Hf;
    (destruct fuel as [|fuel]; simpl in Hf; [lia|]).
  { inversion Hrep; subst. simpl.
    by match goal with H : is_node _ = false |- _ => rewrite H end. }
  inversion Hrep as [|x n l' r' nl nr Hn Hx Hl Hr]; subst.
  inversion Hwf as [|? ? ? ? Hwl Hwr Ho]; subst.
  pose proof Hnd as [Hnx (Hndl & Hdis & Hndr)%NoDup_app]%NoDup_cons.
  rewrite cwalk_node by done. cbn [prune walk_parent]. rewrite Hn.
  replace (1 + x - 1) with x by lia. rewrite Hx. cbn [mbind option_bind load].
  rewrite Hx. cbn [mbind option_bind]. rewrite direction_sbit by done.
  destruct (sbit u _); cbn [Z.eqb mbind option_bind child].
  - opose proof* (IHr (SChild x 1) (n_child1 n) nr fuel (Some (w, x, 1))) as IH;
      try done; try lia; [by simpl; rewrite Hx|set_solver|].
    pose proof (prune_correct r u Hwr Hu) as Hpr. destruct (prune r u) as [t'|].
    + destruct IH as (par' & h' & p' & Hwk & Hun). exists par', h', (1 + x).
      split; [done|]. by eapply unlinked_right.
    + destruct Hpr as (b & s & ->). inversion Hr; subst. rewrite app_nil_r in *.
      destruct (unlink_here h w x n 1 (n_child0 n) l nl) as [h' Hun]; try done.
      by exists (w, x, 1), h', (n_child0 n).
  - opose proof* (IHl (SChild x 0) (n_child0 n) nl fuel (Some (w, x, 0))) as IH;
      try done; try lia; [by simpl; rewrite Hx|set_solver|].
    pose proof (prune_correct l u Hwl Hu) as Hpr. destruct (prune l u) as [t'|].
    + destruct IH as (par' & h' & p' & Hwk & Hun). exists par', h', (1 + x).
      split; [done|]. by eapply unlinked_left.
    + destruct Hpr as (b & s & ->). inversion Hl; subst. simpl in *.
      destruct (unlink_here h w x n 0 (n_child1 n) r nr) as [h' Hun]; try done.
      by exists (w, x, 0), h', (n_child1 n).
Qed.
End delete.

(** The nodes of a tree and those waiting after a deletion. *)
Definition shrunk (h h' : critbit_mem) (ns ns' : list addr) : Prop :=
  (ns' = ns /\ cb_rcu h' = cb_rcu h) \/ (exists q, ns ≡ₚ q :: ns' /\ cb_rcu h' = cb_rcu h ++ [q]).

Lemma delete_refines fuel h t ns elem :
  tree_nodes h t ns -> cwf_tree t -> (tree_height t <= fuel)%nat ->
  0 ∈ elem -> cstr_ok (c_str elem) ->
  exists h' ns', __critbit_delete fuel h elem = Some ((tree_delete t (c_str elem)).1, h') /\
    tree_nodes h' (tree_delete t (c_str elem)).2 ns' /\ cb_strs h' = cb_strs h /\
    cb_wr_lock h' = cb_wr_lock h /\ cb_rcu_nesting h' = cb_rcu_nesting h /\
    keeps h h' /\ shrunk h h' ns ns'.
Proof.
  intros Hrep Hwf Hf H0 Hok. unfold __critbit_delete. rewrite load_cstr_some by done.
  cbn [mbind option_bind]. destruct t as [t|]; cycle 1.
  { destruct Hrep as [Hrep ->]. rewrite Hrep. exists h, []. split_and!; try done. by left. }
  destruct Hrep as [Hrep Hnd]. pose proof (rep_nonzero _ _ _ _ Hrep) as Hr0.
  destruct (Z.eqb_spec (cb_root h) 0); [done|]. unfold tree_delete.
  destruct (walk_rep h t (c_str elem) _ _ fuel Hrep Hwf Hok Hf) as (_ & _ & pb & Hpb & Hp0 & Epb).
  opose proof* (walk_parent_rep h (c_str elem) Hok t SRoot (cb_root h) ns fuel None) as Hwp; try done.
  pose proof (prune_correct t (c_str elem) Hwf Hok) as Hpr.
  destruct (prune t (c_str elem)) as [t'|] eqn:Et.
  - destruct Hwp as ([[wq q] dir] & h' & p' & -> & v & ns' & Hv & Hst & Hred & Hrep' & Hp).
    cbn [mbind option_bind]. rewrite Hpb. cbn [mbind option_bind].
    rewrite load_cstr_some by done. cbn [mbind option_bind]. rewrite Epb.
    case_bool; cbn [negb]; [|exists h, ns; split_and!; try done; by left].
    rewrite Hv. cbn [mbind option_bind]. rewrite Hst. cbn [mbind option_bind].
    destruct Hred as (hw & [= <-] & Hroot & Henv & _).
    exists (add_rcu h' q), ns'. split_and!; try apply Henv; [done| |exact (store_keeps _ _ _ _ Hst)|].
    + simpl in *. rewrite Hroot. split; [by apply (rep_frame h')|].
      rewrite Hp in Hnd. by apply NoDup_cons in Hnd as [_ ?].
    + right. exists q. split; [done|]. simpl. destruct Henv as (_ & -> & _). done.
  - rewrite Hwp. cbn [mbind option_bind]. rewrite Hpb. cbn [mbind option_bind].
    rewrite load_cstr_some by done. cbn [mbind option_bind]. rewrite Epb.
    case_bool; cbn [negb]; [|exists h, ns; split_and!; try done; by left].
    assert (ns = []) as -> by (destruct t; [by inversion Hrep|simpl in Et; by repeat case_match]).
    exists (set_root h 0), []. split_and!; try done. by left.
Qed.

(** ** Fuel: a path is no longer than the number of live nodes *)

Lemma height_nodes h p t ns : rep h p t ns -> (height t <= S (length ns))%nat.
Proof. induction 1; simpl; [lia|]. rewrite length_app. lia. Qed.

Lemma live_length h p t ns : rep h p t ns -> NoDup ns -> (length ns <= size (cb_nodes h))%nat.
Proof.
  intros Hrep Hnd. rewrite <- (size_dom (D := gset addr) (cb_nodes h)).
  rewrite <- (size_list_to_set (C := gset addr) ns) by done.
  apply subseteq_size. intros x Hx%elem_of_list_to_set. apply elem_of_dom.
  by eapply rep_nodes_live.
Qed.

Lemma height_fuel h t : rep_tree h t -> (tree_height t <= S (size (cb_nodes h)))%nat.
Proof.
  destruct t as [t|]; simpl; [|lia]. intros (ns & Hrep & Hnd).
  pose proof (height_nodes _ _ _ _ Hrep). pose proof (live_length _ _ _ _ Hrep Hnd). lia.
Qed.

(** ** The node cache *)

(** [struct critbit_node_cache]: whether the slab cache exists, and the
    number of users. *)
Record critbit_node_cache := Cache { cc_cache : bool; cc_refcnt : Z }.

(** [critbit_node_cache_init]; [ok] is whether [kmem_cache_create] succeeds. *)
Definition critbit_node_cache_init (ok : bool) (c : critbit_node_cache) : Z * critbit_node_cache :=
  (if ok then 0 else - ENOMEM, Cache ok 1).

(** [None] is the [panic]. *)
Definition get_critbit_cache (ok : bool) (c : critbit_node_cache) : option critbit_node_cache :=
  if cc_refcnt c =? 0 then
    let '(ret, c') := critbit_node_cache_init ok c in
    if negb (ret =? 0) then None else Some c'
  else Some (Cache (cc_cache c) (cc_refcnt c + 1)).

Definition critbit_node_cache_destroy (c : critbit_node_cache) : critbit_node_cache :=
  Cache false (cc_refcnt c).

Definition put_critbit_cache (c : critbit_node_cache) : critbit_node_cache :=
  let c' := Cache (cc_cache c) (cc_refcnt c - 1) in
  if negb (cc_refcnt c' =? 0) then c' else critbit_node_cache_destroy c'.

(** A history of users: [true] is a [get], [false] a [put] by one of them. *)
Fixpoint cache_users (ok : bool) (c : critbit_node_cache) (l : list bool) : option critbit_node_cache :=
  match l with
  | [] => Some c
  | true :: l' => get_critbit_cache ok c ≫= fun c' => cache_users ok c' l'
  | false :: l' => cache_users ok (put_critbit_cache c) l'
  end.

(** The users outstanding after a history that never puts more than it got. *)
Fixpoint balance (n : nat) (l : list bool) : option nat :=
  match l with
  | [] => Some n
  | true :: l' => balance (S n) l'
  | false :: l' => match n with O => None | S n' => balance n' l' end
  end.

Definition cache_for (n : nat) : critbit_node_cache := Cache (0 <? n)%nat (Z.of_nat n).

Lemma cache_users_balance l : forall n m,
  balance n l = Some m -> cache_users true (cache_for n) l = Some (cache_for m).
Proof.
  assert (forall n, get_critbit_cache true (cache_for n) = Some (cache_for (S n))) as Hg.
  { intros [|n]; [done|]. unfold get_critbit_cache, cache_for. cbn [cc_refcnt cc_cache].
    destruct (Z.eqb_spec (Z.of_nat (S n)) 0); [lia|]. do 2 f_equal. lia. }
  assert (forall n, put_critbit_cache (cache_for (S n)) = cache_for n) as Hp.
  { intros n. unfold put_critbit_cache, cache_for. cbn [cc_refcnt cc_cache].
    replace (Z.of_nat (S n) - 1) with (Z.of_nat n) by lia. by destruct n. }
  induction l as [|[|] l IH]; intros n m; cbn [cache_users balance]; [by intros [= ->]|..].
  - rewrite Hg. apply IH.
  - destruct n as [|n]; [done|]. rewrite Hp. apply IH.
Qed.

(** ** The contract of the library *)

(** The heap [h] holds the finite map [m] from strings to element
    addresses. *)
Definition holds (h : critbit_mem) (m : gmap cstr addr) : Prop :=
  exists t, rep_tree h t /\ cwf_tree t /\ tree_map t = m.

(** [elem] is an element the API accepts: a cache-line aligned, NUL-terminated
    string in memory. *)
Definition good_elem (h : critbit_mem) (elem : addr) (u : cstr) : Prop :=
  elem <> 0 /\ elem mod SMP_CACHE_BYTES = 0 /\ cstr_ok u /\
  exists buf, cb_strs h !! elem = Some buf /\ 0 ∈ buf /\ c_str buf = u.

(** A key passed by the caller: bytes with a NUL among them. *)
Definition good_key (elem : list Z) : Prop := 0 ∈ elem /\ Forall is_byte elem.

Lemma good_key_ok elem : good_key elem -> 0 ∈ elem /\ cstr_ok (c_str elem).
Proof. intros [H0 Hb]. split; [done|]. by apply c_str_ok. Qed.

Lemma tree_nodes_env h h' t ns :
  tree_nodes h t ns -> cb_nodes h' = cb_nodes h -> cb_strs h' = cb_strs h ->
  cb_root h' = cb_root h -> tree_nodes h' t ns.
Proof.
  intros Hr Hn Hs Hrt. destruct t as [t|]; simpl in *; rewrite Hrt; [|done].
  destruct Hr as [Hr Hnd]. split; [|done]. apply (rep_frame h); [done|by rewrite Hn|done].
Qed.

Lemma rep_tree_env h h' t :
  rep_tree h t -> cb_nodes h' = cb_nodes h -> cb_strs h' = cb_strs h ->
  cb_root h' = cb_root h -> rep_tree h' t.
Proof.
  intros [ns Hr] Hn Hs Hrt. exists ns. by eapply tree_nodes_env.
Qed.

Lemma holds_env h h' m :
  holds h m -> cb_nodes h' = cb_nodes h -> cb_strs h' = cb_strs h ->
  cb_root h' = cb_root h -> holds h' m.
Proof. intros (t & Hr & Hwf & Hm) Hn Hs Hrt. exists t. split_and!; eauto using rep_tree_env. Qed.

(** A tree has a node less than it has leaves. *)
Lemma rep_leaves h p t ns : rep h p t ns -> S (length ns) = length (leaves t).
Proof.
  induction 1 as [|a n l r nl nr _ _ _ IHl _ IHr]; [done|]. simpl. rewrite !length_app. lia.
Qed.

Lemma tree_map_size t : cwf_tree t -> size (tree_map t) = length (tree_leaves t).
Proof.
  intros Hwf. unfold tree_map. rewrite map_size_list_to_map by (by apply tree_leaves_NoDup). apply length_fmap.
Qed.

Lemma tree_nodes_length h t ns : tree_nodes h t ns -> cwf_tree t -> length ns = pred (size (tree_map t)).
Proof.
  intros Hn Hwf. rewrite tree_map_size by done. destruct t as [t|]; [|by destruct Hn as [_ ->]].
  destruct Hn as [Hr _]. simpl. by rewrite <- (rep_leaves _ _ _ _ Hr).
Qed.

(** The nodes below a pointer are determined by the heap. *)
Lemma rep_inj h p t1 ns1 : rep h p t1 ns1 -> forall t2 ns2, rep h p t2 ns2 -> t1 = t2 /\ ns1 = ns2.
Proof.
  induction 1 as [p buf Hp Hn Hb H0|a n l r nl nr Hn Ha Hl IHl Hr IHr]; intros t2 ns2 H2.
  - inversion H2; subst; [|congruence]. by simplify_map_eq.
  - inversion H2 as [|a' n' l' r' nl' nr' Hn' Ha' Hl' Hr' Ea]; subst; [congruence|].
    assert (a' = a) as -> by lia. rewrite Ha in Ha'. injection Ha' as <-.
    destruct (IHl _ _ Hl') as [-> ->], (IHr _ _ Hr') as [-> ->]. done.
Qed.

Lemma tree_nodes_inj h t1 ns1 t2 ns2 : tree_nodes h t1 ns1 -> tree_nodes h t2 ns2 -> ns1 = ns2.
Proof.
  destruct t1 as [t1|], t2 as [t2|]; simpl.
  - intros [H1 _] [H2 _]. by destruct (rep_inj _ _ _ _ H1 _ _ H2).
  - intros [H1%rep_nonzero _] [H2 _]. done.
  - intros [H1 _] [H2%rep_nonzero _]. done.
  - by intros [_ ->] [_ ->].
Qed.

(** The node at [q] is part of the tree. *)
Definition linked (h : critbit_mem) (q : addr) : Prop := exists t ns, tree_nodes h t ns /\ q ∈ ns.

(** The effect of a deletion on the nodes: with more than one string in the
    map the parent of the deleted one is taken out and handed to [call_rcu],
    still allocated; otherwise nothing is. *)
Definition retired (h h' : critbit_mem) (deleted : bool) : Prop :=
  if deleted
  then exists q, linked h q /\ ~ linked h' q /\ is_Some (cb_nodes h' !! q) /\ cb_rcu h' = cb_rcu h ++ [q]
  else cb_rcu h' = cb_rcu h.

Lemma shrunk_retired h h' t t' ns ns' u :
  tree_nodes h t ns -> tree_nodes h' t' ns' -> cwf_tree t -> cwf_tree t' ->
  tree_map t' = (delete_spec (tree_map t) u).2 -> keeps h h' -> shrunk h h' ns ns' ->
  retired h h' (bool_decide (is_Some (tree_map t !! u)) && (1 <? size (tree_map t))%nat).
Proof.
  intros Hr Hr' Hwf Hwf' Hm [Hk _] Hs. pose proof (tree_nodes_length _ _ _ Hr Hwf) as Hl.
  pose proof (tree_nodes_length _ _ _ Hr' Hwf') as Hl'. rewrite Hm in Hl'. unfold delete_spec, retired in *.
  destruct Hs as [[-> Hq]|(q & Hp & Hq)].
  - destruct (tree_map t !! u) as [a|] eqn:Eu; simpl in *; [|done].
    rewrite map_size_delete_Some in Hl' by done. destruct (Nat.ltb_spec 1 (size (tree_map t))); [lia|done].
  - assert (length ns = S (length ns')) as Hlen by (rewrite Hp; done).
    destruct (tree_map t !! u) as [a|] eqn:Eu; simpl in *; [|lia].
    rewrite map_size_delete_Some in Hl' by done. destruct (Nat.ltb_spec 1 (size (tree_map t))); [|lia].
    assert (q ∈ ns) as Hin by (rewrite Hp; set_solver).
    assert (NoDup ns) as Hnd by (destruct t; [apply Hr|destruct Hr as [_ ->]; constructor]).
    exists q. split_and!; [by exists t, ns| |apply Hk|done].
    + intros (t2 & ns2 & H2 & Hq2). rewrite <- (tree_nodes_inj _ _ _ _ _ Hr' H2) in Hq2.
      rewrite Hp in Hnd. by apply NoDup_cons in Hnd as [? _].
    + destruct t as [t|]; [|by destruct Hr as [_ ->]; apply elem_of_nil in Hin]. by eapply rep_nodes_live; [apply Hr|].
Qed.

(** C1: on a heap that holds the map [m], [critbit_get] and [critbit_contains]
    return, without a bad access, the element stored under the key (NULL if
    there is none) and whether there is one; they change nothing. *)
Theorem critbit_lookup_correct (h : critbit_mem) (m : gmap cstr addr) (elem : list Z) (fuel : nat) :
  holds h m -> good_key elem -> (size (cb_nodes h) < fuel)%nat ->
  critbit_get fuel h elem = Some (default 0 (m !! c_str elem), h) /\
  critbit_contains fuel h elem = Some (if bool_decide (is_Some (m !! c_str elem)) then 1 else 0, h).
Proof.
  intros (t & Hr & Hwf & <-) [H0 Hok]%good_key_ok Hf. unfold critbit_get, critbit_contains.
  destruct (get_refines fuel (rcu_read_lock h) t elem) as [-> ->]; try done; [by eapply rep_tree_env|simpl; lia| |].
  { pose proof (height_fuel h t Hr). lia. }
  rewrite tree_contains_get, tree_get_spec by done. destruct h. simpl.
  split; [done|]. by destruct (tree_map t !! _).
Qed.

(** C2: [critbit_insert] refines insertion into the finite map: the return
    code and the map afterwards are those of [insert_spec] ([-EEXIST] for a
    stored key, [-ENOMEM] with nothing changed when no node is available, 0
    otherwise), no access is bad, and the write lock is free again. *)
Theorem critbit_insert_correct (h : critbit_mem) (m : gmap cstr addr) (elem : addr) (u : cstr)
    (newnode : option addr) (fuel : nat) :
  holds h m -> good_elem h elem u -> fresh_node h newnode -> cb_wr_lock h = false ->
  (size (cb_nodes h) < fuel)%nat ->
  exists h', critbit_insert fuel h elem newnode
      = Some ((insert_spec (node_ok newnode) m elem u).1, h') /\
    holds h' (insert_spec (node_ok newnode) m elem u).2 /\
    cb_strs h' = cb_strs h /\ cb_wr_lock h' = false.
Proof.
  intros (t & [ns Hr] & Hwf & <-) (Hnz & Hal & Hok & buf & Hb & H0 & <-) Hfr Hlk Hf.
  unfold critbit_insert, spin_lock. rewrite Hlk. cbn [mbind option_bind].
  destruct (insert_refines fuel (set_wr_lock h true) t ns elem buf newnode)
    as (h' & ns' & -> & Hr' & He & _); try done; [by eapply tree_nodes_env| |].
  { pose proof (height_fuel h t (ex_intro _ ns Hr)). lia. }
  destruct (tree_insert_spec (node_ok newnode) t elem (c_str buf) Hwf Hok) as [Hwf' <-].
  cbn [mbind option_bind fst snd]. eexists. split_and!; [done| |apply He|done].
  eexists. split_and!; [exists ns'; by eapply tree_nodes_env|done|done].
Qed.

(** C3: [critbit_delete] refines deletion from the finite map: 0 and the key
    gone if it was stored, [-ENOENT] and nothing changed if another key is
    stored, 0 on the empty tree; no access is bad and the lock is free again.
    When a string was deleted and others remain, exactly one node, which was
    part of the tree and no longer is, is handed to [call_rcu] and stays
    allocated for the readers; otherwise no node is. *)
Theorem critbit_delete_correct (h : critbit_mem) (m : gmap cstr addr) (elem : list Z) (fuel : nat) :
  holds h m -> good_key elem -> cb_wr_lock h = false -> (size (cb_nodes h) < fuel)%nat ->
  exists h', critbit_delete fuel h elem = Some ((delete_spec m (c_str elem)).1, h') /\
    holds h' (delete_spec m (c_str elem)).2 /\ cb_strs h' = cb_strs h /\ cb_wr_lock h' = false /\
    retired h h' (bool_decide (is_Some (m !! c_str elem)) && (1 <? size m)%nat).
Proof.
  intros (t & [ns Hr] & Hwf & <-) [H0 Hok]%good_key_ok Hlk Hf.
  unfold critbit_delete, spin_lock. rewrite Hlk. cbn [mbind option_bind].
  destruct (delete_refines fuel (set_wr_lock h true) t ns elem)
    as (h' & ns' & -> & Hr' & He & _ & _ & Hk & Hs); try done; [by eapply tree_nodes_env| |].
  { pose proof (height_fuel h t (ex_intro _ ns Hr)). lia. }
  destruct (tree_delete_spec t (c_str elem) Hwf Hok) as [Hwf' Hd]. rewrite <- Hd.
  cbn [mbind option_bind fst snd]. assert (Hr2 : tree_nodes (spin_unlock h') (tree_delete t (c_str elem)).2 ns')
    by (by eapply tree_nodes_env). eexists. split_and!; [done| |done|done|].
  - eexists. split_and!; [by exists ns'|done|done].
  - eapply shrunk_retired; [exact Hr|exact Hr2|done|done|by rewrite <- Hd|exact Hk|exact Hs].
Qed.

(** ** Witnesses *)

(** One element, the string [a] at address 64, as the root. *)
Definition mem_a : critbit_mem :=
  Mem ∅ {[ 64 := [97; 0]; 128 := [98; 99; 0] ]} 64 [] 0 false 0.

Lemma mem_a_holds : holds mem_a {[ [97] := 64 ]}.
Proof.
  exists (Some (CLeaf 64 [97])). split_and!.
  - exists []. split; [|constructor]. apply (rep_leaf mem_a 64 [97; 0]); try done. set_solver.
  - constructor. repeat constructor; lia.
  - done.
Defined.

Lemma critbit_insert_correct_witness :
  exists h', critbit_insert 1 mem_a 128 (Some 512) = Some (0, h') /\
    holds h' {[ [98; 99] := 128; [97] := 64 ]} /\ cb_strs h' = cb_strs mem_a /\
    cb_wr_lock h' = false.
Proof.
  apply (critbit_insert_correct mem_a {[ [97] := 64 ]} 128 [98; 99] (Some 512) 1 mem_a_holds).
  - split_and!; [lia|done|repeat constructor; lia|]. exists [98; 99; 0]. split_and!; [done|set_solver|done].
  - by split.
  - done.
  - vm_compute. lia.
Defined.

(** ** Shape and order *)

Lemma tree_map_inj t1 t2 :
  cwf_tree t1 -> cwf_tree t2 -> tree_map t1 = tree_map t2 -> t1 = t2.
Proof.
  intros H1 H2 E. destruct t1 as [t1|], t2 as [t2|]; try done.
  - f_equal. apply cwf_unique; try done.
    assert (forall t, cwf t -> NoDup (leaves t)) as Hnd.
    { intros t Ht. apply (NoDup_fmap_1 snd). by apply cwf_NoDup. }
    apply NoDup_Permutation; auto. intros [a s].
    change ((a, s) ∈ tree_leaves (Some t1) <-> (a, s) ∈ tree_leaves (Some t2)).
    rewrite <- !tree_map_Some by done. by rewrite E.
  - by apply (tree_map_empty (Some t1)) in E.
  - symmetry in E. by apply (tree_map_empty (Some t2)) in E.
Qed.

(** reading the leaves from left to right visits the stored strings in
    [strcmp] order, each exactly once; in particular the leftmost leaf is the
    smallest string. *)
Theorem critbit_inorder_sorted (h : critbit_mem) (m : gmap cstr addr) :
  holds h m ->
  exists t, rep_tree h t /\
    StronglySorted (fun s1 s2 => strcmp s1 s2 = -1) (tree_leaves t).*2 /\
    forall s, s ∈ (tree_leaves t).*2 <-> is_Some (m !! s).
Proof.
  intros (t & Hr & Hw & <-). exists t. split_and!; [done|..].
  - destruct t as [t|]; [|constructor]. by apply cwf_sorted.
  - intros s. rewrite list_elem_of_fmap. split.
    + intros ([a s'] & -> & Hin). exists a. by apply tree_map_Some.
    + intros [a Ha%tree_map_Some]; [|done]. by exists (a, s).
Qed.

Lemma critbit_inorder_sorted_witness :
  exists t, rep_tree mem_a t /\
    StronglySorted (fun s1 s2 => strcmp s1 s2 = -1) (tree_leaves t).*2 /\
    forall s, s ∈ (tree_leaves t).*2 <-> is_Some (({[ [97] := 64 ]} : gmap cstr addr) !! s).
Proof. apply (critbit_inorder_sorted mem_a). exact mem_a_holds. Defined.

(** the node cache exists exactly while it has users: after any history of
    [get_critbit_cache] and [put_critbit_cache] that puts no more than it got,
    the reference count is the number of users and the cache exists iff that
    number is positive. *)
Theorem critbit_cache_lifetime (l : list bool) (n : nat) :
  balance 0 l = Some n ->
  cache_users true (Cache false 0) l = Some (Cache (0 <? n)%nat (Z.of_nat n)).
Proof. apply (cache_users_balance l 0 n). Qed.

Lemma critbit_cache_lifetime_witness :
  cache_users true (Cache false 0) [true; true; false; false; true] = Some (Cache true 1).
Proof. apply (critbit_cache_lifetime [true; true; false; false; true] 1). reflexivity. Defined.
