(* ===== verification/CritbitNodes.v ===== *)
(** * The memory of crit-bit trees

    Where the nodes of src/xt_critbit.c are: every allocated node is in the
    tree or waits for the end of a grace period, and the module has a
    reference for each of them.  An invariant of all histories of insertions,
    deletions and grace periods; and two histories that lead to the same
    strings lead to the same tree. *)
From Stdlib Require Import ZArith Lia.
From stdpp Require Import base gmap numbers sorting list relations.
From S2P Require Import Prelude CString CritbitTree Critbit.

Local Open Scope Z_scope.

(** The heap holds [m]; its nodes are those of the tree and those that wait,
    all different, and they are counted. *)
Record accounted (h : critbit_mem) (m : gmap cstr addr) (t : critbit_tree) (ns : list addr) : Prop := {
  ac_tree : tree_nodes h t ns;
  ac_wf : cwf_tree t;
  ac_map : tree_map t = m;
  ac_nodup : NoDup (ns ++ cb_rcu h);
  ac_nodes : forall x, is_Some (cb_nodes h !! x) <-> x ∈ ns ++ cb_rcu h;
  ac_modrefs : cb_modrefs h = Z.of_nat (length (ns ++ cb_rcu h));
  ac_lock : cb_wr_lock h = false;
}.

(** As many nodes are allocated as there are in the list. *)
Lemma nodes_size h (l : list addr) :
  NoDup l -> (forall x, is_Some (cb_nodes h !! x) <-> x ∈ l) -> size (cb_nodes h) = length l.
Proof.
  intros Hnd Hx. rewrite <- (size_dom (D := gset addr)), <- (size_list_to_set (C := gset addr) l) by done.
  f_equal. apply set_eq. intros x. by rewrite elem_of_dom, elem_of_list_to_set.
Qed.

Section steps.
Variables (h : critbit_mem) (m : gmap cstr addr) (t : critbit_tree) (ns : list addr).
Hypothesis Hac : accounted h m t ns.

Lemma accounted_fuel : (tree_height t <= S (size (cb_nodes h)))%nat.
Proof. apply height_fuel. exists ns. apply Hac. Qed.

Lemma insert_accounted elem u newnode :
  good_elem h elem u -> fresh_node h newnode ->
  exists h' t' ns', critbit_insert (S (size (cb_nodes h))) h elem newnode
      = Some ((insert_spec (node_ok newnode) m elem u).1, h') /\
    accounted h' (insert_spec (node_ok newnode) m elem u).2 t' ns' /\ cb_strs h' = cb_strs h.
Proof.
  pose proof accounted_fuel as Hf. destruct Hac as [Hr Hwf <- Hnd Hns Hmod Hlk].
  intros (Hnz & Hal & Hok & buf & Hb & H0 & <-) Hfr.
  unfold critbit_insert, spin_lock. rewrite Hlk. cbn [mbind option_bind].
  destruct (insert_refines (S (size (cb_nodes h))) (set_wr_lock h true) t ns elem buf newnode)
    as (h' & ns' & -> & Hr' & (He1 & He2 & _) & Hg); try done; [by eapply tree_nodes_env|].
  destruct (tree_insert_spec (node_ok newnode) t elem (c_str buf) Hwf Hok) as [Hwf' <-].
  cbn [mbind option_bind fst snd]. eexists _, _, ns'. split; [done|]. split; [|exact He1].
  assert (tree_nodes (spin_unlock h') (tree_insert (node_ok newnode) t elem (c_str buf)).2 ns')
    by (by eapply tree_nodes_env).
  destruct Hg as [(-> & Hk & Hm)|(a & -> & Hp & Hk & Hm)]; split; try done; cbn [cb_rcu cb_nodes cb_modrefs spin_unlock set_wr_lock] in *.
  - by rewrite He2.
  - intros x. by rewrite Hk, He2.
  - by rewrite Hm, He2.
  - rewrite He2, Hp. cbn [app]. apply NoDup_cons. split; [|done]. intros Hin%Hns. destruct Hfr as [_ Hfr]. simpl in Hfr.
    rewrite Hfr in Hin. by destruct Hin.
  - intros x. rewrite Hk, Hns, He2, Hp. cbn [app]. by rewrite elem_of_cons.
  - rewrite Hm, Hmod, He2, Hp. cbn [app length]. lia.
Qed.

Lemma delete_accounted key :
  good_key key ->
  exists h' t' ns', critbit_delete (S (size (cb_nodes h))) h key = Some ((delete_spec m (c_str key)).1, h') /\
    accounted h' (delete_spec m (c_str key)).2 t' ns' /\ cb_strs h' = cb_strs h.
Proof.
  pose proof accounted_fuel as Hf. destruct Hac as [Hr Hwf <- Hnd Hns Hmod Hlk]. intros [H0 Hok]%good_key_ok.
  unfold critbit_delete, spin_lock. rewrite Hlk. cbn [mbind option_bind].
  destruct (delete_refines (S (size (cb_nodes h))) (set_wr_lock h true) t ns key)
    as (h' & ns' & -> & Hr' & Hst & _ & _ & (Hk & Hm) & Hs); try done; [by eapply tree_nodes_env|].
  destruct (tree_delete_spec t (c_str key) Hwf Hok) as [Hwf' <-].
  cbn [mbind option_bind fst snd]. eexists _, _, ns'. split; [done|]. split; [|exact Hst].
  assert (tree_nodes (spin_unlock h') (tree_delete t (c_str key)).2 ns') by (by eapply tree_nodes_env).
  assert (ns' ++ cb_rcu h' ≡ₚ ns ++ cb_rcu h) as Hp.
  { destruct Hs as [[-> ->]|(q & -> & ->)]; [done|]. simpl. rewrite (Permutation_app_comm (cb_rcu h)). simpl.
    by rewrite <- Permutation_middle. }
  split; try done; cbn [cb_rcu cb_nodes cb_modrefs spin_unlock set_wr_lock] in *.
  - by rewrite Hp.
  - intros x. by rewrite Hk, Hns, Hp.
  - by rewrite Hm, Hmod, Hp.
Qed.

(** The node is given back once; the tree does not see it. *)
Lemma free_accounted q :
  q ∈ cb_rcu h -> exists h', critbit_do_free_rcu h q = Some h' /\ accounted h' m t ns /\
    length (cb_rcu h) = S (length (cb_rcu h')) /\ cb_strs h' = cb_strs h.
Proof.
  destruct Hac as [Hr Hwf <- Hnd Hns Hmod Hlk]. intros Hq.
  destruct (proj2 (Hns q)) as [n Hn]; [set_solver|].
  unfold critbit_do_free_rcu, critbit_free_node. cbn [cb_nodes]. rewrite Hn. cbn [mbind option_bind].
  eexists. split; [done|]. apply NoDup_app in Hnd as (Hnd1 & Hdis & Hnd2).
  assert (q :: filter (.≠ q) (cb_rcu h) ≡ₚ cb_rcu h) as Hp.
  { apply NoDup_Permutation; [|done|].
    - apply NoDup_cons. split; [|by apply NoDup_filter]. rewrite list_elem_of_filter. naive_solver.
    - intros x. rewrite elem_of_cons, list_elem_of_filter. destruct (decide (x = q)) as [->|]; naive_solver. }
  split; [|split; [by rewrite <- Hp at 1|done]].
  split; try done; cbn [cb_rcu cb_nodes cb_modrefs mod_modrefs set_nodes].
  - destruct t as [t'|]; [|done]. destruct Hr as [Hr Hnn]. split; [|done]. simpl.
    eapply rep_frame; [exact Hr| |done]. intros x Hx. simpl. rewrite lookup_delete_ne; [done|].
    intros <-. by apply (Hdis q Hx).
  - apply NoDup_app. split; [done|]. split; [|by apply NoDup_filter]. intros x Hx [_ Hx']%list_elem_of_filter.
    by apply (Hdis x Hx).
  - intros x. destruct (decide (x = q)) as [->|Hne].
    + rewrite lookup_delete_eq, elem_of_app, list_elem_of_filter. split; [by intros []|].
      intros [Hx|[? _]]; [|done]. by destruct (Hdis q Hx).
    + rewrite lookup_delete_ne, Hns, !elem_of_app, list_elem_of_filter by done. tauto.
  - rewrite Hmod. rewrite <- Hp at 1. rewrite !length_app. simpl. lia.
Qed.
End steps.

(** ** Histories *)

(** The operations, and the end of a grace period for a node. *)
Inductive critbit_op :=
| Op_insert (elem : addr) (newnode : option addr)
| Op_delete (key : list Z)
| Op_free (q : addr).

Inductive critbit_does : critbit_mem -> critbit_op -> critbit_mem -> Prop :=
| does_insert h elem u newnode r h' :
    good_elem h elem u -> fresh_node h newnode ->
    critbit_insert (S (size (cb_nodes h))) h elem newnode = Some (r, h') ->
    critbit_does h (Op_insert elem newnode) h'
| does_delete h key r h' :
    good_key key -> critbit_delete (S (size (cb_nodes h))) h key = Some (r, h') -> critbit_does h (Op_delete key) h'
| does_free h q h' :
    q ∈ cb_rcu h -> critbit_do_free_rcu h q = Some h' -> critbit_does h (Op_free q) h'.

Definition critbit_step (h h' : critbit_mem) : Prop := exists op, critbit_does h op h'.

(** A history of operations and where it leads. *)
Inductive history : critbit_mem -> list critbit_op -> critbit_mem -> Prop :=
| history_nil h : history h [] h
| history_cons h op h1 ops h2 : critbit_does h op h1 -> history h1 ops h2 -> history h (op :: ops) h2.

(** What the operations mean for the map; [strs] are the strings at the
    addresses of the elements. *)
Definition op_spec (strs : gmap addr (list Z)) (m : gmap cstr addr) (op : critbit_op) : gmap cstr addr :=
  match op with
  | Op_insert elem newnode => (insert_spec (node_ok newnode) m elem (c_str (default [] (strs !! elem)))).2
  | Op_delete key => (delete_spec m (c_str key)).2
  | Op_free _ => m
  end.

Definition history_spec (strs : gmap addr (list Z)) (ops : list critbit_op) : gmap cstr addr :=
  fold_left (op_spec strs) ops ∅.

Lemma does_accounted h op h' m t ns :
  critbit_does h op h' -> accounted h m t ns ->
  cb_strs h' = cb_strs h /\ exists t' ns', accounted h' (op_spec (cb_strs h) m op) t' ns'.
Proof.
  intros Hdo Hac. destruct Hdo as [h elem u newnode r h' He Hf Hr|h key r h' Hk Hr|h q h' Hq Hr].
  - destruct (insert_accounted h m t ns Hac elem u newnode He Hf) as (h2 & t2 & ns2 & Hrun & Ha & Hs). rewrite Hrun in Hr.
    simplify_eq. split; [done|]. destruct He as (_ & _ & _ & buf & Hb & _ & <-). simpl. rewrite Hb. by eexists _, _.
  - destruct (delete_accounted h m t ns Hac key Hk) as (h2 & t2 & ns2 & Hrun & Ha & Hs). rewrite Hrun in Hr.
    simplify_eq. split; [done|]. by eexists _, _.
  - destruct (free_accounted h m t ns Hac q Hq) as (h2 & Hrun & Ha & _ & Hs). rewrite Hrun in Hr. simplify_eq.
    split; [done|]. by eexists _, _.
Qed.

Lemma history_accounted ops : forall h h' m t ns,
  history h ops h' -> accounted h m t ns ->
  exists t' ns', accounted h' (fold_left (op_spec (cb_strs h)) ops m) t' ns'.
Proof.
  induction ops as [|op ops IH]; intros h h' m t ns Hh Hac; inversion Hh as [|? ? h1 ? ? Hdo Hrest]; subst; [eauto|].
  destruct (does_accounted _ _ _ _ _ _ Hdo Hac) as (Hs & t1 & ns1 & Hac1). simpl.
  pose proof (IH _ _ _ _ _ Hrest Hac1) as Hend. by rewrite Hs in Hend.
Qed.

Definition is_accounted (h : critbit_mem) : Prop := exists m t ns, accounted h m t ns.

Lemma step_accounted h h' : critbit_step h h' -> is_accounted h -> is_accounted h'.
Proof.
  intros [op Hdo] (m & t & ns & Hac). destruct (does_accounted _ _ _ _ _ _ Hdo Hac) as (_ & t' & ns' & Hac').
  by eexists _, _, _.
Qed.

(** The empty tree, with the strings the callers will use in memory. *)
Definition no_nodes (strs : gmap addr (list Z)) : critbit_mem := Mem ∅ strs 0 [] 0 false 0.

Lemma no_nodes_accounted strs : accounted (no_nodes strs) ∅ None [].
Proof. split; try done; [constructor|]. intros x. simpl. rewrite lookup_empty, elem_of_nil. split; [by intros []|done]. Qed.

Lemma reachable_accounted strs h : rtc critbit_step (no_nodes strs) h -> is_accounted h.
Proof.
  intros Hr. assert (is_accounted (no_nodes strs)) as Ha by (eexists _, _, _; apply no_nodes_accounted).
  induction Hr as [|h1 h2 h3 Hs _ IH]; [done|]. by apply IH, (step_accounted h1).
Qed.

(** C5: after any history of insertions, deletions and ends of grace periods,
    in any order, no node is lost or shared: the tree holds a map with one
    node less than it has strings, all other allocated nodes wait for the end
    of a grace period, and the module has exactly one reference for each
    allocated node, so that it can be unloaded when the strings are gone and
    the callbacks done.  The lock is free, and a callback never frees a node
    that is not there. *)
Theorem critbit_no_leak strs h :
  rtc critbit_step (no_nodes strs) h ->
  exists m, holds h m /\ cb_wr_lock h = false /\
    size (cb_nodes h) = (pred (size m) + length (cb_rcu h))%nat /\
    cb_modrefs h = Z.of_nat (size (cb_nodes h)) /\
    (forall q, q ∈ cb_rcu h -> is_Some (critbit_do_free_rcu h q)).
Proof.
  intros (m & t & ns & Hac)%reachable_accounted. pose proof Hac as [Hr Hwf <- Hnd Hns Hmod Hlk].
  exists (tree_map t). split; [exists t; split_and!; [by exists ns|done|done]|]. split; [done|].
  pose proof (tree_nodes_length _ _ _ Hr Hwf) as Hl. pose proof (nodes_size _ _ Hnd Hns) as Hs.
  rewrite Hs, Hmod, length_app, Hl. split; [done|]. split; [done|]. intros q Hq.
  destruct (free_accounted h _ t ns Hac q Hq) as (h' & -> & _). done.
Qed.

(** C4: the tree does not depend on its history.  Two histories of insertions,
    deletions and ends of grace periods from the empty tree, however different,
    that come to the same map lead to the same tree: the same inner nodes with
    the same bytes and masks, and the same elements in the leaves.  The map is
    what the operations say it is. *)
Theorem critbit_history_independent strs ops1 ops2 h1 h2 :
  history (no_nodes strs) ops1 h1 -> history (no_nodes strs) ops2 h2 ->
  history_spec strs ops1 = history_spec strs ops2 ->
  exists t, rep_tree h1 t /\ rep_tree h2 t /\ tree_map t = history_spec strs ops1.
Proof.
  intros H1 H2 Heq.
  destruct (history_accounted _ _ _ _ _ _ H1 (no_nodes_accounted strs)) as (t1 & ns1 & [Hr1 Hw1 E1 _ _ _ _]).
  destruct (history_accounted _ _ _ _ _ _ H2 (no_nodes_accounted strs)) as (t2 & ns2 & [Hr2 Hw2 E2 _ _ _ _]).
  change (tree_map t1 = history_spec strs ops1) in E1. change (tree_map t2 = history_spec strs ops2) in E2.
  assert (t1 = t2) as -> by (apply tree_map_inj; congruence || done).
  exists t2. split; [by exists ns1|]. split; [by exists ns2|done].
Qed.

(** ** Witnesses *)

(** Two strings are inserted and the first deleted again. *)
Definition two_strs : gmap addr (list Z) := {[ 64 := [97; 0]; 128 := [98; 99; 0] ]}.

Lemma good_two : good_elem (no_nodes two_strs) 64 [97] /\
  forall h, cb_strs h = two_strs -> good_elem h 128 [98; 99].
Proof.
  split; [|intros h Hh]; (split_and!; [lia|done|repeat constructor; lia|]).
  - exists [97; 0]. split_and!; [done|set_solver|done].
  - exists [98; 99; 0]. rewrite Hh. split_and!; [done|set_solver|done].
Qed.

Lemma critbit_no_leak_witness :
  exists h m, rtc critbit_step (no_nodes two_strs) h /\ cb_rcu h = [512] /\ cb_modrefs h = 1 /\ holds h m /\ size m = 1%nat.
Proof.
  assert (exists h, rtc critbit_step (no_nodes two_strs) h /\ cb_rcu h = [512] /\ size (cb_nodes h) = 1%nat /\ cb_root h <> 0)
    as (h & Hr & Hq & Hs & Hroot).
  { eexists. split.
    - eapply rtc_l; [eexists; eapply (does_insert _ 64 [97] None); [apply good_two|done|vm_compute; reflexivity]|].
      eapply rtc_l; [eexists; eapply (does_insert _ 128 [98; 99] (Some 512)); [by apply good_two|by split|vm_compute; reflexivity]|].
      eapply rtc_l; [eexists; eapply (does_delete _ [97; 0]); [split; [set_solver|repeat constructor; unfold is_byte; lia]|vm_compute; reflexivity]|].
      apply rtc_refl.
    - split; [reflexivity|]. split; [reflexivity|done]. }
  destruct (critbit_no_leak two_strs h Hr) as (m & Hm & _ & Hn & Hmod & _).
  exists h, m. split; [exact Hr|]. split; [exact Hq|]. split; [by rewrite Hmod, Hs|]. split; [exact Hm|].
  rewrite Hq, Hs in Hn. simpl in Hn. destruct (size m) as [|[|]] eqn:E; [|done|simpl in Hn; lia].
  exfalso. apply map_size_empty_iff in E as ->. destruct Hm as (t & [ns Ht] & Hwf & He).
  apply tree_map_empty in He; [|done]. subst t. by destruct Ht.
Defined.

(** Two strings in one order, and in the other with the first deleted and
    inserted again in between. *)
Definition ops_ab : list critbit_op := [Op_insert 64 None; Op_insert 128 (Some 512)].
Definition ops_ba : list critbit_op :=
  [Op_insert 128 None; Op_insert 64 (Some 1024); Op_delete [97; 0]; Op_free 1024; Op_insert 64 (Some 2048)].

Lemma good_strs h : cb_strs h = two_strs -> good_elem h 64 [97] /\ good_elem h 128 [98; 99].
Proof.
  intros Hh. split; (split_and!; [lia|done|repeat constructor; lia|]).
  - exists [97; 0]. rewrite Hh. split_and!; [done|set_solver|done].
  - exists [98; 99; 0]. rewrite Hh. split_and!; [done|set_solver|done].
Qed.

Ltac does_insert := eapply history_cons; [eapply does_insert; [by apply good_strs|by split|vm_compute; reflexivity]|].

Lemma history_ab : exists h, history (no_nodes two_strs) ops_ab h.
Proof.
  eexists. eapply history_cons; [eapply does_insert; [by apply good_strs|done|vm_compute; reflexivity]|].
  does_insert. apply history_nil.
Qed.

Lemma history_ba : exists h, history (no_nodes two_strs) ops_ba h.
Proof.
  eexists. eapply history_cons; [eapply does_insert; [by apply good_strs|done|vm_compute; reflexivity]|].
  does_insert. eapply history_cons; [eapply does_delete; [split; [set_solver|repeat constructor; unfold is_byte; lia]|vm_compute; reflexivity]|].
  eapply history_cons; [eapply does_free; [vm_compute; by left|vm_compute; reflexivity]|].
  does_insert. apply history_nil.
Qed.

Lemma critbit_history_independent_witness :
  exists h1 h2 t, history (no_nodes two_strs) ops_ab h1 /\ history (no_nodes two_strs) ops_ba h2 /\
    rep_tree h1 t /\ rep_tree h2 t /\ tree_map t = {[ [97] := 64; [98; 99] := 128 ]}.
Proof.
  destruct history_ab as [h1 H1], history_ba as [h2 H2].
  destruct (critbit_history_independent two_strs ops_ab ops_ba h1 h2 H1 H2 ltac:(vm_compute; reflexivity)) as (t & Ht1 & Ht2 & Hm).
  exists h1, h2, t. split_and!; [exact H1|exact H2|exact Ht1|exact Ht2|]. rewrite Hm. vm_compute. reflexivity.
Defined.

(** The first string is found below the node, a third one is not. *)
Lemma critbit_lookup_correct_witness :
  exists h, history (no_nodes two_strs) ops_ab h /\
    critbit_get (S (size (cb_nodes h))) h [97; 0] = Some (64, h) /\
    critbit_contains (S (size (cb_nodes h))) h [98; 0] = Some (0, h).
Proof.
  destruct history_ab as [h Hh]. exists h. split; [exact Hh|].
  destruct (history_accounted _ _ _ _ _ _ Hh (no_nodes_accounted two_strs)) as (t & ns & [Hr Hw Hm _ _ _ Hlk]).
  set (m := {[ [97] := 64; [98; 99] := 128 ]} : gmap cstr addr).
  assert (Hmap : holds h m) by (exists t; split_and!; [by exists ns|done|rewrite Hm; vm_compute; reflexivity]).
  split.
  - apply (critbit_lookup_correct h m [97; 0] (S (size (cb_nodes h))) Hmap); [|lia].
    split; [set_solver|]. repeat constructor; unfold is_byte; lia.
  - apply (critbit_lookup_correct h m [98; 0] (S (size (cb_nodes h))) Hmap); [|lia].
    split; [set_solver|]. repeat constructor; unfold is_byte; lia.
Defined.

(** One of the two strings is deleted: the node between them waits. *)
Lemma critbit_delete_correct_witness :
  exists h h', history (no_nodes two_strs) ops_ab h /\
    critbit_delete (S (size (cb_nodes h))) h [97; 0] = Some (0, h') /\ holds h' {[ [98; 99] := 128 ]} /\
    retired h h' true.
Proof.
  destruct history_ab as [h Hh].
  destruct (history_accounted _ _ _ _ _ _ Hh (no_nodes_accounted two_strs)) as (t & ns & [Hr Hw Hm _ _ _ Hlk]).
  set (m := {[ [97] := 64; [98; 99] := 128 ]} : gmap cstr addr).
  assert (Hmap : holds h m) by (exists t; split_and!; [by exists ns|done|rewrite Hm; vm_compute; reflexivity]).
  destruct (critbit_delete_correct h m [97; 0] (S (size (cb_nodes h))) Hmap) as (h' & H1 & H2 & _ & _ & H3).
  - split; [set_solver|]. repeat constructor; unfold is_byte; lia.
  - exact Hlk.
  - lia.
  - exists h, h'. split_and!; [exact Hh|exact H1| |exact H3].
    replace {[ [98; 99] := 128 ]} with ((delete_spec m (c_str [97; 0])).2) by (vm_compute; reflexivity). exact H2.
Defined.
