(* ===== verification/Text.v ===== *)
(** * Text in a page

    The read functions of the /proc files print into a page with [sprintf] and
    keep the number of characters in [len].  A text that would not fit is an
    overrun: the code does not check for it. *)
From Stdlib Require Import ZArith Lia.
From stdpp Require Import base numbers list.
From S2P Require Import Prelude CString Digits.

Local Open Scope Z_scope.

(** "%d" *)
Definition dec_signed (n : Z) : cstr := if n <? 0 then 45 :: dec (- n) else dec n.

(** [sprintf (page + off, ...)] of the text [s]: the text and a NUL. *)
Definition sprintf_at (page : list Z) (off : nat) (s : cstr) : option (list Z) :=
  if (off + length s <? length page)%nat
  then Some (take off page ++ s ++ 0 :: drop (S (off + length s)) page)
  else None.

(** The page and [len]. *)
Record out := Out { o_page : list Z; o_len : nat }.

(** [len += sprintf (page + len - back, ...)] *)
Definition print_back (back : nat) (s : cstr) (o : out) : option out :=
  page ← sprintf_at (o_page o) (o_len o - back) s;
  Some (Out page (o_len o + length s)).

Definition print (s : cstr) (o : out) : option out := print_back 0 s o.

(** The [len] characters are the text [t], in a page of [n] bytes. *)
Definition holds_text (n : nat) (t : list Z) (o : out) : Prop :=
  take (o_len o) (o_page o) = t /\ length t = o_len o /\ length (o_page o) = n.

Lemma holds_text_empty page : holds_text (length page) [] (Out page 0).
Proof. done. Qed.

Lemma sprintf_at_length page off s page' :
  sprintf_at page off s = Some page' -> length page' = length page.
Proof.
  unfold sprintf_at. destruct (Nat.ltb_spec (off + length s) (length page)); [|done].
  intros [= <-]. rewrite !length_app, length_take. simpl. rewrite length_drop. lia.
Qed.

Lemma print_run n t s o :
  holds_text n t o -> (length t + length s < n)%nat ->
  exists o', print s o = Some o' /\ holds_text n (t ++ s) o'.
Proof.
  intros (Ht & Hl & Hn) Hfit. unfold print, print_back. rewrite Nat.sub_0_r.
  destruct (sprintf_at (o_page o) (o_len o) s) as [page|] eqn:E.
  - eexists. split; [done|]. split; [|split; simpl; [rewrite length_app; lia|]].
    + simpl. unfold sprintf_at in E. destruct (Nat.ltb_spec (o_len o + length s) (length (o_page o))); [|done].
      injection E as <-. rewrite Ht, app_assoc. apply take_app_length'. rewrite length_app. lia.
    + by rewrite (sprintf_at_length _ _ _ _ E).
  - unfold sprintf_at in E. destruct (Nat.ltb_spec (o_len o + length s) (length (o_page o))); [done|]. lia.
Qed.

(** Printing over the last character leaves the NUL of the text as one of the
    [len] characters. *)
Lemma print_back_run n t c s o :
  holds_text n (t ++ [c]) o -> (length t + length s < n)%nat ->
  exists o', print_back 1 s o = Some o' /\ holds_text n (t ++ s ++ [0]) o'.
Proof.
  intros (Ht & Hl & Hn) Hfit. rewrite length_app in Hl. simpl in Hl.
  assert (Et : take (o_len o - 1) (o_page o) = t).
  { replace (o_len o - 1)%nat with (length t) by lia.
    rewrite <- (take_app_length t [c]) at 2. rewrite <- Ht, take_take. f_equal. lia. }
  unfold print_back. destruct (sprintf_at (o_page o) (o_len o - 1) s) as [page|] eqn:E.
  - eexists. split; [done|]. split; [|split; simpl; [rewrite !length_app; simpl; lia|]].
    + simpl. unfold sprintf_at in E.
      destruct (Nat.ltb_spec (o_len o - 1 + length s) (length (o_page o))); [|done].
      injection E as <-. rewrite Et.
      replace (t ++ s ++ 0 :: drop (S (o_len o - 1 + length s)) (o_page o)) with
        ((t ++ s ++ [0]) ++ drop (S (o_len o - 1 + length s)) (o_page o)) by (by rewrite <- !app_assoc).
      apply take_app_length'. rewrite !length_app. simpl. lia.
    + by rewrite (sprintf_at_length _ _ _ _ E).
  - unfold sprintf_at in E. destruct (Nat.ltb_spec (o_len o - 1 + length s) (length (o_page o))); [done|]. lia.
Qed.
