(* ===== verification/LinkedList.v ===== *)
(** * Singly linked lists in memory

    The kernel code keeps lists as structs with a [next] pointer.
    [linked next m a l]: in the memory [m], following [next] from [a] goes
    through the addresses [l] and ends at NULL. *)
From Stdlib Require Import ZArith Lia.
From stdpp Require Import base gmap numbers list.
From S2P Require Import Prelude.

Local Open Scope Z_scope.

Section linked.
Context {A : Type} (next : A -> addr).

Fixpoint linked (m : gmap addr A) (a : addr) (l : list addr) : Prop :=
  match l with
  | [] => a = 0
  | x :: l' => a = x /\ x <> 0 /\ exists n, m !! x = Some n /\ linked m (next n) l'
  end.

Lemma linked_det m a l1 : forall l2, linked m a l1 -> linked m a l2 -> l1 = l2.
Proof.
  revert a; induction l1 as [|x l1 IH]; intros a [|y l2]; simpl; try done.
  - intros -> (? & ? & _). congruence.
  - intros (-> & ? & _) ?. congruence.
  - intros (-> & _ & n & Hn & Hl) (-> & _ & n' & Hn' & Hl'). f_equal.
    rewrite Hn in Hn'. injection Hn' as <-. by eapply IH.
Qed.

Lemma linked_suffix m l1 : forall a l2, linked m a (l1 ++ l2) -> exists b, linked m b l2.
Proof.
  induction l1 as [|x l1 IH]; intros a l2; simpl; [eauto|].
  intros (_ & _ & n & _ & Hl). by apply (IH (next n)).
Qed.

(** No address occurs twice: the list has no cycle. *)
Lemma linked_NoDup m l : forall a, linked m a l -> NoDup l.
Proof.
  induction l as [|x l IH]; intros a; simpl; [constructor|].
  intros (-> & Hx & n & Hn & Hl). constructor; [|by apply (IH _ Hl)].
  intros Hin. apply list_elem_of_split in Hin as (l1 & l2 & ->).
  destruct (linked_suffix m l1 _ _ Hl) as [b Hb].
  assert (E : l1 ++ x :: l2 = l2).
  { eapply (linked_det m (next n)); [exact Hl|]. simpl in Hb.
    destruct Hb as (_ & _ & n' & Hn' & Hl'). rewrite Hn in Hn'. by injection Hn' as <-. }
  apply (f_equal length) in E. rewrite length_app in E. simpl in E. lia.
Qed.

Lemma linked_dom m l : forall a, linked m a l -> Forall (fun x => is_Some (m !! x)) l.
Proof.
  induction l as [|x l IH]; intros a; simpl; [constructor|].
  intros (-> & _ & n & Hn & Hl). constructor; eauto.
Qed.

(** As many rounds as there are structs are enough for a walk. *)
Lemma linked_fuel m a l : linked m a l -> (length l <= size m)%nat.
Proof.
  intros Hl. rewrite <- size_dom, <- (size_list_to_set (C := gset addr) l)
    by (by eapply linked_NoDup).
  apply subseteq_size. intros x Hx. apply elem_of_list_to_set in Hx.
  apply elem_of_dom. pose proof (linked_dom _ _ _ Hl) as HF.
  rewrite Forall_forall in HF. by apply HF.
Qed.

(** Structs outside the list do not matter. *)
Lemma linked_insert_out m a l x n :
  linked m a l -> x ∉ l -> linked (<[x := n]> m) a l.
Proof.
  revert a; induction l as [|y l IH]; intros a; simpl; [done|].
  intros (-> & Hy & n' & Hn' & Hl) Hx. split; [done|]. split; [done|]. exists n'.
  rewrite lookup_insert_ne by set_solver. split; [done|]. apply IH; [done|set_solver].
Qed.

(** Nor does a change that keeps [next]. *)
Lemma linked_alter m a l f x :
  (forall n, next (f n) = next n) -> linked m a l -> linked (alter f x m) a l.
Proof.
  intros Hf. revert a; induction l as [|y l IH]; intros a; simpl; [done|].
  intros (-> & Hy & n & Hn & Hl). split; [done|]. split; [done|].
  destruct (decide (x = y)) as [->|Hxy].
  - exists (f n). rewrite lookup_alter_eq, Hn. split; [done|]. rewrite Hf. by apply IH.
  - exists n. rewrite lookup_alter_ne by done. split; [done|]. by apply IH.
Qed.
End linked.
