(* ===== verification/Vlink.v ===== *)
(** * Virtual link subsystems (src/xt_vlink.c, src/xt_vlink.h)

    Drivers for lower layers register a subsystem under a 16-bit type in a
    table of 256 slots and chain callbacks, by priority, to it; a netlink
    message of that type is offered to the callbacks until one stops it.

    The callbacks themselves are code of the drivers: a parameter [rx] that
    works on the rest of the system, of type [W].  The state below is what
    xt_vlink.c owns.  A result [None] is a fault: a bad pointer, a lock taken
    twice, or a cyclic list.  The semaphore [rwsem] of a subsystem is taken and
    released within one function, on every path; with one operation at a time
    it is free between them and is left out of the state. *)
From Stdlib Require Import ZArith Lia.
From stdpp Require Import base gmap numbers list.
From S2P Require Import Prelude CString.

Local Open Scope Z_scope.

Definition NETLINK_VLINK_RX_OK : Z := 0.
Definition NETLINK_VLINK_RX_NXT : Z := 1.
Definition NETLINK_VLINK_RX_BAD : Z := 2.
Definition NETLINK_VLINK_RX_EMERG : Z := 3.
Definition NETLINK_VLINK_RX_STOP : Z := 4.

Definition MAX_VLINK_SUBSYSTEMS : nat := 256.

Definition NETLINK_VLINK_PRIO_LOW : Z := 0.
Definition NETLINK_VLINK_PRIO_NORM : Z := 1.
Definition NETLINK_VLINK_PRIO_HIGH : Z := 2.

Definition NLMSG_MIN_TYPE : Z := 16.
Definition VLINKNLGRP_ETHERNET : Z := NLMSG_MIN_TYPE + 1.

Definition VLINKNLCMD_ADD_DEVICE : Z := 0.
Definition VLINKNLCMD_RM_DEVICE : Z := 1.
Definition VLINKNLCMD_START_HOOK_DEVICE : Z := 2.
Definition VLINKNLCMD_STOP_HOOK_DEVICE : Z := 3.

Record vlink_callback := Callback { vc_priority : Z; vc_rx : Z; vc_next : addr }.

Record vlink_subsys := Subsys {
  vs_name : cstr;
  vs_type : Z;
  vs_id : Z;
  vs_owner : Z;
  vs_head : addr;
}.

Definition IFNAMSIZ : nat := 16.

Record vlinknlmsg := Vmsg {
  vm_cmd : Z;
  vm_flags : Z;
  vm_type : Z;
  vm_port : Z;
  vm_virt_name : list Z;
  vm_real_name : list Z;
}.

(** [sizeof(struct vlinknlmsg)] and [NLMSG_LENGTH] of it. *)
Definition vlinknlmsg_size : Z := 8 + 16 + 16.
Definition vlink_min_len : Z := vlinknlmsg_size + 16.

Section vlink.
Context {W : Type}.
Variable rx : Z -> vlinknlmsg -> W -> Z * W.

Record vstate := Vstate {
  v_table : list addr;
  v_subsys : gmap addr vlink_subsys;
  v_cbs : gmap addr vlink_callback;
  v_locked : bool;
  v_core_refs : Z;
  v_owner_refs : gmap Z Z;
  v_world : W;
}.

Definition set_table (t : list addr) (s : vstate) : vstate :=
  Vstate t (v_subsys s) (v_cbs s) (v_locked s) (v_core_refs s) (v_owner_refs s) (v_world s).
Definition set_subsys (n : addr) (vs : vlink_subsys) (s : vstate) : vstate :=
  Vstate (v_table s) (<[n := vs]> (v_subsys s)) (v_cbs s) (v_locked s) (v_core_refs s)
    (v_owner_refs s) (v_world s).
Definition put_cb (c : addr) (cb : vlink_callback) (s : vstate) : vstate :=
  Vstate (v_table s) (v_subsys s) (<[c := cb]> (v_cbs s)) (v_locked s) (v_core_refs s)
    (v_owner_refs s) (v_world s).
Definition set_locked (b : bool) (s : vstate) : vstate :=
  Vstate (v_table s) (v_subsys s) (v_cbs s) b (v_core_refs s) (v_owner_refs s) (v_world s).
Definition add_core_refs (d : Z) (s : vstate) : vstate :=
  Vstate (v_table s) (v_subsys s) (v_cbs s) (v_locked s) (v_core_refs s + d)
    (v_owner_refs s) (v_world s).
Definition add_owner_refs (o d : Z) (s : vstate) : vstate :=
  Vstate (v_table s) (v_subsys s) (v_cbs s) (v_locked s) (v_core_refs s)
    (<[o := default 0 (v_owner_refs s !! o) + d]> (v_owner_refs s)) (v_world s).
Definition set_world (w : W) (s : vstate) : vstate :=
  Vstate (v_table s) (v_subsys s) (v_cbs s) (v_locked s) (v_core_refs s) (v_owner_refs s) w.

Definition vlink_lock (s : vstate) : option vstate :=
  if v_locked s then None else Some (set_locked true s).

Definition vlink_unlock (s : vstate) : vstate := set_locked false s.

(** ** Subsystems *)

(** The loop of [vlink_subsys_register] from slot [i] on: [inl] if the type
    is taken, else the first free slot, -1 if none. *)
Fixpoint register_scan (s : vstate) (type : Z) (tbl : list addr) (i slot : Z) :
    option (unit + Z) :=
  match tbl with
  | [] => Some (inr slot)
  | p :: tbl' =>
      if (p =? 0) && (slot =? -1) then register_scan s type tbl' (i + 1) i
      else if p =? 0 then register_scan s type tbl' (i + 1) slot
      else
        vs ← v_subsys s !! p;
        if type =? vs_type vs then Some (inl tt)
        else register_scan s type tbl' (i + 1) slot
  end.

Definition vlink_subsys_register (n : addr) (s : vstate) : option (Z * vstate) :=
  if n =? 0 then Some (- EINVAL, s)
  else
    s ← vlink_lock s;
    vn ← v_subsys s !! n;
    res ← register_scan s (vs_type vn) (v_table s) 0 (-1);
    match res with
    | inl _ => Some (- EBUSY, vlink_unlock s)
    | inr slot =>
        if slot =? -1 then Some (- ENOMEM, vlink_unlock s)
        else
          let s := set_subsys n (Subsys (vs_name vn) (vs_type vn) (u16 slot) (vs_owner vn) (vs_head vn)) s in
          let s := set_table (<[Z.to_nat slot := n]> (v_table s)) s in
          let s := add_core_refs 1 s in
          Some (0, vlink_unlock s)
    end.

(** The slot [vlink_subsys_unregister] clears. *)
Fixpoint unregister_scan (n id : Z) (tbl : list addr) (i : Z) : option Z :=
  match tbl with
  | [] => None
  | p :: tbl' => if (p =? n) && (i =? id) then Some i else unregister_scan n id tbl' (i + 1)
  end.

Definition vlink_subsys_unregister (n : addr) (s : vstate) : option vstate :=
  if n =? 0 then Some s
  else
    s ← vlink_lock s;
    vn ← v_subsys s !! n;
    match unregister_scan n (vs_id vn) (v_table s) 0 with
    | None => Some (vlink_unlock s)
    | Some i =>
        let s := set_table (<[Z.to_nat i := 0]> (v_table s)) s in
        let s := set_subsys n (Subsys (vs_name vn) (vs_type vn) 0 (vs_owner vn) (vs_head vn)) s in
        let s := add_core_refs (-1) s in
        Some (vlink_unlock s)
    end.

Fixpoint find_scan (s : vstate) (type : Z) (tbl : list addr) : option addr :=
  match tbl with
  | [] => Some 0
  | p :: tbl' =>
      if p =? 0 then find_scan s type tbl'
      else vs ← v_subsys s !! p; if vs_type vs =? type then Some p else find_scan s type tbl'
  end.

Definition __vlink_subsys_find (type : Z) (s : vstate) : option addr :=
  find_scan s type (v_table s).

Definition vlink_subsys_find (type : Z) (s : vstate) : option (addr * vstate) :=
  s ← vlink_lock s;
  p ← __vlink_subsys_find type s;
  Some (p, vlink_unlock s).

(** ** Callbacks *)

(** [hb] of the list operations: the address of a pointer to a callback. *)
Inductive link := Head (n : addr) | Next (c : addr).

Definition read_link (s : vstate) (hb : link) : option addr :=
  match hb with
  | Head n => vs_head <$> v_subsys s !! n
  | Next c => vc_next <$> v_cbs s !! c
  end.

Definition write_link (hb : link) (v : addr) (s : vstate) : option vstate :=
  match hb with
  | Head n =>
      vs ← v_subsys s !! n;
      Some (set_subsys n (Subsys (vs_name vs) (vs_type vs) (vs_id vs) (vs_owner vs) v) s)
  | Next c =>
      cb ← v_cbs s !! c;
      Some (put_cb c (Callback (vc_priority cb) (vc_rx cb) v) s)
  end.

(** The walk to the place of a priority; [fuel] bounds the list. *)
Fixpoint add_walk (fuel : nat) (prio : Z) (hb : link) (s : vstate) : option link :=
  match fuel with
  | O => None
  | S fuel' =>
      p ← read_link s hb;
      if p =? 0 then Some hb
      else
        cb ← v_cbs s !! p;
        if vc_priority cb <? prio then Some hb else add_walk fuel' prio (Next p) s
  end.

Definition cbs_fuel (s : vstate) : nat := S (size (v_cbs s)).

Definition __vlink_add_callback (n cb : addr) (s : vstate) : option (Z * vstate) :=
  if cb =? 0 then Some (- EINVAL, s)
  else
    c ← v_cbs s !! cb;
    hb ← add_walk (cbs_fuel s) (vc_priority c) (Head n) s;
    next ← read_link s hb;
    let s := put_cb cb (Callback (vc_priority c) (vc_rx c) next) s in
    s ← write_link hb cb s;
    Some (0, s).

Definition vlink_add_callback (n cb : addr) (s : vstate) : option (Z * vstate) :=
  if n =? 0 then Some (- EINVAL, s) else __vlink_add_callback n cb s.

(** [vlink_add_callbacks(n, cb, ..., NULL)]: the arguments up to the NULL. *)
Fixpoint vlink_add_callbacks_va (n : addr) (args : list addr) (s : vstate) : option (Z * vstate) :=
  match args with
  | [] => Some (0, s)
  | arg :: rest =>
      if arg =? 0 then Some (0, s)
      else
        '(ret, s) ← vlink_add_callback n arg s;
        if negb (ret =? 0) then Some (ret, s) else vlink_add_callbacks_va n rest s
  end.

Fixpoint rm_walk (fuel : nat) (cb : addr) (hb : link) (s : vstate) : option (option link) :=
  match fuel with
  | O => None
  | S fuel' =>
      p ← read_link s hb;
      if p =? 0 then Some None
      else if p =? cb then Some (Some hb)
      else rm_walk fuel' cb (Next p) s
  end.

Definition __vlink_rm_callback (n cb : addr) (s : vstate) : option (Z * vstate) :=
  if cb =? 0 then Some (- EINVAL, s)
  else
    r ← rm_walk (cbs_fuel s) cb (Head n) s;
    match r with
    | None => Some (- ENOENT, s)
    | Some hb =>
        c ← v_cbs s !! cb;
        s ← write_link hb (vc_next c) s;
        Some (0, s)
    end.

Definition vlink_rm_callback (n cb : addr) (s : vstate) : option (Z * vstate) :=
  if n =? 0 then Some (- EINVAL, s) else __vlink_rm_callback n cb s.

(** [while (n->head != NULL) vlink_rm_callback(n, n->head)] *)
Fixpoint rm_all (fuel : nat) (n : addr) (s : vstate) : option vstate :=
  match fuel with
  | O => None
  | S fuel' =>
      vs ← v_subsys s !! n;
      if vs_head vs =? 0 then Some s
      else '(_, s) ← vlink_rm_callback n (vs_head vs) s; rm_all fuel' n s
  end.

Definition vlink_subsys_unregister_batch (n : addr) (s : vstate) : option vstate :=
  if n =? 0 then Some s
  else s ← vlink_subsys_unregister n s; rm_all (cbs_fuel s) n s.

(** ** Messages *)

Definition stops_emerg (ret : Z) : bool := Z.land ret NETLINK_VLINK_RX_EMERG =? NETLINK_VLINK_RX_EMERG.
Definition stops_ok (ret : Z) : bool := Z.land ret NETLINK_VLINK_RX_STOP =? NETLINK_VLINK_RX_STOP.

Fixpoint invoke_walk (fuel : nat) (owner : Z) (hb : addr) (vmsg : vlinknlmsg) (ret : Z) (s : vstate) :
    option (Z * vstate) :=
  match fuel with
  | O => None
  | S fuel' =>
      if hb =? 0 then Some (ret, s)
      else
        cb ← v_cbs s !! hb;
        let '(ret, w) := rx (vc_rx cb) vmsg (v_world s) in
        let s := set_world w s in
        if stops_emerg ret then Some (ret, s)
        else if stops_ok ret then
          let s := if vm_cmd vmsg =? VLINKNLCMD_START_HOOK_DEVICE then add_owner_refs owner 1 s else s in
          let s := if vm_cmd vmsg =? VLINKNLCMD_STOP_HOOK_DEVICE then add_owner_refs owner (-1) s else s in
          Some (ret, s)
        else invoke_walk fuel' owner (vc_next cb) vmsg ret s
  end.

Definition __vlink_invoke (n : addr) (vmsg : vlinknlmsg) (s : vstate) : option (Z * vstate) :=
  vs ← v_subsys s !! n;
  invoke_walk (cbs_fuel s) (vs_owner vs) (vs_head vs) vmsg 0 s.

(** [capable]: the sender passes [security_netlink_recv]. *)
Definition __vlink_rcv (capable : bool) (nlmsg_len nlmsg_type : Z) (vmsg : vlinknlmsg) (s : vstate) :
    option (Z * vstate) :=
  if negb capable then Some (- EPERM, s)
  else if nlmsg_len <? vlink_min_len then Some (0, s)
  else
    sys ← __vlink_subsys_find nlmsg_type s;
    if sys =? 0 then Some (- EINVAL, s) else __vlink_invoke sys vmsg s.

(** [vlink_rcv] holds the lock around the messages of a buffer. *)
Fixpoint rcv_msgs (msgs : list (bool * Z * Z * vlinknlmsg)) (s : vstate) : option vstate :=
  match msgs with
  | [] => Some s
  | (capable, len, type, vmsg) :: rest =>
      '(_, s) ← __vlink_rcv capable len type vmsg s; rcv_msgs rest s
  end.

Definition vlink_rcv (msgs : list (bool * Z * Z * vlinknlmsg)) (s : vstate) : option vstate :=
  s ← vlink_lock s;
  s ← rcv_msgs msgs s;
  Some (vlink_unlock s).
End vlink.
