(* ===== verification/VlinkProps.v ===== *)
(** * Properties of the virtual link subsystems

    The callbacks of a subsystem form a list ordered by priority, first come
    first served among equals; adding and removing implement insertion into
    and deletion from it, and a message is offered in its order.  The types in
    the table are pairwise different, and a lookup finds exactly the
    registered subsystem of a type. *)
From Stdlib Require Import ZArith Lia Sorting.Sorted.
From stdpp Require Import base gmap numbers sorting list.
From S2P Require Import Prelude CString LinkedList Vlink.

Local Open Scope Z_scope.

(** ** The abstract list of callbacks *)

Fixpoint insert_prio (pr : addr -> Z) (c : addr) (l : list addr) : list addr :=
  match l with
  | [] => [c]
  | x :: l' => if pr x <? pr c then c :: l else x :: insert_prio pr c l'
  end.

(** Highest priority first. *)
Definition by_prio (pr : addr -> Z) (l : list addr) : Prop :=
  StronglySorted (fun x y => pr y <= pr x) l.

Lemma insert_prio_elem pr c l x : x ∈ insert_prio pr c l <-> x = c \/ x ∈ l.
Proof.
  induction l as [|y l IH]; simpl; [set_solver|]. destruct (pr y <? pr c); set_solver.
Qed.

Lemma insert_prio_perm pr c l : insert_prio pr c l ≡ₚ c :: l.
Proof.
  induction l as [|y l IH]; simpl; [done|]. destruct (pr y <? pr c); [done|].
  rewrite IH. by apply Permutation_swap.
Qed.

Lemma insert_prio_sorted pr c l : by_prio pr l -> by_prio pr (insert_prio pr c l).
Proof.
  intros Hs. induction Hs as [|y l Hs IH HF]; simpl; [by repeat constructor|].
  destruct (Z.ltb_spec (pr y) (pr c)).
  - constructor; [by constructor|]. constructor; [lia|].
    eapply Forall_impl; [exact HF|]. simpl. lia.
  - constructor; [done|]. apply Forall_forall. intros x Hx.
    apply insert_prio_elem in Hx as [->|Hx]; [done|]. rewrite Forall_forall in HF. by apply HF.
Qed.

(** The new callback comes after those of its own priority. *)
Lemma insert_prio_split pr c l :
  by_prio pr l -> exists l1 l2, l = l1 ++ l2 /\ insert_prio pr c l = l1 ++ c :: l2 /\
    Forall (fun x => pr c <= pr x) l1 /\ Forall (fun x => pr x < pr c) l2.
Proof.
  intros Hs. induction Hs as [|y l Hs IH HF]; simpl.
  - by exists [], [].
  - destruct (Z.ltb_spec (pr y) (pr c)).
    + exists [], (y :: l). repeat split; try done. constructor; [done|].
      eapply Forall_impl; [exact HF|]. simpl. lia.
    + destruct IH as (l1 & l2 & -> & -> & H1 & H2). exists (y :: l1), l2.
      repeat split; try done. by constructor.
Qed.

Section props.
Context {W : Type}.
Implicit Types s : vstate (W := W).

Definition prio s (c : addr) : Z := default 0 (vc_priority <$> v_cbs s !! c).

(** The callbacks from a pointer on, and of a subsystem. *)
Definition links s (hb : link) (l : list addr) : Prop :=
  exists a, read_link s hb = Some a /\ linked vc_next (v_cbs s) a l.

Definition callbacks s (n : addr) (l : list addr) : Prop := links s (Head n) l.

Definition not_in (hb : link) (l : list addr) : Prop := forall c, hb = Next c -> c ∉ l.

(** ** Adding *)

(** The pointers a write may change, and what stays. *)
Record only_links s s' (hb : link) (l : list addr) : Prop := {
  ol_links hb2 : hb2 <> hb -> not_in hb2 l -> read_link s' hb2 = read_link s hb2;
  ol_table : v_table s' = v_table s;
  ol_world : v_world s' = v_world s;
  ol_cbs c : (fun cb => (vc_priority cb, vc_rx cb)) <$> v_cbs s' !! c =
             (fun cb => (vc_priority cb, vc_rx cb)) <$> v_cbs s !! c;
  ol_subsys n : (fun vs => (vs_type vs, vs_id vs, vs_owner vs)) <$> v_subsys s' !! n =
                (fun vs => (vs_type vs, vs_id vs, vs_owner vs)) <$> v_subsys s !! n;
}.

(** Writing [cb] into [hb] with [nxt] behind it. *)
Lemma link_in s hb cb c nxt l :
  read_link s hb = Some nxt -> linked vc_next (v_cbs s) nxt l ->
  v_cbs s !! cb = Some c -> cb <> 0 -> cb ∉ l -> hb <> Next cb -> not_in hb l ->
  exists s', write_link hb cb (put_cb cb (Callback (vc_priority c) (vc_rx c) nxt) s) = Some s' /\
    links s' hb (cb :: l) /\ only_links s s' hb (cb :: l).
Proof.
  intros Hr Hl Hc H0 Hcl Hne Hnot. destruct hb as [n|p]; simpl in *.
  - apply fmap_Some in Hr as (vs & Hvs & ->). rewrite Hvs. simpl. eexists. split; [done|]. split.
    + exists cb. simpl. rewrite lookup_insert_eq. split; [done|]. split; [done|]. split; [done|].
      eexists. rewrite lookup_insert_eq. split; [done|]. simpl. by apply linked_insert_out.
    + split; try done.
      * intros [m|q] Hne2 Hni; simpl.
        -- rewrite lookup_insert_ne; [done|]. congruence.
        -- rewrite lookup_insert_ne; [done|]. intros ->. apply (Hni q eq_refl). set_solver.
      * intros x. simpl. destruct (decide (cb = x)) as [<-|]; [|by rewrite lookup_insert_ne].
        by rewrite lookup_insert_eq, Hc.
      * intros m. simpl. destruct (decide (n = m)) as [<-|]; [|by rewrite lookup_insert_ne].
        by rewrite lookup_insert_eq, Hvs.
  - apply fmap_Some in Hr as (pc & Hpc & ->).
    assert (Hpn : cb <> p) by congruence.
    rewrite lookup_insert_ne, Hpc by done. simpl. eexists. split; [done|].
    assert (Hpl : p ∉ l) by (by apply Hnot). split.
    + exists cb. simpl. rewrite lookup_insert_eq. split; [done|]. split; [done|]. split; [done|].
      eexists. rewrite lookup_insert_ne, lookup_insert_eq by done. split; [done|]. simpl.
      by apply linked_insert_out; [apply linked_insert_out|].
    + split; try done.
      * intros [m|q] Hne2 Hni; simpl; [done|].
        rewrite !lookup_insert_ne; [done| |congruence].
        intros ->. apply (Hni q eq_refl). set_solver.
      * intros x. simpl. destruct (decide (p = x)) as [<-|]; [by rewrite lookup_insert_eq, Hpc|].
        rewrite lookup_insert_ne by done.
        destruct (decide (cb = x)) as [<-|]; [|by rewrite lookup_insert_ne].
        by rewrite lookup_insert_eq, Hc.
Qed.

Lemma prio_lookup s x cb : v_cbs s !! x = Some cb -> prio s x = vc_priority cb.
Proof. intros H. unfold prio. by rewrite H. Qed.

(** The walk ends where the callback belongs. *)
Lemma add_walk_spec s cb c : v_cbs s !! cb = Some c -> cb <> 0 ->
  forall l hb fuel, (length l < fuel)%nat -> links s hb l -> cb ∉ l -> hb <> Next cb -> not_in hb l ->
  exists hb' nxt s', add_walk fuel (vc_priority c) hb s = Some hb' /\ read_link s hb' = Some nxt /\
    write_link hb' cb (put_cb cb (Callback (vc_priority c) (vc_rx c) nxt) s) = Some s' /\
    links s' hb (insert_prio (prio s) cb l) /\ only_links s s' hb (cb :: l).
Proof.
  intros Hc H0. induction l as [|x l IH]; intros hb [|fuel] Hf (a & Hr & Hl) Hcl Hne Hnot;
    simpl in Hf; try lia; simpl add_walk; rewrite Hr; simpl.
  - simpl in Hl. subst a. destruct (link_in s hb cb c 0 [] Hr eq_refl Hc H0) as (s' & Hw & Hlk & Ho); try done.
    exists hb, 0, s'. simpl. repeat (split; [done|]). done.
  - pose proof Hl as (-> & Hx & n & Hn & Hl'). destruct (Z.eqb_spec x 0); [done|].
    rewrite Hn. simpl. rewrite (prio_lookup s x n Hn), (prio_lookup s cb c Hc).
    destruct (Z.ltb_spec (vc_priority n) (vc_priority c)).
    + destruct (link_in s hb cb c x (x :: l) Hr Hl Hc H0) as (s' & Hw & Hlk & Ho); try done.
      exists hb, x, s'. repeat (split; [done|]). done.
    + assert (Hxl : x ∉ l).
      { pose proof (linked_NoDup _ _ _ _ Hl) as Hnd. by apply NoDup_cons in Hnd as [? _]. }
      destruct (IH (Next x) fuel) as (hb' & nxt & s' & Hw & Hr' & Hwr & Hlk & Ho); [lia| |set_solver| | |].
      { exists (vc_next n). simpl. by rewrite Hn. }
      { intros [= ->]. set_solver. }
      { by intros ? [= <-]. }
      exists hb', nxt, s'. repeat (split; [done|]). split.
      * destruct Hlk as (b & Hb & Hbl). exists x. split.
        { rewrite (ol_links _ _ _ _ Ho); [done| |].
          - intros E. apply (Hnot x); [done|set_solver].
          - intros y -> Hy. apply elem_of_cons in Hy as [->|Hy]; [done|].
            apply (Hnot y eq_refl). set_solver. }
        simpl in Hb. apply fmap_Some in Hb as (n' & Hn' & ->). simpl. eauto.
      * destruct Ho as [O1 O2 O3 O4 O5]. split; try done. intros hb2 Hne2 Hni. apply O1.
        -- intros ->. apply (Hni x eq_refl). set_solver.
        -- intros y -> Hy. apply (Hni y eq_refl). set_solver.
Qed.

(** C21: adding a callback to a subsystem puts it into the list behind
    those of its own or a higher priority and before those of a lower one;
    the list stays ordered, with the same callbacks besides, and nothing
    else of the system changes. *)
Theorem add_callback_correct s n cb c l :
  n <> 0 -> cb <> 0 -> callbacks s n l -> v_cbs s !! cb = Some c -> cb ∉ l -> by_prio (prio s) l ->
  exists s', vlink_add_callback n cb s = Some (0, s') /\
    callbacks s' n (insert_prio (prio s) cb l) /\ by_prio (prio s') (insert_prio (prio s) cb l) /\
    (exists l1 l2, l = l1 ++ l2 /\ insert_prio (prio s) cb l = l1 ++ cb :: l2 /\
       Forall (fun x => prio s cb <= prio s x) l1 /\ Forall (fun x => prio s x < prio s cb) l2) /\
    only_links s s' (Head n) (cb :: l).
Proof.
  intros Hn H0 Hl Hc Hcl Hs. pose proof Hl as (a & _ & Hll). pose proof (linked_fuel _ _ _ _ Hll) as Hf.
  destruct (add_walk_spec s cb c Hc H0 l (Head n) (cbs_fuel s)) as (hb' & nxt & s' & Hw & Hr & Hwr & Hlk & Ho);
    try done; [unfold cbs_fuel; lia|].
  exists s'. split.
  - unfold vlink_add_callback, __vlink_add_callback. destruct (Z.eqb_spec n 0); [done|].
    destruct (Z.eqb_spec cb 0); [done|]. rewrite Hc.
    cbn -[add_walk cbs_fuel read_link write_link]. rewrite Hw.
    cbn -[read_link write_link]. rewrite Hr. cbn -[write_link]. by rewrite Hwr.
  - split; [done|]. split; [|split; [by apply insert_prio_split|done]].
    pose proof (insert_prio_sorted (prio s) cb l Hs) as Hs'.
    assert (E : forall x, prio s' x = prio s x).
    { intros x. unfold prio. pose proof (ol_cbs _ _ _ _ Ho x) as E.
      destruct (v_cbs s' !! x), (v_cbs s !! x); simpl in *; congruence. }
    clear -Hs' E. induction Hs' as [|x l' Hs' IH HF]; constructor; [done|].
    eapply Forall_impl; [exact HF|]. intros y. by rewrite !E.
Qed.

(** ** Removing *)

(** Taking [x] out from behind [hb]. *)
Lemma link_out s hb x n l :
  read_link s hb = Some x -> linked vc_next (v_cbs s) x (x :: l) -> v_cbs s !! x = Some n ->
  not_in hb (x :: l) ->
  exists s', write_link hb (vc_next n) s = Some s' /\ links s' hb l /\ only_links s s' hb (x :: l).
Proof.
  intros Hr (_ & H0 & n' & Hn' & Hl) Hn Hnot. rewrite Hn in Hn'. injection Hn' as <-.
  destruct hb as [m|p]; simpl in *.
  - apply fmap_Some in Hr as (vs & Hvs & ->). rewrite Hvs. simpl. eexists. split; [done|]. split.
    + eexists. simpl. rewrite lookup_insert_eq. split; [done|]. done.
    + split; try done.
      * intros [m'|q] Hne2 Hni; simpl; [|done]. rewrite lookup_insert_ne; [done|]. congruence.
      * intros m'. simpl. destruct (decide (m = m')) as [<-|]; [|by rewrite lookup_insert_ne].
        by rewrite lookup_insert_eq, Hvs.
  - apply fmap_Some in Hr as (pc & Hpc & ->). rewrite Hpc. simpl. eexists. split; [done|].
    assert (Hpl : p ∉ vc_next pc :: l) by (by apply Hnot). split.
    + eexists. simpl. rewrite lookup_insert_eq. split; [done|]. apply linked_insert_out; [done|set_solver].
    + split; try done.
      * intros [m'|q] Hne2 Hni; simpl; [done|]. rewrite lookup_insert_ne; [done|]. congruence.
      * intros y. simpl. destruct (decide (p = y)) as [<-|]; [|by rewrite lookup_insert_ne].
        by rewrite lookup_insert_eq, Hpc.
Qed.

Fixpoint remove_one (c : addr) (l : list addr) : list addr :=
  match l with
  | [] => []
  | x :: l' => if x =? c then l' else x :: remove_one c l'
  end.

Lemma rm_walk_spec s cb n : v_cbs s !! cb = Some n -> cb <> 0 ->
  forall l hb fuel, (length l < fuel)%nat -> links s hb l -> not_in hb l -> cb ∈ l ->
  exists hb' s', rm_walk fuel cb hb s = Some (Some hb') /\ write_link hb' (vc_next n) s = Some s' /\
    links s' hb (remove_one cb l) /\ only_links s s' hb l.
Proof.
  intros Hc H0. induction l as [|x l IH]; intros hb [|fuel] Hf (a & Hr & Hl) Hnot Hin;
    simpl in Hf; try lia; [by apply not_elem_of_nil in Hin|]. simpl rm_walk. rewrite Hr.
  pose proof Hl as (-> & Hx & nx & Hnx & Hl'). simpl. destruct (Z.eqb_spec x 0); [done|].
  destruct (Z.eqb_spec x cb) as [->|Hne].
  - destruct (link_out s hb cb n l Hr Hl Hc Hnot) as (s' & Hw & Hlk & Ho).
    exists hb, s'. repeat (split; [done|]). done.
  - assert (Hxl : x ∉ l).
    { pose proof (linked_NoDup _ _ _ _ Hl) as Hnd. by apply NoDup_cons in Hnd as [? _]. }
    destruct (IH (Next x) fuel) as (hb' & s' & Hw & Hwr & Hlk & Ho); [lia| | |set_solver|].
    { exists (vc_next nx). simpl. by rewrite Hnx. }
    { by intros ? [= <-]. }
    exists hb', s'. repeat (split; [done|]). split.
    + destruct Hlk as (b & Hb & Hbl). exists x. split.
      { rewrite (ol_links _ _ _ _ Ho); [done| |].
        - intros E. apply (Hnot x); [done|set_solver].
        - intros y -> Hy. apply (Hnot y eq_refl). set_solver. }
      simpl in Hb. apply fmap_Some in Hb as (n' & Hn' & ->). simpl. eauto.
    + destruct Ho as [O1 O2 O3 O4 O5]. split; try done. intros hb2 Hne2 Hni. apply O1.
      * intros ->. apply (Hni x eq_refl). set_solver.
      * intros y -> Hy. apply (Hni y eq_refl). set_solver.
Qed.

(** A callback that is not in the list is not found. *)
Lemma rm_walk_absent s cb : forall l hb fuel,
  (length l < fuel)%nat -> links s hb l -> cb ∉ l -> rm_walk fuel cb hb s = Some None.
Proof.
  induction l as [|x l IH]; intros hb [|fuel] Hf (a & Hr & Hl) Hin; simpl in Hf; try lia;
    simpl rm_walk; rewrite Hr; simpl.
  - simpl in Hl. by subst a.
  - destruct Hl as (-> & Hx & nx & Hnx & Hl'). destruct (Z.eqb_spec x 0); [done|].
    destruct (Z.eqb_spec x cb) as [->|]; [set_solver|]. apply IH; [lia| |set_solver].
    exists (vc_next nx). simpl. by rewrite Hnx.
Qed.

(** removing a callback takes exactly it out of the subsystem's list
    and keeps the order of the others; a callback that is not in the list
    gives [-ENOENT] and nothing changes. *)
Theorem rm_callback_correct s n cb c l :
  n <> 0 -> cb <> 0 -> callbacks s n l -> v_cbs s !! cb = Some c ->
  if decide (cb ∈ l) then
    exists s', vlink_rm_callback n cb s = Some (0, s') /\ callbacks s' n (remove_one cb l) /\
      l ≡ₚ cb :: remove_one cb l /\ only_links s s' (Head n) l
  else vlink_rm_callback n cb s = Some (- ENOENT, s).
Proof.
  intros Hn H0 Hl Hc. pose proof Hl as (a & _ & Hll). pose proof (linked_fuel _ _ _ _ Hll) as Hf.
  unfold vlink_rm_callback, __vlink_rm_callback. destruct (Z.eqb_spec n 0); [done|].
  destruct (Z.eqb_spec cb 0); [done|]. case_decide as Hin.
  - destruct (rm_walk_spec s cb c Hc H0 l (Head n) (cbs_fuel s)) as (hb' & s' & Hw & Hwr & Hlk & Ho);
      try done; [unfold cbs_fuel; lia|].
    exists s'. rewrite Hw. cbn -[write_link]. rewrite Hc. cbn -[write_link]. rewrite Hwr.
    split; [done|]. split; [done|]. split; [|done]. clear -Hin.
    induction l as [|x l IH]; [by apply not_elem_of_nil in Hin|]. simpl.
    destruct (Z.eqb_spec x cb) as [->|]; [done|]. rewrite <- Permutation_swap.
    apply Permutation_skip, IH. set_solver.
  - by rewrite (rm_walk_absent s cb l (Head n)) by (done || unfold cbs_fuel; lia).
Qed.

(** ** Delivering a message *)

Section delivery.
Variable rx : Z -> vlinknlmsg -> W -> Z * W.

(** The message goes from callback to callback until one stops it; the
  result is the last one's, with whether it stopped the message on
  success. *)
Fixpoint deliver (fs : list Z) (vmsg : vlinknlmsg) (ret : Z) (w : W) : Z * W * bool :=
match fs with
| [] => (ret, w, false)
| f :: fs' =>
    let '(r, w') := rx f vmsg w in
    if stops_emerg r then (r, w', false)
    else if stops_ok r then (r, w', true)
    else deliver fs' vmsg r w'
end.

(** Starting and stopping a hook is counted at the owner. *)
Definition hook_refs (vmsg : vlinknlmsg) (owner : Z) (ok : bool) s : vstate :=
if negb ok then s
else if vm_cmd vmsg =? VLINKNLCMD_START_HOOK_DEVICE then add_owner_refs owner 1 s
else if vm_cmd vmsg =? VLINKNLCMD_STOP_HOOK_DEVICE then add_owner_refs owner (-1) s
else s.

Definition rx_of s (c : addr) : Z := default 0 (vc_rx <$> v_cbs s !! c).

Lemma invoke_walk_spec owner vmsg s0 : forall l fuel a ret s,
(length l < fuel)%nat -> linked vc_next (v_cbs s) a l -> v_cbs s = v_cbs s0 ->
invoke_walk rx fuel owner a vmsg ret s =
  let '(r, w, ok) := deliver (rx_of s0 <$> l) vmsg ret (v_world s) in
  Some (r, hook_refs vmsg owner ok (set_world w s)).
Proof.
induction l as [|x l IH]; intros [|fuel] a ret s Hf Hl Es; simpl in Hf; try lia.
- simpl in Hl. subst a. simpl. by destruct s.
- destruct Hl as (-> & Hx & n & Hn & Hl). rewrite fmap_cons. simpl.
  destruct (Z.eqb_spec x 0); [done|]. rewrite Hn. simpl. unfold rx_of at 1. rewrite <- Es, Hn. simpl.
  destruct (rx (vc_rx n) vmsg (v_world s)) as [r w] eqn:Er.
  destruct (stops_emerg r) eqn:Ee; [done|]. destruct (stops_ok r) eqn:Eo.
  + unfold hook_refs. simpl. f_equal. f_equal.
    destruct (Z.eqb_spec (vm_cmd vmsg) VLINKNLCMD_START_HOOK_DEVICE) as [->|]; [done|].
    by destruct (vm_cmd vmsg =? VLINKNLCMD_STOP_HOOK_DEVICE).
  + rewrite IH; [|lia|done|done]. simpl.
    by destruct (deliver (rx_of s0 <$> l) vmsg r w) as [[? ?] ?].
Qed.

(** a message to a subsystem is offered to its callbacks in the order
  of the list and to no callback after the one that stops it; the result
  is that of the last callback called, and the owner's references follow
  the hooks that were started and stopped. *)
Theorem invoke_correct s n vs vmsg l :
v_subsys s !! n = Some vs -> callbacks s n l ->
__vlink_invoke rx n vmsg s =
  let '(r, w, ok) := deliver (rx_of s <$> l) vmsg 0 (v_world s) in
  Some (r, hook_refs vmsg (vs_owner vs) ok (set_world w s)).
Proof.
intros Hvs (a & Hr & Hl). simpl in Hr. rewrite Hvs in Hr. injection Hr as <-.
unfold __vlink_invoke. rewrite Hvs. cbn -[cbs_fuel invoke_walk]. apply invoke_walk_spec; [|done|done].
pose proof (linked_fuel _ _ _ _ Hl). unfold cbs_fuel. lia.
Qed.

End delivery.

(** ** The table of subsystems *)

Record vlink_ok s : Prop := {
  vo_len : length (v_table s) = MAX_VLINK_SUBSYSTEMS;
  vo_live i p : v_table s !! i = Some p -> p <> 0 ->
    exists vs, v_subsys s !! p = Some vs /\ vs_id vs = Z.of_nat i;
  vo_types i j p q vp vq :
    v_table s !! i = Some p -> v_table s !! j = Some q -> p <> 0 -> q <> 0 ->
    v_subsys s !! p = Some vp -> v_subsys s !! q = Some vq -> vs_type vp = vs_type vq -> i = j;
  vo_unlocked : v_locked s = false;
}.

(** [p] is registered for type [t]. *)
Definition registered_as s (t : Z) (p : addr) : Prop :=
  p <> 0 /\ p ∈ v_table s /\ exists vs, v_subsys s !! p = Some vs /\ vs_type vs = t.

Definition live_table s (tbl : list addr) : Prop :=
  Forall (fun p => p <> 0 -> is_Some (v_subsys s !! p)) tbl.

Lemma vlink_ok_live s : vlink_ok s -> live_table s (v_table s).
Proof.
  intros Hs. apply Forall_forall. intros p Hp H0. apply list_elem_of_lookup in Hp as [i Hi].
  destruct (vo_live s Hs i p Hi H0) as (vs & ? & _). eauto.
Qed.

Lemma find_scan_spec s t tbl : live_table s tbl ->
  exists p, find_scan s t tbl = Some p /\
    (p = 0 -> forall q vs, q ∈ tbl -> q <> 0 -> v_subsys s !! q = Some vs -> vs_type vs <> t) /\
    (p <> 0 -> p ∈ tbl /\ exists vs, v_subsys s !! p = Some vs /\ vs_type vs = t).
Proof.
  induction 1 as [|x tbl Hx _ (p & Hp & Hz & Hnz)]; simpl.
  - exists 0. split; [done|]. split; [|done]. intros _ q vs Hq. by apply not_elem_of_nil in Hq.
  - destruct (Z.eqb_spec x 0) as [->|H0].
    + exists p. split; [done|]. split.
      * intros Ep q vs Hq Hq0. apply elem_of_cons in Hq as [->|Hq]; [done|]. by apply Hz.
      * intros Hp0. destruct (Hnz Hp0) as [? ?]. split; [set_solver|done].
    + destruct (Hx H0) as [vx Hvx]. rewrite Hvx. simpl. destruct (Z.eqb_spec (vs_type vx) t) as [Et|Et].
      * exists x. split; [done|]. split; [done|]. intros _. split; [set_solver|eauto].
      * exists p. split; [done|]. split.
        -- intros Ep q vs Hq Hq0 Hvs. apply elem_of_cons in Hq as [->|Hq]; [congruence|]. by eapply Hz.
        -- intros Hp0. destruct (Hnz Hp0) as [? ?]. split; [set_solver|done].
Qed.

(** The first free slot. *)
Fixpoint first_free (tbl : list addr) : option nat :=
  match tbl with [] => None | p :: tbl' => if p =? 0 then Some O else S <$> first_free tbl' end.

Lemma first_free_lookup tbl j : first_free tbl = Some j -> tbl !! j = Some 0.
Proof.
  revert j; induction tbl as [|p tbl IH]; intros j; simpl; [done|].
  destruct (Z.eqb_spec p 0) as [->|]; [by intros [= <-]|].
  destruct (first_free tbl) as [i|]; simpl; [|done]. intros [= <-]. by apply IH.
Qed.

Lemma register_scan_spec s t tbl : live_table s tbl -> forall i slot, 0 <= i ->
  exists res, register_scan s t tbl i slot = Some res /\
    match res with
    | inl _ => exists q vs, q ∈ tbl /\ q <> 0 /\ v_subsys s !! q = Some vs /\ vs_type vs = t
    | inr r => (forall q vs, q ∈ tbl -> q <> 0 -> v_subsys s !! q = Some vs -> vs_type vs <> t) /\
        r = if slot =? -1 then match first_free tbl with Some j => i + Z.of_nat j | None => -1 end
            else slot
    end.
Proof.
  induction 1 as [|x tbl Hx _ IH]; intros i slot Hi; simpl.
  { exists (inr slot). split; [done|]. split; [intros q vs Hq; by apply not_elem_of_nil in Hq|].
    by destruct (Z.eqb_spec slot (-1)). }
  destruct (Z.eqb_spec x 0) as [->|H0]; simpl.
  - destruct (Z.eqb_spec slot (-1)) as [->|Hs].
    + destruct (IH (i + 1) i) as (res & Hr & Hres); [lia|]. exists res. split; [done|].
      destruct res as [u|r]; [destruct Hres as (q & vs & ? & ?); exists q, vs; set_solver|].
      destruct Hres as [Hn ->]. split.
      * intros q vs Hq Hq0. apply elem_of_cons in Hq as [->|Hq]; [done|]. by apply Hn.
      * destruct (Z.eqb_spec i (-1)); lia.
    + destruct (IH (i + 1) slot) as (res & Hr & Hres); [lia|]. exists res. split; [done|].
      destruct res as [u|r]; [destruct Hres as (q & vs & ? & ?); exists q, vs; set_solver|].
      destruct Hres as [Hn ->]. split; [|by destruct (Z.eqb_spec slot (-1))].
      intros q vs Hq Hq0. apply elem_of_cons in Hq as [->|Hq]; [done|]. by apply Hn.
  - destruct (Hx H0) as [vx Hvx]. rewrite Hvx. simpl. destruct (Z.eqb_spec t (vs_type vx)) as [Et|Et].
    + exists (inl tt). split; [done|]. exists x, vx. set_solver.
    + destruct (IH (i + 1) slot) as (res & Hr & Hres); [lia|]. exists res. split; [done|].
      destruct res as [u|r]; [destruct Hres as (q & vs & ? & ?); exists q, vs; set_solver|].
      destruct Hres as [Hn ->]. split.
      * intros q vs Hq Hq0 Hvs. apply elem_of_cons in Hq as [->|Hq]; [congruence|]. by eapply Hn.
      * destruct (slot =? -1); [|done]. destruct (first_free tbl); simpl; [lia|done].
Qed.

Lemma vlink_lock_run s : vlink_ok s -> vlink_lock s = Some (set_locked true s).
Proof. intros Hs. unfold vlink_lock. by rewrite (vo_unlocked s Hs). Qed.

Lemma unlock_locked s : vlink_ok s -> vlink_unlock (set_locked true s) = s.
Proof. intros Hs. pose proof (vo_unlocked s Hs). destruct s. simpl in *. by subst. Qed.

(** The state after subsystem [n] went into slot [j]. *)
Definition in_slot (n : addr) (vn : vlink_subsys) (j : nat) s : vstate :=
  Vstate (<[j := n]> (v_table s))
    (<[n := Subsys (vs_name vn) (vs_type vn) (Z.of_nat j) (vs_owner vn) (vs_head vn)]> (v_subsys s))
    (v_cbs s) (v_locked s) (v_core_refs s + 1) (v_owner_refs s) (v_world s).

Lemma in_slot_ok n vn j s :
  vlink_ok s -> n <> 0 -> n ∉ v_table s -> v_subsys s !! n = Some vn -> v_table s !! j = Some 0 ->
  (forall q, ~ registered_as s (vs_type vn) q) -> vlink_ok (in_slot n vn j s).
Proof.
  intros Hs H0 Hnin Hvn Hj Hfree. pose proof (lookup_lt_Some _ _ _ Hj) as Hlt.
  assert (Hold : forall i p, <[j := n]> (v_table s) !! i = Some p -> p <> n -> v_table s !! i = Some p).
  { intros i p Hi Hne. destruct (decide (i = j)) as [->|]; [|by rewrite list_lookup_insert_ne in Hi].
    rewrite list_lookup_insert_eq in Hi by done. congruence. }
  assert (Hnew : forall i, <[j := n]> (v_table s) !! i = Some n -> i = j).
  { intros i Hi. destruct (decide (i = j)) as [|]; [done|]. rewrite list_lookup_insert_ne in Hi by done.
    destruct Hnin. by apply list_elem_of_lookup_2 with i. }
  split; simpl.
  - rewrite length_insert. apply Hs.
  - intros i p Hi Hp. destruct (decide (p = n)) as [->|Hne].
    + rewrite lookup_insert_eq. rewrite (Hnew i Hi). eauto.
    + rewrite lookup_insert_ne by done. by apply (vo_live s Hs), Hp; apply Hold.
  - intros i i' p q vp vq Hi Hi' Hp Hq Hvp Hvq Ht.
    destruct (decide (p = n)) as [->|Hpn], (decide (q = n)) as [->|Hqn].
    + by rewrite (Hnew i Hi), (Hnew i' Hi').
    + rewrite lookup_insert_eq in Hvp. injection Hvp as <-. rewrite lookup_insert_ne in Hvq by done.
      destruct (Hfree q). split; [done|]. split; [by eapply list_elem_of_lookup_2, Hold|]. eauto.
    + rewrite lookup_insert_eq in Hvq. injection Hvq as <-. rewrite lookup_insert_ne in Hvp by done.
      destruct (Hfree p). split; [done|]. split; [by eapply list_elem_of_lookup_2, Hold|]. eauto.
    + rewrite lookup_insert_ne in Hvp, Hvq by done.
      by eapply (vo_types s Hs i i' p q); [apply Hold|apply Hold|..].
  - apply Hs.
Qed.

Lemma in_slot_registered n vn j s t q :
  vlink_ok s -> n <> 0 -> n ∉ v_table s -> v_table s !! j = Some 0 ->
  registered_as (in_slot n vn j s) t q <->
    (q = n /\ t = vs_type vn) \/ (q <> n /\ registered_as s t q).
Proof.
  intros Hs H0 Hnin Hj. pose proof (lookup_lt_Some _ _ _ Hj) as Hlt. unfold registered_as. simpl.
  assert (Hel : q <> n -> q <> 0 -> q ∈ <[j := n]> (v_table s) <-> q ∈ v_table s).
  { intros Hq Hq0. rewrite !list_elem_of_lookup. split; intros [i Hi]; exists i.
    - destruct (decide (i = j)) as [->|]; [|by rewrite list_lookup_insert_ne in Hi].
      rewrite list_lookup_insert_eq in Hi by done. congruence.
    - destruct (decide (i = j)) as [->|]; [congruence|by rewrite list_lookup_insert_ne]. }
  destruct (decide (q = n)) as [->|Hq].
  - rewrite lookup_insert_eq. split.
    + intros (_ & _ & vs & [= <-] & <-). by left.
    + intros [[_ ->]|[? _]]; [|done]. split; [done|]. split; [|eauto].
      apply list_elem_of_lookup. exists j. by apply list_lookup_insert_eq.
  - rewrite lookup_insert_ne by done. split.
    + intros (Hq0 & Hin & Hvs). right. split; [done|]. split; [done|]. split; [by apply Hel|done].
    + intros [[? _]|(_ & Hq0 & Hin & Hvs)]; [done|]. split; [done|]. split; [by apply Hel|done].
Qed.

(** registering a subsystem fails with [-EBUSY] when its type is taken
    and with [-ENOMEM] when the table is full, changing nothing; otherwise
    it takes the first free slot, is then found under its type, and every
    other type finds what it found before; the types stay pairwise
    different. *)
Theorem subsys_register_correct s n vn :
  vlink_ok s -> n <> 0 -> n ∉ v_table s -> v_subsys s !! n = Some vn ->
  (exists q, registered_as s (vs_type vn) q) /\ vlink_subsys_register n s = Some (- EBUSY, s) \/
  (forall q, ~ registered_as s (vs_type vn) q) /\
    match first_free (v_table s) with
    | None => vlink_subsys_register n s = Some (- ENOMEM, s)
    | Some j => exists s', vlink_subsys_register n s = Some (0, s') /\ vlink_ok s' /\
        v_table s' = <[j := n]> (v_table s) /\
        forall t q, registered_as s' t q <-> (q = n /\ t = vs_type vn) \/ (q <> n /\ registered_as s t q)
    end.
Proof.
  intros Hs H0 Hnin Hvn. unfold vlink_subsys_register. destruct (Z.eqb_spec n 0); [done|].
  rewrite (vlink_lock_run s Hs). simpl. rewrite Hvn. simpl.
  destruct (register_scan_spec (set_locked true s) (vs_type vn) (v_table s)) with (i := 0) (slot := -1)
    as (res & Hr & Hres); [exact (vlink_ok_live s Hs)|lia|].
  rewrite Hr. simpl. destruct res as [u|r].
  - left. destruct Hres as (q & vs & Hq & Hq0 & Hvs & Ht). split; [exists q; by repeat split; eauto|].
    by rewrite unlock_locked.
  - right. destruct Hres as [Hn ->].
    assert (Hfree : forall q, ~ registered_as s (vs_type vn) q).
    { intros q (Hq0 & Hq & vs & Hvs & Ht). by apply (Hn q vs). }
    split; [done|]. simpl. destruct (first_free (v_table s)) as [j|] eqn:Ej; simpl.
    + pose proof (first_free_lookup _ _ Ej) as Hj. pose proof (lookup_lt_Some _ _ _ Hj) as Hlt.
      rewrite (vo_len s Hs) in Hlt. unfold MAX_VLINK_SUBSYSTEMS in Hlt.
      rewrite Z.add_0_l. destruct (Z.eqb_spec (Z.of_nat j) (-1)); [lia|]. exists (in_slot n vn j s). split.
      * f_equal. f_equal. unfold in_slot, vlink_unlock. simpl. rewrite (vo_unlocked s Hs), Nat2Z.id.
        unfold u16. rewrite Z.mod_small by lia. done.
      * split; [by apply in_slot_ok|]. split; [done|]. intros t q. by apply in_slot_registered.
    + by rewrite unlock_locked.
Qed.

(** looking a type up finds the subsystem registered for it, and NULL
    only when there is none; nothing changes. *)
Theorem subsys_find_correct s t :
  vlink_ok s ->
  exists p, vlink_subsys_find t s = Some (p, s) /\
    (p <> 0 -> registered_as s t p /\ forall q, registered_as s t q -> q = p) /\
    (p = 0 -> forall q, ~ registered_as s t q).
Proof.
  intros Hs. unfold vlink_subsys_find, __vlink_subsys_find. rewrite (vlink_lock_run s Hs). simpl.
  destruct (find_scan_spec (set_locked true s) t (v_table s)) as (p & Hp & Hz & Hnz);
    [exact (vlink_ok_live s Hs)|].
  rewrite Hp. simpl. exists p. rewrite unlock_locked by done. split; [done|]. split.
  - intros Hp0. destruct (Hnz Hp0) as (Hin & vs & Hvs & Ht). split; [split; [done|]; eauto|].
    intros q (Hq0 & Hq & vq & Hvq & Htq). simpl in Hvs.
    apply list_elem_of_lookup in Hin as [i Hi]. apply list_elem_of_lookup in Hq as [j Hj].
    assert (i = j) by (eapply (vo_types s Hs i j p q vs vq); try done; congruence). subst. congruence.
  - intros -> q (Hq0 & Hq & vq & Hvq & Htq). by apply (Hz eq_refl q vq).
Qed.
End props.

(** ** A system with one subsystem *)

(** The type 7 has the callbacks 64 and 128 of priorities 3 and 1; the
    callback 192 of priority 2 and the subsystem 320 of type 8 are not in any
    list yet. *)
Definition sys : vstate (W := unit) :=
  Vstate (<[0%nat := 256]> (replicate MAX_VLINK_SUBSYSTEMS 0))
    {[ 256 := Subsys [] 7 0 1 64; 320 := Subsys [] 8 0 1 0 ]}
    {[ 64 := Callback 3 10 128; 128 := Callback 1 11 0; 192 := Callback 2 12 0 ]} false 0 ∅ tt.

(** Driver 10 passes messages on, the others stop them. *)
Definition sys_rx (f : Z) (_ : vlinknlmsg) (w : unit) : Z * unit :=
  (if f =? 10 then NETLINK_VLINK_RX_NXT else NETLINK_VLINK_RX_STOP, w).

Lemma sys_callbacks : callbacks sys 256 [64; 128].
Proof.
  exists 64. split; [done|]. split; [done|]. split; [done|]. eexists. split; [done|].
  split; [done|]. split; [done|]. by eexists.
Qed.

Lemma sys_slot i p : v_table sys !! i = Some p -> p <> 0 -> i = 0%nat /\ p = 256.
Proof.
  destruct i as [|i]; [by intros [= <-]|]. intros H Hp.
  change (replicate 255 0 !! i = Some p) in H. by apply lookup_replicate in H as [-> _].
Qed.

Lemma sys_ok : vlink_ok sys.
Proof.
  split; [done| | |done].
  - intros i p Hi Hp. destruct (sys_slot i p Hi Hp) as [-> ->]. by eexists.
  - intros i j p q vp vq Hi Hj Hp Hq _ _ _.
    by destruct (sys_slot i p Hi Hp), (sys_slot j q Hj Hq); subst.
Qed.

Lemma add_callback_correct_witness :
  exists s', vlink_add_callback 256 192 sys = Some (0, s') /\ callbacks s' 256 [64; 192; 128].
Proof.
  destruct (add_callback_correct sys 256 192 (Callback 2 12 0) [64; 128])
    as (s' & H & Hl & _); [done|done|exact sys_callbacks|done| | |].
  - rewrite !not_elem_of_cons. repeat split; try done. apply not_elem_of_nil.
  - repeat constructor; done.
  - exists s'. split; [exact H|exact Hl].
Defined.

Lemma rm_callback_correct_witness :
  exists s', vlink_rm_callback 256 64 sys = Some (0, s') /\ callbacks s' 256 [128].
Proof.
  pose proof (rm_callback_correct sys 256 64 (Callback 3 10 128) [64; 128]) as H.
  rewrite decide_True in H by constructor.
  destruct H as (s' & H & Hl & _); [done|done|exact sys_callbacks|done|].
  exists s'. split; [exact H|exact Hl].
Defined.

(** The hook that driver 11 starts is counted at the owner. *)
Lemma invoke_correct_witness :
  let vmsg := Vmsg VLINKNLCMD_START_HOOK_DEVICE 0 7 0 [] [] in
  __vlink_invoke sys_rx 256 vmsg sys = Some (NETLINK_VLINK_RX_STOP, add_owner_refs 1 1 sys).
Proof.
  intros vmsg. exact (invoke_correct sys_rx sys 256 (Subsys [] 7 0 1 64) vmsg [64; 128] eq_refl sys_callbacks).
Defined.

Lemma subsys_register_correct_witness :
  exists s', vlink_subsys_register 320 sys = Some (0, s') /\ vlink_ok s' /\ registered_as s' 8 320.
Proof.
  destruct (subsys_register_correct sys 320 (Subsys [] 8 0 1 0)) as [[[q (Hq0 & Hq & vs & Hv & Ht)] _]|[_ H]];
    [exact sys_ok|done| |done| |].
  - intros Hin. apply list_elem_of_lookup in Hin as [i Hi]. by destruct (sys_slot i 320 Hi).
  - exfalso. apply list_elem_of_lookup in Hq as [i Hi]. destruct (sys_slot i q Hi Hq0) as [-> ->].
    by injection Hv as <-.
  - change (first_free (v_table sys)) with (Some 1%nat) in H. destruct H as (s' & H & Hs & _ & Hr).
    exists s'. split; [exact H|]. split; [exact Hs|]. apply Hr. by left.
Defined.

Lemma subsys_find_correct_witness :
  exists p, vlink_subsys_find 7 sys = Some (p, sys) /\ (p <> 0 -> registered_as sys 7 p).
Proof.
  destruct (subsys_find_correct sys 7 sys_ok) as (p & H & Hp & _).
  exists p. split; [exact H|]. intros Hp0. exact (proj1 (Hp Hp0)).
Defined.
