(* ===== verification/NameMap.v ===== *)
(** * Interfaces of the core

    What src/xt_fblock.c and src/xt_builder.c rely on, as classes whose laws
    the clients' proofs use.

    [NameMap] is the contract of the crit-bit library; the instance
    [critbit_names] discharges it with the trees of CritbitTree.v.

    [KernelApi] collects the parts of the Linux kernel the core calls and
    whose source is not in this repository: radix trees (lib/radix-tree.c) and
    notifier chains (kernel/notifier.c).  Its laws state their documented
    behaviour; [ref_api] shows they can be satisfied. *)
From Stdlib Require Import ZArith Lia.
From stdpp Require Import base gmap numbers list.
From S2P Require Import Prelude CString Digits CritbitTree.

Local Open Scope Z_scope.

(** ** Maps from names to element addresses *)

Class NameMap := {
  names : Type;
  nm_empty : names;
  nm_get : names -> cstr -> option addr;
  nm_contains : names -> cstr -> Z;
  nm_insert : bool -> names -> addr -> cstr -> Z * names;
  nm_delete : names -> cstr -> Z * names;
  nm_view : names -> gmap cstr addr;
  nm_ok : names -> Prop;
  nm_empty_ok : nm_ok nm_empty;
  nm_view_empty : nm_view nm_empty = ∅;
  nm_get_spec t u : nm_ok t -> cstr_ok u -> nm_get t u = nm_view t !! u;
  nm_contains_spec t u : nm_ok t -> cstr_ok u ->
    nm_contains t u = match nm_view t !! u with Some _ => 1 | None => 0 end;
  nm_insert_spec ok t a u : nm_ok t -> cstr_ok u ->
    nm_ok (nm_insert ok t a u).2 /\
    ((nm_insert ok t a u).1, nm_view (nm_insert ok t a u).2) = insert_spec ok (nm_view t) a u;
  nm_delete_spec t u : nm_ok t -> cstr_ok u ->
    nm_ok (nm_delete t u).2 /\
    ((nm_delete t u).1, nm_view (nm_delete t u).2) = delete_spec (nm_view t) u;
}.

Lemma tree_contains_spec t u :
  cwf_tree t -> cstr_ok u ->
  tree_contains t u = match tree_map t !! u with Some _ => 1 | None => 0 end.
Proof. intros. by rewrite tree_contains_get, tree_get_spec. Qed.

#[export] Instance critbit_names : NameMap := {|
  names := critbit_tree;
  nm_empty := None;
  nm_get := tree_get;
  nm_contains := tree_contains;
  nm_insert := tree_insert;
  nm_delete := tree_delete;
  nm_view := tree_map;
  nm_ok := cwf_tree;
  nm_empty_ok := I;
  nm_view_empty := eq_refl;
  nm_get_spec := tree_get_spec;
  nm_contains_spec := tree_contains_spec;
  nm_insert_spec := tree_insert_spec;
  nm_delete_spec := tree_delete_spec;
|}.

(** ** The Linux kernel *)

(** One instruction of a packet filter. *)
Record sock_filter := Insn { bf_code : Z; bf_jt : Z; bf_jf : Z; bf_k : Z }.

#[export] Instance sock_filter_eq : EqDecision sock_filter.
Proof. solve_decision. Defined.

Class KernelApi := {
  (** Radix trees from an index to a pointer; looking up an absent index
      gives NULL.  [radix_insert ok]: [-EEXIST] if the index is taken,
      [-ENOMEM] if a node was needed and [ok] is false. *)
  radix : Type;
  radix_empty : radix;
  radix_lookup : radix -> Z -> addr;
  radix_insert : bool -> radix -> Z -> addr -> Z * radix;
  radix_delete : radix -> Z -> radix;
  radix_lookup_empty i : radix_lookup radix_empty i = 0;
  radix_insert_taken ok t i p : radix_lookup t i <> 0 -> radix_insert ok t i p = (- EEXIST, t);
  radix_insert_free t i p : radix_lookup t i = 0 -> (radix_insert true t i p).1 = 0;
  radix_insert_fail ok t i p : (radix_insert ok t i p).1 <> 0 ->
    (radix_insert ok t i p).1 < 0 /\ (radix_insert ok t i p).2 = t;
  radix_insert_lookup ok t i p j : (radix_insert ok t i p).1 = 0 ->
    radix_lookup (radix_insert ok t i p).2 j = if decide (i = j) then p else radix_lookup t j;
  radix_delete_lookup t i j :
    radix_lookup (radix_delete t i) j = if decide (i = j) then 0 else radix_lookup t j;
  (** Atomic notifier chains: the blocks registered on a head, in calling
      order. *)
  chain : Type;
  chain_init : chain;
  chain_members : chain -> list addr;
  chain_register : chain -> addr -> Z * chain;
  chain_unregister : chain -> addr -> Z * chain;
  chain_members_init : chain_members chain_init = [];
  chain_register_ok c n : (chain_register c n).1 = 0;
  chain_register_members c n : chain_members (chain_register c n).2 ≡ₚ n :: chain_members c;
  chain_unregister_members c n : n ∈ chain_members c ->
    (chain_unregister c n).1 = 0 /\ n :: chain_members (chain_unregister c n).2 ≡ₚ chain_members c;
  chain_unregister_absent c n : n ∉ chain_members c -> chain_unregister c n = (- ENOENT, c);
  (** Packet filters: [sk_chk_filter] gives 0 for a valid program, and
      [sk_run_filter] how many bytes of a packet to keep. *)
  sk_chk_filter : list sock_filter -> Z;
  sk_run_filter : list sock_filter -> list Z -> Z;
  (** [simple_strtoul]: the value of the digits at a pointer and where they
      end; in base 16 an "0x" before them is skipped.  It reads up to and
      including the first character that is no digit; [None] if the memory
      ends before it. *)
  simple_strtoul : list Z -> Z -> option (Z * list Z);
  simple_strtoul_dec ds c rest :
    Forall (fun d => is_digit 10 d = true) ds -> is_digit 10 c = false ->
    simple_strtoul (ds ++ c :: rest) 10 = Some (u64 (digits_val 10 0 ds), c :: rest);
  simple_strtoul_hex ds c rest :
    Forall (fun d => is_digit 16 d = true) ds -> is_digit 16 c = false ->
    simple_strtoul (48 :: 120 :: ds ++ c :: rest) 16 = Some (u64 (digits_val 16 0 ds), c :: rest);
  simple_strtoul_hex_bare ds c rest :
    Forall (fun d => is_digit 16 d = true) ds -> is_digit 16 c = false -> head ds <> Some 48 ->
    simple_strtoul (ds ++ c :: rest) 16 = Some (u64 (digits_val 16 0 ds), c :: rest);
  (** [dev_alloc_name]: the name for a new device, when the names in use are
      given; a name without a format is taken as it is. *)
  dev_alloc_name : list cstr -> cstr -> Z * cstr;
  dev_alloc_name_plain used name : 37 ∉ name -> name ∉ used -> dev_alloc_name used name = (0, name);
  (** The memory a packet of this length is charged for at a socket. *)
  skb_truesize : Z -> Z;
  (** The error of [sock_alloc_send_skb] for a socket, a length and flags when it
      gives no packet: a pending error, no memory, a wait that is not wanted
      or was interrupted. *)
  sock_alloc_err : addr -> Z -> Z -> Z;
  sock_alloc_err_neg sk size flags : sock_alloc_err sk size flags < 0;
}.

(** A reference instance: finite maps, lists appended at the end, and filters
    whose last instruction says what to keep. *)
Definition ref_radix_insert (ok : bool) (t : gmap Z addr) (i : Z) (p : addr) :
    Z * gmap Z addr :=
  if decide (default 0 (t !! i) = 0) then if ok then (0, <[i := p]> t) else (- ENOMEM, t)
  else (- EEXIST, t).

Fixpoint remove_first (n : addr) (c : list addr) : list addr :=
  match c with
  | [] => []
  | m :: c' => if decide (m = n) then c' else m :: remove_first n c'
  end.

Definition ref_chain_unregister (c : list addr) (n : addr) : Z * list addr :=
  if decide (n ∈ c) then (0, remove_first n c) else (- ENOENT, c).

Lemma remove_first_perm n c : n ∈ c -> n :: remove_first n c ≡ₚ c.
Proof.
  induction c as [|m c IH]; [by intros ?%not_elem_of_nil|]. simpl.
  case_decide; [by subst|]. intros [?|Hin]%elem_of_cons; [done|].
  rewrite <- (IH Hin) at 2. by apply Permutation_swap.
Qed.

(** Digits up to the first character that is none. *)
Fixpoint ref_digits (base acc : Z) (s : list Z) : option (Z * list Z) :=
  match s with
  | [] => None
  | c :: s' =>
      if is_digit base c then ref_digits base (base * acc + default 0 (digit_val c)) s'
      else Some (u64 acc, s)
  end.

Definition ref_strtoul (s : list Z) (base : Z) : option (Z * list Z) :=
  match s with
  | 48 :: 120 :: s' => if base =? 16 then ref_digits base 0 s' else ref_digits base 0 s
  | _ => ref_digits base 0 s
  end.

Lemma ref_digits_spec base ds c rest : forall acc,
  Forall (fun d => is_digit base d = true) ds -> is_digit base c = false ->
  ref_digits base acc (ds ++ c :: rest) = Some (u64 (digits_val base acc ds), c :: rest).
Proof.
  induction ds as [|d ds IH]; intros acc HF Hc; simpl; [by rewrite Hc|].
  inversion HF as [|? ? Hd HF']; subst. rewrite Hd. by apply IH.
Qed.

Lemma ref_strtoul_dec s : ref_strtoul s 10 = ref_digits 10 0 s.
Proof.
  destruct s as [|[|p|p] [|d s]]; try done; do 6 (try destruct p as [p|p|]; try done);
    destruct d as [|q|q]; try done; do 7 (try destruct q as [q|q|]; try done).
Qed.

Lemma ref_strtoul_hex_bare d s : d <> 48 -> ref_strtoul (d :: s) 16 = ref_digits 16 0 (d :: s).
Proof. intros Hd. destruct d as [|p|p]; try done; do 6 (try destruct p as [p|p|]; try done). Qed.

#[export] Program Instance ref_api : KernelApi := {|
  radix := gmap Z addr;
  radix_empty := ∅;
  radix_lookup t i := default 0 (t !! i);
  radix_insert := ref_radix_insert;
  radix_delete t i := delete i t;
  chain := list addr;
  chain_init := [];
  chain_members c := c;
  chain_register c n := (0, c ++ [n]);
  chain_unregister := ref_chain_unregister;
  sk_chk_filter prog := if decide (prog = []) then - EINVAL else 0;
  sk_run_filter prog data := match last prog with Some i => bf_k i | None => 0 end;
  simple_strtoul := ref_strtoul;
  dev_alloc_name used name :=
    if decide (37 ∈ name) then (- EINVAL, name)
    else if decide (name ∈ used) then (- ENFILE, name) else (0, name);
  skb_truesize len := len + 256;
  sock_alloc_err sk size flags := if flags =? 0 then - ENOBUFS else - EAGAIN;
|}.
Next Obligation. done. Qed.
Next Obligation. intros ok t i p H. unfold ref_radix_insert. by rewrite decide_False. Qed.
Next Obligation. intros t i p H. unfold ref_radix_insert. by rewrite decide_True. Qed.
Next Obligation.
  intros ok t i p. unfold ref_radix_insert. case_decide; destruct ok; done.
Qed.
Next Obligation.
  intros ok t i p j. unfold ref_radix_insert. case_decide; [|done]. destruct ok; [|done].
  intros _. simpl. rewrite lookup_insert. by case_decide.
Qed.
Next Obligation. intros t i j. simpl. rewrite lookup_delete. by case_decide. Qed.
Next Obligation. done. Qed.
Next Obligation. done. Qed.
Next Obligation. intros c n. simpl. by rewrite Permutation_app_comm. Qed.
Next Obligation.
  intros c n Hin. unfold ref_chain_unregister. rewrite decide_True by done.
  split; [done|]. by apply remove_first_perm.
Qed.
Next Obligation. intros c n Hin. unfold ref_chain_unregister. by rewrite decide_False. Qed.
Next Obligation. intros ds c rest HF Hc. rewrite ref_strtoul_dec. by apply ref_digits_spec. Qed.
Next Obligation. intros ds c rest HF Hc. simpl. by apply ref_digits_spec. Qed.
Next Obligation.
  intros ds c rest HF Hc Hh. rewrite <- ref_digits_spec by done. destruct ds as [|d ds]; cbn [app].
  - apply ref_strtoul_hex_bare. by intros ->.
  - apply ref_strtoul_hex_bare. by intros ->.
Qed.
Next Obligation. intros used name H1 H2. simpl. by rewrite !decide_False. Qed.
Next Obligation. intros sk size flags. simpl. by destruct (flags =? 0). Qed.
