(* ===== verification/Types.v ===== *)
(** * Data of the LANA stack

    The structs and enums of the kernel sources: identifiers (xt_idp.h), the
    control block of a packet (xt_skb.h), functional blocks, factories and
    notifiers (xt_fblock.h, xt_fblock.c), the private data of the functional
    block modules and the engine's per-CPU data (xt_engine.c).

    A function pointer stored in a struct is the module whose static function
    it points to ([modid]); NULL pointers of data are address 0. *)
From Stdlib Require Import ZArith Lia.
From stdpp Require Import base gmap numbers countable list.
From S2P Require Import Prelude CString NameMap.

Local Open Scope Z_scope.

(** ** xt_idp.h *)

Definition IDP_EXIT_PPE : Z := 0.
Definition IDP_UNKNOWN : Z := IDP_EXIT_PPE.

(** ** xt_fblock.h: paths, modes, notifier results *)

Inductive path_type := TYPE_INGRESS | TYPE_EGRESS.

#[export] Instance path_type_eq : EqDecision path_type.
Proof. solve_decision. Defined.

Inductive fblock_mode := MODE_SOURCE | MODE_SINK | MODE_DUAL.

Definition FBNAMSIZ : nat := 16.
Definition TYPNAMSIZ : nat := FBNAMSIZ.

Definition NOTIFY_DONE : Z := 0.
Definition NOTIFY_OK : Z := 1.
Definition NOTIFY_STOP_MASK : Z := 32768.
Definition NOTIFY_BAD : Z := Z.lor NOTIFY_STOP_MASK 2.

(** The commands of [event_rx] with the message each carries. *)
Inductive fblock_event :=
| FBLOCK_BIND_IDP (dir : path_type) (idp : Z)
| FBLOCK_UNBIND_IDP (dir : path_type) (idp : Z)
| FBLOCK_SET_OPT (key val : cstr)
| FBLOCK_DOWN_PREPARE
| FBLOCK_DOWN (idp : Z).

(** The modules of the system; [M_core] is lana.ko itself. *)
Inductive modid := M_core | M_dummy | M_tee | M_counter | M_bpf | M_eth | M_ethvlink | M_pflana.

#[export] Instance modid_eq : EqDecision modid.
Proof. solve_decision. Defined.

Definition modid_code (m : modid) : nat :=
  match m with M_core => 0 | M_dummy => 1 | M_tee => 2 | M_counter => 3 | M_bpf => 4 | M_eth => 5
  | M_ethvlink => 6 | M_pflana => 7 end.

Definition modid_decode (n : nat) : modid :=
  match n with
  | 1%nat => M_dummy | 2%nat => M_tee | 3%nat => M_counter | 4%nat => M_bpf | 5%nat => M_eth
  | 6%nat => M_ethvlink | 7%nat => M_pflana
  | _ => M_core
  end.

#[export] Instance modid_countable : Countable modid.
Proof. apply (inj_countable' modid_code modid_decode). by intros []. Defined.

(** [struct fblock_factory]: the constructor and destructor pointers all
    belong to the module that registers the factory. *)
Record fblock_factory := Factory {
  fac_type : cstr;
  fac_mode : fblock_mode;
  fac_owner : modid;
  fac_ctor : modid;
  fac_dtor : modid;
  fac_dtor_outside_rcu : option modid;
}.

(** [struct fblock_notifier] with its embedded [struct notifier_block]: the
    callback and the priority. *)
Record fblock_notifier := Notifier {
  fn_self : addr;
  fn_call : option modid;
  fn_priority : Z;
  fn_next : addr;
  fn_remote : Z;
}.

Record fblock := Fblock {
  fb_name : cstr;
  fb_private_data : addr;
  fb_netfb_rx : option modid;
  fb_event_rx : option modid;
  fb_factory : addr;
  fb_notifiers : addr;
  fb_others : addr;
  fb_refcnt : Z;
  fb_idp : Z;
  fb_lock : bool;
}.

Definition with_name (v : cstr) (b : fblock) : fblock :=
  Fblock v (fb_private_data b) (fb_netfb_rx b) (fb_event_rx b) (fb_factory b)
    (fb_notifiers b) (fb_others b) (fb_refcnt b) (fb_idp b) (fb_lock b).
Definition with_private_data (v : addr) (b : fblock) : fblock :=
  Fblock (fb_name b) v (fb_netfb_rx b) (fb_event_rx b) (fb_factory b)
    (fb_notifiers b) (fb_others b) (fb_refcnt b) (fb_idp b) (fb_lock b).
Definition with_rx (netrx event : modid) (b : fblock) : fblock :=
  Fblock (fb_name b) (fb_private_data b) (Some netrx) (Some event) (fb_factory b)
    (fb_notifiers b) (fb_others b) (fb_refcnt b) (fb_idp b) (fb_lock b).
Definition with_factory (v : addr) (b : fblock) : fblock :=
  Fblock (fb_name b) (fb_private_data b) (fb_netfb_rx b) (fb_event_rx b) v
    (fb_notifiers b) (fb_others b) (fb_refcnt b) (fb_idp b) (fb_lock b).
Definition with_notifiers (v : addr) (b : fblock) : fblock :=
  Fblock (fb_name b) (fb_private_data b) (fb_netfb_rx b) (fb_event_rx b) (fb_factory b)
    v (fb_others b) (fb_refcnt b) (fb_idp b) (fb_lock b).
Definition with_others (v : addr) (b : fblock) : fblock :=
  Fblock (fb_name b) (fb_private_data b) (fb_netfb_rx b) (fb_event_rx b) (fb_factory b)
    (fb_notifiers b) v (fb_refcnt b) (fb_idp b) (fb_lock b).
Definition with_refcnt (v : Z) (b : fblock) : fblock :=
  Fblock (fb_name b) (fb_private_data b) (fb_netfb_rx b) (fb_event_rx b) (fb_factory b)
    (fb_notifiers b) (fb_others b) v (fb_idp b) (fb_lock b).
Definition with_idp (v : Z) (b : fblock) : fblock :=
  Fblock (fb_name b) (fb_private_data b) (fb_netfb_rx b) (fb_event_rx b) (fb_factory b)
    (fb_notifiers b) (fb_others b) (fb_refcnt b) v (fb_lock b).
Definition with_lock (v : bool) (b : fblock) : fblock :=
  Fblock (fb_name b) (fb_private_data b) (fb_netfb_rx b) (fb_event_rx b) (fb_factory b)
    (fb_notifiers b) (fb_others b) (fb_refcnt b) (fb_idp b) v.

(** A [char name[FBNAMSIZ]] filled by [strlcpy]. *)
Definition fbname (src : cstr) : cstr := take (FBNAMSIZ - 1) src.

(** [struct idp_elem] of xt_fblock.c. *)
Record idp_elem := IdpElem { ie_name : cstr; ie_idp : Z }.

(** ** xt_skb.h *)

Record sock_lana_inf := LanaInf {
  idp_dst : Z;
  idp_src : Z;
  sli_flags : Z;
  sli_errno : Z;
  sli_marker : Z;
  sli_dir : path_type;
}.

(** What the Ethernet drivers use of a packet: the device it came from, its
    type and the source address and protocol of its Ethernet header. *)
Record eth_info := EthInfo {
  ei_dev : addr;
  ei_pkt_type : Z;
  ei_source : list Z;
  ei_proto : Z;
}.

(** The part of [struct sk_buff] the stack uses: the payload, the control
    block, the reference count and the Ethernet part. *)
Record sk_buff := Skb {
  skb_len : Z;
  skb_data : list Z;
  skb_cb : sock_lana_inf;
  skb_users : Z;
  skb_eth : eth_info;
}.

Definition MARKER_TIME_MARKED_FIRST : Z := Z.shiftl 1 0.
Definition MARKER_TIME_MARKED_LAST : Z := Z.shiftl 1 1.

Definition set_cb (s : sk_buff) (cb : sock_lana_inf) : sk_buff :=
  Skb (skb_len s) (skb_data s) cb (skb_users s) (skb_eth s).

Definition write_next_idp_to_skb (s : sk_buff) (from to : Z) : sk_buff :=
  let sli := skb_cb s in
  set_cb s (LanaInf to from (sli_flags sli) (sli_errno sli) (sli_marker sli) (sli_dir sli)).

Definition read_next_idp_from_skb (s : sk_buff) : Z := idp_dst (skb_cb s).

Definition write_path_to_skb (s : sk_buff) (dir : path_type) : sk_buff :=
  let sli := skb_cb s in
  set_cb s (LanaInf (idp_dst sli) (idp_src sli) (sli_flags sli) (sli_errno sli) (sli_marker sli) dir).

Definition read_path_from_skb (s : sk_buff) : path_type := sli_dir (skb_cb s).

Definition set_marker (s : sk_buff) (m : Z) : sk_buff :=
  let sli := skb_cb s in
  set_cb s (LanaInf (idp_dst sli) (idp_src sli) (sli_flags sli) (sli_errno sli) m (sli_dir sli)).

Definition time_mark_skb_last (s : sk_buff) : sk_buff :=
  set_marker s (Z.lor (sli_marker (skb_cb s)) MARKER_TIME_MARKED_LAST).

Definition skb_is_time_marked_last (s : sk_buff) : bool :=
  Z.land (sli_marker (skb_cb s)) MARKER_TIME_MARKED_LAST =? MARKER_TIME_MARKED_LAST.

Definition time_mark_skb_first (s : sk_buff) : sk_buff :=
  set_marker s (Z.lor (sli_marker (skb_cb s)) MARKER_TIME_MARKED_FIRST).

Definition skb_is_time_marked_first (s : sk_buff) : bool :=
  Z.land (sli_marker (skb_cb s)) MARKER_TIME_MARKED_FIRST =? MARKER_TIME_MARKED_FIRST.

(** ** Private data of the functional block modules

    [idp_t port[2]], indexed by the direction. *)

Record ports := Ports { port_in : Z; port_eg : Z }.

Definition port (p : ports) (dir : path_type) : Z :=
  match dir with TYPE_INGRESS => port_in p | TYPE_EGRESS => port_eg p end.

Definition set_port (p : ports) (dir : path_type) (idp : Z) : ports :=
  match dir with
  | TYPE_INGRESS => Ports idp (port_eg p)
  | TYPE_EGRESS => Ports (port_in p) idp
  end.

Record fb_dummy_priv := DummyPriv { dp_port : ports }.

Record fb_tee_priv := TeePriv { tp_port : ports; tp_port_clone : Z }.

Record fb_counter_priv := CounterPriv { cp_port : ports; cp_packets : Z; cp_bytes : Z }.

(** The filter of a CPU belongs to that CPU alone: the pointer is the program
    it points to, [None] is NULL. *)
Record fb_bpf_priv := BpfPriv { bp_port : ports; bp_filter : option (list sock_filter) }.

Record fb_eth_priv := EthPriv { ep_port : ports; ep_dev : addr }.

(** [vdev] points into the virtual device: it is the device's address. *)
Record fb_ethvlink_private_inner := VlinkInner { vi_port : ports; vi_vdev : addr }.

Record fb_pflana_priv := PflanaPriv { pp_port : ports; pp_sock_self : addr }.

(** A [void __percpu *private_data]: one struct per CPU, of the type of the
    module that allocated it. *)
Inductive priv :=
| PrivDummy (l : list fb_dummy_priv)
| PrivTee (l : list fb_tee_priv)
| PrivCounter (l : list fb_counter_priv)
| PrivBpf (l : list fb_bpf_priv)
| PrivEth (l : list fb_eth_priv)
| PrivEthvlink (l : list fb_ethvlink_private_inner)
| PrivPflana (l : list fb_pflana_priv).

(** ** xt_engine.h, xt_engine.c *)

Definition PPE_SUCCESS : Z := 0.
Definition PPE_DROPPED : Z := 1.
Definition PPE_HALT : Z := PPE_DROPPED.
Definition PPE_ERROR : Z := 2.

Record engine_iostats := Iostats {
  es_bytes : Z;
  es_pkts : Z;
  es_fblocks : Z;
  es_timer : Z;
  es_timer_cpu_miss : Z;
}.

Record engine_disc := Disc {
  ed_queue : list addr;
  ed_active : bool;
  ed_cpu : nat;
}.

(** ** Small facts *)

Lemma port_set_same p d i : port (set_port p d i) d = i.
Proof. by destruct d. Qed.

Lemma port_set_other p d d' i : d <> d' -> port (set_port p d i) d' = port p d'.
Proof. by destruct d, d'. Qed.

Lemma set_port_back p d i : set_port (set_port p d i) d (port p d) = p.
Proof. by destruct p, d. Qed.

Lemma fbname_strlcpy dest src :
  cstr_ok src -> c_str (strlcpy dest src FBNAMSIZ).2 = fbname src.
Proof. intros. apply strlcpy_c_str; [done|]. unfold FBNAMSIZ. lia. Qed.

Lemma fbname_length s : (length (fbname s) < FBNAMSIZ)%nat.
Proof. unfold fbname, FBNAMSIZ. rewrite length_take. lia. Qed.

Lemma fbname_id s : (length s < FBNAMSIZ)%nat -> fbname s = s.
Proof. unfold fbname, FBNAMSIZ. intros. apply take_ge. lia. Qed.

Lemma fbname_ok s : cstr_ok s -> cstr_ok (fbname s).
Proof. apply cstr_ok_take. Qed.

Lemma NOTIFY_OK_not_BAD : NOTIFY_BAD <> NOTIFY_OK.
Proof. done. Qed.
