(* ===== verification/NetTypes.v ===== *)
(** * Network devices and sockets: data

    The parts of the kernel's [struct net_device], [struct sock] and
    [struct socket] the drivers use, and the static data of src/fb_eth.c,
    src/fb_ethvlink.c and src/fb_pflana.c. *)
From Stdlib Require Import ZArith Lia.
From stdpp Require Import base gmap numbers list.
From S2P Require Import Prelude CString NameMap Types.

Local Open Scope Z_scope.

(** ** src/fb_ethvlink.c *)

Record pcpu_dstats := Dstats {
  ds_rx_packets : Z;
  ds_rx_bytes : Z;
  ds_rx_multicast : Z;
  ds_tx_packets : Z;
  ds_tx_bytes : Z;
  ds_rx_errors : Z;
  ds_tx_dropped : Z;
}.

(** The driver's part of a virtual device ([netdev_priv]).  Its list entry is
    in [fb_ethvlink_vdevs]; [netvif_rx] has one value only. *)
Record fb_ethvlink_private := VlinkPriv {
  vd_tag : Z;
  vd_self : addr;
  vd_real_dev : addr;
  vd_fb : addr;
}.

(** ** Devices

    The state of the link: the transmit queue, the carrier, the dormant bit,
    and the operational state the carrier's own driver reports. *)
Record link_state := Link {
  l_queue : bool;
  l_carrier : bool;
  l_dormant : bool;
  l_operstate : Z;
}.

Inductive reg_state :=
| NETREG_UNINITIALIZED | NETREG_REGISTERED | NETREG_UNREGISTERING | NETREG_UNREGISTERED.

#[export] Instance reg_state_eq : EqDecision reg_state.
Proof. solve_decision. Defined.

(** [nd_virt] and [nd_dstats] are there for the devices of src/fb_ethvlink.c;
    [nd_sent] are the packets handed to the driver of any other device, oldest
    first.  A driver with [nd_late] frees a packet only when it was sent, after
    the transmit function has returned: these wait in [nd_ring]. *)
Record net_device := NetDev {
  nd_name : cstr;
  nd_ifindex : Z;
  nd_mtu : Z;
  nd_type : Z;
  nd_flags : Z;
  nd_priv_flags : Z;
  nd_refs : Z;
  nd_rx_handler : option modid;
  nd_reg : reg_state;
  nd_link : link_state;
  nd_virt : option fb_ethvlink_private;
  nd_dstats : option (list pcpu_dstats);
  nd_sent : list sk_buff;
  nd_late : bool;
  nd_ring : list addr;
}.

Definition with_dev_name (v : cstr) (d : net_device) : net_device :=
  NetDev v (nd_ifindex d) (nd_mtu d) (nd_type d) (nd_flags d) (nd_priv_flags d) (nd_refs d) (nd_rx_handler d)
    (nd_reg d) (nd_link d) (nd_virt d) (nd_dstats d) (nd_sent d) (nd_late d) (nd_ring d).
Definition with_ifindex (v : Z) (d : net_device) : net_device :=
  NetDev (nd_name d) v (nd_mtu d) (nd_type d) (nd_flags d) (nd_priv_flags d) (nd_refs d) (nd_rx_handler d)
    (nd_reg d) (nd_link d) (nd_virt d) (nd_dstats d) (nd_sent d) (nd_late d) (nd_ring d).
Definition with_flags (v : Z) (d : net_device) : net_device :=
  NetDev (nd_name d) (nd_ifindex d) (nd_mtu d) (nd_type d) v (nd_priv_flags d) (nd_refs d) (nd_rx_handler d)
    (nd_reg d) (nd_link d) (nd_virt d) (nd_dstats d) (nd_sent d) (nd_late d) (nd_ring d).
Definition with_priv_flags (v : Z) (d : net_device) : net_device :=
  NetDev (nd_name d) (nd_ifindex d) (nd_mtu d) (nd_type d) (nd_flags d) v (nd_refs d) (nd_rx_handler d)
    (nd_reg d) (nd_link d) (nd_virt d) (nd_dstats d) (nd_sent d) (nd_late d) (nd_ring d).
Definition with_refs (v : Z) (d : net_device) : net_device :=
  NetDev (nd_name d) (nd_ifindex d) (nd_mtu d) (nd_type d) (nd_flags d) (nd_priv_flags d) v (nd_rx_handler d)
    (nd_reg d) (nd_link d) (nd_virt d) (nd_dstats d) (nd_sent d) (nd_late d) (nd_ring d).
Definition with_rx_handler (v : option modid) (d : net_device) : net_device :=
  NetDev (nd_name d) (nd_ifindex d) (nd_mtu d) (nd_type d) (nd_flags d) (nd_priv_flags d) (nd_refs d) v
    (nd_reg d) (nd_link d) (nd_virt d) (nd_dstats d) (nd_sent d) (nd_late d) (nd_ring d).
Definition with_reg (v : reg_state) (d : net_device) : net_device :=
  NetDev (nd_name d) (nd_ifindex d) (nd_mtu d) (nd_type d) (nd_flags d) (nd_priv_flags d) (nd_refs d) (nd_rx_handler d)
    v (nd_link d) (nd_virt d) (nd_dstats d) (nd_sent d) (nd_late d) (nd_ring d).
Definition with_link (v : link_state) (d : net_device) : net_device :=
  NetDev (nd_name d) (nd_ifindex d) (nd_mtu d) (nd_type d) (nd_flags d) (nd_priv_flags d) (nd_refs d) (nd_rx_handler d)
    (nd_reg d) v (nd_virt d) (nd_dstats d) (nd_sent d) (nd_late d) (nd_ring d).
Definition with_virt (v : option fb_ethvlink_private) (d : net_device) : net_device :=
  NetDev (nd_name d) (nd_ifindex d) (nd_mtu d) (nd_type d) (nd_flags d) (nd_priv_flags d) (nd_refs d) (nd_rx_handler d)
    (nd_reg d) (nd_link d) v (nd_dstats d) (nd_sent d) (nd_late d) (nd_ring d).
Definition with_dstats (v : option (list pcpu_dstats)) (d : net_device) : net_device :=
  NetDev (nd_name d) (nd_ifindex d) (nd_mtu d) (nd_type d) (nd_flags d) (nd_priv_flags d) (nd_refs d) (nd_rx_handler d)
    (nd_reg d) (nd_link d) (nd_virt d) v (nd_sent d) (nd_late d) (nd_ring d).
(** The driver takes one more packet over. *)
Definition with_sent (skb : addr) (s : sk_buff) (d : net_device) : net_device :=
  NetDev (nd_name d) (nd_ifindex d) (nd_mtu d) (nd_type d) (nd_flags d) (nd_priv_flags d) (nd_refs d) (nd_rx_handler d)
    (nd_reg d) (nd_link d) (nd_virt d) (nd_dstats d) (nd_sent d ++ [s]) (nd_late d)
    (if nd_late d then nd_ring d ++ [skb] else nd_ring d).

(** ** Sockets (src/fb_pflana.c) *)

(** [struct lana_sock] with the fields of its [struct sock]: references, the
    receive queue and its limit, the device it is bound to by a socket option,
    the shutdown flags, and whether the protocol's destructor is set. *)
Record lana_sock := LanaSock {
  sk_refcnt : Z;
  sk_receive_queue : list addr;
  sk_rcvbuf : Z;
  sk_bound_dev_if : Z;
  sk_shutdown : Z;
  sk_protocol : Z;
  sk_type : Z;
  sk_destruct : bool;
  ls_fb : addr;
  ls_ifindex : Z;
  ls_bound : bool;
}.

Record socket := Socket { so_type : Z; so_sk : addr }.

Record lana_protocol := LanaProtocol { lp_protocol : Z; lp_owner : modid }.

(** The protocol table with its lock, the sockets, and what is registered with
    the kernel: the protocols and the family. *)
Record pf_state := Pf {
  pf_socks : gmap addr lana_sock;
  pf_sockets : gmap addr socket;
  pf_lps : gmap addr lana_protocol;
  proto_tab : list addr;
  proto_tab_lock : bool;
  pf_proto_registered : bool;
  pf_family_registered : bool;
}.

Definition pf_none : pf_state := Pf ∅ ∅ ∅ [0; 0] false false false.

(** ** The network part of the state

    The devices; [fb_eth_devs], the list of the Ethernet module, of the nodes
    at the addresses, and [fb_ethvlink_vdevs], the virtual devices, each with
    its lock; the kernel's [rtnl] mutex with the devices that are freed when it
    is released, and the next interface index. *)
Record fb_eth_dev_node := EthNode { en_fb : addr; en_dev : addr }.

Record net_state := Net {
  n_devs : gmap addr net_device;
  n_nodes : gmap addr fb_eth_dev_node;
  fb_eth_devs : list addr;
  n_eth_lock : bool;
  fb_ethvlink_vdevs : list addr;
  n_vdevs_lock : bool;
  n_rtnl : bool;
  n_todo : list addr;
  n_ifindex : Z;
  n_pf : pf_state;
}.

Definition net_devs (f : gmap addr net_device -> gmap addr net_device) (n : net_state) : net_state :=
  Net (f (n_devs n)) (n_nodes n) (fb_eth_devs n) (n_eth_lock n) (fb_ethvlink_vdevs n)
    (n_vdevs_lock n) (n_rtnl n) (n_todo n) (n_ifindex n) (n_pf n).
Definition net_nodes (f : gmap addr fb_eth_dev_node -> gmap addr fb_eth_dev_node) (n : net_state) : net_state :=
  Net (n_devs n) (f (n_nodes n)) (fb_eth_devs n) (n_eth_lock n) (fb_ethvlink_vdevs n)
    (n_vdevs_lock n) (n_rtnl n) (n_todo n) (n_ifindex n) (n_pf n).
Definition net_eth_devs (f : list addr -> list addr) (n : net_state) : net_state :=
  Net (n_devs n) (n_nodes n) (f (fb_eth_devs n)) (n_eth_lock n) (fb_ethvlink_vdevs n)
    (n_vdevs_lock n) (n_rtnl n) (n_todo n) (n_ifindex n) (n_pf n).
Definition net_eth_lock (b : bool) (n : net_state) : net_state :=
  Net (n_devs n) (n_nodes n) (fb_eth_devs n) b (fb_ethvlink_vdevs n)
    (n_vdevs_lock n) (n_rtnl n) (n_todo n) (n_ifindex n) (n_pf n).
Definition net_vdevs (f : list addr -> list addr) (n : net_state) : net_state :=
  Net (n_devs n) (n_nodes n) (fb_eth_devs n) (n_eth_lock n) (f (fb_ethvlink_vdevs n))
    (n_vdevs_lock n) (n_rtnl n) (n_todo n) (n_ifindex n) (n_pf n).
Definition net_vdevs_lock (b : bool) (n : net_state) : net_state :=
  Net (n_devs n) (n_nodes n) (fb_eth_devs n) (n_eth_lock n) (fb_ethvlink_vdevs n)
    b (n_rtnl n) (n_todo n) (n_ifindex n) (n_pf n).
Definition net_rtnl (b : bool) (n : net_state) : net_state :=
  Net (n_devs n) (n_nodes n) (fb_eth_devs n) (n_eth_lock n) (fb_ethvlink_vdevs n)
    (n_vdevs_lock n) b (n_todo n) (n_ifindex n) (n_pf n).
Definition net_todo (f : list addr -> list addr) (n : net_state) : net_state :=
  Net (n_devs n) (n_nodes n) (fb_eth_devs n) (n_eth_lock n) (fb_ethvlink_vdevs n)
    (n_vdevs_lock n) (n_rtnl n) (f (n_todo n)) (n_ifindex n) (n_pf n).
Definition net_ifindex (b : Z) (n : net_state) : net_state :=
  Net (n_devs n) (n_nodes n) (fb_eth_devs n) (n_eth_lock n) (fb_ethvlink_vdevs n)
    (n_vdevs_lock n) (n_rtnl n) (n_todo n) b (n_pf n).
Definition net_pf (f : pf_state -> pf_state) (n : net_state) : net_state :=
  Net (n_devs n) (n_nodes n) (fb_eth_devs n) (n_eth_lock n) (fb_ethvlink_vdevs n)
    (n_vdevs_lock n) (n_rtnl n) (n_todo n) (n_ifindex n) (f (n_pf n)).

Definition net_none : net_state := Net ∅ ∅ [] false [] false false [] 1 pf_none.

(** Two states are equal when all their parts are. *)
Lemma net_state_eq n n' :
  n_devs n = n_devs n' -> n_nodes n = n_nodes n' -> fb_eth_devs n = fb_eth_devs n' ->
  n_eth_lock n = n_eth_lock n' -> fb_ethvlink_vdevs n = fb_ethvlink_vdevs n' ->
  n_vdevs_lock n = n_vdevs_lock n' -> n_rtnl n = n_rtnl n' -> n_todo n = n_todo n' ->
  n_ifindex n = n_ifindex n' -> n_pf n = n_pf n' -> n = n'.
Proof. destruct n, n'. simpl. congruence. Qed.

(** The tables of devices are compared as they stand. *)
Ltac net_eq :=
  apply net_state_eq; [simpl; try match goal with |- ?m = ?m => reflexivity end|simpl; try reflexivity..].
