(* ===== verification/Kernel.v ===== *)
(** * The kernel state and the monad of kernel code

    The state holds every live object by address, the tables of the core and
    the engine's per-CPU data.  Kernel code is a function from a state to an
    outcome: a value with the state after it, or a crash (a bad access, a
    [BUG()], a deadlock).  Objects that were freed are no longer in the state,
    so using one is a bad access; addresses are never handed out twice.

    Allocation can fail: [k_oom] lists, for the next allocations, whether each
    fails, and later ones succeed.  Callbacks given to [call_rcu] wait in
    [k_rcu].  [k_fbcache] holds the contents of freed fblock objects: a slab
    cache with a constructor runs it only on memory that is new to the cache,
    so a recycled object starts with what it held when it was freed. *)
From Stdlib Require Import ZArith Lia.
From stdpp Require Import base gmap numbers countable list.
From S2P Require Import Prelude CString CritbitTree Critbit NameMap Types NetTypes.

Local Open Scope Z_scope.

(** Callbacks waiting for the end of a grace period. *)
Inductive rcu_cb :=
| Rcu_fblock (fb : addr)
| Rcu_idp_elem (elem : addr).

Inductive fault :=
| Null_deref
| Bad_access (a : addr)
| Bad_cast
| Kernel_bug
| Deadlock
| Endless_loop
| Overrun
| Freed_percpu.

(** ** What the core holds of the rest of the kernel

    Its entries in /proc, the table and the socket of the virtual links, the
    node cache of the crit-bit trees with its users, the cache of the blocks,
    the socket of the control interface, and the CPUs whose engine timer is
    armed. *)
Inductive proc_entry := P_lana | P_fblock | P_vlink | P_fblocks | P_ppe.

#[export] Instance proc_entry_eq : EqDecision proc_entry.
Proof. solve_decision. Defined.

Record core_res := CoreRes {
  cr_proc : list proc_entry;
  cr_vlink_table : bool;
  cr_vlink_sock : bool;
  cr_critbit : critbit_node_cache;
  cr_fblock_cache : bool;
  cr_userctl_sock : bool;
  cr_timers : list nat;
}.

Definition res_proc (f : list proc_entry -> list proc_entry) (r : core_res) : core_res :=
  CoreRes (f (cr_proc r)) (cr_vlink_table r) (cr_vlink_sock r) (cr_critbit r) (cr_fblock_cache r)
    (cr_userctl_sock r) (cr_timers r).
Definition res_vlink_table (b : bool) (r : core_res) : core_res :=
  CoreRes (cr_proc r) b (cr_vlink_sock r) (cr_critbit r) (cr_fblock_cache r) (cr_userctl_sock r) (cr_timers r).
Definition res_vlink_sock (b : bool) (r : core_res) : core_res :=
  CoreRes (cr_proc r) (cr_vlink_table r) b (cr_critbit r) (cr_fblock_cache r) (cr_userctl_sock r) (cr_timers r).
Definition res_critbit (c : critbit_node_cache) (r : core_res) : core_res :=
  CoreRes (cr_proc r) (cr_vlink_table r) (cr_vlink_sock r) c (cr_fblock_cache r) (cr_userctl_sock r) (cr_timers r).
Definition res_fblock_cache (b : bool) (r : core_res) : core_res :=
  CoreRes (cr_proc r) (cr_vlink_table r) (cr_vlink_sock r) (cr_critbit r) b (cr_userctl_sock r) (cr_timers r).
Definition res_userctl_sock (b : bool) (r : core_res) : core_res :=
  CoreRes (cr_proc r) (cr_vlink_table r) (cr_vlink_sock r) (cr_critbit r) (cr_fblock_cache r) b (cr_timers r).
Definition res_timers (f : list nat -> list nat) (r : core_res) : core_res :=
  CoreRes (cr_proc r) (cr_vlink_table r) (cr_vlink_sock r) (cr_critbit r) (cr_fblock_cache r) (cr_userctl_sock r)
    (f (cr_timers r)).

Definition core_none : core_res := CoreRes [] false false (Cache false 0) false false [].
Definition core_loaded (n : nat) : core_res :=
  CoreRes [P_ppe; P_fblocks; P_vlink; P_fblock; P_lana] true true (Cache true 2) true true (seq 0 n).

Section kernel.
Context `{NameMap, KernelApi}.

Record kernel := Kernel {
  k_fblocks : gmap addr fblock;
  k_notifs : gmap addr fblock_notifier;
  k_subs : gmap addr chain;
  k_privs : gmap addr priv;
  k_elems : gmap addr idp_elem;
  k_factories : gmap addr fblock_factory;
  k_skbs : gmap addr sk_buff;
  k_idpmap : names;
  k_fbmap : names;
  k_fblmap : radix;
  k_idp_counter : Z;
  k_fbcache : list fblock;
  k_rcu : list rcu_cb;
  k_rcu_nesting : nat;
  k_next : addr;
  k_oom : list bool;
  k_modrefs : gmap modid Z;
  k_proc : list (cstr * addr);
  k_cpus : nat;
  k_cpu : nat;
  k_iostats : list engine_iostats;
  k_emdiscs : list engine_disc;
  k_core : core_res;
  k_net : net_state;
}.

Definition upd_fblocks (f : gmap addr fblock -> gmap addr fblock) (k : kernel) : kernel :=
  Kernel (f (k_fblocks k)) (k_notifs k) (k_subs k) (k_privs k) (k_elems k)
    (k_factories k) (k_skbs k) (k_idpmap k) (k_fbmap k) (k_fblmap k) (k_idp_counter k)
    (k_fbcache k) (k_rcu k) (k_rcu_nesting k) (k_next k) (k_oom k) (k_modrefs k)
    (k_proc k) (k_cpus k) (k_cpu k) (k_iostats k) (k_emdiscs k) (k_core k) (k_net k).
Definition upd_notifs (f : gmap addr fblock_notifier -> gmap addr fblock_notifier) (k : kernel) : kernel :=
  Kernel (k_fblocks k) (f (k_notifs k)) (k_subs k) (k_privs k) (k_elems k)
    (k_factories k) (k_skbs k) (k_idpmap k) (k_fbmap k) (k_fblmap k) (k_idp_counter k)
    (k_fbcache k) (k_rcu k) (k_rcu_nesting k) (k_next k) (k_oom k) (k_modrefs k)
    (k_proc k) (k_cpus k) (k_cpu k) (k_iostats k) (k_emdiscs k) (k_core k) (k_net k).
Definition upd_subs (f : gmap addr chain -> gmap addr chain) (k : kernel) : kernel :=
  Kernel (k_fblocks k) (k_notifs k) (f (k_subs k)) (k_privs k) (k_elems k)
    (k_factories k) (k_skbs k) (k_idpmap k) (k_fbmap k) (k_fblmap k) (k_idp_counter k)
    (k_fbcache k) (k_rcu k) (k_rcu_nesting k) (k_next k) (k_oom k) (k_modrefs k)
    (k_proc k) (k_cpus k) (k_cpu k) (k_iostats k) (k_emdiscs k) (k_core k) (k_net k).
Definition upd_privs (f : gmap addr priv -> gmap addr priv) (k : kernel) : kernel :=
  Kernel (k_fblocks k) (k_notifs k) (k_subs k) (f (k_privs k)) (k_elems k)
    (k_factories k) (k_skbs k) (k_idpmap k) (k_fbmap k) (k_fblmap k) (k_idp_counter k)
    (k_fbcache k) (k_rcu k) (k_rcu_nesting k) (k_next k) (k_oom k) (k_modrefs k)
    (k_proc k) (k_cpus k) (k_cpu k) (k_iostats k) (k_emdiscs k) (k_core k) (k_net k).
Definition upd_elems (f : gmap addr idp_elem -> gmap addr idp_elem) (k : kernel) : kernel :=
  Kernel (k_fblocks k) (k_notifs k) (k_subs k) (k_privs k) (f (k_elems k))
    (k_factories k) (k_skbs k) (k_idpmap k) (k_fbmap k) (k_fblmap k) (k_idp_counter k)
    (k_fbcache k) (k_rcu k) (k_rcu_nesting k) (k_next k) (k_oom k) (k_modrefs k)
    (k_proc k) (k_cpus k) (k_cpu k) (k_iostats k) (k_emdiscs k) (k_core k) (k_net k).
Definition upd_factories (f : gmap addr fblock_factory -> gmap addr fblock_factory) (k : kernel) : kernel :=
  Kernel (k_fblocks k) (k_notifs k) (k_subs k) (k_privs k) (k_elems k)
    (f (k_factories k)) (k_skbs k) (k_idpmap k) (k_fbmap k) (k_fblmap k)
    (k_idp_counter k) (k_fbcache k) (k_rcu k) (k_rcu_nesting k) (k_next k) (k_oom k)
    (k_modrefs k) (k_proc k) (k_cpus k) (k_cpu k) (k_iostats k) (k_emdiscs k) (k_core k) (k_net k).
Definition upd_skbs (f : gmap addr sk_buff -> gmap addr sk_buff) (k : kernel) : kernel :=
  Kernel (k_fblocks k) (k_notifs k) (k_subs k) (k_privs k) (k_elems k) (k_factories k)
    (f (k_skbs k)) (k_idpmap k) (k_fbmap k) (k_fblmap k) (k_idp_counter k)
    (k_fbcache k) (k_rcu k) (k_rcu_nesting k) (k_next k) (k_oom k) (k_modrefs k)
    (k_proc k) (k_cpus k) (k_cpu k) (k_iostats k) (k_emdiscs k) (k_core k) (k_net k).
Definition upd_idpmap (f : names -> names) (k : kernel) : kernel :=
  Kernel (k_fblocks k) (k_notifs k) (k_subs k) (k_privs k) (k_elems k) (k_factories k)
    (k_skbs k) (f (k_idpmap k)) (k_fbmap k) (k_fblmap k) (k_idp_counter k)
    (k_fbcache k) (k_rcu k) (k_rcu_nesting k) (k_next k) (k_oom k) (k_modrefs k)
    (k_proc k) (k_cpus k) (k_cpu k) (k_iostats k) (k_emdiscs k) (k_core k) (k_net k).
Definition upd_fbmap (f : names -> names) (k : kernel) : kernel :=
  Kernel (k_fblocks k) (k_notifs k) (k_subs k) (k_privs k) (k_elems k) (k_factories k)
    (k_skbs k) (k_idpmap k) (f (k_fbmap k)) (k_fblmap k) (k_idp_counter k)
    (k_fbcache k) (k_rcu k) (k_rcu_nesting k) (k_next k) (k_oom k) (k_modrefs k)
    (k_proc k) (k_cpus k) (k_cpu k) (k_iostats k) (k_emdiscs k) (k_core k) (k_net k).
Definition upd_fblmap (f : radix -> radix) (k : kernel) : kernel :=
  Kernel (k_fblocks k) (k_notifs k) (k_subs k) (k_privs k) (k_elems k) (k_factories k)
    (k_skbs k) (k_idpmap k) (k_fbmap k) (f (k_fblmap k)) (k_idp_counter k)
    (k_fbcache k) (k_rcu k) (k_rcu_nesting k) (k_next k) (k_oom k) (k_modrefs k)
    (k_proc k) (k_cpus k) (k_cpu k) (k_iostats k) (k_emdiscs k) (k_core k) (k_net k).
Definition upd_idp_counter (f : Z -> Z) (k : kernel) : kernel :=
  Kernel (k_fblocks k) (k_notifs k) (k_subs k) (k_privs k) (k_elems k) (k_factories k)
    (k_skbs k) (k_idpmap k) (k_fbmap k) (k_fblmap k) (f (k_idp_counter k))
    (k_fbcache k) (k_rcu k) (k_rcu_nesting k) (k_next k) (k_oom k) (k_modrefs k)
    (k_proc k) (k_cpus k) (k_cpu k) (k_iostats k) (k_emdiscs k) (k_core k) (k_net k).
Definition upd_fbcache (f : list fblock -> list fblock) (k : kernel) : kernel :=
  Kernel (k_fblocks k) (k_notifs k) (k_subs k) (k_privs k) (k_elems k) (k_factories k)
    (k_skbs k) (k_idpmap k) (k_fbmap k) (k_fblmap k) (k_idp_counter k)
    (f (k_fbcache k)) (k_rcu k) (k_rcu_nesting k) (k_next k) (k_oom k) (k_modrefs k)
    (k_proc k) (k_cpus k) (k_cpu k) (k_iostats k) (k_emdiscs k) (k_core k) (k_net k).
Definition upd_rcu (f : list rcu_cb -> list rcu_cb) (k : kernel) : kernel :=
  Kernel (k_fblocks k) (k_notifs k) (k_subs k) (k_privs k) (k_elems k) (k_factories k)
    (k_skbs k) (k_idpmap k) (k_fbmap k) (k_fblmap k) (k_idp_counter k) (k_fbcache k)
    (f (k_rcu k)) (k_rcu_nesting k) (k_next k) (k_oom k) (k_modrefs k) (k_proc k)
    (k_cpus k) (k_cpu k) (k_iostats k) (k_emdiscs k) (k_core k) (k_net k).
Definition upd_rcu_nesting (f : nat -> nat) (k : kernel) : kernel :=
  Kernel (k_fblocks k) (k_notifs k) (k_subs k) (k_privs k) (k_elems k) (k_factories k)
    (k_skbs k) (k_idpmap k) (k_fbmap k) (k_fblmap k) (k_idp_counter k) (k_fbcache k)
    (k_rcu k) (f (k_rcu_nesting k)) (k_next k) (k_oom k) (k_modrefs k) (k_proc k)
    (k_cpus k) (k_cpu k) (k_iostats k) (k_emdiscs k) (k_core k) (k_net k).
Definition upd_next (f : addr -> addr) (k : kernel) : kernel :=
  Kernel (k_fblocks k) (k_notifs k) (k_subs k) (k_privs k) (k_elems k) (k_factories k)
    (k_skbs k) (k_idpmap k) (k_fbmap k) (k_fblmap k) (k_idp_counter k) (k_fbcache k)
    (k_rcu k) (k_rcu_nesting k) (f (k_next k)) (k_oom k) (k_modrefs k) (k_proc k)
    (k_cpus k) (k_cpu k) (k_iostats k) (k_emdiscs k) (k_core k) (k_net k).
Definition upd_oom (f : list bool -> list bool) (k : kernel) : kernel :=
  Kernel (k_fblocks k) (k_notifs k) (k_subs k) (k_privs k) (k_elems k) (k_factories k)
    (k_skbs k) (k_idpmap k) (k_fbmap k) (k_fblmap k) (k_idp_counter k) (k_fbcache k)
    (k_rcu k) (k_rcu_nesting k) (k_next k) (f (k_oom k)) (k_modrefs k) (k_proc k)
    (k_cpus k) (k_cpu k) (k_iostats k) (k_emdiscs k) (k_core k) (k_net k).
Definition upd_modrefs (f : gmap modid Z -> gmap modid Z) (k : kernel) : kernel :=
  Kernel (k_fblocks k) (k_notifs k) (k_subs k) (k_privs k) (k_elems k) (k_factories k)
    (k_skbs k) (k_idpmap k) (k_fbmap k) (k_fblmap k) (k_idp_counter k) (k_fbcache k)
    (k_rcu k) (k_rcu_nesting k) (k_next k) (k_oom k) (f (k_modrefs k)) (k_proc k)
    (k_cpus k) (k_cpu k) (k_iostats k) (k_emdiscs k) (k_core k) (k_net k).
Definition upd_proc (f : list (cstr * addr) -> list (cstr * addr)) (k : kernel) : kernel :=
  Kernel (k_fblocks k) (k_notifs k) (k_subs k) (k_privs k) (k_elems k) (k_factories k)
    (k_skbs k) (k_idpmap k) (k_fbmap k) (k_fblmap k) (k_idp_counter k) (k_fbcache k)
    (k_rcu k) (k_rcu_nesting k) (k_next k) (k_oom k) (k_modrefs k) (f (k_proc k))
    (k_cpus k) (k_cpu k) (k_iostats k) (k_emdiscs k) (k_core k) (k_net k).
Definition upd_cpus (f : nat -> nat) (k : kernel) : kernel :=
  Kernel (k_fblocks k) (k_notifs k) (k_subs k) (k_privs k) (k_elems k) (k_factories k)
    (k_skbs k) (k_idpmap k) (k_fbmap k) (k_fblmap k) (k_idp_counter k) (k_fbcache k)
    (k_rcu k) (k_rcu_nesting k) (k_next k) (k_oom k) (k_modrefs k) (k_proc k)
    (f (k_cpus k)) (k_cpu k) (k_iostats k) (k_emdiscs k) (k_core k) (k_net k).
Definition upd_cpu (f : nat -> nat) (k : kernel) : kernel :=
  Kernel (k_fblocks k) (k_notifs k) (k_subs k) (k_privs k) (k_elems k) (k_factories k)
    (k_skbs k) (k_idpmap k) (k_fbmap k) (k_fblmap k) (k_idp_counter k) (k_fbcache k)
    (k_rcu k) (k_rcu_nesting k) (k_next k) (k_oom k) (k_modrefs k) (k_proc k)
    (k_cpus k) (f (k_cpu k)) (k_iostats k) (k_emdiscs k) (k_core k) (k_net k).
Definition upd_iostats (f : list engine_iostats -> list engine_iostats) (k : kernel) : kernel :=
  Kernel (k_fblocks k) (k_notifs k) (k_subs k) (k_privs k) (k_elems k) (k_factories k)
    (k_skbs k) (k_idpmap k) (k_fbmap k) (k_fblmap k) (k_idp_counter k) (k_fbcache k)
    (k_rcu k) (k_rcu_nesting k) (k_next k) (k_oom k) (k_modrefs k) (k_proc k)
    (k_cpus k) (k_cpu k) (f (k_iostats k)) (k_emdiscs k) (k_core k) (k_net k).
Definition upd_emdiscs (f : list engine_disc -> list engine_disc) (k : kernel) : kernel :=
  Kernel (k_fblocks k) (k_notifs k) (k_subs k) (k_privs k) (k_elems k) (k_factories k)
    (k_skbs k) (k_idpmap k) (k_fbmap k) (k_fblmap k) (k_idp_counter k) (k_fbcache k)
    (k_rcu k) (k_rcu_nesting k) (k_next k) (k_oom k) (k_modrefs k) (k_proc k)
    (k_cpus k) (k_cpu k) (k_iostats k) (f (k_emdiscs k)) (k_core k) (k_net k).

Definition upd_core (f : core_res -> core_res) (k : kernel) : kernel :=
  Kernel (k_fblocks k) (k_notifs k) (k_subs k) (k_privs k) (k_elems k) (k_factories k)
    (k_skbs k) (k_idpmap k) (k_fbmap k) (k_fblmap k) (k_idp_counter k) (k_fbcache k)
    (k_rcu k) (k_rcu_nesting k) (k_next k) (k_oom k) (k_modrefs k) (k_proc k)
    (k_cpus k) (k_cpu k) (k_iostats k) (k_emdiscs k) (f (k_core k)) (k_net k).

Definition upd_net (f : net_state -> net_state) (k : kernel) : kernel :=
  Kernel (k_fblocks k) (k_notifs k) (k_subs k) (k_privs k) (k_elems k) (k_factories k)
    (k_skbs k) (k_idpmap k) (k_fbmap k) (k_fblmap k) (k_idp_counter k) (k_fbcache k)
    (k_rcu k) (k_rcu_nesting k) (k_next k) (k_oom k) (k_modrefs k) (k_proc k)
    (k_cpus k) (k_cpu k) (k_iostats k) (k_emdiscs k) (k_core k) (f (k_net k)).

(** A machine with [n] CPUs and no network devices before the core is loaded, and right after. *)
Definition bare (n : nat) : kernel :=
  Kernel ∅ ∅ ∅ ∅ ∅ ∅ ∅ nm_empty nm_empty radix_empty 0 [] [] 0 4096 [] ∅ [] n 0 [] [] core_none net_none.

Definition boot (n : nat) : kernel :=
  Kernel ∅ ∅ ∅ ∅ ∅ ∅ ∅ nm_empty nm_empty radix_empty 0 [] [] 0 4096 [] ∅ [] n 0
    (replicate n (Iostats 0 0 0 0 0)) ((fun cpu => Disc [] false cpu) <$> seq 0 n) (core_loaded n) net_none.

(** Two states are equal when all their fields are. *)
Lemma kernel_ext k k' :
  k_fblocks k = k_fblocks k' ->
  k_notifs k = k_notifs k' ->
  k_subs k = k_subs k' ->
  k_privs k = k_privs k' ->
  k_elems k = k_elems k' ->
  k_factories k = k_factories k' ->
  k_skbs k = k_skbs k' ->
  k_idpmap k = k_idpmap k' ->
  k_fbmap k = k_fbmap k' ->
  k_fblmap k = k_fblmap k' ->
  k_idp_counter k = k_idp_counter k' ->
  k_fbcache k = k_fbcache k' ->
  k_rcu k = k_rcu k' ->
  k_rcu_nesting k = k_rcu_nesting k' ->
  k_next k = k_next k' ->
  k_oom k = k_oom k' ->
  k_modrefs k = k_modrefs k' ->
  k_proc k = k_proc k' ->
  k_cpus k = k_cpus k' ->
  k_cpu k = k_cpu k' ->
  k_iostats k = k_iostats k' ->
  k_emdiscs k = k_emdiscs k' ->
  k_core k = k_core k' ->
  k_net k = k_net k' ->
  k = k'.
Proof. destruct k, k'. simpl. intros. by subst. Qed.

(** ** Outcomes and the monad *)

Inductive outcome (A : Type) :=
| Ret (a : A) (k : kernel)
| Crash (f : fault).
Arguments Ret {A}.
Arguments Crash {A}.

Definition M (A : Type) : Type := kernel -> outcome A.

Definition ret {A} (a : A) : M A := fun k => Ret a k.
Definition crash {A} (f : fault) : M A := fun _ => Crash f.
Definition bind {A B} (m : M A) (f : A -> M B) : M B :=
  fun k => match m k with Ret a k' => f a k' | Crash e => Crash e end.
Definition get {A} (f : kernel -> A) : M A := fun k => Ret (f k) k.
Definition upd (f : kernel -> kernel) : M unit := fun k => Ret tt (f k).
End kernel.

Arguments Ret {_ _ A}.
Arguments Crash {_ _ A}.

Declare Scope kernel_scope.
Delimit Scope kernel_scope with K.
Notation "x <- m ;; c" := (bind m (fun x => c))
  (at level 100, m at next level, right associativity) : kernel_scope.
Notation "m ;; c" := (bind m (fun _ => c))
  (at level 100, right associativity) : kernel_scope.
Notation "'when' b 'do' m" := (if b then m else ret tt)
  (at level 60, right associativity) : kernel_scope.

(** ** Total correctness

    [wp m Q k]: running [m] from [k] does not crash and ends in a value and a
    state of [Q]. *)
Section wp.
Context `{NameMap, KernelApi}.

Definition wp {A} (m : M A) (Q : A -> kernel -> Prop) (k : kernel) : Prop :=
  match m k with Ret a k' => Q a k' | Crash _ => False end.

Lemma wp_bind {A B} (m : M A) (f : A -> M B) Q k :
  wp m (fun a k' => wp (f a) Q k') k -> wp (bind m f) Q k.
Proof. unfold wp, bind. by destruct (m k). Qed.

Lemma wp_mono {A} (m : M A) (P Q : A -> kernel -> Prop) k :
  wp m P k -> (forall a k', P a k' -> Q a k') -> wp m Q k.
Proof. unfold wp. destruct (m k); auto. Qed.

Lemma wp_run {A} (m : M A) Q k :
  wp m Q k <-> exists a k', m k = Ret a k' /\ Q a k'.
Proof.
  unfold wp. destruct (m k) as [a k'|e]; split; [eauto| |done|].
  - by intros (? & ? & [= -> ->] & ?).
  - by intros (? & ? & ? & ?).
Qed.

Lemma wp_run_unit (m : M unit) (Q : kernel -> Prop) k :
  wp m (fun _ => Q) k -> exists k', m k = Ret tt k' /\ Q k'.
Proof. intros Hw. apply wp_run in Hw as ([] & k' & ? & ?). eauto. Qed.

Lemma wp_run_val {A} (m : M A) a (Q : kernel -> Prop) k :
  wp m (fun r k' => r = a /\ Q k') k -> exists k', m k = Ret a k' /\ Q k'.
Proof. intros Hw. apply wp_run in Hw as (? & k' & ? & -> & ?). eauto. Qed.

Lemma wp_of_run {A} (m : M A) (Q : A -> kernel -> Prop) k a k' :
  m k = Ret a k' -> Q a k' -> wp m Q k.
Proof. unfold wp. by intros ->. Qed.

Lemma wp_conj {A} (m : M A) (P Q : A -> kernel -> Prop) k :
  wp m P k -> wp m Q k -> wp m (fun a k' => P a k' /\ Q a k') k.
Proof. unfold wp. destruct (m k); auto. Qed.

Lemma wp_ret {A} (a : A) Q k : Q a k -> wp (ret a) Q k.
Proof. done. Qed.

Lemma wp_get {A} (f : kernel -> A) Q k : Q (f k) k -> wp (get f) Q k.
Proof. done. Qed.

Lemma wp_upd f (Q : unit -> kernel -> Prop) k : Q tt (f k) -> wp (upd f) Q k.
Proof. done. Qed.

Lemma bind_run {A B} (m : M A) (f : A -> M B) k a k' :
  m k = Ret a k' -> bind m f k = f a k'.
Proof. unfold bind. by intros ->. Qed.

Lemma bind_assoc {A B C} (m : M A) (f : A -> M B) (g : B -> M C) k :
  bind (bind m f) g k = bind m (fun a => bind (f a) g) k.
Proof. unfold bind. by destruct (m k). Qed.
End wp.

Section prims.
Context `{NameMap, KernelApi}.
Local Open Scope kernel_scope.

(** ** Memory *)

(** Dereferencing a pointer to an object of a table. *)
Definition deref {A} (tbl : kernel -> gmap addr A) (a : addr) : M A := fun k =>
  if a =? 0 then Crash Null_deref
  else match tbl k !! a with Some x => Ret x k | None => Crash (Bad_access a) end.

Definition get_fb (a : addr) : M fblock := deref k_fblocks a.
Definition set_fb (a : addr) (fb : fblock) : M unit := upd (upd_fblocks <[a := fb]>).
Definition mod_fb (a : addr) (f : fblock -> fblock) : M unit :=
  fb <- get_fb a;; set_fb a (f fb).

Definition get_skb (a : addr) : M sk_buff := deref k_skbs a.
Definition mod_skb (a : addr) (f : sk_buff -> sk_buff) : M unit :=
  s <- get_skb a;; upd (upd_skbs <[a := f s]>).

(** Whether the next allocation succeeds. *)
Definition alloc_ok : M bool :=
  l <- get k_oom;;
  match l with
  | [] => ret true
  | b :: l' => upd (upd_oom (fun _ => l'));; ret (negb b)
  end.

Definition fresh : M addr :=
  a <- get k_next;; upd (upd_next (Z.add 64));; ret a.

(** [kmalloc] of an object of a table, with its initial contents; 0 on
    failure. *)
Definition kmalloc {A} (put : (gmap addr A -> gmap addr A) -> kernel -> kernel) (x : A) : M addr :=
  ok <- alloc_ok;;
  if ok : bool then a <- fresh;; upd (put <[a := x]>);; ret a else ret 0.

(** [kfree]: freeing NULL does nothing, freeing twice is an error. *)
Definition kfree {A} (tbl : kernel -> gmap addr A)
    (put : (gmap addr A -> gmap addr A) -> kernel -> kernel) (a : addr) : M unit :=
  if a =? 0 then ret tt else deref tbl a;; upd (put (delete a)).

Definition call_rcu (cb : rcu_cb) : M unit := upd (upd_rcu (fun l => l ++ [cb])).

Definition rcu_read_lock : M unit := upd (upd_rcu_nesting S).
Definition rcu_read_unlock : M unit := upd (upd_rcu_nesting pred).

Definition module_ref (k : kernel) (m : modid) : Z := default 0 (k_modrefs k !! m).
Definition module_get (m : modid) : M unit :=
  fun k => Ret tt (upd_modrefs <[m := module_ref k m + 1]> k).
Definition module_put (m : modid) : M unit :=
  fun k => Ret tt (upd_modrefs <[m := module_ref k m - 1]> k).

(** [kfree_skb]: drop a reference; the buffer goes away with the last. *)
Definition kfree_skb (a : addr) : M unit :=
  s <- get_skb a;;
  if skb_users s =? 1 then upd (upd_skbs (delete a))
  else upd (upd_skbs <[a := Skb (skb_len s) (skb_data s) (skb_cb s) (skb_users s - 1) (skb_eth s)]>).

(** Entries of the core in /proc: [proc_mkdir], [create_proc_read_entry] and
    [remove_proc_entry]. *)
Definition create_proc (p : proc_entry) : M bool :=
  ok <- alloc_ok;;
  if ok : bool then upd (upd_core (res_proc (cons p)));; ret true else ret false.

Definition remove_proc (p : proc_entry) : M unit :=
  upd (upd_core (res_proc (filter (.≠ p)))).

(** Entries of the directory of blocks under /proc: the newest first;
    [remove_proc_entry] takes the first of the name out. *)
Definition proc_create_data (name : cstr) (data : addr) : M bool :=
  ok <- alloc_ok;;
  if ok : bool then upd (upd_proc (cons (name, data)));; ret true else ret false.

Fixpoint proc_remove (name : cstr) (l : list (cstr * addr)) : list (cstr * addr) :=
  match l with
  | [] => []
  | e :: l' => if decide (e.1 = name) then l' else e :: proc_remove name l'
  end.

Definition remove_proc_entry (name : cstr) : M unit := upd (upd_proc (proc_remove name)).

(** ** Rules of the primitives *)

Lemma deref_run {A} (tbl : kernel -> gmap addr A) a x k :
  a <> 0 -> tbl k !! a = Some x -> deref tbl a k = Ret x k.
Proof. intros Ha Hx. unfold deref. destruct (Z.eqb_spec a 0); [done|]. by rewrite Hx. Qed.

Lemma wp_deref {A} (tbl : kernel -> gmap addr A) a x (Q : A -> kernel -> Prop) k :
  a <> 0 -> tbl k !! a = Some x -> Q x k -> wp (deref tbl a) Q k.
Proof.
  intros Ha Hx HQ. unfold wp, deref.
  destruct (Z.eqb_spec a 0); [done|]. by rewrite Hx.
Qed.

Lemma wp_mod_fb a f b (Q : unit -> kernel -> Prop) k :
  a <> 0 -> k_fblocks k !! a = Some b ->
  Q tt (upd_fblocks <[a := f b]> k) -> wp (mod_fb a f) Q k.
Proof.
  intros. apply wp_bind. eapply wp_deref; [done..|]. done.
Qed.

Lemma wp_kfree {A} (tbl : kernel -> gmap addr A) put a x (Q : unit -> kernel -> Prop) k :
  a <> 0 -> tbl k !! a = Some x -> Q tt (put (delete a) k) -> wp (kfree tbl put a) Q k.
Proof.
  intros Ha Hx HQ. unfold kfree. destruct (Z.eqb_spec a 0); [done|].
  apply wp_bind. eapply wp_deref; [done..|]. done.
Qed.

(** An allocation hands out the next address or fails; it only moves the
    allocator's own fields otherwise. *)
Lemma wp_kmalloc {A} put (x : A) (Q : addr -> kernel -> Prop) k :
  (k_oom k = [] \/ head (k_oom k) = Some false ->
   Q (k_next k) (put <[k_next k := x]> (upd_next (Z.add 64) (upd_oom tail k)))) ->
  (head (k_oom k) = Some true -> Q 0 (upd_oom tail k)) ->
  wp (kmalloc put x) Q k.
Proof.
  intros Hok Hfail. destruct k as [?????????????????????? ?].
  unfold wp, kmalloc, bind, alloc_ok, get, fresh, upd, ret, upd_next, upd_oom in *.
  simpl in *. destruct k_oom0 as [|[] l]; simpl in *; auto.
Qed.
End prims.

(** Step through a program under [wp]. *)
Ltac wp_step :=
  match goal with
  | |- wp (bind _ _) _ _ => apply wp_bind
  | |- wp (ret _) _ _ => apply wp_ret
  | |- wp (get _) _ _ => apply wp_get
  | |- wp (upd _) _ _ => apply wp_upd
  | |- wp (get_fb _) _ _ => eapply wp_deref; [solve [eauto]|solve [eauto]|]
  | |- wp (mod_fb _ _) _ _ => eapply wp_mod_fb; [solve [eauto]|solve [eauto]|]
  end; cbn beta.
Ltac wp_steps := repeat wp_step.
(** Equality of two states built by updates, field by field. *)
Ltac kernel_eq := apply kernel_ext; simpl; try reflexivity.
