(* ===== verification/NetDev.v ===== *)
(** * Network devices (kernel)

    What the drivers use of the kernel's device core, on the table of devices
    of the state: lookup and references, the [rtnl] mutex, receive handlers,
    the state of the link, and sending through the driver of a real device. *)
From Stdlib Require Import ZArith Lia.
From stdpp Require Import base gmap numbers countable list.
From S2P Require Import Prelude CString CritbitTree NameMap Types NetTypes Kernel.

Local Open Scope Z_scope.
Local Open Scope kernel_scope.

(** The private flags of the two Ethernet modules, and flags of the kernel. *)
Definition IFF_VLINK_MAS : Z := 131072.
Definition IFF_VLINK_DEV : Z := 262144.
Definition IFF_IS_BRIDGED : Z := 393216.
Definition IFF_UP : Z := 1.
Definition IFF_RUNNING : Z := 64.
Definition IFF_XMIT_DST_RELEASE : Z := 1024.
Definition IF_OPER_DORMANT : Z := 5.

Definition RX_HANDLER_CONSUMED : Z := 0.
Definition RX_HANDLER_PASS : Z := 3.
Definition PACKET_LOOPBACK : Z := 5.
Definition NET_RX_SUCCESS : Z := 0.
Definition NET_RX_DROP : Z := 1.
Definition NET_XMIT_SUCCESS : Z := 0.
Definition NET_XMIT_CN : Z := 2.

Definition has_flag (flags mask : Z) : bool := Z.land flags mask =? mask.

Definition fb_eth_dev_is_bridged (dev : net_device) : bool := has_flag (nd_priv_flags dev) IFF_IS_BRIDGED.

Definition fb_ethvlink_real_dev_is_hooked (dev : net_device) : bool :=
  has_flag (nd_priv_flags dev) IFF_VLINK_MAS.

(** [is_valid_ether_addr]: neither a group address nor zero. *)
Definition is_valid_ether_addr (a : list Z) : bool :=
  negb (Z.testbit (nth 0 a 0) 0) && negb (forallb (Z.eqb 0) a).

(** The carrier of a link. *)
Definition netif_carrier_ok (d : net_device) : bool := l_carrier (nd_link d).
Definition set_carrier (b : bool) (d : net_device) : net_device :=
  let l := nd_link d in with_link (Link (l_queue l) b (l_dormant l) (l_operstate l)) d.
Definition set_queue (b : bool) (d : net_device) : net_device :=
  let l := nd_link d in with_link (Link b (l_carrier l) (l_dormant l) (l_operstate l)) d.

(** [netif_stacked_transfer_operstate]: carrier and dormant bit follow the
    device below. *)
Definition netif_stacked_transfer_operstate (root d : net_device) : net_device :=
  let l := nd_link d in
  with_link (Link (l_queue l) (netif_carrier_ok root) (l_operstate (nd_link root) =? IF_OPER_DORMANT)
               (l_operstate l)) d.

Definition set_dev (dev : addr) (s : sk_buff) : sk_buff :=
  let e := skb_eth s in
  Skb (skb_len s) (skb_data s) (skb_cb s) (skb_users s)
    (EthInfo dev (ei_pkt_type e) (ei_source e) (ei_proto e)).

Section devices.
Context `{Nm : NameMap, Ka : KernelApi}.

Definition get_dev (a : addr) : M net_device := deref (fun k => n_devs (k_net k)) a.
Definition mod_dev (a : addr) (f : net_device -> net_device) : M unit :=
  d <- get_dev a;; upd (upd_net (net_devs <[a := f d]>)).

(** A registered device of a name, or with an index; 0 if there is none.  The
    lookups take a reference to the device they find. *)
Definition listed (P : net_device -> bool) (devs : gmap addr net_device) : addr :=
  match list_find (fun x => Is_true (bool_decide (nd_reg x.2 = NETREG_REGISTERED) && P x.2)) (map_to_list devs) with
  | Some (_, (a, _)) => a
  | None => 0
  end.

Definition dev_by_name (name : cstr) (devs : gmap addr net_device) : addr :=
  listed (fun d => bool_decide (nd_name d = name)) devs.

Definition dev_by_index (i : Z) (devs : gmap addr net_device) : addr :=
  listed (fun d => nd_ifindex d =? i) devs.

Definition dev_hold (a : addr) : M unit := mod_dev a (fun d => with_refs (nd_refs d + 1) d).
Definition dev_put (a : addr) : M unit := mod_dev a (fun d => with_refs (nd_refs d - 1) d).

Definition dev_get_by_name (name : cstr) : M addr :=
  devs <- get (fun k => n_devs (k_net k));;
  let a := dev_by_name name devs in
  when negb (a =? 0) do dev_hold a;;
  ret a.

Definition dev_get_by_index (i : Z) : M addr :=
  devs <- get (fun k => n_devs (k_net k));;
  let a := dev_by_index i devs in
  when negb (a =? 0) do dev_hold a;;
  ret a.

(** [free_netdev]: a device that was never registered, or is no longer. *)
Definition devs_of (f : gmap addr net_device -> gmap addr net_device) (k : kernel) : kernel :=
  upd_net (net_devs f) k.

Definition free_netdev (a : addr) : M unit :=
  d <- get_dev a;;
  match nd_reg d with
  | NETREG_UNINITIALIZED | NETREG_UNREGISTERED => kfree (fun k => n_devs (k_net k)) devs_of a
  | _ => crash Kernel_bug
  end.

(** [netdev_run_todo]: wait until nobody refers to the device, then call its
    destructor, which for the virtual devices is [free_netdev]. *)
Fixpoint netdev_run_todo (l : list addr) : M unit :=
  match l with
  | [] => ret tt
  | a :: l' =>
      mod_dev a (with_reg NETREG_UNREGISTERED);;
      d <- get_dev a;;
      (if negb (nd_refs d =? 0) then crash Deadlock
       else match nd_virt d with Some _ => free_netdev a | None => ret tt end);;
      netdev_run_todo l'
  end.

Definition rtnl_lock : M unit :=
  b <- get (fun k => n_rtnl (k_net k));;
  if b : bool then crash Deadlock else upd (upd_net (net_rtnl true)).

Definition rtnl_unlock : M unit :=
  l <- get (fun k => n_todo (k_net k));;
  upd (upd_net (net_todo (fun _ => [])));;
  upd (upd_net (net_rtnl false));;
  netdev_run_todo l.

(** [netdev_rx_handler_register]: one handler for each device. *)
Definition netdev_rx_handler_register (a : addr) (h : modid) : M Z :=
  d <- get_dev a;;
  match nd_rx_handler d with
  | Some _ => ret (- EBUSY)
  | None => mod_dev a (with_rx_handler (Some h));; ret 0
  end.

Definition netdev_rx_handler_unregister (a : addr) : M unit := mod_dev a (with_rx_handler None).

(** Sending through a real device: its driver takes the packet over and frees
    it, at once or later.  The queue of a device that is down frees it too and
    reports congestion. *)
Definition phys_xmit (skb : addr) : M Z :=
  s <- get_skb skb;;
  let dev := ei_dev (skb_eth s) in
  d <- get_dev dev;;
  if has_flag (nd_flags d) IFF_UP then
    mod_dev dev (with_sent skb s);;
    when negb (nd_late d) do kfree_skb skb;;
    ret NET_XMIT_SUCCESS
  else kfree_skb skb;; ret NET_XMIT_CN.

(** [skb_clone] and [skb_share_check]: the caller gets a packet of its own;
    its reference to a shared one is dropped also when the copy fails. *)
Definition skb_clone (skb : addr) : M addr :=
  s <- get_skb skb;;
  kmalloc upd_skbs (Skb (skb_len s) (skb_data s) (skb_cb s) 1 (skb_eth s)).

Definition skb_share_check (skb : addr) : M addr :=
  s <- get_skb skb;;
  if skb_users s =? 1 then ret skb
  else
    nskb <- skb_clone skb;;
    kfree_skb skb;;
    ret nskb.
End devices.
