(* ===== verification/EthvlinkDev.v ===== *)
(** * The device operations of the virtual Ethernet devices

    The functions of src/fb_ethvlink.c the device core calls for a virtual
    device ([fb_ethvlink_netdev_ops]): statistics, the link, sending; and with
    them the kernel's [dev_queue_xmit].  A virtual device has no queue: what is
    sent through it goes straight to the device below.  Last the operations for
    ethtool and for headers, which ask the carrier. *)
From Stdlib Require Import ZArith Lia.
From stdpp Require Import base gmap numbers countable list.
From S2P Require Import Prelude CString CritbitTree NameMap Types NetTypes Kernel NetDev.

Local Open Scope Z_scope.
Local Open Scope kernel_scope.

Definition dstats_zero : pcpu_dstats := Dstats 0 0 0 0 0 0 0.

Definition dstats_tx (len : Z) (s : pcpu_dstats) : pcpu_dstats :=
  Dstats (ds_rx_packets s) (ds_rx_bytes s) (ds_rx_multicast s) (u64 (ds_tx_packets s + 1))
    (u64 (ds_tx_bytes s + len)) (ds_rx_errors s) (ds_tx_dropped s).
Definition dstats_rx (len : Z) (s : pcpu_dstats) : pcpu_dstats :=
  Dstats (u64 (ds_rx_packets s + 1)) (u64 (ds_rx_bytes s + len)) (ds_rx_multicast s) (ds_tx_packets s)
    (ds_tx_bytes s) (ds_rx_errors s) (ds_tx_dropped s).
Definition dstats_tx_dropped (s : pcpu_dstats) : pcpu_dstats :=
  Dstats (ds_rx_packets s) (ds_rx_bytes s) (ds_rx_multicast s) (ds_tx_packets s)
    (ds_tx_bytes s) (ds_rx_errors s) (u32 (ds_tx_dropped s + 1)).
Definition dstats_rx_error (s : pcpu_dstats) : pcpu_dstats :=
  Dstats (ds_rx_packets s) (ds_rx_bytes s) (ds_rx_multicast s) (ds_tx_packets s)
    (ds_tx_bytes s) (u32 (ds_rx_errors s + 1)) (ds_tx_dropped s).

(** [struct rtnl_link_stats64], the four counters the driver adds to. *)
Record link_stats64 := Stats64 { st_tx_bytes : Z; st_tx_packets : Z; st_rx_bytes : Z; st_rx_packets : Z }.

Definition stats64_add (st : link_stats64) (s : pcpu_dstats) : link_stats64 :=
  Stats64 (u64 (st_tx_bytes st + ds_tx_bytes s)) (u64 (st_tx_packets st + ds_tx_packets s))
    (u64 (st_rx_bytes st + ds_rx_bytes s)) (u64 (st_rx_packets st + ds_rx_packets s)).

Section ops.
Context `{Nm : NameMap, Ka : KernelApi}.

(** [netdev_priv] of a virtual device. *)
Definition netdev_priv (a : addr) : M fb_ethvlink_private :=
  d <- get_dev a;;
  match nd_virt d with Some v => ret v | None => crash Bad_cast end.

Definition fb_ethvlink_init (dev : addr) : M Z :=
  ok <- alloc_ok;;
  if negb ok then ret (- ENOMEM)
  else
    n <- get k_cpus;;
    mod_dev dev (with_dstats (Some (replicate n dstats_zero)));;
    ret 0.

Definition fb_ethvlink_uninit (dev : addr) : M unit := mod_dev dev (with_dstats None).

Definition fb_ethvlink_open (dev : addr) : M Z :=
  dev_priv <- netdev_priv dev;;
  mod_dev dev (set_queue true);;
  root <- get_dev (vd_real_dev dev_priv);;
  when netif_carrier_ok root do mod_dev dev (set_carrier true);;
  ret 0.

Definition fb_ethvlink_stop (dev : addr) : M Z :=
  mod_dev dev (set_carrier false);;
  mod_dev dev (set_queue false);;
  ret 0.

(** [this_cpu_ptr(dev->dstats)] and a change there. *)
Definition this_dstats (dev : addr) (f : pcpu_dstats -> pcpu_dstats) : M unit :=
  d <- get_dev dev;;
  cpu <- get k_cpu;;
  match nd_dstats d with
  | Some l => mod_dev dev (with_dstats (Some (alter f cpu l)))
  | None => crash (Bad_access dev)
  end.

Definition fb_ethvlink_get_stats64 (dev : addr) (stats : link_stats64) : M link_stats64 :=
  d <- get_dev dev;;
  match nd_dstats d with
  | Some l => ret (fold_left stats64_add l stats)
  | None => crash (Bad_access dev)
  end.

(** The device below is sent to with [xmit]. *)
Definition fb_ethvlink_queue_xmit (xmit : addr -> M Z) (skb dev : addr) : M Z :=
  dev_priv <- netdev_priv dev;;
  mod_skb skb (set_dev (vd_real_dev dev_priv));;
  xmit skb.

Definition fb_ethvlink_start_xmit (xmit : addr -> M Z) (skb dev : addr) : M Z :=
  r <- fb_ethvlink_queue_xmit xmit skb dev;;
  (if (r =? NET_XMIT_SUCCESS) || (r =? NET_XMIT_CN) then
     s <- get_skb skb;;
     this_dstats dev (dstats_tx (skb_len s))
   else this_dstats dev dstats_tx_dropped);;
  ret r.

(** [dev_queue_xmit]: no more than [n] virtual devices one on top of the
    other. *)
Fixpoint dev_queue_xmit_at (n : nat) (skb : addr) : M Z :=
  s <- get_skb skb;;
  let dev := ei_dev (skb_eth s) in
  d <- get_dev dev;;
  match nd_virt d with
  | None => phys_xmit skb
  | Some _ =>
      if has_flag (nd_flags d) IFF_UP then
        match n with
        | O => kfree_skb skb;; ret (- ENETDOWN)
        | S n' => fb_ethvlink_start_xmit (dev_queue_xmit_at n') skb dev
        end
      else kfree_skb skb;; ret (- ENETDOWN)
  end.

Definition RECURSION_LIMIT : nat := 3.
Definition dev_queue_xmit : addr -> M Z := dev_queue_xmit_at RECURSION_LIMIT.
End ops.

(** ** What a virtual device says of itself, and what its carrier says

    [fb_ethvlink_ethtool_ops] and [fb_ethvlink_header_ops].  The kernel's
    functions for a device are arguments; so is the hardware address of a
    device. *)
Section ethtool.
Context `{Nm : NameMap, Ka : KernelApi}.
Context {ethtool_cmd : Type}.
Variable dev_ethtool_get_rx_csum : addr -> M Z.
Variable dev_ethtool_get_settings : addr -> ethtool_cmd -> M (Z * ethtool_cmd).
Variable dev_ethtool_get_flags : addr -> M Z.
Variable dev_addr : addr -> list Z.
Variable dev_hard_header : addr -> addr -> Z -> option (list Z) -> list Z -> Z -> M Z.

(** [drvinfo->driver] and [drvinfo->version]: "ethvlink" and "0.1". *)
Definition fb_ethvlink_ethtool_get_drvinfo : cstr * cstr :=
  (take 31 [101; 116; 104; 118; 108; 105; 110; 107], take 31 [48; 46; 49]).

Definition fb_ethvlink_ethtool_get_rx_csum (dev : addr) : M Z :=
  vdev <- netdev_priv dev;;
  dev_ethtool_get_rx_csum (vd_real_dev vdev).

Definition fb_ethvlink_ethtool_get_settings (dev : addr) (cmd : ethtool_cmd) : M (Z * ethtool_cmd) :=
  vdev <- netdev_priv dev;;
  dev_ethtool_get_settings (vd_real_dev vdev) cmd.

Definition fb_ethvlink_ethtool_get_flags (dev : addr) : M Z :=
  vdev <- netdev_priv dev;;
  dev_ethtool_get_flags (vd_real_dev vdev).

(** No source address is that of the virtual device. *)
Definition fb_ethvlink_create_header (skb dev : addr) (type : Z) (daddr saddr : option (list Z)) (len : Z) : M Z :=
  vdev <- netdev_priv dev;;
  dev_hard_header skb (vd_real_dev vdev) type daddr (default (dev_addr dev) saddr) len.
End ethtool.
