(* ===== verification/Fblock.v ===== *)
(** * Functional blocks: namespace, identifiers, life cycle, bindings

    The core of the stack, src/xt_fblock.c and the inline functions of
    src/xt_fblock.h.  A functional block has a name and an identifier (IDP):
    [idpmap] maps names to [idp_elem]s that hold an IDP, [fblmap] maps IDPs to
    blocks.  A block is reference counted and freed after a grace period.

    A function pointer of a block is called through [FblockOps], the interface
    between the core and the modules that implement blocks.  The first section
    holds what does not call back into modules. *)
From Stdlib Require Import ZArith Lia.
From stdpp Require Import base gmap numbers countable list.
From S2P Require Import Prelude CString CritbitTree NameMap Types Kernel.

Local Open Scope Z_scope.
Local Open Scope kernel_scope.

(** ** What modules provide to the core *)

Class FblockOps `{NameMap, KernelApi} := {
  mod_event_rx : modid -> fblock_notifier -> fblock_event -> M Z;
  mod_netfb_rx : modid -> addr -> addr -> path_type -> M (Z * path_type);
  mod_ctor : modid -> cstr -> M addr;
  mod_dtor : modid -> addr -> M unit;
  mod_dtor_outside_rcu : modid -> addr -> M unit;
}.

Section tables.
Context `{NameMap, KernelApi}.

(** ** Identifiers and the namespace *)

Definition provide_new_fblock_idp : M Z :=
  upd (upd_idp_counter (fun c => s64 (c + 1)));;
  c <- get k_idp_counter;;
  ret (u32 c).

Definition register_to_fblock_namespace (name : cstr) (val : Z) : M Z :=
  idpmap <- get k_idpmap;;
  if negb (nm_contains idpmap name =? 0) then ret (- EEXIST)
  else
    elem <- kmalloc upd_elems (IdpElem (fbname name) val);;
    if elem =? 0 then ret (- ENOMEM)
    else
      ok <- alloc_ok;;
      let '(r, idpmap') := nm_insert ok idpmap elem (fbname name) in
      upd (upd_idpmap (fun _ => idpmap'));;
      ret r.

Definition fblock_namespace_do_free_rcu (elem : addr) : M unit :=
  kfree k_elems upd_elems elem.

Definition unregister_from_fblock_namespace (name : cstr) : M Z :=
  idpmap <- get k_idpmap;;
  match nm_get idpmap name with
  | None => ret (- ENOENT)
  | Some elem =>
      e <- deref k_elems elem;;
      let '(r, idpmap') := nm_delete idpmap (ie_name e) in
      upd (upd_idpmap (fun _ => idpmap'));;
      if negb (r =? 0) then ret r
      else call_rcu (Rcu_idp_elem elem);; ret 0
  end.

Definition __get_fblock_namespace_mapping (name : cstr) : M Z :=
  idpmap <- get k_idpmap;;
  match nm_get idpmap name with
  | None => ret IDP_UNKNOWN
  | Some elem => e <- deref k_elems elem;; ret (ie_idp e)
  end.

Definition get_fblock_namespace_mapping (name : cstr) : M Z :=
  rcu_read_lock;;
  r <- __get_fblock_namespace_mapping name;;
  rcu_read_unlock;;
  ret r.

Definition __change_fblock_namespace_mapping (name : cstr) (new : Z) : M Z :=
  idpmap <- get k_idpmap;;
  match nm_get idpmap name with
  | None => ret (- ENOENT)
  | Some elem =>
      e <- deref k_elems elem;;
      upd (upd_elems <[elem := IdpElem (ie_name e) new]>);;
      ret 0
  end.

Definition change_fblock_namespace_mapping (name : cstr) (new : Z) : M Z :=
  rcu_read_lock;;
  r <- __change_fblock_namespace_mapping name new;;
  rcu_read_unlock;;
  ret r.

(** ** References and lookup *)

Definition get_fblock (fb : addr) : M unit :=
  mod_fb fb (fun b => with_refcnt (s32 (fb_refcnt b + 1)) b).

Definition __search_fblock (idp : Z) : M addr :=
  fblmap <- get k_fblmap;;
  let fb := radix_lookup fblmap idp in
  when negb (fb =? 0) do get_fblock fb;;
  ret fb.

Definition search_fblock (idp : Z) : M addr :=
  if idp =? IDP_UNKNOWN then ret 0
  else
    rcu_read_lock;;
    fb <- __search_fblock idp;;
    rcu_read_unlock;;
    ret fb.

(** [None] is a NULL [name]. *)
Definition search_fblock_n (name : option cstr) : M addr :=
  match name with
  | None => ret 0
  | Some name =>
      rcu_read_lock;;
      id <- __get_fblock_namespace_mapping name;;
      fb <- __search_fblock id;;
      rcu_read_unlock;;
      ret fb
  end.

(** ** Locks *)

Definition spin_lock (fb : addr) : M unit :=
  b <- get_fb fb;;
  if fb_lock b then crash Deadlock else set_fb fb (with_lock true b).

Definition spin_unlock (fb : addr) : M unit := mod_fb fb (with_lock false).

(** ** Registration *)

Definition register_fblock (p : addr) (idp : Z) : M Z :=
  mod_fb p (with_idp idp);;
  fblmap <- get k_fblmap;;
  ok <- alloc_ok;;
  let '(r, fblmap') := radix_insert ok fblmap idp p in
  upd (upd_fblmap (fun _ => fblmap'));;
  ret r.

Definition register_fblock_namespace (p : addr) : M Z :=
  idp <- provide_new_fblock_idp;;
  mod_fb p (with_idp idp);;
  fblmap <- get k_fblmap;;
  ok <- alloc_ok;;
  let '(r, fblmap') := radix_insert ok fblmap idp p in
  upd (upd_fblmap (fun _ => fblmap'));;
  if r <? 0 then ret r
  else
    b <- get_fb p;;
    register_to_fblock_namespace (fb_name b) (fb_idp b).

(** ** Allocation *)

Definition ctor_fblock : fblock := Fblock [] 0 None None 0 0 0 0 IDP_UNKNOWN false.

(** [kmem_cache_alloc]: an object freed before comes back with its old
    contents, new memory has been through [ctor_fblock]. *)
Definition alloc_fblock : M addr :=
  cache <- get k_fbcache;;
  fb <- kmalloc upd_fblocks (default ctor_fblock (head cache));;
  if fb =? 0 then ret 0
  else
    upd (upd_fbcache tail);;
    module_get M_core;;
    ret fb.

Definition init_fblock (fb : addr) (name : cstr) (priv : addr) : M Z :=
  spin_lock fb;;
  mod_fb fb (with_name (fbname name));;
  mod_fb fb (with_private_data priv);;
  others <- kmalloc upd_subs chain_init;;
  mod_fb fb (with_others others);;
  if others =? 0 then ret (- ENOMEM)
  else
    spin_unlock fb;;
    mod_fb fb (with_refcnt 1);;
    ret 0.

Definition kfree_fblock (p : addr) : M unit :=
  b <- get_fb p;;
  upd (upd_fblocks (delete p));;
  upd (upd_fbcache (cons b));;
  module_put M_core.

Definition cleanup_fblock_ctor (fb : addr) : M unit :=
  b <- get_fb fb;;
  kfree k_subs upd_subs (fb_others b).

(** ** Subscriptions *)

Definition init_fblock_subscriber (fb : fblock) (nb : fblock_notifier) : fblock_notifier :=
  Notifier (fn_self nb) (fb_event_rx fb) 0 (fn_next nb) (fn_remote nb).

Definition fblock_register_foreign_subscriber (us remote : addr) : M Z :=
  b <- get_fb us;;
  c <- deref k_subs (fb_others b);;
  let '(r, c') := chain_register c remote in
  upd (upd_subs <[fb_others b := c']>);;
  ret r.

Definition fblock_unregister_foreign_subscriber (us remote : addr) : M unit :=
  b <- get_fb us;;
  c <- deref k_subs (fb_others b);;
  upd (upd_subs <[fb_others b := (chain_unregister c remote).2]>).

Definition subscribe_to_remote_fblock (us remote : addr) : M Z :=
  fn <- kmalloc upd_notifs (Notifier 0 None 0 0 0);;
  if fn =? 0 then ret (- ENOMEM)
  else
    get_fblock us;;
    get_fblock remote;;
    spin_lock us;;
    b <- get_fb us;;
    r <- get_fb remote;;
    upd (upd_notifs
      <[fn := init_fblock_subscriber b
                (Notifier us None 0 (fb_notifiers b) (fb_idp r))]>);;
    mod_fb us (with_notifiers fn);;
    spin_unlock us;;
    b' <- get_fb us;;
    fblock_register_foreign_subscriber remote (fb_notifiers b').

(** The walk of [unsubscribe_from_remote_fblock] behind the head: unlinks
    the first notifier of the remote IDP and returns it, 0 if there is
    none. *)
Fixpoint unlink_notifier (fuel : nat) (fn : addr) (remote : Z) : M addr :=
  match fuel with
  | O => crash Endless_loop
  | S fuel' =>
      n <- deref k_notifs fn;;
      let f1 := fn_next n in
      if f1 =? 0 then ret 0
      else
        n1 <- deref k_notifs f1;;
        if fn_remote n1 =? remote then
          upd (upd_notifs
            <[fn := Notifier (fn_self n) (fn_call n) (fn_priority n) (fn_next n1) (fn_remote n)]>);;
          ret f1
        else unlink_notifier fuel' f1 remote
  end.

(** [fblock_update_selfref]: every notifier of the list now belongs to
    [self]. *)
Fixpoint fblock_update_selfref (fuel : nat) (head : addr) (self : addr) : M unit :=
  match fuel with
  | O => crash Endless_loop
  | S fuel' =>
      if head =? 0 then ret tt
      else
        n <- deref k_notifs head;;
        upd (upd_notifs
          <[head := Notifier self (fn_call n) (fn_priority n) (fn_next n) (fn_remote n)]>);;
        fblock_update_selfref fuel' (fn_next n) self
  end.

(** A list of notifiers has at most as many elements as there are live
    notifiers, so these rounds are enough unless the list is cyclic. *)
Definition notifs_fuel (k : kernel) : nat := S (size (k_notifs k)).

(** ** Options: "key=val" *)

Fixpoint opt_split (opt_string : cstr) : option (cstr * cstr) :=
  match opt_string with
  | [] => None
  | c :: s =>
      if c =? 61 then Some ([], s)
      else match opt_split s with
           | Some (key, val) => Some (c :: key, val)
           | None => None
           end
  end.
End tables.

(** ** What calls into modules *)

Section core.
Context `{Nm : NameMap, Ka : KernelApi, !FblockOps}.

Definition call_event (f : option modid) (nb : fblock_notifier) (ev : fblock_event) : M Z :=
  match f with None => crash Null_deref | Some m => mod_event_rx m nb ev end.

Definition put_fblock (fb : addr) : M unit :=
  mod_fb fb (fun b => with_refcnt (s32 (fb_refcnt b - 1)) b);;
  b <- get_fb fb;;
  if negb (fb_refcnt b =? 0) then ret tt
  else if fb_factory b =? 0 then ret tt
  else
    f <- deref k_factories (fb_factory b);;
    match fac_dtor_outside_rcu f with
    | Some m => mod_dtor_outside_rcu m fb
    | None => ret tt
    end;;
    call_rcu (Rcu_fblock fb).

(** A notifier on the stack that points back to [fb]. *)
Definition own_notifier (fb : addr) : fblock_notifier := Notifier fb None 0 0 0.

Definition __fblock_set_option (fb : addr) (opt_string : cstr) : M Z :=
  match opt_split opt_string with
  | None => ret (- EINVAL)
  | Some (key, val) =>
      get_fblock fb;;
      b <- get_fb fb;;
      r <- call_event (fb_event_rx b) (own_notifier fb) (FBLOCK_SET_OPT key val);;
      put_fblock fb;;
      ret r
  end.

Definition fblock_set_option (fb : addr) (opt_string : option cstr) : M Z :=
  match opt_string with
  | None => ret (- EINVAL)
  | Some s =>
      if fb =? 0 then ret (- EINVAL)
      else
        rcu_read_lock;;
        r <- __fblock_set_option fb s;;
        rcu_read_unlock;;
        ret r
  end.

(** ** Migration *)

Definition fblock_migrate_p (dst src : addr) : M unit :=
  get_fblock dst;;
  get_fblock src;;
  d <- get_fb dst;;
  let priv_old := fb_private_data d in
  s <- get_fb src;;
  mod_fb dst (with_private_data (fb_private_data s));;
  mod_fb src (with_private_data priv_old);;
  put_fblock dst;;
  put_fblock src.

Definition fblock_migrate_r (dst src : addr) : M unit :=
  get_fblock dst;;
  get_fblock src;;
  spin_lock dst;;
  spin_lock src;;
  s <- get_fb src;;
  mod_fb dst (with_idp (fb_idp s));;
  mod_fb dst (with_name (fbname (fb_name s)));;
  d <- get_fb dst;;
  let not_old := fb_notifiers d in
  mod_fb dst (with_notifiers (fb_notifiers s));;
  mod_fb src (with_notifiers not_old);;
  fuel <- get notifs_fuel;;
  fblock_update_selfref fuel (fb_notifiers s) dst;;
  fblock_update_selfref fuel not_old src;;
  let sub_old := fb_others d in
  mod_fb dst (with_others (fb_others s));;
  mod_fb src (with_others sub_old);;
  d' <- get_fb dst;;
  s' <- get_fb src;;
  mod_fb src (with_refcnt (fb_refcnt d'));;
  mod_fb dst (with_refcnt (fb_refcnt s'));;
  spin_unlock src;;
  spin_unlock dst;;
  put_fblock dst;;
  put_fblock src.

(** ** Subscriptions, continued *)

Definition unsubscribe_from_remote_fblock (us remote : addr) : M unit :=
  b <- get_fb us;;
  if fb_notifiers b =? 0 then ret tt
  else
    spin_lock us;;
    b <- get_fb us;;
    let fn := fb_notifiers b in
    n <- deref k_notifs fn;;
    r <- get_fb remote;;
    (if fn_remote n =? fb_idp r then
       mod_fb us (with_notifiers (fn_next n));;
       spin_unlock us
     else
       fuel <- get notifs_fuel;;
       f1 <- unlink_notifier fuel fn (fb_idp r);;
       spin_unlock us;;
       when negb (f1 =? 0) do
         (fblock_unregister_foreign_subscriber remote f1;;
          kfree k_notifs upd_notifs f1));;
    put_fblock us;;
    put_fblock remote.

(** [atomic_notifier_call_chain]: the registered notifiers are called in
    order until one asks to stop; the last result is returned. *)
Fixpoint notifier_call_chain (members : list addr) (ev : fblock_event) (last : Z) : M Z :=
  match members with
  | [] => ret last
  | nb :: rest =>
      n <- deref k_notifs nb;;
      r <- call_event (fn_call n) n ev;;
      if negb (Z.land r NOTIFY_STOP_MASK =? 0) then ret r
      else notifier_call_chain rest ev r
  end.

Definition notify_fblock_subscribers (us : addr) (ev : fblock_event) : M Z :=
  b <- get_fb us;;
  if fb_others b =? 0 then ret (- ENOENT)
  else
    c <- deref k_subs (fb_others b);;
    notifier_call_chain (chain_members c) ev NOTIFY_DONE.

(** ** Bindings *)

Definition __fblock_unbind (fb1 fb2 : addr) : M Z :=
  b2 <- get_fb fb2;;
  b1 <- get_fb fb1;;
  r <- call_event (fb_event_rx b1) (own_notifier fb1) (FBLOCK_UNBIND_IDP TYPE_EGRESS (fb_idp b2));;
  if negb (r =? NOTIFY_OK) then ret (- EBUSY)
  else
    b1 <- get_fb fb1;;
    b2 <- get_fb fb2;;
    r <- call_event (fb_event_rx b2) (own_notifier fb2) (FBLOCK_UNBIND_IDP TYPE_INGRESS (fb_idp b1));;
    if negb (r =? NOTIFY_OK) then put_fblock fb1;; ret (- EBUSY)
    else
      unsubscribe_from_remote_fblock fb1 fb2;;
      unsubscribe_from_remote_fblock fb2 fb1;;
      put_fblock fb2;;
      put_fblock fb1;;
      ret 0.

Definition fblock_unbind (fb1 fb2 : addr) : M Z :=
  rcu_read_lock;;
  r <- __fblock_unbind fb1 fb2;;
  rcu_read_unlock;;
  ret r.

Definition __fblock_bind (fb1 fb2 : addr) : M Z :=
  get_fblock fb1;;
  get_fblock fb2;;
  b2 <- get_fb fb2;;
  b1 <- get_fb fb1;;
  r <- call_event (fb_event_rx b1) (own_notifier fb1) (FBLOCK_BIND_IDP TYPE_EGRESS (fb_idp b2));;
  if negb (r =? NOTIFY_OK) then
    put_fblock fb1;; put_fblock fb2;; ret (- EBUSY)
  else
    b1 <- get_fb fb1;;
    b2 <- get_fb fb2;;
    r <- call_event (fb_event_rx b2) (own_notifier fb2) (FBLOCK_BIND_IDP TYPE_INGRESS (fb_idp b1));;
    if negb (r =? NOTIFY_OK) then
      b2 <- get_fb fb2;;
      b1 <- get_fb fb1;;
      r <- call_event (fb_event_rx b1) (own_notifier fb1) (FBLOCK_UNBIND_IDP TYPE_EGRESS (fb_idp b2));;
      if negb (r =? NOTIFY_OK) then crash Kernel_bug
      else put_fblock fb1;; put_fblock fb2;; ret (- EBUSY)
    else
      r <- subscribe_to_remote_fblock fb1 fb2;;
      if negb (r =? 0) then __fblock_unbind fb1 fb2;; ret (- ENOMEM)
      else
        r <- subscribe_to_remote_fblock fb2 fb1;;
        if negb (r =? 0) then __fblock_unbind fb1 fb2;; ret (- ENOMEM)
        else ret 0.

Definition fblock_bind (fb1 fb2 : addr) : M Z :=
  rcu_read_lock;;
  r <- __fblock_bind fb1 fb2;;
  rcu_read_unlock;;
  ret r.

(** ** Unregistration and destruction *)

Definition unregister_fblock (p : addr) : M unit :=
  b <- get_fb p;;
  upd (upd_fblmap (fun t => radix_delete t (fb_idp b)));;
  put_fblock p.

Definition __unregister_fblock_namespace (p : addr) (rcu : bool) : M unit :=
  b <- get_fb p;;
  upd (upd_fblmap (fun t => radix_delete t (fb_idp b)));;
  unregister_from_fblock_namespace (fb_name b);;
  when rcu do put_fblock p.

Definition unregister_fblock_namespace (p : addr) : M unit :=
  __unregister_fblock_namespace p true.

Definition unregister_fblock_namespace_no_rcu (p : addr) : M unit :=
  __unregister_fblock_namespace p false.

Definition cleanup_fblock (fb : addr) : M unit :=
  b <- get_fb fb;;
  notify_fblock_subscribers fb (FBLOCK_DOWN (fb_idp b));;
  b <- get_fb fb;;
  when negb (fb_factory b =? 0) do
    (f <- deref k_factories (fb_factory b);; mod_dtor (fac_dtor f) fb);;
  b <- get_fb fb;;
  kfree k_subs upd_subs (fb_others b).

Definition free_fblock_rcu (p : addr) : M unit :=
  cleanup_fblock p;;
  kfree_fblock p.

(** ** Grace periods

    With no reader left, the callbacks that were waiting run in order. *)

Definition run_rcu_cb (cb : rcu_cb) : M unit :=
  match cb with
  | Rcu_fblock fb => free_fblock_rcu fb
  | Rcu_idp_elem elem => fblock_namespace_do_free_rcu elem
  end.

Fixpoint run_rcu_cbs (l : list rcu_cb) : M unit :=
  match l with [] => ret tt | cb :: l' => run_rcu_cb cb;; run_rcu_cbs l' end.

Definition grace_period : M unit :=
  n <- get k_rcu_nesting;;
  if (0 <? n)%nat then ret tt
  else
    l <- get k_rcu;;
    upd (upd_rcu (fun _ => []));;
    run_rcu_cbs l.
End core.
