(* ===== verification/FblockNs.v ===== *)
(** * The namespace and the IDP table: invariant and operations

    [core_ok] is the invariant of the two tables of src/xt_fblock.c: a name
    resolves to an IDP, the IDP to a live block, and the block carries that
    IDP and that name.  The theorems say what registration, lookup, remapping
    and unregistration do to it, on success and on every error. *)
From Stdlib Require Import ZArith Lia.
From stdpp Require Import base gmap numbers countable list.
From S2P Require Import Prelude CString CritbitTree NameMap Types Kernel Fblock.

Local Open Scope Z_scope.
Local Open Scope kernel_scope.

Section ns.
Context `{Nm : NameMap, Ka : KernelApi}.

(** ** Views *)

(** The IDP a name is registered with. *)
Definition ns_lookup (k : kernel) (name : cstr) : option Z :=
  elem ← nm_view (k_idpmap k) !! name; ie_idp <$> k_elems k !! elem.

(** The block an IDP is registered for; 0 if none. *)
Definition fbl_lookup (k : kernel) (idp : Z) : addr := radix_lookup (k_fblmap k) idp.

(** The block a name stands for; 0 if none. *)
Definition resolve (k : kernel) (name : cstr) : addr :=
  fbl_lookup k (default IDP_UNKNOWN (ns_lookup k name)).

(** ** The invariant *)

Definition below_next {A} (k : kernel) (m : gmap addr A) : Prop :=
  map_Forall (fun a _ => 0 < a < k_next k) m.

(** Objects live at addresses the allocator has handed out. *)
Record heap_ok (k : kernel) : Prop := {
  heap_next : 0 < k_next k;
  heap_fblocks : below_next k (k_fblocks k);
  heap_elems : below_next k (k_elems k);
  heap_notifs : below_next k (k_notifs k);
  heap_subs : below_next k (k_subs k);
  heap_privs : below_next k (k_privs k);
}.

(** The namespace alone: a search tree whose entries are live elements that
    carry the key they are stored under. *)
Record ns_ok (k : kernel) : Prop := {
  ns_map : nm_ok (k_idpmap k);
  ns_elem name elem : nm_view (k_idpmap k) !! name = Some elem ->
    cstr_ok name /\ (length name < FBNAMSIZ)%nat /\ elem <> 0 /\
    exists idp, k_elems k !! elem = Some (IdpElem name idp);
}.

Record core_ok (k : kernel) : Prop := {
  core_heap : heap_ok k;
  core_ns : ns_ok k;
  core_counter : 0 <= k_idp_counter k < 2 ^ 32;
  core_fbl idp : fbl_lookup k idp <> 0 ->
    0 < idp <= k_idp_counter k /\
    exists b, k_fblocks k !! fbl_lookup k idp = Some b /\ fb_idp b = idp;
  core_name name idp : ns_lookup k name = Some idp ->
    exists b, fbl_lookup k idp <> 0 /\ k_fblocks k !! fbl_lookup k idp = Some b /\ fb_name b = name;
}.

(** ** Facts about the views *)

Lemma ns_lookup_elem k name elem :
  ns_ok k -> nm_view (k_idpmap k) !! name = Some elem ->
  exists idp, k_elems k !! elem = Some (IdpElem name idp) /\ ns_lookup k name = Some idp.
Proof.
  intros Hns Hv. destruct (ns_elem k Hns name elem Hv) as (_ & _ & _ & idp & He).
  exists idp. split; [done|]. unfold ns_lookup. by rewrite Hv; simpl; rewrite He.
Qed.

Lemma ns_lookup_None k name :
  ns_ok k -> ns_lookup k name = None <-> nm_view (k_idpmap k) !! name = None.
Proof.
  intros Hns. split; [|unfold ns_lookup; by intros ->].
  intros Hn. destruct (_ !! _) as [elem|] eqn:Hv; [|done].
  destruct (ns_lookup_elem k name elem Hns Hv) as (idp & _ & ?). congruence.
Qed.

Lemma ns_lookup_key k name idp :
  ns_ok k -> ns_lookup k name = Some idp -> cstr_ok name /\ (length name < FBNAMSIZ)%nat.
Proof.
  intros Hns Hl. unfold ns_lookup in Hl.
  destruct (_ !! name) as [elem|] eqn:Hv; [|done].
  by destruct (ns_elem k Hns name elem Hv) as (? & ? & _).
Qed.

(** Two names never share an element. *)
Lemma ns_elem_inj k n1 n2 elem :
  ns_ok k -> nm_view (k_idpmap k) !! n1 = Some elem ->
  nm_view (k_idpmap k) !! n2 = Some elem -> n1 = n2.
Proof.
  intros Hns H1 H2.
  destruct (ns_elem k Hns _ _ H1) as (_ & _ & _ & i1 & E1).
  destruct (ns_elem k Hns _ _ H2) as (_ & _ & _ & i2 & E2). congruence.
Qed.

Lemma below_next_fresh {A} k (m : gmap addr A) : below_next k m -> m !! k_next k = None.
Proof.
  intros Hm. destruct (m !! k_next k) as [x|] eqn:E; [|done].
  pose proof (map_Forall_lookup_1 _ _ _ _ Hm E). simpl in *. lia.
Qed.

Lemma below_next_pos {A} k (m : gmap addr A) a x : below_next k m -> m !! a = Some x -> a <> 0.
Proof. intros Hm E. pose proof (map_Forall_lookup_1 _ _ _ _ Hm E). simpl in *. lia. Qed.

Lemma below_next_insert {A} k (m : gmap addr A) a x :
  below_next k m -> 0 < a < k_next k -> below_next k (<[a := x]> m).
Proof. intros Hm Ha. by apply map_Forall_insert_2. Qed.

Lemma below_next_update {A} k (m : gmap addr A) a x y :
  below_next k m -> m !! a = Some y -> below_next k (<[a := x]> m).
Proof.
  intros Hm E. apply below_next_insert; [done|].
  exact (map_Forall_lookup_1 _ _ _ _ Hm E).
Qed.

Lemma below_next_delete {A} k (m : gmap addr A) a : below_next k m -> below_next k (delete a m).
Proof. apply map_Forall_delete. Qed.

Lemma below_next_alter {A} k (m : gmap addr A) f a : below_next k m -> below_next k (alter f a m).
Proof.
  intros Hm b x. rewrite lookup_alter_Some. intros [(<- & y & Hy & _)|[_ Hy]]; exact (Hm _ _ Hy).
Qed.

Lemma below_next_mono {A} k k' (m : gmap addr A) :
  k_next k <= k_next k' -> below_next k m -> below_next k' m.
Proof. intros Hle Hm. eapply map_Forall_impl; [exact Hm|]. simpl. lia. Qed.

(** The views only depend on the fields they read. *)
Lemma ns_lookup_ext k k' name :
  k_idpmap k' = k_idpmap k -> k_elems k' = k_elems k -> ns_lookup k' name = ns_lookup k name.
Proof. unfold ns_lookup. by intros -> ->. Qed.

Lemma ns_ok_ext k k' :
  k_idpmap k' = k_idpmap k -> k_elems k' = k_elems k -> ns_ok k -> ns_ok k'.
Proof.
  intros E1 E2 [Hm He]. split; [by rewrite E1|]. intros name elem. rewrite E1, E2. apply He.
Qed.

(** ** Lookup *)

Lemma get_mapping_run k name :
  ns_ok k -> cstr_ok name ->
  __get_fblock_namespace_mapping name k = Ret (default IDP_UNKNOWN (ns_lookup k name)) k.
Proof.
  intros Hns Hn. unfold __get_fblock_namespace_mapping, bind, get.
  rewrite (nm_get_spec _ _ (ns_map k Hns) Hn). unfold ns_lookup.
  destruct (_ !! name) as [elem|] eqn:Hv; simpl; [|done].
  destruct (ns_elem k Hns name elem Hv) as (_ & _ & Hpos & idp & He).
  unfold deref. destruct (Z.eqb_spec elem 0); [done|]. by rewrite He.
Qed.

Definition bump (d : Z) (b : fblock) : fblock := with_refcnt (s32 (fb_refcnt b + d)) b.

Lemma get_fblock_run k fb b :
  fb <> 0 -> k_fblocks k !! fb = Some b ->
  get_fblock fb k = Ret tt (upd_fblocks <[fb := bump 1 b]> k).
Proof.
  intros Hp Hb. unfold get_fblock, mod_fb, get_fb, deref, bind.
  destruct (Z.eqb_spec fb 0); [done|]. by rewrite Hb.
Qed.

(** What a successful search does to the state. *)
Definition got (fb : addr) (k : kernel) : kernel :=
  if fb =? 0 then k else upd_fblocks (alter (bump 1) fb) k.

Lemma insert_alter (f : fblock -> fblock) (m : gmap addr fblock) fb b :
  m !! fb = Some b -> <[fb := f b]> m = alter f fb m.
Proof. intros Hb. apply map_eq. intros a. destruct (decide (fb = a)) as [<-|].
  - by rewrite lookup_insert_eq, lookup_alter_eq, Hb.
  - by rewrite lookup_insert_ne, lookup_alter_ne.
Qed.

Lemma search_run k idp :
  core_ok k -> __search_fblock idp k = Ret (fbl_lookup k idp) (got (fbl_lookup k idp) k).
Proof.
  intros Hk. unfold __search_fblock, bind, get, got. fold (fbl_lookup k idp).
  destruct (Z.eqb_spec (fbl_lookup k idp) 0) as [E|E]; simpl; [done|].
  destruct (core_fbl k Hk idp E) as (_ & b & Hb & _).
  rewrite (get_fblock_run _ _ _ E Hb). unfold ret. f_equal.
  unfold upd_fblocks. by rewrite (insert_alter _ _ _ _ Hb).
Qed.

(** The tables do not depend on the read-side nesting. *)
Lemma heap_ok_nesting f k : heap_ok k -> heap_ok (upd_rcu_nesting f k).
Proof. intros []. by split. Qed.

Lemma core_ok_nesting f k : core_ok k -> core_ok (upd_rcu_nesting f k).
Proof.
  intros [Hh Hn Hc Hf Hm]. split; [by apply heap_ok_nesting| |done..].
  by apply (ns_ok_ext k).
Qed.

Lemma unlock_got fb k : upd_rcu_nesting pred (got fb (upd_rcu_nesting S k)) = got fb k.
Proof. unfold got. by case_bool; destruct k. Qed.

Lemma search_n_run k name :
  core_ok k -> cstr_ok name ->
  search_fblock_n (Some name) k = Ret (resolve k name) (got (resolve k name) k).
Proof.
  intros Hk Hn. unfold search_fblock_n. pose proof (core_ok_nesting S k Hk) as Hk1.
  erewrite bind_run by reflexivity.
  erewrite bind_run by (apply get_mapping_run; [apply Hk1|done]).
  erewrite bind_run by (by apply search_run).
  erewrite bind_run by reflexivity. unfold ret. rewrite unlock_got. done.
Qed.

Lemma search_idp_run k idp :
  core_ok k -> idp <> IDP_UNKNOWN ->
  search_fblock idp k = Ret (fbl_lookup k idp) (got (fbl_lookup k idp) k).
Proof.
  intros Hk Hi. unfold search_fblock. destruct (Z.eqb_spec idp IDP_UNKNOWN); [done|].
  erewrite bind_run by reflexivity.
  erewrite bind_run by (apply search_run, core_ok_nesting, Hk).
  erewrite bind_run by reflexivity. unfold ret. rewrite unlock_got. done.
Qed.

(** ** Registering a name *)

(** Only the namespace's own fields changed. *)
Definition ns_frame (k k' : kernel) : Prop :=
  k' = upd_idpmap (fun _ => k_idpmap k') (upd_elems (fun _ => k_elems k')
         (upd_next (fun _ => k_next k') (upd_oom (fun _ => k_oom k') k))).

Lemma ns_lookup_insert k k' name elem val :
  ns_ok k ->
  nm_view (k_idpmap k') = <[name := elem]> (nm_view (k_idpmap k)) ->
  k_elems k' = <[elem := IdpElem name val]> (k_elems k) ->
  k_elems k !! elem = None ->
  forall n, ns_lookup k' n = if decide (n = name) then Some val else ns_lookup k n.
Proof.
  intros Hns Hv He Hfresh n. unfold ns_lookup. rewrite Hv, He, lookup_insert.
  case_decide as E1; case_decide as E2; try congruence; simpl.
  - by rewrite lookup_insert_eq.
  - destruct (_ !! n) as [e|] eqn:Hn; [|done]. simpl.
    destruct (ns_elem k Hns n e Hn) as (_ & _ & _ & i & Hi).
    rewrite lookup_insert_ne; [done|]. by intros ->; rewrite Hfresh in Hi.
Qed.

Lemma ns_ok_insert k k' name elem val :
  ns_ok k -> nm_ok (k_idpmap k') ->
  nm_view (k_idpmap k') = <[name := elem]> (nm_view (k_idpmap k)) ->
  k_elems k' = <[elem := IdpElem name val]> (k_elems k) ->
  k_elems k !! elem = None -> elem <> 0 -> cstr_ok name -> (length name < FBNAMSIZ)%nat ->
  ns_ok k'.
Proof.
  intros Hns Hok Hv He Hfresh Hpos Hn Hl. split; [done|]. intros n e. rewrite Hv, He.
  rewrite lookup_insert_Some. intros [[<- <-]|[Hne Hn']].
  - repeat split; try done. exists val. by rewrite lookup_insert_eq.
  - destruct (ns_elem k Hns n e Hn') as (? & ? & ? & i & Hi).
    repeat split; try done. exists i. rewrite lookup_insert_ne; [done|].
    by intros ->; rewrite Hfresh in Hi.
Qed.

(** Adding an unused element changes nothing a lookup can see. *)
Lemma ns_lookup_weaken k k' elem e :
  ns_ok k -> nm_view (k_idpmap k') = nm_view (k_idpmap k) -> nm_ok (k_idpmap k') ->
  k_elems k' = <[elem := e]> (k_elems k) -> k_elems k !! elem = None ->
  ns_ok k' /\ forall n, ns_lookup k' n = ns_lookup k n.
Proof.
  intros Hns Hv Hok He Hfresh.
  assert (Hlook : forall n a, nm_view (k_idpmap k) !! n = Some a ->
            k_elems k' !! a = k_elems k !! a).
  { intros n a Hn. destruct (ns_elem k Hns n a Hn) as (_ & _ & _ & i & Hi).
    rewrite He, lookup_insert_ne; [done|]. by intros ->; rewrite Hfresh in Hi. }
  split.
  - split; [done|]. intros n a. rewrite Hv. intros Hn. rewrite (Hlook n a Hn).
    by apply (ns_elem k Hns).
  - intros n. unfold ns_lookup. rewrite Hv. destruct (_ !! n) as [a|] eqn:Hn; [|done].
    simpl. by rewrite (Hlook n a Hn).
Qed.

Lemma heap_ok_elems k k' a e :
  heap_ok k -> k_fblocks k' = k_fblocks k -> k_notifs k' = k_notifs k ->
  k_subs k' = k_subs k -> k_privs k' = k_privs k ->
  k_elems k' = <[a := e]> (k_elems k) -> 0 < a < k_next k' -> k_next k <= k_next k' ->
  heap_ok k'.
Proof.
  intros [? Hf Hel Hno Hs Hp] E1 E2 E3 E4 E5 Ha Hle.
  split; [lia|rewrite ?E1, ?E2, ?E3, ?E4, ?E5; try by apply (below_next_mono k)..].
  apply below_next_insert; [by apply (below_next_mono k)|done].
Qed.

(** What [register_to_fblock_namespace] promises. *)
Definition ns_registered (name : cstr) (val : Z) (k : kernel) (r : Z) (k' : kernel) : Prop :=
  ns_frame k k' /\ (k_oom k = [] -> k_oom k' = []) /\ heap_ok k' /\ ns_ok k' /\
  ((r = 0 /\ ns_lookup k name = None /\
    forall n, ns_lookup k' n = if decide (n = name) then Some val else ns_lookup k n) \/
   ((r = - EEXIST /\ ns_lookup k name <> None \/
     r = - ENOMEM /\ ns_lookup k name = None /\ k_oom k <> []) /\
    forall n, ns_lookup k' n = ns_lookup k n)).

Lemma ns_frame_refl k : ns_frame k k.
Proof. unfold ns_frame. by destruct k. Qed.

Lemma register_to_ns_wp k name val :
  heap_ok k -> ns_ok k -> cstr_ok name -> (length name < FBNAMSIZ)%nat ->
  wp (register_to_fblock_namespace name val) (ns_registered name val k) k.
Proof.
  intros Hh Hns Hn Hl. unfold register_to_fblock_namespace. wp_steps.
  rewrite (nm_contains_spec _ _ (ns_map k Hns) Hn).
  destruct (nm_view (k_idpmap k) !! name) as [e0|] eqn:Hv; simpl.
  { wp_steps. destruct (ns_lookup_elem k name e0 Hns Hv) as (i & _ & Hi).
    split; [apply ns_frame_refl|]. split; [done|]. split; [done|]. split; [done|]. right.
    split; [left|done]. split; [done|]. by rewrite Hi. }
  pose proof (proj2 (ns_lookup_None k name Hns) Hv) as HN.
  rewrite (fbname_id name Hl). wp_steps. pose proof (heap_next k Hh) as Hpos.
  apply wp_kmalloc; intros Hoom.
  2:{ simpl. wp_steps. split; [by unfold ns_frame; destruct k|].
      split; [by intros E; rewrite E in Hoom|].
      split; [by destruct Hh; split|]. split; [by apply (ns_ok_ext k)|]. right.
      split; [right|done]. split; [done|]. split; [done|]. by intros E; rewrite E in Hoom. }
  destruct (Z.eqb_spec (k_next k) 0); [lia|]. wp_steps.
  set (k1 := upd_elems _ _).
  assert (Hk1 : k_idpmap k1 = k_idpmap k) by done.
  unfold alloc_ok. wp_steps. simpl.
  assert (Hgo : forall ok k2, (ok = false -> k_oom k <> []) ->
    k2 = upd_oom (fun _ => k_oom k2) k1 -> (k_oom k = [] -> k_oom k2 = []) ->
    wp (let '(r, idpmap') := nm_insert ok (k_idpmap k) (k_next k) name in
        upd (upd_idpmap (fun _ => idpmap'));; ret r) (ns_registered name val k) k2).
  { intros ok k2 Hok Hk2 Ho2. destruct (nm_insert_spec ok _ (k_next k) name (ns_map k Hns) Hn)
      as [Hi Hs]. unfold insert_spec in Hs. rewrite Hv in Hs.
    destruct (nm_insert _ _ _ _) as [r t] eqn:Ei. simpl in *. wp_steps.
    assert (Hfr : k_elems k !! k_next k = None) by (apply below_next_fresh, Hh).
    split; [unfold ns_frame; rewrite Hk2; by destruct k|]. split; [done|].
    split; [apply (heap_ok_elems k _ (k_next k) (IdpElem name val)); try done;
            rewrite Hk2; simpl; (done || lia)|].
    destruct (ok || _) eqn:Eb; injection Hs as Hr Ht.
    - split; [eapply (ns_ok_insert k _ name (k_next k) val); try done; try lia; by rewrite Hk2|].
      left. split; [done|]. split; [done|].
      eapply (ns_lookup_insert k _ name (k_next k) val); try done. by rewrite Hk2.
    - destruct (ns_lookup_weaken k (upd_idpmap (fun _ => t) k2) (k_next k) (IdpElem name val))
        as [Ho Hlk]; try done; [by rewrite Hk2|].
      split; [done|]. right. split; [|done]. right. split; [done|]. split; [done|].
      apply Hok. by destruct ok. }
  destruct (tail (k_oom k)) as [|b l] eqn:El; wp_steps; simpl.
  - apply Hgo; [done|by destruct k1|done].
  - apply Hgo; [|by destruct k1|]; intros E; [intros E'|]; by rewrite ?E, ?E' in El.
Qed.

(** ** Registering a block *)

(** An unregistered block with a well-formed name. *)
Record unregistered (k : kernel) (p : addr) (b : fblock) : Prop := {
  unreg_live : k_fblocks k !! p = Some b;
  unreg_idp i : fbl_lookup k i <> p;
  unreg_name : cstr_ok (fb_name b) /\ (length (fb_name b) < FBNAMSIZ)%nat;
}.

Lemma wp_alloc_ok (Q : bool -> kernel -> Prop) k :
  (k_oom k = [] -> Q true k) ->
  (forall ok o, k_oom k <> [] -> Q ok (upd_oom (fun _ => o) k)) ->
  wp alloc_ok Q k.
Proof.
  intros H1 H2. unfold alloc_ok. wp_steps. destruct (k_oom k) as [|b l]; wp_steps; [auto|].
  by apply H2.
Qed.

Lemma core_fresh_idp k i : core_ok k -> k_idp_counter k < i -> fbl_lookup k i = 0.
Proof.
  intros Hk Hi. destruct (Z.eq_dec (fbl_lookup k i) 0) as [|E]; [done|].
  destruct (core_fbl k Hk i E) as [? _]. lia.
Qed.

Lemma heap_ok_fblock k k' a x y :
  heap_ok k -> k_fblocks k !! a = Some y -> k_fblocks k' = <[a := x]> (k_fblocks k) ->
  k_notifs k' = k_notifs k -> k_subs k' = k_subs k -> k_privs k' = k_privs k ->
  k_elems k' = k_elems k -> k_next k' = k_next k -> heap_ok k'.
Proof.
  intros [? Hf Hel Hno Hs Hp] Ha E1 E2 E3 E4 E5 E6.
  split; unfold below_next; rewrite ?E1, ?E2, ?E3, ?E4, ?E5, E6; try done.
  by apply (below_next_update k _ _ _ y).
Qed.

(** The state after the IDP table has taken the block in. *)
Definition idp_assigned (p : addr) (b : fblock) (idp : Z) (k k' : kernel) : Prop :=
  k_fblocks k' = <[p := with_idp idp b]> (k_fblocks k) /\
  k_idp_counter k' = idp /\
  forall i, fbl_lookup k' i = if decide (i = idp) then p else fbl_lookup k i.

(** Only the tables, the block and the allocator changed. *)
Definition reg_frame (k k' : kernel) : Prop :=
  k' = upd_fblocks (fun _ => k_fblocks k') (upd_fblmap (fun _ => k_fblmap k')
         (upd_idp_counter (fun _ => k_idp_counter k')
           (upd_idpmap (fun _ => k_idpmap k') (upd_elems (fun _ => k_elems k')
             (upd_next (fun _ => k_next k') (upd_oom (fun _ => k_oom k') k)))))).

(** What registering a block leads to: success, a name that is taken, or an
    allocation that failed (for the name or for the IDP table). *)
Definition block_registered (p : addr) (b : fblock) (k : kernel) (r : Z) (k' : kernel) : Prop :=
  let idp := k_idp_counter k + 1 in
  reg_frame k k' /\ (k_oom k = [] -> k_oom k' = []) /\
  ((r = 0 /\ ns_lookup k (fb_name b) = None /\ idp_assigned p b idp k k' /\ core_ok k' /\
    forall n, ns_lookup k' n = if decide (n = fb_name b) then Some idp else ns_lookup k n) \/
   ((r = - EEXIST /\ ns_lookup k (fb_name b) <> None \/
     r = - ENOMEM /\ ns_lookup k (fb_name b) = None /\ k_oom k <> []) /\
    idp_assigned p b idp k k' /\ ns_ok k' /\ forall n, ns_lookup k' n = ns_lookup k n) \/
   (r < 0 /\ k_oom k <> [] /\ ns_ok k' /\ k_fblmap k' = k_fblmap k /\
    forall n, ns_lookup k' n = ns_lookup k n)).

(** The run does not run out of memory when the allocator does not fail. *)
Lemma block_registered_ok p b k r k' :
  block_registered p b k r k' -> k_oom k = [] -> ns_lookup k (fb_name b) = None ->
  r = 0 /\ (reg_frame k k' /\ k_oom k' = []) /\ idp_assigned p b (k_idp_counter k + 1) k k' /\ core_ok k' /\
  forall n, ns_lookup k' n = if decide (n = fb_name b) then Some (k_idp_counter k + 1) else ns_lookup k n.
Proof.
  intros (Hfr & Hoo & [(-> & _ & ? & ? & ?)|[([[_ ?]|(_ & _ & ?)] & _)|(_ & ? & _)]]) Ho Hn; by auto 6.
Qed.

Lemma idp_assigned_core p b k k' :
  let idp := k_idp_counter k + 1 in
  core_ok k -> unregistered k p b -> idp < 2 ^ 32 ->
  idp_assigned p b idp k k' -> heap_ok k' -> ns_ok k' ->
  (forall n, ns_lookup k' n = if decide (n = fb_name b) then Some idp else ns_lookup k n) ->
  core_ok k'.
Proof.
  intros idp Hk Hp Hlt (Hf & Hc & Hl) Hh Hns Hn.
  pose proof (core_counter k Hk) as Hc0.
  split; [done|done| | |].
  - rewrite Hc. unfold idp. lia.
  - intros i. rewrite Hl, Hf, Hc. case_decide as E.
    + subst i. intros _. split; [unfold idp; lia|]. exists (with_idp idp b).
      by rewrite lookup_insert_eq.
    + intros H0. destruct (core_fbl k Hk i H0) as (Hr & b' & Hb' & Hi).
      split; [unfold idp; lia|]. exists b'. split; [|done].
      rewrite lookup_insert_ne; [done|]. apply not_eq_sym, (unreg_idp k p b Hp).
  - intros n i. rewrite Hn, Hl, Hf. case_decide as E.
    + intros [= <-]. rewrite decide_True by done. exists (with_idp idp b).
      rewrite lookup_insert_eq, E. repeat split; try done.
      eapply below_next_pos; [apply Hk|apply Hp].
    + intros H0. destruct (core_name k Hk n i H0) as (b' & H1 & H2 & H3).
      rewrite decide_False. { exists b'. rewrite lookup_insert_ne; [done|].
        apply not_eq_sym, (unreg_idp k p b Hp). }
      intros ->. rewrite (core_fresh_idp k idp Hk) in H1; [done|unfold idp; lia].
Qed.

(** The second half of [register_fblock_namespace], with the block in the
    IDP table. *)
Lemma register_name_wp k k2 p b :
  let idp := k_idp_counter k + 1 in
  core_ok k -> unregistered k p b -> idp < 2 ^ 32 ->
  idp_assigned p b idp k k2 -> heap_ok k2 -> ns_ok k2 ->
  (forall n, ns_lookup k2 n = ns_lookup k n) -> (k_oom k = [] -> k_oom k2 = []) ->
  reg_frame k k2 ->
  wp (b <- get_fb p;; register_to_fblock_namespace (fb_name b) (fb_idp b))
    (block_registered p b k) k2.
Proof.
  intros idp Hk Hp Hlt Hid Hh2 Hn2 Hl2 Hoom Hfr2. destruct (unreg_name _ _ _ Hp) as [Hn Hlen].
  pose proof (below_next_pos _ _ _ _ (heap_fblocks k (core_heap k Hk)) (unreg_live _ _ _ Hp)) as Hpos.
  destruct Hid as (Hf & Hc & Hl). wp_step.
  eapply (wp_deref _ _ (with_idp idp b)); [done|rewrite Hf; apply lookup_insert_eq|].
  eapply wp_mono; [by apply register_to_ns_wp|]. simpl.
  intros r k' (Hfr & Hoo & Hh' & Hn' & Hres). unfold block_registered. fold idp.
  assert (Hid : idp_assigned p b idp k k') by (rewrite Hfr; done).
  split; [unfold reg_frame in *; rewrite Hfr, Hfr2; by kernel_eq|]. split; [by auto|].
  destruct Hres as [(-> & HN & Hlook)|[Herr Hlook]]; rewrite ?Hl2 in *.
  - left. assert (forall n, ns_lookup k' n = if decide (n = fb_name b) then Some idp else ns_lookup k n).
    { intros n. by rewrite Hlook, Hl2. }
    repeat (split; [done|]). split; [|done]. by eapply idp_assigned_core.
  - right. left. split; [tauto|]. split; [done|]. split; [done|]. intros n. by rewrite Hlook, Hl2.
Qed.

Lemma register_namespace_wp k p b :
  core_ok k -> unregistered k p b -> k_idp_counter k + 1 < 2 ^ 32 ->
  wp (register_fblock_namespace p) (block_registered p b k) k.
Proof.
  intros Hk Hp Hlt. pose proof (core_counter k Hk) as Hc.
  pose proof (below_next_pos _ _ _ _ (heap_fblocks k (core_heap k Hk)) (unreg_live _ _ _ Hp)) as Hpos.
  unfold register_fblock_namespace, provide_new_fblock_idp. wp_steps. simpl.
  rewrite s64_small, u32_small by lia. set (idp := k_idp_counter k + 1).
  eapply wp_mod_fb; [done|apply Hp|]. wp_steps. simpl. set (k1 := upd_fblocks _ _).
  assert (Hgo : forall ok o, (ok = false -> k_oom k <> []) -> (k_oom k = [] -> o = []) ->
    wp (let '(r, fblmap') := radix_insert ok (k_fblmap k) idp p in
        upd (upd_fblmap (fun _ => fblmap'));;
        if r <? 0 then ret r
        else b <- get_fb p;; register_to_fblock_namespace (fb_name b) (fb_idp b))
      (block_registered p b k) (upd_oom (fun _ => o) k1)); cycle 1.
  { apply wp_alloc_ok; [intros E|intros ok o Ho; by apply Hgo].
    replace k1 with (upd_oom (fun _ => k_oom k1) k1) by (by destruct k). by apply Hgo. }
  intros ok o Hok Ho.
  assert (Hn2 : forall k2, k_idpmap k2 = k_idpmap k1 -> k_elems k2 = k_elems k1 ->
    ns_ok k2 /\ forall n, ns_lookup k2 n = ns_lookup k n).
  { intros. split; [by apply (ns_ok_ext k); [..|apply Hk]|]. intros; by apply ns_lookup_ext. }
  destruct (Z.eq_dec (radix_insert ok (k_fblmap k) idp p).1 0) as [H0|H0].
  - pose proof (fun j => radix_insert_lookup _ _ _ _ j H0) as Hlk.
    destruct (radix_insert ok (k_fblmap k) idp p) as [r t]. simpl in H0, Hlk. subst r.
    wp_steps. set (k2 := upd_fblmap _ _). destruct (Hn2 k2) as [Hns Hl]; [done..|].
    apply register_name_wp; try done.
    + split; [done|]. split; [by apply s64_small; lia|]. intros i. unfold fbl_lookup. simpl. rewrite Hlk.
      by repeat case_decide; subst.
    + by eapply (heap_ok_fblock k k2); [apply Hk|apply Hp|..].
  - pose proof (radix_insert_fail _ _ _ _ H0) as [Hneg Hsame].
    assert (ok = false) as ->.
    { destruct ok; [|done]. destruct H0. apply radix_insert_free.
      apply (core_fresh_idp k idp Hk). unfold idp; lia. }
    destruct (radix_insert false (k_fblmap k) idp p) as [r t]. simpl in *. subst t.
    wp_steps. destruct (Z.ltb_spec r 0); [|lia]. wp_steps.
    split; [by unfold reg_frame; kernel_eq|]. split; [by auto|]. right. right.
    destruct (Hn2 (upd_fblmap (fun _ => k_fblmap k) (upd_oom (fun _ => o) k1))); [done..|].
    repeat (split; [by auto|]). done.
Qed.

(** ** Remapping a name *)

Lemma change_mapping_wp k name new :
  ns_ok k -> cstr_ok name ->
  wp (change_fblock_namespace_mapping name new)
    (fun r k' =>
       k' = upd_elems (fun _ => k_elems k') k /\ ns_ok k' /\
       match ns_lookup k name with
       | None => r = - ENOENT /\ k' = k
       | Some _ => r = 0 /\
           forall n, ns_lookup k' n = if decide (n = name) then Some new else ns_lookup k n
       end) k.
Proof.
  intros Hns Hn. unfold change_fblock_namespace_mapping, __change_fblock_namespace_mapping.
  unfold rcu_read_lock, rcu_read_unlock. wp_steps. simpl.
  rewrite (nm_get_spec _ _ (ns_map k Hns) Hn).
  destruct (_ !! name) as [elem|] eqn:Hv.
  2:{ wp_steps. rewrite (proj2 (ns_lookup_None k name Hns) Hv). by destruct k. }
  destruct (ns_lookup_elem k name elem Hns Hv) as (idp & He & ->).
  destruct (ns_elem k Hns name elem Hv) as (_ & _ & Hpos & _).
  wp_step. eapply wp_deref; [done|exact He|]. wp_steps. simpl.
  split; [by destruct k|]. split; [|split; [done|]].
  - split; [apply (ns_map k Hns)|]. simpl. intros n e Hn'.
    destruct (ns_elem k Hns n e Hn') as (? & ? & ? & i & Hi). repeat split; try done.
    destruct (decide (elem = e)) as [<-|Hne].
    + rewrite lookup_insert_eq. rewrite Hi in He. injection He as -> ->. eauto.
    + rewrite lookup_insert_ne by done. eauto.
  - intros n. unfold ns_lookup. simpl. case_decide as E.
    + subst n. rewrite Hv. simpl. by rewrite lookup_insert_eq.
    + destruct (_ !! n) as [e|] eqn:Hn'; simpl; [|done]. rewrite lookup_insert_ne; [done|].
      intros ->. by apply E, (ns_elem_inj k n name e Hns).
Qed.

(** ** Unregistering *)

(** A block that is in both tables under its own name and IDP. *)
Record registered (k : kernel) (p : addr) (b : fblock) : Prop := {
  reg_live : k_fblocks k !! p = Some b;
  reg_idp : fbl_lookup k (fb_idp b) = p;
  reg_name : ns_lookup k (fb_name b) = Some (fb_idp b);
}.

Lemma resolve_registered k name b :
  core_ok k -> resolve k name <> 0 -> k_fblocks k !! resolve k name = Some b ->
  fb_name b = name /\ registered k (resolve k name) b.
Proof.
  intros Hk Hp Hb. unfold resolve in *. destruct (ns_lookup k name) as [idp|] eqn:Hn; simpl in *.
  - destruct (core_name k Hk name idp Hn) as (b' & _ & Hb' & Hname).
    rewrite Hb in Hb'. injection Hb' as <-. split; [done|].
    destruct (core_fbl k Hk idp Hp) as (_ & b' & Hb' & Hi).
    rewrite Hb in Hb'. injection Hb' as <-. split; [done|by rewrite Hi|by rewrite Hi, Hname].
  - destruct (core_fbl k Hk IDP_UNKNOWN Hp) as [Hr _]. unfold IDP_UNKNOWN, IDP_EXIT_PPE in Hr. lia.
Qed.

Lemma ns_delete k k' name :
  ns_ok k -> nm_ok (k_idpmap k') ->
  nm_view (k_idpmap k') = delete name (nm_view (k_idpmap k)) -> k_elems k' = k_elems k ->
  ns_ok k' /\ forall n, ns_lookup k' n = if decide (n = name) then None else ns_lookup k n.
Proof.
  intros Hns Hok Hv He. split.
  - split; [done|]. intros n e. rewrite Hv, He, lookup_delete_Some. intros [_ Hn].
    by apply (ns_elem k Hns).
  - intros n. unfold ns_lookup. rewrite Hv, He, lookup_delete.
    by repeat case_decide; subst.
Qed.

Lemma unregister_from_ns_wp k name elem :
  ns_ok k -> nm_view (k_idpmap k) !! name = Some elem ->
  wp (unregister_from_fblock_namespace name)
    (fun r k' => r = 0 /\
       k' = upd_rcu (fun l => l ++ [Rcu_idp_elem elem]) (upd_idpmap (fun _ => k_idpmap k') k) /\
       ns_ok k' /\
       forall n, ns_lookup k' n = if decide (n = name) then None else ns_lookup k n) k.
Proof.
  intros Hns Hv. destruct (ns_elem k Hns name elem Hv) as (Hn & _ & Hpos & idp & He).
  unfold unregister_from_fblock_namespace, call_rcu. wp_steps.
  rewrite (nm_get_spec _ _ (ns_map k Hns) Hn), Hv. wp_step.
  eapply wp_deref; [done|exact He|]. simpl.
  destruct (nm_delete_spec _ name (ns_map k Hns) Hn) as [Hok Hs]. unfold delete_spec in Hs.
  rewrite Hv in Hs. destruct (nm_delete _ _) as [r t]. simpl in *. injection Hs as -> Ht.
  wp_steps. simpl. wp_steps. set (k' := upd_rcu _ _).
  destruct (ns_delete k k' name) as [Hns' Hl]; [done..|]. by destruct k.
Qed.

Lemma unregister_core k k' p b :
  core_ok k -> registered k p b -> heap_ok k' -> ns_ok k' ->
  k_fblocks k' = k_fblocks k -> k_idp_counter k' = k_idp_counter k ->
  (forall i, fbl_lookup k' i = if decide (i = fb_idp b) then 0 else fbl_lookup k i) ->
  (forall n, ns_lookup k' n = if decide (n = fb_name b) then None else ns_lookup k n) ->
  core_ok k'.
Proof.
  intros Hk [Hb Hi Hn] Hh Hns Hf Hc Hl Hlk. split; [done|done|by rewrite Hc; apply Hk| |].
  - intros i. rewrite Hl, Hf, Hc. case_decide; [done|]. apply (core_fbl k Hk).
  - intros n i. rewrite Hlk, Hl, Hf. case_decide as E; [done|]. intros Hni.
    destruct (core_name k Hk n i Hni) as (b' & H1 & H2 & H3). rewrite decide_False; [eauto|].
    intros ->. rewrite Hi in H2. congruence.
Qed.

(** What unregistering a block does; the block itself is left alone. *)
Definition block_unregistered (p : addr) (b : fblock) (k k' : kernel) : Prop :=
  core_ok k' /\ k_fblocks k' = k_fblocks k /\ k_factories k' = k_factories k /\
  (forall i, fbl_lookup k' i = if decide (i = fb_idp b) then 0 else fbl_lookup k i) /\
  (forall n, ns_lookup k' n = if decide (n = fb_name b) then None else ns_lookup k n) /\
  exists elem, nm_view (k_idpmap k) !! fb_name b = Some elem /\
               k_elems k' = k_elems k /\ k_rcu k' = k_rcu k ++ [Rcu_idp_elem elem].

Lemma unregister_namespace_wp k p b (m : M unit) (Q : unit -> kernel -> Prop) :
  core_ok k -> registered k p b ->
  (forall k', block_unregistered p b k k' ->
     k' = upd_rcu (fun _ => k_rcu k') (upd_idpmap (fun _ => k_idpmap k')
            (upd_fblmap (fun t => radix_delete t (fb_idp b)) k)) ->
     wp m Q k') ->
  wp (b <- get_fb p;;
      upd (upd_fblmap (fun t => radix_delete t (fb_idp b)));;
      unregister_from_fblock_namespace (fb_name b);; m) Q k.
Proof.
  intros Hk Hr Hm. pose proof Hr as [Hb Hi Hn].
  pose proof (below_next_pos _ _ _ _ (heap_fblocks k (core_heap k Hk)) Hb) as Hpos.
  wp_step. eapply wp_deref; [done|exact Hb|]. wp_steps.
  destruct (nm_view (k_idpmap k) !! fb_name b) as [elem|] eqn:Hv.
  2:{ apply (ns_lookup_None k _ (core_ns k Hk)) in Hv. congruence. }
  set (k1 := upd_fblmap _ k).
  assert (Hns1 : ns_ok k1) by (by apply (ns_ok_ext k); [..|apply Hk]).
  eapply wp_mono; [by apply (unregister_from_ns_wp k1 (fb_name b) elem)|]. simpl.
  intros _ k' (_ & Hf & Hns & Hl).
  assert (Hl' : forall n, ns_lookup k' n = if decide (n = fb_name b) then None else ns_lookup k n).
  { intros n. rewrite Hl. case_decide; [done|]. by apply ns_lookup_ext. }
  assert (Hfl : forall i, fbl_lookup k' i = if decide (i = fb_idp b) then 0 else fbl_lookup k i).
  { intros i. rewrite Hf. unfold fbl_lookup. simpl. rewrite radix_delete_lookup.
    by repeat case_decide; subst. }
  apply Hm.
  - split; [apply (unregister_core k k' p b); try done; rewrite Hf; try done|].
    { destruct (core_heap k Hk); by split. }
    split; [by rewrite Hf|]. split; [by rewrite Hf|]. split; [done|]. split; [done|].
    exists elem. split; [done|]. by rewrite Hf.
  - rewrite Hf. by destruct k.
Qed.

(** ** Where the invariant holds *)

(** The invariant only reads the tables, the objects in memory and the
    allocator. *)
Lemma core_ok_ext k k' :
  core_ok k -> k_fblocks k' = k_fblocks k -> k_notifs k' = k_notifs k -> k_subs k' = k_subs k ->
  k_privs k' = k_privs k -> k_elems k' = k_elems k -> k_idpmap k' = k_idpmap k ->
  k_fblmap k' = k_fblmap k -> k_idp_counter k' = k_idp_counter k -> k_next k' = k_next k ->
  core_ok k'.
Proof.
  intros [[? ? ? ? ? ?] Hns Hc Hf Hn] E1 E2 E3 E4 E5 E6 E7 E8 E9.
  assert (Hl : forall i, fbl_lookup k' i = fbl_lookup k i) by (intros; unfold fbl_lookup; by rewrite E7).
  split; [split; unfold below_next; by rewrite ?E1, ?E2, ?E3, ?E4, ?E5, ?E9
         |by apply (ns_ok_ext k)|by rewrite E8| |].
  - intros i. rewrite Hl, E8, E1. apply Hf.
  - intros n i. rewrite (ns_lookup_ext k) by done. rewrite Hl, E1. apply Hn.
Qed.

Lemma boot_core_ok n : core_ok (boot n).
Proof.
  assert (Hl : forall i, fbl_lookup (boot n) i = 0) by (intros; apply radix_lookup_empty).
  assert (Hn : forall name, ns_lookup (boot n) name = None)
    by (intros; unfold ns_lookup; simpl; by rewrite nm_view_empty).
  split; [split; simpl; [lia|apply map_Forall_empty..]| |simpl; lia| |].
  - split; [apply nm_empty_ok|]. intros name elem. simpl. by rewrite nm_view_empty.
  - intros i. by rewrite Hl.
  - intros name i. by rewrite Hn.
Qed.

(** ** Identifiers *)

(** The IDPs of the next [n] blocks. *)
Fixpoint idps (n : nat) : M (list Z) :=
  match n with
  | O => ret []
  | S n' => i <- provide_new_fblock_idp;; l <- idps n';; ret (i :: l)
  end.

Lemma idps_run n : forall k,
  - 2 ^ 63 <= k_idp_counter k -> k_idp_counter k + Z.of_nat n < 2 ^ 63 ->
  exists k', idps n k = Ret ((fun j => u32 (k_idp_counter k + 1 + Z.of_nat j)) <$> seq 0 n) k'.
Proof.
  induction n as [|n IH]; intros k Hlo Hhi; [by exists k|]. simpl idps.
  set (k1 := upd_idp_counter (fun c => s64 (c + 1)) k).
  assert (Hc : k_idp_counter k1 = k_idp_counter k + 1) by (by apply s64_small; lia).
  destruct (IH k1) as [k' Hk']; [lia..|]. exists k'.
  erewrite bind_run by reflexivity. fold k1. rewrite (bind_run _ _ _ _ _ Hk').
  unfold ret. f_equal. rewrite Hc. simpl. f_equal.
  - f_equal. lia.
  - rewrite <- fmap_S_seq. rewrite <- list_fmap_compose. apply list_fmap_ext.
    intros _ j _. simpl. f_equal. lia.
Qed.
End ns.

(** ** The properties *)

Section claims.
Context `{Nm : NameMap, Ka : KernelApi}.

(** C6: registering a new block under a free name succeeds when memory
    lasts: the block gets the next IDP, which no block had, its name resolves
    to that IDP and the IDP to the block, every other name and IDP is as
    before, and the tables are consistent. *)
Theorem register_namespace_correct k p b :
  core_ok k -> unregistered k p b -> k_idp_counter k + 1 < 2 ^ 32 ->
  k_oom k = [] -> ns_lookup k (fb_name b) = None ->
  exists k', register_fblock_namespace p k = Ret 0 k' /\ core_ok k' /\
    let idp := k_idp_counter k + 1 in
    fbl_lookup k idp = 0 /\
    k_fblocks k' = <[p := with_idp idp b]> (k_fblocks k) /\
    resolve k' (fb_name b) = p /\
    (forall i, fbl_lookup k' i = if decide (i = idp) then p else fbl_lookup k i) /\
    (forall n, n <> fb_name b -> resolve k' n = resolve k n).
Proof.
  intros Hk Hp Hlt Hoom HN. pose proof (core_counter k Hk) as Hc.
  pose proof (register_namespace_wp k p b Hk Hp Hlt) as Hw.
  apply wp_run in Hw as (r & k' & Hrun & Hres).
  assert (Hfr : fbl_lookup k (k_idp_counter k + 1) = 0) by (apply core_fresh_idp; [done|lia]).
  destruct (block_registered_ok _ _ _ _ _ Hres Hoom HN) as (-> & _ & (Hf & _ & Hl) & Hk' & Hn).
  exists k'. do 4 (split; [done|]).
  assert (Hne : forall n, resolve k' n = fbl_lookup k' (default IDP_UNKNOWN (ns_lookup k' n))) by done.
  split; [rewrite Hne, Hn, decide_True by done; simpl; by rewrite Hl, decide_True|].
  split; [done|]. intros n Hnn. rewrite Hne, Hn, decide_False by done. rewrite Hl.
  rewrite decide_False; [done|]. intros E. destruct (ns_lookup k n) as [i|] eqn:Ei; simpl in E.
  - destruct (core_name k Hk n i Ei) as (b' & H1 & _). by rewrite E in H1.
  - unfold IDP_UNKNOWN, IDP_EXIT_PPE in E. lia.
Qed.

(** registering a block under a name that is taken returns [-EEXIST] and
    leaves the namespace alone, but the block stays in the IDP table under
    the IDP it was given: the error path does not take it out again. *)
Theorem register_namespace_clash k p b :
  core_ok k -> unregistered k p b -> k_idp_counter k + 1 < 2 ^ 32 ->
  k_oom k = [] -> ns_lookup k (fb_name b) <> None ->
  exists k', register_fblock_namespace p k = Ret (- EEXIST) k' /\
    (forall n, ns_lookup k' n = ns_lookup k n) /\
    fbl_lookup k' (k_idp_counter k + 1) = p.
Proof.
  intros Hk Hp Hlt Hoom HN.
  pose proof (register_namespace_wp k p b Hk Hp Hlt) as Hw.
  apply wp_run in Hw as (r & k' & Hrun & Hres).
  destruct Hres as (_ & _ & [(-> & ? & _)|[([[-> ?]|(? & ? & ?)] & (_ & _ & Hl) & _ & Hn)|(_ & ? & _)]]); try done.
  exists k'. split; [done|]. split; [done|]. by rewrite Hl, decide_True.
Qed.

(** looking a block up by name finds the registered block with that
    name, and no other, and takes one reference to it; a name that is not
    registered gives NULL and changes nothing. *)
Theorem search_fblock_n_correct k name :
  core_ok k -> cstr_ok name ->
  match ns_lookup k name with
  | None => search_fblock_n (Some name) k = Ret 0 k
  | Some idp => exists p b,
      search_fblock_n (Some name) k = Ret p (upd_fblocks <[p := bump 1 b]> k) /\
      p <> 0 /\ registered k p b /\ fb_name b = name /\ fb_idp b = idp
  end.
Proof.
  intros Hk Hn. rewrite search_n_run by done. unfold resolve.
  destruct (ns_lookup k name) as [idp|] eqn:Hl; simpl.
  - destruct (core_name k Hk name idp Hl) as (b & Hp & Hb & Hname).
    assert (Hr : resolve k name = fbl_lookup k idp) by (unfold resolve; by rewrite Hl).
    destruct (resolve_registered k name b Hk) as [_ Hreg]; rewrite ?Hr; try done.
    rewrite Hr in Hreg. exists (fbl_lookup k idp), b. unfold got.
    destruct (Z.eqb_spec (fbl_lookup k idp) 0); [done|].
    unfold upd_fblocks. rewrite (insert_alter (bump 1) _ _ b Hb).
    repeat (split; [done|]). pose proof (reg_name _ _ _ Hreg) as E. rewrite Hname, Hl in E.
    by injection E.
  - destruct (Z.eq_dec (fbl_lookup k IDP_UNKNOWN) 0) as [->|E]; [done|].
    destruct (core_fbl k Hk IDP_UNKNOWN E) as [? _]. unfold IDP_UNKNOWN, IDP_EXIT_PPE in *. lia.
Qed.

(** removing a registered block from the tables makes its name and its
    IDP unknown, keeps every other name and IDP, leaves all blocks alive,
    and hands the namespace element to a grace period. *)
Theorem unregister_namespace_correct `{!FblockOps} k p b :
  core_ok k -> registered k p b ->
  exists k', unregister_fblock_namespace_no_rcu p k = Ret tt k' /\
    block_unregistered p b k k' /\ resolve k' (fb_name b) = 0.
Proof.
  intros Hk Hr. apply wp_run_unit. apply (unregister_namespace_wp k p b); [done..|].
  intros k' Hu _. wp_steps. split; [done|]. destruct Hu as (_ & _ & _ & Hl & Hn & _).
  unfold resolve. rewrite Hn, decide_True by done. simpl. rewrite Hl.
  case_decide; [done|]. destruct (Z.eq_dec (fbl_lookup k IDP_UNKNOWN) 0) as [|E]; [done|].
  destruct (core_fbl k Hk IDP_UNKNOWN E) as [? _]. unfold IDP_UNKNOWN, IDP_EXIT_PPE in *. lia.
Qed.

(** registering a block under a free name and unregistering it again
    brings both tables back to what they were. *)
Theorem register_unregister_roundtrip `{!FblockOps} k p b :
  core_ok k -> unregistered k p b -> k_idp_counter k + 1 < 2 ^ 32 ->
  k_oom k = [] -> ns_lookup k (fb_name b) = None ->
  exists k', (register_fblock_namespace p;; unregister_fblock_namespace_no_rcu p) k = Ret tt k' /\
    core_ok k' /\ (forall n, ns_lookup k' n = ns_lookup k n) /\
    (forall i, fbl_lookup k' i = fbl_lookup k i).
Proof.
  intros Hk Hp Hlt Hoom HN. apply wp_run_unit. wp_step.
  pose proof (core_counter k Hk) as Hc.
  eapply wp_mono; [by apply register_namespace_wp|]. simpl.
  intros r k1 Hres.
  destruct (block_registered_ok _ _ _ _ _ Hres Hoom HN) as (-> & _ & (Hf & _ & Hl) & Hk1 & Hn).
  apply (unregister_namespace_wp k1 p (with_idp (k_idp_counter k + 1) b)); [done| |].
  { split; simpl; [by rewrite Hf, lookup_insert_eq|by rewrite Hl, decide_True|].
    by rewrite Hn, decide_True. }
  intros k' (Hk' & _ & _ & Hl' & Hn' & _) _. wp_steps. split; [done|]. simpl in *. split.
  - intros n. rewrite Hn', Hn. case_decide as E; [by rewrite E|done].
  - intros i. rewrite Hl', Hl. case_decide as E; [|done].
    symmetry. apply core_fresh_idp; [done|lia].
Qed.

(** remapping a name changes the IDP of that name and of no other; an
    unknown name gives [-ENOENT] and changes nothing. *)
Theorem change_mapping_correct k name new :
  ns_ok k -> cstr_ok name ->
  exists r k', change_fblock_namespace_mapping name new k = Ret r k' /\ ns_ok k' /\
    match ns_lookup k name with
    | None => r = - ENOENT /\ k' = k
    | Some _ => r = 0 /\ get_fblock_namespace_mapping name k' = Ret new k' /\
        forall n, n <> name -> ns_lookup k' n = ns_lookup k n
    end.
Proof.
  intros Hns Hn. pose proof (change_mapping_wp k name new Hns Hn) as Hw.
  apply wp_run in Hw as (r & k' & Hrun & Hf & Hns' & Hres). exists r, k'.
  do 2 (split; [done|]). destruct (ns_lookup k name) as [i|]; [|done].
  destruct Hres as [-> Hl]. split; [done|]. split; [|intros n ?; by rewrite Hl, decide_False].
  unfold get_fblock_namespace_mapping. erewrite bind_run by reflexivity.
  erewrite bind_run; [|apply get_mapping_run; [by apply (ns_ok_ext k')|done]].
  erewrite bind_run by reflexivity. unfold ret.
  rewrite (ns_lookup_ext k') by done. rewrite Hl, decide_True by done. by destruct k'.
Qed.

(** C7: as long as the counter stays below 2^32, the IDPs handed out are
    pairwise different, larger than all earlier ones and never
    [IDP_UNKNOWN]; the block that takes the counter to 2^32 is given
    [IDP_UNKNOWN]. *)
Theorem idps_distinct k n :
  0 <= k_idp_counter k -> k_idp_counter k + Z.of_nat n < 2 ^ 32 ->
  exists l k', idps n k = Ret l k' /\ NoDup l /\ IDP_UNKNOWN ∉ l /\
    length l = n /\ Forall (fun i => k_idp_counter k < i <= k_idp_counter k + Z.of_nat n) l /\
    (k_idp_counter k' = 2 ^ 32 - 1 ->
     exists k'', provide_new_fblock_idp k' = Ret IDP_UNKNOWN k'').
Proof.
  intros Hlo Hhi. destruct (idps_run n k) as [k' Hk']; [lia..|].
  assert (E : ((fun j => u32 (k_idp_counter k + 1 + Z.of_nat j)) <$> seq 0 n) =
              ((fun j => k_idp_counter k + 1 + Z.of_nat j) <$> seq 0 n)).
  { apply list_fmap_ext. intros i j Hj. apply lookup_seq in Hj. apply u32_small. lia. }
  rewrite E in Hk'. eexists _, k'. split; [exact Hk'|].
  assert (HF : Forall (fun i => k_idp_counter k < i <= k_idp_counter k + Z.of_nat n)
                 ((fun j => k_idp_counter k + 1 + Z.of_nat j) <$> seq 0 n)).
  { apply Forall_fmap, Forall_seq. simpl. lia. }
  split; [apply NoDup_fmap_2; [intros ? ? ?; lia|apply NoDup_seq]|].
  split; [|split; [by rewrite length_fmap, length_seq|split; [done|]]].
  - rewrite Forall_forall in HF. intros Hin. specialize (HF _ Hin).
    unfold IDP_UNKNOWN, IDP_EXIT_PPE in HF. lia.
  - intros Hw. eexists. unfold provide_new_fblock_idp.
    erewrite bind_run by reflexivity. erewrite bind_run by reflexivity.
    unfold ret. simpl. by rewrite Hw.
Qed.
End claims.
