(* ===== verification/FblockLife.v ===== *)
(** * References, options and migration of functional blocks

    What [get_fblock] and [put_fblock] do to a block, the parsing of option
    strings, and the two migrations of src/xt_fblock.c that a replacement of a
    block is made of. *)
From Stdlib Require Import ZArith Lia.
From stdpp Require Import base gmap numbers countable list.
From S2P Require Import Prelude CString CritbitTree NameMap Types Kernel Fblock FblockNs LinkedList.

Local Open Scope Z_scope.
Local Open Scope kernel_scope.

(** A reference count far enough from both ends of an [int] for the few
    references an operation takes and gives back. *)
Definition ref_ok (b : fblock) : Prop := 0 < fb_refcnt b < 2 ^ 31 - 16.

Lemma bump_back b : ref_ok b -> bump (-1) (bump 1 b) = b.
Proof.
  intros Hr. unfold ref_ok in Hr. unfold bump. simpl. rewrite (s32_small (_ + 1)) by lia.
  rewrite s32_small by lia. destruct b. simpl in *. unfold with_refcnt. simpl. f_equal. lia.
Qed.

Lemma bump_refcnt d b : - 16 <= d <= 16 -> ref_ok b -> fb_refcnt (bump d b) = fb_refcnt b + d.
Proof. intros Hd Hr. unfold ref_ok in Hr. unfold bump. simpl. apply s32_small. lia. Qed.

(** ** Options *)

(** The option string is cut at its first '='. *)
Lemma opt_split_spec s :
  match opt_split s with
  | Some (key, val) => s = key ++ 61 :: val /\ 61 ∉ key
  | None => 61 ∉ s
  end.
Proof.
  induction s as [|c s IH]; simpl; [set_solver|]. destruct (Z.eqb_spec c 61) as [->|Hc].
  - split; [done|set_solver].
  - destruct (opt_split s) as [[key val]|].
    + destruct IH as [-> Hk]. split; [done|set_solver].
    + set_solver.
Qed.

Lemma opt_split_app key val : 61 ∉ key -> opt_split (key ++ 61 :: val) = Some (key, val).
Proof.
  induction key as [|c key IH]; intros Hk; simpl; [done|].
  destruct (Z.eqb_spec c 61) as [->|_]; [set_solver|]. by rewrite IH by set_solver.
Qed.

Section life.
Context `{Nm : NameMap, Ka : KernelApi, !FblockOps}.

(** ** [put_fblock] *)

Lemma put_alive_run k fb b :
  fb <> 0 -> k_fblocks k !! fb = Some b -> s32 (fb_refcnt b - 1) <> 0 ->
  put_fblock fb k = Ret tt (upd_fblocks <[fb := bump (-1) b]> k).
Proof.
  intros Hp Hb Hr. unfold put_fblock, mod_fb, get_fb, deref, set_fb, bind, upd.
  destruct (Z.eqb_spec fb 0); [done|]. rewrite Hb. simpl. rewrite lookup_insert_eq. simpl.
  destruct (Z.eqb_spec (s32 (fb_refcnt b - 1)) 0); [done|]. done.
Qed.

Lemma put_last_run k fb b fac :
  fb <> 0 -> k_fblocks k !! fb = Some b -> fb_refcnt b = 1 -> fb_factory b <> 0 ->
  k_factories k !! fb_factory b = Some fac -> fac_dtor_outside_rcu fac = None ->
  put_fblock fb k =
    Ret tt (upd_rcu (fun l => l ++ [Rcu_fblock fb]) (upd_fblocks <[fb := bump (-1) b]> k)).
Proof.
  intros Hp Hb Hr Hf Hfac Ho. unfold put_fblock, mod_fb, get_fb, deref, set_fb, bind, upd.
  destruct (Z.eqb_spec fb 0); [done|]. rewrite Hb. simpl. rewrite lookup_insert_eq. simpl.
  rewrite Hr. simpl. destruct (Z.eqb_spec (fb_factory b) 0); [done|]. simpl. rewrite Hfac, Ho. simpl.
  unfold call_rcu, bump, upd. by rewrite Hr.
Qed.

(** A block without a factory is never handed to a grace period. *)
Lemma put_unowned_run k fb b :
  fb <> 0 -> k_fblocks k !! fb = Some b -> fb_factory b = 0 ->
  put_fblock fb k = Ret tt (upd_fblocks <[fb := bump (-1) b]> k).
Proof.
  intros Hp Hb Hf. unfold put_fblock, mod_fb, get_fb, deref, set_fb, bind, upd.
  destruct (Z.eqb_spec fb 0); [done|]. rewrite Hb. simpl. rewrite lookup_insert_eq. simpl.
  rewrite Hf. simpl. by destruct (negb _).
Qed.

Lemma wp_put_alive k fb b (Q : unit -> kernel -> Prop) :
  fb <> 0 -> k_fblocks k !! fb = Some b -> s32 (fb_refcnt b - 1) <> 0 ->
  Q tt (upd_fblocks <[fb := bump (-1) b]> k) -> wp (put_fblock fb) Q k.
Proof. intros. eapply wp_of_run; [by apply put_alive_run|done]. Qed.

Lemma wp_get_ref k fb b (Q : unit -> kernel -> Prop) :
  fb <> 0 -> k_fblocks k !! fb = Some b ->
  Q tt (upd_fblocks <[fb := bump 1 b]> k) -> wp (get_fblock fb) Q k.
Proof. intros. eapply wp_of_run; [by apply get_fblock_run|done]. Qed.

Lemma wp_get_fb k fb b (Q : fblock -> kernel -> Prop) :
  fb <> 0 -> k_fblocks k !! fb = Some b -> Q b k -> wp (get_fb fb) Q k.
Proof. apply wp_deref. Qed.

Lemma wp_spin_lock k fb b (Q : unit -> kernel -> Prop) :
  fb <> 0 -> k_fblocks k !! fb = Some b -> fb_lock b = false ->
  Q tt (upd_fblocks <[fb := with_lock true b]> k) -> wp (spin_lock fb) Q k.
Proof.
  intros Hp Hb Hl HQ. unfold spin_lock. wp_step. eapply wp_get_fb; [done..|]. by rewrite Hl.
Qed.

(** ** Lists of notifiers *)

Definition nlist : gmap addr fblock_notifier -> addr -> list addr -> Prop := linked fn_next.

(** ** [fblock_update_selfref] *)

Definition set_self (self : addr) (n : fblock_notifier) : fblock_notifier :=
  Notifier self (fn_call n) (fn_priority n) (fn_next n) (fn_remote n).

Definition set_selfs (self : addr) (l : list addr) (m : gmap addr fblock_notifier) :
    gmap addr fblock_notifier :=
  foldr (fun x m => alter (set_self self) x m) m l.

Lemma nlist_alter_self m a l self x : nlist m a l -> nlist (alter (set_self self) x m) a l.
Proof. by apply linked_alter. Qed.

Lemma set_selfs_alter self l x m :
  alter (set_self self) x (set_selfs self l m) = set_selfs self l (alter (set_self self) x m).
Proof.
  induction l as [|y l IH]; simpl; [done|]. rewrite <- IH.
  destruct (decide (x = y)) as [->|]; [done|]. by apply partial_alter_partial_alter_ne.
Qed.

Lemma insert_alter_n (f : fblock_notifier -> fblock_notifier) (m : gmap addr fblock_notifier) x n :
  m !! x = Some n -> <[x := f n]> m = alter f x m.
Proof.
  intros Hn. apply map_eq. intros y. destruct (decide (x = y)) as [<-|].
  - by rewrite lookup_insert_eq, lookup_alter_eq, Hn.
  - by rewrite lookup_insert_ne, lookup_alter_ne.
Qed.

Lemma upd_notifs_notifs f g k : upd_notifs f (upd_notifs g k) = upd_notifs (fun m => f (g m)) k.
Proof. done. Qed.

(** The loop ends and every notifier of the list belongs to [self]. *)
Lemma update_selfref_run self l : forall fuel head k,
  nlist (k_notifs k) head l -> (length l < fuel)%nat ->
  fblock_update_selfref fuel head self k = Ret tt (upd_notifs (set_selfs self l) k).
Proof.
  induction l as [|x l IH]; intros [|fuel] head k Hl Hf; simpl in *; try lia.
  - subst head. simpl. unfold ret. f_equal. by destruct k.
  - destruct Hl as (-> & Hx & n & Hn & Hl). destruct (Z.eqb_spec x 0); [done|].
    unfold bind, deref, upd. destruct (Z.eqb_spec x 0); [done|]. rewrite Hn.
    change (Notifier self _ _ _ _) with (set_self self n). rewrite IH.
    + f_equal. unfold upd_notifs. simpl. f_equal.
      rewrite (insert_alter_n (set_self self) _ _ _ Hn). by rewrite set_selfs_alter.
    + simpl. rewrite (insert_alter_n (set_self self) _ _ _ Hn). by apply nlist_alter_self.
    + lia.
Qed.

Lemma nlist_set_selfs m a l self l' : nlist m a l -> nlist (set_selfs self l' m) a l.
Proof. intros Hl. induction l'; simpl; [done|]. by apply nlist_alter_self. Qed.

Lemma size_set_selfs self l m : size (set_selfs self l m) = size m.
Proof.
  rewrite <- !size_dom. f_equal. induction l as [|x l IH]; simpl; [done|].
  by rewrite dom_alter_L.
Qed.
End life.

(** Lookups in a table after updates of two different addresses. *)
Ltac fb_lookup :=
  simpl; repeat first [rewrite lookup_insert_eq | rewrite lookup_insert_ne by done];
  first [eassumption | reflexivity].

(** Step through operations on blocks whose entries are known. *)
Ltac s32_norm :=
  repeat match goal with
  | |- context [s32 ?x] =>
      lazymatch x with
      | context [s32 _] => fail
      | _ => rewrite (s32_small x) by lia
      end
  end.
Ltac refs := unfold ref_ok, bump in *; simpl in *; s32_norm; lia.
Ltac fb_step :=
  lazymatch goal with
  | |- wp (bind _ _) _ _ => apply wp_bind
  | |- wp (mod_fb _ _) _ _ => eapply wp_mod_fb; [done|fb_lookup|]
  | |- wp (spin_unlock _) _ _ => eapply wp_mod_fb; [done|fb_lookup|]
  | |- wp (get_fb _) _ _ => eapply wp_get_fb; [done|fb_lookup|]
  | |- wp (get_fblock _) _ _ => eapply wp_get_ref; [done|fb_lookup|]
  | |- wp (put_fblock _) _ _ => eapply wp_put_alive; [done|fb_lookup|refs|]
  | |- wp (spin_lock _) _ _ => eapply wp_spin_lock; [done|fb_lookup|try done|]
  | |- wp (ret _) _ _ => apply wp_ret
  | |- wp (get _) _ _ => apply wp_get
  | |- wp (upd _) _ _ => apply wp_upd
  end; cbn beta.
Ltac fb_steps := repeat fb_step.

(** Equality of two tables that differ at the addresses [a] and [b] only. *)
Ltac map_at2 a b :=
  apply map_eq; intros ?x; destruct (decide (a = x)) as [<-|];
  [|destruct (decide (b = x)) as [<-|]];
  repeat first [rewrite lookup_insert_eq | rewrite lookup_insert_ne by done].

Section migrate.
Context `{Nm : NameMap, Ka : KernelApi, !FblockOps}.

Lemma with_refcnt_same b : with_refcnt (fb_refcnt b) b = b.
Proof. by destruct b. Qed.

(** ** [fblock_migrate_p]: the private data change places, nothing else. *)
Lemma migrate_p_run k dst src d s :
  dst <> 0 -> src <> 0 -> dst <> src ->
  k_fblocks k !! dst = Some d -> k_fblocks k !! src = Some s -> ref_ok d -> ref_ok s ->
  fblock_migrate_p dst src k =
    Ret tt (upd_fblocks (fun m =>
      <[dst := with_private_data (fb_private_data s) d]>
      (<[src := with_private_data (fb_private_data d) s]> m)) k).
Proof.
  intros Hd0 Hs0 Hne Hd Hs Rd Rs. assert (Hne' : src <> dst) by done.
  assert (Hw : wp (fblock_migrate_p dst src) (fun _ k' => k' = upd_fblocks (fun m =>
      <[dst := with_private_data (fb_private_data s) d]>
      (<[src := with_private_data (fb_private_data d) s]> m)) k) k).
  { unfold fblock_migrate_p. fb_steps. kernel_eq.
    map_at2 dst src; [| |done]; f_equal; unfold bump, with_refcnt, with_private_data, ref_ok in *;
      simpl; s32_norm; f_equal; lia. }
  apply wp_run_unit in Hw as (k' & -> & ->). done.
Qed.

(** ** [fblock_migrate_r]: [dst] takes over the identity of [src]. *)

(** [dst] after it took over from [src]: name, IDP, both ends of the
    subscriptions and the references are those of [src]; code, factory and
    private data stay its own. *)
Definition taken_over (d s : fblock) : fblock :=
  Fblock (fbname (fb_name s)) (fb_private_data d) (fb_netfb_rx d) (fb_event_rx d) (fb_factory d)
    (fb_notifiers s) (fb_others s) (fb_refcnt s) (fb_idp s) false.

(** [src] afterwards: it is left with [dst]'s subscriptions and references. *)
Definition stripped (d s : fblock) : fblock :=
  Fblock (fb_name s) (fb_private_data s) (fb_netfb_rx s) (fb_event_rx s) (fb_factory s)
    (fb_notifiers d) (fb_others d) (fb_refcnt d) (fb_idp s) false.

Record migratable (k : kernel) (dst src : addr) (d s : fblock) (ld ls : list addr) : Prop := {
  mig_ne : dst <> 0 /\ src <> 0 /\ dst <> src;
  mig_live : k_fblocks k !! dst = Some d /\ k_fblocks k !! src = Some s;
  mig_refs : ref_ok d /\ ref_ok s;
  mig_lock : fb_lock d = false /\ fb_lock s = false;
  mig_nlist : nlist (k_notifs k) (fb_notifiers d) ld /\ nlist (k_notifs k) (fb_notifiers s) ls;
}.

Lemma wp_update_selfref self l fuel head k (Q : unit -> kernel -> Prop) :
  nlist (k_notifs k) head l -> (length l < fuel)%nat ->
  Q tt (upd_notifs (set_selfs self l) k) -> wp (fblock_update_selfref fuel head self) Q k.
Proof. intros. eapply wp_of_run; [by apply update_selfref_run|done]. Qed.

Lemma migrate_r_run k dst src d s ld ls :
  migratable k dst src d s ld ls ->
  fblock_migrate_r dst src k =
    Ret tt (upd_notifs (fun m => set_selfs src ld (set_selfs dst ls m))
             (upd_fblocks (fun m => <[dst := taken_over d s]> (<[src := stripped d s]> m)) k)).
Proof.
  intros [(Hd0 & Hs0 & Hne) [Hd Hs] [Rd Rs] [Ld Ls] [Nd Ns]].
  assert (Hne' : src <> dst) by done.
  match goal with |- _ = Ret tt ?k' =>
    assert (Hw : wp (fblock_migrate_r dst src) (fun _ k1 => k1 = k') k) end.
  { unfold fblock_migrate_r, notifs_fuel. fb_steps.
    eapply wp_update_selfref; [exact Ns|simpl; apply linked_fuel in Ns; lia|]. fb_steps.
    eapply wp_update_selfref; [apply nlist_set_selfs, Nd|simpl; apply linked_fuel in Nd; lia|].
    fb_steps. kernel_eq. map_at2 dst src; [| |done]; f_equal;
      unfold bump, with_refcnt, taken_over, stripped, ref_ok in *; simpl; s32_norm; f_equal; lia. }
  apply wp_run_unit in Hw as (k' & -> & ->). done.
Qed.
End migrate.
