(* ===== verification/FblockBind.v ===== *)
(** * Subscriptions and bindings of functional blocks

    Binding [fb1] on top of [fb2] points the egress port of [fb1] at [fb2] and
    the ingress port of [fb2] at [fb1], and subscribes each to the other.  What
    the blocks' event handlers have to do for that is the class [EventLaws];
    the theorems here are proved against it, and Modules.v discharges it. *)
From Stdlib Require Import ZArith Lia.
From stdpp Require Import base gmap numbers countable list.
From S2P Require Import Prelude CString CritbitTree NameMap Types Kernel Fblock FblockNs FblockLife.

Local Open Scope Z_scope.
Local Open Scope kernel_scope.

(** ** What event handlers promise

    [ev_port pr m a dir] is the IDP the port [dir] is bound to on every CPU, in
    the private data of module [m] at [a]; [ev_set] rebinds it.  [ev_named] is
    what the handler's message needs to name the block's type. *)
Class EventLaws `{Ops : FblockOps} := {
  ev_port : gmap addr priv -> modid -> addr -> path_type -> option Z;
  ev_set : modid -> addr -> path_type -> Z -> gmap addr priv -> gmap addr priv;
  ev_exclusive : modid -> bool;
  ev_named : modid -> gmap addr fblock_factory -> addr -> Prop;
  ev_bind k fb b m dir idp :
    fb <> 0 -> k_fblocks k !! fb = Some b ->
    ev_named m (k_factories k) (fb_factory b) ->
    ev_port (k_privs k) m (fb_private_data b) dir = Some IDP_UNKNOWN ->
    mod_event_rx m (own_notifier fb) (FBLOCK_BIND_IDP dir idp) k =
      Ret NOTIFY_OK (upd_privs (ev_set m (fb_private_data b) dir idp) k);
  ev_unbind k fb b m dir idp :
    fb <> 0 -> k_fblocks k !! fb = Some b ->
    ev_named m (k_factories k) (fb_factory b) ->
    ev_port (k_privs k) m (fb_private_data b) dir = Some idp ->
    mod_event_rx m (own_notifier fb) (FBLOCK_UNBIND_IDP dir idp) k =
      Ret NOTIFY_OK (upd_privs (ev_set m (fb_private_data b) dir IDP_UNKNOWN) k);
  ev_busy k fb b m dir idp old :
    ev_exclusive m = true -> fb <> 0 -> k_fblocks k !! fb = Some b ->
    ev_port (k_privs k) m (fb_private_data b) dir = Some old -> old <> IDP_UNKNOWN ->
    mod_event_rx m (own_notifier fb) (FBLOCK_BIND_IDP dir idp) k = Ret NOTIFY_BAD k;
  ev_unbound k fb b m dir idp old :
    ev_exclusive m = true -> fb <> 0 -> k_fblocks k !! fb = Some b ->
    ev_port (k_privs k) m (fb_private_data b) dir = Some old -> old <> idp ->
    mod_event_rx m (own_notifier fb) (FBLOCK_UNBIND_IDP dir idp) k = Ret NOTIFY_BAD k;
  ev_port_set pr m a dir dir' idp old :
    ev_port pr m a dir = Some old ->
    ev_port (ev_set m a dir idp pr) m a dir' =
      if decide (dir = dir') then Some idp else ev_port pr m a dir';
  ev_port_other pr m m' a a' dir dir' idp :
    a <> a' -> ev_port (ev_set m a dir idp pr) m' a' dir' = ev_port pr m' a' dir';
  ev_set_back pr m a dir old new :
    ev_port pr m a dir = Some old -> ev_set m a dir old (ev_set m a dir new pr) = pr;
  ev_set_comm pr m m' a a' dir dir' i i' :
    a <> a' -> ev_set m a dir i (ev_set m' a' dir' i' pr) = ev_set m' a' dir' i' (ev_set m a dir i pr);
}.

Section bind.
Context `{Nm : NameMap, Ka : KernelApi, !FblockOps, !EventLaws}.

(** ** Subscribing *)

(** The notifier a subscription of [b] at [us] to [r] creates. *)
Definition subscription (us : addr) (b r : fblock) : fblock_notifier :=
  Notifier us (fb_event_rx b) 0 (fb_notifiers b) (fb_idp r).

Definition subscribed (us remote : addr) (b r : fblock) (c : chain) (k : kernel) : kernel :=
  upd_subs <[fb_others r := (chain_register c (k_next k)).2]>
    (upd_notifs <[k_next k := subscription us b r]>
      (upd_fblocks (fun m => <[us := with_notifiers (k_next k) (bump 1 b)]> (<[remote := bump 1 r]> m))
        (upd_next (Z.add 64) k))).

Lemma subscribe_run k us remote b r c :
  us <> 0 -> remote <> 0 -> us <> remote ->
  k_fblocks k !! us = Some b -> k_fblocks k !! remote = Some r -> fb_lock b = false ->
  fb_others r <> 0 -> k_subs k !! fb_others r = Some c ->
  k_next k <> 0 -> k_oom k = [] ->
  subscribe_to_remote_fblock us remote k = Ret 0 (subscribed us remote b r c k).
Proof.
  intros Hu0 Hr0 Hne Hu Hr Hl Ho Hc Hn Hoom. assert (Hne' : remote <> us) by done.
  assert (Hw : wp (subscribe_to_remote_fblock us remote)
                 (fun v k' => v = 0 /\ k' = subscribed us remote b r c k) k).
  { unfold subscribe_to_remote_fblock. fb_step.
    apply wp_kmalloc; [intros _|by rewrite Hoom].
    destruct (Z.eqb_spec (k_next k) 0); [done|]. simpl. fb_steps.
    unfold fblock_register_foreign_subscriber. fb_steps.
    eapply wp_deref; [simpl; done|simpl; exact Hc|]. simpl.
    pose proof (chain_register_ok c (k_next k)) as Hok.
    destruct (chain_register c (k_next k)) as [v c'] eqn:Ec. simpl in Hok. subst v. fb_steps.
    split; [done|]. unfold subscribed. rewrite Ec. simpl. kernel_eq.
    - map_at2 us remote; try done. f_equal. unfold with_notifiers, bump, with_refcnt. simpl.
      by rewrite Hl.
    - by rewrite insert_insert_eq.
    - by rewrite Hoom. }
  apply wp_run_val in Hw as (k' & -> & ->). done.
Qed.

(** ** Unsubscribing *)

(** The subscription that was made last: it leaves [us]'s list, and one
    reference on each side is dropped.  The notifier stays where it is, also
    in the chain of [remote]. *)
Lemma unsubscribe_head_run k us remote b r n :
  us <> 0 -> remote <> 0 -> us <> remote ->
  k_fblocks k !! us = Some b -> k_fblocks k !! remote = Some r -> fb_lock b = false ->
  fb_notifiers b <> 0 -> k_notifs k !! fb_notifiers b = Some n -> fn_remote n = fb_idp r ->
  s32 (fb_refcnt b - 1) <> 0 -> s32 (fb_refcnt r - 1) <> 0 ->
  unsubscribe_from_remote_fblock us remote k =
    Ret tt (upd_fblocks (fun m => <[us := with_notifiers (fn_next n) (bump (-1) b)]>
                                  (<[remote := bump (-1) r]> m)) k).
Proof.
  intros Hu0 Hr0 Hne Hu Hr Hl Hn0 Hn Hrem Rb Rr. assert (Hne' : remote <> us) by done.
  match goal with |- _ = Ret tt ?k' =>
    assert (Hw : wp (unsubscribe_from_remote_fblock us remote) (fun _ k1 => k1 = k') k) end.
  { unfold unsubscribe_from_remote_fblock. fb_steps.
    destruct (Z.eqb_spec (fb_notifiers b) 0); [done|]. fb_steps. simpl.
    eapply wp_deref; [done|exact Hn|]. fb_steps.
    rewrite Hrem, Z.eqb_refl. simpl. fb_steps.
    kernel_eq. map_at2 us remote; try done. f_equal.
    unfold with_notifiers, bump, with_refcnt. simpl. by rewrite Hl. }
  apply wp_run_unit in Hw as (k' & -> & ->). done.
Qed.

(** ** Binding *)

(** Two different live blocks with everything a binding needs. *)
Record bindable (k : kernel) (fb1 fb2 : addr) (b1 b2 : fblock) (m1 m2 : modid) (c1 c2 : chain) :
    Prop := {
  bnd_ne : fb1 <> 0 /\ fb2 <> 0 /\ fb1 <> fb2;
  bnd_live : k_fblocks k !! fb1 = Some b1 /\ k_fblocks k !! fb2 = Some b2;
  bnd_refs : ref_ok b1 /\ ref_ok b2;
  bnd_lock : fb_lock b1 = false /\ fb_lock b2 = false;
  bnd_rx : fb_event_rx b1 = Some m1 /\ fb_event_rx b2 = Some m2;
  bnd_fac1 : ev_named m1 (k_factories k) (fb_factory b1);
  bnd_fac2 : ev_named m2 (k_factories k) (fb_factory b2);
  bnd_priv : fb_private_data b1 <> fb_private_data b2;
  bnd_others : fb_others b1 <> 0 /\ fb_others b2 <> 0 /\ fb_others b1 <> fb_others b2;
  bnd_subs : k_subs k !! fb_others b1 = Some c1 /\ k_subs k !! fb_others b2 = Some c2;
  bnd_next : 0 < k_next k;
}.

(** The state after [fb1] was bound on top of [fb2]. *)
Definition bound (fb1 fb2 : addr) (b1 b2 : fblock) (m1 m2 : modid) (c1 c2 : chain) (k : kernel) :
    kernel :=
  let fn1 := k_next k in
  let fn2 := 64 + k_next k in
  upd_privs (fun pr => ev_set m2 (fb_private_data b2) TYPE_INGRESS (fb_idp b1)
                         (ev_set m1 (fb_private_data b1) TYPE_EGRESS (fb_idp b2) pr))
    (upd_subs (fun s => <[fb_others b1 := (chain_register c1 fn2).2]>
                          (<[fb_others b2 := (chain_register c2 fn1).2]> s))
      (upd_notifs (fun m => <[fn2 := subscription fb2 b2 b1]> (<[fn1 := subscription fb1 b1 b2]> m))
        (upd_fblocks (fun m => <[fb1 := with_notifiers fn1 (bump 3 b1)]>
                                 (<[fb2 := with_notifiers fn2 (bump 3 b2)]> m))
          (upd_next (Z.add 128) k)))).

Lemma wp_event k fb b m ev r k1 (Q : Z -> kernel -> Prop) :
  fb_event_rx b = Some m -> mod_event_rx m (own_notifier fb) ev k = Ret r k1 -> Q r k1 ->
  wp (call_event (fb_event_rx b) (own_notifier fb) ev) Q k.
Proof. intros Hm Hev HQ. rewrite Hm. by apply (wp_of_run _ _ _ _ _ Hev). Qed.

Lemma wp_subscribe k us remote b r c (Q : Z -> kernel -> Prop) :
  us <> 0 -> remote <> 0 -> us <> remote ->
  k_fblocks k !! us = Some b -> k_fblocks k !! remote = Some r -> fb_lock b = false ->
  fb_others r <> 0 -> k_subs k !! fb_others r = Some c ->
  k_next k <> 0 -> k_oom k = [] ->
  Q 0 (subscribed us remote b r c k) -> wp (subscribe_to_remote_fblock us remote) Q k.
Proof. intros. eapply wp_of_run; [by apply subscribe_run|done]. Qed.

Lemma bump_bump d e b : bump d (bump e b) = bump (e + d) b.
Proof.
  unfold bump, with_refcnt. simpl. rewrite s32_s32. f_equal. f_equal. lia.
Qed.

Lemma fblock_bind_run k fb1 fb2 b1 b2 m1 m2 c1 c2 :
  bindable k fb1 fb2 b1 b2 m1 m2 c1 c2 -> k_oom k = [] ->
  ev_port (k_privs k) m1 (fb_private_data b1) TYPE_EGRESS = Some IDP_UNKNOWN ->
  ev_port (k_privs k) m2 (fb_private_data b2) TYPE_INGRESS = Some IDP_UNKNOWN ->
  __fblock_bind fb1 fb2 k = Ret 0 (bound fb1 fb2 b1 b2 m1 m2 c1 c2 k).
Proof.
  intros [(H10 & H20 & Hne) [Hb1 Hb2] [R1 R2] [L1 L2] [X1 X2] F1 F2 Hpr
    (O1 & O2 & O12) [S1 S2] Hnext] Hoom P1 P2. assert (Hne' : fb2 <> fb1) by done.
  assert (Hw : wp (__fblock_bind fb1 fb2)
                 (fun v k' => v = 0 /\ k' = bound fb1 fb2 b1 b2 m1 m2 c1 c2 k) k).
  { unfold __fblock_bind. fb_steps.
    eapply wp_event; [exact X1|eapply ev_bind; [done|fb_lookup|exact F1|exact P1]|].
    simpl. fb_steps.
    eapply wp_event; [exact X2|eapply ev_bind; [done|fb_lookup|exact F2|]|].
    { simpl. by rewrite ev_port_other. }
    simpl. fb_steps.
    eapply wp_subscribe; [done|done|done|fb_lookup|fb_lookup|done|done|exact S2|simpl; lia|done|].
    simpl. fb_steps.
    eapply wp_subscribe; [done|done|done|fb_lookup|fb_lookup|done|exact O1| |simpl; lia|done|].
    { simpl. rewrite lookup_insert_ne by done. exact S1. }
    simpl. fb_steps. split; [done|]. unfold bound, subscribed. kernel_eq.
    - map_at2 fb1 fb2; try done; f_equal; unfold with_notifiers, bump, with_refcnt, ref_ok in *;
        simpl; s32_norm; f_equal; lia.
    - lia. }
  apply wp_run_val in Hw as (k' & -> & ->). done.
Qed.

(** ** Unbinding *)

Lemma wp_unsubscribe_head k us remote b r n (Q : unit -> kernel -> Prop) :
  us <> 0 -> remote <> 0 -> us <> remote ->
  k_fblocks k !! us = Some b -> k_fblocks k !! remote = Some r -> fb_lock b = false ->
  fb_notifiers b <> 0 -> k_notifs k !! fb_notifiers b = Some n -> fn_remote n = fb_idp r ->
  s32 (fb_refcnt b - 1) <> 0 -> s32 (fb_refcnt r - 1) <> 0 ->
  Q tt (upd_fblocks (fun m => <[us := with_notifiers (fn_next n) (bump (-1) b)]>
                                  (<[remote := bump (-1) r]> m)) k) ->
  wp (unsubscribe_from_remote_fblock us remote) Q k.
Proof. intros. eapply wp_of_run; [by apply unsubscribe_head_run|done]. Qed.

(** [fb1] is bound on top of [fb2], and that was the last subscription of
    both. *)
Record unbindable (k : kernel) (fb1 fb2 : addr) (b1 b2 : fblock) (m1 m2 : modid)
    (n1 n2 : fblock_notifier) : Prop := {
  ubd_ne : fb1 <> 0 /\ fb2 <> 0 /\ fb1 <> fb2;
  ubd_live : k_fblocks k !! fb1 = Some b1 /\ k_fblocks k !! fb2 = Some b2;
  ubd_refs : 3 < fb_refcnt b1 < 2 ^ 31 /\ 3 < fb_refcnt b2 < 2 ^ 31;
  ubd_lock : fb_lock b1 = false /\ fb_lock b2 = false;
  ubd_rx : fb_event_rx b1 = Some m1 /\ fb_event_rx b2 = Some m2;
  ubd_fac1 : ev_named m1 (k_factories k) (fb_factory b1);
  ubd_fac2 : ev_named m2 (k_factories k) (fb_factory b2);
  ubd_priv : fb_private_data b1 <> fb_private_data b2;
  ubd_port1 : ev_port (k_privs k) m1 (fb_private_data b1) TYPE_EGRESS = Some (fb_idp b2);
  ubd_port2 : ev_port (k_privs k) m2 (fb_private_data b2) TYPE_INGRESS = Some (fb_idp b1);
  ubd_head1 : fb_notifiers b1 <> 0 /\ k_notifs k !! fb_notifiers b1 = Some n1 /\ fn_remote n1 = fb_idp b2;
  ubd_head2 : fb_notifiers b2 <> 0 /\ k_notifs k !! fb_notifiers b2 = Some n2 /\ fn_remote n2 = fb_idp b1;
}.

Definition unbound (fb1 fb2 : addr) (b1 b2 : fblock) (m1 m2 : modid) (n1 n2 : fblock_notifier)
    (k : kernel) : kernel :=
  upd_privs (fun pr => ev_set m2 (fb_private_data b2) TYPE_INGRESS IDP_UNKNOWN
                         (ev_set m1 (fb_private_data b1) TYPE_EGRESS IDP_UNKNOWN pr))
    (upd_fblocks (fun m => <[fb1 := with_notifiers (fn_next n1) (bump (-3) b1)]>
                             (<[fb2 := with_notifiers (fn_next n2) (bump (-3) b2)]> m)) k).

Lemma fblock_unbind_run k fb1 fb2 b1 b2 m1 m2 n1 n2 :
  unbindable k fb1 fb2 b1 b2 m1 m2 n1 n2 ->
  __fblock_unbind fb1 fb2 k = Ret 0 (unbound fb1 fb2 b1 b2 m1 m2 n1 n2 k).
Proof.
  intros [(H10 & H20 & Hne) [Hb1 Hb2] [R1 R2] [L1 L2] [X1 X2] F1 F2 Hpr
    P1 P2 (N1 & M1 & E1) (N2 & M2 & E2)]. assert (Hne' : fb2 <> fb1) by done.
  assert (Hw : wp (__fblock_unbind fb1 fb2)
                 (fun v k' => v = 0 /\ k' = unbound fb1 fb2 b1 b2 m1 m2 n1 n2 k) k).
  { unfold __fblock_unbind. fb_steps.
    eapply wp_event; [exact X1|eapply ev_unbind; [done|fb_lookup|exact F1|exact P1]|].
    simpl. fb_steps.
    eapply wp_event; [exact X2|eapply ev_unbind; [done|fb_lookup|exact F2|]|].
    { simpl. by rewrite ev_port_other. }
    simpl. fb_steps.
    eapply wp_unsubscribe_head;
      [done|done|done|fb_lookup|fb_lookup|done|done|exact M1|done|refs|refs|].
    fb_steps.
    eapply wp_unsubscribe_head;
      [done|done|done|fb_lookup|fb_lookup|done|done|exact M2|done|refs|refs|].
    fb_steps. split; [done|]. kernel_eq.
    map_at2 fb1 fb2; try done; f_equal; unfold with_notifiers, bump, with_refcnt;
      simpl; s32_norm; f_equal; lia. }
  apply wp_run_val in Hw as (k' & -> & ->). done.
Qed.

Lemma bound_unbindable k fb1 fb2 b1 b2 m1 m2 c1 c2 :
  bindable k fb1 fb2 b1 b2 m1 m2 c1 c2 ->
  ev_port (k_privs k) m1 (fb_private_data b1) TYPE_EGRESS = Some IDP_UNKNOWN ->
  ev_port (k_privs k) m2 (fb_private_data b2) TYPE_INGRESS = Some IDP_UNKNOWN ->
  unbindable (bound fb1 fb2 b1 b2 m1 m2 c1 c2 k) fb1 fb2
    (with_notifiers (k_next k) (bump 3 b1)) (with_notifiers (64 + k_next k) (bump 3 b2)) m1 m2
    (subscription fb1 b1 b2) (subscription fb2 b2 b1).
Proof.
  intros [(H10 & H20 & Hne) [Hb1 Hb2] [R1 R2] [L1 L2] [X1 X2] F1 F2 Hpr
    (O1 & O2 & O12) [S1 S2] Hnext] P1 P2.
  split; simpl; try done; [split; fb_lookup| | | | |].
  - unfold ref_ok in *. rewrite !s32_small by lia. lia.
  - rewrite ev_port_other by done. by rewrite (ev_port_set _ _ _ _ _ _ _ P1), decide_True.
  - rewrite (ev_port_set _ _ _ _ _ _ IDP_UNKNOWN) by (by rewrite ev_port_other).
    by rewrite decide_True.
  - split; [lia|]. split; [|done]. rewrite lookup_insert_ne by lia. fb_lookup.
  - split; [lia|]. split; [|done]. fb_lookup.
Qed.

Lemma rebump fn d b : ref_ok b -> - 16 <= d <= 16 ->
  with_notifiers (fb_notifiers b) (bump (- d) (with_notifiers fn (bump d b))) = b.
Proof.
  intros R Hd. unfold ref_ok in R. destruct b. unfold with_notifiers, bump, with_refcnt. simpl in *.
  s32_norm. f_equal. lia.
Qed.

(** C8: binding [fb1] on top of [fb2] when both ports are free and memory
    lasts succeeds: the egress port of [fb1] is bound to [fb2]'s IDP and the
    ingress port of [fb2] to [fb1]'s on every CPU, the other ports are as
    they were, each block holds three more references and is subscribed to
    the other. *)
Theorem bind_correct k fb1 fb2 b1 b2 m1 m2 c1 c2 :
  bindable k fb1 fb2 b1 b2 m1 m2 c1 c2 -> k_oom k = [] ->
  ev_port (k_privs k) m1 (fb_private_data b1) TYPE_EGRESS = Some IDP_UNKNOWN ->
  ev_port (k_privs k) m2 (fb_private_data b2) TYPE_INGRESS = Some IDP_UNKNOWN ->
  exists k', __fblock_bind fb1 fb2 k = Ret 0 k' /\
    ev_port (k_privs k') m1 (fb_private_data b1) TYPE_EGRESS = Some (fb_idp b2) /\
    ev_port (k_privs k') m2 (fb_private_data b2) TYPE_INGRESS = Some (fb_idp b1) /\
    ev_port (k_privs k') m1 (fb_private_data b1) TYPE_INGRESS =
      ev_port (k_privs k) m1 (fb_private_data b1) TYPE_INGRESS /\
    ev_port (k_privs k') m2 (fb_private_data b2) TYPE_EGRESS =
      ev_port (k_privs k) m2 (fb_private_data b2) TYPE_EGRESS /\
    (forall m a dir, a <> fb_private_data b1 -> a <> fb_private_data b2 ->
       ev_port (k_privs k') m a dir = ev_port (k_privs k) m a dir) /\
    fb_refcnt <$> k_fblocks k' !! fb1 = Some (fb_refcnt b1 + 3) /\
    fb_refcnt <$> k_fblocks k' !! fb2 = Some (fb_refcnt b2 + 3) /\
    (exists s1 s2, k_subs k' !! fb_others b1 = Some s1 /\ k_subs k' !! fb_others b2 = Some s2 /\
       chain_members s1 ≡ₚ (64 + k_next k) :: chain_members c1 /\
       chain_members s2 ≡ₚ k_next k :: chain_members c2).
Proof.
  intros Hb Hoom P1 P2. eexists. split; [by apply fblock_bind_run|].
  destruct (bound_unbindable _ _ _ _ _ _ _ _ _ Hb P1 P2) as [_ _ _ _ _ _ _ _ Q1 Q2 _ _].
  destruct Hb as [(H10 & H20 & Hne) [Hb1 Hb2] [R1 R2] _ _ _ _ Hpr (O1 & O2 & O12) [S1 S2] _].
  split; [exact Q1|]. split; [exact Q2|]. simpl.
  split; [by rewrite ev_port_other, (ev_port_set _ _ _ _ _ _ _ P1) by done|].
  split; [by rewrite (ev_port_set _ _ _ _ _ _ IDP_UNKNOWN), ev_port_other; rewrite ?ev_port_other by done|].
  split; [intros m a dir Ha1 Ha2; by rewrite !ev_port_other by done|].
  unfold ref_ok in *.
  split; [rewrite lookup_insert_eq; simpl; by rewrite s32_small by lia|].
  split; [rewrite lookup_insert_ne, lookup_insert_eq by done; simpl; by rewrite s32_small by lia|].
  eexists _, _. rewrite lookup_insert_eq, lookup_insert_ne, lookup_insert_eq by done.
  do 2 (split; [done|]). split; apply chain_register_members.
Qed.

(** C9: binding and unbinding again restores every block (references and
    subscription lists included) and all private data; but the two
    subscriptions are not taken out of the chains they were registered in,
    and their notifiers stay allocated. *)
Theorem bind_unbind_roundtrip k fb1 fb2 b1 b2 m1 m2 c1 c2 :
  bindable k fb1 fb2 b1 b2 m1 m2 c1 c2 -> k_oom k = [] ->
  ev_port (k_privs k) m1 (fb_private_data b1) TYPE_EGRESS = Some IDP_UNKNOWN ->
  ev_port (k_privs k) m2 (fb_private_data b2) TYPE_INGRESS = Some IDP_UNKNOWN ->
  exists k', (__fblock_bind fb1 fb2;; __fblock_unbind fb1 fb2) k = Ret 0 k' /\
    k_fblocks k' = k_fblocks k /\ k_privs k' = k_privs k /\
    (exists s1 s2, k_subs k' !! fb_others b1 = Some s1 /\ k_subs k' !! fb_others b2 = Some s2 /\
       chain_members s1 ≡ₚ (64 + k_next k) :: chain_members c1 /\
       chain_members s2 ≡ₚ k_next k :: chain_members c2) /\
    is_Some (k_notifs k' !! k_next k) /\ is_Some (k_notifs k' !! (64 + k_next k)).
Proof.
  intros Hb Hoom P1 P2. eexists. split.
  { erewrite bind_run by (by apply fblock_bind_run).
    by apply fblock_unbind_run, bound_unbindable. }
  destruct Hb as [(H10 & H20 & Hne) [Hb1 Hb2] [R1 R2] _ _ _ _ Hpr (O1 & O2 & O12) [S1 S2] Hn].
  simpl. split; [|split; [|split]].
  - rewrite !(rebump _ 3) by (done || lia). map_at2 fb1 fb2; done.
  - rewrite (ev_set_comm _ m1 m2) by done. rewrite (ev_set_back _ m1) by (by rewrite ?P1).
    rewrite ev_set_back; done.
  - eexists _, _. rewrite lookup_insert_eq, lookup_insert_ne, lookup_insert_eq by done.
    do 2 (split; [done|]). split; apply chain_register_members.
  - rewrite lookup_insert_ne by lia. rewrite !lookup_insert_eq. eauto.
Qed.

(** a bind that finds the second port taken (by a block whose ports are
    exclusive) undoes the first half: it returns [-EBUSY] and the whole state
    is exactly what it was. *)
Theorem bind_rollback k fb1 fb2 b1 b2 m1 m2 c1 c2 old :
  bindable k fb1 fb2 b1 b2 m1 m2 c1 c2 -> ev_exclusive m2 = true ->
  ev_port (k_privs k) m1 (fb_private_data b1) TYPE_EGRESS = Some IDP_UNKNOWN ->
  ev_port (k_privs k) m2 (fb_private_data b2) TYPE_INGRESS = Some old -> old <> IDP_UNKNOWN ->
  fblock_bind fb1 fb2 k = Ret (- EBUSY) k.
Proof.
  intros [(H10 & H20 & Hne) [Hb1 Hb2] [R1 R2] [L1 L2] [X1 X2] F1 F2 Hpr
    (O1 & O2 & O12) [S1 S2] Hnext] Hex P1 P2 Hold. assert (Hne' : fb2 <> fb1) by done.
  assert (Hw : wp (fblock_bind fb1 fb2) (fun v k' => v = - EBUSY /\ k' = k) k).
  { unfold fblock_bind, __fblock_bind, rcu_read_lock, rcu_read_unlock. fb_steps.
    eapply wp_event; [exact X1|eapply ev_bind; [done|fb_lookup|exact F1|exact P1]|].
    simpl. fb_steps.
    eapply wp_event; [exact X2|eapply ev_busy; [done|done|fb_lookup| |exact Hold]|].
    { simpl. by rewrite ev_port_other. }
    simpl. fb_steps.
    eapply wp_event; [exact X1|eapply ev_unbind; [done|fb_lookup|exact F1|]|].
    { simpl. by rewrite (ev_port_set _ _ _ _ _ _ _ P1), decide_True. }
    simpl. fb_steps. split; [done|]. kernel_eq.
    - map_at2 fb1 fb2; rewrite ?Hb1, ?Hb2; try done; f_equal; by apply bump_back.
    - by rewrite (ev_set_back _ _ _ _ _ _ P1). }
  apply wp_run_val in Hw as (k' & -> & ->). done.
Qed.

(** unbinding blocks that are not bound to each other returns [-EBUSY]
    and changes nothing. *)
Theorem unbind_not_bound k fb1 fb2 b1 b2 m1 m2 c1 c2 old :
  bindable k fb1 fb2 b1 b2 m1 m2 c1 c2 -> ev_exclusive m1 = true ->
  ev_port (k_privs k) m1 (fb_private_data b1) TYPE_EGRESS = Some old -> old <> fb_idp b2 ->
  fblock_unbind fb1 fb2 k = Ret (- EBUSY) k.
Proof.
  intros [(H10 & H20 & Hne) [Hb1 Hb2] _ _ [X1 X2] _ _ _ _ _ _] Hex P1 Hold.
  assert (Hw : wp (fblock_unbind fb1 fb2) (fun v k' => v = - EBUSY /\ k' = k) k).
  { unfold fblock_unbind, __fblock_unbind, rcu_read_lock, rcu_read_unlock. fb_steps.
    eapply wp_event; [exact X1|eapply ev_unbound; [done|done|fb_lookup|exact P1|exact Hold]|].
    simpl. fb_steps. split; [done|]. by destruct k. }
  apply wp_run_val in Hw as (k' & -> & ->). done.
Qed.
End bind.
