(* ===== verification/PerCpu.v ===== *)
(** * Per-CPU data of functional blocks

    The pattern the event handlers share, [for_each_online_cpu] with a
    [break], and facts about it; the allocation of per-CPU memory. *)
From Stdlib Require Import ZArith Lia.
From stdpp Require Import base gmap numbers countable list.
From S2P Require Import Prelude CString CritbitTree NameMap Types Kernel.

Local Open Scope Z_scope.
Local Open Scope kernel_scope.

(** The loop over the CPUs' structs: [f] returns the changed struct, or
    [None] where the code leaves the loop.  The result is the structs after the
    loop, whether one was changed, and whether the loop ran to its end. *)
Fixpoint percpu_loop {A} (f : A -> option A) (l : list A) : list A * bool * bool :=
  match l with
  | [] => ([], false, true)
  | x :: l' =>
      match f x with
      | None => (l, false, false)
      | Some y => let '(r, _, ok) := percpu_loop f l' in (y :: r, true, ok)
      end
  end.

(** All structs pass: the loop maps them. *)
Lemma percpu_loop_all {A} (f : A -> option A) g l :
  Forall (fun x => f x = Some (g x)) l ->
  percpu_loop f l = (g <$> l, bool_decide (l <> []), true).
Proof.
  induction 1 as [|x l Hx _ IH]; simpl; [done|]. by rewrite Hx, IH.
Qed.

(** The first struct stops the loop: nothing changed. *)
Lemma percpu_loop_head {A} (f : A -> option A) x l :
  f x = None -> percpu_loop f (x :: l) = (x :: l, false, false).
Proof. simpl. by intros ->. Qed.

(** ** Ports

    The value of a port that all CPUs agree on. *)
Definition uport (dir : path_type) (l : list ports) : option Z :=
  match l with
  | [] => None
  | q :: l' => if forallb (fun q' => port q' dir =? port q dir) l' then Some (port q dir) else None
  end.

Lemma uport_Some dir l v :
  uport dir l = Some v <-> l <> [] /\ Forall (fun q => port q dir = v) l.
Proof.
  destruct l as [|q l]; simpl; [split; [done|intros [? _]; done]|].
  destruct (forallb _ l) eqn:E.
  - rewrite forallb_forall in E. split.
    + intros [= <-]. split; [done|]. constructor; [done|]. apply Forall_forall.
      intros x Hx. apply list_elem_of_In, E in Hx. by apply Z.eqb_eq.
    + intros [_ HF]. by inversion HF; subst.
  - split; [done|]. intros [_ HF]. inversion HF as [|? ? Hq Hl]; subst.
    assert (forallb (fun q' => port q' dir =? port q dir) l = true); [|congruence].
    apply forallb_forall. intros x Hx. apply list_elem_of_In in Hx.
    rewrite Forall_forall in Hl. by apply Z.eqb_eq, Hl.
Qed.

Lemma uport_set dir dir' i old l :
  uport dir l = Some old ->
  uport dir' ((fun q => set_port q dir i) <$> l) = if decide (dir = dir') then Some i else uport dir' l.
Proof.
  intros [Hl _]%uport_Some. case_decide as E.
  - subst dir'. apply uport_Some. split; [by destruct l|].
    apply Forall_fmap, Forall_forall. intros q _. apply port_set_same.
  - destruct l as [|q l]; [done|]. rewrite fmap_cons. unfold uport.
    rewrite port_set_other by done.
    assert (Hf : forallb (fun q' => port q' dir' =? port q dir') ((fun q => set_port q dir i) <$> l) =
              forallb (fun q' => port q' dir' =? port q dir') l); [|by rewrite Hf].
    clear Hl. induction l as [|q' l IH]; [done|]. rewrite fmap_cons. simpl.
    by rewrite port_set_other, IH.
Qed.

Section percpu.
Context `{Nm : NameMap, Ka : KernelApi}.

Definition alloc_percpu (mk : nat -> priv) : M addr :=
  n <- get k_cpus;; kmalloc upd_privs (mk n).

Definition free_percpu (p : addr) : M unit := kfree k_privs upd_privs p.
End percpu.
