(* ===== verification/FblockCtor.v ===== *)
(** * Construction of functional blocks

    What the constructors of the block modules share: allocation and
    initialisation of a block, and that the invariant of the tables survives
    it.  [constructed] is the state in which a constructor registers the new
    block. *)
From Stdlib Require Import ZArith Lia.
From stdpp Require Import base gmap numbers countable list.
From S2P Require Import Prelude CString CritbitTree NameMap Types Kernel Fblock FblockNs FblockLife.
From S2P Require Import PerCpu.

Local Open Scope Z_scope.
Local Open Scope kernel_scope.

Section ctor.
Context `{Nm : NameMap, Ka : KernelApi}.

(** The contents of the memory the slab cache hands out. *)
Definition slab_object (k : kernel) : fblock := default ctor_fblock (head (k_fbcache k)).

Lemma wp_alloc_fblock k (Q : addr -> kernel -> Prop) :
  k_oom k = [] -> k_next k <> 0 ->
  Q (k_next k) (upd_modrefs <[M_core := module_ref k M_core + 1]>
    (upd_fbcache tail (upd_fblocks <[k_next k := slab_object k]> (upd_next (Z.add 64) k)))) ->
  wp alloc_fblock Q k.
Proof.
  intros Hoom Hn HQ. unfold alloc_fblock. wp_steps.
  apply wp_kmalloc; [intros _|by rewrite Hoom].
  destruct (Z.eqb_spec (k_next k) 0); [done|]. wp_steps. unfold wp, module_get, bind, ret. simpl.
  replace (upd_oom tail k) with k; [done|]. unfold upd_oom. rewrite Hoom. by destruct k; simpl in *; subst.
Qed.

Lemma wp_alloc_percpu mk k (Q : addr -> kernel -> Prop) :
  k_oom k = [] ->
  Q (k_next k) (upd_privs <[k_next k := mk (k_cpus k)]> (upd_next (Z.add 64) k)) ->
  wp (alloc_percpu mk) Q k.
Proof.
  intros Hoom HQ. unfold alloc_percpu. wp_steps.
  apply wp_kmalloc; [intros _|by rewrite Hoom].
  replace (upd_oom tail k) with k; [done|]. unfold upd_oom. rewrite Hoom. by destruct k; simpl in *; subst.
Qed.

(** The block after [init_fblock]. *)
Definition initialised (name : cstr) (priv others : addr) (b : fblock) : fblock :=
  Fblock (fbname name) priv (fb_netfb_rx b) (fb_event_rx b) (fb_factory b) (fb_notifiers b)
    others 1 (fb_idp b) false.

Lemma wp_init_fblock fb name priv b k (Q : Z -> kernel -> Prop) :
  fb <> 0 -> k_fblocks k !! fb = Some b -> fb_lock b = false -> k_oom k = [] -> k_next k <> 0 ->
  Q 0 (upd_subs <[k_next k := chain_init]>
        (upd_fblocks <[fb := initialised name priv (k_next k) b]> (upd_next (Z.add 64) k))) ->
  wp (init_fblock fb name priv) Q k.
Proof.
  intros Hf Hb Hl Hoom Hn HQ. unfold init_fblock. fb_steps.
  apply wp_kmalloc; [intros _|by simpl; rewrite Hoom]. fb_steps. simpl.
  destruct (Z.eqb_spec (k_next k) 0); [done|]. fb_steps.
  match goal with |- Q 0 ?k1 => match type of HQ with Q 0 ?k2 => replace k1 with k2; [done|] end end.
  kernel_eq.
  - map_at2 fb fb; done.
  - by rewrite Hoom.
Qed.

(** New objects at addresses that were not in use do not disturb the
    tables. *)
Lemma core_ok_grow k k' p b :
  core_ok k -> heap_ok k' -> k_fblocks k !! p = None ->
  k_fblocks k' = <[p := b]> (k_fblocks k) ->
  k_idpmap k' = k_idpmap k -> k_elems k' = k_elems k -> k_fblmap k' = k_fblmap k ->
  k_idp_counter k' = k_idp_counter k -> core_ok k'.
Proof.
  intros Hk Hh Hp Hf E1 E2 E3 E4.
  assert (Hl : forall i, fbl_lookup k' i = fbl_lookup k i) by (intros; unfold fbl_lookup; by rewrite E3).
  assert (Hold : forall a x, k_fblocks k !! a = Some x -> k_fblocks k' !! a = Some x).
  { intros a x Ha. rewrite Hf, lookup_insert_ne; [done|]. intros ->. congruence. }
  split; [done|by apply (ns_ok_ext k); [..|apply Hk]|rewrite E4; apply Hk| |].
  - intros i. rewrite Hl, E4. intros H0.
    destruct (core_fbl k Hk i H0) as (Hi & x & Hx & Ex). eauto.
  - intros n i. rewrite (ns_lookup_ext k) by done. rewrite Hl. intros Hn.
    destruct (core_name k Hk n i Hn) as (x & H0 & Hx & Ex). eauto.
Qed.

(** The state in which the constructor of module [m] registers its block:
    the block, its private data and its subscriber chain are at the next
    three addresses. *)
Definition constructed (m : modid) (mk : nat -> priv) (name : cstr) (k : kernel) : kernel :=
  upd_fblocks <[k_next k := with_rx m m (initialised name (64 + k_next k) (128 + k_next k) (slab_object k))]>
    (upd_subs <[128 + k_next k := chain_init]>
      (upd_privs <[64 + k_next k := mk (k_cpus k)]>
        (upd_modrefs <[M_core := module_ref k M_core + 1]>
          (upd_fbcache tail (upd_next (Z.add 192) k))))).

Definition new_block (m : modid) (name : cstr) (k : kernel) : fblock :=
  with_rx m m (initialised name (64 + k_next k) (128 + k_next k) (slab_object k)).

Lemma constructed_core m mk name k :
  core_ok k -> core_ok (constructed m mk name k).
Proof.
  intros Hk. pose proof (core_heap k Hk) as [Hn Hf He Hno Hs Hp].
  eapply (core_ok_grow k); [done| |by apply below_next_fresh|done..].
  assert (Hle : k_next k <= k_next (constructed m mk name k)) by (simpl; lia).
  split; try by apply (below_next_mono k).
  - simpl. lia.
  - apply below_next_insert; [by apply (below_next_mono k)|simpl; lia].
  - apply below_next_insert; [by apply (below_next_mono k)|simpl; lia].
  - apply below_next_insert; [by apply (below_next_mono k)|simpl; lia].
Qed.

Lemma constructed_unregistered m mk name k :
  core_ok k -> cstr_ok name ->
  unregistered (constructed m mk name k) (k_next k) (new_block m name k).
Proof.
  intros Hk Hn. pose proof (core_heap k Hk) as [Hpos Hf _ _ _ _]. split.
  - apply lookup_insert_eq.
  - intros i E. change (fbl_lookup k i = k_next k) in E.
    destruct (core_fbl k Hk i) as (_ & b & Hb & _); [lia|].
    pose proof (map_Forall_lookup_1 _ _ _ _ Hf Hb) as Hlt. simpl in Hlt. lia.
  - split; [by apply fbname_ok|apply fbname_length].
Qed.

(** The first half of a constructor: everything before the registration. *)
Lemma wp_constructed m mk name k (rest : addr -> addr -> M addr) e1 e2 e3 (Q : addr -> kernel -> Prop) :
  core_ok k -> k_oom k = [] -> fb_lock (slab_object k) = false ->
  wp (rest (k_next k) (64 + k_next k)) Q (constructed m mk name k) ->
  wp (fb <- alloc_fblock;;
      if fb =? 0 then e1
      else
        fb_priv <- alloc_percpu mk;;
        if fb_priv =? 0 then e2 fb
        else
          r <- init_fblock fb name fb_priv;;
          if negb (r =? 0) then e3 fb fb_priv
          else
            mod_fb fb (with_rx m m);;
            rest fb fb_priv) Q k.
Proof.
  intros Hk Hoom Hl HQ. pose proof (heap_next k (core_heap k Hk)) as Hpos.
  wp_step. apply wp_alloc_fblock; [done|lia|]. destruct (Z.eqb_spec (k_next k) 0); [lia|].
  wp_step. apply wp_alloc_percpu; [done|]. simpl. destruct (Z.eqb_spec (64 + k_next k) 0); [lia|].
  wp_step. eapply wp_init_fblock; [done|fb_lookup|done|done|simpl; lia|]. simpl.
  fb_steps. match goal with |- wp _ _ ?k1 => replace k1 with (constructed m mk name k); [done|] end.
  unfold constructed. kernel_eq.
  - map_at2 (k_next k) (k_next k); try done. do 3 f_equal. lia.
  - f_equal. lia.
  - lia.
Qed.
End ctor.
