(* ===== verification/FbDummy.v ===== *)
(** * The dummy block (src/fb_dummy.c)

    Forwards every packet to the block its port for the packet's direction is
    bound to, and drops it when the port is not bound. *)
From Stdlib Require Import ZArith Lia.
From stdpp Require Import base gmap numbers countable list.
From S2P Require Import Prelude CString CritbitTree NameMap Types Kernel Fblock PerCpu.

Local Open Scope Z_scope.
Local Open Scope kernel_scope.

(** The retry loop over the seqlock: [obs] are the structs its rounds see, the
    last of which is the one [read_seqretry] accepts. *)
Fixpoint fb_dummy_netrx_loop (self : Z) (dir : path_type) (obs : list fb_dummy_priv)
    (skb : sk_buff) (drop : bool) : sk_buff * bool :=
  match obs with
  | [] => (skb, drop)
  | p :: obs' =>
      fb_dummy_netrx_loop self dir obs'
        (write_next_idp_to_skb skb self (port (dp_port p) dir))
        (drop || (port (dp_port p) dir =? IDP_UNKNOWN))
  end.

(** One CPU's part of a bind and of an unbind. *)
Definition fb_dummy_bind_cpu (dir : path_type) (idp : Z) (p : fb_dummy_priv) :
    option fb_dummy_priv :=
  if port (dp_port p) dir =? IDP_UNKNOWN
  then Some (DummyPriv (set_port (dp_port p) dir idp)) else None.

Definition fb_dummy_unbind_cpu (dir : path_type) (idp : Z) (p : fb_dummy_priv) :
    option fb_dummy_priv :=
  if port (dp_port p) dir =? idp
  then Some (DummyPriv (set_port (dp_port p) dir IDP_UNKNOWN)) else None.

Definition fb_dummy_factory : fblock_factory :=
  Factory [100; 117; 109; 109; 121] MODE_DUAL M_dummy M_dummy M_dummy None.

Section dummy.
Context `{Nm : NameMap, Ka : KernelApi}.

Definition dummy_priv (a : addr) : M (list fb_dummy_priv) :=
  p <- deref k_privs a;;
  match p with PrivDummy l => ret l | _ => crash Bad_cast end.

(** [torn] are the rounds of the seqlock loop that a concurrent writer makes
    it repeat. *)
Definition fb_dummy_netrx (torn : list fb_dummy_priv) (fb skb : addr) (dir : path_type) :
    M (Z * path_type) :=
  b <- get_fb fb;;
  l <- dummy_priv (fb_private_data b);;
  cpu <- get k_cpu;;
  match l !! cpu with
  | None => crash (Bad_access (fb_private_data b))
  | Some p =>
      s <- get_skb skb;;
      let '(s', drop) := fb_dummy_netrx_loop (fb_idp b) dir (torn ++ [p]) s false in
      mod_skb skb (fun _ => s');;
      if drop : bool then kfree_skb skb;; ret (PPE_DROPPED, dir)
      else ret (PPE_SUCCESS, dir)
  end.

Definition fb_dummy_event (self : fblock_notifier) (ev : fblock_event) : M Z :=
  rcu_read_lock;;
  let fb := fn_self self in
  b <- get_fb fb;;
  let fb_priv := fb_private_data b in
  rcu_read_unlock;;
  match ev with
  | FBLOCK_BIND_IDP dir idp =>
      l <- dummy_priv fb_priv;;
      let '(l', bound, ok) := percpu_loop (fb_dummy_bind_cpu dir idp) l in
      upd (upd_privs <[fb_priv := PrivDummy l']>);;
      when bound do (deref k_factories (fb_factory b);; ret tt);;
      ret (if ok : bool then NOTIFY_OK else NOTIFY_BAD)
  | FBLOCK_UNBIND_IDP dir idp =>
      l <- dummy_priv fb_priv;;
      let '(l', unbound, ok) := percpu_loop (fb_dummy_unbind_cpu dir idp) l in
      upd (upd_privs <[fb_priv := PrivDummy l']>);;
      when unbound do (deref k_factories (fb_factory b);; ret tt);;
      ret (if ok : bool then NOTIFY_OK else NOTIFY_BAD)
  | FBLOCK_SET_OPT _ _ | FBLOCK_DOWN_PREPARE | FBLOCK_DOWN _ => ret NOTIFY_OK
  end.

Definition fb_dummy_ctor (name : cstr) : M addr :=
  fb <- alloc_fblock;;
  if fb =? 0 then ret 0
  else
    fb_priv <- alloc_percpu (fun n =>
      PrivDummy (replicate n (DummyPriv (Ports IDP_UNKNOWN IDP_UNKNOWN))));;
    if fb_priv =? 0 then kfree_fblock fb;; ret 0
    else
      r <- init_fblock fb name fb_priv;;
      if negb (r =? 0) then free_percpu fb_priv;; kfree_fblock fb;; ret 0
      else
        mod_fb fb (with_rx M_dummy M_dummy);;
        r <- register_fblock_namespace fb;;
        if negb (r =? 0) then
          cleanup_fblock_ctor fb;; free_percpu fb_priv;; kfree_fblock fb;; ret 0
        else module_get M_dummy;; ret fb.

Definition fb_dummy_dtor (fb : addr) : M unit :=
  b <- get_fb fb;;
  free_percpu (fb_private_data b);;
  module_put M_dummy.
End dummy.
