(* ===== verification/Engine.v ===== *)
(** * The packet processing engine (src/xt_engine.c)

    One engine per CPU.  [process_packet] takes a packet from block to block
    along the IDPs in its control block; packets that arrive meanwhile, and
    copies that blocks make, wait in the CPU's backlog and are processed before
    the call returns.  A timer picks up what is left in a backlog.

    Both loops carry a number of rounds: [hops], the blocks one packet may go
    through, and [pkts], the packets one call may process; running out of
    either is the fault [Endless_loop]. *)
From Stdlib Require Import ZArith Lia.
From stdpp Require Import base gmap numbers countable list.
From S2P Require Import Prelude CString CritbitTree NameMap Types Kernel Fblock.

Local Open Scope Z_scope.
Local Open Scope kernel_scope.

Definition stats_inc_pkts (s : engine_iostats) : engine_iostats :=
  Iostats (es_bytes s) (u64 (es_pkts s + 1)) (es_fblocks s) (es_timer s) (es_timer_cpu_miss s).
Definition stats_inc_fblocks (s : engine_iostats) : engine_iostats :=
  Iostats (es_bytes s) (es_pkts s) (u64 (es_fblocks s + 1)) (es_timer s) (es_timer_cpu_miss s).
Definition stats_inc_timer (s : engine_iostats) : engine_iostats :=
  Iostats (es_bytes s) (es_pkts s) (es_fblocks s) (u64 (es_timer s + 1)) (es_timer_cpu_miss s).
Definition stats_inc_miss (s : engine_iostats) : engine_iostats :=
  Iostats (es_bytes s) (es_pkts s) (es_fblocks s) (es_timer s) (u64 (es_timer_cpu_miss s + 1)).
Definition stats_add_bytes (n : Z) (s : engine_iostats) : engine_iostats :=
  Iostats (u64 (es_bytes s + n)) (es_pkts s) (es_fblocks s) (es_timer s) (es_timer_cpu_miss s).

Definition disc_set_queue (q : list addr) (d : engine_disc) : engine_disc :=
  Disc q (ed_active d) (ed_cpu d).
Definition disc_set_active (a : bool) (d : engine_disc) : engine_disc :=
  Disc (ed_queue d) a (ed_cpu d).

Section queue.
Context `{Nm : NameMap, Ka : KernelApi}.

Definition this_cpu_stats (f : engine_iostats -> engine_iostats) : M unit :=
  cpu <- get k_cpu;; upd (upd_iostats (alter f cpu)).

Definition engine_inc_pkts_stats : M unit := this_cpu_stats stats_inc_pkts.
Definition engine_inc_fblock_stats : M unit := this_cpu_stats stats_inc_fblocks.
Definition engine_inc_timer_stats : M unit := this_cpu_stats stats_inc_timer.
Definition engine_inc_timer_cpu_miss_stats : M unit := this_cpu_stats stats_inc_miss.
Definition engine_add_bytes_stats (bytes : Z) : M unit := this_cpu_stats (stats_add_bytes bytes).

(** The engine of a CPU. *)
Definition emdisc (cpu : nat) : M engine_disc :=
  l <- get k_emdiscs;;
  match l !! cpu with Some d => ret d | None => crash Null_deref end.

Definition set_emdisc (cpu : nat) (d : engine_disc) : M unit :=
  upd (upd_emdiscs <[cpu := d]>).

Definition engine_backlog_tail (skb : addr) (dir : path_type) : M unit :=
  mod_skb skb (fun s => write_path_to_skb s dir);;
  cpu <- get k_cpu;;
  d <- emdisc cpu;;
  set_emdisc cpu (disc_set_queue (ed_queue d ++ [skb]) d).

(** [skb_dequeue] from the queue of a CPU and the direction of the packet. *)
Definition engine_backlog_queue_test_reduce (cpu : nat) : M (option (addr * path_type)) :=
  d <- emdisc cpu;;
  match ed_queue d with
  | [] => ret None
  | skb :: q =>
      set_emdisc cpu (disc_set_queue q d);;
      s <- get_skb skb;;
      ret (Some (skb, read_path_from_skb s))
  end.

Definition engine_backlog_test_reduce : M (option (addr * path_type)) :=
  cpu <- get k_cpu;; engine_backlog_queue_test_reduce cpu.

Definition engine_this_cpu_set_active : M unit :=
  cpu <- get k_cpu;; d <- emdisc cpu;; set_emdisc cpu (disc_set_active true d).

Definition engine_this_cpu_set_inactive : M unit :=
  cpu <- get k_cpu;; d <- emdisc cpu;; set_emdisc cpu (disc_set_active false d).

Definition engine_this_cpu_is_active : M bool :=
  cpu <- get k_cpu;; d <- emdisc cpu;; ret (ed_active d).

(** ** Timers

    [cr_timers] are the CPUs whose timer is armed.  Arming an armed timer sets
    it anew; a timer is part of the engine of its CPU. *)
Definition tasklet_hrtimer_start (cpu : nat) : M unit :=
  upd (upd_core (res_timers (fun l => filter (.≠ cpu) l ++ [cpu]))).
Definition tasklet_hrtimer_cancel (cpu : nat) : M unit :=
  upd (upd_core (res_timers (filter (.≠ cpu)))).

(** ** Set up and tear down *)

Fixpoint start_timers (cpus : list nat) : M unit :=
  match cpus with [] => ret tt | cpu :: l => tasklet_hrtimer_start cpu;; start_timers l end.

Definition init_engine : M Z :=
  n <- get k_cpus;;
  ok <- alloc_ok;;
  if negb ok then ret (- ENOMEM)
  else
    upd (upd_iostats (fun _ => replicate n (Iostats 0 0 0 0 0)));;
    ok <- alloc_ok;;
    if negb ok then upd (upd_iostats (fun _ => []));; ret (- ENOMEM)
    else
      upd (upd_emdiscs (fun _ => (fun cpu => Disc [] false cpu) <$> seq 0 n));;
      start_timers (seq 0 n);;
      ok <- create_proc P_ppe;;
      if negb ok then
        upd (upd_emdiscs (fun _ => []));; upd (upd_iostats (fun _ => []));; ret (- ENOMEM)
      else ret 0.

Fixpoint skb_queue_purge (q : list addr) : M unit :=
  match q with [] => ret tt | skb :: q' => kfree_skb skb;; skb_queue_purge q' end.

(** The engines of [cpu] and the following ones. *)
Fixpoint purge_discs (cpu : nat) (l : list engine_disc) : M unit :=
  match l with
  | [] => ret tt
  | d :: l' => tasklet_hrtimer_cancel cpu;; skb_queue_purge (ed_queue d);; purge_discs (S cpu) l'
  end.

Definition cleanup_engine : M unit :=
  upd (upd_iostats (fun _ => []));;
  l <- get k_emdiscs;;
  purge_discs 0 l;;
  upd (upd_emdiscs (fun _ => []));;
  remove_proc P_ppe.
End queue.

Section engine.
Context `{Nm : NameMap, Ka : KernelApi, !FblockOps}.

Definition call_netrx (f : option modid) (fb skb : addr) (dir : path_type) : M (Z * path_type) :=
  match f with None => crash Null_deref | Some m => mod_netfb_rx m fb skb dir end.

(** One packet, from block to block. *)
Fixpoint process_hops (hops : nat) (skb : addr) (dir : path_type) (r : Z) : M (Z * path_type) :=
  match hops with
  | O => crash Endless_loop
  | S hops' =>
      s <- get_skb skb;;
      let cont := read_next_idp_from_skb s in
      if cont =? 0 then ret (r, dir)
      else
        fb <- __search_fblock cont;;
        if fb =? 0 then kfree_skb skb;; ret (PPE_ERROR, dir)
        else
          b <- get_fb fb;;
          x <- call_netrx (fb_netfb_rx b) fb skb dir;;
          let '(r', dir') := x in
          put_fblock fb;;
          engine_inc_fblock_stats;;
          if r' =? PPE_DROPPED then ret (PPE_DROPPED, dir')
          else process_hops hops' skb dir' r'
  end.

(** The packet and then the backlog. *)
Fixpoint process_pkts (pkts hops : nat) (skb : addr) (dir : path_type) : M Z :=
  match pkts with
  | O => crash Endless_loop
  | S pkts' =>
      engine_this_cpu_set_active;;
      engine_inc_pkts_stats;;
      s <- get_skb skb;;
      engine_add_bytes_stats (skb_len s);;
      x <- process_hops hops skb dir PPE_ERROR;;
      o <- engine_backlog_test_reduce;;
      match o with
      | Some (skb', dir') => process_pkts pkts' hops skb' dir'
      | None => engine_this_cpu_set_inactive;; ret x.1
      end
  end.

Definition process_packet (pkts hops : nat) (skb : addr) (dir : path_type) : M Z :=
  n <- get k_rcu_nesting;;
  if (n =? 0)%nat then crash Kernel_bug
  else
    active <- engine_this_cpu_is_active;;
    if active : bool then engine_backlog_tail skb dir;; ret 0
    else process_pkts pkts hops skb dir.

(** The engine a timer is part of. *)
Definition timer_disc (cpu : nat) : M engine_disc :=
  l <- get k_emdiscs;;
  match l !! cpu with Some d => ret d | None => crash Freed_percpu end.

(** [cpu] is the CPU whose engine the timer belongs to. *)
Definition engine_timer_handler (pkts hops : nat) (cpu : nat) : M unit :=
  disc <- timer_disc cpu;;
  this <- get k_cpu;;
  (if ed_active disc then ret tt
   else match ed_queue disc with
        | [] => ret tt
        | _ :: _ =>
            miss <- (if negb (ed_cpu disc =? this)%nat then
                       engine_inc_timer_cpu_miss_stats;;
                       ret (Z.of_nat (length (ed_queue disc)) <=? 150)
                     else ret false);;
            if miss : bool then ret tt
            else
              rcu_read_lock;;
              o <- engine_backlog_queue_test_reduce cpu;;
              match o with
              | None => crash Kernel_bug
              | Some (skb, dir) => process_packet pkts hops skb dir;; rcu_read_unlock
              end
        end);;
  engine_inc_timer_stats;;
  tasklet_hrtimer_start cpu.
End engine.
