(* ===== verification/FbTee.v ===== *)
(** * The tee block (src/fb_tee.c)

    Like the dummy block, with a third port: a copy of every packet goes to
    the block that is bound to it. *)
From Stdlib Require Import ZArith Lia.
From stdpp Require Import base gmap numbers countable list.
From S2P Require Import Prelude CString CritbitTree NameMap Types Kernel Fblock PerCpu Engine.

Local Open Scope Z_scope.
Local Open Scope kernel_scope.

(** The retry loop: packet, [drop] and the local [port_clone]. *)
Fixpoint fb_tee_netrx_loop (self : Z) (dir : path_type) (obs : list fb_tee_priv)
    (skb : sk_buff) (drop : bool) (port_clone : Z) : sk_buff * bool * Z :=
  match obs with
  | [] => (skb, drop, port_clone)
  | p :: obs' =>
      fb_tee_netrx_loop self dir obs'
        (write_next_idp_to_skb skb self (port (tp_port p) dir))
        (drop || (port (tp_port p) dir =? IDP_UNKNOWN))
        (if negb (tp_port_clone p =? IDP_UNKNOWN) then tp_port_clone p else port_clone)
  end.

Definition fb_tee_bind_cpu (dir : path_type) (idp : Z) (p : fb_tee_priv) : option fb_tee_priv :=
  if port (tp_port p) dir =? IDP_UNKNOWN
  then Some (TeePriv (set_port (tp_port p) dir idp) (tp_port_clone p))
  else if tp_port_clone p =? IDP_UNKNOWN then Some (TeePriv (tp_port p) idp)
  else None.

Definition fb_tee_unbind_cpu (dir : path_type) (idp : Z) (p : fb_tee_priv) : option fb_tee_priv :=
  if port (tp_port p) dir =? idp
  then Some (TeePriv (set_port (tp_port p) dir IDP_UNKNOWN) (tp_port_clone p))
  else if tp_port_clone p =? idp then Some (TeePriv (tp_port p) IDP_UNKNOWN)
  else None.

Definition fb_tee_factory : fblock_factory :=
  Factory [116; 101; 101] MODE_DUAL M_tee M_tee M_tee None.

Section tee.
Context `{Nm : NameMap, Ka : KernelApi}.

Definition tee_priv (a : addr) : M (list fb_tee_priv) :=
  p <- deref k_privs a;;
  match p with PrivTee l => ret l | _ => crash Bad_cast end.

(** [skb_copy]: a buffer of its own with the same data and control block. *)
Definition skb_copy (skb : addr) : M addr :=
  s <- get_skb skb;;
  kmalloc upd_skbs (Skb (skb_len s) (skb_data s) (skb_cb s) 1 (skb_eth s)).

Definition fb_tee_netrx (torn : list fb_tee_priv) (fb skb : addr) (dir : path_type) :
    M (Z * path_type) :=
  b <- get_fb fb;;
  l <- tee_priv (fb_private_data b);;
  cpu <- get k_cpu;;
  match l !! cpu with
  | None => crash (Bad_access (fb_private_data b))
  | Some p =>
      s <- get_skb skb;;
      let '(s', drop, port_clone) := fb_tee_netrx_loop (fb_idp b) dir (torn ++ [p]) s false 0 in
      mod_skb skb (fun _ => s');;
      when negb (port_clone =? 0) do
        (cloned_skb <- skb_copy skb;;
         when negb (cloned_skb =? 0) do
           (mod_skb cloned_skb (fun c => write_next_idp_to_skb c (fb_idp b) port_clone);;
            engine_backlog_tail cloned_skb dir));;
      if drop : bool then kfree_skb skb;; ret (PPE_DROPPED, dir)
      else ret (PPE_SUCCESS, dir)
  end.

Definition fb_tee_event (self : fblock_notifier) (ev : fblock_event) : M Z :=
  rcu_read_lock;;
  let fb := fn_self self in
  b <- get_fb fb;;
  let fb_priv := fb_private_data b in
  rcu_read_unlock;;
  match ev with
  | FBLOCK_BIND_IDP dir idp =>
      l <- tee_priv fb_priv;;
      let '(l', bound, ok) := percpu_loop (fb_tee_bind_cpu dir idp) l in
      upd (upd_privs <[fb_priv := PrivTee l']>);;
      when bound do (deref k_factories (fb_factory b);; ret tt);;
      ret (if ok : bool then NOTIFY_OK else NOTIFY_BAD)
  | FBLOCK_UNBIND_IDP dir idp =>
      l <- tee_priv fb_priv;;
      let '(l', unbound, ok) := percpu_loop (fb_tee_unbind_cpu dir idp) l in
      upd (upd_privs <[fb_priv := PrivTee l']>);;
      when unbound do (deref k_factories (fb_factory b);; ret tt);;
      ret (if ok : bool then NOTIFY_OK else NOTIFY_BAD)
  | FBLOCK_SET_OPT _ _ | FBLOCK_DOWN_PREPARE | FBLOCK_DOWN _ => ret NOTIFY_OK
  end.

Definition fb_tee_ctor (name : cstr) : M addr :=
  fb <- alloc_fblock;;
  if fb =? 0 then ret 0
  else
    fb_priv <- alloc_percpu (fun n =>
      PrivTee (replicate n (TeePriv (Ports IDP_UNKNOWN IDP_UNKNOWN) IDP_UNKNOWN)));;
    if fb_priv =? 0 then kfree_fblock fb;; ret 0
    else
      r <- init_fblock fb name fb_priv;;
      if negb (r =? 0) then free_percpu fb_priv;; kfree_fblock fb;; ret 0
      else
        mod_fb fb (with_rx M_tee M_tee);;
        r <- register_fblock_namespace fb;;
        if negb (r =? 0) then
          cleanup_fblock_ctor fb;; free_percpu fb_priv;; kfree_fblock fb;; ret 0
        else module_get M_tee;; ret fb.

Definition fb_tee_dtor (fb : addr) : M unit :=
  b <- get_fb fb;;
  free_percpu (fb_private_data b);;
  module_put M_tee.
End tee.
