(* ===== verification/FbCounter.v ===== *)
(** * The counter block (src/fb_counter.c)

    Forwards like the dummy block and counts packets and bytes per CPU; the
    sums can be read from a file under /proc. *)
From Stdlib Require Import ZArith Lia.
From stdpp Require Import base gmap numbers countable list.
From S2P Require Import Prelude CString Digits CritbitTree NameMap Types Kernel Fblock PerCpu.

Local Open Scope Z_scope.
Local Open Scope kernel_scope.

Fixpoint fb_counter_netrx_loop (self : Z) (dir : path_type) (obs : list fb_counter_priv)
    (skb : sk_buff) (drop : bool) : sk_buff * bool :=
  match obs with
  | [] => (skb, drop)
  | p :: obs' =>
      fb_counter_netrx_loop self dir obs'
        (write_next_idp_to_skb skb self (port (cp_port p) dir))
        (drop || (port (cp_port p) dir =? IDP_UNKNOWN))
  end.

Definition fb_counter_bind_cpu (dir : path_type) (idp : Z) (p : fb_counter_priv) :
    option fb_counter_priv :=
  if port (cp_port p) dir =? IDP_UNKNOWN
  then Some (CounterPriv (set_port (cp_port p) dir idp) (cp_packets p) (cp_bytes p)) else None.

Definition fb_counter_unbind_cpu (dir : path_type) (idp : Z) (p : fb_counter_priv) :
    option fb_counter_priv :=
  if port (cp_port p) dir =? idp
  then Some (CounterPriv (set_port (cp_port p) dir IDP_UNKNOWN) (cp_packets p) (cp_bytes p)) else None.

(** One packet of [len] bytes. *)
Definition fb_counter_count (len : Z) (p : fb_counter_priv) : fb_counter_priv :=
  CounterPriv (cp_port p) (u64 (cp_packets p + 1)) (u64 (cp_bytes p + len)).

(** The sums of [fb_counter_proc_show]: [obs] are, for each CPU, the counters
    its retry loop sees; every round adds to the sums. *)
Fixpoint fb_counter_rounds (obs : list fb_counter_priv) (sums : Z * Z) : Z * Z :=
  match obs with
  | [] => sums
  | p :: obs' => fb_counter_rounds obs' (u64 (sums.1 + cp_packets p), u64 (sums.2 + cp_bytes p))
  end.

Fixpoint fb_counter_sums (obs : list (list fb_counter_priv)) (sums : Z * Z) : Z * Z :=
  match obs with
  | [] => sums
  | o :: obs' => fb_counter_sums obs' (fb_counter_rounds o sums)
  end.

Definition fb_counter_factory : fblock_factory :=
  Factory [99; 111; 117; 110; 116; 101; 114] MODE_DUAL M_counter M_counter M_counter None.

Section counter.
Context `{Nm : NameMap, Ka : KernelApi}.

Definition counter_priv (a : addr) : M (list fb_counter_priv) :=
  p <- deref k_privs a;;
  match p with PrivCounter l => ret l | _ => crash Bad_cast end.

Definition fb_counter_netrx (torn : list fb_counter_priv) (fb skb : addr) (dir : path_type) :
    M (Z * path_type) :=
  b <- get_fb fb;;
  l <- counter_priv (fb_private_data b);;
  cpu <- get k_cpu;;
  match l !! cpu with
  | None => crash (Bad_access (fb_private_data b))
  | Some p =>
      s <- get_skb skb;;
      let '(s', drop) := fb_counter_netrx_loop (fb_idp b) dir (torn ++ [p]) s false in
      mod_skb skb (fun _ => s');;
      upd (upd_privs <[fb_private_data b :=
             PrivCounter (<[cpu := fb_counter_count (skb_len s') p]> l)]>);;
      if drop : bool then kfree_skb skb;; ret (PPE_DROPPED, dir)
      else ret (PPE_SUCCESS, dir)
  end.

Definition fb_counter_event (self : fblock_notifier) (ev : fblock_event) : M Z :=
  rcu_read_lock;;
  let fb := fn_self self in
  b <- get_fb fb;;
  let fb_priv := fb_private_data b in
  rcu_read_unlock;;
  match ev with
  | FBLOCK_BIND_IDP dir idp =>
      l <- counter_priv fb_priv;;
      let '(l', bound, ok) := percpu_loop (fb_counter_bind_cpu dir idp) l in
      upd (upd_privs <[fb_priv := PrivCounter l']>);;
      when bound do (deref k_factories (fb_factory b);; ret tt);;
      ret (if ok : bool then NOTIFY_OK else NOTIFY_BAD)
  | FBLOCK_UNBIND_IDP dir idp =>
      l <- counter_priv fb_priv;;
      let '(l', unbound, ok) := percpu_loop (fb_counter_unbind_cpu dir idp) l in
      upd (upd_privs <[fb_priv := PrivCounter l']>);;
      when unbound do (deref k_factories (fb_factory b);; ret tt);;
      ret (if ok : bool then NOTIFY_OK else NOTIFY_BAD)
  | FBLOCK_SET_OPT _ _ | FBLOCK_DOWN_PREPARE | FBLOCK_DOWN _ => ret NOTIFY_OK
  end.

(** The line written to the reader; [torn] are, for each CPU, the rounds
    that have to be repeated. *)
Definition fb_counter_proc_show (torn : list (list fb_counter_priv)) (fb : addr) : M cstr :=
  rcu_read_lock;;
  b <- get_fb fb;;
  rcu_read_unlock;;
  l <- counter_priv (fb_private_data b);;
  let sums := fb_counter_sums (zip_with (fun t p => t ++ [p]) torn l) (0, 0) in
  ret (dec sums.1 ++ [32] ++ dec sums.2 ++ [10]).

Definition fb_counter_ctor (name : cstr) : M addr :=
  fb <- alloc_fblock;;
  if fb =? 0 then ret 0
  else
    fb_priv <- alloc_percpu (fun n =>
      PrivCounter (replicate n (CounterPriv (Ports IDP_UNKNOWN IDP_UNKNOWN) 0 0)));;
    if fb_priv =? 0 then kfree_fblock fb;; ret 0
    else
      r <- init_fblock fb name fb_priv;;
      if negb (r =? 0) then free_percpu fb_priv;; kfree_fblock fb;; ret 0
      else
        mod_fb fb (with_rx M_counter M_counter);;
        b <- get_fb fb;;
        fb_proc <- proc_create_data (fb_name b) fb;;
        if negb fb_proc then
          cleanup_fblock_ctor fb;; free_percpu fb_priv;; kfree_fblock fb;; ret 0
        else
          r <- register_fblock_namespace fb;;
          if negb (r =? 0) then
            b <- get_fb fb;;
            remove_proc_entry (fb_name b);;
            cleanup_fblock_ctor fb;; free_percpu fb_priv;; kfree_fblock fb;; ret 0
          else module_get M_counter;; ret fb.

Definition fb_counter_dtor (fb : addr) : M unit :=
  b <- get_fb fb;;
  free_percpu (fb_private_data b);;
  remove_proc_entry (fb_name b);;
  module_put M_counter.
End counter.
