(* ===== verification/FbBpf.v ===== *)
(** * The packet filter block (src/fb_bpf.c)

    Forwards like the dummy block, but drops the packets the filter of the CPU
    does not want.  A filter is written as text to the block's file under
    /proc and can be read back there.  The filter machine itself is kernel
    code: [sk_chk_filter] and [sk_run_filter] of [KernelApi].

    [after] is what lies in memory behind the buffer the text is copied to:
    the parser does not stop at the end of the buffer by itself. *)
From Stdlib Require Import ZArith Lia.
From stdpp Require Import base gmap numbers countable list.
From S2P Require Import Prelude CString Digits CritbitTree NameMap Types Kernel Fblock PerCpu.

Local Open Scope Z_scope.
Local Open Scope kernel_scope.

Definition MAX_BUFF_SIZ : Z := 16384.
Definition MAX_INSTR_SIZ : nat := 512.

Definition fb_bpf_factory : fblock_factory :=
  Factory [98; 112; 102] MODE_DUAL M_bpf M_bpf M_bpf (Some M_bpf).

(** ** Ports *)

Definition fb_bpf_bind_cpu (dir : path_type) (idp : Z) (p : fb_bpf_priv) : option fb_bpf_priv :=
  if port (bp_port p) dir =? IDP_UNKNOWN
  then Some (BpfPriv (set_port (bp_port p) dir idp) (bp_filter p)) else None.

Definition fb_bpf_unbind_cpu (dir : path_type) (idp : Z) (p : fb_bpf_priv) : option fb_bpf_priv :=
  if port (bp_port p) dir =? idp
  then Some (BpfPriv (set_port (bp_port p) dir IDP_UNKNOWN) (bp_filter p)) else None.

(** ** Text of a filter *)

(** "{ 0x%x, %u, %u, 0x%x }\n", of which [snprintf] keeps 31 characters. *)
Definition insn_core (i : sock_filter) : cstr :=
  [123; 32; 48; 120] ++ hex (bf_code i) ++ [44; 32] ++ dec (bf_jt i) ++ [44; 32] ++ dec (bf_jf i) ++
  [44; 32; 48; 120] ++ hex (bf_k i).

Definition insn_line (i : sock_filter) : cstr := take 31 (insn_core i ++ [32; 125; 10]).

(** "bpf jit: 0\ncode:\n" *)
Definition show_head : cstr :=
  [98; 112; 102; 32; 106; 105; 116; 58; 32; 48; 10; 99; 111; 100; 101; 58; 10].

Definition show_prog (prog : list sock_filter) : cstr := concat (insn_line <$> prog).

(** Skipping separators: [while] the character at the pointer is one. *)
Fixpoint skip (sep : Z -> bool) (s : list Z) : option (list Z) :=
  match s with
  | [] => None
  | c :: s' => if sep c then skip sep s' else Some s
  end.

Definition sep_open (c : Z) : bool := (c =? 32) || (c =? 123).
Definition sep_comma (c : Z) : bool := (c =? 32) || (c =? 44).
Definition sep_close (c : Z) : bool := (c =? 32) || (c =? 44) || (c =? 125) || (c =? 10).

Section parser.
Context `{Ka : KernelApi}.

(** One round of the loop of [fb_bpf_proc_write]. *)
Definition parse_insn (ptr1 : list Z) : option (sock_filter * list Z) :=
  ptr1 ← skip sep_open ptr1;
  '(code, ptr2) ← simple_strtoul ptr1 16;
  ptr2 ← skip sep_comma ptr2;
  '(jt, ptr1) ← simple_strtoul ptr2 10;
  ptr1 ← skip sep_comma ptr1;
  '(jf, ptr2) ← simple_strtoul ptr1 10;
  ptr2 ← skip sep_comma ptr2;
  '(kk, ptr1) ← simple_strtoul ptr2 16;
  ptr1 ← skip sep_close ptr1;
  Some (Insn (u16 code) (u8 jt) (u8 jf) (u32 kk), ptr1).

(** The loop: as long as fewer than [n] instructions were read and the pointer
    is inside the buffer, i.e. more than [after] bytes are ahead of it. *)
Fixpoint parse_prog (n : nat) (after : nat) (ptr1 : list Z) : option (list sock_filter) :=
  match n with
  | O => Some []
  | S n' =>
      if (after <? length ptr1)%nat then
        '(i, ptr1) ← parse_insn ptr1;
        prog ← parse_prog n' after ptr1;
        Some (i :: prog)
      else Some []
  end.
End parser.

(** ** The block *)

Section bpf.
Context `{Nm : NameMap, Ka : KernelApi}.

Definition bpf_priv (a : addr) : M (list fb_bpf_priv) :=
  p <- deref k_privs a;;
  match p with PrivBpf l => ret l | _ => crash Bad_cast end.

Lemma bpf_priv_run k a l : a <> 0 -> k_privs k !! a = Some (PrivBpf l) -> bpf_priv a k = Ret l k.
Proof. intros. unfold bpf_priv. by erewrite bind_run by (by apply deref_run). Qed.

(** The filter of one CPU is checked and put in place of the old one. *)
Definition fb_bpf_init_filter (p : fb_bpf_priv) (fprog : list sock_filter) : M (Z * fb_bpf_priv) :=
  ok <- alloc_ok;;
  if negb ok then ret (- ENOMEM, p)
  else
    let err := sk_chk_filter fprog in
    if negb (err =? 0) then ret (err, p)
    else ret (0, BpfPriv (bp_port p) (Some fprog)).

(** [for_each_online_cpu], up to the first error. *)
Fixpoint init_filters (l : list fb_bpf_priv) (fprog : list sock_filter) : M (Z * list fb_bpf_priv) :=
  match l with
  | [] => ret (0, [])
  | p :: l' =>
      x <- fb_bpf_init_filter p fprog;;
      let '(err, p') := x in
      if negb (err =? 0) then ret (err, p' :: l')
      else
        y <- init_filters l' fprog;;
        let '(err, l'') := y in
        ret (err, p' :: l'')
  end.

Definition fb_bpf_init_filter_cpus (fb : addr) (fprog : list sock_filter) : M Z :=
  if fb =? 0 then ret (- EINVAL)
  else
    b <- get_fb fb;;
    l <- bpf_priv (fb_private_data b);;
    x <- init_filters l fprog;;
    let '(err, l') := x in
    upd (upd_privs <[fb_private_data b := PrivBpf l']>);;
    when negb (err =? 0) do (deref k_factories (fb_factory b);; ret tt);;
    ret err.

Definition fb_bpf_cleanup_filter (p : fb_bpf_priv) : fb_bpf_priv := BpfPriv (bp_port p) None.

Definition fb_bpf_cleanup_filter_cpus (fb : addr) : M unit :=
  if fb =? 0 then ret tt
  else
    b <- get_fb fb;;
    l <- bpf_priv (fb_private_data b);;
    upd (upd_privs <[fb_private_data b := PrivBpf (fb_bpf_cleanup_filter <$> l)]>).

Definition fb_bpf_netrx (fb skb : addr) (dir : path_type) : M (Z * path_type) :=
  b <- get_fb fb;;
  l <- bpf_priv (fb_private_data b);;
  cpu <- get k_cpu;;
  match l !! cpu with
  | None => crash (Bad_access (fb_private_data b))
  | Some p =>
      s <- get_skb skb;;
      let dropped := match bp_filter p with
                     | Some f => u32 (sk_run_filter f (skb_data s)) <? skb_len s
                     | None => false
                     end in
      if dropped : bool then kfree_skb skb;; ret (PPE_DROPPED, dir)
      else
        mod_skb skb (fun s => write_next_idp_to_skb s (fb_idp b) (port (bp_port p) dir));;
        if port (bp_port p) dir =? IDP_UNKNOWN then kfree_skb skb;; ret (PPE_DROPPED, dir)
        else ret (PPE_SUCCESS, dir)
  end.

Definition fb_bpf_event (self : fblock_notifier) (ev : fblock_event) : M Z :=
  rcu_read_lock;;
  let fb := fn_self self in
  b <- get_fb fb;;
  let fb_priv := fb_private_data b in
  rcu_read_unlock;;
  match ev with
  | FBLOCK_BIND_IDP dir idp =>
      l <- bpf_priv fb_priv;;
      let '(l', bound, ok) := percpu_loop (fb_bpf_bind_cpu dir idp) l in
      upd (upd_privs <[fb_priv := PrivBpf l']>);;
      when bound do (deref k_factories (fb_factory b);; ret tt);;
      ret (if ok : bool then NOTIFY_OK else NOTIFY_BAD)
  | FBLOCK_UNBIND_IDP dir idp =>
      l <- bpf_priv fb_priv;;
      let '(l', unbound, ok) := percpu_loop (fb_bpf_unbind_cpu dir idp) l in
      upd (upd_privs <[fb_priv := PrivBpf l']>);;
      when unbound do (deref k_factories (fb_factory b);; ret tt);;
      ret (if ok : bool then NOTIFY_OK else NOTIFY_BAD)
  | FBLOCK_SET_OPT _ _ | FBLOCK_DOWN_PREPARE | FBLOCK_DOWN _ => ret NOTIFY_OK
  end.

Definition fb_bpf_proc_show_filter (fb : addr) : M cstr :=
  b <- get_fb fb;;
  l <- bpf_priv (fb_private_data b);;
  cpu <- get k_cpu;;
  match l !! cpu with
  | None => crash (Bad_access (fb_private_data b))
  | Some p => ret (match bp_filter p with Some f => show_head ++ show_prog f | None => [] end)
  end.

(** [ubuff] are the bytes that can be read at the user's pointer; the result is
    what [write] returns. *)
Definition fb_bpf_proc_write (fb : addr) (count : Z) (ubuff after : list Z) : M Z :=
  if MAX_BUFF_SIZ <? count then ret (- EINVAL)
  else
    ok <- alloc_ok;;
    if negb ok then ret (- ENOMEM)
    else
      ok <- alloc_ok;;
      if negb ok then ret (- ENOMEM)
      else
        ok <- alloc_ok;;
        if negb ok then ret (- ENOMEM)
        else
          if Z.of_nat (length ubuff) <? count then ret (- EFAULT)
          else
            match parse_prog MAX_INSTR_SIZ (length after) (take (Z.to_nat count) ubuff ++ after) with
            | None => crash Overrun
            | Some prog =>
                b <- get_fb fb;;
                deref k_factories (fb_factory b);;
                if (length prog =? MAX_INSTR_SIZ)%nat then ret (- ENOMEM)
                else
                  fb_bpf_cleanup_filter_cpus fb;;
                  r <- fb_bpf_init_filter_cpus fb prog;;
                  when negb (r =? 0) do fb_bpf_cleanup_filter_cpus fb;;
                  ret count
            end.

Definition fb_bpf_ctor (name : cstr) : M addr :=
  fb <- alloc_fblock;;
  if fb =? 0 then ret 0
  else
    fb_priv <- alloc_percpu (fun n =>
      PrivBpf (replicate n (BpfPriv (Ports IDP_UNKNOWN IDP_UNKNOWN) None)));;
    if fb_priv =? 0 then kfree_fblock fb;; ret 0
    else
      r <- init_fblock fb name fb_priv;;
      if negb (r =? 0) then free_percpu fb_priv;; kfree_fblock fb;; ret 0
      else
        mod_fb fb (with_rx M_bpf M_bpf);;
        b <- get_fb fb;;
        fb_proc <- proc_create_data (fb_name b) fb;;
        if negb fb_proc then
          cleanup_fblock_ctor fb;; free_percpu fb_priv;; kfree_fblock fb;; ret 0
        else
          r <- register_fblock_namespace fb;;
          if negb (r =? 0) then
            b <- get_fb fb;;
            remove_proc_entry (fb_name b);;
            cleanup_fblock_ctor fb;; free_percpu fb_priv;; kfree_fblock fb;; ret 0
          else module_get M_bpf;; ret fb.

Definition fb_bpf_dtor (fb : addr) : M unit :=
  b <- get_fb fb;;
  free_percpu (fb_private_data b);;
  remove_proc_entry (fb_name b);;
  module_put M_bpf.

Definition fb_bpf_dtor_outside_rcu (fb : addr) : M unit := fb_bpf_cleanup_filter_cpus fb.
End bpf.
