(* ===== verification/FbBpfProps.v ===== *)
(** * Properties of the packet filter block (src/fb_bpf.c)

    The text of a filter is read back as the filter it shows; what a write to
    the block's file under /proc does to the filters of the CPUs; which packets
    get through. *)
From Stdlib Require Import ZArith Lia.
From stdpp Require Import base gmap numbers countable list.
From S2P Require Import Prelude CString Digits CritbitTree NameMap Types Kernel Fblock PerCpu FbBpf.

Local Open Scope Z_scope.
Local Open Scope kernel_scope.

(** The fields of an instruction have their widths. *)
Definition insn_ok (i : sock_filter) : Prop :=
  0 <= bf_code i < 2 ^ 16 /\ 0 <= bf_jt i < 2 ^ 8 /\ 0 <= bf_jf i < 2 ^ 8 /\ 0 <= bf_k i < 2 ^ 32.

#[export] Instance insn_ok_dec i : Decision (insn_ok i).
Proof. unfold insn_ok. apply _. Defined.

Lemma insn_widths i : insn_ok i ->
  u16 (u64 (bf_code i)) = bf_code i /\ u8 (u64 (bf_jt i)) = bf_jt i /\
  u8 (u64 (bf_jf i)) = bf_jf i /\ u32 (u64 (bf_k i)) = bf_k i.
Proof.
  intros (H1 & H2 & H3 & H4). unfold u8, u16, u32, u64.
  rewrite !(Z.mod_small _ (2 ^ 64)) by lia. by rewrite !Z.mod_small by lia.
Qed.

Lemma insn_core_length i : insn_ok i -> (length (insn_core i) <= 30)%nat.
Proof.
  intros (H1 & H2 & H3 & H4). unfold insn_core, hex, dec. rewrite !length_app. cbn [length].
  assert (length (digits 16 16 (bf_code i)) <= 4)%nat by (apply digits_length; simpl; lia).
  assert (length (digits 10 20 (bf_jt i)) <= 3)%nat by (apply digits_length; simpl; lia).
  assert (length (digits 10 20 (bf_jf i)) <= 3)%nat by (apply digits_length; simpl; lia).
  assert (length (digits 16 16 (bf_k i)) <= 8)%nat by (apply digits_length; simpl; lia).
  lia.
Qed.

(** What [snprintf] cuts off is at most the end of the separator. *)
Lemma insn_line_cut i : insn_ok i ->
  exists tl, insn_line i = insn_core i ++ 32 :: tl /\ Forall (fun c => sep_close c = true) tl.
Proof.
  intros Hi. pose proof (insn_core_length i Hi) as Hl. unfold insn_line.
  rewrite take_app_ge by lia. destruct (31 - length (insn_core i))%nat as [|n] eqn:E; [lia|].
  exists (take n [125; 10]). split; [done|]. apply Forall_take. by repeat constructor.
Qed.

Section parser.
Context `{Ka : KernelApi}.

Lemma skip_stop sep c s : sep c = false -> skip sep (c :: s) = Some (c :: s).
Proof. simpl. by intros ->. Qed.

Lemma skip_skip sep c s : sep c = true -> skip sep (c :: s) = skip sep s.
Proof. simpl. by intros ->. Qed.

Lemma skip_app sep l s : Forall (fun c => sep c = true) l -> skip sep (l ++ s) = skip sep s.
Proof. induction 1 as [|c l Hc _ IH]; simpl; [done|]. by rewrite Hc. Qed.

(** The separators in front of a decimal number are skipped, no digit of it
    is. *)
Lemma skip_comma_dec n s : 0 <= n -> skip sep_comma (dec n ++ s) = Some (dec n ++ s).
Proof.
  intros Hn. pose proof (digits_nonempty 10 19 n) as Hne.
  pose proof (digits_ok 10 ltac:(lia) 20 n Hn) as HF. fold (dec n) in *.
  destruct (dec n) as [|c l]; [done|]. apply skip_stop. inversion HF as [|? ? Hc _]; subst.
  unfold sep_comma. destruct (Z.eqb_spec c 32) as [->|]; [done|]. by destruct (Z.eqb_spec c 44) as [->|].
Qed.

Lemma strtoul_dec_text n c s : 0 <= n < 10 ^ 20 -> is_digit 10 c = false ->
  simple_strtoul (dec n ++ c :: s) 10 = Some (u64 n, c :: s).
Proof.
  intros Hn Hc. rewrite simple_strtoul_dec; [|apply digits_ok; lia|done].
  unfold dec. by rewrite digits_val_0 by (simpl; lia).
Qed.

Lemma strtoul_hex_text n c s : 0 <= n < 16 ^ 16 -> is_digit 16 c = false ->
  simple_strtoul (48 :: 120 :: hex n ++ c :: s) 16 = Some (u64 n, c :: s).
Proof.
  intros Hn Hc. rewrite simple_strtoul_hex; [|apply digits_ok; lia|done].
  unfold hex. by rewrite digits_val_0 by (simpl; lia).
Qed.

(** The parser is at the end of the line once the fields are read. *)
Lemma parse_core i s : insn_ok i ->
  parse_insn (insn_core i ++ 32 :: s) =
    (ptr1 ← skip sep_close s; Some (i, ptr1)).
Proof.
  intros Hi. destruct (insn_widths i Hi) as (W1 & W2 & W3 & W4). destruct Hi as (H1 & H2 & H3 & H4).
  unfold parse_insn, insn_core. rewrite <- !app_assoc. cbn [app].
  rewrite !(skip_skip sep_open), skip_stop by done. cbn [mbind option_bind].
  rewrite strtoul_hex_text by (done || lia). cbn [mbind option_bind].
  rewrite !(skip_skip sep_comma), skip_comma_dec by (done || lia). cbn [mbind option_bind].
  rewrite strtoul_dec_text by (done || lia). cbn [mbind option_bind].
  rewrite !(skip_skip sep_comma), skip_comma_dec by (done || lia). cbn [mbind option_bind].
  rewrite strtoul_dec_text by (done || lia). cbn [mbind option_bind].
  rewrite !(skip_skip sep_comma), skip_stop by done. cbn [mbind option_bind].
  rewrite strtoul_hex_text by (done || lia). cbn [mbind option_bind].
  rewrite (skip_skip sep_close) by done. rewrite W1, W2, W3, W4. by destruct i.
Qed.

Lemma parse_line i s : insn_ok i ->
  parse_insn (insn_line i ++ s) = (ptr1 ← skip sep_close s; Some (i, ptr1)).
Proof.
  intros Hi. destruct (insn_line_cut i Hi) as (tl & -> & Htl). rewrite <- app_assoc. cbn [app].
  rewrite parse_core by done. by rewrite skip_app.
Qed.

Lemma parse_prog_show prog c s : forall n,
  Forall insn_ok prog -> (length prog <= n)%nat -> sep_close c = false ->
  parse_prog n (S (length s)) (show_prog prog ++ c :: s) = Some prog.
Proof.
  induction prog as [|i prog IH]; intros n HF Hn Hc.
  - destruct n; [done|]. simpl. by rewrite Nat.ltb_irrefl.
  - destruct n as [|n]; simpl in Hn; [lia|]. inversion HF as [|? ? Hi HF']; subst.
    change (show_prog (i :: prog)) with (insn_line i ++ show_prog prog).
    rewrite <- app_assoc. cbn [parse_prog].
    assert (Hlen : (S (length s) < length (insn_line i ++ show_prog prog ++ c :: s))%nat).
    { destruct (insn_line_cut i Hi) as (tl & -> & _). rewrite !length_app. simpl. lia. }
    apply Nat.ltb_lt in Hlen. rewrite Hlen, parse_line by done.
    assert (Hs : skip sep_close (show_prog prog ++ c :: s) = Some (show_prog prog ++ c :: s)).
    { destruct prog as [|j prog]; [by apply skip_stop|]. inversion HF' as [|? ? Hj _]; subst.
      change (show_prog (j :: prog)) with (insn_line j ++ show_prog prog).
      by destruct (insn_line_cut j Hj) as (tl & -> & _). }
    rewrite Hs. cbn [mbind option_bind]. rewrite IH by (done || lia). done.
Qed.

(** The bytes of a filter's text fit into the buffer of a write. *)
Lemma show_prog_length prog : (length (show_prog prog) <= 31 * length prog)%nat.
Proof.
  induction prog as [|i prog IH]; [done|].
  change (show_prog (i :: prog)) with (insn_line i ++ show_prog prog).
  rewrite length_app. unfold insn_line. rewrite length_take. simpl length. lia.
Qed.

(** Without a byte behind the text the parser leaves the memory it may
    read. *)
Lemma parse_prog_overrun prog : forall n,
  Forall insn_ok prog -> prog <> [] -> (length prog <= n)%nat ->
  parse_prog n 0 (show_prog prog) = None.
Proof.
  induction prog as [|i prog IH]; intros n HF Hne Hn; [done|].
  destruct n as [|n]; simpl in Hn; [lia|]. inversion HF as [|? ? Hi HF']; subst.
  change (show_prog (i :: prog)) with (insn_line i ++ show_prog prog). cbn [parse_prog].
  destruct (0 <? _)%nat eqn:E.
  - rewrite parse_line by done. destruct prog as [|j prog]; [done|].
    inversion HF' as [|? ? Hj _]; subst.
    assert (Hs : skip sep_close (show_prog (j :: prog)) = Some (show_prog (j :: prog))).
    { change (show_prog (j :: prog)) with (insn_line j ++ show_prog prog).
      by destruct (insn_line_cut j Hj) as (tl & -> & _). }
    rewrite Hs. cbn [mbind option_bind]. by rewrite IH by (done || lia).
  - apply Nat.ltb_ge in E. destruct (insn_line_cut i Hi) as (tl & E' & _).
    rewrite E', !length_app in E. simpl in E. lia.
Qed.

(** A character that is neither a separator nor a digit stops the parser: it
    reads zeros and does not go on. *)
Lemma parse_none ds s : ds = [] \/ ds = [98] ->
  parse_insn (ds ++ 112 :: s) = Some (Insn (digits_val 16 0 ds) 0 0 0, 112 :: s).
Proof.
  intros Hds. unfold parse_insn.
  assert (E0 : forall sep, sep = sep_open \/ sep = sep_comma \/ sep = sep_close -> skip sep (112 :: s) = Some (112 :: s)).
  { intros sep [-> | [-> | ->]]; by apply skip_stop. }
  assert (E1 : skip sep_open (ds ++ 112 :: s) = Some (ds ++ 112 :: s)).
  { destruct Hds as [-> | ->]; by apply skip_stop. }
  pose proof (simple_strtoul_dec [] 112 s ltac:(constructor) eq_refl) as D. cbn [app] in D.
  pose proof (simple_strtoul_hex_bare [] 112 s ltac:(constructor) eq_refl ltac:(done)) as X. cbn [app] in X.
  rewrite E1. cbn [mbind option_bind].
  rewrite simple_strtoul_hex_bare by (destruct Hds as [-> | ->]; by repeat constructor). cbn [mbind option_bind].
  rewrite E0 by tauto. cbn [mbind option_bind].
  do 2 (rewrite D; cbn [mbind option_bind]; rewrite E0 by tauto; cbn [mbind option_bind]).
  rewrite X. cbn [mbind option_bind]. rewrite E0 by tauto. cbn [mbind option_bind].
  by destruct Hds as [-> | ->].
Qed.

Lemma parse_stuck (s : list Z) after : (after <= length s)%nat -> forall n,
  parse_prog n after (112 :: s) = Some (replicate n (Insn 0 0 0 0)).
Proof.
  intros Hlen. induction n as [|n IH]; [done|]. cbn [parse_prog].
  assert (E : (after <? length (112%Z :: s))%nat = true) by (apply Nat.ltb_lt; simpl; lia).
  rewrite E. change (112 :: s) with ([] ++ 112 :: s). rewrite parse_none by tauto. cbn [mbind option_bind]. by rewrite IH.
Qed.

(** The first line of what is shown stops it. *)
Lemma parse_head text after n :
  exists prog, parse_prog n (length after) (show_head ++ text ++ after) = Some prog /\ length prog = n.
Proof.
  destruct n as [|n]; [by exists []|]. exists (Insn 11 0 0 0 :: replicate n (Insn 0 0 0 0)).
  split; [|simpl; by rewrite length_replicate].
  change (show_head ++ text ++ after) with ([98] ++ 112 :: drop 2 show_head ++ text ++ after). cbn [parse_prog].
  assert (E : (length after <? length ([98%Z] ++ 112%Z :: drop 2 show_head ++ text ++ after))%nat = true).
  { apply Nat.ltb_lt. rewrite !length_app. simpl. rewrite length_app. lia. }
  rewrite E, (parse_none [98] _ (or_intror eq_refl)). cbn [mbind option_bind].
  rewrite parse_stuck; [done|]. rewrite !length_app. lia.
Qed.
End parser.

Section bpf.
Context `{Nm : NameMap, Ka : KernelApi}.

(** A filter block, its private data and its factory. *)
Record bpf_block (k : kernel) (fb : addr) (b : fblock) (f : fblock_factory)
    (l : list fb_bpf_priv) : Prop := {
  bb_block : fb <> 0 /\ k_fblocks k !! fb = Some b;
  bb_priv : fb_private_data b <> 0 /\ k_privs k !! fb_private_data b = Some (PrivBpf l);
  bb_fac : fb_factory b <> 0 /\ k_factories k !! fb_factory b = Some f;
}.

Definition with_filter (o : option (list sock_filter)) (p : fb_bpf_priv) : fb_bpf_priv :=
  BpfPriv (bp_port p) o.

(** The filters of all CPUs. *)
Definition set_filters (b : fblock) (o : option (list sock_filter)) (l : list fb_bpf_priv) :
    kernel -> kernel := upd_privs <[fb_private_data b := PrivBpf (with_filter o <$> l)]>.

Lemma bpf_block_set k fb b f l l' :
  bpf_block k fb b f l ->
  bpf_block (upd_privs <[fb_private_data b := PrivBpf l']> k) fb b f l'.
Proof. intros [Hb [Hp _] Hf]. split; try done. split; [done|]. apply lookup_insert_eq. Qed.

Lemma init_filters_run prog k : k_oom k = [] -> forall l,
  init_filters l prog k =
    if sk_chk_filter prog =? 0 then Ret (0, with_filter (Some prog) <$> l) k
    else match l with [] => Ret (0, []) k | _ => Ret (sk_chk_filter prog, l) k end.
Proof.
  intros Hoom l. induction l as [|p l IH]; simpl; [by destruct (_ =? 0)|].
  unfold bind, fb_bpf_init_filter, alloc_ok, bind, get. rewrite Hoom. simpl.
  destruct (sk_chk_filter prog =? 0) eqn:E; simpl; [|by rewrite E]. by rewrite IH.
Qed.

Lemma cleanup_filters_run k fb b f l :
  bpf_block k fb b f l -> fb_bpf_cleanup_filter_cpus fb k = Ret tt (set_filters b None l k).
Proof.
  intros [[H0 Hb] [Hp0 Hp] _]. unfold fb_bpf_cleanup_filter_cpus. destruct (Z.eqb_spec fb 0); [done|].
  unfold get_fb. rewrite (bind_run _ _ _ _ _ (deref_run k_fblocks fb b k H0 Hb)).
  by rewrite (bind_run _ _ _ _ _ (bpf_priv_run k _ l Hp0 Hp)).
Qed.

Lemma init_filters_cpus_run k fb b f l prog :
  bpf_block k fb b f l -> k_oom k = [] -> l <> [] ->
  fb_bpf_init_filter_cpus fb prog k =
    Ret (sk_chk_filter prog) (if sk_chk_filter prog =? 0 then set_filters b (Some prog) l k else k).
Proof.
  intros [[H0 Hb] [Hp0 Hp] [Hf0 Hf]] Hoom Hl. unfold fb_bpf_init_filter_cpus.
  destruct (Z.eqb_spec fb 0); [done|].
  unfold get_fb. rewrite (bind_run _ _ _ _ _ (deref_run k_fblocks fb b k H0 Hb)).
  rewrite (bind_run _ _ _ _ _ (bpf_priv_run k _ l Hp0 Hp)). unfold bind at 1.
  rewrite init_filters_run by done. destruct (Z.eqb_spec (sk_chk_filter prog) 0) as [->|E]; [done|].
  destruct l as [|p l]; [done|]. unfold bind at 1, upd at 1. simpl.
  destruct (Z.eqb_spec (sk_chk_filter prog) 0); [done|]. simpl.
  assert (Ek : upd_privs <[fb_private_data b := PrivBpf (p :: l)]> k = k)
    by (kernel_eq; by rewrite insert_id).
  rewrite Ek. rewrite bind_assoc, (bind_run _ _ _ _ _ (deref_run k_factories _ f k Hf0 Hf)). done.
Qed.

(** What a write leaves behind: the filter, or none if it is not valid. *)
Definition accepted (prog : list sock_filter) : option (list sock_filter) :=
  if sk_chk_filter prog =? 0 then Some prog else None.

Lemma bpf_write_run k fb b f l count ubuff after prog :
  bpf_block k fb b f l -> l <> [] -> k_oom k = [] ->
  0 <= count <= MAX_BUFF_SIZ -> count <= Z.of_nat (length ubuff) ->
  parse_prog MAX_INSTR_SIZ (length after) (take (Z.to_nat count) ubuff ++ after) = Some prog ->
  (length prog < MAX_INSTR_SIZ)%nat ->
  fb_bpf_proc_write fb count ubuff after k = Ret count (set_filters b (accepted prog) l k).
Proof.
  intros Hbb Hl Hoom Hc Hu Hparse Hn. pose proof Hbb as [[H0 Hb] _ [Hf0 Hf]].
  assert (Hok : alloc_ok k = Ret true k) by (unfold alloc_ok, bind, get; by rewrite Hoom).
  unfold fb_bpf_proc_write. destruct (Z.ltb_spec MAX_BUFF_SIZ count); [lia|].
  rewrite !(bind_run alloc_ok _ _ _ _ Hok). cbn [negb].
  do 2 (rewrite (bind_run alloc_ok _ _ _ _ Hok); cbn [negb]).
  destruct (Z.ltb_spec (Z.of_nat (length ubuff)) count); [lia|]. rewrite Hparse.
  unfold get_fb. rewrite (bind_run _ _ _ _ _ (deref_run k_fblocks fb b k H0 Hb)).
  rewrite (bind_run _ _ _ _ _ (deref_run k_factories _ f k Hf0 Hf)).
  destruct (Nat.eqb_spec (length prog) MAX_INSTR_SIZ); [lia|].
  rewrite (bind_run _ _ _ _ _ (cleanup_filters_run k fb b f l Hbb)).
  pose proof (bpf_block_set k fb b f l (with_filter None <$> l) Hbb) as Hbb1.
  rewrite (bind_run _ _ _ _ _ (init_filters_cpus_run _ fb b f _ prog Hbb1 Hoom ltac:(by destruct l))).
  assert (Hww : forall o k0, set_filters b o (with_filter None <$> l)
            (upd_privs <[fb_private_data b := PrivBpf (with_filter None <$> l)]> k0) = set_filters b o l k0).
  { intros o k0. kernel_eq. rewrite insert_insert_eq, <- list_fmap_compose. done. }
  unfold accepted. destruct (sk_chk_filter prog =? 0); cbn [negb].
  - by rewrite Hww.
  - rewrite (bind_run _ _ _ _ _ (cleanup_filters_run _ fb b f _ Hbb1)), Hww. done.
Qed.

(** a text of at most 16384 bytes that the parser reads as fewer than 512
    instructions is always taken: the write returns its length.  A program the
    kernel's check accepts then is the filter on every CPU; for one it rejects
    no filter is left, the old ones are gone.  Ports and all else stay. *)
Theorem bpf_write_correct k fb b f l count ubuff after prog :
  bpf_block k fb b f l -> l <> [] -> k_oom k = [] ->
  0 <= count <= MAX_BUFF_SIZ -> count <= Z.of_nat (length ubuff) ->
  parse_prog MAX_INSTR_SIZ (length after) (take (Z.to_nat count) ubuff ++ after) = Some prog ->
  (length prog < MAX_INSTR_SIZ)%nat ->
  fb_bpf_proc_write fb count ubuff after k = Ret count (set_filters b (accepted prog) l k).
Proof. apply bpf_write_run. Qed.

(** The filter a CPU has is what its /proc file shows. *)
Lemma show_filter_run k fb b f l p :
  bpf_block k fb b f l -> l !! k_cpu k = Some p ->
  fb_bpf_proc_show_filter fb k =
    Ret (match bp_filter p with Some f => show_head ++ show_prog f | None => [] end) k.
Proof.
  intros [[H0 Hb] [Hp0 Hp] _] Hcpu. unfold fb_bpf_proc_show_filter, get_fb.
  rewrite (bind_run _ _ _ _ _ (deref_run k_fblocks fb b k H0 Hb)).
  rewrite (bind_run _ _ _ _ _ (bpf_priv_run k _ l Hp0 Hp)).
  unfold bind, get. by rewrite Hcpu.
Qed.

(** The checks in front of the parser let a text of the right length through. *)
Lemma bpf_write_full k fb b f l text after prog :
  bpf_block k fb b f l -> k_oom k = [] -> Z.of_nat (length text) <= MAX_BUFF_SIZ ->
  parse_prog MAX_INSTR_SIZ (length after) (text ++ after) = Some prog -> length prog = MAX_INSTR_SIZ ->
  fb_bpf_proc_write fb (Z.of_nat (length text)) text after k = Ret (- ENOMEM) k.
Proof.
  intros [[H0 Hb] _ [Hf0 Hf]] Hoom Hlen Hp Hn.
  assert (Hok : alloc_ok k = Ret true k) by (unfold alloc_ok, bind, get; by rewrite Hoom).
  unfold fb_bpf_proc_write. destruct (Z.ltb_spec MAX_BUFF_SIZ (Z.of_nat (length text))); [lia|].
  do 3 (rewrite (bind_run alloc_ok _ _ _ _ Hok); cbn [negb]).
  destruct (Z.ltb_spec (Z.of_nat (length text)) (Z.of_nat (length text))); [lia|].
  rewrite Nat2Z.id, firstn_all, Hp. unfold get_fb. rewrite (bind_run _ _ _ _ _ (deref_run k_fblocks fb b k H0 Hb)).
  rewrite (bind_run _ _ _ _ _ (deref_run k_factories _ f k Hf0 Hf)). by rewrite Hn, Nat.eqb_refl.
Qed.

(** C24: a valid filter of fewer than 512 instructions, written as its lines of
    text, becomes exactly the filter of every CPU and changes nothing else,
    whatever byte that is no separator lies behind the buffer; each CPU then
    shows the same lines, below a head of two lines.  Lines that [snprintf] cut
    off are read back, too.  What is shown as a whole, with the head, cannot be
    written back: the parser stops at the first word and reads zeros until it
    has 512 instructions, and the write is refused with [-ENOMEM]. *)
Theorem bpf_filter_roundtrip k fb b f l prog c after cpu :
  bpf_block k fb b f l -> k_oom k = [] -> Forall insn_ok prog -> sk_chk_filter prog = 0 ->
  (length prog < MAX_INSTR_SIZ)%nat -> sep_close c = false -> (cpu < length l)%nat ->
  let text := show_prog prog in
  let count := Z.of_nat (length text) in
  exists k', fb_bpf_proc_write fb count text (c :: after) k = Ret count k' /\
    k' = upd_privs <[fb_private_data b := PrivBpf ((fun p => BpfPriv (bp_port p) (Some prog)) <$> l)]> k /\
    fb_bpf_proc_show_filter fb (upd_cpu (fun _ => cpu) k') =
      Ret (show_head ++ text) (upd_cpu (fun _ => cpu) k') /\
    fb_bpf_proc_write fb (Z.of_nat (length (show_head ++ text))) (show_head ++ text) (c :: after) k' =
      Ret (- ENOMEM) k'.
Proof.
  intros Hbb Hoom HF Hchk Hn Hc Hcpu text count. exists (set_filters b (Some prog) l k).
  pose proof (show_prog_length prog) as Hlen. fold text in Hlen. unfold MAX_INSTR_SIZ in Hn.
  pose proof (bpf_block_set k fb b f l (with_filter (Some prog) <$> l) Hbb) as Hbb'. split; [|split; [done|split]].
  - unfold count. rewrite (bpf_write_run k fb b f l _ text (c :: after) prog); [|done|by destruct l; simpl in *; [lia|]|done|..].
    + unfold accepted. by rewrite Hchk.
    + unfold MAX_BUFF_SIZ. lia.
    + lia.
    + rewrite Nat2Z.id, firstn_all. apply parse_prog_show; [done|unfold MAX_INSTR_SIZ; lia|done].
    + unfold MAX_INSTR_SIZ. lia.
  - destruct (lookup_lt_is_Some_2 l cpu Hcpu) as [p Hp].
    rewrite (show_filter_run _ fb b f (with_filter (Some prog) <$> l) (with_filter (Some prog) p)); [done| |].
    + destruct Hbb as [Hb [Hp0 _] Hf]. split; try done. split; [done|]. apply lookup_insert_eq.
    + simpl. by rewrite list_lookup_fmap, Hp.
  - destruct (parse_head text (c :: after) MAX_INSTR_SIZ) as (prog' & Hparse & Hn').
    eapply (bpf_write_full _ fb b f _ _ _ prog' Hbb'); [done| |by rewrite <- app_assoc|done].
    rewrite length_app. unfold MAX_BUFF_SIZ. simpl length. lia.
Qed.

(** the parser does not look where the buffer ends: a write of the plain
    text of a filter reads the memory behind the buffer. *)
Theorem bpf_write_overruns k fb prog :
  k_oom k = [] -> Forall insn_ok prog -> prog <> [] -> (length prog < MAX_INSTR_SIZ)%nat ->
  let text := show_prog prog in
  fb_bpf_proc_write fb (Z.of_nat (length text)) text [] k = Crash Overrun.
Proof.
  intros Hoom HF Hne Hn text. pose proof (show_prog_length prog) as Hlen. fold text in Hlen.
  unfold MAX_INSTR_SIZ in Hn.
  assert (Hok : alloc_ok k = Ret true k) by (unfold alloc_ok, bind, get; by rewrite Hoom).
  unfold fb_bpf_proc_write. destruct (Z.ltb_spec MAX_BUFF_SIZ (Z.of_nat (length text))); [unfold MAX_BUFF_SIZ in *; lia|].
  do 3 (rewrite (bind_run alloc_ok _ _ _ _ Hok); cbn [negb]).
  destruct (Z.ltb_spec (Z.of_nat (length text)) (Z.of_nat (length text))); [lia|].
  rewrite Nat2Z.id, firstn_all, app_nil_r. unfold text.
  rewrite parse_prog_overrun; [done|done|done|unfold MAX_INSTR_SIZ; lia].
Qed.

(** a write that is refused leaves everything as it was: too long a text,
    a text that cannot be read, and one of 512 instructions or more. *)
Theorem bpf_write_refused k fb b f l count ubuff after :
  bpf_block k fb b f l -> k_oom k = [] ->
  (MAX_BUFF_SIZ < count -> fb_bpf_proc_write fb count ubuff after k = Ret (- EINVAL) k) /\
  (Z.of_nat (length ubuff) < count <= MAX_BUFF_SIZ ->
   fb_bpf_proc_write fb count ubuff after k = Ret (- EFAULT) k) /\
  (forall prog, count <= MAX_BUFF_SIZ -> count <= Z.of_nat (length ubuff) ->
   parse_prog MAX_INSTR_SIZ (length after) (take (Z.to_nat count) ubuff ++ after) = Some prog ->
   length prog = MAX_INSTR_SIZ ->
   fb_bpf_proc_write fb count ubuff after k = Ret (- ENOMEM) k).
Proof.
  intros [[H0 Hb] _ [Hf0 Hf]] Hoom.
  assert (Hok : alloc_ok k = Ret true k) by (unfold alloc_ok, bind, get; by rewrite Hoom).
  unfold fb_bpf_proc_write. destruct (Z.ltb_spec MAX_BUFF_SIZ count); [by repeat split; intros; try lia|].
  split; [lia|]. do 3 (rewrite (bind_run alloc_ok _ _ _ _ Hok); cbn [negb]).
  destruct (Z.ltb_spec (Z.of_nat (length ubuff)) count); [by split; intros; try lia|].
  split; [lia|]. intros prog _ _ -> Hn.
  unfold get_fb. rewrite (bind_run _ _ _ _ _ (deref_run k_fblocks fb b k H0 Hb)).
  rewrite (bind_run _ _ _ _ _ (deref_run k_factories _ f k Hf0 Hf)).
  by rewrite Hn, Nat.eqb_refl.
Qed.

(** Whether the filter of a CPU lets a packet through: it keeps all of it. *)
Definition passes (p : fb_bpf_priv) (s : sk_buff) : bool :=
  match bp_filter p with Some f => skb_len s <=? u32 (sk_run_filter f (skb_data s)) | None => true end.

(** a filter block sends a packet of which its CPU's filter keeps every
    byte on to its port, and frees any other packet as well as one for an
    unbound port; the block itself does not change. *)
Theorem bpf_netrx_correct k fb b f l p skb s dir :
  bpf_block k fb b f l -> l !! k_cpu k = Some p ->
  skb <> 0 -> k_skbs k !! skb = Some s -> skb_users s = 1 ->
  let to := port (bp_port p) dir in
  fb_bpf_netrx fb skb dir k =
    if passes p s && negb (to =? IDP_UNKNOWN)
    then Ret (PPE_SUCCESS, dir) (upd_skbs <[skb := write_next_idp_to_skb s (fb_idp b) to]> k)
    else Ret (PPE_DROPPED, dir) (upd_skbs (delete skb) k).
Proof.
  intros [[H0 Hb] [Hp0 Hp] _] Hcpu Hs0 Hs Hu to. unfold fb_bpf_netrx, get_fb, passes.
  rewrite (bind_run _ _ _ _ _ (deref_run k_fblocks fb b k H0 Hb)).
  rewrite (bind_run _ _ _ _ _ (bpf_priv_run k _ l Hp0 Hp)).
  unfold bind at 1, get at 1. rewrite Hcpu. unfold get_skb.
  rewrite (bind_run _ _ _ _ _ (deref_run k_skbs skb s k Hs0 Hs)).
  set (keep := match bp_filter p with Some f => _ <=? _ | None => true end).
  replace (match bp_filter p with Some f => _ <? _ | None => false end) with (negb keep).
  2: { unfold keep. destruct (bp_filter p); [|done]. by rewrite Z.leb_antisym, negb_involutive. }
  assert (Hfree : forall s' k0, skb_users s' = 1 -> k_skbs k0 !! skb = Some s' ->
            kfree_skb skb k0 = Ret tt (upd_skbs (delete skb) k0)).
  { intros s' k0 Hu' Hs'. unfold kfree_skb, get_skb.
    rewrite (bind_run _ _ _ _ _ (deref_run k_skbs skb s' k0 Hs0 Hs')). by rewrite Hu'. }
  destruct keep; simpl.
  - unfold mod_skb, get_skb. rewrite bind_assoc, (bind_run _ _ _ _ _ (deref_run k_skbs skb s k Hs0 Hs)).
    unfold bind at 1, upd at 1. fold to. destruct (to =? IDP_UNKNOWN); [|done]. simpl.
    rewrite (bind_run _ _ _ _ _ (Hfree (write_next_idp_to_skb s (fb_idp b) to) _ Hu (lookup_insert_eq _ _ _))).
    unfold ret. f_equal. kernel_eq. by rewrite delete_insert_eq.
  - by rewrite (bind_run _ _ _ _ _ (Hfree s k Hu Hs)).
Qed.
End bpf.
