(* ===== verification/FbEth.v ===== *)
(** * The Ethernet block (src/fb_eth.c)

    A network device becomes the functional block of its name: frames that
    arrive on a hooked device enter the engine at the block's ingress port, and
    packets the engine brings to the block leave through the device.  The
    commands that hook and unhook a device arrive over the virtual link
    subsystem. *)
From Stdlib Require Import ZArith Lia.
From stdpp Require Import base gmap numbers countable list.
From S2P Require Import Prelude CString CritbitTree Vlink NameMap Types NetTypes Kernel NetDev EthvlinkDev Fblock PerCpu Engine.

Local Open Scope Z_scope.
Local Open Scope kernel_scope.

(** ** Flags of a device *)

Definition fb_eth_make_dev_bridged (d : net_device) : net_device :=
  with_priv_flags (Z.lor (nd_priv_flags d) IFF_IS_BRIDGED) d.

Definition fb_eth_make_dev_unbridged (d : net_device) : net_device :=
  with_priv_flags (Z.ldiff (nd_priv_flags d) IFF_IS_BRIDGED) d.

(** ** Ports *)

Definition fb_eth_bind_cpu (dir : path_type) (idp : Z) (p : fb_eth_priv) : option fb_eth_priv :=
  if port (ep_port p) dir =? IDP_UNKNOWN
  then Some (EthPriv (set_port (ep_port p) dir idp) (ep_dev p)) else None.

Definition fb_eth_unbind_cpu (dir : path_type) (idp : Z) (p : fb_eth_priv) : option fb_eth_priv :=
  if port (ep_port p) dir =? idp
  then Some (EthPriv (set_port (ep_port p) dir IDP_UNKNOWN) (ep_dev p)) else None.

Section eth.
Context `{Nm : NameMap, Ka : KernelApi}.

Definition eth_priv (a : addr) : M (list fb_eth_priv) :=
  p <- deref k_privs a;;
  match p with PrivEth l => ret l | _ => crash Bad_cast end.

Lemma eth_priv_run k a l : a <> 0 -> k_privs k !! a = Some (PrivEth l) -> eth_priv a k = Ret l k.
Proof. intros. unfold eth_priv. by erewrite bind_run by (by apply deref_run). Qed.

(** [this_cpu_ptr] of the private data. *)
Definition this_eth_priv (a : addr) : M fb_eth_priv :=
  l <- eth_priv a;;
  cpu <- get k_cpu;;
  match l !! cpu with Some p => ret p | None => crash (Bad_access a) end.

(** ** The block *)

Definition fb_eth_netrx (fb skb : addr) (dir : path_type) : M (Z * path_type) :=
  b <- get_fb fb;;
  p <- this_eth_priv (fb_private_data b);;
  mod_skb skb (fun s => write_next_idp_to_skb s (fb_idp b) IDP_UNKNOWN);;
  mod_skb skb (set_dev (ep_dev p));;
  dev_queue_xmit skb;;
  ret (PPE_DROPPED, dir).

Definition fb_eth_event (self : fblock_notifier) (ev : fblock_event) : M Z :=
  rcu_read_lock;;
  let fb := fn_self self in
  b <- get_fb fb;;
  let fb_priv := fb_private_data b in
  rcu_read_unlock;;
  match ev with
  | FBLOCK_BIND_IDP dir idp =>
      l <- eth_priv fb_priv;;
      let '(l', _, ok) := percpu_loop (fb_eth_bind_cpu dir idp) l in
      upd (upd_privs <[fb_priv := PrivEth l']>);;
      ret (if ok : bool then NOTIFY_OK else NOTIFY_BAD)
  | FBLOCK_UNBIND_IDP dir idp =>
      l <- eth_priv fb_priv;;
      let '(l', _, ok) := percpu_loop (fb_eth_unbind_cpu dir idp) l in
      upd (upd_privs <[fb_priv := PrivEth l']>);;
      ret (if ok : bool then NOTIFY_OK else NOTIFY_BAD)
  | FBLOCK_SET_OPT _ _ | FBLOCK_DOWN_PREPARE | FBLOCK_DOWN _ => ret NOTIFY_OK
  end.
End eth.

(** ** Hooks *)

Section hooks.
Context `{Nm : NameMap, Ka : KernelApi, !FblockOps}.

(** [list_for_each_entry_rcu] without a [break]: the last node of the device
    counts. *)
Fixpoint find_fb (nodes : list addr) (dev fb : addr) : M addr :=
  match nodes with
  | [] => ret fb
  | a :: nodes' =>
      node <- deref (fun k => n_nodes (k_net k)) a;;
      find_fb nodes' dev (if dev =? en_dev node then en_fb node else fb)
  end.

(** [rounds] are the private data the rounds of the seqlock loop saw when a
    writer came after the check of the port; [] if none did. *)
Definition fb_eth_handle_frame (rounds : list fb_eth_priv) (pkts hops : nat) (pskb : addr) : M Z :=
  s <- get_skb pskb;;
  if ei_pkt_type (skb_eth s) =? PACKET_LOOPBACK then ret RX_HANDLER_PASS
  else if negb (is_valid_ether_addr (ei_source (skb_eth s))) then
    kfree_skb pskb;; ret RX_HANDLER_CONSUMED
  else
    skb <- skb_share_check pskb;;
    if skb =? 0 then ret RX_HANDLER_CONSUMED
    else
      s <- get_skb skb;;
      nodes <- get (fun k => fb_eth_devs (k_net k));;
      fb <- find_fb nodes (ei_dev (skb_eth s)) 0;;
      if fb =? 0 then kfree_skb skb;; ret RX_HANDLER_CONSUMED
      else
        b <- get_fb fb;;
        p <- this_eth_priv (fb_private_data b);;
        if port (ep_port p) TYPE_INGRESS =? IDP_UNKNOWN then kfree_skb skb;; ret RX_HANDLER_CONSUMED
        else
          let rounds := match rounds with [] => [p] | _ => rounds end in
          mod_skb skb (fun s => fold_left (fun s q =>
            write_next_idp_to_skb s (fb_idp b) (port (ep_port q) TYPE_INGRESS)) rounds s);;
          process_packet pkts hops skb TYPE_INGRESS;;
          ret RX_HANDLER_CONSUMED.

Definition cleanup_fb_eth (dev : addr) : M unit :=
  rtnl_lock;;
  d <- get_dev dev;;
  when fb_eth_dev_is_bridged d do
    (netdev_rx_handler_unregister dev;; mod_dev dev fb_eth_make_dev_unbridged);;
  rtnl_unlock.

Definition init_fb_eth (dev : addr) : M Z :=
  rtnl_lock;;
  r <- netdev_rx_handler_register dev M_eth;;
  if negb (r =? 0) then rtnl_unlock;; ret (- EIO)
  else mod_dev dev fb_eth_make_dev_bridged;; rtnl_unlock;; ret 0.

Definition fb_eth_build_fblock (dev : addr) : M addr :=
  d <- get_dev dev;;
  fb <- alloc_fblock;;
  if fb =? 0 then ret 0
  else
    fb_priv <- alloc_percpu (fun n => PrivEth (replicate n (EthPriv (Ports IDP_UNKNOWN IDP_UNKNOWN) dev)));;
    if fb_priv =? 0 then kfree_fblock fb;; ret 0
    else
      r <- init_fblock fb (nd_name d) fb_priv;;
      if negb (r =? 0) then free_percpu fb_priv;; kfree_fblock fb;; ret 0
      else
        mod_fb fb (with_rx M_eth M_eth);;
        mod_fb fb (with_factory 0);;
        r <- register_fblock_namespace fb;;
        if negb (r =? 0) then
          cleanup_fblock_ctor fb;; free_percpu fb_priv;; kfree_fblock fb;; ret 0
        else
          r <- init_fb_eth dev;;
          if negb (r =? 0) then
            unregister_fblock_namespace_no_rcu fb;;
            cleanup_fblock_ctor fb;; free_percpu fb_priv;; kfree_fblock fb;; ret 0
          else module_get M_eth;; ret fb.

Definition fb_eth_destroy_fblock (fb : addr) : M unit :=
  rcu_read_lock;;
  b <- get_fb fb;;
  p <- this_eth_priv (fb_private_data b);;
  cleanup_fb_eth (ep_dev p);;
  rcu_read_unlock;;
  unregister_fblock_namespace_no_rcu fb;;
  cleanup_fblock fb;;
  b <- get_fb fb;;
  free_percpu (fb_private_data b);;
  kfree_fblock fb;;
  module_put M_eth.

(** [fb_eth_devs_lock] around one change of the list. *)
Definition locked_devs (f : list addr -> list addr) : M unit :=
  b <- get (fun k => n_eth_lock (k_net k));;
  if b : bool then crash Deadlock
  else
    upd (upd_net (net_eth_lock true));;
    upd (upd_net (net_eth_devs f));;
    upd (upd_net (net_eth_lock false)).

Definition nodes_of (f : gmap addr fb_eth_dev_node -> gmap addr fb_eth_dev_node) (k : kernel) : kernel :=
  upd_net (net_nodes f) k.

Definition fb_eth_start_hook_dev (vhdr : vlinknlmsg) : M Z :=
  if negb (vm_cmd vhdr =? VLINKNLCMD_START_HOOK_DEVICE) then ret NETLINK_VLINK_RX_NXT
  else
    dev <- dev_get_by_name (c_str (vm_real_name vhdr));;
    if dev =? 0 then ret NETLINK_VLINK_RX_EMERG
    else
      d <- get_dev dev;;
      if has_flag (nd_priv_flags d) IFF_VLINK_DEV then dev_put dev;; ret NETLINK_VLINK_RX_EMERG
      else if fb_eth_dev_is_bridged d then dev_put dev;; ret NETLINK_VLINK_RX_STOP
      else if fb_ethvlink_real_dev_is_hooked d then dev_put dev;; ret NETLINK_VLINK_RX_STOP
      else
        node <- kmalloc nodes_of (EthNode 0 dev);;
        if node =? 0 then dev_put dev;; ret NETLINK_VLINK_RX_STOP
        else
          fb <- fb_eth_build_fblock dev;;
          if fb =? 0 then
            kfree (fun k => n_nodes (k_net k)) nodes_of node;;
            dev_put dev;; ret NETLINK_VLINK_RX_STOP
          else
            upd (nodes_of <[node := EthNode fb dev]>);;
            locked_devs (cons node);;
            dev_put dev;; ret NETLINK_VLINK_RX_STOP.

(** The first node of the device, under the lock; 0 if there is none. *)
Fixpoint find_node (nodes : list addr) (dev : addr) : M addr :=
  match nodes with
  | [] => ret 0
  | a :: nodes' =>
      node <- deref (fun k => n_nodes (k_net k)) a;;
      if dev =? en_dev node then ret a else find_node nodes' dev
  end.

Definition fb_eth_stop_hook_dev (vhdr : vlinknlmsg) : M Z :=
  if negb (vm_cmd vhdr =? VLINKNLCMD_STOP_HOOK_DEVICE) then ret NETLINK_VLINK_RX_NXT
  else
    dev <- dev_get_by_name (c_str (vm_real_name vhdr));;
    if dev =? 0 then ret NETLINK_VLINK_RX_EMERG
    else
      d <- get_dev dev;;
      if negb (fb_eth_dev_is_bridged d) then dev_put dev;; ret NETLINK_VLINK_RX_EMERG
      else if has_flag (nd_flags d) IFF_RUNNING then dev_put dev;; ret NETLINK_VLINK_RX_EMERG
      else
        locked_devs (fun l => l);;
        nodes <- get (fun k => fb_eth_devs (k_net k));;
        a <- find_node nodes dev;;
        if a =? 0 then dev_put dev;; ret NETLINK_VLINK_RX_EMERG
        else
          node <- deref (fun k => n_nodes (k_net k)) a;;
          let fb := en_fb node in
          if fb =? 0 then dev_put dev;; ret NETLINK_VLINK_RX_EMERG
          else
            b <- get_fb fb;;
            if 2 <? fb_refcnt b then dev_put dev;; ret NETLINK_VLINK_RX_EMERG
            else
              locked_devs (filter (.≠ a));;
              fb_eth_destroy_fblock fb;;
              grace_period;;
              kfree (fun k => n_nodes (k_net k)) nodes_of a;;
              dev_put dev;; ret NETLINK_VLINK_RX_STOP.

(** ** The module *)

(** The static objects of the module and what its callbacks do; [inl] is a
    crashed machine. *)
Definition fb_eth_sys : addr := 512.
Definition fb_eth_start_hook_dev_cb : addr := 576.
Definition fb_eth_stop_hook_dev_cb : addr := 640.

Definition in_world (m : M Z) (w : fault + kernel) : Z * (fault + kernel) :=
  match w with
  | inl f => (NETLINK_VLINK_RX_EMERG, inl f)
  | inr k => match m k with
             | Ret r k' => (r, inr k')
             | Crash f => (NETLINK_VLINK_RX_EMERG, inl f)
             end
  end.

Definition fb_eth_rx (f : Z) (vhdr : vlinknlmsg) : fault + kernel -> Z * (fault + kernel) :=
  in_world (if f =? 1 then fb_eth_start_hook_dev vhdr else fb_eth_stop_hook_dev vhdr).

Definition fb_eth_objects (s : vstate (W := fault + kernel)) : vstate :=
  put_cb fb_eth_start_hook_dev_cb (Callback NETLINK_VLINK_PRIO_HIGH 1 0)
    (put_cb fb_eth_stop_hook_dev_cb (Callback NETLINK_VLINK_PRIO_HIGH 2 0)
      (set_subsys fb_eth_sys (Subsys [101; 116; 104] VLINKNLGRP_ETHERNET 0 5 0) s)).

Definition init_fb_eth_module (s : vstate (W := fault + kernel)) : option (Z * vstate) :=
  '(r, s) ← vlink_subsys_register fb_eth_sys s;
  if negb (r =? 0) then Some (r, s)
  else
    '(_, s) ← vlink_add_callback fb_eth_sys fb_eth_start_hook_dev_cb s;
    '(_, s) ← vlink_add_callback fb_eth_sys fb_eth_stop_hook_dev_cb s;
    Some (r, s).

Definition cleanup_fb_eth_module (s : vstate (W := fault + kernel)) : option vstate :=
  match v_world s with
  | inl _ => None
  | inr k =>
      match grace_period k with
      | Crash _ => None
      | Ret _ k' => vlink_subsys_unregister_batch fb_eth_sys (set_world (inr k') s)
      end
  end.
End hooks.
