(* ===== verification/FbEthvlink.v ===== *)
(** * Tagged virtual Ethernet devices (src/fb_ethvlink.c)

    Several virtual devices share a real one, the carrier.  A frame for the
    stack has the protocol number [ETH_P_LANA] with a tag of 10 bits; the
    receive handler of a hooked carrier gives it to the block of the virtual
    device with that tag.  Packets the engine brings to the block are sent
    through the virtual device.  Devices are added and removed and carriers
    hooked by messages of the virtual link subsystem. *)
From Stdlib Require Import ZArith Lia.
From stdpp Require Import base gmap numbers countable list.
From S2P Require Import Prelude CString CritbitTree Vlink NameMap Types NetTypes Kernel NetDev EthvlinkDev Fblock PerCpu Engine.

Local Open Scope Z_scope.
Local Open Scope kernel_scope.

Definition ETH_P_LANA : Z := 44032.
Definition ETH_ALEN : nat := 6.

(** [htons], also [ntohs]: the two bytes change places. *)
Definition htons (z : Z) : Z := Z.lor (Z.shiftl (Z.land z 255) 8) (Z.land (Z.shiftr z 8) 255).

Definition fb_ethvlink_make_real_dev_hooked (d : net_device) : net_device :=
  with_priv_flags (Z.lor (nd_priv_flags d) IFF_VLINK_MAS) d.

Definition fb_ethvlink_make_real_dev_unhooked (d : net_device) : net_device :=
  with_priv_flags (Z.ldiff (nd_priv_flags d) IFF_VLINK_MAS) d.

(** The protocol field of a frame, in network order: is it one of the stack's,
    and its tag. *)
Definition proto_is_lana (h_proto : Z) : bool := Z.land h_proto (htons ETH_P_LANA) =? htons ETH_P_LANA.
Definition proto_tag (h_proto : Z) : Z := htons (Z.ldiff h_proto (htons ETH_P_LANA)).

(** ** Ports *)

Definition fb_ethvlink_bind_cpu (dir : path_type) (idp : Z) (p : fb_ethvlink_private_inner) :
    option fb_ethvlink_private_inner :=
  if port (vi_port p) dir =? IDP_UNKNOWN
  then Some (VlinkInner (set_port (vi_port p) dir idp) (vi_vdev p)) else None.

Definition fb_ethvlink_unbind_cpu (dir : path_type) (idp : Z) (p : fb_ethvlink_private_inner) :
    option fb_ethvlink_private_inner :=
  if port (vi_port p) dir =? idp
  then Some (VlinkInner (set_port (vi_port p) dir IDP_UNKNOWN) (vi_vdev p)) else None.

Section block.
Context `{Nm : NameMap, Ka : KernelApi}.

Definition ethvlink_priv (a : addr) : M (list fb_ethvlink_private_inner) :=
  p <- deref k_privs a;;
  match p with PrivEthvlink l => ret l | _ => crash Bad_cast end.

Lemma ethvlink_priv_run k a l :
  a <> 0 -> k_privs k !! a = Some (PrivEthvlink l) -> ethvlink_priv a k = Ret l k.
Proof. intros. unfold ethvlink_priv. by erewrite bind_run by (by apply deref_run). Qed.

(** [this_cpu_ptr] of the private data. *)
Definition this_ethvlink_priv (a : addr) : M fb_ethvlink_private_inner :=
  l <- ethvlink_priv a;;
  cpu <- get k_cpu;;
  match l !! cpu with Some p => ret p | None => crash (Bad_access a) end.

Definition fb_ethvlink_netrx (fb skb : addr) (dir : path_type) : M (Z * path_type) :=
  b <- get_fb fb;;
  p <- this_ethvlink_priv (fb_private_data b);;
  v <- netdev_priv (vi_vdev p);;
  mod_skb skb (set_dev (vd_self v));;
  mod_skb skb (fun s => write_next_idp_to_skb s (fb_idp b) IDP_UNKNOWN);;
  dev_queue_xmit skb;;
  ret (PPE_DROPPED, dir).

Definition fb_ethvlink_event (self : fblock_notifier) (ev : fblock_event) : M Z :=
  rcu_read_lock;;
  let fb := fn_self self in
  b <- get_fb fb;;
  let fb_priv := fb_private_data b in
  rcu_read_unlock;;
  match ev with
  | FBLOCK_BIND_IDP dir idp =>
      l <- ethvlink_priv fb_priv;;
      let '(l', _, ok) := percpu_loop (fb_ethvlink_bind_cpu dir idp) l in
      upd (upd_privs <[fb_priv := PrivEthvlink l']>);;
      ret (if ok : bool then NOTIFY_OK else NOTIFY_BAD)
  | FBLOCK_UNBIND_IDP dir idp =>
      l <- ethvlink_priv fb_priv;;
      let '(l', _, ok) := percpu_loop (fb_ethvlink_unbind_cpu dir idp) l in
      upd (upd_privs <[fb_priv := PrivEthvlink l']>);;
      ret (if ok : bool then NOTIFY_OK else NOTIFY_BAD)
  | FBLOCK_SET_OPT _ _ | FBLOCK_DOWN_PREPARE | FBLOCK_DOWN _ => ret NOTIFY_OK
  end.
End block.

(** ** Frames *)

Section frames.
Context `{Nm : NameMap, Ka : KernelApi, !FblockOps}.

(** [rounds] as in FbEth.v. *)
Definition fb_ethvlink_handle_frame_virt (rounds : list fb_ethvlink_private_inner) (pkts hops : nat)
    (skb vdev : addr) : M Z :=
  v <- netdev_priv vdev;;
  b <- get_fb (vd_fb v);;
  p <- this_ethvlink_priv (fb_private_data b);;
  if port (vi_port p) TYPE_INGRESS =? IDP_UNKNOWN then kfree_skb skb;; ret NET_RX_SUCCESS
  else
    let rounds := match rounds with [] => [p] | _ => rounds end in
    mod_skb skb (fun s => fold_left (fun s q =>
      write_next_idp_to_skb s (fb_idp b) (port (vi_port q) TYPE_INGRESS)) rounds s);;
    process_packet pkts hops skb TYPE_INGRESS;;
    ret NET_RX_SUCCESS.

(** The first virtual device with the tag on the carrier. *)
Fixpoint find_vdev (vdevs : list addr) (vtag : Z) (dev : addr) : M addr :=
  match vdevs with
  | [] => ret 0
  | a :: vdevs' =>
      v <- netdev_priv a;;
      if (vtag =? vd_tag v) && (dev =? vd_real_dev v) then ret a else find_vdev vdevs' vtag dev
  end.

Definition fb_ethvlink_handle_frame (rounds : list fb_ethvlink_private_inner) (pkts hops : nat)
    (pskb : addr) : M Z :=
  s <- get_skb pskb;;
  let dev := ei_dev (skb_eth s) in
  d <- get_dev dev;;
  if negb (has_flag (nd_flags d) IFF_UP) then kfree_skb pskb;; ret RX_HANDLER_CONSUMED
  else if ei_pkt_type (skb_eth s) =? PACKET_LOOPBACK then ret RX_HANDLER_PASS
  else if negb (is_valid_ether_addr (ei_source (skb_eth s))) then
    kfree_skb pskb;; ret RX_HANDLER_CONSUMED
  else
    skb <- skb_share_check pskb;;
    if skb =? 0 then ret RX_HANDLER_CONSUMED
    else
      s <- get_skb skb;;
      let h_proto := ei_proto (skb_eth s) in
      if negb (proto_is_lana h_proto) then ret RX_HANDLER_PASS
      else
        vdevs <- get (fun k => fb_ethvlink_vdevs (k_net k));;
        vdev <- find_vdev vdevs (proto_tag h_proto) dev;;
        if vdev =? 0 then kfree_skb skb;; ret RX_HANDLER_CONSUMED
        else
          v <- netdev_priv vdev;;
          r <- fb_ethvlink_handle_frame_virt rounds pkts hops skb vdev;;
          (if r =? NET_RX_SUCCESS then
             s <- get_skb skb;;
             this_dstats (vd_self v) (dstats_rx (skb_len s))
           else this_dstats (vd_self v) dstats_rx_error);;
          ret RX_HANDLER_CONSUMED.
End frames.

(** ** Devices *)

(** [fb_ethvlink_validate]: the address given for a new device, if any. *)
Definition fb_ethvlink_validate (address : option (list Z)) : Z :=
  match address with
  | None => 0
  | Some a =>
      if negb (length a =? ETH_ALEN)%nat then - EINVAL
      else if negb (is_valid_ether_addr a) then - EADDRNOTAVAIL else 0
  end.

(** [ether_setup] of the kernel: an Ethernet device that can broadcast. *)
Definition ARPHRD_ETHER : Z := 1.
Definition ether_flags : Z := 4098.

(** A new device with the setup of this driver; its private part is zero. *)
Definition fb_ethvlink_dev_setup (name : cstr) (ifindex priv_flags : Z) : net_device :=
  NetDev name ifindex 1500 ARPHRD_ETHER ether_flags (Z.ldiff priv_flags IFF_XMIT_DST_RELEASE) 0 None
    NETREG_UNINITIALIZED (Link true true false 0) (Some (VlinkPriv 0 0 0 0)) None [] false [].

Inductive netdev_event :=
| NETDEV_CHANGE | NETDEV_FEAT_CHANGE | NETDEV_UNREGISTER | NETDEV_PRE_TYPE_CHANGE | NETDEV_UP.

Section vdevs.
Context `{Nm : NameMap, Ka : KernelApi, !FblockOps}.

(** Kernel: [alloc_netdev], [dev_alloc_name] for the name the device has,
    [register_netdev] and [unregister_netdevice]. *)
Definition alloc_netdev (name : cstr) : M addr :=
  if (IFNAMSIZ <=? length name)%nat then crash Kernel_bug
  else kmalloc devs_of (fb_ethvlink_dev_setup name 0 IFF_XMIT_DST_RELEASE).

Definition names_in_use (devs : gmap addr net_device) : list cstr :=
  (fun x => nd_name x.2) <$> filter (fun x => nd_reg x.2 = NETREG_REGISTERED) (map_to_list devs).

Definition dev_alloc_own_name (dev : addr) : M Z :=
  d <- get_dev dev;;
  devs <- get (fun k => n_devs (k_net k));;
  let '(r, name) := dev_alloc_name (names_in_use devs) (nd_name d) in
  mod_dev dev (with_dev_name name);;
  ret r.

Definition register_netdev (dev : addr) : M Z :=
  rtnl_lock;;
  d <- get_dev dev;;
  devs <- get (fun k => n_devs (k_net k));;
  r <- (if decide (nd_name d ∈ names_in_use devs) then ret (- EEXIST)
        else
          r <- fb_ethvlink_init dev;;
          if negb (r =? 0) then ret r
          else
            i <- get (fun k => n_ifindex (k_net k));;
            upd (upd_net (net_ifindex (i + 1)));;
            mod_dev dev (with_ifindex i);;
            mod_dev dev (with_reg NETREG_REGISTERED);;
            dev_hold dev;;
            ret 0);;
  rtnl_unlock;;
  ret r.

(** [notify] calls the notifiers for [NETDEV_UNREGISTER].  The device is freed
    when the [rtnl] mutex is released. *)
Definition unregister_netdevice (notify : addr -> M unit) (dev : addr) : M unit :=
  d <- get_dev dev;;
  match nd_reg d with
  | NETREG_UNINITIALIZED => ret tt
  | NETREG_REGISTERED =>
      when has_flag (nd_flags d) IFF_UP do
        (fb_ethvlink_stop dev;; mod_dev dev (fun d => with_flags (Z.ldiff (nd_flags d) IFF_UP) d));;
      mod_dev dev (with_reg NETREG_UNREGISTERING);;
      notify dev;;
      fb_ethvlink_uninit dev;;
      n <- get k_rcu_nesting;;
      (if (0 <? n)%nat then crash Deadlock else grace_period);;
      dev_put dev;;
      upd (upd_net (net_todo (fun l => l ++ [dev])))
  | _ => crash Kernel_bug
  end.

Definition locked_vdevs (f : list addr -> list addr) : M unit :=
  b <- get (fun k => n_vdevs_lock (k_net k));;
  if b : bool then crash Deadlock
  else
    upd (upd_net (net_vdevs_lock true));;
    upd (upd_net (net_vdevs f));;
    upd (upd_net (net_vdevs_lock false)).

Definition fb_ethvlink_destroy_fblock (fb : addr) : M unit :=
  unregister_fblock_namespace_no_rcu fb;;
  cleanup_fblock fb;;
  b <- get_fb fb;;
  free_percpu (fb_private_data b);;
  kfree_fblock fb;;
  module_put M_ethvlink.

Definition fb_ethvlink_build_fblock (vdev : addr) : M addr :=
  v <- netdev_priv vdev;;
  d <- get_dev (vd_self v);;
  fb <- alloc_fblock;;
  if fb =? 0 then ret 0
  else
    fb_priv <- alloc_percpu (fun n => PrivEthvlink (replicate n (VlinkInner (Ports IDP_UNKNOWN IDP_UNKNOWN) vdev)));;
    if fb_priv =? 0 then kfree_fblock fb;; ret 0
    else
      r <- init_fblock fb (nd_name d) fb_priv;;
      if negb (r =? 0) then free_percpu fb_priv;; kfree_fblock fb;; ret 0
      else
        mod_fb fb (with_rx M_ethvlink M_ethvlink);;
        mod_fb fb (with_factory 0);;
        r <- register_fblock_namespace fb;;
        if negb (r =? 0) then
          cleanup_fblock_ctor fb;; free_percpu fb_priv;; kfree_fblock fb;; ret 0
        else module_get M_ethvlink;; ret fb.

(** Is there a device with the tag, on whatever carrier? *)
Fixpoint tag_taken (vdevs : list addr) (tag : Z) : M bool :=
  match vdevs with
  | [] => ret false
  | a :: vdevs' =>
      v <- netdev_priv a;;
      if vd_tag v =? tag then ret true else tag_taken vdevs' tag
  end.

Definition set_vd_fb (fb : addr) (d : net_device) : net_device :=
  with_virt ((fun v => VlinkPriv (vd_tag v) (vd_self v) (vd_real_dev v) fb) <$> nd_virt d) d.

Definition fb_ethvlink_add_dev (notify : addr -> M unit) (vhdr : vlinknlmsg) : M Z :=
  if negb (vm_cmd vhdr =? VLINKNLCMD_ADD_DEVICE) then ret NETLINK_VLINK_RX_NXT
  else
    let err := ret NETLINK_VLINK_RX_EMERG in
    root <- dev_get_by_name (c_str (vm_virt_name vhdr));;
    if negb (root =? 0) then dev_put root;; err
    else
      root <- dev_get_by_name (c_str (vm_real_name vhdr));;
      if root =? 0 then err
      else
        rd <- get_dev root;;
        if has_flag (nd_priv_flags rd) IFF_VLINK_DEV then dev_put root;; err
        else
          let port := Z.land (vm_port vhdr) 1023 in
          vdevs <- get (fun k => fb_ethvlink_vdevs (k_net k));;
          taken <- tag_taken vdevs port;;
          if taken : bool then dev_put root;; err
          else
            dev <- alloc_netdev (c_str (vm_virt_name vhdr));;
            if dev =? 0 then dev_put root;; err
            else
              r <- dev_alloc_own_name dev;;
              if negb (r =? 0) then dev_put root;; free_netdev dev;; err
              else
                r <- register_netdev dev;;
                if negb (r =? 0) then dev_put root;; free_netdev dev;; err
                else
                  mod_dev dev (fun d => with_priv_flags (Z.lor (nd_priv_flags d) (vm_flags vhdr)) d);;
                  mod_dev dev (fun d => with_priv_flags (Z.lor (nd_priv_flags d) IFF_VLINK_DEV) d);;
                  mod_dev dev (with_virt (Some (VlinkPriv port dev root 0)));;
                  fb <- fb_ethvlink_build_fblock dev;;
                  mod_dev dev (set_vd_fb fb);;
                  if fb =? 0 then
                    unregister_netdevice notify dev;; dev_put root;; free_netdev dev;; err
                  else
                    rd <- get_dev root;;
                    mod_dev dev (netif_stacked_transfer_operstate rd);;
                    dev_put root;;
                    locked_vdevs (cons dev);;
                    mod_dev dev (set_carrier false);;
                    ret NETLINK_VLINK_RX_STOP.

Definition fb_ethvlink_start_hook_dev (vhdr : vlinknlmsg) : M Z :=
  if negb (vm_cmd vhdr =? VLINKNLCMD_START_HOOK_DEVICE) then ret NETLINK_VLINK_RX_NXT
  else
    root <- dev_get_by_name (c_str (vm_real_name vhdr));;
    if root =? 0 then ret NETLINK_VLINK_RX_EMERG
    else
      d <- get_dev root;;
      if has_flag (nd_priv_flags d) IFF_VLINK_DEV then dev_put root;; ret NETLINK_VLINK_RX_EMERG
      else if fb_eth_dev_is_bridged d then dev_put root;; ret NETLINK_VLINK_RX_STOP
      else if fb_ethvlink_real_dev_is_hooked d then dev_put root;; ret NETLINK_VLINK_RX_STOP
      else
        rtnl_lock;;
        r <- netdev_rx_handler_register root M_ethvlink;;
        rtnl_unlock;;
        if negb (r =? 0) then dev_put root;; ret NETLINK_VLINK_RX_EMERG
        else
          mod_dev root fb_ethvlink_make_real_dev_hooked;;
          dev_put root;; ret NETLINK_VLINK_RX_STOP.

(** The hook of a carrier is taken off. *)
Definition unhook_root (root : addr) : M unit :=
  rtnl_lock;;
  netdev_rx_handler_unregister root;;
  rtnl_unlock;;
  mod_dev root fb_ethvlink_make_real_dev_unhooked.

Definition fb_ethvlink_stop_hook_dev (vhdr : vlinknlmsg) : M Z :=
  if negb (vm_cmd vhdr =? VLINKNLCMD_STOP_HOOK_DEVICE) then ret NETLINK_VLINK_RX_NXT
  else
    root <- dev_get_by_name (c_str (vm_real_name vhdr));;
    if root =? 0 then ret NETLINK_VLINK_RX_EMERG
    else
      d <- get_dev root;;
      if has_flag (nd_priv_flags d) IFF_VLINK_DEV then dev_put root;; ret NETLINK_VLINK_RX_EMERG
      else if negb (fb_ethvlink_real_dev_is_hooked d) then dev_put root;; ret NETLINK_VLINK_RX_STOP
      else unhook_root root;; dev_put root;; ret NETLINK_VLINK_RX_STOP.

Definition fb_ethvlink_rm_dev_common (notify : addr -> M unit) (dev : addr) : M unit :=
  mod_dev dev (set_carrier false);;
  rtnl_lock;;
  unregister_netdevice notify dev;;
  rtnl_unlock.

(** The virtual devices on a carrier. *)
Fixpoint count_vdevs (vdevs : list addr) (root : addr) (count : nat) : M nat :=
  match vdevs with
  | [] => ret count
  | a :: vdevs' =>
      v <- netdev_priv a;;
      count_vdevs vdevs' root (if root =? vd_real_dev v then S count else count)
  end.

Definition fb_ethvlink_rm_dev (notify : addr -> M unit) (vhdr : vlinknlmsg) : M Z :=
  if negb (vm_cmd vhdr =? VLINKNLCMD_RM_DEVICE) then ret NETLINK_VLINK_RX_NXT
  else
    dev <- dev_get_by_name (c_str (vm_virt_name vhdr));;
    if dev =? 0 then ret NETLINK_VLINK_RX_EMERG
    else
      d <- get_dev dev;;
      if negb (has_flag (nd_priv_flags d) IFF_VLINK_DEV) then dev_put dev;; ret NETLINK_VLINK_RX_EMERG
      else if has_flag (nd_flags d) IFF_RUNNING then dev_put dev;; ret NETLINK_VLINK_RX_EMERG
      else
        dev_priv <- netdev_priv dev;;
        b <- get_fb (vd_fb dev_priv);;
        if 2 <? fb_refcnt b then dev_put dev;; ret NETLINK_VLINK_RX_EMERG
        else
          dev_put dev;;
          vdevs <- get (fun k => fb_ethvlink_vdevs (k_net k));;
          count <- count_vdevs vdevs (vd_real_dev dev_priv) 0;;
          (if (count =? 1)%nat then
             rd <- get_dev (vd_real_dev dev_priv);;
             when fb_ethvlink_real_dev_is_hooked rd do unhook_root (vd_real_dev dev_priv)
           else ret tt);;
          locked_vdevs (filter (.≠ dev));;
          fb_ethvlink_destroy_fblock (vd_fb dev_priv);;
          fb_ethvlink_rm_dev_common notify dev;;
          ret NETLINK_VLINK_RX_STOP.

(** ** Events of the kernel's devices *)

(** The link of every virtual device on the carrier follows it. *)
Fixpoint transfer_operstates (vdevs : list addr) (dev : addr) : M unit :=
  match vdevs with
  | [] => ret tt
  | a :: vdevs' =>
      v <- netdev_priv a;;
      when vd_real_dev v =? dev do
        (rd <- get_dev dev;; mod_dev (vd_self v) (netif_stacked_transfer_operstate rd));;
      transfer_operstates vdevs' dev
  end.

(** The virtual devices on a carrier that goes away are to be removed by name
    with [rm]. *)
Fixpoint remove_vdevs (rm : vlinknlmsg -> M Z) (vdevs : list addr) (dev : addr) : M unit :=
  match vdevs with
  | [] => ret tt
  | a :: vdevs' =>
      v <- netdev_priv a;;
      when vd_real_dev v =? dev do
        (d <- get_dev (vd_self v);;
         let virt_name := (strlcpy (replicate IFNAMSIZ 0) (nd_name d) (length (nd_name d))).2 in
         rm (Vmsg VLINKNLCMD_RM_DEVICE 0 0 0 virt_name (replicate IFNAMSIZ 0));; ret tt);;
      get_dev a;;
      remove_vdevs rm vdevs' dev
  end.

Definition fb_ethvlink_dev_event (rm : vlinknlmsg -> M Z) (event : netdev_event) (dev : addr) : M Z :=
  if dev =? 0 then ret NOTIFY_DONE
  else
    match event with
    | NETDEV_CHANGE =>
        rcu_read_lock;;
        vdevs <- get (fun k => fb_ethvlink_vdevs (k_net k));;
        transfer_operstates vdevs dev;;
        rcu_read_unlock;;
        ret NOTIFY_DONE
    | NETDEV_UNREGISTER =>
        d <- get_dev dev;;
        if negb (bool_decide (nd_reg d = NETREG_UNREGISTERING)) then ret NOTIFY_DONE
        else
          b <- get (fun k => n_vdevs_lock (k_net k));;
          if b : bool then crash Deadlock
          else
            upd (upd_net (net_vdevs_lock true));;
            vdevs <- get (fun k => fb_ethvlink_vdevs (k_net k));;
            remove_vdevs rm vdevs dev;;
            upd (upd_net (net_vdevs_lock false));;
            ret NOTIFY_DONE
    | NETDEV_PRE_TYPE_CHANGE => ret NOTIFY_BAD
    | NETDEV_FEAT_CHANGE | NETDEV_UP => ret NOTIFY_DONE
    end.

(** The notifier as [unregister_netdevice] calls it; removing a device from
    within it unregisters one more device, no more than [n] deep. *)
Fixpoint fb_ethvlink_notify (n : nat) (dev : addr) : M unit :=
  match n with
  | O => crash Endless_loop
  | S n' => fb_ethvlink_dev_event (fb_ethvlink_rm_dev (fb_ethvlink_notify n')) NETDEV_UNREGISTER dev;; ret tt
  end.

Definition notify_depth : nat := 2.
Definition notifier : addr -> M unit := fb_ethvlink_notify notify_depth.

(** Unloading with devices left. *)
Fixpoint remove_all (vdevs : list addr) : M unit :=
  match vdevs with
  | [] => ret tt
  | a :: vdevs' =>
      v <- netdev_priv a;;
      rd <- get_dev (vd_real_dev v);;
      when fb_ethvlink_real_dev_is_hooked rd do unhook_root (vd_real_dev v);;
      fb_ethvlink_rm_dev_common notifier (vd_self v);;
      get_dev a;;
      remove_all vdevs'
  end.

(** ** The module *)

Definition fb_ethvlink_sys : addr := 704.
Definition fb_ethvlink_add_dev_cb : addr := 768.
Definition fb_ethvlink_rm_dev_cb : addr := 832.
Definition fb_ethvlink_start_hook_dev_cb : addr := 896.
Definition fb_ethvlink_stop_hook_dev_cb : addr := 960.

Definition fb_ethvlink_callback (f : Z) (vhdr : vlinknlmsg) : M Z :=
  if f =? 3 then fb_ethvlink_add_dev notifier vhdr
  else if f =? 4 then fb_ethvlink_rm_dev notifier vhdr
  else if f =? 5 then fb_ethvlink_start_hook_dev vhdr
  else fb_ethvlink_stop_hook_dev vhdr.

Definition fb_ethvlink_objects (s : vstate (W := fault + kernel)) : vstate :=
  put_cb fb_ethvlink_add_dev_cb (Callback NETLINK_VLINK_PRIO_NORM 3 0)
    (put_cb fb_ethvlink_rm_dev_cb (Callback NETLINK_VLINK_PRIO_NORM 4 0)
      (put_cb fb_ethvlink_start_hook_dev_cb (Callback NETLINK_VLINK_PRIO_HIGH 5 0)
        (put_cb fb_ethvlink_stop_hook_dev_cb (Callback NETLINK_VLINK_PRIO_HIGH 6 0)
          (set_subsys fb_ethvlink_sys
            (Subsys [101; 116; 104; 45; 116; 97; 103; 103; 101; 100] VLINKNLGRP_ETHERNET 0 6 0) s)))).

(** [link_ret] is the result of [rtnl_link_register]. *)
Definition init_fb_ethvlink_module (link_ret : Z) (s : vstate (W := fault + kernel)) : option (Z * vstate) :=
  '(r, s) ← vlink_subsys_register fb_ethvlink_sys s;
  if negb (r =? 0) then Some (r, s)
  else
    '(_, s) ← vlink_add_callback fb_ethvlink_sys fb_ethvlink_add_dev_cb s;
    '(_, s) ← vlink_add_callback fb_ethvlink_sys fb_ethvlink_rm_dev_cb s;
    '(_, s) ← vlink_add_callback fb_ethvlink_sys fb_ethvlink_start_hook_dev_cb s;
    '(_, s) ← vlink_add_callback fb_ethvlink_sys fb_ethvlink_stop_hook_dev_cb s;
    if negb (link_ret =? 0) then
      s ← vlink_subsys_unregister_batch fb_ethvlink_sys s;
      Some (link_ret, s)
    else Some (0, s).

Definition cleanup_fb_ethvlink_module (s : vstate (W := fault + kernel)) : option vstate :=
  match v_world s with
  | inl _ => None
  | inr k =>
      match (rcu_read_lock;; vdevs <- get (fun k => fb_ethvlink_vdevs (k_net k));;
             remove_all vdevs;; rcu_read_unlock) k with
      | Crash _ => None
      | Ret _ k' => vlink_subsys_unregister_batch fb_ethvlink_sys (set_world (inr k') s)
      end
  end.
End vdevs.
