(* ===== verification/FbPflana.v ===== *)
(** * Sockets (src/fb_pflana.c)

    A socket of the family PF_LANA is a functional block: what the engine
    brings to the block is queued for [recvmsg], and what is sent with
    [sendmsg] goes to the block its egress port is bound to.

    What the module uses of the kernel's socket layer is modelled on the tables
    of sockets of the state.  [ptr_text] is the text "%p" gives for a pointer:
    the name of a socket's block. *)
From Stdlib Require Import ZArith Lia.
From stdpp Require Import base gmap numbers countable list.
From S2P Require Import Prelude CString CritbitTree NameMap Types NetTypes Kernel NetDev EthvlinkDev Fblock PerCpu Engine.

Local Open Scope Z_scope.
Local Open Scope kernel_scope.

Definition AF_LANA : Z := 27.
Definition LANA_PROTO_AUTO : Z := 0.
Definition LANA_PROTO_RAW : Z := 1.
Definition LANA_NPROTO : Z := 2.

Definition SOCK_RAW : Z := 3.
Definition ETH_P_ALL : Z := 3.
Definition MSG_PEEK : Z := 2.
Definition MSG_DONTWAIT : Z := 64.
Definition MSG_TRUNC : Z := 32.
Definition RCV_SHUTDOWN : Z := 1.
Definition POLLIN : Z := 1.
Definition POLLRDNORM : Z := 64.
(** [sizeof(struct sockaddr)] *)
Definition sockaddr_size : Z := 16.

Record sockaddr := Sockaddr { sa_family : Z; sa_data : list Z }.

(** [struct msghdr]: the address, if any, with the length given for it, the
    bytes that can be read at the caller's buffer, and flags. *)
Record msghdr := Msghdr {
  msg_addr : option sockaddr;
  msg_namelen : Z;
  msg_iov : list Z;
  msg_flags : Z;
}.

(** ** Fields of a socket *)

Definition with_sk_refcnt (v : Z) (s : lana_sock) : lana_sock :=
  LanaSock v (sk_receive_queue s) (sk_rcvbuf s) (sk_bound_dev_if s) (sk_shutdown s) (sk_protocol s)
    (sk_type s) (sk_destruct s) (ls_fb s) (ls_ifindex s) (ls_bound s).
Definition with_sk_queue (v : list addr) (s : lana_sock) : lana_sock :=
  LanaSock (sk_refcnt s) v (sk_rcvbuf s) (sk_bound_dev_if s) (sk_shutdown s) (sk_protocol s)
    (sk_type s) (sk_destruct s) (ls_fb s) (ls_ifindex s) (ls_bound s).
Definition with_sk_protocol (v : Z) (s : lana_sock) : lana_sock :=
  LanaSock (sk_refcnt s) (sk_receive_queue s) (sk_rcvbuf s) (sk_bound_dev_if s) (sk_shutdown s) v
    (sk_type s) (sk_destruct s) (ls_fb s) (ls_ifindex s) (ls_bound s).
Definition with_sk_destruct (v : bool) (s : lana_sock) : lana_sock :=
  LanaSock (sk_refcnt s) (sk_receive_queue s) (sk_rcvbuf s) (sk_bound_dev_if s) (sk_shutdown s) (sk_protocol s)
    (sk_type s) v (ls_fb s) (ls_ifindex s) (ls_bound s).
Definition with_ls_fb (v : addr) (s : lana_sock) : lana_sock :=
  LanaSock (sk_refcnt s) (sk_receive_queue s) (sk_rcvbuf s) (sk_bound_dev_if s) (sk_shutdown s) (sk_protocol s)
    (sk_type s) (sk_destruct s) v (ls_ifindex s) (ls_bound s).
Definition with_ls_dev (i : Z) (b : bool) (s : lana_sock) : lana_sock :=
  LanaSock (sk_refcnt s) (sk_receive_queue s) (sk_rcvbuf s) (sk_bound_dev_if s) (sk_shutdown s) (sk_protocol s)
    (sk_type s) (sk_destruct s) (ls_fb s) i b.

Definition socks_of (f : gmap addr lana_sock -> gmap addr lana_sock) (p : pf_state) : pf_state :=
  Pf (f (pf_socks p)) (pf_sockets p) (pf_lps p) (proto_tab p) (proto_tab_lock p)
    (pf_proto_registered p) (pf_family_registered p).
Definition sockets_of (f : gmap addr socket -> gmap addr socket) (p : pf_state) : pf_state :=
  Pf (pf_socks p) (f (pf_sockets p)) (pf_lps p) (proto_tab p) (proto_tab_lock p)
    (pf_proto_registered p) (pf_family_registered p).
Definition lps_of (f : gmap addr lana_protocol -> gmap addr lana_protocol) (p : pf_state) : pf_state :=
  Pf (pf_socks p) (pf_sockets p) (f (pf_lps p)) (proto_tab p) (proto_tab_lock p)
    (pf_proto_registered p) (pf_family_registered p).
Definition tab_of (f : list addr -> list addr) (p : pf_state) : pf_state :=
  Pf (pf_socks p) (pf_sockets p) (pf_lps p) (f (proto_tab p)) (proto_tab_lock p)
    (pf_proto_registered p) (pf_family_registered p).
Definition tab_lock_of (b : bool) (p : pf_state) : pf_state :=
  Pf (pf_socks p) (pf_sockets p) (pf_lps p) (proto_tab p) b
    (pf_proto_registered p) (pf_family_registered p).
Definition registered_of (proto family : bool) (p : pf_state) : pf_state :=
  Pf (pf_socks p) (pf_sockets p) (pf_lps p) (proto_tab p) (proto_tab_lock p) proto family.

(** ** Ports *)

Definition fb_pflana_bind_cpu (dir : path_type) (idp : Z) (p : fb_pflana_priv) : option fb_pflana_priv :=
  if port (pp_port p) dir =? IDP_UNKNOWN
  then Some (PflanaPriv (set_port (pp_port p) dir idp) (pp_sock_self p)) else None.

Definition fb_pflana_unbind_cpu (dir : path_type) (idp : Z) (p : fb_pflana_priv) : option fb_pflana_priv :=
  if port (pp_port p) dir =? idp
  then Some (PflanaPriv (set_port (pp_port p) dir IDP_UNKNOWN) (pp_sock_self p)) else None.

Section block.
Context `{Nm : NameMap, Ka : KernelApi}.

Definition pf (k : kernel) : pf_state := n_pf (k_net k).
Definition upd_pf (f : pf_state -> pf_state) : kernel -> kernel := upd_net (net_pf f).

Definition get_sk (a : addr) : M lana_sock := deref (fun k => pf_socks (pf k)) a.
Definition mod_sk (a : addr) (f : lana_sock -> lana_sock) : M unit :=
  s <- get_sk a;; upd (upd_pf (socks_of <[a := f s]>)).

Definition pflana_priv (a : addr) : M (list fb_pflana_priv) :=
  p <- deref k_privs a;;
  match p with PrivPflana l => ret l | _ => crash Bad_cast end.

Lemma pflana_priv_run k a l : a <> 0 -> k_privs k !! a = Some (PrivPflana l) -> pflana_priv a k = Ret l k.
Proof. intros. unfold pflana_priv. by erewrite bind_run by (by apply deref_run). Qed.

Definition this_pflana_priv (a : addr) : M fb_pflana_priv :=
  l <- pflana_priv a;;
  cpu <- get k_cpu;;
  match l !! cpu with Some p => ret p | None => crash (Bad_access a) end.

(** The memory the packets of a queue are charged for. *)
Definition rmem (k : kernel) (q : list addr) : Z :=
  foldr (fun a n => n + match k_skbs k !! a with Some s => skb_truesize (skb_len s) | None => 0 end) 0 q.

(** [sock_queue_rcv_skb]: at the end of the receive queue, if the socket's
    limit has not been reached; the packet no longer belongs to a device. *)
Definition sock_queue_rcv_skb (sk skb : addr) : M Z :=
  s <- get_sk sk;;
  p <- get_skb skb;;
  used <- get (fun k => rmem k (sk_receive_queue s));;
  if sk_rcvbuf s <=? used + skb_truesize (skb_len p) then ret (- ENOMEM)
  else
    mod_skb skb (set_dev 0);;
    mod_sk sk (with_sk_queue (sk_receive_queue s ++ [skb]));;
    ret 0.

Definition fb_pflana_netrx (fb skb : addr) (dir : path_type) : M (Z * path_type) :=
  b <- get_fb fb;;
  p <- this_pflana_priv (fb_private_data b);;
  let sk := pp_sock_self p in
  s <- get_skb skb;;
  skb' <- (if negb (skb_users s =? 1) then
             nskb <- skb_clone skb;;
             if nskb =? 0 then ret skb
             else kfree_skb skb;; sock_queue_rcv_skb sk nskb;; ret nskb
           else sock_queue_rcv_skb sk skb;; ret skb);;
  mod_skb skb' (fun s => write_next_idp_to_skb s (fb_idp b) IDP_UNKNOWN);;
  ret (PPE_HALT, dir).

Definition fb_pflana_event (self : fblock_notifier) (ev : fblock_event) : M Z :=
  rcu_read_lock;;
  let fb := fn_self self in
  b <- get_fb fb;;
  let fb_priv := fb_private_data b in
  rcu_read_unlock;;
  match ev with
  | FBLOCK_BIND_IDP dir idp =>
      l <- pflana_priv fb_priv;;
      let '(l', _, ok) := percpu_loop (fb_pflana_bind_cpu dir idp) l in
      upd (upd_privs <[fb_priv := PrivPflana l']>);;
      ret (if ok : bool then NOTIFY_OK else NOTIFY_BAD)
  | FBLOCK_UNBIND_IDP dir idp =>
      l <- pflana_priv fb_priv;;
      let '(l', _, ok) := percpu_loop (fb_pflana_unbind_cpu dir idp) l in
      upd (upd_privs <[fb_priv := PrivPflana l']>);;
      ret (if ok : bool then NOTIFY_OK else NOTIFY_BAD)
  | FBLOCK_SET_OPT _ _ | FBLOCK_DOWN_PREPARE | FBLOCK_DOWN _ => ret NOTIFY_OK
  end.
End block.

(** ** Sockets *)

Section sockets.
Context `{Nm : NameMap, Ka : KernelApi, !FblockOps}.
Variable ptr_text : addr -> cstr.

(** The port is read in a seqlock loop whose last round counts. *)
Definition get_bound_fblock (self : addr) (dir : path_type) : M addr :=
  b <- get_fb self;;
  p <- this_pflana_priv (fb_private_data b);;
  search_fblock (port (pp_port p) dir).

Definition fb_pflana_build_fblock (name : cstr) : M addr :=
  fb <- alloc_fblock;;
  if fb =? 0 then ret 0
  else
    fb_priv <- alloc_percpu (fun n => PrivPflana (replicate n (PflanaPriv (Ports IDP_UNKNOWN IDP_UNKNOWN) 0)));;
    if fb_priv =? 0 then kfree_fblock fb;; ret 0
    else
      r <- init_fblock fb name fb_priv;;
      if negb (r =? 0) then free_percpu fb_priv;; kfree_fblock fb;; ret 0
      else
        mod_fb fb (with_rx M_pflana M_pflana);;
        mod_fb fb (with_factory 0);;
        r <- register_fblock_namespace fb;;
        if negb (r =? 0) then
          cleanup_fblock_ctor fb;; free_percpu fb_priv;; kfree_fblock fb;; ret 0
        else module_get M_pflana;; ret fb.

Definition fb_pflana_destroy_fblock (fb : addr) : M unit :=
  unregister_fblock_namespace_no_rcu fb;;
  cleanup_fblock fb;;
  b <- get_fb fb;;
  free_percpu (fb_private_data b);;
  kfree_fblock fb;;
  module_put M_pflana.

Definition set_sock_self (sk : addr) (p : fb_pflana_priv) : fb_pflana_priv := PflanaPriv (pp_port p) sk.

Definition lana_sk_init (sk : addr) : M Z :=
  fb <- fb_pflana_build_fblock (take 31 (ptr_text sk));;
  mod_sk sk (with_ls_fb fb);;
  if fb =? 0 then ret (- ENOMEM)
  else
    b <- get_fb fb;;
    l <- pflana_priv (fb_private_data b);;
    upd (upd_privs <[fb_private_data b := PrivPflana (set_sock_self sk <$> l)]>);;
    ret 0.

Definition lana_sk_free (sk : addr) : M unit :=
  lana <- get_sk sk;;
  fb_bound <- get_bound_fblock (ls_fb lana) TYPE_INGRESS;;
  when negb (fb_bound =? 0) do (fblock_unbind fb_bound (ls_fb lana);; put_fblock fb_bound);;
  fb_bound <- get_bound_fblock (ls_fb lana) TYPE_EGRESS;;
  when negb (fb_bound =? 0) do (fblock_unbind (ls_fb lana) fb_bound;; put_fblock fb_bound);;
  fb_pflana_destroy_fblock (ls_fb lana).

Definition lana_proto_destruct (sk : addr) : M unit :=
  s <- get_sk sk;;
  skb_queue_purge (sk_receive_queue s);;
  mod_sk sk (with_sk_queue []).

(** [sock_put]: the last reference calls the destructor and frees. *)
Definition sock_put (sk : addr) : M unit :=
  mod_sk sk (fun s => with_sk_refcnt (s32 (sk_refcnt s - 1)) s);;
  s <- get_sk sk;;
  if sk_refcnt s =? 0 then
    when sk_destruct s do lana_proto_destruct sk;;
    upd (upd_pf (socks_of (delete sk)))
  else ret tt.

(** [sk_common_release] takes the socket out of the protocol's tables, of
    which there are none, and drops the reference of the owner. *)
Definition lana_proto_close (sk : addr) : M unit := sock_put sk.

Definition lana_raw_release (sock : addr) : M Z :=
  so <- deref (fun k => pf_sockets (pf k)) sock;;
  let sk := so_sk so in
  if sk =? 0 then ret 0
  else
    upd (upd_pf (sockets_of <[sock := Socket (so_type so) 0]>));;
    lana_proto_close sk;;
    lana_sk_free sk;;
    ret 0.

Definition socket_sk (sock : addr) : M addr :=
  so <- deref (fun k => pf_sockets (pf k)) sock;; ret (so_sk so).

(** A [char] is signed. *)
Definition s8 (z : Z) : Z := (z + 128) mod 256 - 128.

Definition lana_raw_bind (sock : addr) (sa : sockaddr) (len : Z) : M Z :=
  sk <- socket_sk sock;;
  if len <? sockaddr_size then ret (- EINVAL)
  else if negb (sa_family sa =? AF_LANA) then ret (- EINVAL)
  else
    let idx := s8 (nth 0 (sa_data sa) 0) in
    dev <- dev_get_by_index idx;;
    if dev =? 0 then ret (- ENODEV)
    else
      mod_sk sk (with_ls_dev idx true);;
      dev_put dev;;
      ret 0.

Definition lana_raw_poll (sock : addr) : M Z :=
  sk <- socket_sk sock;;
  s <- get_sk sk;;
  ret (match sk_receive_queue s with [] => 0 | _ => Z.lor POLLIN POLLRDNORM end).

(** ** Sending *)

(** [dev_getfirstbyhwtype] *)
Definition dev_getfirstbyhwtype (type : Z) : M addr :=
  devs <- get (fun k => n_devs (k_net k));;
  let a := listed (fun d => nd_type d =? type) devs in
  when negb (a =? 0) do dev_hold a;;
  ret a.

(** A packet of the caller's bytes; its Ethernet header is at their start. *)
Definition sent_skb (data : list Z) (dev : addr) : sk_buff :=
  Skb (Z.of_nat (length data)) data (LanaInf 0 0 0 0 0 TYPE_INGRESS) 1
    (EthInfo dev 0 (take 6 (drop 6 data)) (nth 12 data 0 + 256 * nth 13 data 0)).

Definition lana_proto_sendmsg (rounds : list fb_pflana_priv) (pkts hops : nat) (sk : addr) (msg : msghdr)
    (len : Z) : M Z :=
  lana <- get_sk sk;;
  let fb := ls_fb lana in
  match msg_addr msg with
  | None => ret (- EDESTADDRREQ)
  | Some target =>
      if u64 (msg_namelen msg) <? sockaddr_size then ret (- EINVAL)
      else if negb (sa_family target =? AF_LANA) then ret (- EAFNOSUPPORT)
      else
        dev <- (if negb (sk_bound_dev_if lana =? 0) || ls_bound lana
                then dev_get_by_index (if ls_bound lana then ls_ifindex lana else sk_bound_dev_if lana)
                else dev_getfirstbyhwtype ETH_P_ALL);;
        ok <- (if dev =? 0 then ret false
               else d <- get_dev dev;;
                    ret (negb (Z.land (nd_flags d) IFF_UP =? 0) && negb (nd_mtu d <? len)));;
        if negb (ok : bool) then dev_put dev;; ret (- EIO)
        else
          skb <- kmalloc upd_skbs (sent_skb [] 0);;
          if skb =? 0 then dev_put dev;; ret (sock_alloc_err sk len (Z.land (msg_flags msg) MSG_DONTWAIT))
          else if Z.of_nat (length (msg_iov msg)) <? len then
            kfree_skb skb;; dev_put dev;; ret (- EFAULT)
          else
            mod_skb skb (fun _ => sent_skb (take (Z.to_nat len) (msg_iov msg)) dev);;
            dev_put dev;;
            rcu_read_lock;;
            b <- get_fb fb;;
            p <- this_pflana_priv (fb_private_data b);;
            let rounds := match rounds with [] => [p] | _ => rounds end in
            mod_skb skb (fun s => fold_left (fun s q =>
              write_next_idp_to_skb s (fb_idp b) (port (pp_port q) TYPE_EGRESS)) rounds s);;
            process_packet pkts hops skb TYPE_EGRESS;;
            rcu_read_unlock;;
            ret len
  end.

Definition lana_raw_sendmsg (rounds : list fb_pflana_priv) (pkts hops : nat) (sock : addr) (msg : msghdr)
    (len : Z) : M Z :=
  sk <- socket_sk sock;;
  lana_proto_sendmsg rounds pkts hops sk msg len.

(** ** Receiving *)

(** [skb_recv_datagram]: the first packet of the queue, which stays there when
    the caller peeks; [wait] is the error if there is none, or none arrives. *)
Definition skb_recv_datagram (sk : addr) (flags wait : Z) : M (Z * addr) :=
  s <- get_sk sk;;
  match sk_receive_queue s with
  | [] => ret (wait, 0)
  | skb :: q =>
      if has_flag flags MSG_PEEK then
        mod_skb skb (fun p => Skb (skb_len p) (skb_data p) (skb_cb p) (skb_users p + 1) (skb_eth p));;
        ret (0, skb)
      else mod_sk sk (with_sk_queue q);; ret (0, skb)
  end.

(** [copy_err] is the result of copying to the caller's buffer.  The result,
    the bytes copied and the message's flags. *)
Definition lana_proto_recvmsg (sk : addr) (msg_fl len flags wait copy_err : Z) : M (Z * list Z * Z) :=
  x <- skb_recv_datagram sk flags wait;;
  let '(err, skb) := x in
  if skb =? 0 then
    s <- get_sk sk;;
    ret (if negb (Z.land (sk_shutdown s) RCV_SHUTDOWN =? 0) then 0 else err, [], msg_fl)
  else
    p <- get_skb skb;;
    let trunc := len <? skb_len p in
    let copied := if trunc then len else skb_len p in
    let msg_fl := if trunc then Z.lor msg_fl MSG_TRUNC else msg_fl in
    kfree_skb skb;;
    ret (if copy_err =? 0 then copied else copy_err,
         if copy_err =? 0 then take (Z.to_nat copied) (skb_data p) else [], msg_fl).

Definition lana_proto_backlog_rcv (sk skb : addr) : M Z := kfree_skb skb;; ret NET_RX_DROP.

(** ** Protocols and the family *)

Definition lana_proto_raw : addr := 1024.

Definition pflana_proto_get (proto : Z) : M addr :=
  if (proto <? 0) || (LANA_NPROTO <=? proto) then ret 0
  else
    tab <- get (fun k => proto_tab (pf k));;
    ret (nth (Z.to_nat proto) tab 0).

(** The kernel's [sk_alloc]: memory that is zero; [sock_init_data] gives the
    socket its first reference and its limit, and an empty queue. *)
Definition sysctl_rmem_default : Z := 212992.

Definition sk_alloc : M addr :=
  kmalloc (fun f => upd_pf (socks_of f)) (LanaSock 0 [] 0 0 0 0 0 false 0 0 false).

Definition sock_init_data (sock sk : addr) : M unit :=
  so <- deref (fun k => pf_sockets (pf k)) sock;;
  mod_sk sk (fun s => LanaSock 1 [] sysctl_rmem_default (sk_bound_dev_if s) 0 (sk_protocol s)
               (so_type so) false (ls_fb s) (ls_ifindex s) (ls_bound s));;
  upd (upd_pf (sockets_of <[sock := Socket (so_type so) sk]>)).

Definition lana_proto_init (sk : addr) : M Z := mod_sk sk (with_sk_destruct true);; ret 0.

(** [init_net]: the socket is in the initial network name space; [capable]:
    its creator has CAP_SYS_ADMIN. *)
Definition lana_family_create (init_net capable : bool) (sock : addr) (protocol : Z) : M Z :=
  if negb init_net then ret (- EAFNOSUPPORT)
  else
    so <- deref (fun k => pf_sockets (pf k)) sock;;
    let choice :=
      if protocol =? LANA_PROTO_AUTO then
        if so_type so =? SOCK_RAW then
          if negb capable then inl (- EPERM) else inr LANA_PROTO_RAW
        else inl (- EPROTONOSUPPORT)
      else inr protocol in
    match choice with
    | inl err => ret err
    | inr protocol =>
        lp <- pflana_proto_get protocol;;
        if lp =? 0 then ret (- EPROTONOSUPPORT)
        else
          sk <- sk_alloc;;
          if sk =? 0 then ret (- ENOMEM)
          else
            r <- lana_sk_init sk;;
            if r <? 0 then sock_put sk;; ret (- ENOMEM)
            else
              sock_init_data sock sk;;
              mod_sk sk (with_sk_protocol protocol);;
              lana_proto_init sk;;
              mod_sk sk (fun s => with_ls_dev (ls_ifindex s) false s);;
              ret 0
    end.

(** [proto_register] of the kernel needs memory; [sock_register] refuses a
    family that is taken. *)
Definition locked_tab (f : list addr -> list addr) : M unit :=
  b <- get (fun k => proto_tab_lock (pf k));;
  if b : bool then crash Deadlock
  else upd (upd_pf (tab_lock_of true));; upd (upd_pf (tab_of f));; upd (upd_pf (tab_lock_of false)).

Definition get_lp (lp : addr) : M lana_protocol := deref (fun k => pf_lps (pf k)) lp.

Definition pflana_proto_register (proto : Z) (lp : addr) : M Z :=
  if (lp =? 0) || (proto <? 0) || (LANA_NPROTO <=? proto) then ret (- EINVAL)
  else
    tab <- get (fun k => proto_tab (pf k));;
    if negb (nth (Z.to_nat proto) tab 0 =? 0) then ret (- EBUSY)
    else
      ok <- alloc_ok;;
      if negb ok then ret (- ENOBUFS)
      else
        upd (fun k => upd_pf (registered_of true (pf_family_registered (pf k))) k);;
        p <- get_lp lp;;
        upd (upd_pf (lps_of <[lp := LanaProtocol proto (lp_owner p)]>));;
        locked_tab <[Z.to_nat proto := lp]>;;
        grace_period;;
        when negb (bool_decide (lp_owner p = M_pflana)) do module_get (lp_owner p);;
        ret 0.

Definition pflana_proto_unregister (lp : addr) : M unit :=
  if lp =? 0 then ret tt
  else
    p <- get_lp lp;;
    if (lp_protocol p <? 0) || (LANA_NPROTO <=? lp_protocol p) then ret tt
    else
      tab <- get (fun k => proto_tab (pf k));;
      let q := nth (Z.to_nat (lp_protocol p)) tab 0 in
      if q =? 0 then ret tt
      else if negb (q =? lp) then crash Kernel_bug
      else
        locked_tab <[Z.to_nat (lp_protocol p) := 0]>;;
        grace_period;;
        upd (fun k => upd_pf (registered_of false (pf_family_registered (pf k))) k);;
        when negb (bool_decide (lp_owner p = M_pflana)) do module_put (lp_owner p).

Definition sock_register : M Z :=
  b <- get (fun k => pf_family_registered (pf k));;
  if b : bool then ret (- EEXIST)
  else upd (fun k => upd_pf (registered_of (pf_proto_registered (pf k)) true) k);; ret 0.

Definition sock_unregister : M unit :=
  upd (fun k => upd_pf (registered_of (pf_proto_registered (pf k)) false) k);; grace_period.

Definition init_fb_pflana : M Z :=
  upd (upd_pf (tab_of (fun _ => replicate (Z.to_nat LANA_NPROTO) 0)));;
  r <- pflana_proto_register LANA_PROTO_RAW lana_proto_raw;;
  if negb (r =? 0) then ret r
  else
    r <- sock_register;;
    if negb (r =? 0) then pflana_proto_unregister lana_proto_raw;; ret r else ret 0.

Fixpoint unregister_protos (n : nat) (i : nat) : M unit :=
  match n with
  | O => ret tt
  | S n' =>
      tab <- get (fun k => proto_tab (pf k));;
      pflana_proto_unregister (nth i tab 0);;
      unregister_protos n' (S i)
  end.

Definition cleanup_fb_pflana : M unit :=
  sock_unregister;;
  unregister_protos (Z.to_nat LANA_NPROTO) 0.

(** The module's static object. *)
Definition fb_pflana_objects : kernel -> kernel :=
  upd_pf (lps_of <[lana_proto_raw := LanaProtocol LANA_PROTO_RAW M_pflana]>).

Definition init_fb_pflana_module : M Z := init_fb_pflana.
Definition cleanup_fb_pflana_module : M unit := grace_period;; cleanup_fb_pflana.
End sockets.
