(* ===== verification/Procfs.v ===== *)
(** * The files of the core in /proc

    [procfs_fblocks] of src/xt_fblock.c lists the blocks and their
    subscriptions, [engine_procfs] of src/xt_engine.c the statistics of the
    CPUs, [vlink_procfs] of src/xt_vlink.c the subsystems.  Each prints into a
    page and returns the number of characters.

    The text "%p" gives for a pointer is a parameter. *)
From Stdlib Require Import ZArith Lia.
From stdpp Require Import base gmap numbers countable list.
From S2P Require Import Prelude CString Digits CritbitTree Text LinkedList Vlink NameMap Types Kernel Fblock.
From S2P Require Import FblockNs FblockLife Engine.

Local Open Scope Z_scope.
Local Open Scope kernel_scope.

(** ** The text *)

(** "vlink", the type shown for a block without factory. *)
Definition vlink_text : cstr := [118; 108; 105; 110; 107].

(** "%s %s %p %u %d [" *)
Definition block_head (fmt_p : addr -> cstr) (fb : addr) (b : fblock) (type : cstr) : cstr :=
  fb_name b ++ [32] ++ type ++ [32] ++ fmt_p fb ++ [32] ++ dec (fb_idp b) ++ [32] ++
  dec_signed (fb_refcnt b) ++ [32; 91].

(** "CPU%u:\t%llu\t%llu\t%llu\t%llu\t%llu\t%u\n" *)
Definition cpu_line (cpu : nat) (st : engine_iostats) (d : engine_disc) : cstr :=
  [67; 80; 85] ++ dec (Z.of_nat cpu) ++ [58; 9] ++ dec (es_pkts st) ++ [9] ++ dec (es_bytes st) ++ [9] ++
  dec (es_fblocks st) ++ [9] ++ dec (es_timer st) ++ [9] ++ dec (es_timer_cpu_miss st) ++ [9] ++
  dec (Z.of_nat (length (ed_queue d))) ++ [10].

(** "%s %u %u\n" *)
Definition subsys_line (vs : vlink_subsys) : cstr :=
  vs_name vs ++ [32] ++ dec (vs_type vs) ++ [32] ++ dec (vs_id vs) ++ [10].

Arguments block_head : simpl never.
Arguments cpu_line : simpl never.
Arguments subsys_line : simpl never.

Section procfs.
Context `{Nm : NameMap, Ka : KernelApi}.
Variable fmt_p : addr -> cstr.

Definition put (o : option out) : M out :=
  match o with Some o' => ret o' | None => crash Overrun end.

(** ** Blocks *)

(** [while (fn)]: the subscriptions, and whether there were any. *)
Fixpoint print_remotes (fuel : nat) (fn : addr) (has_sub : nat) (o : out) : M (out * nat) :=
  match fuel with
  | O => crash Endless_loop
  | S fuel' =>
      if fn =? 0 then ret (o, has_sub)
      else
        n <- deref k_notifs fn;;
        o <- put (print (dec (fn_remote n) ++ [32]) o);;
        print_remotes fuel' (fn_next n) 1 o
  end.

Definition print_block (fb : addr) (o : out) : M out :=
  b <- get_fb fb;;
  type <- (if fb_factory b =? 0 then ret vlink_text
           else f <- deref k_factories (fb_factory b);; ret (fac_type f));;
  o <- put (print (block_head fmt_p fb b type) o);;
  fuel <- get notifs_fuel;;
  x <- print_remotes fuel (fb_notifiers b) 0 o;;
  let '(o, has_sub) := x in
  put (print_back has_sub [93; 10] o).

(** [for (i = 0; i <= max; ++i)] *)
Fixpoint print_blocks (fuel : nat) (i max : Z) (o : out) : M out :=
  match fuel with
  | O => crash Endless_loop
  | S fuel' =>
      if max <? i then ret o
      else
        t <- get k_fblmap;;
        let fb := radix_lookup t i in
        if fb =? 0 then print_blocks fuel' (s32 (i + 1)) max o
        else
          o <- print_block fb o;;
          print_blocks fuel' (s32 (i + 1)) max o
  end.

Definition procfs_fblocks (page : list Z) : M (nat * list Z) :=
  max <- get k_idp_counter;;
  rcu_read_lock;;
  o <- print_blocks (Z.to_nat (max + 2)) 0 max (Out page 0);;
  rcu_read_unlock;;
  ret (o_len o, o_page o).

(** ** Engine *)

Fixpoint print_cpus (cpu : nat) (sts : list engine_iostats) (ds : list engine_disc) (o : out) : M out :=
  match sts, ds with
  | st :: sts', d :: ds' =>
      o <- put (print (cpu_line cpu st d) o);;
      print_cpus (S cpu) sts' ds' o
  | _, _ => ret o
  end.

Definition engine_procfs (page : list Z) : M (nat * list Z) :=
  sts <- get k_iostats;;
  ds <- get k_emdiscs;;
  o <- print_cpus 0 sts ds (Out page 0);;
  ret (o_len o, o_page o).

(** ** What is shown *)

(** The subscriptions separated by spaces. *)
Fixpoint spaced (rs : list Z) : cstr :=
  match rs with
  | [] => []
  | [r] => dec r
  | r :: rs' => dec r ++ 32 :: spaced rs'
  end.

(** The line of a block.  When there are subscriptions, the closing bracket
    overwrites the last space, and the NUL behind the line counts as a
    character of it. *)
Definition block_line (fb : addr) (b : fblock) (type : cstr) (rs : list Z) : cstr :=
  block_head fmt_p fb b type ++ spaced rs ++ [93; 10] ++ match rs with [] => [] | _ => [0] end.

(** [shows k fb t]: [t] is the line of the block at [fb]. *)
Definition shows (k : kernel) (fb : addr) (t : cstr) : Prop :=
  exists b type l ns, fb <> 0 /\ k_fblocks k !! fb = Some b /\
    (fb_factory b = 0 /\ type = vlink_text \/
     fb_factory b <> 0 /\ exists f, k_factories k !! fb_factory b = Some f /\ type = fac_type f) /\
    linked fn_next (k_notifs k) (fb_notifiers b) l /\
    Forall2 (fun a n => k_notifs k !! a = Some n) l ns /\ t = block_line fb b type (fn_remote <$> ns).

(** The lines of the blocks with the IDPs of a list. *)
Inductive listing (k : kernel) : list Z -> cstr -> Prop :=
| listing_nil : listing k [] []
| listing_skip i il t : fbl_lookup k i = 0 -> listing k il t -> listing k (i :: il) t
| listing_block i il t1 t2 :
    fbl_lookup k i <> 0 -> shows k (fbl_lookup k i) t1 -> listing k il t2 -> listing k (i :: il) (t1 ++ t2).

(** ** The listing is what is printed *)

Lemma put_run s n t o k :
  holds_text n t o -> (length t + length s < n)%nat ->
  exists o', put (print s o) k = Ret o' k /\ holds_text n (t ++ s) o'.
Proof. intros Ho Hf. destruct (print_run n t s o Ho Hf) as (o' & -> & Ho'). eauto. Qed.

(** Every subscription with its space. *)
Definition remotes_text (rs : list Z) : cstr := concat ((fun r => dec r ++ [32]) <$> rs).

Lemma remotes_spaced r rs : remotes_text (r :: rs) = spaced (r :: rs) ++ [32].
Proof.
  revert r. induction rs as [|r' rs IH]; intros r.
  { change (remotes_text [r]) with ((dec r ++ [32]) ++ []). by rewrite app_nil_r. }
  change (remotes_text (r :: r' :: rs)) with ((dec r ++ [32]) ++ remotes_text (r' :: rs)).
  rewrite IH. change (spaced (r :: r' :: rs)) with (dec r ++ 32 :: spaced (r' :: rs)).
  by rewrite <- !app_assoc.
Qed.

Lemma print_remotes_run k n l : forall ns fn fuel has_sub t o,
  linked fn_next (k_notifs k) fn l -> Forall2 (fun a x => k_notifs k !! a = Some x) l ns ->
  (length l < fuel)%nat -> holds_text n t o ->
  (length t + length (remotes_text (fn_remote <$> ns)) < n)%nat ->
  exists o', print_remotes fuel fn has_sub o k =
      Ret (o', match ns with [] => has_sub | _ => 1%nat end) k /\
    holds_text n (t ++ remotes_text (fn_remote <$> ns)) o'.
Proof.
  induction l as [|x l IH]; intros ns fn [|fuel] has_sub t o Hl HF Hf Ho Hfit; simpl in Hf; try lia.
  - inversion HF; subst. simpl in Hl. subst fn. exists o. simpl. by rewrite app_nil_r.
  - destruct Hl as (-> & Hx & y & Hy & Hl). inversion HF as [|? y' ? ns' Hy' HF']; subst.
    rewrite Hy in Hy'. injection Hy' as <-. simpl. destruct (Z.eqb_spec x 0); [done|].
    change (remotes_text (fn_remote <$> y :: ns')) with
      ((dec (fn_remote y) ++ [32]) ++ remotes_text (fn_remote <$> ns')) in *.
    rewrite length_app in Hfit.
    destruct (put_run (dec (fn_remote y) ++ [32]) n t o k Ho) as (o1 & Hp & Ho1); [lia|].
    destruct (IH ns' (fn_next y) fuel 1%nat (t ++ dec (fn_remote y) ++ [32]) o1 Hl HF') as (o2 & Hr & Ho2);
      [lia|exact Ho1|rewrite length_app; lia|].
    exists o2. erewrite bind_run by (by apply deref_run). rewrite (bind_run _ _ _ _ _ Hp), Hr.
    split; [by destruct ns'|by rewrite <- app_assoc in Ho2].
Qed.

Lemma print_block_run k n fb t1 t o :
  shows k fb t1 -> holds_text n t o -> (length t + length t1 < n)%nat ->
  exists o', print_block fb o k = Ret o' k /\ holds_text n (t ++ t1) o'.
Proof.
  intros (b & type & l & ns & H0 & Hb & Hty & Hl & HF & ->) Ho Hfit.
  unfold block_line in *. set (rs := fn_remote <$> ns) in *. rewrite length_app in Hfit.
  assert (Hrs : (length (remotes_text rs) <= S (length (spaced rs)))%nat).
  { destruct rs; [simpl; lia|]. rewrite remotes_spaced, length_app. simpl. lia. }
  rewrite !length_app in Hfit. simpl in Hfit.
  destruct (put_run (block_head fmt_p fb b type) n t o k Ho) as (o1 & Hp1 & Ho1); [lia|].
  destruct (print_remotes_run k n l ns (fb_notifiers b) (notifs_fuel k) 0
    (t ++ block_head fmt_p fb b type) o1 Hl HF) as (o2 & Hp2 & Ho2);
    [pose proof (linked_fuel _ _ _ _ Hl); unfold notifs_fuel; lia|exact Ho1|fold rs; rewrite length_app; lia|].
  fold rs in Ho2. unfold print_block. erewrite bind_run by (by apply deref_run).
  rewrite (bind_run _ _ k type k).
  2:{ destruct Hty as [[-> ->]|(Hn & f & Hf & ->)]; [done|].
      destruct (Z.eqb_spec (fb_factory b) 0); [done|]. by erewrite bind_run by (by apply deref_run). }
  rewrite (bind_run _ _ _ _ _ Hp1). erewrite bind_run by reflexivity. rewrite (bind_run _ _ _ _ _ Hp2).
  destruct ns as [|y ns].
  - destruct (put_run [93; 10] n _ _ k Ho2) as (o3 & Hp3 & Ho3); [rewrite !length_app; simpl in *; lia|].
    exists o3. split; [exact Hp3|]. simpl in *. rewrite app_nil_r in Ho3. by rewrite <- app_assoc in Ho3.
  - subst rs. rewrite fmap_cons in *. rewrite remotes_spaced in Ho2. simpl in Hfit.
    rewrite app_assoc in Ho2.
    destruct (print_back_run n _ 32 [93; 10] _ Ho2) as (o3 & Hp3 & Ho3);
      [rewrite !length_app; simpl; lia|].
    exists o3. rewrite Hp3. split; [done|].
    by rewrite <- !app_assoc in Ho3.
Qed.

Lemma print_blocks_run k n max : max < 2 ^ 31 - 1 -> forall il t1,
  listing k il t1 -> forall i fuel t o,
  il = seqZ i (max + 1 - i) -> 0 <= i -> (length il < fuel)%nat ->
  holds_text n t o -> (length t + length t1 < n)%nat ->
  exists o', print_blocks fuel i max o k = Ret o' k /\ holds_text n (t ++ t1) o'.
Proof.
  intros Hmax. induction 1 as [|j il t1 Hj _ IH|j il t1 t2 Hj Hs _ IH];
    intros i [|fuel] t o Hil Hi Hf Ho Hfit; simpl in Hf; try lia; simpl print_blocks.
  - destruct (Z.ltb_spec max i); [exists o; by rewrite app_nil_r|].
    rewrite seqZ_cons in Hil by lia. done.
  - destruct (Z.ltb_spec max i); [rewrite seqZ_nil in Hil by lia; done|].
    rewrite seqZ_cons in Hil by lia. injection Hil as -> Hil.
    erewrite bind_run by reflexivity. fold (fbl_lookup k i). rewrite Hj. simpl.
    rewrite s32_small by lia. apply IH; [rewrite Hil; f_equal; lia|lia|lia|done|done].
  - destruct (Z.ltb_spec max i); [rewrite seqZ_nil in Hil by lia; done|].
    rewrite seqZ_cons in Hil by lia. injection Hil as -> Hil. rewrite length_app in Hfit.
    erewrite bind_run by reflexivity. fold (fbl_lookup k i).
    destruct (Z.eqb_spec (fbl_lookup k i) 0); [done|].
    destruct (print_block_run k n _ _ t o Hs Ho) as (o1 & Hp & Ho1); [lia|].
    rewrite (bind_run _ _ _ _ _ Hp), s32_small by lia. rewrite app_assoc.
    apply IH; [rewrite Hil; f_equal; lia|lia|lia|done|rewrite length_app; lia].
Qed.

(** What a listing depends on. *)
Lemma shows_ext k k' fb t :
  k_fblocks k' = k_fblocks k -> k_factories k' = k_factories k -> k_notifs k' = k_notifs k ->
  shows k fb t -> shows k' fb t.
Proof. unfold shows. by intros -> -> ->. Qed.

Lemma listing_ext k k' il t :
  k_fblmap k' = k_fblmap k -> k_fblocks k' = k_fblocks k -> k_factories k' = k_factories k ->
  k_notifs k' = k_notifs k -> listing k il t -> listing k' il t.
Proof.
  intros E1 E2 E3 E4. assert (El : forall i, fbl_lookup k' i = fbl_lookup k i) by (intros; unfold fbl_lookup; by rewrite E1).
  induction 1 as [|i il t Hi _ IH|i il t1 t2 Hi Hs _ IH]; [constructor|..].
  - constructor; [by rewrite El|done].
  - constructor; rewrite ?El; [done| |done]. by apply (shows_ext k).
Qed.

(** reading the file of the blocks returns the lines of all registered
    blocks in the order of their IDPs when they fit into the page; behind the
    line of a block with subscriptions there is a NUL character. *)
Theorem procfs_fblocks_correct k page t :
  0 <= k_idp_counter k < 2 ^ 31 - 1 -> listing k (seqZ 0 (k_idp_counter k + 1)) t ->
  (length t < length page)%nat ->
  exists page', procfs_fblocks page k = Ret (length t, page') k /\ take (length t) page' = t /\
    length page' = length page.
Proof.
  intros Hc Hl Hfit. set (k1 := upd_rcu_nesting S k).
  destruct (print_blocks_run k1 (length page) (k_idp_counter k)) with (il := seqZ 0 (k_idp_counter k + 1))
    (t1 := t) (i := 0) (fuel := Z.to_nat (k_idp_counter k + 2)) (t := @nil Z) (o := Out page 0)
    as (o & Hr & Ho & Hlen & Hn);
    [lia|by apply (listing_ext k)|f_equal; lia|lia|rewrite length_seqZ; lia|apply holds_text_empty|done|].
  exists (o_page o). unfold procfs_fblocks, rcu_read_lock, rcu_read_unlock.
  do 2 (erewrite bind_run by reflexivity). rewrite (bind_run _ _ _ _ _ Hr).
  erewrite bind_run by reflexivity. unfold ret. simpl in *. rewrite Hlen.
  split; [f_equal; by destruct k|]. by split.
Qed.

Lemma print_cpus_run k n : forall sts cpu ds t o,
  let t1 := concat (imap (fun i x => cpu_line (cpu + i) x.1 x.2) (zip sts ds)) in
  holds_text n t o -> (length t + length t1 < n)%nat ->
  exists o', print_cpus cpu sts ds o k = Ret o' k /\ holds_text n (t ++ t1) o'.
Proof.
  induction sts as [|st sts IH]; intros cpu [|d ds] t o t1 Ho Hfit; try (exists o; by rewrite app_nil_r).
  subst t1. change (zip (st :: sts) (d :: ds)) with ((st, d) :: zip sts ds) in *.
  rewrite imap_cons in *. cbn [concat fst snd print_cpus] in *. rewrite Nat.add_0_r in *.
  rewrite length_app in Hfit.
  destruct (put_run (cpu_line cpu st d) n t o k Ho) as (o1 & Hp & Ho1); [lia|].
  rewrite (bind_run _ _ _ _ _ Hp).
  assert (E : imap ((fun i x => cpu_line (cpu + i) x.1 x.2) ∘ S) (zip sts ds) =
              imap (fun i x => cpu_line (S cpu + i) x.1 x.2) (zip sts ds)).
  { apply imap_ext. intros i x _. simpl. by rewrite Nat.add_succ_r. }
  rewrite E in *. rewrite app_assoc. apply IH; [done|]. rewrite length_app. lia.
Qed.

(** reading the file of the engine returns one line for each CPU with its
    counters and the length of its backlog, when they fit into the page. *)
Theorem engine_procfs_correct k page :
  let t := concat (imap (fun cpu x => cpu_line cpu x.1 x.2) (zip (k_iostats k) (k_emdiscs k))) in
  (length t < length page)%nat ->
  exists page', engine_procfs page k = Ret (length t, page') k /\ take (length t) page' = t.
Proof.
  intros t Hfit.
  destruct (print_cpus_run k (length page) (k_iostats k) 0 (k_emdiscs k) [] (Out page 0))
    as (o & Hr & Ho & Hlen & Hn); [apply holds_text_empty|exact Hfit|].
  exists (o_page o). unfold engine_procfs. do 2 (erewrite bind_run by reflexivity).
  rewrite (bind_run _ _ _ _ _ Hr). simpl in *. fold t in Ho, Hlen. by rewrite Hlen.
Qed.
End procfs.

Section vprocfs.
Context {W : Type}.

(** ** Subsystems *)

Fixpoint print_subsystems (s : vstate (W := W)) (tbl : list addr) (o : out) : option out :=
  match tbl with
  | [] => Some o
  | p :: tbl' =>
      if p =? 0 then print_subsystems s tbl' o
      else vs ← v_subsys s !! p; o' ← print (subsys_line vs) o; print_subsystems s tbl' o'
  end.

Definition vlink_procfs (page : list Z) (s : vstate (W := W)) : option (nat * list Z * vstate) :=
  s ← vlink_lock s;
  o ← print_subsystems s (v_table s) (Out page 0);
  Some (o_len o, o_page o, vlink_unlock s).

(** The subsystems of the table. *)
Definition subsystems (s : vstate (W := W)) (tbl : list addr) : list vlink_subsys :=
  omap (fun p => v_subsys s !! p) (filter (.≠ 0) tbl).

Lemma print_subsystems_run s n tbl : forall t o,
  Forall (fun p => p <> 0 -> is_Some (v_subsys s !! p)) tbl -> holds_text n t o ->
  let t1 := concat (subsys_line <$> subsystems s tbl) in
  (length t + length t1 < n)%nat ->
  exists o', print_subsystems s tbl o = Some o' /\ holds_text n (t ++ t1) o'.
Proof.
  induction tbl as [|p tbl IH]; intros t o HF Ho; [exists o; by rewrite app_nil_r|].
  inversion HF as [|? ? Hp HF']; subst. simpl print_subsystems.
  destruct (Z.eqb_spec p 0) as [->|Hp0].
  - change (subsystems s (0 :: tbl)) with (subsystems s tbl). by apply IH.
  - destruct (Hp Hp0) as [vs Hvs].
    assert (E : subsystems s (p :: tbl) = vs :: subsystems s tbl).
    { unfold subsystems. rewrite filter_cons_True by done. simpl. by rewrite Hvs. }
    rewrite E, fmap_cons, Hvs. cbn [concat mbind option_bind]. rewrite length_app. intros Hfit.
    destruct (print_run n t (subsys_line vs) o Ho) as (o1 & -> & Ho1); [lia|]. cbn [mbind option_bind].
    rewrite app_assoc. apply IH; [done|done|]. rewrite length_app. lia.
Qed.

(** reading the file of the virtual links returns one line for each
    registered subsystem in the order of the table, and the lock is free
    again. *)
Theorem vlink_procfs_correct page s :
  v_locked s = false -> Forall (fun p => p <> 0 -> is_Some (v_subsys s !! p)) (v_table s) ->
  let t := concat (subsys_line <$> subsystems s (v_table s)) in
  (length t < length page)%nat ->
  exists page', vlink_procfs page s = Some (length t, page', s) /\ take (length t) page' = t.
Proof.
  intros Hl HF t Hfit.
  destruct (print_subsystems_run (set_locked true s) (length page) (v_table s) [] (Out page 0))
    as (o & Hr & Ho & Hlen & Hn); [done|apply holds_text_empty|exact Hfit|].
  exists (o_page o). unfold vlink_procfs, vlink_lock. rewrite Hl. simpl in *. rewrite Hr. simpl.
  change (concat (subsys_line <$> subsystems (set_locked true s) (v_table s))) with t in Ho, Hlen.
  rewrite Hlen. split; [|done]. f_equal. f_equal. destruct s. simpl in *. by subst.
Qed.
End vprocfs.
