(* ===== verification/Modules.v ===== *)
(** * The modules behind the function pointers

    [lana_ops] dispatches the calls of the core to the module whose function a
    pointer holds; a module's factory is a static object at [factory_addr]. *)
From Stdlib Require Import ZArith Lia.
From stdpp Require Import base gmap numbers countable list.
From S2P Require Import Prelude CString CritbitTree NameMap Types Kernel Fblock FblockNs FblockLife.
From S2P Require Import FblockBind PerCpu Engine FbDummy FbTee FbCounter FbBpf FbEth FbEthvlink FbPflana.

Local Open Scope Z_scope.
Local Open Scope kernel_scope.

#[export] Instance lana_ops `{NameMap, KernelApi} : FblockOps := {|
  mod_event_rx m := match m with
    | M_dummy => fb_dummy_event
    | M_tee => fb_tee_event
    | M_counter => fb_counter_event
    | M_bpf => fb_bpf_event
    | M_eth => fb_eth_event
    | M_ethvlink => fb_ethvlink_event
    | M_pflana => fb_pflana_event
    | M_core => fun _ _ => crash Null_deref
    end;
  mod_netfb_rx m := match m with
    | M_dummy => fb_dummy_netrx []
    | M_tee => fb_tee_netrx []
    | M_counter => fb_counter_netrx []
    | M_bpf => fb_bpf_netrx
    | M_eth => fb_eth_netrx
    | M_ethvlink => fb_ethvlink_netrx
    | M_pflana => fb_pflana_netrx
    | M_core => fun _ _ _ => crash Null_deref
    end;
  mod_ctor m := match m with
    | M_dummy => fb_dummy_ctor
    | M_tee => fb_tee_ctor
    | M_counter => fb_counter_ctor
    | M_bpf => fb_bpf_ctor
    | M_core | M_eth | M_ethvlink | M_pflana => fun _ => crash Null_deref
    end;
  mod_dtor m := match m with
    | M_dummy => fb_dummy_dtor
    | M_tee => fb_tee_dtor
    | M_counter => fb_counter_dtor
    | M_bpf => fb_bpf_dtor
    | M_core | M_eth | M_ethvlink | M_pflana => fun _ => crash Null_deref
    end;
  mod_dtor_outside_rcu m := match m with
    | M_bpf => fb_bpf_dtor_outside_rcu
    | _ => fun _ => crash Null_deref
    end;
|}.

Definition factory_addr (m : modid) : addr :=
  match m with
  | M_core | M_eth | M_ethvlink | M_pflana => 0
  | M_dummy => 64 | M_tee => 128 | M_counter => 192 | M_bpf => 256
  end.

Definition factory_of (m : modid) : option fblock_factory :=
  match m with
  | M_core | M_eth | M_ethvlink | M_pflana => None
  | M_dummy => Some fb_dummy_factory
  | M_tee => Some fb_tee_factory
  | M_counter => Some fb_counter_factory
  | M_bpf => Some fb_bpf_factory
  end.

(** The handlers of blocks of a type print the type's name; the block of a
    device or a socket has no factory. *)
Definition named (m : modid) (facs : gmap addr fblock_factory) (a : addr) : Prop :=
  m = M_eth \/ m = M_ethvlink \/ m = M_pflana \/ a <> 0 /\ is_Some (facs !! a).

(** ** The modules keep the promises of [EventLaws] *)

Definition priv_mod (p : priv) : modid :=
  match p with
  | PrivDummy _ => M_dummy
  | PrivTee _ => M_tee
  | PrivCounter _ => M_counter
  | PrivBpf _ => M_bpf
  | PrivEth _ => M_eth
  | PrivEthvlink _ => M_ethvlink
  | PrivPflana _ => M_pflana
  end.

(** The ports of the CPUs. *)
Definition priv_ports (p : priv) : list ports :=
  match p with
  | PrivDummy l => dp_port <$> l
  | PrivTee l => tp_port <$> l
  | PrivCounter l => cp_port <$> l
  | PrivBpf l => bp_port <$> l
  | PrivEth l => ep_port <$> l
  | PrivEthvlink l => vi_port <$> l
  | PrivPflana l => pp_port <$> l
  end.

Definition set_ports (dir : path_type) (i : Z) (p : priv) : priv :=
  match p with
  | PrivDummy l => PrivDummy ((fun x => DummyPriv (set_port (dp_port x) dir i)) <$> l)
  | PrivTee l => PrivTee ((fun x => TeePriv (set_port (tp_port x) dir i) (tp_port_clone x)) <$> l)
  | PrivCounter l =>
      PrivCounter ((fun x => CounterPriv (set_port (cp_port x) dir i) (cp_packets x) (cp_bytes x)) <$> l)
  | PrivBpf l => PrivBpf ((fun x => BpfPriv (set_port (bp_port x) dir i) (bp_filter x)) <$> l)
  | PrivEth l => PrivEth ((fun x => EthPriv (set_port (ep_port x) dir i) (ep_dev x)) <$> l)
  | PrivEthvlink l => PrivEthvlink ((fun x => VlinkInner (set_port (vi_port x) dir i) (vi_vdev x)) <$> l)
  | PrivPflana l => PrivPflana ((fun x => PflanaPriv (set_port (pp_port x) dir i) (pp_sock_self x)) <$> l)
  end.

Definition priv_port (pr : gmap addr priv) (m : modid) (a : addr) (dir : path_type) : option Z :=
  p ← pr !! a; if decide (a <> 0 /\ priv_mod p = m) then uport dir (priv_ports p) else None.

Lemma priv_port_Some pr m a dir v :
  priv_port pr m a dir = Some v <->
  exists p, pr !! a = Some p /\ a <> 0 /\ priv_mod p = m /\ uport dir (priv_ports p) = Some v.
Proof.
  unfold priv_port. destruct (pr !! a) as [p|]; simpl; [|naive_solver].
  case_decide; naive_solver.
Qed.

Lemma set_ports_mod dir i p : priv_mod (set_ports dir i p) = priv_mod p.
Proof. by destruct p. Qed.

Lemma set_ports_ports dir i p :
  priv_ports (set_ports dir i p) = (fun q => set_port q dir i) <$> priv_ports p.
Proof. destruct p; simpl; by rewrite <- !list_fmap_compose. Qed.

(** Putting the old value back. *)
Lemma set_ports_back dir old new p :
  uport dir (priv_ports p) = Some old -> set_ports dir old (set_ports dir new p) = p.
Proof.
  intros [_ HF]%uport_Some. destruct p; simpl in *; f_equal; apply Forall_fmap in HF;
    induction HF as [|x l Hx _ IH]; rewrite ?fmap_cons; [done| |done| |done| |done| |done| |done| |done|];
    rewrite IH; simpl in Hx; destruct x; simpl in *; rewrite <- Hx; by rewrite set_port_back.
Qed.

Lemma priv_port_set pr m a dir dir' i old :
  priv_port pr m a dir = Some old ->
  priv_port (alter (set_ports dir i) a pr) m a dir' =
    if decide (dir = dir') then Some i else priv_port pr m a dir'.
Proof.
  intros (p & Hp & Ha & Hm & Hu)%priv_port_Some. unfold priv_port.
  rewrite lookup_alter_eq, Hp. simpl. rewrite set_ports_mod, set_ports_ports.
  destruct (decide (a <> 0 /\ priv_mod p = m)) as [_|[]]; [|done].
  by rewrite (uport_set dir dir' i old).
Qed.

Lemma priv_port_other pr m' a a' dir dir' i :
  a <> a' -> priv_port (alter (set_ports dir i) a pr) m' a' dir' = priv_port pr m' a' dir'.
Proof. intros. unfold priv_port. by rewrite lookup_alter_ne. Qed.

Lemma priv_set_back pr m a dir old new :
  priv_port pr m a dir = Some old ->
  alter (set_ports dir old) a (alter (set_ports dir new) a pr) = pr.
Proof.
  intros (p & Hp & Ha & Hm & Hu)%priv_port_Some. apply map_eq. intros x.
  destruct (decide (a = x)) as [<-|]; [|by rewrite !lookup_alter_ne].
  rewrite !lookup_alter_eq, Hp. simpl. by rewrite set_ports_back.
Qed.

Lemma insert_alter_p (f : priv -> priv) (m : gmap addr priv) x n :
  m !! x = Some n -> <[x := f n]> m = alter f x m.
Proof.
  intros Hn. apply map_eq. intros y. destruct (decide (x = y)) as [<-|].
  - by rewrite lookup_insert_eq, lookup_alter_eq, Hn.
  - by rewrite lookup_insert_ne, lookup_alter_ne.
Qed.

Section laws.
Context `{Nm : NameMap, Ka : KernelApi}.

(** The handlers up to the loop: they find the block and its data. *)
Lemma event_start (fb : addr) b k (c : fblock -> M Z) :
  fb <> 0 -> k_fblocks k !! fb = Some b ->
  (rcu_read_lock;; b <- get_fb fb;; rcu_read_unlock;; c b) k = c b k.
Proof.
  intros H0 Hb. unfold rcu_read_lock, rcu_read_unlock, bind, upd, get_fb, deref. simpl.
  destruct (Z.eqb_spec fb 0); [done|]. rewrite Hb. f_equal. by destruct k.
Qed.

(** A loop that passes on every CPU. *)
Lemma percpu_all {A} (f : A -> option A) (g : A -> A) (pt : A -> ports) dir v l :
  uport dir (pt <$> l) = Some v ->
  (forall x, port (pt x) dir = v -> f x = Some (g x)) ->
  percpu_loop f l = (g <$> l, true, true).
Proof.
  intros [Hl HF]%uport_Some Hf. rewrite (percpu_loop_all f g).
  - rewrite bool_decide_true; [done|]. by intros ->.
  - apply Forall_fmap in HF. eapply Forall_impl; [exact HF|]. auto.
Qed.

(** A loop that stops on the first CPU. *)
Lemma percpu_none {A} (f : A -> option A) (pt : A -> ports) dir v l :
  uport dir (pt <$> l) = Some v ->
  (forall x, port (pt x) dir = v -> f x = None) ->
  percpu_loop f l = (l, false, false).
Proof.
  intros [Hl HF]%uport_Some Hf. apply Forall_fmap in HF.
  destruct HF as [|x l Hx _]; [done|]. apply percpu_loop_head. by apply Hf.
Qed.

Lemma dummy_priv_run k a l : a <> 0 -> k_privs k !! a = Some (PrivDummy l) -> dummy_priv a k = Ret l k.
Proof. intros. unfold dummy_priv. by erewrite bind_run by (by apply deref_run). Qed.

Lemma tee_priv_run k a l : a <> 0 -> k_privs k !! a = Some (PrivTee l) -> tee_priv a k = Ret l k.
Proof. intros. unfold tee_priv. by erewrite bind_run by (by apply deref_run). Qed.

Lemma counter_priv_run k a l :
  a <> 0 -> k_privs k !! a = Some (PrivCounter l) -> counter_priv a k = Ret l k.
Proof. intros. unfold counter_priv. by erewrite bind_run by (by apply deref_run). Qed.

(** After the loop: the data is written back and, if something changed, the
    factory's type is printed. *)
Lemma event_tail a p f fac (v : Z) k :
  f <> 0 -> k_factories k !! f = Some fac ->
  (upd (upd_privs <[a := p]>);; (deref k_factories f;; ret tt);; ret v) k =
    Ret v (upd_privs <[a := p]> k).
Proof.
  intros Hf Hfac. erewrite bind_run by reflexivity. rewrite bind_assoc.
  by erewrite bind_run by (by apply deref_run).
Qed.
End laws.

(** One handler on one event: find the data, run the loop, report. *)
Ltac event_enter Hf Hb HP :=
  apply priv_port_Some in HP as (p & Hp & Ha & Hm & Hu);
  match goal with m : modid |- _ => destruct m, p; try discriminate end; simpl in *;
  unfold fb_dummy_event, fb_tee_event, fb_counter_event, fb_bpf_event, fb_eth_event,
    fb_ethvlink_event, fb_pflana_event; cbv zeta; simpl fn_self;
  rewrite (event_start _ _ _ _ Hf Hb); cbv beta;
  first [rewrite (bind_run _ _ _ _ _ (dummy_priv_run _ _ _ Ha Hp))
        |rewrite (bind_run _ _ _ _ _ (tee_priv_run _ _ _ Ha Hp))
        |rewrite (bind_run _ _ _ _ _ (counter_priv_run _ _ _ Ha Hp))
        |rewrite (bind_run _ _ _ _ _ (bpf_priv_run _ _ _ Ha Hp))
        |rewrite (bind_run _ _ _ _ _ (eth_priv_run _ _ _ Ha Hp))
        |rewrite (bind_run _ _ _ _ _ (ethvlink_priv_run _ _ _ Ha Hp))
        |rewrite (bind_run _ _ _ _ _ (pflana_priv_run _ _ _ Ha Hp))].

(** The end of a handler, with and without a factory. *)
Ltac event_end Hfac :=
  first [destruct Hfac as [|[|[|[? [? ?]]]]]; [done..|]; erewrite event_tail by eassumption
        |erewrite bind_run by reflexivity].

Ltac loop_cpu :=
  let x := fresh in let E := fresh in intros x E;
  unfold fb_dummy_bind_cpu, fb_tee_bind_cpu, fb_counter_bind_cpu,
    fb_dummy_unbind_cpu, fb_tee_unbind_cpu, fb_counter_unbind_cpu, fb_bpf_bind_cpu, fb_bpf_unbind_cpu, fb_eth_bind_cpu, fb_eth_unbind_cpu,
    fb_ethvlink_bind_cpu, fb_ethvlink_unbind_cpu, fb_pflana_bind_cpu, fb_pflana_unbind_cpu;
  rewrite E, ?Z.eqb_refl; rewrite ?(proj2 (Z.eqb_neq _ _)) by done; reflexivity.

Section instance_.
Context `{Nm : NameMap, Ka : KernelApi}.

Lemma lana_ev_bind k fb b m dir idp :
  fb <> 0 -> k_fblocks k !! fb = Some b ->
  named m (k_factories k) (fb_factory b) ->
  priv_port (k_privs k) m (fb_private_data b) dir = Some IDP_UNKNOWN ->
  mod_event_rx m (own_notifier fb) (FBLOCK_BIND_IDP dir idp) k =
    Ret NOTIFY_OK (upd_privs (alter (set_ports dir idp) (fb_private_data b)) k).
Proof.
  intros Hf Hb Hfac HP. event_enter Hf Hb HP;
  (erewrite percpu_all; [|exact Hu|loop_cpu]); cbv beta iota zeta;
  event_end Hfac;
  unfold ret; f_equal; kernel_eq;
  by rewrite <- (insert_alter_p (set_ports dir idp) _ _ _ Hp).
Qed.

Lemma lana_ev_unbind k fb b m dir idp :
  fb <> 0 -> k_fblocks k !! fb = Some b ->
  named m (k_factories k) (fb_factory b) ->
  priv_port (k_privs k) m (fb_private_data b) dir = Some idp ->
  mod_event_rx m (own_notifier fb) (FBLOCK_UNBIND_IDP dir idp) k =
    Ret NOTIFY_OK (upd_privs (alter (set_ports dir IDP_UNKNOWN) (fb_private_data b)) k).
Proof.
  intros Hf Hb Hfac HP. event_enter Hf Hb HP;
  (erewrite percpu_all; [|exact Hu|loop_cpu]); cbv beta iota zeta;
  event_end Hfac;
  unfold ret; f_equal; kernel_eq;
  by rewrite <- (insert_alter_p (set_ports dir IDP_UNKNOWN) _ _ _ Hp).
Qed.

Definition exclusive (m : modid) : bool := negb (bool_decide (m = M_tee)).

Lemma lana_ev_busy k fb b m dir idp old :
  exclusive m = true -> fb <> 0 -> k_fblocks k !! fb = Some b ->
  priv_port (k_privs k) m (fb_private_data b) dir = Some old -> old <> IDP_UNKNOWN ->
  mod_event_rx m (own_notifier fb) (FBLOCK_BIND_IDP dir idp) k = Ret NOTIFY_BAD k.
Proof.
  intros Hex Hf Hb HP Hold. event_enter Hf Hb HP;
  (erewrite percpu_none; [|exact Hu|loop_cpu]); cbv beta iota zeta;
  (erewrite bind_run by reflexivity); unfold ret, bind; f_equal; kernel_eq; by rewrite insert_id.
Qed.

Lemma lana_ev_unbound k fb b m dir idp old :
  exclusive m = true -> fb <> 0 -> k_fblocks k !! fb = Some b ->
  priv_port (k_privs k) m (fb_private_data b) dir = Some old -> old <> idp ->
  mod_event_rx m (own_notifier fb) (FBLOCK_UNBIND_IDP dir idp) k = Ret NOTIFY_BAD k.
Proof.
  intros Hex Hf Hb HP Hold. event_enter Hf Hb HP;
  (erewrite percpu_none; [|exact Hu|loop_cpu]); cbv beta iota zeta;
  (erewrite bind_run by reflexivity); unfold ret, bind; f_equal; kernel_eq; by rewrite insert_id.
Qed.

#[global] Instance lana_events : EventLaws := {|
  ev_port := priv_port;
  ev_set m a dir i := alter (set_ports dir i) a;
  ev_exclusive := exclusive;
  ev_named := named;
  ev_bind := lana_ev_bind;
  ev_unbind := lana_ev_unbind;
  ev_busy := lana_ev_busy;
  ev_unbound := lana_ev_unbound;
  ev_port_set := priv_port_set;
  ev_port_other pr m m' a a' dir dir' i := priv_port_other pr m' a a' dir dir' i;
  ev_set_back := priv_set_back;
  ev_set_comm pr m m' a a' dir dir' i i' :=
    partial_alter_partial_alter_ne _ _ pr a a';
|}.
End instance_.
