(* ===== verification/EngineProps.v ===== *)
(** * Properties of the packet processing engine

    The way of a packet through forwarding blocks (dummy and counter blocks)
    is the relation [travels]; [process_packet] follows it to its end, counts
    on the way, frees the packet, drains the backlog in order and leaves the
    engine idle.  Where the blocks form a cycle it never ends. *)
From Stdlib Require Import ZArith Lia.
From stdpp Require Import base gmap numbers countable list.
From S2P Require Import Prelude CString CritbitTree NameMap Types Kernel Fblock FblockNs FblockLife.
From S2P Require Import FblockBind PerCpu FblockCtor Engine FbDummy FbTee FbCounter FbBpf Modules.

Local Open Scope Z_scope.
Local Open Scope kernel_scope.

(** ** What a forwarding block does to a packet *)

(** The port of one CPU. *)
Definition cpu_port (pr : gmap addr priv) (m : modid) (a : addr) (cpu : nat) (dir : path_type) :
    option Z :=
  p ← pr !! a;
  if decide (a <> 0 /\ priv_mod p = m) then (fun q => port q dir) <$> priv_ports p !! cpu else None.

(** A counter block counts one packet of [len] bytes on its CPU. *)
Definition count_priv (cpu : nat) (len : Z) (p : priv) : priv :=
  match p with
  | PrivCounter l => PrivCounter (alter (fb_counter_count len) cpu l)
  | _ => p
  end.

Lemma cpu_port_Some pr m a cpu dir v :
  cpu_port pr m a cpu dir = Some v <->
  exists p q, pr !! a = Some p /\ a <> 0 /\ priv_mod p = m /\ priv_ports p !! cpu = Some q /\ port q dir = v.
Proof.
  unfold cpu_port. destruct (pr !! a) as [p|]; simpl; [|naive_solver].
  case_decide; [|naive_solver]. rewrite fmap_Some. naive_solver.
Qed.

Lemma count_priv_ports cpu len p : priv_ports (count_priv cpu len p) = priv_ports p.
Proof.
  destruct p as [l|l|l|l|l|l|l]; simpl; try done. apply list_eq. intros i. rewrite !list_lookup_fmap.
  destruct (decide (cpu = i)) as [<-|]; [|by rewrite list_lookup_alter_ne].
  rewrite list_lookup_alter_eq. by destruct (l !! cpu).
Qed.

(** Counting does not change where packets go. *)
Lemma cpu_port_count pr m a a' cpu cpu' dir len :
  cpu_port (alter (count_priv cpu' len) a' pr) m a cpu dir = cpu_port pr m a cpu dir.
Proof.
  unfold cpu_port. destruct (decide (a' = a)) as [<-|]; [|by rewrite lookup_alter_ne].
  rewrite lookup_alter_eq. destruct (pr !! a') as [p|]; simpl; [|done].
  rewrite count_priv_ports. by destruct p.
Qed.

(** The modules whose blocks pass every packet on. *)
Definition forwarding (m : modid) : bool := bool_decide (m = M_dummy \/ m = M_counter).

Section engine.
Context `{Nm : NameMap, Ka : KernelApi}.

Definition packet (k : kernel) (skb : addr) (s : sk_buff) : Prop :=
  skb <> 0 /\ k_skbs k !! skb = Some s /\ skb_users s = 1.

Lemma get_skb_run k skb s : skb <> 0 -> k_skbs k !! skb = Some s -> get_skb skb k = Ret s k.
Proof. apply deref_run. Qed.

(** The handlers on a bound and on an unbound port. *)
Definition netrx_effect (k : kernel) (b : fblock) (skb : addr) (s : sk_buff) (dir : path_type)
    (p : Z) : outcome (Z * path_type) :=
  let k1 := upd_privs (alter (count_priv (k_cpu k) (skb_len s)) (fb_private_data b)) k in
  if p =? IDP_UNKNOWN then Ret (PPE_DROPPED, dir) (upd_skbs (delete skb) k1)
  else Ret (PPE_SUCCESS, dir) (upd_skbs <[skb := write_next_idp_to_skb s (fb_idp b) p]> k1).

Lemma kfree_skb_run k skb s :
  skb <> 0 -> k_skbs k !! skb = Some s -> skb_users s = 1 ->
  kfree_skb skb k = Ret tt (upd_skbs (delete skb) k).
Proof.
  intros H0 Hs Hu. unfold kfree_skb. erewrite bind_run by (by apply get_skb_run). by rewrite Hu.
Qed.

Lemma netrx_run k fb b m skb s dir p :
  forwarding m = true -> fb <> 0 -> k_fblocks k !! fb = Some b ->
  cpu_port (k_privs k) m (fb_private_data b) (k_cpu k) dir = Some p ->
  packet k skb s ->
  mod_netfb_rx m fb skb dir k = netrx_effect k b skb s dir p.
Proof.
  intros Hex Hf Hb (pr & q & Hp & Ha & Hm & Hq & Hpt)%cpu_port_Some (Hk0 & Hs & Hu).
  destruct m, pr as [l|l|l|l|l|l|l]; try discriminate; simpl in *; rewrite list_lookup_fmap in Hq;
    apply fmap_Some in Hq as (x & Hx & ->);
    unfold fb_dummy_netrx, fb_counter_netrx, netrx_effect;
    (erewrite bind_run by (by apply deref_run));
    (erewrite bind_run by (by first [apply dummy_priv_run|apply counter_priv_run]));
    (erewrite bind_run by reflexivity); rewrite Hx;
    (erewrite bind_run by (by apply get_skb_run)); simpl; rewrite Hpt;
    unfold mod_skb;
    (erewrite bind_run by (erewrite bind_run by (by apply get_skb_run); reflexivity)).
  - destruct (p =? IDP_UNKNOWN); simpl.
    + erewrite bind_run by (eapply kfree_skb_run; [done|apply lookup_insert_eq|done]).
      unfold ret. f_equal. kernel_eq; [|by rewrite delete_insert_eq].
      apply map_eq. intros y. destruct (decide (fb_private_data b = y)) as [<-|].
      * by rewrite lookup_alter_eq, Hp.
      * by rewrite lookup_alter_ne.
    + unfold ret. f_equal. kernel_eq.
      apply map_eq. intros y. destruct (decide (fb_private_data b = y)) as [<-|].
      * by rewrite lookup_alter_eq, Hp.
      * by rewrite lookup_alter_ne.
  - erewrite bind_run by reflexivity.
    assert (E : <[fb_private_data b := PrivCounter (<[k_cpu k := fb_counter_count (skb_len s) x]> l)]> (k_privs k) =
                alter (count_priv (k_cpu k) (skb_len s)) (fb_private_data b) (k_privs k)).
    { rewrite <- (insert_alter_p (count_priv (k_cpu k) (skb_len s)) _ _ _ Hp). simpl. do 2 f_equal.
      apply list_eq. intros i. destruct (decide (k_cpu k = i)) as [<-|].
      - rewrite list_lookup_insert_eq, list_lookup_alter_eq, Hx; [done|]. by eapply lookup_lt_Some.
      - by rewrite list_lookup_insert_ne, list_lookup_alter_ne. }
    destruct (p =? IDP_UNKNOWN); simpl.
    + erewrite bind_run by (eapply kfree_skb_run; [done|apply lookup_insert_eq|done]).
      unfold ret. f_equal. kernel_eq; [exact E|by rewrite delete_insert_eq].
    + unfold ret. f_equal. kernel_eq. exact E.
Qed.

(** ** The way of a packet *)

(** The block of [idp] is a live forwarding block whose port on this CPU is
    bound to [p] (unbound if 0). *)
Definition forwards (k : kernel) (dir : path_type) (idp : Z) (b : fblock) (p : Z) : Prop :=
  idp <> 0 /\ fbl_lookup k idp <> 0 /\ k_fblocks k !! fbl_lookup k idp = Some b /\ ref_ok b /\
  exists m, fb_netfb_rx b = Some m /\ forwarding m = true /\
    cpu_port (k_privs k) m (fb_private_data b) (k_cpu k) dir = Some p.

(** [travels k dir idp l r]: from [idp] a packet goes through the blocks [l]
    and its processing ends with [r]. *)
Inductive travels (k : kernel) (dir : path_type) : Z -> list fblock -> Z -> Prop :=
| travels_unknown idp : idp <> 0 -> fbl_lookup k idp = 0 -> travels k dir idp [] PPE_ERROR
| travels_drop idp b : forwards k dir idp b IDP_UNKNOWN -> travels k dir idp [b] PPE_DROPPED
| travels_step idp b p l r :
    forwards k dir idp b p -> p <> IDP_UNKNOWN -> travels k dir p l r ->
    travels k dir idp (b :: l) r.

(** The way is unique. *)
Lemma forwards_det k dir idp b p b' p' :
  forwards k dir idp b p -> forwards k dir idp b' p' -> b = b' /\ p = p'.
Proof.
  intros (_ & _ & Hb & _ & m & Hm & _ & Hp) (_ & _ & Hb' & _ & m' & Hm' & _ & Hp').
  rewrite Hb in Hb'. injection Hb' as <-. split; [done|]. congruence.
Qed.

Lemma travels_det k dir idp l r l' r' :
  travels k dir idp l r -> travels k dir idp l' r' -> l = l' /\ r = r'.
Proof.
  intros H1. revert l' r'. induction H1 as [idp H0 Hz|idp b Hf|idp b p l r Hf Hp Ht IH]; intros l' r' H2;
    inversion H2 as [? ? Hz'|? ? Hf'|? ? p' ? ? Hf' Hp' Ht']; subst; try done;
    try (destruct Hf' as (_ & ? & _); done); try (destruct Hf as (_ & ? & _); done);
    destruct (forwards_det _ _ _ _ _ _ _ Hf Hf'); subst; try done.
  destruct (IH _ _ Ht') as [-> ->]. done.
Qed.

(** What the way depends on. *)
Definition same_way (k k' : kernel) : Prop :=
  k_fblmap k' = k_fblmap k /\ k_fblocks k' = k_fblocks k /\ k_cpu k' = k_cpu k /\
  forall m a cpu d, cpu_port (k_privs k') m a cpu d = cpu_port (k_privs k) m a cpu d.

Lemma same_way_trans k1 k2 k3 : same_way k1 k2 -> same_way k2 k3 -> same_way k1 k3.
Proof.
  intros (E1 & E2 & E3 & E4) (F1 & F2 & F3 & F4). unfold same_way.
  rewrite F1, F2, F3. repeat (split; [done|]). intros. by rewrite F4.
Qed.

Lemma same_fbl k k' idp : same_way k k' -> fbl_lookup k' idp = fbl_lookup k idp.
Proof. intros (E & _). unfold fbl_lookup. by rewrite E. Qed.

Lemma forwards_same k k' dir idp b p :
  same_way k k' -> forwards k dir idp b p -> forwards k' dir idp b p.
Proof.
  intros (E1 & E2 & E3 & E4) (H0 & Hl & Hb & Hr & m & Hm & Hex & Hp). unfold forwards, fbl_lookup in *.
  rewrite E1, E2. repeat (split; [done|]). exists m. by rewrite E3, E4.
Qed.

Lemma travels_same k k' dir idp l r :
  same_way k k' -> travels k dir idp l r -> travels k' dir idp l r.
Proof.
  intros E. induction 1 as [idp H0 Hz|idp b Hf|idp b p l r Hf Hp Ht IH].
  - apply travels_unknown; [done|]. by rewrite (same_fbl k).
  - apply travels_drop. by apply (forwards_same k).
  - eapply travels_step; [by apply (forwards_same k)|done|done].
Qed.

(** The traces the packet leaves: every block on the way counts it, and so
    does the engine. *)
Definition count_block (len : Z) (b : fblock) (k : kernel) : kernel :=
  upd_iostats (alter stats_inc_fblocks (k_cpu k))
    (upd_privs (alter (count_priv (k_cpu k) len) (fb_private_data b)) k).

Definition count_way (len : Z) (l : list fblock) (k : kernel) : kernel :=
  fold_left (fun k b => count_block len b k) l k.

Lemma count_block_skbs len b f k : count_block len b (upd_skbs f k) = upd_skbs f (count_block len b k).
Proof. done. Qed.

Lemma count_way_skbs len l f : forall k, count_way len l (upd_skbs f k) = upd_skbs f (count_way len l k).
Proof. induction l as [|b l IH]; intros k; simpl; [done|]. by rewrite count_block_skbs, IH. Qed.

Lemma search_forwards k dir idp b p :
  forwards k dir idp b p ->
  __search_fblock idp k =
    Ret (fbl_lookup k idp) (upd_fblocks <[fbl_lookup k idp := bump 1 b]> k).
Proof.
  intros (_ & Hl & Hb & _). unfold __search_fblock, bind, get. fold (fbl_lookup k idp).
  destruct (Z.eqb_spec (fbl_lookup k idp) 0); [done|]. simpl. by rewrite (get_fblock_run _ _ b).
Qed.

(** One hop: the packet goes on to [p], or is gone. *)
Lemma hop_run k dir idp b p skb s hops r0 :
  forwards k dir idp b p -> packet k skb s -> read_next_idp_from_skb s = idp ->
  process_hops (S hops) skb dir r0 k =
    if p =? IDP_UNKNOWN then Ret (PPE_DROPPED, dir) (upd_skbs (delete skb) (count_block (skb_len s) b k))
    else process_hops hops skb dir PPE_SUCCESS
           (upd_skbs <[skb := write_next_idp_to_skb s (fb_idp b) p]> (count_block (skb_len s) b k)).
Proof.
  intros Hf (Hs0 & Hs & Hu) Hidp. pose proof (search_forwards _ _ _ _ _ Hf) as Hsearch.
  destruct Hf as (H0 & Hl & Hb & Hr & m & Hm & Hex & Hp). simpl.
  erewrite bind_run by (by apply get_skb_run). rewrite Hidp.
  destruct (Z.eqb_spec idp 0); [done|]. rewrite (bind_run _ _ _ _ _ Hsearch).
  destruct (Z.eqb_spec (fbl_lookup k idp) 0); [done|].
  set (fb := fbl_lookup k idp) in *. set (k1 := upd_fblocks _ k).
  assert (Hb1 : k_fblocks k1 !! fb = Some (bump 1 b)) by apply lookup_insert_eq.
  erewrite bind_run by (by apply deref_run). simpl fb_netfb_rx. rewrite Hm. simpl call_netrx.
  assert (Hn : mod_netfb_rx m fb skb dir k1 = netrx_effect k1 (bump 1 b) skb s dir p)
    by (by apply netrx_run).
  unfold netrx_effect in Hn.
  assert (Hput : forall f k2, k_fblocks k2 = k_fblocks k1 -> k_cpu k2 = k_cpu k ->
    put_fblock fb (upd_skbs f k2) = Ret tt (upd_fblocks <[fb := b]> (upd_skbs f k2))).
  { intros f k2 E _. rewrite (put_alive_run _ _ (bump 1 b)); [by rewrite bump_back|done| |].
    - simpl. by rewrite E.
    - unfold ref_ok, bump in *. simpl. s32_norm. lia. }
  destruct (p =? IDP_UNKNOWN).
  - rewrite (bind_run _ _ _ _ _ Hn). erewrite bind_run by (by apply Hput).
    erewrite bind_run by reflexivity. simpl. unfold ret. f_equal. unfold count_block. kernel_eq.
    by rewrite insert_insert_eq, insert_id.
  - rewrite (bind_run _ _ _ _ _ Hn). erewrite bind_run by (by apply Hput).
    erewrite bind_run by reflexivity. simpl. f_equal. unfold count_block. kernel_eq.
    by rewrite insert_insert_eq, insert_id.
Qed.

Lemma count_block_same len b f k : same_way k (upd_skbs f (count_block len b k)).
Proof. repeat (split; [done|]). intros. simpl. apply cpu_port_count. Qed.

Lemma count_way_same len l : forall k, same_way k (count_way len l k).
Proof.
  induction l as [|b l IH]; intros k; simpl; [done|].
  eapply same_way_trans; [|apply IH]. apply (count_block_same len b id k).
Qed.

(** A packet that has a way is taken to its end. *)
Lemma travels_run k dir idp l r : travels k dir idp l r ->
  forall k' skb s hops r0,
  same_way k k' -> packet k' skb s -> read_next_idp_from_skb s = idp -> (length l < hops)%nat ->
  process_hops hops skb dir r0 k' = Ret (r, dir) (upd_skbs (delete skb) (count_way (skb_len s) l k')).
Proof.
  induction 1 as [idp H0 Hz|idp b Hf|idp b p l r Hf Hp Ht IH]; intros k' skb s hops r0 Hsame Hpk Hidp Hh;
    simpl in Hh; (destruct hops as [|hops]; [lia|]).
  - destruct Hpk as (Hs0 & Hs & Hu). simpl. erewrite bind_run by (by apply get_skb_run).
    rewrite Hidp. destruct (Z.eqb_spec idp 0); [done|].
    unfold __search_fblock, bind at 1 2, get, ret. fold (fbl_lookup k' idp).
    rewrite (same_fbl k k' idp Hsame), Hz. simpl. by erewrite bind_run by (by eapply kfree_skb_run).
  - by rewrite (hop_run _ _ _ _ _ _ _ _ _ (forwards_same _ _ _ _ _ _ Hsame Hf) Hpk Hidp).
  - rewrite (hop_run _ _ _ _ _ _ _ _ _ (forwards_same _ _ _ _ _ _ Hsame Hf) Hpk Hidp).
    destruct (Z.eqb_spec p IDP_UNKNOWN); [done|]. destruct Hpk as (Hs0 & Hs & Hu).
    rewrite (IH _ _ (write_next_idp_to_skb s (fb_idp b) p)); [|..|done|lia].
    + f_equal. simpl. rewrite count_way_skbs. kernel_eq. by rewrite delete_insert_eq.
    + eapply same_way_trans; [exact Hsame|]. apply count_block_same.
    + split; [done|]. split; [apply lookup_insert_eq|done].
Qed.

(** ** Packets and the backlog *)

(** A packet together with its way and the result at its end. *)
Record job := Job { j_skb : addr; j_buf : sk_buff; j_way : list fblock; j_ret : Z }.

Definition job_ok (k : kernel) (hops : nat) (dir : path_type) (j : job) : Prop :=
  packet k (j_skb j) (j_buf j) /\
  travels k dir (read_next_idp_from_skb (j_buf j)) (j_way j) (j_ret j) /\
  (length (j_way j) < hops)%nat.

(** The packet counted by the engine and the blocks, and freed. *)
Definition job_done (k : kernel) (j : job) : kernel :=
  upd_skbs (delete (j_skb j)) (count_way (skb_len (j_buf j)) (j_way j)
    (upd_iostats (fun st => alter (stats_add_bytes (skb_len (j_buf j))) (k_cpu k)
                              (alter stats_inc_pkts (k_cpu k) st)) k)).

Lemma count_way_fields len l : forall k,
  k_skbs (count_way len l k) = k_skbs k /\ k_emdiscs (count_way len l k) = k_emdiscs k /\
  k_rcu (count_way len l k) = k_rcu k /\ k_rcu_nesting (count_way len l k) = k_rcu_nesting k.
Proof.
  induction l as [|b l IH]; intros k; simpl; [done|].
  destruct (IH (count_block len b k)) as (-> & -> & -> & ->). done.
Qed.

Lemma job_done_same k j : same_way k (job_done k j).
Proof.
  unfold job_done. set (k1 := upd_iostats _ k).
  destruct (count_way_same (skb_len (j_buf j)) (j_way j) k1) as (E1 & E2 & E3 & E4). by repeat split.
Qed.

Lemma job_done_fields k j :
  k_skbs (job_done k j) = delete (j_skb j) (k_skbs k) /\ k_emdiscs (job_done k j) = k_emdiscs k /\
  k_cpu (job_done k j) = k_cpu k /\ k_rcu_nesting (job_done k j) = k_rcu_nesting k.
Proof.
  unfold job_done. simpl. set (k1 := upd_iostats _ k).
  destruct (count_way_fields (skb_len (j_buf j)) (j_way j) k1) as (-> & -> & _ & ->).
  split; [done|]. split; [done|]. split; [apply (count_way_same _ _ k1)|done].
Qed.

Lemma job_ok_after k hops dir j j' :
  j_skb j <> j_skb j' -> job_ok k hops dir j' -> job_ok (job_done k j) hops dir j'.
Proof.
  intros Hne ((H0 & Hs & Hu) & Ht & Hl). split; [|split; [|done]].
  - split; [done|]. split; [|done]. destruct (job_done_fields k j) as (-> & _).
    by rewrite lookup_delete_ne.
  - eapply travels_same; [|exact Ht]. apply job_done_same.
Qed.

Lemma job_ok_emdiscs f k hops dir j : job_ok k hops dir j -> job_ok (upd_emdiscs f k) hops dir j.
Proof.
  intros (Hp & Ht & Hl). split; [done|]. split; [|done].
  eapply travels_same; [|exact Ht]. by repeat split.
Qed.

(** The engine's own fields. *)
Lemma emdisc_run k d : k_emdiscs k !! k_cpu k = Some d -> emdisc (k_cpu k) k = Ret d k.
Proof. intros Hd. unfold emdisc, bind, get. by rewrite Hd. Qed.

Lemma test_reduce_nil k d :
  k_emdiscs k !! k_cpu k = Some d -> ed_queue d = [] -> engine_backlog_test_reduce k = Ret None k.
Proof.
  intros Hd Hq. unfold engine_backlog_test_reduce, engine_backlog_queue_test_reduce.
  erewrite bind_run by reflexivity. erewrite bind_run by (by apply emdisc_run). by rewrite Hq.
Qed.

Lemma test_reduce_cons k d skb q s :
  k_emdiscs k !! k_cpu k = Some d -> ed_queue d = skb :: q ->
  skb <> 0 -> k_skbs k !! skb = Some s ->
  engine_backlog_test_reduce k =
    Ret (Some (skb, read_path_from_skb s)) (upd_emdiscs <[k_cpu k := disc_set_queue q d]> k).
Proof.
  intros Hd Hq H0 Hs. unfold engine_backlog_test_reduce, engine_backlog_queue_test_reduce.
  erewrite bind_run by reflexivity. erewrite bind_run by (by apply emdisc_run). rewrite Hq.
  erewrite bind_run by reflexivity. by erewrite bind_run by (by apply get_skb_run).
Qed.

Lemma set_inactive_run k d :
  k_emdiscs k !! k_cpu k = Some d ->
  engine_this_cpu_set_inactive k = Ret tt (upd_emdiscs <[k_cpu k := disc_set_active false d]> k).
Proof.
  intros Hd. unfold engine_this_cpu_set_inactive. erewrite bind_run by reflexivity.
  by erewrite bind_run by (by apply emdisc_run).
Qed.

(** Setting the engine's fields does not touch what [count_way] works on. *)
Lemma count_way_emdiscs len l f : forall k,
  count_way len l (upd_emdiscs f k) = upd_emdiscs f (count_way len l k).
Proof. induction l as [|b l IH]; intros k; simpl; [done|]. by rewrite <- IH. Qed.

Lemma job_done_emdiscs f k j : job_done (upd_emdiscs f k) j = upd_emdiscs f (job_done k j).
Proof.
  unfold job_done. change (upd_iostats ?g (upd_emdiscs f k)) with (upd_emdiscs f (upd_iostats g k)).
  by rewrite count_way_emdiscs.
Qed.

Lemma fold_done_emdiscs f q : forall k,
  fold_left job_done q (upd_emdiscs f k) = upd_emdiscs f (fold_left job_done q k).
Proof. induction q as [|j q IH]; intros k; simpl; [done|]. by rewrite job_done_emdiscs, IH. Qed.

(** The processing of one packet, up to the look at the backlog. *)
Lemma packet_run k hops dir j d (rest : Z * path_type -> M Z) :
  k_emdiscs k !! k_cpu k = Some d -> job_ok k hops dir j ->
  (engine_this_cpu_set_active;;
   engine_inc_pkts_stats;;
   s <- get_skb (j_skb j);;
   engine_add_bytes_stats (skb_len s);;
   x <- process_hops hops (j_skb j) dir PPE_ERROR;; rest x) k =
  rest (j_ret j, dir) (upd_emdiscs <[k_cpu k := disc_set_active true d]> (job_done k j)).
Proof.
  intros Hd ((H0 & Hs & Hu) & Ht & Hl). unfold engine_this_cpu_set_active.
  erewrite bind_run by (erewrite bind_run by reflexivity; by erewrite bind_run by (by apply emdisc_run)).
  erewrite bind_run by reflexivity. erewrite bind_run by (by apply get_skb_run).
  erewrite bind_run by reflexivity. set (k1 := upd_iostats _ _).
  erewrite bind_run; [reflexivity|].
  rewrite (travels_run k dir _ _ _ Ht k1 (j_skb j) (j_buf j)); [|by repeat split|by repeat split|done|done].
  f_equal. unfold k1, job_done. simpl.
  change (upd_iostats ?f (upd_iostats ?g (upd_emdiscs ?h k))) with
    (upd_emdiscs h (upd_iostats (fun st => f (g st)) k)).
  by rewrite count_way_emdiscs.
Qed.

(** The packet that is processed last. *)
Definition last_job (j : job) (q : list job) : job := fold_left (fun _ x => x) q j.

Definition idle (d : engine_disc) : engine_disc := Disc [] false (ed_cpu d).

(** The packet, then the backlog in its order, until it is empty. *)
Lemma drain_run q : forall pkts hops dir j d k,
  k_emdiscs k !! k_cpu k = Some d -> ed_queue d = j_skb <$> q ->
  job_ok k hops dir j ->
  Forall (fun j' => job_ok k hops (read_path_from_skb (j_buf j')) j') q ->
  NoDup (j_skb j :: (j_skb <$> q)) -> (length q < pkts)%nat ->
  process_pkts pkts hops (j_skb j) dir k =
    Ret (j_ret (last_job j q))
      (upd_emdiscs <[k_cpu k := idle d]> (fold_left job_done (j :: q) k)).
Proof.
  induction q as [|j' q IH]; intros [|pkts] hops dir j d k Hd Hq Hj HF Hnd Hp; simpl in Hp; try lia;
    simpl process_pkts; rewrite (packet_run k hops dir j d _ Hd Hj);
    set (k1 := upd_emdiscs <[k_cpu k := disc_set_active true d]> (job_done k j));
    destruct (job_done_fields k j) as (Es & Ed & Ec & _);
    assert (Hcpu : k_cpu k1 = k_cpu k) by exact Ec;
    assert (Hd1 : k_emdiscs k1 !! k_cpu k1 = Some (disc_set_active true d))
      by (rewrite Hcpu;
          change (k_emdiscs k1) with (<[k_cpu k := disc_set_active true d]> (k_emdiscs (job_done k j)));
          rewrite Ed; apply list_lookup_insert_eq; by eapply lookup_lt_Some).
  - erewrite bind_run by (by eapply test_reduce_nil). cbv beta iota. erewrite bind_run by (by apply set_inactive_run).
    unfold ret. f_equal. rewrite Hcpu. unfold k1. kernel_eq. rewrite list_insert_insert_eq.
    unfold idle, disc_set_active. simpl. by rewrite Hq.
  - inversion HF as [|? ? Hj' HF']; subst. apply NoDup_cons in Hnd as [Hnin Hnd].
    assert (Hne : j_skb j <> j_skb j') by set_solver.
    pose proof (job_ok_after k hops _ j j' Hne Hj') as Hj1.
    erewrite bind_run by (eapply test_reduce_cons; [exact Hd1|exact Hq|apply Hj'|apply Hj1]).
    cbv beta iota. rewrite Hcpu. set (k2 := upd_emdiscs _ k1).
    assert (Hd2 : k_emdiscs k2 !! k_cpu k2 = Some (disc_set_queue (j_skb <$> q) (disc_set_active true d))).
    { change (k_cpu k2) with (k_cpu k1). rewrite Hcpu.
      change (k_emdiscs k2) with (<[k_cpu k := disc_set_queue (j_skb <$> q) (disc_set_active true d)]> (k_emdiscs k1)).
      apply list_lookup_insert_eq. rewrite <- Hcpu. by eapply lookup_lt_Some. }
    rewrite (IH pkts hops _ j' _ k2 Hd2 eq_refl); [|..|done|lia].
    + f_equal. change (k_cpu k2) with (k_cpu k1). rewrite Hcpu. unfold k2, k1.
      rewrite !fold_done_emdiscs. simpl. kernel_eq. by rewrite !list_insert_insert_eq.
    + by apply job_ok_emdiscs, job_ok_emdiscs.
    + apply Forall_forall. intros x Hx. rewrite Forall_forall in HF'.
      apply job_ok_emdiscs, job_ok_emdiscs, job_ok_after; [|by apply HF'].
      intros E. apply Hnin. rewrite E. set_solver.
Qed.

(** ** Statistics *)

Definition stats_ok (st : engine_iostats) : Prop :=
  0 <= es_bytes st < 2 ^ 64 /\ 0 <= es_pkts st < 2 ^ 64 /\ 0 <= es_fblocks st < 2 ^ 64.

(** [p] packets, [b] bytes and [f] visited blocks more. *)
Definition stats_add (p b f : Z) (st : engine_iostats) : engine_iostats :=
  Iostats (u64 (es_bytes st + b)) (u64 (es_pkts st + p)) (u64 (es_fblocks st + f))
    (es_timer st) (es_timer_cpu_miss st).

Lemma u64_u64 a b : u64 (u64 a + b) = u64 (a + b).
Proof. unfold u64. apply Zplus_mod_idemp_l. Qed.

Lemma stats_add_add p b f p' b' f' st :
  stats_add p b f (stats_add p' b' f' st) = stats_add (p' + p) (b' + b) (f' + f) st.
Proof. unfold stats_add. simpl. by rewrite !u64_u64, !Z.add_assoc. Qed.

Lemma stats_add_0 st : stats_ok st -> stats_add 0 0 0 st = st.
Proof.
  intros (? & ? & ?). unfold stats_add. rewrite !Z.add_0_r, !u64_small by done. by destruct st.
Qed.

Lemma stats_add_ok p b f st : stats_ok (stats_add p b f st).
Proof. repeat split; apply Z.mod_pos_bound; lia. Qed.

Lemma count_way_stats len l : forall k st,
  stats_ok st -> k_iostats k !! k_cpu k = Some st ->
  k_iostats (count_way len l k) !! k_cpu k = Some (stats_add 0 0 (Z.of_nat (length l)) st).
Proof.
  induction l as [|b l IH]; intros k st Hok Hst; [simpl; by rewrite stats_add_0|].
  simpl. change (k_cpu k) with (k_cpu (count_block len b k)).
  rewrite (IH _ (stats_add 0 0 1 st)).
  - rewrite stats_add_add. do 2 f_equal. lia.
  - apply stats_add_ok.
  - simpl. rewrite list_lookup_alter_eq, Hst. simpl. f_equal.
    destruct Hok as (? & ? & ?). unfold stats_inc_fblocks, stats_add.
    by rewrite !Z.add_0_r, (u64_small (es_bytes st)), (u64_small (es_pkts st)) by done.
Qed.

Lemma job_done_stats k j st :
  stats_ok st -> k_iostats k !! k_cpu k = Some st ->
  k_iostats (job_done k j) !! k_cpu k =
    Some (stats_add 1 (skb_len (j_buf j)) (Z.of_nat (length (j_way j))) st).
Proof.
  intros Hok Hst. unfold job_done. simpl. set (k1 := upd_iostats _ k).
  change (k_cpu k) with (k_cpu k1). rewrite (count_way_stats _ _ k1 (stats_add 1 (skb_len (j_buf j)) 0 st)).
  - rewrite stats_add_add. do 2 f_equal; lia.
  - apply stats_add_ok.
  - simpl. rewrite !list_lookup_alter_eq, Hst. simpl. f_equal.
    destruct Hok as (? & ? & ?). unfold stats_add_bytes, stats_inc_pkts, stats_add. simpl.
    by rewrite !Z.add_0_r, (u64_small (es_fblocks st)) by done.
Qed.

Definition total {A} (f : A -> Z) (l : list A) : Z := foldr (fun x n => f x + n) 0 l.

Lemma jobs_done_fields q : forall k,
  let k' := fold_left job_done q k in
  k_fblocks k' = k_fblocks k /\ k_cpu k' = k_cpu k /\ k_emdiscs k' = k_emdiscs k /\
  k_rcu_nesting k' = k_rcu_nesting k /\
  (forall a, k_skbs k' !! a = if decide (a ∈ j_skb <$> q) then None else k_skbs k !! a).
Proof.
  induction q as [|j q IH]; intros k; [done|]. cbv zeta. rewrite fmap_cons. simpl fold_left.
  pose proof (job_done_same k j) as (_ & Eb & _ & _).
  destruct (job_done_fields k j) as (Es & Ed & Ec & En).
  destruct (IH (job_done k j)) as (F1 & F2 & F3 & F4 & F5).
  rewrite F1, F2, F3, F4, Eb, Ec, Ed, En. do 4 (split; [done|]). intros a.
  rewrite F5, Es. destruct (decide (a = j_skb j)) as [->|Hne].
  - rewrite lookup_delete_eq. repeat case_decide; set_solver.
  - rewrite lookup_delete_ne by done. repeat case_decide; set_solver.
Qed.

(** What processing a list of packets adds up to. *)
Lemma jobs_done_stats q : forall k st,
  stats_ok st -> k_iostats k !! k_cpu k = Some st ->
  k_iostats (fold_left job_done q k) !! k_cpu k =
    Some (stats_add (Z.of_nat (length q)) (total (fun j => skb_len (j_buf j)) q)
            (total (fun j => Z.of_nat (length (j_way j))) q) st).
Proof.
  induction q as [|j q IH]; intros k st Hok Hst; [simpl; by rewrite stats_add_0|]. simpl fold_left.
  destruct (job_done_fields k j) as (_ & _ & Ec & _). rewrite <- Ec at 1.
  rewrite (IH _ (stats_add 1 (skb_len (j_buf j)) (Z.of_nat (length (j_way j))) st));
    [|apply stats_add_ok|rewrite Ec; by apply job_done_stats].
  rewrite stats_add_add. do 2 f_equal; simpl; lia.
Qed.

(** The check at the start of [process_packet]. *)
Lemma process_packet_start k pkts hops skb dir d :
  (0 < k_rcu_nesting k)%nat -> k_emdiscs k !! k_cpu k = Some d ->
  process_packet pkts hops skb dir k =
    if ed_active d then (engine_backlog_tail skb dir;; ret 0) k else process_pkts pkts hops skb dir k.
Proof.
  intros Hn Hd. unfold process_packet. erewrite bind_run by reflexivity.
  destruct (Nat.eqb_spec (k_rcu_nesting k) 0); [lia|].
  rewrite (bind_run _ _ k (ed_active d) k); [by destruct (ed_active d)|].
  unfold engine_this_cpu_is_active. erewrite bind_run by reflexivity.
  by erewrite bind_run by (by apply emdisc_run).
Qed.

(** A packet for nobody leaves an idle engine as it is, but it is not
    freed. *)
Lemma process_packet_nowhere k pkts hops skb s dir cpu :
  packet k skb s -> idp_dst (skb_cb s) = 0 -> (0 < k_rcu_nesting k)%nat ->
  k_emdiscs k !! k_cpu k = Some (Disc [] false cpu) ->
  exists k', process_packet (S pkts) (S hops) skb dir k = Ret PPE_ERROR k' /\
    k_skbs k' = k_skbs k /\ k_emdiscs k' = k_emdiscs k.
Proof.
  intros (H0 & Hs & Hu) Hdst Hnest Hd. rewrite (process_packet_start k _ _ _ _ _ Hnest Hd). simpl.
  unfold engine_this_cpu_set_active, engine_inc_pkts_stats, engine_add_bytes_stats, this_cpu_stats, set_emdisc.
  assert (Hin : forall l : list engine_disc, length l = length (k_emdiscs k) -> (k_cpu k < length l)%nat).
  { intros l ->. by eapply lookup_lt_Some. }
  unfold bind, get, upd, emdisc, bind, get. rewrite Hd. simpl.
  unfold get_skb, deref. simpl. destruct (Z.eqb_spec skb 0); [done|]. rewrite Hs. simpl.
  unfold bind, read_next_idp_from_skb. destruct (Z.eqb_spec skb 0); [done|]. rewrite Hs, Hdst. simpl.
  unfold engine_backlog_test_reduce, engine_backlog_queue_test_reduce, emdisc, bind, get. simpl.
  rewrite list_lookup_insert_eq by (apply Hin; by rewrite ?length_insert). simpl.
  unfold engine_this_cpu_set_inactive, emdisc, set_emdisc, bind, get, upd. simpl.
  rewrite list_lookup_insert_eq by (apply Hin; by rewrite ?length_insert). simpl. eexists. split; [reflexivity|]. simpl.
  split; [done|]. rewrite list_insert_insert_eq. by apply list_insert_id.
Qed.

(** C14: a packet given to an idle engine whose packets all have a way is
    processed to the end of its way, and after it the whole backlog in its
    order: the call returns (the result of the last packet), every one of
    these packets is freed and no other, the backlog is empty, the engine
    idle, the blocks' references as before, and the statistics of the CPU
    grow by the packets, their bytes and the blocks they went through. *)
Theorem process_packet_correct k pkts hops dir j q d st :
  (0 < k_rcu_nesting k)%nat -> k_emdiscs k !! k_cpu k = Some d -> ed_active d = false ->
  ed_queue d = j_skb <$> q -> job_ok k hops dir j ->
  Forall (fun j' => job_ok k hops (read_path_from_skb (j_buf j')) j') q ->
  NoDup (j_skb j :: (j_skb <$> q)) -> (length q < pkts)%nat ->
  stats_ok st -> k_iostats k !! k_cpu k = Some st ->
  exists k', process_packet pkts hops (j_skb j) dir k = Ret (j_ret (last_job j q)) k' /\
    k_fblocks k' = k_fblocks k /\
    k_emdiscs k' !! k_cpu k = Some (Disc [] false (ed_cpu d)) /\
    (forall a, k_skbs k' !! a = if decide (a ∈ j_skb <$> j :: q) then None else k_skbs k !! a) /\
    k_iostats k' !! k_cpu k =
      Some (stats_add (Z.of_nat (length (j :: q))) (total (fun j => skb_len (j_buf j)) (j :: q))
              (total (fun j => Z.of_nat (length (j_way j))) (j :: q)) st).
Proof.
  intros Hn Hd Ha Hq Hj HF Hnd Hp Hok Hst.
  destruct (jobs_done_fields (j :: q) k) as (F1 & _ & Em & _ & F3).
  pose proof (jobs_done_stats (j :: q) k st Hok Hst) as F4.
  eexists. split.
  - rewrite (process_packet_start _ _ _ _ _ d Hn Hd), Ha. by apply drain_run.
  - split; [exact F1|]. split; [|split; [exact F3|exact F4]].
    change (<[k_cpu k := idle d]> (k_emdiscs (fold_left job_done (j :: q) k)) !! k_cpu k = Some (idle d)).
    rewrite Em. apply list_lookup_insert_eq. by eapply lookup_lt_Some.
Qed.

(** a packet that arrives while the CPU's engine is active is put at
    the end of the backlog with its direction, nothing else happens and 0 is
    returned. *)
Theorem process_packet_active k pkts hops skb s dir d :
  (0 < k_rcu_nesting k)%nat -> k_emdiscs k !! k_cpu k = Some d -> ed_active d = true ->
  skb <> 0 -> k_skbs k !! skb = Some s ->
  process_packet pkts hops skb dir k =
    Ret 0 (upd_emdiscs <[k_cpu k := Disc (ed_queue d ++ [skb]) true (ed_cpu d)]>
            (upd_skbs <[skb := write_path_to_skb s dir]> k)).
Proof.
  intros Hn Hd Ha H0 Hs. rewrite (process_packet_start _ _ _ _ _ d Hn Hd), Ha. unfold engine_backlog_tail, mod_skb. erewrite bind_run; [reflexivity|].
  erewrite bind_run by (by erewrite bind_run by (by apply get_skb_run)).
  erewrite bind_run by reflexivity. erewrite bind_run by (by apply emdisc_run).
  unfold set_emdisc, disc_set_queue, upd. by rewrite Ha.
Qed.

(** ** Cycles *)

(** A set of blocks a packet cannot leave. *)
Definition closed_way (k : kernel) (dir : path_type) (S : Z -> Prop) : Prop :=
  forall idp, S idp -> exists b p, forwards k dir idp b p /\ p <> IDP_UNKNOWN /\ S p.

Lemma closed_run k dir (P : Z -> Prop) : closed_way k dir P ->
  forall hops k' skb s r, same_way k k' -> packet k' skb s -> P (read_next_idp_from_skb s) ->
  process_hops hops skb dir r k' = Crash Endless_loop.
Proof.
  intros Hc. induction hops as [|hops IH]; intros k' skb s r Hsame Hpk HP; [done|].
  destruct (Hc _ HP) as (b & p & Hf & Hp & HPp).
  rewrite (hop_run _ _ _ _ _ _ _ _ _ (forwards_same _ _ _ _ _ _ Hsame Hf) Hpk eq_refl).
  destruct (Z.eqb_spec p IDP_UNKNOWN); [done|]. destruct Hpk as (Hs0 & Hs & Hu).
  apply (IH _ _ (write_next_idp_to_skb s (fb_idp b) p)).
  - eapply same_way_trans; [exact Hsame|]. apply count_block_same.
  - split; [done|]. split; [apply lookup_insert_eq|done].
  - done.
Qed.

(** C15: in a set of blocks whose ports all lead back into the set, a packet
    is never done: however many hops are allowed, [process_packet] has not
    returned. *)
Theorem process_packet_cycle k dir (P : Z -> Prop) pkts hops skb s d :
  closed_way k dir P -> (0 < k_rcu_nesting k)%nat -> k_emdiscs k !! k_cpu k = Some d ->
  ed_active d = false -> packet k skb s -> P (read_next_idp_from_skb s) -> (0 < pkts)%nat ->
  process_packet pkts hops skb dir k = Crash Endless_loop.
Proof.
  intros Hc Hn Hd Ha Hpk HP Hp. rewrite (process_packet_start _ _ _ _ _ d Hn Hd), Ha. destruct pkts as [|pkts]; [lia|]. simpl. pose proof Hpk as (H0 & Hs & Hu).
  unfold engine_this_cpu_set_active.
  erewrite bind_run by (erewrite bind_run by reflexivity; by erewrite bind_run by (by apply emdisc_run)).
  erewrite bind_run by reflexivity. erewrite bind_run by (by apply get_skb_run).
  erewrite bind_run by reflexivity. unfold bind at 1.
  rewrite (closed_run k dir P Hc _ _ _ s); [done|by repeat split|done|done].
Qed.

(** ** The timer *)

Lemma job_ok_frame k k' hops dir j :
  same_way k k' -> k_skbs k' = k_skbs k -> job_ok k hops dir j -> job_ok k' hops dir j.
Proof.
  intros Hs E ((H0 & Hp & Hu) & Ht & Hl). split; [|split; [|done]].
  - unfold packet. by rewrite E.
  - by eapply travels_same.
Qed.

Lemma count_way_core len l : forall k, k_core (count_way len l k) = k_core k.
Proof. induction l as [|b l IH]; intros k; simpl; [done|]. by rewrite IH. Qed.

Lemma jobs_done_core q : forall k, k_core (fold_left job_done q k) = k_core k.
Proof. induction q as [|j q IH]; intros k; simpl; [done|]. rewrite IH. exact (count_way_core _ _ _). Qed.

Lemma timer_disc_run k d : k_emdiscs k !! k_cpu k = Some d -> timer_disc (k_cpu k) k = Ret d k.
Proof. intros Hd. unfold timer_disc, bind, get. by rewrite Hd. Qed.

(** The engine of the timer's CPU is busy, its backlog is empty, or the timer
    runs on another CPU and the backlog is short. *)
Definition timer_skips (k : kernel) (d : engine_disc) : bool :=
  ed_active d || bool_decide (ed_queue d = []) ||
  (negb (ed_cpu d =? k_cpu k)%nat && (Z.of_nat (length (ed_queue d)) <=? 150)).

(** The timer of the CPU is armed, the others are as they were. *)
Definition rearmed (cpu : nat) (k k' : kernel) : Prop :=
  forall c, c ∈ cr_timers (k_core k') <-> c = cpu \/ c ∈ cr_timers (k_core k).

Lemma rearmed_start cpu k k' :
  k_core k' = res_timers (fun l => filter (.≠ cpu) l ++ [cpu]) (k_core k) -> rearmed cpu k k'.
Proof.
  intros E c. rewrite E. simpl. rewrite elem_of_app, list_elem_of_filter, list_elem_of_singleton.
  destruct (decide (c = cpu)) as [->|]; tauto.
Qed.

Lemma timer_skips_run k pkts hops cpu d :
  k_emdiscs k !! cpu = Some d -> timer_skips k d = true ->
  exists k', engine_timer_handler pkts hops cpu k = Ret tt k' /\ rearmed cpu k k' /\
    k_fblocks k' = k_fblocks k /\ k_rcu_nesting k' = k_rcu_nesting k /\
    k_emdiscs k' = k_emdiscs k /\ k_skbs k' = k_skbs k.
Proof.
  intros Hd Hs. unfold timer_skips in Hs. unfold engine_timer_handler.
  rewrite (bind_run _ _ k d k) by (unfold timer_disc, bind, get; by rewrite Hd). erewrite bind_run by reflexivity.
  destruct (ed_active d).
  { eexists. split; [by do 2 (erewrite bind_run by reflexivity)|]. split; [by apply rearmed_start|done]. }
  destruct (ed_queue d) as [|a q].
  { eexists. split; [by do 2 (erewrite bind_run by reflexivity)|]. split; [by apply rearmed_start|done]. }
  cbn [orb bool_decide decide] in Hs. apply andb_true_iff in Hs as [-> Hle]. rewrite Hle.
  eexists. split; [by do 2 (erewrite bind_run by (by repeat (erewrite bind_run by reflexivity)))|].
  split; [by apply rearmed_start|done].
Qed.

(** The handler on its own CPU takes the first packet of the backlog and gives
    it to the engine. *)
Lemma timer_process_run k pkts hops d skb q s r k2 :
  k_emdiscs k !! k_cpu k = Some d -> ed_active d = false -> ed_cpu d = k_cpu k -> ed_queue d = skb :: q ->
  skb <> 0 -> k_skbs k !! skb = Some s ->
  process_pkts pkts hops skb (read_path_from_skb s)
    (upd_emdiscs <[k_cpu k := disc_set_queue q d]> (upd_rcu_nesting S k)) = Ret r k2 ->
  k_cpu k2 = k_cpu k -> k_rcu_nesting k2 = S (k_rcu_nesting k) -> k_core k2 = k_core k ->
  exists k', engine_timer_handler pkts hops (k_cpu k) k = Ret tt k' /\ rearmed (k_cpu k) k k' /\
    k_fblocks k' = k_fblocks k2 /\ k_rcu_nesting k' = k_rcu_nesting k /\
    k_emdiscs k' = k_emdiscs k2 /\ k_skbs k' = k_skbs k2 /\ k_net k' = k_net k2.
Proof.
  intros Hd Ha Hc Hq H0 Hs Hrun E1 E2 E3. unfold engine_timer_handler.
  rewrite (bind_run _ _ _ _ _ (timer_disc_run k d Hd)). erewrite bind_run by reflexivity. rewrite Ha, Hq.
  set (k1 := upd_emdiscs _ _) in Hrun.
  assert (Hd1 : k_emdiscs k1 !! k_cpu k1 = Some (disc_set_queue q d)).
  { simpl. apply list_lookup_insert_eq. by eapply lookup_lt_Some. }
  eexists. split.
  - erewrite bind_run; [by erewrite bind_run by reflexivity|]. rewrite Hc, Nat.eqb_refl. simpl negb. cbv iota.
    erewrite bind_run by reflexivity. cbv iota. erewrite bind_run by reflexivity.
    erewrite bind_run.
    2:{ unfold engine_backlog_queue_test_reduce. change (k_cpu k) with (k_cpu (upd_rcu_nesting S k)).
        erewrite bind_run by (apply emdisc_run; exact Hd). rewrite Hq.
        erewrite bind_run by reflexivity. by erewrite bind_run by (by apply get_skb_run). }
    cbv beta iota. erewrite bind_run; [reflexivity|].
    rewrite (process_packet_start _ _ _ _ _ _ (Nat.lt_0_succ _ : (0 < k_rcu_nesting k1)%nat) Hd1).
    simpl ed_active. rewrite Ha. exact Hrun.
  - split; [apply rearmed_start; simpl; by rewrite <- E3|]. split; [done|]. split; [simpl; by rewrite E2|]. done.
Qed.

(** C16: the timer of a CPU.  If the CPU's engine is busy, its backlog empty, or
    the timer runs on another CPU with at most 150 packets waiting, then
    packets, blocks and engines stay as they are.  On its own CPU, with packets
    waiting that all have a way, the idle engine works off the whole backlog:
    every packet of it is freed and no other, the backlog is empty, the engine
    idle again, the read-side lock released and the blocks as they were.  In all
    these cases the timer arms itself again and leaves the others alone, so that
    the backlog is looked at forever. *)
Theorem timer_handler_correct k pkts hops cpu d :
  k_emdiscs k !! cpu = Some d ->
  (timer_skips k d = true ->
   exists k', engine_timer_handler pkts hops cpu k = Ret tt k' /\ rearmed cpu k k' /\
     k_fblocks k' = k_fblocks k /\ k_rcu_nesting k' = k_rcu_nesting k /\
     k_emdiscs k' = k_emdiscs k /\ k_skbs k' = k_skbs k) /\
  (timer_skips k d = false -> forall q,
   cpu = k_cpu k -> ed_cpu d = cpu -> ed_queue d = j_skb <$> q ->
   Forall (fun j => job_ok k hops (read_path_from_skb (j_buf j)) j) q ->
   NoDup (j_skb <$> q) -> (length q <= pkts)%nat ->
   exists k', engine_timer_handler pkts hops cpu k = Ret tt k' /\ rearmed cpu k k' /\
     k_fblocks k' = k_fblocks k /\ k_rcu_nesting k' = k_rcu_nesting k /\
     k_emdiscs k' !! cpu = Some (Disc [] false cpu) /\
     forall a, k_skbs k' !! a = if decide (a ∈ j_skb <$> q) then None else k_skbs k !! a).
Proof.
  intros Hd. split; [by apply timer_skips_run|]. intros Hs q -> Hc Hq HF Hnd Hp. unfold timer_skips in Hs.
  apply orb_false_iff in Hs as [[Ha Hq0]%orb_false_iff _]. destruct q as [|j q]; [by rewrite Hq in Hq0|].
  rewrite fmap_cons in Hq, Hnd. inversion HF as [|? ? Hj HF']; subst.
  set (k2 := upd_emdiscs <[k_cpu k := disc_set_queue (j_skb <$> q) d]> (upd_rcu_nesting S k)).
  assert (Hd2 : k_emdiscs k2 !! k_cpu k2 = Some (disc_set_queue (j_skb <$> q) d)).
  { simpl. apply list_lookup_insert_eq. by eapply lookup_lt_Some. }
  assert (Hsame : same_way k k2) by (by repeat split).
  destruct (jobs_done_fields (j :: q) k2) as (F1 & Ec & Em & En & F3). pose proof Hj as ((H0 & Hs & _) & _).
  destruct (timer_process_run k pkts hops d (j_skb j) (j_skb <$> q) (j_buf j) (j_ret (last_job j q))
    (upd_emdiscs <[k_cpu k := idle d]> (fold_left job_done (j :: q) k2)) Hd Ha Hc Hq H0 Hs)
    as (k' & Hrun & Hre & G1 & G2 & G3 & G4 & _);
    [|exact Ec|exact En|exact (jobs_done_core (j :: q) k2)|].
  - apply (drain_run q _ _ _ j _ k2 Hd2); [done|by apply (job_ok_frame k)| |done|simpl in Hp; lia].
    eapply Forall_impl; [exact HF'|]. intros x Hx. by apply (job_ok_frame k).
  - exists k'. split; [exact Hrun|]. split; [exact Hre|]. split; [by rewrite G1|]. split; [done|].
    split; [|intros a; rewrite G4; apply F3]. rewrite G3.
    change (<[k_cpu k := idle d]> (k_emdiscs (fold_left job_done (j :: q) k2)) !! k_cpu k = Some (Disc [] false (k_cpu k))).
    rewrite Em, list_lookup_insert_eq; [unfold idle; by rewrite Hc|]. simpl. rewrite length_insert. by eapply lookup_lt_Some.
Qed.
End engine.
