(* ===== verification/EngineSinks.v ===== *)
(** * Packets that reach the end of the stack

    A packet goes through forwarding blocks to a block that takes it over: the
    block of a device or of a socket.  [reaches] is the way up to that block;
    [wp_deliver] follows a packet of an idle engine along it and through the
    last block's handler, whatever that does. *)
From Stdlib Require Import ZArith Lia.
From stdpp Require Import base gmap numbers countable list.
From S2P Require Import Prelude CString CritbitTree NameMap Types NetTypes Kernel Fblock FblockNs FblockLife.
From S2P Require Import FblockBind PerCpu FblockCtor Engine Modules EngineProps.

Local Open Scope Z_scope.
Local Open Scope kernel_scope.

(** The stack does not change what a packet carries. *)
Definition same_content (s s' : sk_buff) : Prop :=
  skb_len s' = skb_len s /\ skb_data s' = skb_data s /\ skb_users s' = skb_users s /\ skb_eth s' = skb_eth s.

Lemma same_content_trans s1 s2 s3 : same_content s1 s2 -> same_content s2 s3 -> same_content s1 s3.
Proof. unfold same_content. intuition congruence. Qed.

Lemma same_content_write s i j : same_content s (write_next_idp_to_skb s i j).
Proof. done. Qed.

Section sinks.
Context `{Nm : NameMap, Ka : KernelApi}.

(** [reaches k dir idp l idp']: from [idp] a packet goes through the blocks
    [l], all with a bound port, to [idp']. *)
Inductive reaches (k : kernel) (dir : path_type) : Z -> list fblock -> Z -> Prop :=
| reaches_here idp : reaches k dir idp [] idp
| reaches_step idp b p l idp' :
    forwards k dir idp b p -> p <> IDP_UNKNOWN -> reaches k dir p l idp' -> reaches k dir idp (b :: l) idp'.

Lemma reaches_run k dir idp l idp' : reaches k dir idp l idp' ->
  forall k' skb s hops r0,
  same_way k k' -> packet k' skb s -> read_next_idp_from_skb s = idp ->
  exists s' r', same_content s s' /\ read_next_idp_from_skb s' = idp' /\
    process_hops (length l + hops) skb dir r0 k' =
      process_hops hops skb dir r' (upd_skbs <[skb := s']> (count_way (skb_len s) l k')).
Proof.
  induction 1 as [idp|idp b p l idp' Hf Hp Hr IH]; intros k' skb s hops r0 Hsame Hpk Hidp.
  - exists s, r0. split; [done|]. split; [done|]. destruct Hpk as (_ & Hs & _). simpl. f_equal. kernel_eq.
    by rewrite insert_id.
  - simpl length. rewrite Nat.add_succ_l.
    rewrite (hop_run _ _ _ _ _ _ _ _ _ (forwards_same _ _ _ _ _ _ Hsame Hf) Hpk Hidp).
    destruct (Z.eqb_spec p IDP_UNKNOWN); [done|]. destruct Hpk as (Hs0 & Hs & Hu).
    set (s1 := write_next_idp_to_skb s (fb_idp b) p).
    destruct (IH (upd_skbs <[skb := s1]> (count_block (skb_len s) b k')) skb s1 hops PPE_SUCCESS)
      as (s' & r' & Hc & Hn & E).
    + eapply same_way_trans; [exact Hsame|]. apply count_block_same.
    + split; [done|]. split; [apply lookup_insert_eq|done].
    + done.
    + exists s', r'. split; [by eapply same_content_trans|]. split; [done|]. rewrite E. f_equal. simpl.
      rewrite count_way_skbs. kernel_eq. by rewrite insert_insert_eq.
Qed.

Lemma reaches_same k k' dir idp l idp' :
  same_way k k' -> reaches k dir idp l idp' -> reaches k' dir idp l idp'.
Proof.
  intros E. induction 1 as [idp|idp b p l idp' Hf Hp Hr IH]; [constructor|].
  eapply reaches_step; [by apply (forwards_same k)|done|done].
Qed.

(** Data that no block counts in is not changed on the way. *)
Definition no_counter (p : priv) : Prop := match p with PrivCounter _ => False | _ => True end.

Lemma count_way_priv len l a p : no_counter p -> forall k,
  k_privs k !! a = Some p -> k_privs (count_way len l k) !! a = Some p.
Proof.
  intros Hp. induction l as [|b l IH]; intros k Ha; simpl; [done|]. apply IH. simpl.
  destruct (decide (fb_private_data b = a)) as [<-|]; [|by rewrite lookup_alter_ne].
  rewrite lookup_alter_eq, Ha. simpl. by destruct p.
Qed.

Lemma count_way_rest len l : forall k,
  k_net (count_way len l k) = k_net k /\ k_next (count_way len l k) = k_next k /\
  k_oom (count_way len l k) = k_oom k.
Proof. induction l as [|b l IH]; intros k; simpl; [done|]. by destruct (IH (count_block len b k)) as (-> & -> & ->). Qed.

(** The block at the end of the way. *)
Record sink (k : kernel) (idp : Z) (fb : addr) (b : fblock) (m : modid) : Prop := {
  sk_idp : idp <> 0 /\ fbl_lookup k idp = fb;
  sk_block : fb <> 0 /\ k_fblocks k !! fb = Some b /\ fb_netfb_rx b = Some m;
  sk_refs : ref_ok b;
}.

(** The state in which the last block's handler runs. *)
Record at_sink (k : kernel) (fb : addr) (b : fblock) (skb : addr) (s : sk_buff) (k1 : kernel) : Prop := {
  as_block : k_fblocks k1 = <[fb := bump 1 b]> (k_fblocks k);
  as_skbs : k_skbs k1 = <[skb := s]> (k_skbs k);
  as_privs a p : no_counter p -> k_privs k !! a = Some p -> k_privs k1 !! a = Some p;
  as_same : k_net k1 = k_net k /\ k_cpu k1 = k_cpu k /\ k_rcu_nesting k1 = k_rcu_nesting k /\
            k_next k1 = k_next k /\ k_oom k1 = k_oom k;
}.

(** What a handler that ends the processing leaves alone. *)
Definition took (dir : path_type) (k k1 : kernel) (P : kernel -> Prop) (x : Z * path_type) (k2 : kernel) : Prop :=
  x = (PPE_DROPPED, dir) /\ k_fblocks k2 = k_fblocks k1 /\ k_emdiscs k2 = k_emdiscs k1 /\ k_cpu k2 = k_cpu k1 /\
  k_rcu_nesting k2 = k_rcu_nesting k1 /\
  (forall k3, k_net k3 = k_net k2 -> k_skbs k3 = k_skbs k2 -> k_fblocks k3 = k_fblocks k ->
     k_emdiscs k3 = k_emdiscs k -> k_cpu k3 = k_cpu k -> k_rcu_nesting k3 = k_rcu_nesting k -> P k3).

Lemma sink_run k k1 dir idp fb b m skb s r0 hops (Q : Z * path_type -> kernel -> Prop) :
  sink k idp fb b m -> same_way k k1 -> k_skbs k1 !! skb = Some s -> skb <> 0 -> read_next_idp_from_skb s = idp ->
  wp (mod_netfb_rx m fb skb dir)
     (fun x k2 => x = (PPE_DROPPED, dir) /\ k_fblocks k2 = <[fb := bump 1 b]> (k_fblocks k) /\
        Q x (upd_iostats (alter stats_inc_fblocks (k_cpu k2)) (upd_fblocks (fun _ => k_fblocks k) k2)))
     (upd_fblocks <[fb := bump 1 b]> k1) ->
  wp (process_hops (S hops) skb dir r0) Q k1.
Proof.
  intros [[H0 Hl] (Hf0 & Hb & Hm) Hr] (E1 & E2 & E3 & E4) Hs Hs0 Hidp Hw. cbn [process_hops]. wp_step.
  unfold get_skb. eapply wp_deref; [done|exact Hs|]. rewrite Hidp. destruct (Z.eqb_spec idp 0); [done|].
  unfold __search_fblock. wp_steps.
  assert (Hfl : radix_lookup (k_fblmap k1) idp = fb) by (by rewrite E1).
  rewrite Hfl. destruct (Z.eqb_spec fb 0); [done|]. cbn [negb].
  eapply wp_get_ref; [done|by rewrite E2|]. wp_steps. destruct (Z.eqb_spec fb 0); [done|]. wp_step.
  eapply wp_get_fb; [done|apply lookup_insert_eq|]. cbn [bump with_refcnt fb_netfb_rx]. rewrite Hm. simpl call_netrx.
  wp_step. eapply wp_mono; [exact Hw|]. cbv beta. intros x k2 (-> & Ef & HQ). wp_step.
  eapply (wp_put_alive _ _ (bump 1 b)); [done|rewrite Ef; apply lookup_insert_eq|refs|].
  unfold engine_inc_fblock_stats, this_cpu_stats. wp_steps. rewrite Z.eqb_refl. wp_step.
  match goal with |- Q _ ?k3 => match type of HQ with Q _ ?k4 => replace k3 with k4; [done|] end end.
  kernel_eq. by rewrite Ef, insert_insert_eq, bump_back, insert_id.
Qed.

(** The engine around one packet, with an empty backlog. *)
Lemma wp_process_idle k pkts hops skb s dir cpu (Q : Z -> kernel -> Prop) :
  packet k skb s -> (0 < k_rcu_nesting k)%nat -> k_emdiscs k !! k_cpu k = Some (Disc [] false cpu) ->
  wp (process_hops hops skb dir PPE_ERROR)
     (fun x k2 => k_cpu k2 = k_cpu k /\ k_emdiscs k2 = <[k_cpu k := Disc [] true cpu]> (k_emdiscs k) /\
        Q x.1 (upd_emdiscs (fun _ => k_emdiscs k) k2))
     (upd_iostats (fun st => alter (stats_add_bytes (skb_len s)) (k_cpu k) (alter stats_inc_pkts (k_cpu k) st))
        (upd_emdiscs <[k_cpu k := Disc [] true cpu]> k)) ->
  wp (process_packet (S pkts) hops skb dir) Q k.
Proof.
  intros (H0 & Hs & Hu) Hn Hd Hw.
  assert (Hlt : (k_cpu k < length (k_emdiscs k))%nat) by (by eapply lookup_lt_Some).
  unfold wp. rewrite (process_packet_start k _ _ _ _ _ Hn Hd). cbn [ed_active].
  match goal with |- match ?m k with _ => _ end => change (wp m Q k) end. cbn [process_pkts].
  unfold engine_this_cpu_set_active, engine_inc_pkts_stats, engine_add_bytes_stats, this_cpu_stats, set_emdisc, get_skb.
  wp_steps. eapply wp_of_run; [by apply emdisc_run|]. wp_steps.
  eapply wp_deref; [done|exact Hs|]. wp_steps.
  match goal with |- wp _ _ ?k1 => match type of Hw with wp _ _ ?k2 => replace k1 with k2 by (by kernel_eq) end end.
  eapply wp_mono; [exact Hw|]. cbv beta. intros x k2 (Ec & Ee & HQ).
  assert (Hd2 : k_emdiscs k2 !! k_cpu k2 = Some (Disc [] true cpu)).
  { rewrite Ec, Ee. by apply list_lookup_insert_eq. }
  wp_step. eapply wp_of_run; [by eapply test_reduce_nil|]. cbv beta iota. wp_step.
  eapply wp_of_run; [by apply set_inactive_run|]. wp_step.
  match goal with |- Q _ ?k3 => match type of HQ with Q _ ?k4 => replace k3 with k4; [done|] end end.
  kernel_eq. rewrite Ec, Ee, list_insert_insert_eq. symmetry. by apply list_insert_id.
Qed.

(** The whole way. *)
Lemma wp_deliver k pkts hops skb s dir l idp fb b m cpu (P : kernel -> Prop) :
  packet k skb s -> (0 < k_rcu_nesting k)%nat -> k_emdiscs k !! k_cpu k = Some (Disc [] false cpu) ->
  reaches k dir (read_next_idp_from_skb s) l idp -> sink k idp fb b m ->
  (forall k1 s1, at_sink k fb b skb s1 k1 -> same_content s s1 ->
     wp (mod_netfb_rx m fb skb dir) (took dir k k1 P) k1) ->
  wp (process_packet (S pkts) (length l + S hops) skb dir) (fun r k' => r = PPE_DROPPED /\ P k') k.
Proof.
  intros Hpk Hn Hd Hreach Hsink Hrx. eapply wp_process_idle; [exact Hpk|exact Hn|exact Hd|].
  set (k0 := upd_iostats _ _). assert (Hsame : same_way k k0) by (by repeat split).
  destruct (reaches_run k dir _ l idp Hreach k0 skb s (S hops) PPE_ERROR Hsame) as (s' & r' & Hc & Hnx & E);
    [exact Hpk|done|].
  unfold wp at 1. rewrite E. match goal with |- match ?m ?kk with _ => _ end => change (wp m (fun x k2 =>
    k_cpu k2 = k_cpu k /\ k_emdiscs k2 = <[k_cpu k:=Disc [] true cpu]> (k_emdiscs k) /\
    x.1 = PPE_DROPPED /\ P (upd_emdiscs (fun _ => k_emdiscs k) k2)) kk) end.
  pose proof (count_way_same (skb_len s) l k0) as Hcw.
  destruct (count_way_fields (skb_len s) l k0) as (F1 & F2 & F3 & F4).
  destruct (count_way_rest (skb_len s) l k0) as (G1 & G2 & G3).
  assert (Hs2 : same_way k (upd_skbs <[skb := s']> (count_way (skb_len s) l k0))).
  { eapply same_way_trans; [exact Hsame|]. destruct Hcw as (? & ? & ? & ?). by repeat split. }
  eapply (sink_run k _ dir idp fb b m skb s'); [exact Hsink|exact Hs2|apply lookup_insert_eq|apply Hpk|done|].
  pose proof Hs2 as (_ & Eb & Ec & _). simpl in Eb, Ec.
  eapply wp_mono; [apply (Hrx _ s'); [|exact Hc]|].
  - split; simpl; [by rewrite Eb|by rewrite F1| |by rewrite G1, Ec, F4, G2, G3].
    intros a p Hp Ha. by apply count_way_priv.
  - cbv beta. intros x k2 (-> & T1 & T2 & T3 & T4 & HP). simpl in T1, T2, T3, T4. split; [done|].
    split; [by rewrite T1, Eb|]. simpl. split; [by rewrite T3|]. split; [by rewrite T2, F2|]. split; [done|].
    apply HP; simpl; try done; [by rewrite T3, Ec|by rewrite T4, F4].
Qed.
End sinks.
