(* ===== verification/FbProps.v ===== *)
(** * Properties of the block modules

    What the packet handlers of src/fb_dummy.c, src/fb_tee.c and
    src/fb_counter.c do on a single packet, what the retry loops around the
    seqlock make of concurrent writers, what /proc shows for a counter, and
    how options reach a block. *)
From Stdlib Require Import ZArith Lia.
From stdpp Require Import base gmap numbers countable list.
From S2P Require Import Prelude CString Digits CritbitTree NameMap Types Kernel Fblock FblockNs FblockLife.
From S2P Require Import FblockBind PerCpu FblockCtor Engine FbDummy FbTee FbCounter Modules.
From S2P Require Import EngineProps.

Local Open Scope Z_scope.
Local Open Scope kernel_scope.

Lemma write_next_idp_twice s a b c d :
  write_next_idp_to_skb (write_next_idp_to_skb s a b) c d = write_next_idp_to_skb s c d.
Proof. by destruct s as [? ? [] ?]. Qed.

(** the retry loop of the dummy block forwards to the port of the last
    round, the one that no writer disturbed, but drops the packet when any
    round, also a disturbed one, saw the port unbound. *)
Theorem dummy_retry_loop self dir torn p s :
  fb_dummy_netrx_loop self dir (torn ++ [p]) s false =
    (write_next_idp_to_skb s self (port (dp_port p) dir),
     existsb (fun q => port (dp_port q) dir =? IDP_UNKNOWN) (torn ++ [p])).
Proof.
  assert (H : forall drop s', fb_dummy_netrx_loop self dir (torn ++ [p]) s' drop =
    (write_next_idp_to_skb s' self (port (dp_port p) dir),
     drop || existsb (fun q => port (dp_port q) dir =? IDP_UNKNOWN) (torn ++ [p]))); [|apply H].
  induction torn as [|t torn IH]; intros drop s'; simpl; [by rewrite orb_false_r|].
  by rewrite IH, write_next_idp_twice, orb_assoc.
Qed.

Section tee.
Context `{Nm : NameMap, Ka : KernelApi}.

(** a tee block with a bound port and a bound copy port sends the
    packet on to its port and puts a copy of its own, with the same payload
    and addressed to the copy port, at the end of the CPU's backlog. *)
Theorem tee_copies k fb b l x skb s dir d :
  fb <> 0 -> k_fblocks k !! fb = Some b ->
  fb_private_data b <> 0 -> k_privs k !! fb_private_data b = Some (PrivTee l) ->
  l !! k_cpu k = Some x -> port (tp_port x) dir <> IDP_UNKNOWN -> tp_port_clone x <> IDP_UNKNOWN ->
  packet k skb s -> k_emdiscs k !! k_cpu k = Some d ->
  k_oom k = [] -> 0 < k_next k -> k_next k <> skb ->
  exists k', fb_tee_netrx [] fb skb dir k = Ret (PPE_SUCCESS, dir) k' /\
    let copy := k_next k in
    k_skbs k' !! skb = Some (write_next_idp_to_skb s (fb_idp b) (port (tp_port x) dir)) /\
    (exists c, k_skbs k' !! copy = Some c /\ skb_data c = skb_data s /\ skb_len c = skb_len s /\
       read_next_idp_from_skb c = tp_port_clone x /\ read_path_from_skb c = dir) /\
    (forall a, a <> skb -> a <> copy -> k_skbs k' !! a = k_skbs k !! a) /\
    k_emdiscs k' !! k_cpu k = Some (disc_set_queue (ed_queue d ++ [copy]) d) /\
    k_fblocks k' = k_fblocks k /\ k_privs k' = k_privs k.
Proof.
  intros Hf Hb Hp0 Hp Hx Hport Hcl (Hs0 & Hs & Hu) Hd Hoom Hn Hne.
  unfold IDP_UNKNOWN, IDP_EXIT_PPE in *. apply wp_run_val.
  unfold fb_tee_netrx, engine_backlog_tail, skb_copy, mod_skb, get_skb. wp_step.
  eapply wp_get_fb; [done|exact Hb|]. wp_step.
  eapply wp_of_run; [by apply tee_priv_run|]. wp_steps. rewrite Hx. wp_step.
  eapply wp_deref; [done|exact Hs|]. simpl fb_tee_netrx_loop. cbv beta iota zeta.
  unfold IDP_UNKNOWN, IDP_EXIT_PPE.
  destruct (Z.eqb_spec (port (tp_port x) dir) 0); [done|].
  destruct (Z.eqb_spec (tp_port_clone x) 0) as [|Hcl']; [done|]. simpl negb. cbv iota.
  wp_step. wp_step. eapply wp_deref; [done|exact Hs|]. wp_steps.
  destruct (Z.eqb_spec (tp_port_clone x) 0); [done|]. simpl negb. cbv iota.
  wp_steps. eapply wp_deref; [done|apply lookup_insert_eq|].
  apply wp_kmalloc; [intros _|by simpl; rewrite Hoom]. simpl k_next.
  destruct (Z.eqb_spec (k_next k) 0); [lia|]. simpl negb. cbv iota. wp_steps.
  eapply wp_deref; [lia|apply lookup_insert_eq|]. wp_steps.
  eapply wp_deref; [lia|apply lookup_insert_eq|]. wp_steps.
  eapply wp_of_run; [by apply emdisc_run|]. unfold set_emdisc. wp_steps. split; [done|].
  simpl. split; [rewrite !(lookup_insert_ne _ (k_next k)) by done; apply lookup_insert_eq|].
  split; [eexists; split; [apply lookup_insert_eq|done]|].
  split; [intros a Ha1 Ha2; by rewrite !lookup_insert_ne by done|].
  split; [apply list_lookup_insert_eq; by eapply lookup_lt_Some|done].
Qed.
End tee.

Section counter.
Context `{Nm : NameMap, Ka : KernelApi}.

Lemma counter_sums_quiet l : forall a b,
  fb_counter_sums ((fun p => [p]) <$> l) (u64 a, u64 b) =
    (u64 (a + total cp_packets l), u64 (b + total cp_bytes l)).
Proof.
  induction l as [|p l IH]; intros a b; simpl; [by rewrite !Z.add_0_r|].
  rewrite !u64_u64, IH. by rewrite !Z.add_assoc.
Qed.

(** when no CPU counts meanwhile, the file of a counter shows the sums
    over all CPUs of its packets and its bytes, in decimal, modulo 2^64. *)
Theorem counter_proc_show_correct k fb b l torn :
  fb <> 0 -> k_fblocks k !! fb = Some b ->
  fb_private_data b <> 0 -> k_privs k !! fb_private_data b = Some (PrivCounter l) ->
  torn = replicate (length l) [] ->
  fb_counter_proc_show torn fb k =
    Ret (dec (u64 (total cp_packets l)) ++ [32] ++ dec (u64 (total cp_bytes l)) ++ [10]) k.
Proof.
  intros Hf Hb Hp0 Hp ->. unfold fb_counter_proc_show, rcu_read_lock, rcu_read_unlock.
  erewrite bind_run by reflexivity. erewrite bind_run by (by apply deref_run).
  erewrite bind_run by reflexivity. erewrite bind_run by (by apply counter_priv_run).
  unfold ret.
  assert (E : zip_with (fun t p => t ++ [p]) (replicate (length l) []) l = (fun p => [p]) <$> l).
  { clear. induction l; simpl; [done|]. by rewrite IHl. }
  rewrite E. change (0, 0) with (u64 0, u64 0). rewrite counter_sums_quiet. simpl.
  f_equal. by destruct k.
Qed.

(** every round of the retry loop of a counter's file adds to the sums,
    so a CPU that is read twice is counted twice. *)
Theorem counter_proc_show_torn k fb b p t :
  fb <> 0 -> k_fblocks k !! fb = Some b ->
  fb_private_data b <> 0 -> k_privs k !! fb_private_data b = Some (PrivCounter [p]) ->
  fb_counter_proc_show [[t]] fb k =
    Ret (dec (u64 (cp_packets t + cp_packets p)) ++ [32] ++
         dec (u64 (cp_bytes t + cp_bytes p)) ++ [10]) k.
Proof.
  intros Hf Hb Hp0 Hp. unfold fb_counter_proc_show, rcu_read_lock, rcu_read_unlock.
  erewrite bind_run by reflexivity. erewrite bind_run by (by apply deref_run).
  erewrite bind_run by reflexivity. erewrite bind_run by (by apply counter_priv_run).
  unfold ret. simpl. rewrite !u64_u64. f_equal. by destruct k.
Qed.
End counter.

Section options.
Context `{Nm : NameMap, Ka : KernelApi, !FblockOps}.

(** an option "key=val" reaches the block's handler with the key up to
    the first '=' and the rest as value, the block is referenced during the
    call only and the handler's result returned; a string without '=' is
    refused with [-EINVAL] and the block not called. *)
Theorem set_option_correct k fb b m key val r k1 :
  fb <> 0 -> k_fblocks k !! fb = Some b -> ref_ok b -> fb_event_rx b = Some m -> 61 ∉ key ->
  mod_event_rx m (own_notifier fb) (FBLOCK_SET_OPT key val)
    (upd_fblocks <[fb := bump 1 b]> (upd_rcu_nesting S k)) = Ret r k1 ->
  k_fblocks k1 = <[fb := bump 1 b]> (k_fblocks k) ->
  fblock_set_option fb (Some (key ++ 61 :: val)) k =
    Ret r (upd_rcu_nesting pred (upd_fblocks <[fb := b]> k1)) /\
  forall s, 61 ∉ s -> fblock_set_option fb (Some s) k = Ret (- EINVAL) k.
Proof.
  intros Hf Hb Hr Hm Hkey Hev Hk1. split.
  - unfold fblock_set_option, __fblock_set_option. destruct (Z.eqb_spec fb 0); [done|].
    erewrite bind_run by reflexivity. rewrite opt_split_app by done.
    erewrite bind_run; [reflexivity|].
    erewrite bind_run by (by apply get_fblock_run).
    erewrite bind_run by (apply deref_run; [done|apply lookup_insert_eq]).
    simpl fb_event_rx. rewrite Hm. simpl call_event.
    rewrite (bind_run _ _ _ _ _ Hev).
    erewrite bind_run; [unfold ret; reflexivity|].
    rewrite (put_alive_run _ _ (bump 1 b)); [by rewrite bump_back|done|by rewrite Hk1, lookup_insert_eq|].
    unfold ref_ok, bump in *. simpl. s32_norm. lia.
  - intros s Hs. unfold fblock_set_option, __fblock_set_option. destruct (Z.eqb_spec fb 0); [done|].
    pose proof (opt_split_spec s) as Hspec. destruct (opt_split s) as [[key' val']|].
    + destruct Hspec as [-> _]. set_solver.
    + erewrite bind_run by reflexivity. erewrite bind_run by reflexivity.
      erewrite bind_run by reflexivity. unfold ret. f_equal. by destruct k.
Qed.
End options.
