(* ===== verification/ModuleLife.v ===== *)
(** * Life cycle of the blocks of the modules

    The constructors of src/fb_dummy.c, src/fb_tee.c, src/fb_counter.c and src/fb_bpf.c make
    a registered block whose ports are free on every CPU; once its last
    reference is gone and a grace period has passed, nothing of it is left. *)
From Stdlib Require Import ZArith Lia.
From stdpp Require Import base gmap numbers countable list.
From S2P Require Import Prelude CString CritbitTree NameMap Types Kernel Fblock FblockNs FblockLife.
From S2P Require Import FblockBind PerCpu FblockCtor Engine FbDummy FbTee FbCounter FbBpf FbEth FbEthvlink FbPflana Modules.

Local Open Scope Z_scope.
Local Open Scope kernel_scope.

(** The private data of a new block. *)
Definition fresh_priv (m : modid) (n : nat) : priv :=
  match m with
  | M_tee => PrivTee (replicate n (TeePriv (Ports IDP_UNKNOWN IDP_UNKNOWN) IDP_UNKNOWN))
  | M_counter => PrivCounter (replicate n (CounterPriv (Ports IDP_UNKNOWN IDP_UNKNOWN) 0 0))
  | M_bpf => PrivBpf (replicate n (BpfPriv (Ports IDP_UNKNOWN IDP_UNKNOWN) None))
  | _ => PrivDummy (replicate n (DummyPriv (Ports IDP_UNKNOWN IDP_UNKNOWN)))
  end.

(** The modules whose blocks have a file under /proc. *)
Definition has_proc (m : modid) : bool := bool_decide (m = M_counter \/ m = M_bpf).

Section life.
Context `{Nm : NameMap, Ka : KernelApi}.

(** What a constructor promises. *)
Record ctor_done (m : modid) (name : cstr) (k : kernel) (fb : addr) (k' : kernel) : Prop := {
  cd_fb : fb = k_next k;
  cd_core : core_ok k';
  cd_blocks : k_fblocks k' = <[fb := with_idp (k_idp_counter k + 1) (new_block m name k)]> (k_fblocks k);
  cd_privs : k_privs k' = <[64 + fb := fresh_priv m (k_cpus k)]> (k_privs k);
  cd_subs : k_subs k' = <[128 + fb := chain_init]> (k_subs k);
  cd_fbl i : fbl_lookup k' i = if decide (i = k_idp_counter k + 1) then fb else fbl_lookup k i;
  cd_ns n : ns_lookup k' n = if decide (n = fbname name) then Some (k_idp_counter k + 1) else ns_lookup k n;
  cd_same : k_factories k' = k_factories k /\ k_fbmap k' = k_fbmap k /\ k_notifs k' = k_notifs k /\
            k_rcu k' = k_rcu k /\ k_rcu_nesting k' = k_rcu_nesting k /\ k_cpus k' = k_cpus k /\ k_cpu k' = k_cpu k /\
            k_skbs k' = k_skbs k /\ k_emdiscs k' = k_emdiscs k /\ k_fbcache k' = tail (k_fbcache k);
  cd_counter : k_idp_counter k' = k_idp_counter k + 1;
  cd_oom : k_oom k' = [];
}.

(** Registration of a constructed block, from where all constructors are
    alike; [k1] may differ from [constructed] in its /proc entries. *)
Lemma wp_ctor_register m name k pr (err : Z -> M addr) (Q : addr -> kernel -> Prop) :
  core_ok k -> cstr_ok name -> ns_lookup k (fbname name) = None ->
  k_idp_counter k + 1 < 2 ^ 32 -> k_oom k = [] ->
  (forall k', ctor_done m name k (k_next k) k' -> k_proc k' = pr -> Q (k_next k) k') ->
  wp (r <- register_fblock_namespace (k_next k);;
      if negb (r =? 0) then err r else module_get m;; ret (k_next k)) Q
    (upd_proc (fun _ => pr) (constructed m (fresh_priv m) name k)).
Proof.
  intros Hk Hn HN Hlt Hoom HQ. wp_step. set (k1 := upd_proc _ _).
  assert (Hc : core_ok k1).
  { pose proof (constructed_core m (fresh_priv m) name k Hk) as [Hh Hns ? ? ?].
    split; [by destruct Hh; split|by apply (ns_ok_ext (constructed m (fresh_priv m) name k))|done..]. }
  assert (Hu : unregistered k1 (k_next k) (new_block m name k)).
  { by destruct (constructed_unregistered m (fresh_priv m) name k Hk Hn). }
  eapply wp_mono; [by apply (register_namespace_wp k1 _ _ Hc Hu)|].
  intros r k2 Hres. simpl in Hres.
  destruct (block_registered_ok _ _ _ _ _ Hres) as (-> & [Hfr Ho] & (Hf & Hcnt & Hl) & Hk2 & Hns);
    [done|done|].
  simpl. wp_step. unfold wp at 1, module_get, ret. simpl.
  apply HQ; [|rewrite Hfr; done].
  split; simpl; try done; try (rewrite Hfr; done).
  - destruct Hk2 as [Hh2 Hn2 ? ? ?].
    split; [by destruct Hh2; split|by apply (ns_ok_ext k2)|done..].
  - rewrite Hf. simpl. by rewrite insert_insert_eq.
Qed.

Lemma upd_proc_same k : k = upd_proc (fun _ => k_proc k) k.
Proof. by destruct k. Qed.

(** All constructors. *)
Lemma ctor_wp m name k :
  is_Some (factory_of m) -> core_ok k -> cstr_ok name -> ns_lookup k (fbname name) = None ->
  k_idp_counter k + 1 < 2 ^ 32 -> k_oom k = [] -> fb_lock (slab_object k) = false ->
  wp (mod_ctor m name) (fun fb k' => ctor_done m name k fb k' /\
      k_proc k' = if has_proc m then (fbname name, fb) :: k_proc k else k_proc k) k.
Proof.
  intros Hm Hk Hn HN Hlt Hoom Hl.
  destruct Hm as [f Hf]. destruct m; try discriminate; simpl; unfold fb_dummy_ctor, fb_tee_ctor, fb_counter_ctor, fb_bpf_ctor.
  - apply (wp_constructed M_dummy (fresh_priv M_dummy)); [done..|].
    rewrite (upd_proc_same (constructed _ _ _ _)). by apply wp_ctor_register.
  - apply (wp_constructed M_tee (fresh_priv M_tee)); [done..|].
    rewrite (upd_proc_same (constructed _ _ _ _)). by apply wp_ctor_register.
  - apply (wp_constructed M_counter (fresh_priv M_counter)); [done..|].
    pose proof (heap_next k (core_heap k Hk)) as Hpos.
    wp_step. eapply wp_get_fb; [lia|apply lookup_insert_eq|].
    unfold proc_create_data, alloc_ok. wp_steps. simpl. rewrite Hoom. wp_steps. simpl.
    change (upd_proc ?f (constructed ?a ?b ?c ?d)) with
      (upd_proc (fun _ => f (k_proc (constructed a b c d))) (constructed a b c d)).
    by apply wp_ctor_register.
  - apply (wp_constructed M_bpf (fresh_priv M_bpf)); [done..|].
    pose proof (heap_next k (core_heap k Hk)) as Hpos.
    wp_step. eapply wp_get_fb; [lia|apply lookup_insert_eq|].
    unfold proc_create_data, alloc_ok. wp_steps. simpl. rewrite Hoom. wp_steps. simpl.
    change (upd_proc ?f (constructed ?a ?b ?c ?d)) with
      (upd_proc (fun _ => f (k_proc (constructed a b c d))) (constructed a b c d)).
    by apply wp_ctor_register.
Qed.

(** ** Destruction *)

(** A notifier whose block is alive and has a handler. *)
Definition sub_alive (k : kernel) (nb : addr) : Prop :=
  nb <> 0 /\ exists n m b, k_notifs k !! nb = Some n /\ fn_call n = Some m /\ m <> M_core /\
    fn_self n <> 0 /\ k_fblocks k !! fn_self n = Some b.

Lemma event_down_run m n idp b k :
  m <> M_core -> fn_self n <> 0 -> k_fblocks k !! fn_self n = Some b ->
  mod_event_rx m n (FBLOCK_DOWN idp) k = Ret NOTIFY_OK k.
Proof.
  intros Hm H0 Hb. destruct m; [done|..]; simpl;
    unfold fb_dummy_event, fb_tee_event, fb_counter_event, fb_bpf_event, fb_eth_event, fb_ethvlink_event, fb_pflana_event; cbv zeta;
    by rewrite (event_start _ _ _ _ H0 Hb).
Qed.

Lemma call_chain_down idp l : forall last k,
  Forall (sub_alive k) l ->
  exists r, notifier_call_chain l (FBLOCK_DOWN idp) last k = Ret r k.
Proof.
  induction l as [|nb l IH]; intros last k HF; simpl; [by eexists|].
  inversion HF as [|? ? (H0 & n & m & b & Hn & Hc & Hm & Hs0 & Hs) HF']; subst.
  destruct (IH NOTIFY_OK k HF') as [r Hr]. exists r.
  erewrite bind_run by (by apply deref_run). rewrite Hc. simpl.
  by erewrite bind_run by (by eapply event_down_run).
Qed.

(** A block whose last reference is about to go. *)
Record doomed (k : kernel) (fb : addr) (b : fblock) (m : modid) (f : fblock_factory) (c : chain) :
    Prop := {
  dm_live : fb <> 0 /\ k_fblocks k !! fb = Some b;
  dm_fac : fb_factory b <> 0 /\ k_factories k !! fb_factory b = Some f;
  dm_dtor : fac_dtor f = m /\ is_Some (factory_of m) /\ fac_dtor_outside_rcu f = None;
  dm_priv : fb_private_data b <> 0 /\ is_Some (k_privs k !! fb_private_data b);
  dm_subs : fb_others b <> 0 /\ k_subs k !! fb_others b = Some c;
  dm_alive : Forall (sub_alive k) (chain_members c);
}.

(** What is left when the block is gone. *)
Record freed (k : kernel) (fb : addr) (b : fblock) (m : modid) (k' : kernel) : Prop := {
  fr_blocks : k_fblocks k' = delete fb (k_fblocks k);
  fr_privs : k_privs k' = delete (fb_private_data b) (k_privs k);
  fr_subs : k_subs k' = delete (fb_others b) (k_subs k);
  fr_notifs : k_notifs k' = k_notifs k;
  fr_cache : k_fbcache k' = b :: k_fbcache k;
  fr_rcu : k_rcu k' = k_rcu k;
  fr_mod : module_ref k' m = module_ref k m - 1;
  fr_core : module_ref k' M_core = module_ref k M_core - 1;
  fr_fbl : k_fblmap k' = k_fblmap k;
  fr_elems : k_elems k' = k_elems k /\ k_idpmap k' = k_idpmap k;
}.

Lemma dtor_wp k fb b m (Q : unit -> kernel -> Prop) :
  is_Some (factory_of m) -> fb <> 0 -> k_fblocks k !! fb = Some b ->
  fb_private_data b <> 0 -> is_Some (k_privs k !! fb_private_data b) ->
  (forall pr, Q tt (upd_modrefs <[m := module_ref k m - 1]>
     (upd_proc (fun _ => pr) (upd_privs (delete (fb_private_data b)) k)))) ->
  wp (mod_dtor m fb) Q k.
Proof.
  intros Hm H0 Hb Hp0 [p Hp] HQ. destruct Hm as [f Hf]. destruct m; try discriminate; simpl;
    unfold fb_dummy_dtor, fb_tee_dtor, fb_counter_dtor, fb_bpf_dtor, free_percpu; wp_step;
    (eapply wp_get_fb; [done|exact Hb|]); wp_step; (eapply wp_kfree; [done|exact Hp|]).
  - specialize (HQ (k_proc k)). by destruct k.
  - specialize (HQ (k_proc k)). by destruct k.
  - unfold remove_proc_entry. wp_steps. apply HQ.
  - unfold remove_proc_entry. wp_steps. apply HQ.
Qed.

Lemma free_fblock_wp k fb b m f c :
  doomed k fb b m f c -> wp (free_fblock_rcu fb) (fun _ k' => freed k fb b m k') k.
Proof.
  intros [[H0 Hb] [Hf0 Hf] (Hd & Hm & _) [Hp0 Hp] [Ho0 Hc] Hal].
  assert (m <> M_core) by (intros ->; by destruct Hm).
  unfold free_fblock_rcu, cleanup_fblock, notify_fblock_subscribers. fb_steps.
  destruct (Z.eqb_spec (fb_others b) 0); [done|]. fb_steps.
  eapply wp_deref; [done|exact Hc|].
  destruct (call_chain_down (fb_idp b) (chain_members c) NOTIFY_DONE k Hal) as [r Hr].
  eapply wp_of_run; [exact Hr|]. fb_steps.
  destruct (Z.eqb_spec (fb_factory b) 0); [done|]. simpl. fb_steps.
  eapply wp_deref; [done|exact Hf|]. rewrite Hd.
  eapply dtor_wp; [done..|]. intros pr. fb_steps.
  eapply wp_kfree; [done|exact Hc|]. unfold kfree_fblock. fb_steps.
  unfold wp, module_put. split; try done; unfold module_ref; simpl;
    by rewrite ?lookup_insert_eq, ?lookup_insert_ne, ?lookup_insert_eq by done.
Qed.

(** ** The properties *)

Lemma fresh_priv_port m n a pr dir :
  is_Some (factory_of m) -> (0 < n)%nat -> a <> 0 ->
  priv_port (<[a := fresh_priv m n]> pr) m a dir = Some IDP_UNKNOWN.
Proof.
  intros Hm Hn Ha. apply priv_port_Some. exists (fresh_priv m n). rewrite lookup_insert_eq.
  split; [done|]. split; [done|]. split; [destruct Hm as [f Hf]; by destruct m|]. apply uport_Some.
  destruct Hm as [f Hf]. destruct m; try discriminate; simpl; rewrite fmap_replicate;
    (split; [destruct n; [lia|done]|apply Forall_replicate; by destruct dir]).
Qed.

(** a constructor called with a free name builds a block at a fresh
    address that is registered under its (possibly cut) name with a new IDP,
    holds one reference, runs the module's code and has both ports unbound on
    every CPU; every other block and name is untouched. *)
Theorem ctor_correct m name k :
  is_Some (factory_of m) -> core_ok k -> cstr_ok name -> ns_lookup k (fbname name) = None ->
  k_idp_counter k + 1 < 2 ^ 32 -> k_oom k = [] -> fb_lock (slab_object k) = false ->
  (0 < k_cpus k)%nat ->
  exists fb b k', mod_ctor m name k = Ret fb k' /\ core_ok k' /\
    fb <> 0 /\ k_fblocks k !! fb = None /\ k_fblocks k' = <[fb := b]> (k_fblocks k) /\
    registered k' fb b /\ fb_name b = fbname name /\ fb_refcnt b = 1 /\ fb_lock b = false /\
    fb_netfb_rx b = Some m /\ fb_event_rx b = Some m /\
    (forall dir, priv_port (k_privs k') m (fb_private_data b) dir = Some IDP_UNKNOWN) /\
    (forall n, n <> fbname name -> ns_lookup k' n = ns_lookup k n).
Proof.
  intros Hm Hk Hn HN Hlt Hoom Hl Hcpu.
  pose proof (ctor_wp m name k Hm Hk Hn HN Hlt Hoom Hl) as Hw.
  apply wp_run in Hw as (fb & k' & Hrun & [Hfb Hk' Hb Hp Hs Hfl Hns _ _ _] & _).
  pose proof (heap_next k (core_heap k Hk)) as Hpos.
  eexists fb, _, k'. do 2 (split; [done|]). split; [lia|].
  split; [rewrite Hfb; apply below_next_fresh, Hk|]. split; [exact Hb|].
  split; [split; [by rewrite Hb, lookup_insert_eq|simpl; by rewrite Hfl, decide_True|]|].
  { simpl. by rewrite Hns, decide_True. }
  do 5 (split; [done|]). split; [|intros n ?; by rewrite Hns, decide_False].
  intros dir. rewrite Hp. simpl. rewrite <- Hfb. apply fresh_priv_port; [done|done|lia].
Qed.

Lemma sub_alive_mono k k' nb :
  k_notifs k' = k_notifs k -> dom (k_fblocks k) ⊆ dom (k_fblocks k') ->
  sub_alive k nb -> sub_alive k' nb.
Proof.
  intros En Hd (H0 & n & m & b & Hn & Hc & Hm & Hs0 & Hs). split; [done|].
  assert (Hin : is_Some (k_fblocks k' !! fn_self n)).
  { apply elem_of_dom, Hd, elem_of_dom. eauto. }
  destruct Hin as [b' Hb']. exists n, m, b'. by rewrite En.
Qed.

(** C10: when the last reference to a block is dropped the block stays in
    memory for the readers that may still use it; while a reader is active
    a grace period frees nothing, and afterwards exactly the block, its
    private data and its subscriber chain are freed. *)
Theorem last_put_frees k fb b m f c :
  doomed k fb b m f c -> fb_refcnt b = 1 -> k_rcu k = [] ->
  exists k1, put_fblock fb k = Ret tt k1 /\
    k_fblocks k1 = <[fb := with_refcnt 0 b]> (k_fblocks k) /\ k_rcu k1 = [Rcu_fblock fb] /\
    ((0 < k_rcu_nesting k)%nat -> grace_period k1 = Ret tt k1) /\
    (k_rcu_nesting k = 0%nat -> exists k2, grace_period k1 = Ret tt k2 /\
       k_fblocks k2 = delete fb (k_fblocks k) /\
       k_privs k2 = delete (fb_private_data b) (k_privs k) /\
       k_subs k2 = delete (fb_others b) (k_subs k) /\
       k_notifs k2 = k_notifs k /\ k_rcu k2 = [] /\
       module_ref k2 m = module_ref k m - 1).
Proof.
  intros Hd Hr Hrcu. pose proof Hd as [[H0 Hb] [Hf0 Hf] (_ & Hm & Ho) _ _ Hal].
  eexists. split; [by eapply put_last_run|]. simpl.
  assert (Eb : bump (-1) b = with_refcnt 0 b) by (unfold bump; by rewrite Hr).
  rewrite Eb, Hrcu. split; [done|]. split; [done|]. split.
  { intros Hn. unfold grace_period. erewrite bind_run by reflexivity. simpl.
    by destruct (k_rcu_nesting k); [lia|]. }
  intros Hn. apply wp_run_unit. unfold grace_period. wp_step. apply wp_get. simpl.
  rewrite Hn. simpl. wp_step. apply wp_get. simpl. rewrite Hrcu. simpl. wp_step. apply wp_upd.
  wp_step. set (k1 := upd_rcu _ _).
  eapply wp_mono; [apply (free_fblock_wp k1 fb (with_refcnt 0 b) m f c)|].
  { destruct Hd as [_ ? ? ? ? ?]. split; try done; [split; [done|apply lookup_insert_eq]|].
    eapply Forall_impl; [exact Hal|]. intros nb. apply sub_alive_mono; [done|]. simpl.
    rewrite dom_insert. set_solver. }
  intros _ k2 [E1 E2 E3 E4 E5 E6 E7 E8 _ _]. apply wp_ret.
  rewrite E1, E2, E3, E4, E6. simpl. rewrite delete_insert_eq. by rewrite E7.
Qed.

(** C11: a dummy constructor called with a name whose first 15 characters
    are taken returns NULL and frees the block, but the IDP table still
    holds the freed block: the next lookup of that IDP is a use after
    free. *)
Theorem ctor_clash_dangling name k :
  core_ok k -> cstr_ok name -> ns_lookup k (fbname name) <> None ->
  k_idp_counter k + 1 < 2 ^ 32 -> k_oom k = [] -> fb_lock (slab_object k) = false ->
  exists k', fb_dummy_ctor name k = Ret 0 k' /\
    k_fblocks k' = k_fblocks k /\ k_privs k' = k_privs k /\ k_subs k' = k_subs k /\
    fbl_lookup k' (k_idp_counter k + 1) = k_next k /\
    search_fblock (k_idp_counter k + 1) k' = Crash (Bad_access (k_next k)).
Proof.
  intros Hk Hn HN Hlt Hoom Hl.
  pose proof (core_heap k Hk) as [Hpos Hf _ _ Hs Hp].
  pose proof (constructed_core M_dummy (fresh_priv M_dummy) name k Hk) as Hc.
  pose proof (constructed_unregistered M_dummy (fresh_priv M_dummy) name k Hk Hn) as Hu.
  assert (Hw : wp (fb_dummy_ctor name) (fun v k' => v = 0 /\
    (k_fblocks k' = k_fblocks k /\ k_privs k' = k_privs k /\ k_subs k' = k_subs k /\
     fbl_lookup k' (k_idp_counter k + 1) = k_next k)) k).
  { unfold fb_dummy_ctor. apply (wp_constructed M_dummy (fresh_priv M_dummy)); [done..|].
    set (k1 := constructed _ _ _ _) in *. wp_step.
    eapply wp_mono; [by apply (register_namespace_wp k1 _ _ Hc Hu)|].
    intros r k2 (Hfr & _ & [(_ & HN' & _)|[([[-> _]|(_ & HN' & _)] & (Hb & _ & Hfl) & _)|(_ & Ho & _)]]);
      [by destruct HN| |by destruct HN|by destruct Ho].
    change (k_idp_counter k1) with (k_idp_counter k) in *.
    assert (Es : k_subs k2 = k_subs k1) by (rewrite Hfr; done).
    assert (Ep : k_privs k2 = k_privs k1) by (rewrite Hfr; done).
    simpl. unfold cleanup_fblock_ctor, free_percpu, kfree_fblock. wp_step. wp_step.
    eapply wp_get_fb; [lia|rewrite Hb; apply lookup_insert_eq|].
    eapply wp_kfree; [simpl; lia|rewrite Es; apply lookup_insert_eq|]. wp_step.
    eapply wp_kfree; [lia|simpl; rewrite Ep; apply lookup_insert_eq|]. wp_step. wp_step.
    eapply wp_get_fb; [lia|simpl; rewrite Hb; apply lookup_insert_eq|]. wp_steps.
    unfold wp, module_put, ret. simpl. split; [done|].
    split; [rewrite Hb; simpl; rewrite insert_insert_eq; by apply delete_insert_id, below_next_fresh|].
    rewrite Ep, Es. simpl.
    assert (Hout : forall A (m : gmap addr A) d, below_next k m -> 0 <= d -> m !! (d + k_next k) = None).
    { intros A t d Ht Hd. destruct (t !! (d + k_next k)) eqn:E; [|done].
      pose proof (map_Forall_lookup_1 _ _ _ _ Ht E) as Hx. simpl in Hx. lia. }
    split; [by apply delete_insert_id, Hout|]. split; [by apply delete_insert_id, Hout|].
    specialize (Hfl (k_idp_counter k + 1)). rewrite decide_True in Hfl by done. exact Hfl. }
  apply wp_run_val in Hw as (k' & Hrun & E1 & E2 & E3 & E4). exists k'.
  repeat (split; [done|]). unfold search_fblock.
  pose proof (core_counter k Hk) as Hcnt.
  destruct (Z.eqb_spec (k_idp_counter k + 1) IDP_UNKNOWN) as [E|_];
    [unfold IDP_UNKNOWN, IDP_EXIT_PPE in E; lia|].
  unfold rcu_read_lock, __search_fblock, get_fblock, mod_fb, get_fb, deref, bind, upd, get. simpl.
  fold (fbl_lookup k' (k_idp_counter k + 1)). rewrite E4.
  destruct (Z.eqb_spec (k_next k) 0); [lia|]. simpl. rewrite E1.
  by rewrite (below_next_fresh k).
Qed.
End life.
