(* ===== verification/Tables.v ===== *)
(** * Set-up and tear-down of the tables (src/xt_fblock.c)

    The users of the crit-bit node cache and of the block cache.  [rcu_barrier]
    waits for the callbacks that were given to [call_rcu]. *)
From Stdlib Require Import ZArith Lia.
From stdpp Require Import base gmap numbers countable list.
From S2P Require Import Prelude CString CritbitTree Critbit NameMap Types Kernel Fblock.

Local Open Scope Z_scope.
Local Open Scope kernel_scope.

Section tables.
Context `{Nm : NameMap, Ka : KernelApi, !FblockOps}.

(** [get_critbit_cache] on the cache of the running kernel; its [panic] is a
    [BUG()].  Only the first user allocates. *)
Definition get_cache : M unit :=
  c <- get (fun k => cr_critbit (k_core k));;
  ok <- (if cc_refcnt c =? 0 then alloc_ok else ret true);;
  match get_critbit_cache ok c with
  | None => crash Kernel_bug
  | Some c' => upd (upd_core (res_critbit c'))
  end.

Definition put_cache : M unit :=
  c <- get (fun k => cr_critbit (k_core k));;
  when cc_refcnt c =? 1 do grace_period;;
  upd (upd_core (res_critbit (put_critbit_cache c))).

(** [kmem_cache_destroy] of a cache that is not there is a bad access. *)
Definition destroy_fblock_cache : M unit :=
  live <- get (fun k => cr_fblock_cache (k_core k));;
  if live : bool then upd (upd_core (res_fblock_cache false)) else crash Null_deref.

Definition init_fblock_tables : M Z :=
  let ret_ := 0 in
  get_cache;;
  upd (upd_idpmap (fun _ => nm_empty));;
  ok <- alloc_ok;;
  if negb ok then put_cache;; ret ret_
  else
    upd (upd_core (res_fblock_cache true));;
    upd (upd_idp_counter (fun _ => 0));;
    ok <- create_proc P_fblocks;;
    if negb ok then destroy_fblock_cache;; put_cache;; ret ret_
    else ret 0.

Definition cleanup_fblock_tables : M unit :=
  remove_proc P_fblocks;;
  put_cache;;
  grace_period;;
  destroy_fblock_cache.
End tables.
