(* ===== verification/Builder.v ===== *)
(** * The block builder (src/xt_builder.c) and module loading

    Block types register their factory under the type's name; a block is
    built by the constructor of its type's factory. *)
From Stdlib Require Import ZArith Lia.
From stdpp Require Import base gmap numbers countable list.
From S2P Require Import Prelude CString CritbitTree NameMap Types Kernel Fblock Tables Modules.

Local Open Scope Z_scope.
Local Open Scope kernel_scope.

Section builder.
Context `{Nm : NameMap, Ka : KernelApi, !FblockOps}.

Definition register_fblock_type (fops : addr) : M Z :=
  f <- deref k_factories fops;;
  fbmap <- get k_fbmap;;
  ok <- alloc_ok;;
  let '(r, fbmap') := nm_insert ok fbmap fops (fac_type f) in
  upd (upd_fbmap (fun _ => fbmap'));;
  ret r.

Definition unregister_fblock_type (fops : addr) : M unit :=
  f <- deref k_factories fops;;
  upd (upd_fbmap (fun t => (nm_delete t (fac_type f)).2)).

Definition build_fblock_object (type name : cstr) : M addr :=
  fbmap <- get k_fbmap;;
  match nm_get fbmap type with
  | None => ret 0
  | Some factory =>
      f <- deref k_factories factory;;
      fb <- mod_ctor (fac_ctor f) name;;
      if fb =? 0 then ret 0
      else mod_fb fb (with_factory factory);; ret fb
  end.

Definition init_fblock_builder : M Z :=
  get_cache;;
  upd (upd_fbmap (fun _ => nm_empty));;
  ret 0.

Definition cleanup_fblock_builder : M unit := put_cache.

(** ** Modules of block types

    Loading a module brings its static factory into memory and runs its init
    function; unloading runs its exit function and takes the memory away. *)

Definition init_fb_module (m : modid) : M Z :=
  match factory_of m with
  | None => ret (- ENOENT)
  | Some f =>
      upd (upd_factories <[factory_addr m := f]>);;
      register_fblock_type (factory_addr m)
  end.

Definition cleanup_fb_module (m : modid) : M unit :=
  unregister_fblock_type (factory_addr m);;
  upd (upd_factories (delete (factory_addr m))).
End builder.
