(* ===== verification/Core.v ===== *)
(** * Loading and unloading the core (src/core.c)

    The core sets its parts up one after the other and, when one fails, takes
    the earlier ones down again in the opposite order.  [k_core] records what
    it holds; an allocation fails when [k_oom] says so.

    [garbage] is the value of the variable that [init_vlink_system] returns
    without having set it when its file in /proc cannot be created. *)
From Stdlib Require Import ZArith Lia.
From stdpp Require Import base gmap numbers countable list.
From S2P Require Import Prelude CString CritbitTree Critbit NameMap Types Kernel Fblock.
From S2P Require Import Engine Modules Tables Builder.

Local Open Scope Z_scope.
Local Open Scope kernel_scope.

Section core.
Context `{Nm : NameMap, Ka : KernelApi, !FblockOps}.

(** ** Virtual links and the control interface *)

Definition kfree_vlink_table : M unit := upd (upd_core (res_vlink_table false)).
Definition release_vlink_sock : M unit := upd (upd_core (res_vlink_sock false)).

Definition init_vlink_system (garbage : Z) : M Z :=
  ok <- alloc_ok;;
  if negb ok then ret (- ENOMEM)
  else
    upd (upd_core (res_vlink_table true));;
    ok <- alloc_ok;;
    if negb ok then kfree_vlink_table;; ret (- ENOMEM)
    else
      upd (upd_core (res_vlink_sock true));;
      ok <- create_proc P_vlink;;
      if negb ok then release_vlink_sock;; kfree_vlink_table;; ret garbage
      else ret 0.

Definition cleanup_vlink_system : M unit :=
  remove_proc P_vlink;;
  release_vlink_sock;;
  kfree_vlink_table.

Definition init_userctl_system : M Z :=
  ok <- alloc_ok;;
  upd (upd_core (res_userctl_sock ok));;
  ret (if negb ok then - ENOMEM else 0).

Definition cleanup_userctl_system : M unit := upd (upd_core (res_userctl_sock false)).

(** ** The module *)

(** The labels [err] to [err5]: each runs its own line and those below. *)
Definition err : M Z := remove_proc P_lana;; ret (- ENOMEM).
Definition err1 : M Z := remove_proc P_fblock;; err.
Definition err2 : M Z := cleanup_vlink_system;; err1.
Definition err3 : M Z := cleanup_fblock_tables;; err2.
Definition err4 : M Z := cleanup_fblock_builder;; err3.
Definition err5 : M Z := cleanup_userctl_system;; err4.

Definition init_lana_core_module (garbage : Z) : M Z :=
  ok <- create_proc P_lana;;
  if negb ok then ret (- ENOMEM)
  else
    ok <- create_proc P_fblock;;
    if negb ok then err
    else
      r <- init_vlink_system garbage;;
      if negb (r =? 0) then err1
      else
        r <- init_fblock_tables;;
        if negb (r =? 0) then err2
        else
          r <- init_fblock_builder;;
          if negb (r =? 0) then err3
          else
            r <- init_userctl_system;;
            if negb (r =? 0) then err4
            else
              r <- init_engine;;
              if negb (r =? 0) then err5
              else ret 0.

Definition cleanup_lana_core_module : M unit :=
  cleanup_userctl_system;;
  cleanup_fblock_tables;;
  cleanup_fblock_builder;;
  cleanup_vlink_system;;
  cleanup_engine;;
  remove_proc P_fblock;;
  remove_proc P_lana.
End core.

(** ** The properties *)

Section props.
Context `{Nm : NameMap, Ka : KernelApi, !FblockOps}.

(** The allocations of the core in their order: 0 and 1 the two directories; 2
    to 4 the table, the socket and the file of the virtual links; 5 the node
    cache; 6 and 7 the block cache and the file of the blocks; 8 the control
    socket; 9 to 11 the statistics, the queues and the file of the engine.

    [fails_at i l k] is [k] with the [i]-th allocation failing. *)
Definition fails_at (i : nat) (l : list bool) : kernel -> kernel :=
  upd_oom (fun _ => replicate i false ++ true :: l).

Lemma start_timers_run cpus : forall k,
  NoDup cpus -> Forall (.∉ cr_timers (k_core k)) cpus ->
  start_timers cpus k = Ret tt (upd_core (res_timers (fun l => l ++ cpus)) k).
Proof.
  induction cpus as [|cpu cpus IH]; intros k Hnd Hout; simpl.
  - unfold ret. f_equal. destruct k as [? ? ? ? ? ? ? ? ? ? ? ? ? ? ? ? ? ? ? ? ? ? [] ?]. unfold upd_core, res_timers. simpl.
    by rewrite app_nil_r.
  - apply NoDup_cons in Hnd as [Hnin Hnd]. apply Forall_cons in Hout as [Hcpu Hout].
    erewrite bind_run by reflexivity. rewrite IH; [|done|].
    + unfold upd_core, res_timers. simpl. rewrite filter_all, <- app_assoc; [done|]. set_solver.
    + simpl. rewrite filter_all by set_solver. rewrite Forall_forall in *. set_solver.
Qed.

Lemma init_engine_run k :
  k_oom k = [] -> cr_timers (k_core k) = [] ->
  init_engine k = Ret 0 (upd_core (res_proc (cons P_ppe)) (upd_core (res_timers (fun l => l ++ seq 0 (k_cpus k)))
    (upd_emdiscs (fun _ => (fun cpu => Disc [] false cpu) <$> seq 0 (k_cpus k))
      (upd_iostats (fun _ => replicate (k_cpus k) (Iostats 0 0 0 0 0)) k)))).
Proof.
  intros Ho Ht. unfold init_engine. erewrite bind_run by reflexivity.
  assert (Hok : forall k', k_oom k' = [] -> alloc_ok k' = Ret true k') by (intros k' Hk'; unfold alloc_ok, bind, get; by rewrite Hk').
  erewrite bind_run by (by apply Hok). cbn [negb]. erewrite bind_run by reflexivity.
  erewrite bind_run by (by apply Hok). cbn [negb]. erewrite bind_run by reflexivity.
  erewrite bind_run by (apply start_timers_run; [apply NoDup_seq|simpl; rewrite Ht; apply Forall_true; set_solver]).
  by erewrite bind_run by (unfold create_proc; by erewrite bind_run by (by apply Hok)).
Qed.

(** The timers of [l]'s engines are taken off. *)
Lemma purge_empty_discs l : forall cpu k,
  Forall (fun d => ed_queue d = []) l ->
  purge_discs cpu l k = Ret tt (upd_core (res_timers (filter (.∉ seq cpu (length l)))) k).
Proof.
  induction l as [|d l IH]; intros cpu k Hl; simpl.
  - unfold ret. f_equal. destruct k as [? ? ? ? ? ? ? ? ? ? ? ? ? ? ? ? ? ? ? ? ? ? [] ?]. unfold upd_core, res_timers. simpl.
    rewrite filter_all; [done|]. set_solver.
  - apply Forall_cons in Hl as [-> Hl]. do 2 (erewrite bind_run by reflexivity). rewrite IH by done.
    unfold upd_core, res_timers. simpl. do 2 f_equal. rewrite list_filter_filter. f_equal.
    apply list_filter_iff. set_solver.
Qed.

Lemma cleanup_idle_engine k :
  Forall (fun d => ed_queue d = []) (k_emdiscs k) ->
  cleanup_engine k =
    Ret tt (upd_core (res_proc (filter (.≠ P_ppe))) (upd_core (res_timers (filter (.∉ seq 0 (length (k_emdiscs k)))))
      (upd_emdiscs (fun _ => []) (upd_iostats (fun _ => []) k)))).
Proof.
  intros Hq. unfold cleanup_engine. do 2 (erewrite bind_run by reflexivity).
  by erewrite bind_run by (by apply purge_empty_discs).
Qed.

Lemma boot_discs_empty n : Forall (fun d => ed_queue d = []) (k_emdiscs (boot n)).
Proof. apply Forall_fmap, Forall_forall. done. Qed.

(** The last step of loading. *)
Abbreviation load_engine := (r <- init_engine;; if negb (r =? 0) then err5 else ret 0).

(** The state before the engine is set up. *)
Definition before_engine (proc : list proc_entry) (c : critbit_node_cache) (fbcache : bool) (o : list bool) (n : nat) : kernel :=
  upd_oom (fun _ => o) (upd_core (fun _ => CoreRes proc true true c fbcache true []) (bare n)).

Lemma load_engine_run proc c fbcache n :
  load_engine (before_engine proc c fbcache [] n) =
    Ret 0 (upd_core (fun _ => CoreRes (P_ppe :: proc) true true c fbcache true (seq 0 n)) (boot n)).
Proof. by erewrite bind_run by (by apply init_engine_run). Qed.

Lemma core_load garbage n : init_lana_core_module garbage (bare n) = Ret 0 (boot n).
Proof. exact (load_engine_run [P_fblocks; P_vlink; P_fblock; P_lana] (Cache true 2) true n). Qed.

Lemma core_unload n : cleanup_lana_core_module (boot n) = Ret tt (bare n).
Proof.
  set (at_core := fun c => upd_core (fun _ => c)).
  unfold cleanup_lana_core_module.
  rewrite (bind_run _ _ _ tt (at_core (res_userctl_sock false (core_loaded n)) (boot n))) by reflexivity.
  rewrite (bind_run _ _ _ tt (at_core (CoreRes [P_ppe; P_vlink; P_fblock; P_lana] true true
    (Cache true 1) false false (seq 0 n)) (boot n))) by reflexivity.
  rewrite (bind_run _ _ _ tt (at_core (CoreRes [P_ppe; P_vlink; P_fblock; P_lana] true true
    (Cache false 0) false false (seq 0 n)) (boot n))) by reflexivity.
  rewrite (bind_run _ _ _ tt (at_core (CoreRes [P_ppe; P_fblock; P_lana] false false
    (Cache false 0) false false (seq 0 n)) (boot n))) by reflexivity.
  rewrite (bind_run _ _ _ tt (at_core (CoreRes [P_fblock; P_lana] false false (Cache false 0) false false []) (bare n)));
    [reflexivity|]. rewrite cleanup_idle_engine by exact (boot_discs_empty n). f_equal.
  unfold at_core, upd_core, res_timers, res_proc. simpl.
  rewrite length_fmap, length_seq, (filter_none (.∉ seq 0 n)); [done|]. set_solver.
Qed.

(** C22: loading the core on a machine with any number of CPUs brings it from
    the bare state to the booted one, with the timers of all engines armed,
    and unloading it again gives everything back: the state is exactly the
    bare one. *)
Theorem core_load_unload garbage n :
  init_lana_core_module garbage (bare n) = Ret 0 (boot n) /\
  cleanup_lana_core_module (boot n) = Ret tt (bare n).
Proof. split; [apply core_load|apply core_unload]. Qed.

(** when an allocation fails while the core is loaded, it returns [-ENOMEM]
    and has given back everything it took, for every allocation but those of
    [init_fblock_tables], the file of the engine (and that of the vlink file
    if the unset variable happens to be 0). *)
Theorem core_init_rollback garbage n i l :
  (i < 11)%nat -> i ∉ [5; 6; 7]%nat -> (i = 4%nat -> garbage <> 0) ->
  init_lana_core_module garbage (fails_at i l (bare n)) = Ret (- ENOMEM) (upd_oom (fun _ => l) (bare n)).
Proof.
  intros Hi Hn Hg. rewrite !not_elem_of_cons in Hn. destruct Hn as (H5 & H6 & H7 & _).
  do 4 (destruct i as [|i]; [reflexivity|]).
  destruct i as [|i]; [by destruct garbage; [destruct Hg|..]|].
  do 3 (destruct i as [|i]; [exfalso; lia|]).
  do 3 (destruct i as [|i]; [reflexivity|]). lia.
Qed.

(** C23: when the file of the engine cannot be created, loading the core fails
    with [-ENOMEM], and the memory of the engines is freed with the timers in
    it still armed: everything else is given back, but the timer of every CPU
    is armed, and its handler is a use of freed memory. *)
Theorem core_init_timers garbage n l pkts hops cpu :
  (cpu < n)%nat ->
  exists k, init_lana_core_module garbage (fails_at 11 l (bare n)) = Ret (- ENOMEM) k /\
    k = upd_core (res_timers (fun _ => seq 0 n)) (upd_oom (fun _ => l) (bare n)) /\
    cpu ∈ cr_timers (k_core k) /\ engine_timer_handler pkts hops cpu k = Crash Freed_percpu.
Proof.
  intros Hcpu. eexists. split; [|split; [reflexivity|]].
  - change (load_engine (before_engine [P_fblocks; P_vlink; P_fblock; P_lana] (Cache true 2) true
              (replicate 2 false ++ true :: l) n) =
            Ret (- ENOMEM) (upd_core (res_timers (fun _ => seq 0 n)) (upd_oom (fun _ => l) (bare n)))).
    erewrite bind_run; cycle 1.
    { unfold init_engine. do 2 (erewrite bind_run by reflexivity). cbn [negb]. do 2 (erewrite bind_run by reflexivity).
    cbn [negb]. erewrite bind_run by reflexivity.
    erewrite bind_run by (apply start_timers_run; [apply NoDup_seq|apply Forall_forall; set_solver]). reflexivity. }
    reflexivity.
  - split; [|done]. apply elem_of_seq. lia.
Qed.

(** a failed allocation of the block cache or of the blocks' file is not
    noticed: loading returns 0 without a block cache, and unloading destroys
    the cache that is not there. *)
Theorem core_init_unnoticed garbage n i :
  i = 6%nat \/ i = 7%nat ->
  exists k, init_lana_core_module garbage (fails_at i [] (bare n)) = Ret 0 k /\
    cr_fblock_cache (k_core k) = false /\ cleanup_lana_core_module k = Crash Null_deref.
Proof.
  intros Hi. exists (upd_core (fun _ =>
    CoreRes [P_ppe; P_vlink; P_fblock; P_lana] true true (Cache true 1) false true (seq 0 n)) (boot n)).
  split; [|done].
  destruct Hi as [-> | ->]; exact (load_engine_run [P_vlink; P_fblock; P_lana] (Cache true 1) false n).
Qed.
End props.
