(* ===== verification/Userctl.v ===== *)
(** * Control from user space (src/xt_user.c, src/xt_user.h)

    Netlink messages add, remove, configure, bind, subscribe and replace
    functional blocks.  A message is a command and a buffer of
    [USERCTL_BUF_LEN] bytes; a [char] field of a message is the string that
    starts at the field's offset. *)
From Stdlib Require Import ZArith Lia.
From stdpp Require Import base gmap numbers countable list.
From S2P Require Import Prelude CString CritbitTree NameMap Types Kernel Fblock Builder.

Local Open Scope Z_scope.
Local Open Scope kernel_scope.

Definition USERCTL_BUF_LEN : nat := 1500.

Definition NETLINK_USERCTL_CMD_ADD : Z := 1.
Definition NETLINK_USERCTL_CMD_SET : Z := 2.
Definition NETLINK_USERCTL_CMD_RM : Z := 3.
Definition NETLINK_USERCTL_CMD_BIND : Z := 4.
Definition NETLINK_USERCTL_CMD_UNBIND : Z := 5.
Definition NETLINK_USERCTL_CMD_REPLACE : Z := 6.
Definition NETLINK_USERCTL_CMD_SUBSCRIBE : Z := 7.
Definition NETLINK_USERCTL_CMD_UNSUBSCRIBE : Z := 8.

Record lananlmsg := Lananlmsg { lm_cmd : Z; lm_buff : list Z }.

(** [sizeof(struct lananlmsg)] and [NLMSG_LENGTH] of it. *)
Definition lananlmsg_size : Z := 4 + Z.of_nat USERCTL_BUF_LEN.
Definition NLMSG_LENGTH (len : Z) : Z := len + 16.

(** The string at an offset of the buffer. *)
Definition msg_str (lmsg : lananlmsg) (off : nat) : cstr := c_str (drop off (lm_buff lmsg)).

(** [lananlmsg_add]: name, type; [lananlmsg_set]: name, option;
    [lananlmsg_tuple]: name1, name2; [lananlmsg_replace]: name1, name2,
    drop_priv. *)
Definition msg_name (lmsg : lananlmsg) : cstr := msg_str lmsg 0.
Definition msg_second (lmsg : lananlmsg) : cstr := msg_str lmsg FBNAMSIZ.
Definition msg_drop_priv (lmsg : lananlmsg) : bool :=
  negb (nth (2 * FBNAMSIZ) (lm_buff lmsg) 0 =? 0).

Section userctl.
Context `{Nm : NameMap, Ka : KernelApi, !FblockOps}.

Definition userctl_add (lmsg : lananlmsg) : M Z :=
  fb <- search_fblock_n (Some (msg_name lmsg));;
  if negb (fb =? 0) then put_fblock fb;; ret (- EINVAL)
  else
    fb <- build_fblock_object (msg_second lmsg) (msg_name lmsg);;
    ret (if fb =? 0 then - ENOMEM else 0).

Definition userctl_set (lmsg : lananlmsg) : M Z :=
  fb <- search_fblock_n (Some (msg_name lmsg));;
  if fb =? 0 then ret (- EINVAL)
  else
    r <- fblock_set_option fb (Some (msg_second lmsg));;
    put_fblock fb;;
    ret r.

Definition userctl_replace (lmsg : lananlmsg) : M Z :=
  fb1 <- search_fblock_n (Some (msg_name lmsg));;
  if fb1 =? 0 then ret (- EINVAL)
  else
    b1 <- get_fb fb1;;
    if fb_factory b1 =? 0 then ret (- EINVAL)
    else
      fb2 <- search_fblock_n (Some (msg_second lmsg));;
      if fb2 =? 0 then put_fblock fb1;; ret (- EINVAL)
      else
        b2 <- get_fb fb2;;
        if fb_factory b2 =? 0 then put_fblock fb1;; ret (- EINVAL)
        else if 2 <? fb_refcnt b2 then
          put_fblock fb1;; put_fblock fb2;; ret (- EBUSY)
        else
          unregister_fblock_namespace_no_rcu fb2;;
          f1 <- deref k_factories (fb_factory b1);;
          f2 <- deref k_factories (fb_factory b2);;
          when (strncmp (fac_type f1) (fac_type f2) TYPNAMSIZ =? 0) && negb (msg_drop_priv lmsg) do
            fblock_migrate_p fb2 fb1;;
          fblock_migrate_r fb2 fb1;;
          unregister_fblock fb1;;
          b2 <- get_fb fb2;;
          r <- register_fblock fb2 (fb_idp b2);;
          put_fblock fb1;;
          put_fblock fb2;;
          ret r.

(** The two blocks a [lananlmsg_tuple] names; what to do with them. *)
Definition with_tuple (lmsg : lananlmsg) (body : addr -> addr -> M Z) : M Z :=
  fb1 <- search_fblock_n (Some (msg_name lmsg));;
  if fb1 =? 0 then ret (- EINVAL)
  else
    fb2 <- search_fblock_n (Some (msg_second lmsg));;
    if fb2 =? 0 then put_fblock fb1;; ret (- EINVAL)
    else
      r <- body fb1 fb2;;
      put_fblock fb1;;
      put_fblock fb2;;
      ret r.

Definition userctl_subscribe (lmsg : lananlmsg) : M Z :=
  with_tuple lmsg (fun fb1 fb2 => subscribe_to_remote_fblock fb2 fb1).

Definition userctl_unsubscribe (lmsg : lananlmsg) : M Z :=
  with_tuple lmsg (fun fb1 fb2 => unsubscribe_from_remote_fblock fb2 fb1;; ret 0).

Definition userctl_bind (lmsg : lananlmsg) : M Z := with_tuple lmsg fblock_bind.

Definition userctl_unbind (lmsg : lananlmsg) : M Z := with_tuple lmsg fblock_unbind.

Definition userctl_remove (lmsg : lananlmsg) : M Z :=
  fb <- search_fblock_n (Some (msg_name lmsg));;
  if fb =? 0 then ret (- EINVAL)
  else
    b <- get_fb fb;;
    if fb_factory b =? 0 then put_fblock fb;; ret (- EINVAL)
    else if 2 <? fb_refcnt b then put_fblock fb;; ret (- EBUSY)
    else
      unregister_fblock_namespace fb;;
      put_fblock fb;;
      ret 0.

(** [capable]: the sender passes [security_netlink_recv]. *)
Definition __userctl_rcv (capable : bool) (nlmsg_len : Z) (lmsg : lananlmsg) : M Z :=
  if negb capable then ret (- EPERM)
  else if nlmsg_len <? NLMSG_LENGTH lananlmsg_size then ret 0
  else
    let cmd := lm_cmd lmsg in
    if cmd =? NETLINK_USERCTL_CMD_ADD then userctl_add lmsg
    else if cmd =? NETLINK_USERCTL_CMD_SET then userctl_set lmsg
    else if cmd =? NETLINK_USERCTL_CMD_REPLACE then userctl_replace lmsg
    else if cmd =? NETLINK_USERCTL_CMD_SUBSCRIBE then userctl_subscribe lmsg
    else if cmd =? NETLINK_USERCTL_CMD_UNSUBSCRIBE then userctl_unsubscribe lmsg
    else if cmd =? NETLINK_USERCTL_CMD_RM then userctl_remove lmsg
    else if cmd =? NETLINK_USERCTL_CMD_BIND then userctl_bind lmsg
    else if cmd =? NETLINK_USERCTL_CMD_UNBIND then userctl_unbind lmsg
    else ret (- ENOENT).
End userctl.
