(* ===== verification/UserctlProps.v ===== *)
(** * Properties of the control commands

    What the netlink commands of src/xt_user.c do to the functional blocks,
    end to end: from the message to the tables, references and memory. *)
From Stdlib Require Import ZArith Lia.
From stdpp Require Import base gmap numbers countable list.
From S2P Require Import Prelude CString CritbitTree NameMap Types Kernel Fblock FblockNs FblockLife.
From S2P Require Import FblockBind PerCpu FblockCtor Engine FbDummy FbTee FbCounter Modules.
From S2P Require Import ModuleLife Builder Userctl.

Local Open Scope Z_scope.
Local Open Scope kernel_scope.

Section props.
Context `{Nm : NameMap, Ka : KernelApi}.

(** ** The invariant under changes of blocks *)

(** Changing a block but neither its name nor its IDP keeps the tables
    consistent. *)
Lemma core_ok_update k k' p b b' :
  core_ok k -> k_fblocks k !! p = Some b -> fb_idp b' = fb_idp b -> fb_name b' = fb_name b ->
  k_fblocks k' = <[p := b']> (k_fblocks k) ->
  k_idpmap k' = k_idpmap k -> k_elems k' = k_elems k -> k_fblmap k' = k_fblmap k ->
  k_idp_counter k' = k_idp_counter k -> k_notifs k' = k_notifs k -> k_subs k' = k_subs k ->
  k_privs k' = k_privs k -> k_next k' = k_next k -> core_ok k'.
Proof.
  intros Hk Hp Hi Hn Hf E1 E2 E3 E4 E5 E6 E7 E8.
  assert (Hl : forall i, fbl_lookup k' i = fbl_lookup k i) by (intros; unfold fbl_lookup; by rewrite E3).
  assert (Hold : forall a x, k_fblocks k !! a = Some x ->
    exists x', k_fblocks k' !! a = Some x' /\ fb_idp x' = fb_idp x /\ fb_name x' = fb_name x).
  { intros a x Ha. rewrite Hf. destruct (decide (p = a)) as [<-|].
    - rewrite lookup_insert_eq. rewrite Hp in Ha. injection Ha as <-. eauto.
    - rewrite lookup_insert_ne by done. eauto. }
  split.
  - by eapply (heap_ok_fblock k); [apply Hk|exact Hp|..].
  - by apply (ns_ok_ext k); [..|apply Hk].
  - rewrite E4. apply Hk.
  - intros i. rewrite Hl, E4. intros H0. destruct (core_fbl k Hk i H0) as (Hr & x & Hx & Ex).
    split; [done|]. destruct (Hold _ _ Hx) as (x' & ? & Ei & _). exists x'. split; [done|]. congruence.
  - intros n i. rewrite (ns_lookup_ext k) by done. rewrite Hl. intros H0.
    destruct (core_name k Hk n i H0) as (x & ? & Hx & Ex).
    destruct (Hold _ _ Hx) as (x' & ? & _ & En). exists x'. split; [done|]. split; [done|]. congruence.
Qed.

Lemma core_ok_bump k p b d :
  core_ok k -> k_fblocks k !! p = Some b -> core_ok (upd_fblocks <[p := bump d b]> k).
Proof. intros Hk Hb. by eapply (core_ok_update k _ p b (bump d b)). Qed.

Lemma core_pos k p b : core_ok k -> k_fblocks k !! p = Some b -> p <> 0.
Proof. intros Hk. apply below_next_pos with k, Hk. Qed.

(** A search for a registered block. *)
Lemma wp_search k name p b (Q : addr -> kernel -> Prop) :
  core_ok k -> registered k p b -> fb_name b = name ->
  Q p (upd_fblocks <[p := bump 1 b]> k) -> wp (search_fblock_n (Some name)) Q k.
Proof.
  intros Hk Hr Hname HQ. pose proof Hr as [Hb Hi Hn]. rewrite Hname in Hn.
  destruct (ns_lookup_key k name (fb_idp b) (core_ns k Hk) Hn) as [Hok _].
  eapply wp_of_run; [by apply search_n_run|].
  assert (E : resolve k name = p) by (unfold resolve; by rewrite Hn).
  rewrite E. unfold got. destruct (Z.eqb_spec p 0) as [->|_]; [by destruct (core_pos k 0 b Hk)|].
  unfold upd_fblocks. rewrite <- (insert_alter (bump 1) _ _ b Hb). done.
Qed.

Lemma wp_search_none k name (Q : addr -> kernel -> Prop) :
  core_ok k -> cstr_ok name -> ns_lookup k name = None ->
  Q 0 k -> wp (search_fblock_n (Some name)) Q k.
Proof.
  intros Hk Hok Hn HQ. eapply wp_of_run; [by apply search_n_run|].
  assert (E : resolve k name = 0); [|by rewrite E].
  unfold resolve. rewrite Hn. simpl.
  destruct (Z.eq_dec (fbl_lookup k IDP_UNKNOWN) 0) as [|H0]; [done|].
  destruct (core_fbl k Hk IDP_UNKNOWN H0) as [? _]. unfold IDP_UNKNOWN, IDP_EXIT_PPE in *. lia.
Qed.

(** ** Block types *)

(** The module of a block type is loaded and its factory registered. *)
Definition type_loaded (k : kernel) (m : modid) (f : fblock_factory) : Prop :=
  factory_of m = Some f /\ nm_ok (k_fbmap k) /\
  nm_view (k_fbmap k) !! fac_type f = Some (factory_addr m) /\
  k_factories k !! factory_addr m = Some f.

Lemma factory_facts m f :
  factory_of m = Some f ->
  is_Some (factory_of m) /\ factory_addr m <> 0 /\ cstr_ok (fac_type f) /\ fac_ctor f = m /\ fac_dtor f = m /\
  (m <> M_bpf -> fac_dtor_outside_rcu f = None).
Proof.
  intros H. split; [eauto|]. revert H. destruct m; simpl; try done; intros [= <-]; repeat split; try done;
    by apply (bool_decide_unpack (cstr_ok _)); vm_compute.
Qed.

Lemma wp_build m f name k (Q : addr -> kernel -> Prop) :
  type_loaded k m f -> core_ok k -> cstr_ok name -> ns_lookup k (fbname name) = None ->
  k_idp_counter k + 1 < 2 ^ 32 -> k_oom k = [] -> fb_lock (slab_object k) = false ->
  (forall k', ctor_done m name k (k_next k) k' ->
     k_proc k' = (if has_proc m then (fbname name, k_next k) :: k_proc k else k_proc k) ->
     Q (k_next k) (upd_fblocks <[k_next k :=
       with_factory (factory_addr m) (with_idp (k_idp_counter k + 1) (new_block m name k))]> k')) ->
  wp (build_fblock_object (fac_type f) name) Q k.
Proof.
  intros (Hf & Hok & Hv & Hfac) Hk Hn HN Hlt Hoom Hl HQ.
  destruct (factory_facts m f Hf) as (Hm & Ha & Ht & Hc & _).
  unfold build_fblock_object. wp_steps. rewrite (nm_get_spec _ _ Hok Ht), Hv. wp_step.
  eapply wp_deref; [done|exact Hfac|]. rewrite Hc. wp_step.
  eapply wp_mono; [by apply ctor_wp|]. intros fb k' [Hd Hpr].
  pose proof (cd_fb _ _ _ _ _ Hd) as ->. pose proof (cd_blocks _ _ _ _ _ Hd) as Hb.
  pose proof (heap_next k (core_heap k Hk)) as Hpos.
  destruct (Z.eqb_spec (k_next k) 0); [lia|]. wp_step.
  eapply wp_mod_fb; [done|rewrite Hb; apply lookup_insert_eq|]. wp_steps. by apply HQ.
Qed.

(** Loading a module registers its type. *)
Lemma init_module_wp k m f :
  factory_of m = Some f -> nm_ok (k_fbmap k) -> nm_view (k_fbmap k) !! fac_type f = None ->
  k_oom k = [] ->
  wp (init_fb_module m) (fun r k' => r = 0 /\ type_loaded k' m f /\
    nm_view (k_fbmap k') = <[fac_type f := factory_addr m]> (nm_view (k_fbmap k)) /\
    k' = upd_fbmap (fun _ => k_fbmap k') (upd_factories <[factory_addr m := f]> k)) k.
Proof.
  intros Hf Hok Hv Hoom. destruct (factory_facts m f Hf) as (_ & Ha & Ht & _).
  unfold init_fb_module, register_fblock_type. rewrite Hf. wp_steps.
  eapply wp_deref; [done|apply lookup_insert_eq|]. wp_steps. unfold alloc_ok. wp_steps. simpl.
  rewrite Hoom. wp_steps.
  destruct (nm_insert_spec true _ (factory_addr m) (fac_type f) Hok Ht) as [Hok' Hs].
  unfold insert_spec in Hs. rewrite Hv in Hs. simpl in Hs.
  destruct (nm_insert _ _ _ _) as [r t]. simpl in *. injection Hs as -> Ht'. wp_steps. simpl.
  split; [done|]. split; [|split; [done|by destruct k]]. split; [done|]. simpl.
  rewrite Ht', !lookup_insert_eq. done.
Qed.

(** ** Adding and removing blocks *)

(** The state after a successful [userctl_add] is the constructor's with the
    factory filled in. *)
Definition added_block (m : modid) (name : cstr) (k : kernel) : fblock :=
  with_factory (factory_addr m) (with_idp (k_idp_counter k + 1) (new_block m name k)).

Lemma added_core m name k k1 :
  core_ok k -> ctor_done m name k (k_next k) k1 ->
  let k' := upd_fblocks <[k_next k := added_block m name k]> k1 in
  core_ok k' /\ registered k' (k_next k) (added_block m name k) /\
  k_fblocks k' = <[k_next k := added_block m name k]> (k_fblocks k).
Proof.
  intros Hk Hd k'. pose proof Hd as [_ Hk1 Hb _ _ Hfl Hns _ _ _].
  split; [|split].
  - apply (core_ok_update k1 _ (k_next k) (with_idp (k_idp_counter k + 1) (new_block m name k))
      (added_block m name k)); try done. rewrite Hb. apply lookup_insert_eq.
  - split; simpl; [apply lookup_insert_eq| |].
    + change (fbl_lookup k' ?i) with (fbl_lookup k1 i). by rewrite Hfl, decide_True.
    + rewrite (ns_lookup_ext k1) by done. by rewrite Hns, decide_True.
  - simpl. rewrite Hb. apply insert_insert_eq.
Qed.

(** What a message needs to add a block. *)
Record addable (k : kernel) (lmsg : lananlmsg) (m : modid) (f : fblock_factory) : Prop := {
  ad_type : type_loaded k m f /\ msg_second lmsg = fac_type f;
  ad_name : cstr_ok (msg_name lmsg) /\ (length (msg_name lmsg) < FBNAMSIZ)%nat;
  ad_free : ns_lookup k (msg_name lmsg) = None;
  ad_idp : k_idp_counter k + 1 < 2 ^ 32;
  ad_oom : k_oom k = [];
  ad_slab : fb_lock (slab_object k) = false;
  ad_cpus : (0 < k_cpus k)%nat;
}.

Lemma wp_add k lmsg m f (Q : Z -> kernel -> Prop) :
  core_ok k -> addable k lmsg m f ->
  (forall k1, ctor_done m (msg_name lmsg) k (k_next k) k1 ->
     k_proc k1 = (if has_proc m then (msg_name lmsg, k_next k) :: k_proc k else k_proc k) ->
     Q 0 (upd_fblocks <[k_next k := added_block m (msg_name lmsg) k]> k1)) ->
  wp (userctl_add lmsg) Q k.
Proof.
  intros Hk [[Ht Et] [Hn Hlen] HN Hlt Hoom Hl Hcpu] HQ. unfold userctl_add. wp_step.
  apply wp_search_none; [done..|]. simpl. wp_step. rewrite Et.
  apply (wp_build m f); [done|done|done|by rewrite fbname_id|done|done|done|].
  intros k1 Hd Hpr. wp_steps. pose proof (heap_next k (core_heap k Hk)).
  destruct (Z.eqb_spec (k_next k) 0); [lia|]. apply HQ; [done|].
  by rewrite Hpr, (fbname_id _ Hlen).
Qed.

(** adding a block of a loaded type under a free name succeeds; the
    name then resolves to the new block, which holds one reference, knows
    its factory and has both ports unbound on every CPU; no other block or
    name is touched. *)
Theorem userctl_add_correct k lmsg m f :
  core_ok k -> addable k lmsg m f ->
  exists fb b k', userctl_add lmsg k = Ret 0 k' /\ core_ok k' /\ type_loaded k' m f /\
    k_fblocks k !! fb = None /\ k_fblocks k' = <[fb := b]> (k_fblocks k) /\
    registered k' fb b /\ fb_name b = msg_name lmsg /\ fb_refcnt b = 1 /\
    fb_factory b = factory_addr m /\
    (forall dir, priv_port (k_privs k') m (fb_private_data b) dir = Some IDP_UNKNOWN) /\
    (forall n, n <> msg_name lmsg -> ns_lookup k' n = ns_lookup k n).
Proof.
  intros Hk Ha. pose proof Ha as [[Ht _] [Hn Hlen] HN _ _ _ Hcpu].
  exists (k_next k), (added_block m (msg_name lmsg) k). apply wp_run_val.
  apply (wp_add k lmsg m f); [done..|]. intros k1 Hd _. split; [done|].
  destruct (added_core _ _ _ _ Hk Hd) as (Hk' & Hr & Hb).
  destruct Ht as (Ef & Hok & Hv & Hfac). destruct (factory_facts m f Ef) as (Hm & _).
  destruct Hd as [_ _ _ Hp _ _ Hns (E1 & E2 & _) _ _].
  split; [done|]. split; [by unfold type_loaded; simpl; rewrite E1, E2|].
  split; [apply below_next_fresh, Hk|]. split; [done|]. split; [done|].
  split; [by apply fbname_id|]. do 2 (split; [done|]). split.
  - intros dir. simpl. rewrite Hp. pose proof (heap_next k (core_heap k Hk)).
    apply fresh_priv_port; [done|done|lia].
  - intros n Hne. rewrite (ns_lookup_ext k1) by done. rewrite Hns, decide_False; [done|].
    by rewrite fbname_id.
Qed.

(** The names a removal takes out, and what it leaves to a grace period. *)
Record removed (k : kernel) (p : addr) (b : fblock) (k' : kernel) : Prop := {
  rm_core : core_ok k';
  rm_block : k_fblocks k' = <[p := with_refcnt 0 b]> (k_fblocks k);
  rm_fbl i : fbl_lookup k' i = if decide (i = fb_idp b) then 0 else fbl_lookup k i;
  rm_ns n : ns_lookup k' n = if decide (n = fb_name b) then None else ns_lookup k n;
  rm_rcu : exists elem, nm_view (k_idpmap k) !! fb_name b = Some elem /\
             k_rcu k' = k_rcu k ++ [Rcu_idp_elem elem; Rcu_fblock p];
  rm_same : k' = upd_rcu (fun _ => k_rcu k') (upd_fblocks (fun _ => k_fblocks k')
                   (upd_idpmap (fun _ => k_idpmap k')
                     (upd_fblmap (fun t => radix_delete t (fb_idp b)) k)));
}.

Lemma registered_bump k p b d :
  registered k p b -> registered (upd_fblocks <[p := bump d b]> k) p (bump d b).
Proof. intros [Hb Hi Hn]. by split; [apply lookup_insert_eq|..]. Qed.

Lemma wp_remove k lmsg p b f (Q : Z -> kernel -> Prop) :
  core_ok k -> registered k p b -> fb_name b = msg_name lmsg -> fb_refcnt b = 1 ->
  fb_factory b <> 0 -> k_factories k !! fb_factory b = Some f -> fac_dtor_outside_rcu f = None ->
  (forall k', removed k p b k' -> Q 0 k') -> wp (userctl_remove lmsg) Q k.
Proof.
  intros Hk Hr Hn Hrc Hf0 Hf Ho HQ. pose proof (reg_live _ _ _ Hr) as Hb.
  pose proof (core_pos k p b Hk Hb) as Hp0.
  unfold userctl_remove. wp_step. eapply wp_search; [done..|].
  destruct (Z.eqb_spec p 0); [done|]. fb_steps. simpl.
  destruct (Z.eqb_spec (fb_factory b) 0); [done|]. rewrite Hrc. simpl. wp_step.
  unfold unregister_fblock_namespace, __unregister_fblock_namespace.
  apply (unregister_namespace_wp _ p (bump 1 b)); [by apply core_ok_bump|by apply registered_bump|].
  intros k1 (Hk1 & Hb1 & Hf1 & Hl1 & Hn1 & elem & Hv & He & Hrcu) Hk1f.
  assert (E1 : k_fblocks k1 !! p = Some (bump 1 b)) by (rewrite Hb1; apply lookup_insert_eq).
  eapply wp_put_alive; [done|exact E1|simpl; by rewrite Hrc|]. wp_step.
  eapply wp_of_run.
  { eapply (put_last_run _ p (bump (-1) (bump 1 b))); try done; [apply lookup_insert_eq| |].
    - simpl. by rewrite Hrc.
    - simpl. rewrite Hf1. exact Hf. }
  wp_steps. apply HQ.
  assert (E2 : bump (-1) (bump (-1) (bump 1 b)) = with_refcnt 0 b).
  { unfold bump, with_refcnt. simpl. by rewrite Hrc. }
  assert (E3 : k_fblocks (upd_rcu (fun l => l ++ [Rcu_fblock p])
            (upd_fblocks <[p := bump (-1) (bump (-1) (bump 1 b))]>
               (upd_fblocks <[p := bump (-1) (bump 1 b)]> k1))) =
            <[p := with_refcnt 0 b]> (k_fblocks k)).
  { simpl. rewrite E2, Hb1. simpl. by rewrite !insert_insert_eq. }
  split; simpl in *.
  - eapply (core_ok_update k1 _ p (bump 1 b) (with_refcnt 0 b)); try done. simpl.
    by rewrite E2, insert_insert_eq.
  - done.
  - exact Hl1.
  - intros n'. rewrite (ns_lookup_ext k1) by done. rewrite Hn1. by case_decide.
  - exists elem. split; [done|]. by rewrite Hrcu, <- app_assoc.
  - rewrite Hk1f. kernel_eq.
Qed.

(** removing a block that only the tables refer to takes its name and
    its IDP out, leaves every other name, IDP and block as it was, and hands
    the namespace element and the block, in this order, to a grace
    period. *)
Theorem userctl_remove_correct k lmsg p b f :
  core_ok k -> registered k p b -> fb_name b = msg_name lmsg -> fb_refcnt b = 1 ->
  fb_factory b <> 0 -> k_factories k !! fb_factory b = Some f -> fac_dtor_outside_rcu f = None ->
  exists k', userctl_remove lmsg k = Ret 0 k' /\ removed k p b k'.
Proof. intros. apply wp_run_val. by eapply wp_remove. Qed.

(** a block that others still refer to is not removed: the command
    returns [-EBUSY] and the state is exactly what it was. *)
Theorem userctl_remove_busy k lmsg p b :
  core_ok k -> registered k p b -> fb_name b = msg_name lmsg -> ref_ok b ->
  fb_factory b <> 0 -> 1 < fb_refcnt b ->
  userctl_remove lmsg k = Ret (- EBUSY) k.
Proof.
  intros Hk Hr Hn Hrc Hf0 Hgt. pose proof (reg_live _ _ _ Hr) as Hb.
  pose proof (core_pos k p b Hk Hb) as Hp0.
  assert (Hw : wp (userctl_remove lmsg) (fun v k' => v = - EBUSY /\ k' = k) k).
  { unfold userctl_remove. wp_step. eapply wp_search; [done..|].
    destruct (Z.eqb_spec p 0); [done|]. fb_steps. simpl.
    destruct (Z.eqb_spec (fb_factory b) 0); [done|].
    destruct (Z.ltb_spec 2 (s32 (fb_refcnt b + 1))) as [_|Hle].
    - fb_steps. split; [done|]. kernel_eq. rewrite insert_insert_eq, bump_back by done.
      by apply insert_id.
    - unfold ref_ok in Hrc. rewrite s32_small in Hle by lia. lia. }
  apply wp_run_val in Hw as (k' & -> & ->). done.
Qed.

(** ** A grace period after a removal *)

(** Freeing an element that no name uses is not visible in the
    namespace. *)
Lemma ns_free_elem k k' elem :
  ns_ok k -> (forall n, nm_view (k_idpmap k) !! n <> Some elem) ->
  k_idpmap k' = k_idpmap k -> k_elems k' = delete elem (k_elems k) ->
  forall n, ns_lookup k' n = ns_lookup k n.
Proof.
  intros Hns Hno E1 E2 n. unfold ns_lookup. rewrite E1, E2.
  destruct (_ !! n) as [e|] eqn:Hn; [|done]. simpl. rewrite lookup_delete_ne; [done|].
  intros ->. by apply (Hno n).
Qed.

(** The element of a name that was taken out is not used by another one. *)
Lemma elem_unused k k' name elem :
  ns_ok k -> ns_ok k' -> k_elems k' = k_elems k ->
  (forall n, ns_lookup k' n = if decide (n = name) then None else ns_lookup k n) ->
  nm_view (k_idpmap k) !! name = Some elem -> forall n, nm_view (k_idpmap k') !! n <> Some elem.
Proof.
  intros Hns Hns' Ee Hl Hv n Hn.
  destruct (ns_lookup_elem k' n elem Hns' Hn) as (i & He & Hi).
  destruct (ns_lookup_elem k _ elem Hns Hv) as (j & Hj & _).
  rewrite Ee, Hj in He. injection He as En _. by rewrite Hl, decide_True in Hi.
Qed.

Lemma removed_elem_unused k p b k' elem :
  core_ok k -> removed k p b k' -> nm_view (k_idpmap k) !! fb_name b = Some elem ->
  forall n, nm_view (k_idpmap k') !! n <> Some elem.
Proof.
  intros Hk Hr. apply elem_unused; [apply Hk|apply Hr| |apply Hr]. by rewrite (rm_same _ _ _ _ Hr).
Qed.

Lemma grace_removed k p b m f c k' :
  core_ok k -> registered k p b -> removed k p b k' -> k_rcu k = [] -> k_rcu_nesting k = 0%nat ->
  doomed k p b m f c ->
  wp grace_period (fun _ k2 =>
    k_fblocks k2 = delete p (k_fblocks k) /\ k_privs k2 = delete (fb_private_data b) (k_privs k) /\
    k_subs k2 = delete (fb_others b) (k_subs k) /\ k_notifs k2 = k_notifs k /\ k_rcu k2 = [] /\
    (forall n, ns_lookup k2 n = ns_lookup k' n) /\ (forall i, fbl_lookup k2 i = fbl_lookup k' i)) k'.
Proof.
  intros Hk Hreg Hr Hrcu Hnest Hd. pose proof (rm_same _ _ _ _ Hr) as Hs.
  destruct (rm_rcu _ _ _ _ Hr) as (elem & Hv & Hq). rewrite Hrcu in Hq.
  pose proof (removed_elem_unused _ _ _ _ _ Hk Hr Hv) as Hun.
  destruct (ns_elem k (core_ns k Hk) _ _ Hv) as (_ & _ & He0 & j & Hj).
  assert (Ee : k_elems k' = k_elems k) by (rewrite Hs; done).
  assert (En : k_rcu_nesting k' = 0%nat) by (rewrite Hs; done).
  unfold grace_period. wp_steps. rewrite En. simpl. wp_steps. rewrite Hq. simpl. wp_step.
  unfold fblock_namespace_do_free_rcu. eapply wp_kfree; [done|simpl; by rewrite Ee|]. wp_step.
  set (k1 := upd_elems _ _).
  assert (Hd1 : doomed k1 p (with_refcnt 0 b) m f c).
  { destruct Hd as [[H0 Hb] Hf Hdt Hp Hc Hal].
    assert (Hfb : k_fblocks k1 = <[p := with_refcnt 0 b]> (k_fblocks k)) by apply (rm_block _ _ _ _ Hr).
    split; try done; simpl.
    - split; [done|]. change (k_fblocks k1 !! p = Some (with_refcnt 0 b)). rewrite Hfb. apply lookup_insert_eq.
    - rewrite Hs. exact Hf.
    - rewrite Hs. exact Hp.
    - rewrite Hs. exact Hc.
    - eapply Forall_impl; [exact Hal|]. intros nb. apply sub_alive_mono; [simpl; rewrite Hs; done|].
      rewrite Hfb, dom_insert. set_solver. }
  eapply wp_mono; [apply (free_fblock_wp _ _ _ _ _ _ Hd1)|].
  intros _ k2 [E1 E2 E3 E4 _ E6 _ _ E9 [E10 E11]]. apply wp_ret.
  rewrite E1, E2, E3, E4, E6. simpl. rewrite (rm_block _ _ _ _ Hr), delete_insert_eq.
  split; [done|]. split; [rewrite Hs; done|]. split; [rewrite Hs; done|]. split; [rewrite Hs; done|].
  split; [done|]. split.
  - apply (ns_free_elem k' k2 elem); [apply Hr|exact Hun|done|done].
  - intros i. unfold fbl_lookup. rewrite E9. done.
Qed.

(** C12: adding a block (of any type but the packet filter, which frees its
    data elsewhere), removing it and waiting for a grace period.  Both commands
    return 0.  After the first the block is there and registered under its
    name; after the second the name and the IDP are gone and the block, without
    references, is still there for the readers; after the grace period all
    blocks, private data, subscriber chains, notifiers, names and IDPs are what
    they were before. *)
Theorem add_remove_roundtrip k lmsg m f :
  core_ok k -> addable k lmsg m f -> m <> M_bpf -> k_rcu k = [] -> k_rcu_nesting k = 0%nat ->
  exists fb b k1 k2 k',
    userctl_add lmsg k = Ret 0 k1 /\ k_fblocks k !! fb = None /\ k_fblocks k1 = <[fb := b]> (k_fblocks k) /\
    registered k1 fb b /\ fb_name b = msg_name lmsg /\ fb_factory b = factory_addr m /\
    userctl_remove lmsg k1 = Ret 0 k2 /\ k_fblocks k2 = <[fb := with_refcnt 0 b]> (k_fblocks k) /\
    ns_lookup k2 (msg_name lmsg) = None /\ fbl_lookup k2 (fb_idp b) = 0 /\
    grace_period k2 = Ret tt k' /\
    k_fblocks k' = k_fblocks k /\ k_privs k' = k_privs k /\ k_subs k' = k_subs k /\
    k_notifs k' = k_notifs k /\ k_rcu k' = [] /\
    (forall n, ns_lookup k' n = ns_lookup k n) /\ (forall i, fbl_lookup k' i = fbl_lookup k i).
Proof.
  intros Hk Ha Hbpf Hrcu Hnest. pose proof Ha as [[(Ef & _ & _ & Hfac) _] [Hn Hlen] HN _ _ _ _].
  destruct (factory_facts m f Ef) as (Hm & Ha0 & _ & _ & Hdt & Hout). specialize (Hout Hbpf).
  pose proof (core_heap k Hk) as [Hpos Hbf _ _ Hbs Hbp].
  assert (Hfr : forall A (t : gmap addr A) d, below_next k t -> 0 <= d -> t !! (d + k_next k) = None).
  { intros A t d Ht Hd. destruct (t !! (d + k_next k)) eqn:E; [|done].
    pose proof (map_Forall_lookup_1 _ _ _ _ Ht E) as Hx. simpl in Hx. lia. }
  set (fb := k_next k). set (b := added_block m (msg_name lmsg) k).
  assert (Hadd : wp (userctl_add lmsg) (fun r k1' => r = 0 /\ exists k1, k1' = upd_fblocks <[fb := b]> k1 /\
            ctor_done m (msg_name lmsg) k fb k1) k).
  { apply (wp_add k lmsg m f); [done..|]. intros k1 Hd _. split; [done|]. by exists k1. }
  apply wp_run_val in Hadd as (k1' & Hadd & k1 & -> & Hd). set (k1' := upd_fblocks _ k1) in *.
  destruct (added_core _ _ _ _ Hk Hd) as (Hk' & Hr & Hb). fold b fb k1' in Hk', Hr, Hb.
  pose proof Hd as [_ _ _ Hp Hs Hfl Hns (E1 & E2 & E3 & E4 & E5 & _) _ _].
  assert (Hrm : wp (userctl_remove lmsg) (fun r k2 => r = 0 /\ removed k1' fb b k2) k1').
  { eapply (wp_remove k1' lmsg fb b f); try done; [by apply fbname_id|simpl; by rewrite E1]. }
  apply wp_run_val in Hrm as (k2 & Hrun & Hrm).
  assert (Hdm : doomed k1' fb b m f chain_init).
  { split; simpl; try done.
    - split; [unfold fb; lia|apply lookup_insert_eq].
    - by rewrite E1.
    - rewrite Hp, lookup_insert_eq. split; [lia|eauto].
    - rewrite Hs, lookup_insert_eq. split; [lia|done].
    - rewrite chain_members_init. constructor. }
  destruct (wp_run_unit _ _ _ (grace_removed k1' fb b m f chain_init k2 Hk' Hr Hrm
    ltac:(simpl; by rewrite E4) ltac:(simpl; by rewrite E5) Hdm)) as (k3 & Hg & F1 & F2 & F3 & F4 & F5 & F6 & F7).
  change (k_privs k1') with (k_privs k1) in F2. change (k_subs k1') with (k_subs k1) in F3.
  change (k_notifs k1') with (k_notifs k1) in F4.
  assert (Hname : fb_name b = msg_name lmsg) by (by apply fbname_id).
  exists fb, b, k1', k2, k3. split_and!; try done.
  - by apply below_next_fresh.
  - rewrite (rm_block _ _ _ _ Hrm), Hb. apply insert_insert_eq.
  - rewrite (rm_ns _ _ _ _ Hrm), Hname. by rewrite decide_True.
  - by rewrite (rm_fbl _ _ _ _ Hrm), decide_True.
  - rewrite F1, Hb, delete_insert_id; [done|]. by apply below_next_fresh.
  - rewrite F2, Hp. apply delete_insert_id. by apply (Hfr _ _ 64).
  - rewrite F3, Hs. apply delete_insert_id. by apply (Hfr _ _ 128).
  - by rewrite F4, E3.
  - intros n. rewrite F6, (rm_ns _ _ _ _ Hrm), Hname. rewrite (ns_lookup_ext k1) by done. rewrite Hns.
    rewrite (fbname_id _ Hlen). case_decide as E; [by rewrite E|done].
  - intros i. rewrite F7, (rm_fbl _ _ _ _ Hrm). simpl.
    change (fbl_lookup k1' i) with (fbl_lookup k1 i). rewrite Hfl. case_decide as E; [|done].
    symmetry. apply core_fresh_idp; [done|lia].
Qed.

(** ** Replacing a block *)

(** The message names two different blocks that can change places: the second
    is referred to by the tables only. *)
Record replaceable (k : kernel) (lmsg : lananlmsg) (p1 p2 : addr) (b1 b2 : fblock)
    (f1 f2 : fblock_factory) (l1 l2 : list addr) : Prop := {
  rp_reg : registered k p1 b1 /\ registered k p2 b2;
  rp_ne : p1 <> p2;
  rp_name : fb_name b1 = msg_name lmsg /\ fb_name b2 = msg_second lmsg;
  rp_refs : 0 < fb_refcnt b1 < 2 ^ 31 - 32 /\ fb_refcnt b2 = 1;
  rp_lock : fb_lock b1 = false /\ fb_lock b2 = false;
  rp_fac1 : fb_factory b1 <> 0 /\ k_factories k !! fb_factory b1 = Some f1;
  rp_fac2 : fb_factory b2 <> 0 /\ k_factories k !! fb_factory b2 = Some f2;
  rp_out : fac_dtor_outside_rcu f1 = None;
  rp_lists : nlist (k_notifs k) (fb_notifiers b1) l1 /\ nlist (k_notifs k) (fb_notifiers b2) l2;
  rp_oom : k_oom k = [];
}.

(** Whether the private data move to the new block. *)
Definition keep_priv (lmsg : lananlmsg) (f1 f2 : fblock_factory) : bool :=
  (strncmp (fac_type f1) (fac_type f2) TYPNAMSIZ =? 0) && negb (msg_drop_priv lmsg).

(** The block that takes over: identity of [b1], code of [b2]. *)
Definition successor (keep : bool) (b1 b2 : fblock) : fblock :=
  Fblock (fb_name b1) (if keep then fb_private_data b1 else fb_private_data b2)
    (fb_netfb_rx b2) (fb_event_rx b2) (fb_factory b2) (fb_notifiers b1) (fb_others b1)
    (fb_refcnt b1) (fb_idp b1) false.

(** The block that is replaced: it waits to be freed. *)
Definition retired (keep : bool) (b1 b2 : fblock) : fblock :=
  Fblock (fb_name b1) (if keep then fb_private_data b2 else fb_private_data b1)
    (fb_netfb_rx b1) (fb_event_rx b1) (fb_factory b1) (fb_notifiers b2) (fb_others b2)
    0 (fb_idp b1) false.

Lemma wp_migrate_p_if (c : bool) k dst src d s (Q : unit -> kernel -> Prop) :
  dst <> 0 -> src <> 0 -> dst <> src ->
  k_fblocks k !! dst = Some d -> k_fblocks k !! src = Some s -> ref_ok d -> ref_ok s ->
  Q tt (upd_fblocks (fun m =>
      <[dst := with_private_data (if c then fb_private_data s else fb_private_data d) d]>
      (<[src := with_private_data (if c then fb_private_data d else fb_private_data s) s]> m)) k) ->
  wp (when c do fblock_migrate_p dst src) Q k.
Proof.
  intros H1 H2 Hne Hd Hs Rd Rs HQ. destruct c.
  - eapply wp_of_run; [by apply migrate_p_run|done].
  - apply wp_ret. match type of HQ with Q tt ?k1 => replace k with k1; [done|] end.
    kernel_eq. map_at2 dst src; rewrite ?Hd, ?Hs; try done; by destruct d, s.
Qed.

Lemma wp_migrate_r k dst src d s ld ls (Q : unit -> kernel -> Prop) :
  migratable k dst src d s ld ls ->
  Q tt (upd_notifs (fun m => set_selfs src ld (set_selfs dst ls m))
         (upd_fblocks (fun m => <[dst := taken_over d s]> (<[src := stripped d s]> m)) k)) ->
  wp (fblock_migrate_r dst src) Q k.
Proof. intros. eapply wp_of_run; [by apply migrate_r_run|done]. Qed.

(** What a replacement leads to. *)
Record replaced (k : kernel) (keep : bool) (p1 p2 : addr) (b1 b2 : fblock) (l1 l2 : list addr)
    (k' : kernel) : Prop := {
  rpd_blocks : k_fblocks k' = <[p2 := successor keep b1 b2]> (<[p1 := retired keep b1 b2]> (k_fblocks k));
  rpd_fbl i : fbl_lookup k' i =
    if decide (i = fb_idp b1) then p2 else if decide (i = fb_idp b2) then 0 else fbl_lookup k i;
  rpd_ns n : ns_lookup k' n = if decide (n = fb_name b2) then None else ns_lookup k n;
  rpd_notifs : k_notifs k' = set_selfs p1 l2 (set_selfs p2 l1 (k_notifs k));
  rpd_rcu : exists elem, nm_view (k_idpmap k) !! fb_name b2 = Some elem /\
              k_rcu k' = k_rcu k ++ [Rcu_idp_elem elem; Rcu_fblock p1];
  rpd_ns_ok : ns_ok k';
  rpd_same : k_privs k' = k_privs k /\ k_subs k' = k_subs k /\ k_elems k' = k_elems k /\
             k_next k' = k_next k /\ k_idp_counter k' = k_idp_counter k;
}.

Lemma wp_register_fblock k p b idp (Q : Z -> kernel -> Prop) :
  p <> 0 -> k_fblocks k !! p = Some b -> fbl_lookup k idp = 0 -> k_oom k = [] ->
  (forall t, (forall i, radix_lookup t i = if decide (i = idp) then p else fbl_lookup k i) ->
     Q 0 (upd_fblmap (fun _ => t) (upd_fblocks <[p := with_idp idp b]> k))) ->
  wp (register_fblock p idp) Q k.
Proof.
  intros Hp Hb Hfr Hoom HQ. unfold register_fblock. fb_steps.
  unfold alloc_ok. wp_steps. simpl. rewrite Hoom. wp_steps.
  pose proof (radix_insert_free (k_fblmap k) idp p Hfr) as H0.
  pose proof (fun j => radix_insert_lookup _ _ _ _ j H0) as Hl.
  destruct (radix_insert true (k_fblmap k) idp p) as [r t]. simpl in *. subst r. wp_steps.
  apply HQ. intros i. rewrite Hl. unfold fbl_lookup. by repeat case_decide; subst.
Qed.

(** The second half, when the second block has left the tables. *)
Lemma wp_replace_tail k keep p1 p2 b1 b2 f1 l1 l2 k3 (Q : Z -> kernel -> Prop) :
  p1 <> 0 -> p2 <> 0 -> p1 <> p2 -> 0 < fb_refcnt b1 < 2 ^ 31 - 32 -> fb_refcnt b2 = 1 ->
  fb_lock b1 = false -> fb_lock b2 = false -> (length (fb_name b1) < FBNAMSIZ)%nat ->
  fb_factory b1 <> 0 -> k_factories k3 !! fb_factory b1 = Some f1 -> fac_dtor_outside_rcu f1 = None ->
  nlist (k_notifs k3) (fb_notifiers b1) l1 -> nlist (k_notifs k3) (fb_notifiers b2) l2 ->
  k_oom k3 = [] ->
  k_fblocks k3 = <[p2 := bump 1 b2]> (<[p1 := bump 1 b1]> (k_fblocks k)) ->
  (forall k' t, (forall i, radix_lookup t i = if decide (i = fb_idp b1) then p2 else fbl_lookup k3 i) ->
     k' = upd_rcu (fun l => l ++ [Rcu_fblock p1]) (upd_fblmap (fun _ => t)
            (upd_notifs (fun m => set_selfs p1 l2 (set_selfs p2 l1 m))
              (upd_fblocks (fun _ => <[p2 := successor keep b1 b2]>
                                       (<[p1 := retired keep b1 b2]> (k_fblocks k))) k3))) ->
     Q 0 k') ->
  wp (when keep do fblock_migrate_p p2 p1;;
      fblock_migrate_r p2 p1;;
      unregister_fblock p1;;
      b2 <- get_fb p2;;
      r <- register_fblock p2 (fb_idp b2);;
      put_fblock p1;;
      put_fblock p2;;
      ret r) Q k3.
Proof.
  intros H10 H20 Hne R1 R2 L1 L2 Hlen F1 G1 Ho N1 N2 Hoom Eb HQ.
  assert (Hne' : p2 <> p1) by done.
  assert (E1 : k_fblocks k3 !! p1 = Some (bump 1 b1)) by (rewrite Eb; fb_lookup).
  assert (E2 : k_fblocks k3 !! p2 = Some (bump 1 b2)) by (rewrite Eb; fb_lookup).
  wp_step. apply (wp_migrate_p_if keep _ _ _ (bump 1 b2) (bump 1 b1)); [done..|refs|refs|].
  wp_step. eapply (wp_migrate_r _ _ _ _ _ l2 l1).
  { split; [done|split; fb_lookup|split; refs|done|done]. }
  wp_step. unfold unregister_fblock. fb_steps.
  eapply wp_register_fblock; [done|fb_lookup| |done|].
  { unfold fbl_lookup. simpl. rewrite radix_delete_lookup. by rewrite decide_True. }
  intros t Ht. wp_step.
  eapply wp_of_run.
  { eapply (put_last_run _ p1); [done|fb_lookup|simpl; by rewrite R2|done|exact G1|done]. }
  fb_steps. apply (HQ _ t).
  - intros i. rewrite Ht. unfold fbl_lookup. simpl. rewrite radix_delete_lookup.
    by repeat case_decide; subst.
  - kernel_eq. rewrite Eb. map_at2 p2 p1; try done; f_equal;
      unfold successor, retired, taken_over, stripped, bump, with_refcnt; simpl;
      rewrite ?R2, ?(fbname_id _ Hlen); s32_norm; destruct keep; f_equal; lia.
Qed.

Lemma wp_replace k lmsg p1 p2 b1 b2 f1 f2 l1 l2 (Q : Z -> kernel -> Prop) :
  core_ok k -> replaceable k lmsg p1 p2 b1 b2 f1 f2 l1 l2 ->
  (forall k', replaced k (keep_priv lmsg f1 f2) p1 p2 b1 b2 l1 l2 k' -> Q 0 k') ->
  wp (userctl_replace lmsg) Q k.
Proof.
  intros Hk [[Hr1 Hr2] Hne [Hn1 Hn2] [R1 R2] [L1 L2] [F1 G1] [F2 G2] Ho [N1 N2] Hoom] HQ.
  pose proof (reg_live _ _ _ Hr1) as Hb1. pose proof (reg_live _ _ _ Hr2) as Hb2.
  pose proof (core_pos k p1 b1 Hk Hb1) as H10. pose proof (core_pos k p2 b2 Hk Hb2) as H20.
  assert (Hne' : p2 <> p1) by done.
  unfold userctl_replace. wp_step. eapply wp_search; [done|exact Hr1|done|].
  destruct (Z.eqb_spec p1 0); [done|]. fb_steps. simpl.
  destruct (Z.eqb_spec (fb_factory b1) 0); [done|]. wp_step.
  pose proof (core_ok_bump k p1 b1 1 Hk Hb1) as Hk1. set (k1 := upd_fblocks _ k) in *.
  assert (Hr2' : registered k1 p2 b2).
  { destruct Hr2. split; [simpl; by rewrite lookup_insert_ne|done..]. }
  eapply wp_search; [done|exact Hr2'|done|].
  destruct (Z.eqb_spec p2 0); [done|]. fb_steps. simpl.
  destruct (Z.eqb_spec (fb_factory b2) 0); [done|]. rewrite R2. simpl. wp_step.
  unfold unregister_fblock_namespace_no_rcu, __unregister_fblock_namespace.
  apply (unregister_namespace_wp _ p2 (bump 1 b2));
    [apply core_ok_bump; [done|simpl; by rewrite lookup_insert_ne]|by apply registered_bump|].
  intros k3 (Hk3 & Eb & Ef & El & En & elem & Hv & Ee & Ercu) Ek3. simpl in El, En, Eb, Ee, Ercu, Ef.
  apply wp_ret. wp_step. eapply wp_deref; [done|rewrite Ef; exact G1|].
  wp_step. eapply wp_deref; [done|rewrite Ef; exact G2|]. fold (keep_priv lmsg f1 f2).
  destruct (ns_lookup_key k _ _ (core_ns k Hk) (reg_name _ _ _ Hr1)) as [_ Hlen].
  apply (wp_replace_tail k _ p1 p2 b1 b2 f1 l1 l2); try done.
  { by rewrite Ef. } { rewrite Ek3. done. } { rewrite Ek3. done. } { rewrite Ek3. done. }
  intros k' t Ht Ek'. apply HQ. split.
  - rewrite Ek'. done.
  - intros i. rewrite Ek'. unfold fbl_lookup at 1. simpl. rewrite Ht, El. done.
  - intros x. rewrite Ek', (ns_lookup_ext k3) by done. rewrite En. done.
  - rewrite Ek'. simpl. rewrite Ek3. done.
  - exists elem. split; [exact Hv|]. rewrite Ek'. simpl. by rewrite Ercu, <- app_assoc.
  - rewrite Ek'. by apply (ns_ok_ext k3); [..|apply Hk3].
  - rewrite Ek'. simpl. rewrite Ek3. done.
Qed.

(** Both tables stay consistent. *)
Lemma replaced_core k lmsg keep p1 p2 b1 b2 f1 f2 l1 l2 k' :
  core_ok k -> replaceable k lmsg p1 p2 b1 b2 f1 f2 l1 l2 ->
  replaced k keep p1 p2 b1 b2 l1 l2 k' -> core_ok k'.
Proof.
  intros Hk Hrp [Eb El En Eno _ Hns (E1 & E2 & E3 & E4 & E5)].
  pose proof Hrp as [[Hr1 Hr2] Hne _ _ _ _ _ _ [N1 N2] _].
  pose proof (reg_live _ _ _ Hr1) as Hb1. pose proof (reg_live _ _ _ Hr2) as Hb2.
  assert (Hne' : p2 <> p1) by done.
  assert (Hid : fb_idp b1 <> fb_idp b2).
  { intros E. apply Hne. by rewrite <- (reg_idp _ _ _ Hr1), <- (reg_idp _ _ _ Hr2), E. }
  assert (Hold : forall i, i <> fb_idp b1 -> i <> fb_idp b2 -> fbl_lookup k i <> 0 ->
            fbl_lookup k i <> p1 /\ fbl_lookup k i <> p2).
  { intros i Hi1 Hi2 H0. destruct (core_fbl k Hk i H0) as (_ & x & Hx & Ex).
    split; intros E; rewrite E in Hx; congruence. }
  split.
  - destruct (core_heap k Hk) as [? Hf He Hno Hs Hp].
    split; unfold below_next; rewrite ?E1, ?E2, ?E3, ?E4, ?Eb, ?Eno; try done.
    + eapply below_next_update; [by eapply below_next_update|].
      by rewrite lookup_insert_ne by done.
    + clear Eno. assert (Hal : forall self l t, below_next k t -> below_next k (set_selfs self l t)).
      { intros self l t Ht. induction l as [|x l IH]; simpl; [done|].
        by apply below_next_alter. }
      by apply Hal, Hal.
  - done.
  - rewrite E5. apply Hk.
  - intros i. rewrite El, Eb, E5. case_decide as C1; [|case_decide as C2; [done|]]; intros H0.
    + subst i. split; [apply (core_fbl k Hk); rewrite (reg_idp _ _ _ Hr1); by apply (core_pos k _ b1)|].
      exists (successor keep b1 b2). by rewrite lookup_insert_eq.
    + destruct (core_fbl k Hk i H0) as (Hi & x & Hx & Ex). split; [done|]. exists x.
      destruct (Hold i C1 C2 H0). by rewrite !lookup_insert_ne by done.
  - intros n i. rewrite En, El, Eb. case_decide as C0; [done|]. intros Hn.
    destruct (core_name k Hk n i Hn) as (x & H0 & Hx & Ex).
    case_decide as C1; [|case_decide as C2].
    + subst i. exists (successor keep b1 b2). rewrite lookup_insert_eq.
      split; [by apply (core_pos k _ b2)|]. split; [done|]. simpl.
      rewrite (reg_idp _ _ _ Hr1) in Hx. congruence.
    + subst i. rewrite (reg_idp _ _ _ Hr2) in Hx. congruence.
    + exists x. destruct (Hold i C1 C2 H0). by rewrite !lookup_insert_ne by done.
Qed.

(** C13: replacing block 1 by block 2 gives block 2 the name, the IDP, the
    subscriptions and the references of block 1, and its private data when
    the types agree and the data are not to be dropped; block 2's own name
    and IDP are gone, block 1 is out of the tables and waits for a grace
    period, every notifier points to its new owner, and the tables are
    consistent. *)
Theorem userctl_replace_correct k lmsg p1 p2 b1 b2 f1 f2 l1 l2 :
  core_ok k -> replaceable k lmsg p1 p2 b1 b2 f1 f2 l1 l2 ->
  exists k', userctl_replace lmsg k = Ret 0 k' /\ core_ok k' /\
    replaced k (keep_priv lmsg f1 f2) p1 p2 b1 b2 l1 l2 k' /\
    resolve k' (msg_name lmsg) = p2 /\ resolve k' (msg_second lmsg) = 0.
Proof.
  intros Hk Hr. apply wp_run_val. eapply wp_replace; [done|exact Hr|]. intros k' Hd.
  split; [done|]. pose proof (replaced_core _ _ _ _ _ _ _ _ _ _ _ _ Hk Hr Hd) as Hk'.
  split; [done|]. split; [done|].
  destruct Hr as [[[Hb1 Hi1 Hs1] [Hb2 Hi2 Hs2]] Hne [<- <-] _ _ _ _ _ _ _].
  unfold resolve. rewrite !(rpd_ns _ _ _ _ _ _ _ _ _ Hd). rewrite (decide_True (P := fb_name b2 = _)) by done.
  assert (Hnn : fb_name b1 <> fb_name b2).
  { intros E. apply Hne. rewrite <- Hi1, <- Hi2. rewrite E, Hs2 in Hs1. by injection Hs1 as ->. }
  rewrite decide_False, Hs1 by done. simpl. rewrite (rpd_fbl _ _ _ _ _ _ _ _ _ Hd), decide_True by done.
  split; [done|]. destruct (Z.eq_dec (fbl_lookup k' IDP_UNKNOWN) 0) as [|H0]; [done|].
  destruct (core_fbl k' Hk' IDP_UNKNOWN H0) as [? _]. unfold IDP_UNKNOWN, IDP_EXIT_PPE in *. lia.
Qed.
(** ** Binding *)

(** The tables are consistent after a bind, too. *)
Lemma bound_core k fb1 fb2 b1 b2 m1 m2 c1 c2 :
  core_ok k -> bindable k fb1 fb2 b1 b2 m1 m2 c1 c2 ->
  core_ok (bound fb1 fb2 b1 b2 m1 m2 c1 c2 k).
Proof.
  intros Hk [(H10 & H20 & Hne) [Hb1 Hb2] _ _ _ _ _ _ (_ & _ & Ho) [S1 S2] Hnx].
  set (k' := bound _ _ _ _ _ _ _ _ k).
  assert (Hle : k_next k <= k_next k') by (simpl; lia).
  assert (Hold : forall a x, k_fblocks k !! a = Some x ->
    exists x', k_fblocks k' !! a = Some x' /\ fb_idp x' = fb_idp x /\ fb_name x' = fb_name x).
  { intros a x Ha. simpl. destruct (decide (fb1 = a)) as [<-|].
    { rewrite lookup_insert_eq. eexists. split; [done|]. rewrite Hb1 in Ha. by injection Ha as <-. }
    rewrite lookup_insert_ne by done. destruct (decide (fb2 = a)) as [<-|].
    { rewrite lookup_insert_eq. eexists. split; [done|]. rewrite Hb2 in Ha. by injection Ha as <-. }
    rewrite lookup_insert_ne by done. eauto. }
  split.
  - destruct (core_heap k Hk) as [Hpos Hf He Hno Hs Hp].
    split; [simpl; lia| |by apply (below_next_mono k)| | |].
    + eapply (below_next_update _ _ _ _ b1);
        [eapply (below_next_update _ _ _ _ b2); [by apply (below_next_mono k)|done]|].
      by rewrite lookup_insert_ne by done.
    + apply below_next_insert; [apply below_next_insert; [by apply (below_next_mono k)|]|]; simpl; lia.
    + eapply (below_next_update _ _ _ _ c1);
        [eapply (below_next_update _ _ _ _ c2); [by apply (below_next_mono k)|done]|].
      by rewrite lookup_insert_ne by done.
    + simpl. by do 2 apply below_next_alter; apply (below_next_mono k).
  - by apply (ns_ok_ext k); [..|apply Hk].
  - apply Hk.
  - intros i H0. destruct (core_fbl k Hk i H0) as (Hi & x & Hx & Ex). split; [done|].
    destruct (Hold _ _ Hx) as (x' & Hx' & Ei & _). exists x'. split; [exact Hx'|congruence].
  - intros n i Hn. destruct (core_name k Hk n i Hn) as (x & H0 & Hx & Ex).
    destruct (Hold _ _ Hx) as (x' & Hx' & _ & En). exists x'. split; [exact H0|]. split; [exact Hx'|congruence].
Qed.
End props.
