(* ===== verification/NetDevProps.v ===== *)
(** * Devices and the blocks of drivers: lemmas

    What the drivers' proofs share: the kernel's device functions, flags, names
    of devices, and building and destroying a block that has no factory. *)
From Stdlib Require Import ZArith Lia.
From stdpp Require Import base gmap numbers countable list.
From S2P Require Import Prelude CString CritbitTree NameMap Types NetTypes Kernel NetDev Fblock FblockNs FblockLife.
From S2P Require Import FblockBind PerCpu FblockCtor Modules ModuleLife UserctlProps.

Local Open Scope Z_scope.
Local Open Scope kernel_scope.

(** ** Devices *)

Section devices.
Context `{Nm : NameMap, Ka : KernelApi}.

Definition device (k : kernel) (dev : addr) (d : net_device) : Prop :=
  dev <> 0 /\ n_devs (k_net k) !! dev = Some d.

Lemma wp_get_dev k dev d (Q : net_device -> kernel -> Prop) :
  device k dev d -> Q d k -> wp (get_dev dev) Q k.
Proof. intros [H0 Hd] HQ. by eapply wp_deref. Qed.

Lemma wp_mod_dev k dev d f (Q : unit -> kernel -> Prop) :
  device k dev d -> Q tt (upd_net (net_devs <[dev := f d]>) k) -> wp (mod_dev dev f) Q k.
Proof. intros Hd HQ. unfold mod_dev. wp_step. by eapply wp_get_dev. Qed.

Lemma get_dev_run k dev d : device k dev d -> get_dev dev k = Ret d k.
Proof. intros [H0 Hd]. by apply (deref_run (fun k => n_devs (k_net k))). Qed.

Lemma mod_dev_run k dev d f :
  device k dev d -> mod_dev dev f k = Ret tt (upd_net (net_devs <[dev := f d]>) k).
Proof. intros Hd. unfold mod_dev. by rewrite (bind_run _ _ _ _ _ (get_dev_run k dev d Hd)). Qed.

Lemma device_insert k dev d f : device k dev d -> device (upd_net (net_devs <[dev := f]>) k) dev f.
Proof. intros [H0 _]. split; [done|]. apply lookup_insert_eq. Qed.

Lemma wp_dev_get_by_name k name dev d (Q : addr -> kernel -> Prop) :
  dev_by_name name (n_devs (k_net k)) = dev -> device k dev d ->
  Q dev (upd_net (net_devs <[dev := with_refs (nd_refs d + 1) d]>) k) ->
  wp (dev_get_by_name name) Q k.
Proof.
  intros Hn Hd HQ. unfold dev_get_by_name. wp_steps. rewrite Hn. pose proof Hd as [H0 _].
  destruct (Z.eqb_spec dev 0); [done|]. cbn [negb]. eapply wp_mod_dev; [exact Hd|]. by wp_steps.
Qed.

Lemma wp_dev_get_no_name k name (Q : addr -> kernel -> Prop) :
  dev_by_name name (n_devs (k_net k)) = 0 -> Q 0 k -> wp (dev_get_by_name name) Q k.
Proof. intros Hn HQ. unfold dev_get_by_name. wp_steps. rewrite Hn. by wp_steps. Qed.

Lemma wp_dev_get_by_index k i dev d (Q : addr -> kernel -> Prop) :
  dev_by_index i (n_devs (k_net k)) = dev -> device k dev d ->
  Q dev (upd_net (net_devs <[dev := with_refs (nd_refs d + 1) d]>) k) ->
  wp (dev_get_by_index i) Q k.
Proof.
  intros Hn Hd HQ. unfold dev_get_by_index. wp_steps. rewrite Hn. pose proof Hd as [H0 _].
  destruct (Z.eqb_spec dev 0); [done|]. cbn [negb]. eapply wp_mod_dev; [exact Hd|]. by wp_steps.
Qed.

(** A reference taken and given back. *)
Lemma refs_back d : with_refs (nd_refs (with_refs (nd_refs d + 1) d) - 1) (with_refs (nd_refs d + 1) d) = d.
Proof. destruct d. unfold with_refs. simpl. f_equal. lia. Qed.

Lemma put_back k dev d (k' : kernel) :
  device k dev d -> k' = upd_net (net_devs <[dev := with_refs (nd_refs d + 1) d]>) k ->
  dev_put dev k' = Ret tt k.
Proof.
  intros [H0 Hd] ->. unfold dev_put. rewrite (mod_dev_run _ dev (with_refs (nd_refs d + 1) d)).
  - f_equal. kernel_eq. destruct (k_net k). unfold net_devs. simpl in *.
    rewrite insert_insert_eq. f_equal. apply insert_id. rewrite Hd. f_equal. symmetry. apply refs_back.
  - split; [done|apply lookup_insert_eq].
Qed.

Lemma wp_rtnl_lock k (Q : unit -> kernel -> Prop) :
  n_rtnl (k_net k) = false -> Q tt (upd_net (net_rtnl true) k) -> wp rtnl_lock Q k.
Proof. intros Hl HQ. unfold rtnl_lock. wp_steps. by rewrite Hl. Qed.

(** Nothing is waiting to be freed. *)
Lemma wp_rtnl_unlock k (Q : unit -> kernel -> Prop) :
  n_todo (k_net k) = [] -> Q tt (upd_net (net_rtnl false) k) -> wp rtnl_unlock Q k.
Proof.
  intros Ht HQ. unfold rtnl_unlock. wp_steps. rewrite Ht. simpl. wp_steps.
  match goal with |- Q tt ?k1 => replace k1 with (upd_net (net_rtnl false) k); [done|] end.
  kernel_eq. destruct (k_net k). unfold net_rtnl, net_todo. simpl in *. by subst.
Qed.

(** The invariant does not read the devices. *)
Lemma core_ok_net k f : core_ok k -> core_ok (upd_net f k).
Proof. intros Hk. by apply (core_ok_ext k). Qed.

(** The invariant holds when addresses are handed out. *)
Lemma core_ok_next k k' :
  core_ok k -> k_next k <= k_next k' ->
  k_fblocks k' = k_fblocks k -> k_notifs k' = k_notifs k -> k_subs k' = k_subs k ->
  k_privs k' = k_privs k -> k_elems k' = k_elems k -> k_idpmap k' = k_idpmap k ->
  k_fblmap k' = k_fblmap k -> k_idp_counter k' = k_idp_counter k -> core_ok k'.
Proof.
  intros [[Hp Hf He Hn Hs Hpr] Hns Hc Hfb Hnm] Hle E1 E2 E3 E4 E5 E6 E7 E8.
  assert (Hl : forall i, fbl_lookup k' i = fbl_lookup k i) by (intros; unfold fbl_lookup; by rewrite E7).
  split; [|by apply (ns_ok_ext k)|by rewrite E8| |].
  - split; [lia|rewrite ?E1, ?E2, ?E3, ?E4, ?E5; by apply (below_next_mono k)..].
  - intros i. rewrite Hl, E8, E1. apply Hfb.
  - intros n i. rewrite (ns_lookup_ext k) by done. rewrite Hl, E1. apply Hnm.
Qed.
End devices.

(** The device in a table that was written to; [done] shows that its address
    is not NULL. *)
Ltac dev_found :=
  split; [done|];
  simpl; repeat (rewrite lookup_insert_ne by done); first [apply lookup_insert_eq|eassumption].

Ltac dev_step := eapply wp_mod_dev; [dev_found|].

(** ** Flags *)

Lemma has_flag_lor x m : has_flag (Z.lor x m) m = true.
Proof.
  unfold has_flag. apply Z.eqb_eq. apply Z.bits_inj'. intros n Hn.
  rewrite Z.land_spec, Z.lor_spec. by destruct (Z.testbit x n), (Z.testbit m n).
Qed.

(** A bit of the mask that is missing. *)
Lemma has_flag_bit x m n : 0 <= n -> Z.testbit m n = true -> Z.testbit x n = false -> has_flag x m = false.
Proof.
  intros Hn Hm Hx. unfold has_flag. apply Z.eqb_neq. intros E.
  assert (Z.testbit (Z.land x m) n = Z.testbit m n) by (by rewrite E).
  rewrite Z.land_spec, Hx, Hm in H. done.
Qed.

Lemma lor_ldiff x m : Z.land x m = 0 -> Z.ldiff (Z.lor x m) m = x.
Proof.
  intros H. apply Z.bits_inj'. intros n Hn. rewrite Z.ldiff_spec, Z.lor_spec.
  assert (Hl : Z.testbit (Z.land x m) n = false) by (rewrite H; apply Z.bits_0).
  rewrite Z.land_spec in Hl. by destruct (Z.testbit x n), (Z.testbit m n).
Qed.

(** A device none of the two drivers uses. *)
Definition plain (d : net_device) : Prop :=
  Z.land (nd_priv_flags d) IFF_IS_BRIDGED = 0 /\ nd_rx_handler d = None.

(** The flag of a bridged device contains the two others. *)
Lemma bridged_bits x : Z.land x IFF_IS_BRIDGED = 0 ->
  has_flag x IFF_VLINK_DEV = false /\ has_flag x IFF_VLINK_MAS = false /\ has_flag x IFF_IS_BRIDGED = false.
Proof.
  intros H.
  assert (Hb : forall n, Z.testbit IFF_IS_BRIDGED n = true -> Z.testbit x n = false).
  { intros n Hn. assert (Hl : Z.testbit (Z.land x IFF_IS_BRIDGED) n = false) by (rewrite H; apply Z.bits_0).
    rewrite Z.land_spec, Hn in Hl. by destruct (Z.testbit x n). }
  split; [|split]; [apply (has_flag_bit _ _ 18)|apply (has_flag_bit _ _ 17)|apply (has_flag_bit _ _ 17)];
    try done; by apply Hb.
Qed.

Lemma plain_bits d : plain d ->
  has_flag (nd_priv_flags d) IFF_VLINK_DEV = false /\ fb_ethvlink_real_dev_is_hooked d = false /\
  fb_eth_dev_is_bridged d = false.
Proof. intros [H _]. by apply bridged_bits. Qed.

(** ** Names of devices *)

Definition unique_names (devs : gmap addr net_device) : Prop :=
  forall a a' d d', devs !! a = Some d -> devs !! a' = Some d' ->
    nd_reg d = NETREG_REGISTERED -> nd_reg d' = NETREG_REGISTERED -> nd_name d = nd_name d' -> a = a'.

Lemma dev_by_name_only devs a d :
  (forall a' d', devs !! a' = Some d' -> nd_reg d' = NETREG_REGISTERED -> nd_name d' = nd_name d -> a' = a) ->
  devs !! a = Some d -> nd_reg d = NETREG_REGISTERED -> dev_by_name (nd_name d) devs = a.
Proof.
  intros Hu Ha Hr. unfold dev_by_name, listed. destruct (list_find _ _) as [[i [a' d']]|] eqn:E.
  - apply list_find_Some in E as (Hin & Hn & _). simpl in Hn. apply Is_true_true, andb_true_iff in Hn as [Hr' Hn].
    apply bool_decide_eq_true in Hr', Hn.
    apply list_elem_of_lookup_2, elem_of_map_to_list in Hin. by apply (Hu a' d').
  - apply list_find_None in E. rewrite Forall_forall in E.
    destruct (E (a, d)); [by apply elem_of_map_to_list|]. simpl. by rewrite !bool_decide_true.
Qed.

Lemma dev_by_name_unique devs a d :
  unique_names devs -> devs !! a = Some d -> nd_reg d = NETREG_REGISTERED ->
  dev_by_name (nd_name d) devs = a.
Proof. intros Hu Ha Hr. apply dev_by_name_only; [|done..]. intros a' d' Ha' Hr' E. by apply (Hu a' a d' d). Qed.

(** No registered device has the name. *)
Definition no_name (devs : gmap addr net_device) (name : cstr) : Prop :=
  map_Forall (fun _ d => nd_reg d = NETREG_REGISTERED -> nd_name d <> name) devs.

Lemma dev_by_name_none devs name : no_name devs name -> dev_by_name name devs = 0.
Proof.
  intros Hn. unfold dev_by_name, listed. destruct (list_find _ _) as [[i [a d]]|] eqn:E; [|done].
  apply list_find_Some in E as (Hin & He & _). simpl in He. apply Is_true_true, andb_true_iff in He as [Hr He].
  apply bool_decide_eq_true in Hr, He. apply list_elem_of_lookup_2, elem_of_map_to_list in Hin.
  by destruct (map_Forall_lookup_1 _ _ _ _ Hn Hin Hr).
Qed.

Lemma dev_by_name_new devs a d :
  no_name devs (nd_name d) -> nd_reg d = NETREG_REGISTERED -> dev_by_name (nd_name d) (<[a := d]> devs) = a.
Proof.
  intros Hn Hr. apply dev_by_name_only; [|apply lookup_insert_eq|done]. intros a' d'.
  rewrite lookup_insert_Some. intros [[-> _]|[_ Ha']] Hr' E; [done|].
  by destruct (map_Forall_lookup_1 _ _ _ _ Hn Ha' Hr').
Qed.

Lemma unique_names_update devs a d d' :
  unique_names devs -> devs !! a = Some d -> nd_name d' = nd_name d -> nd_reg d' = nd_reg d ->
  unique_names (<[a := d']> devs).
Proof.
  intros Hu Ha En Er x y dx dy Hx Hy Rx Ry E.
  assert (H : forall z dz, <[a := d']> devs !! z = Some dz ->
    exists d0, devs !! z = Some d0 /\ nd_name d0 = nd_name dz /\ nd_reg d0 = nd_reg dz).
  { intros z dz. rewrite lookup_insert_Some. intros [[<- <-]|[_ ?]]; eauto. }
  destruct (H _ _ Hx) as (x0 & Hx0 & Ex & Fx), (H _ _ Hy) as (y0 & Hy0 & Ey & Fy).
  apply (Hu x y x0 y0); congruence.
Qed.

(** ** Blocks without a factory *)

Section own.
Context `{Nm : NameMap, Ka : KernelApi}.

Definition own_block (m : modid) (name : cstr) (k : kernel) : fblock :=
  with_idp (k_idp_counter k + 1) (with_factory 0 (new_block m name k)).

(** The new block, its private data and its chain are at the next three
    addresses; nothing else is touched. *)
Record own_built (m : modid) (mk : nat -> priv) (name : cstr) (k k' : kernel) : Prop := {
  ob_core : core_ok k';
  ob_blocks : k_fblocks k' = <[k_next k := own_block m name k]> (k_fblocks k);
  ob_privs : k_privs k' = <[64 + k_next k := mk (k_cpus k)]> (k_privs k);
  ob_subs : k_subs k' = <[128 + k_next k := chain_init]> (k_subs k);
  ob_fbl i : fbl_lookup k' i = if decide (i = k_idp_counter k + 1) then k_next k else fbl_lookup k i;
  ob_ns n : ns_lookup k' n =
    if decide (n = fbname name) then Some (k_idp_counter k + 1) else ns_lookup k n;
  ob_net : k_net k' = k_net k;
  ob_same : k_notifs k' = k_notifs k /\ k_rcu k' = k_rcu k /\ k_rcu_nesting k' = k_rcu_nesting k /\
            k_cpus k' = k_cpus k /\ k_cpu k' = k_cpu k /\ k_skbs k' = k_skbs k /\
            k_factories k' = k_factories k /\ k_emdiscs k' = k_emdiscs k;
  ob_oom : k_oom k' = [];
}.

(** What building needs. *)
Record own_buildable (k : kernel) (name : cstr) : Prop := {
  ok_name : cstr_ok name /\ ns_lookup k (fbname name) = None;
  ok_idp : k_idp_counter k + 1 < 2 ^ 32;
  ok_oom : k_oom k = [];
  ok_slab : fb_lock (slab_object k) = false;
}.

Lemma own_buildable_ext k k' name :
  own_buildable k name -> k_idpmap k' = k_idpmap k -> k_elems k' = k_elems k ->
  k_idp_counter k' = k_idp_counter k -> k_oom k' = k_oom k -> k_fbcache k' = k_fbcache k -> own_buildable k' name.
Proof.
  intros [[H1 H2] H3 H4 H5] E1 E2 E3 E4 E5. split; rewrite ?E3, ?E4; try done.
  - split; [done|]. by rewrite (ns_lookup_ext k).
  - unfold slab_object. by rewrite E5.
Qed.

(** The block before its registration. *)
Lemma own_constructed m mk name k :
  core_ok k -> cstr_ok name ->
  let k1 := upd_fblocks <[k_next k := with_factory 0 (new_block m name k)]> (constructed m mk name k) in
  core_ok k1 /\ unregistered k1 (k_next k) (with_factory 0 (new_block m name k)).
Proof.
  intros Hk Hn k1. pose proof (constructed_core m mk name k Hk) as Hc.
  pose proof (constructed_unregistered m mk name k Hk Hn) as [Hl Hi Hnm]. split.
  - eapply (core_ok_update _ k1 _ _ (with_factory 0 (new_block m name k)) Hc Hl); done.
  - split; [apply lookup_insert_eq|exact Hi|exact Hnm].
Qed.

Lemma wp_own_build m mk name k (rest : addr -> addr -> Z -> M addr) e1 e2 e3 (Q : addr -> kernel -> Prop) :
  core_ok k -> own_buildable k name ->
  (forall k', own_built m mk name k k' -> wp (rest (k_next k) (64 + k_next k) 0) Q k') ->
  wp (fb <- alloc_fblock;;
      if fb =? 0 then e1
      else
        fb_priv <- alloc_percpu mk;;
        if fb_priv =? 0 then e2 fb
        else
          r <- init_fblock fb name fb_priv;;
          if negb (r =? 0) then e3 fb fb_priv
          else
            mod_fb fb (with_rx m m);;
            mod_fb fb (with_factory 0);;
            r <- register_fblock_namespace fb;;
            rest fb fb_priv r) Q k.
Proof.
  intros Hk [[Hn HN] Hlt Hoom Hsl] HQ. pose proof (heap_next k (core_heap k Hk)) as Hpos.
  apply (wp_constructed m mk); [done..|]. wp_step. eapply wp_mod_fb; [lia|apply lookup_insert_eq|].
  destruct (own_constructed m mk name k Hk Hn) as [Hc Hu]. wp_step.
  eapply wp_mono; [by apply (register_namespace_wp _ _ _ Hc Hu)|].
  intros r k2 Hres. destruct (block_registered_ok _ _ _ _ _ Hres) as (-> & [Hfr Ho] & (Hf & Hcnt & Hfl) & Hk2 & Hns);
    [done|done|].
  apply HQ. split; simpl; try (rewrite Hfr; done); try done.
  rewrite Hf. simpl. by rewrite !insert_insert_eq.
Qed.

(** Telling the subscribers of a block without a factory, and freeing their
    chain. *)
Lemma wp_cleanup_fblock k fb b c (Q : unit -> kernel -> Prop) :
  fb <> 0 -> k_fblocks k !! fb = Some b -> fb_factory b = 0 ->
  fb_others b <> 0 -> k_subs k !! fb_others b = Some c -> Forall (sub_alive k) (chain_members c) ->
  Q tt (upd_subs (delete (fb_others b)) k) -> wp (cleanup_fblock fb) Q k.
Proof.
  intros H0 Hb Hf Ho Hc Hal HQ. unfold cleanup_fblock, notify_fblock_subscribers. fb_steps.
  destruct (Z.eqb_spec (fb_others b) 0); [done|]. wp_step. eapply wp_deref; [done|exact Hc|].
  destruct (call_chain_down (fb_idp b) (chain_members c) NOTIFY_DONE k Hal) as [r Hr].
  eapply wp_of_run; [exact Hr|]. fb_steps. rewrite Hf. simpl. fb_steps.
  by eapply wp_kfree.
Qed.

(** A registered block without a factory with its data and its chain. *)
Record own_live (k : kernel) (fb : addr) (b : fblock) (p : priv) (c : chain) : Prop := {
  ol_block : fb <> 0 /\ registered k fb b /\ fb_factory b = 0;
  ol_priv : fb_private_data b <> 0 /\ k_privs k !! fb_private_data b = Some p;
  ol_subs : fb_others b <> 0 /\ k_subs k !! fb_others b = Some c /\ Forall (sub_alive k) (chain_members c);
}.

(** What is left of the block: its name's element waits for a grace
    period. *)
Record own_gone (k : kernel) (fb : addr) (b : fblock) (k' : kernel) : Prop := {
  og_blocks : k_fblocks k' = delete fb (k_fblocks k);
  og_privs : k_privs k' = delete (fb_private_data b) (k_privs k);
  og_subs : k_subs k' = delete (fb_others b) (k_subs k);
  og_same : k_notifs k' = k_notifs k /\ k_rcu_nesting k' = k_rcu_nesting k /\ k_net k' = k_net k /\
            k_cpus k' = k_cpus k /\ k_cpu k' = k_cpu k /\ k_skbs k' = k_skbs k /\ k_oom k' = k_oom k /\
            k_next k' = k_next k;
  og_fbl i : fbl_lookup k' i = if decide (i = fb_idp b) then 0 else fbl_lookup k i;
  og_elem : exists elem i, elem <> 0 /\ k_elems k' !! elem = Some i /\ k_rcu k' = k_rcu k ++ [Rcu_idp_elem elem] /\
    forall k'', k_idpmap k'' = k_idpmap k' -> k_elems k'' = delete elem (k_elems k') ->
      forall n, ns_lookup k'' n = if decide (n = fb_name b) then None else ns_lookup k n;
}.

Lemma wp_own_destroy m k fb b p c (Q : unit -> kernel -> Prop) :
  core_ok k -> own_live k fb b p c ->
  (forall k', own_gone k fb b k' -> Q tt k') ->
  wp (unregister_fblock_namespace_no_rcu fb;;
      cleanup_fblock fb;;
      b <- get_fb fb;;
      free_percpu (fb_private_data b);;
      kfree_fblock fb;;
      module_put m) Q k.
Proof.
  intros Hk [(H0 & Hreg & Hfac) (Hp0 & Hp) (Ho & Hc & Hal)] HQ. pose proof (reg_live _ _ _ Hreg) as Hb.
  wp_step. unfold unregister_fblock_namespace_no_rcu, __unregister_fblock_namespace.
  apply (unregister_namespace_wp k fb b); [done..|]. intros k1 Hu Hfr. wp_step.
  pose proof Hu as (Hk1 & E1 & _ & Hfl & Hns & elem & Hv & Ee & Er). wp_step.
  assert (Es : k_subs k1 = k_subs k) by (rewrite Hfr; done).
  assert (En : k_notifs k1 = k_notifs k) by (rewrite Hfr; done).
  eapply (wp_cleanup_fblock k1 fb b c); [done|by rewrite E1|done|done|by rewrite Es| |].
  { eapply Forall_impl; [exact Hal|]. intros nb. apply sub_alive_mono; [done|by rewrite E1]. }
  wp_step. eapply wp_get_fb; [done|simpl; rewrite E1; exact Hb|]. wp_step.
  eapply wp_kfree; [done|simpl; rewrite Hfr; exact Hp|]. wp_step. unfold kfree_fblock. wp_step.
  eapply wp_get_fb; [done|simpl; rewrite E1; exact Hb|]. wp_steps.
  destruct (ns_elem k (core_ns k Hk) _ _ Hv) as (_ & _ & He0 & j & Hj).
  unfold wp, module_put. apply HQ. split; simpl; rewrite ?E1; try done; try (rewrite Hfr; done).
  exists elem, (IdpElem (fb_name b) j). split; [done|]. split; [by rewrite Ee|]. split; [done|].
  intros k'' Ei Ed n. rewrite <- Hns. apply (ns_free_elem k1 _ elem); [apply Hk1| |done|done].
  apply (elem_unused k k1 (fb_name b)); [apply Hk|apply Hk1|done|exact Hns|done].
Qed.

(** A grace period that frees the element of the name, and nothing else. *)
Lemma wp_own_grace k k' fb b (Q : unit -> kernel -> Prop) :
  own_gone k fb b k' -> k_rcu k = [] -> k_rcu_nesting k = 0%nat ->
  (forall elem, k_rcu k' = [Rcu_idp_elem elem] ->
     let k2 := upd_elems (delete elem) (upd_rcu (fun _ => []) k') in
     (forall n, ns_lookup k2 n = if decide (n = fb_name b) then None else ns_lookup k n) -> Q tt k2) ->
  wp grace_period Q k'.
Proof.
  intros [_ _ _ (_ & Hnest & _) _ (elem & i & He0 & He & Er & Hns)] Hrcu Hn HQ. rewrite Hrcu in Er. simpl in Er.
  unfold grace_period. wp_steps. rewrite Hnest, Hn. simpl. wp_steps. rewrite Er. simpl. wp_step.
  unfold fblock_namespace_do_free_rcu. eapply wp_kfree; [done|exact He|]. wp_step.
  apply (HQ elem); [done|]. by apply Hns.
Qed.

(** Addresses that are still to be handed out. *)
Lemma above_next {A} k (m : gmap addr A) e : below_next k m -> 0 <= e -> m !! (e + k_next k) = None.
Proof.
  intros Hm He. destruct (m !! (e + k_next k)) eqn:E; [|done].
  pose proof (map_Forall_lookup_1 _ _ _ _ Hm E) as Hx. simpl in Hx. lia.
Qed.

(** None of this depends on the network part of the state. *)
Lemma ns_lookup_net f k n : ns_lookup (upd_net f k) n = ns_lookup k n.
Proof. by apply ns_lookup_ext. Qed.

Lemma own_live_net k f fb b p c : own_live k fb b p c -> own_live (upd_net f k) fb b p c.
Proof. intros [(H0 & [? ? ?] & ?) ? ?]. by split. Qed.

Lemma own_gone_net k k' f fb b : own_gone k fb b k' -> own_gone (upd_net f k) fb b (upd_net f k').
Proof.
  intros [E1 E2 E3 (E4 & E5 & E6 & E7) E8 (elem & i & H)]. split; try done.
  - repeat (split; [done|]). simpl. by rewrite E6.
  - exists elem, i. exact H.
Qed.
End own.
