(* ===== verification/FbEthProps.v ===== *)
(** * Properties of the Ethernet block (src/fb_eth.c)

    Hooking a device makes it a registered block, unhooking takes everything
    back; frames enter the engine at the ingress port and packets leave
    through the device; what the commands report when they fail. *)
From Stdlib Require Import ZArith Lia.
From stdpp Require Import base gmap numbers countable list.
From S2P Require Import Prelude CString CritbitTree Vlink NameMap Types NetTypes Kernel NetDev EthvlinkDev Fblock FblockNs.
From S2P Require Import FblockLife FblockBind PerCpu FblockCtor Engine FbEth Modules EngineProps EngineSinks ModuleLife UserctlProps.
From S2P Require Import NetDevProps.

Local Open Scope Z_scope.
Local Open Scope kernel_scope.

(** The device with the hook of this module, and without it again. *)
Definition hooked (d : net_device) : net_device := fb_eth_make_dev_bridged (with_rx_handler (Some M_eth) d).
Definition unhooked (d : net_device) : net_device := fb_eth_make_dev_unbridged (with_rx_handler None d).

Lemma unhooked_hooked d : plain d -> unhooked (hooked d) = d.
Proof. intros [Hf Hr]. destruct d. simpl in *. subst.
  unfold unhooked, hooked, fb_eth_make_dev_unbridged, fb_eth_make_dev_bridged, with_priv_flags. simpl.
  f_equal. by apply lor_ldiff. Qed.

Lemma hooked_bridged d : fb_eth_dev_is_bridged (hooked d) = true.
Proof. apply has_flag_lor. Qed.

(** ** Building the block of a device *)

Section build.
Context `{Nm : NameMap, Ka : KernelApi}.

Lemma wp_locked_devs k f (Q : unit -> kernel -> Prop) :
  n_eth_lock (k_net k) = false ->
  Q tt (upd_net (net_eth_devs f) k) -> wp (locked_devs f) Q k.
Proof.
  intros Hl HQ. unfold locked_devs. wp_steps. rewrite Hl. wp_steps.
  match goal with |- Q tt ?k1 => replace k1 with (upd_net (net_eth_devs f) k); [done|] end.
  kernel_eq. destruct (k_net k); simpl in *. by subst.
Qed.

Definition eth_fresh (dev : addr) (n : nat) : priv :=
  PrivEth (replicate n (EthPriv (Ports IDP_UNKNOWN IDP_UNKNOWN) dev)).

(** Everything building a block needs. *)
Record buildable (k : kernel) (dev : addr) (d : net_device) : Prop := {
  bl_dev : device k dev d;
  bl_rx : nd_rx_handler d = None;
  bl_rtnl : n_rtnl (k_net k) = false /\ n_todo (k_net k) = [];
  bl_own : own_buildable k (nd_name d);
}.

(** The tail of the function: the hook is attached. *)
Lemma wp_init_fb_eth k dev d (Q : Z -> kernel -> Prop) :
  device k dev d -> nd_rx_handler d = None -> n_rtnl (k_net k) = false -> n_todo (k_net k) = [] ->
  Q 0 (upd_net (net_devs <[dev := hooked d]>) k) -> wp (init_fb_eth dev) Q k.
Proof.
  intros Hd Hrx Hl Ht HQ. unfold init_fb_eth, netdev_rx_handler_register. wp_step.
  apply wp_rtnl_lock; [done|]. wp_step. wp_step. eapply wp_get_dev; [exact Hd|]. rewrite Hrx. wp_step.
  eapply wp_mod_dev; [exact Hd|]. wp_step. cbn [negb Z.eqb]. wp_step.
  eapply wp_mod_dev; [by apply (device_insert _ _ d)|]. wp_step. apply wp_rtnl_unlock; [done|]. wp_steps.
  match goal with |- Q 0 ?k1 => replace k1 with (upd_net (net_devs <[dev := hooked d]>) k); [done|] end.
  kernel_eq. destruct (k_net k); simpl in *. subst. unfold net_devs, net_rtnl. simpl.
  by rewrite insert_insert_eq.
Qed.

(** The block is built and the device hooked. *)
Definition eth_built (k : kernel) (dev : addr) (d : net_device) (k' : kernel) : Prop :=
  exists k1, own_built M_eth (eth_fresh dev) (nd_name d) k k1 /\
    k' = upd_modrefs <[M_eth := module_ref (upd_net (net_devs <[dev := hooked d]>) k1) M_eth + 1]>
           (upd_net (net_devs <[dev := hooked d]>) k1).

Lemma wp_eth_build k dev d (Q : addr -> kernel -> Prop) :
  core_ok k -> buildable k dev d ->
  (forall k', eth_built k dev d k' -> Q (k_next k) k') -> wp (fb_eth_build_fblock dev) Q k.
Proof.
  intros Hk [Hd Hrx [Hl Ht] Hown] HQ.
  unfold fb_eth_build_fblock. wp_step. eapply wp_get_dev; [exact Hd|].
  apply (wp_own_build M_eth (eth_fresh dev)); [done..|]. intros k1 Hb. pose proof (ob_net _ _ _ _ _ Hb) as En.
  cbn [negb Z.eqb]. wp_step. eapply (wp_init_fb_eth _ dev d); rewrite ?En; try done.
  { split; [apply Hd|]. rewrite En. apply Hd. }
  cbn [negb Z.eqb]. wp_step. unfold wp at 1, module_get, ret. apply HQ. by exists k1.
Qed.
End build.

(** ** Hooking a device *)

Section hook.
Context `{Nm : NameMap, Ka : KernelApi}.

Record hookable (k : kernel) (vhdr : vlinknlmsg) (dev : addr) (d : net_device) : Prop := {
  hk_cmd : vm_cmd vhdr = VLINKNLCMD_START_HOOK_DEVICE;
  hk_found : dev_by_name (c_str (vm_real_name vhdr)) (n_devs (k_net k)) = dev;
  hk_plain : plain d;
  hk_build : buildable k dev d;
  hk_lock : n_eth_lock (k_net k) = false;
}.

(** What hooking leads to: the node is at the next address, the block behind
    it. *)
Record hook_done (k : kernel) (dev : addr) (d : net_device) (k' : kernel) : Prop := {
  hd_core : core_ok k';
  hd_block : k_fblocks k' = <[64 + k_next k := own_block M_eth (nd_name d) (upd_next (Z.add 64) k)]> (k_fblocks k);
  hd_privs : k_privs k' = <[128 + k_next k := eth_fresh dev (k_cpus k)]> (k_privs k);
  hd_subs : k_subs k' = <[192 + k_next k := chain_init]> (k_subs k);
  hd_fbl i : fbl_lookup k' i = if decide (i = k_idp_counter k + 1) then 64 + k_next k else fbl_lookup k i;
  hd_ns n : ns_lookup k' n =
    if decide (n = fbname (nd_name d)) then Some (k_idp_counter k + 1) else ns_lookup k n;
  hd_net : k_net k' = net_eth_devs (cons (k_next k)) (net_nodes <[k_next k := EthNode (64 + k_next k) dev]>
             (net_devs <[dev := hooked d]> (k_net k)));
  hd_same : k_notifs k' = k_notifs k /\ k_rcu k' = k_rcu k /\ k_rcu_nesting k' = k_rcu_nesting k /\
            k_cpus k' = k_cpus k /\ k_cpu k' = k_cpu k /\ k_skbs k' = k_skbs k /\
            k_factories k' = k_factories k /\ k_emdiscs k' = k_emdiscs k;
  hd_oom : k_oom k' = [];
}.

Lemma wp_start_hook k vhdr dev d (Q : Z -> kernel -> Prop) :
  core_ok k -> hookable k vhdr dev d ->
  (forall k', hook_done k dev d k' -> Q NETLINK_VLINK_RX_STOP k') -> wp (fb_eth_start_hook_dev vhdr) Q k.
Proof.
  intros Hk [Hc Hfound Hpl [Hd Hrx [Hl Ht] [[Hn HN] Hlt Hoom Hsl]] Hlock] HQ. pose proof Hd as [H0 Hdev].
  pose proof (heap_next k (core_heap k Hk)) as Hpos. destruct (plain_bits d Hpl) as (P1 & P2 & P3).
  unfold fb_eth_start_hook_dev. rewrite Hc. simpl. wp_step.
  eapply wp_dev_get_by_name; [exact Hfound|exact Hd|]. destruct (Z.eqb_spec dev 0); [done|]. wp_step.
  set (d1 := with_refs (nd_refs d + 1) d).
  eapply wp_get_dev; [by apply (device_insert _ _ d)|]. fold d1.
  change (has_flag (nd_priv_flags d1) IFF_VLINK_DEV) with (has_flag (nd_priv_flags d) IFF_VLINK_DEV).
  change (fb_eth_dev_is_bridged d1) with (fb_eth_dev_is_bridged d).
  change (fb_ethvlink_real_dev_is_hooked d1) with (fb_ethvlink_real_dev_is_hooked d).
  rewrite P1, P2, P3. wp_step. apply wp_kmalloc; [intros _|simpl; by rewrite Hoom]. simpl k_next.
  destruct (Z.eqb_spec (k_next k) 0); [lia|]. wp_step. set (k2 := nodes_of _ _).
  assert (Hoo : k_oom k2 = []) by (simpl; by rewrite Hoom).
  assert (Hk2 : core_ok k2) by (apply (core_ok_next k); try done; simpl; lia).
  apply (wp_eth_build k2 dev d1); [done|split; [by split; [|apply lookup_insert_eq]|done|done|by split]|].
  intros k3' (k3 & [B1 B2 B3 B4 B5 B6 B7 B8 B9] & ->). destruct (Z.eqb_spec (k_next k2) 0); [simpl in *; lia|]. wp_step. wp_step.
  wp_step. apply wp_locked_devs; [simpl; rewrite B7; exact Hlock|]. wp_step. unfold dev_put.
  eapply (wp_mod_dev _ dev (hooked d1)); [split; [done|simpl; rewrite B7; apply lookup_insert_eq]|]. wp_step.
  apply HQ. split; simpl; try done.
  - by apply (core_ok_ext k3).
  - rewrite B3. change (k_next k2) with (64 + k_next k). f_equal. lia.
  - rewrite B4. change (k_next k2) with (64 + k_next k). f_equal. lia.
  - rewrite B7. simpl. unfold net_eth_devs, net_nodes, net_devs. simpl. rewrite !insert_insert_eq.
    f_equal. f_equal. unfold hooked, d1, with_refs, fb_eth_make_dev_bridged, with_priv_flags. simpl. f_equal. lia.
Qed.
End hook.

(** ** Unhooking *)

Section unhook.
Context `{Nm : NameMap, Ka : KernelApi}.

(** [node] is the first of the list for the device. *)
Definition first_node (n : net_state) (dev node fb : addr) : Prop :=
  exists pre post, fb_eth_devs n = pre ++ node :: post /\ node <> 0 /\
    n_nodes n !! node = Some (EthNode fb dev) /\
    Forall (fun a => a <> 0 /\ exists x, n_nodes n !! a = Some x /\ en_dev x <> dev) pre.

Lemma find_node_run k dev node fb :
  first_node (k_net k) dev node fb -> find_node (fb_eth_devs (k_net k)) dev k = Ret node k.
Proof.
  intros (pre & post & -> & H0 & Hn & HF). induction HF as [|a pre (Ha0 & x & Hx & Hne) _ IH]; simpl.
  - erewrite bind_run by (by apply (deref_run (fun k => n_nodes (k_net k)))). simpl. by rewrite Z.eqb_refl.
  - erewrite bind_run by (by apply (deref_run (fun k => n_nodes (k_net k)))).
    destruct (Z.eqb_spec dev (en_dev x)); [congruence|]. exact IH.
Qed.

Record unhookable (k : kernel) (vhdr : vlinknlmsg) (dev : addr) (d : net_device) (node fb : addr) (b : fblock)
    (l : list fb_eth_priv) (c : chain) : Prop := {
  uh_cmd : vm_cmd vhdr = VLINKNLCMD_STOP_HOOK_DEVICE;
  uh_found : dev_by_name (c_str (vm_real_name vhdr)) (n_devs (k_net k)) = dev;
  uh_dev : device k dev d;
  uh_flags : fb_eth_dev_is_bridged d = true /\ has_flag (nd_flags d) IFF_RUNNING = false;
  uh_locks : n_rtnl (k_net k) = false /\ n_todo (k_net k) = [] /\ n_eth_lock (k_net k) = false;
  uh_node : first_node (k_net k) dev node fb;
  uh_block : own_live k fb b (PrivEth l) c /\ fb_refcnt b <= 2;
  uh_priv : ep_dev <$> l !! k_cpu k = Some dev;
  uh_rcu : k_rcu k = [] /\ k_rcu_nesting k = 0%nat;
}.

Lemma wp_this_eth_priv k a l p (Q : fb_eth_priv -> kernel -> Prop) :
  a <> 0 -> k_privs k !! a = Some (PrivEth l) -> l !! k_cpu k = Some p -> Q p k ->
  wp (this_eth_priv a) Q k.
Proof.
  intros Ha Hl Hp HQ. unfold this_eth_priv. wp_step. eapply wp_of_run; [by apply eth_priv_run|].
  wp_steps. by rewrite Hp.
Qed.

Lemma wp_cleanup_fb_eth k dev d (Q : unit -> kernel -> Prop) :
  device k dev d -> fb_eth_dev_is_bridged d = true -> n_rtnl (k_net k) = false -> n_todo (k_net k) = [] ->
  Q tt (upd_net (net_devs <[dev := unhooked d]>) k) -> wp (cleanup_fb_eth dev) Q k.
Proof.
  intros Hd Hb Hl Ht HQ. unfold cleanup_fb_eth, netdev_rx_handler_unregister. wp_step.
  apply wp_rtnl_lock; [done|]. wp_step. eapply wp_get_dev; [exact Hd|]. rewrite Hb. wp_step. wp_step.
  eapply wp_mod_dev; [exact Hd|]. eapply wp_mod_dev; [by apply (device_insert _ _ d)|].
  apply wp_rtnl_unlock; [done|].
  match goal with |- Q tt ?k1 => replace k1 with (upd_net (net_devs <[dev := unhooked d]>) k); [done|] end.
  kernel_eq. destruct (k_net k); simpl in *. subst. unfold net_devs, net_rtnl. simpl.
  by rewrite insert_insert_eq.
Qed.

Lemma wp_eth_destroy k fb b dev d l c (Q : unit -> kernel -> Prop) :
  core_ok k -> own_live k fb b (PrivEth l) c -> ep_dev <$> l !! k_cpu k = Some dev ->
  device k dev d -> fb_eth_dev_is_bridged d = true -> n_rtnl (k_net k) = false -> n_todo (k_net k) = [] ->
  (forall k', own_gone (upd_net (net_devs <[dev := unhooked d]>) k) fb b k' -> Q tt k') ->
  wp (fb_eth_destroy_fblock fb) Q k.
Proof.
  intros Hk Hl Hcpu Hd Hbr Hrt Htd HQ. pose proof Hl as [(H0 & Hreg & _) [Hp0 Hp] _].
  unfold fb_eth_destroy_fblock, rcu_read_lock, rcu_read_unlock. wp_step. wp_step. wp_step.
  eapply wp_get_fb; [done|apply Hreg|]. wp_step. apply fmap_Some in Hcpu as (p & Hpl & ->).
  eapply (wp_this_eth_priv _ _ l p); [done|exact Hp|exact Hpl|]. wp_step.
  eapply wp_cleanup_fb_eth; [exact Hd|done|done|done|]. wp_step. wp_step.
  set (kn := upd_net (net_devs <[ep_dev p := unhooked d]>) k) in *.
  match goal with |- wp _ _ ?k1 => replace k1 with kn by (by destruct k) end.
  apply (wp_own_destroy M_eth kn fb b (PrivEth l) c); [by apply core_ok_net|by apply own_live_net|done].
Qed.

Record unhook_done (k : kernel) (dev : addr) (d : net_device) (node fb : addr) (b : fblock) (k' : kernel) :
    Prop := {
  ud_blocks : k_fblocks k' = delete fb (k_fblocks k);
  ud_privs : k_privs k' = delete (fb_private_data b) (k_privs k);
  ud_subs : k_subs k' = delete (fb_others b) (k_subs k);
  ud_notifs : k_notifs k' = k_notifs k;
  ud_rcu : k_rcu k' = [];
  ud_fbl i : fbl_lookup k' i = if decide (i = fb_idp b) then 0 else fbl_lookup k i;
  ud_ns n : ns_lookup k' n = if decide (n = fb_name b) then None else ns_lookup k n;
  ud_net : k_net k' = net_nodes (delete node) (net_eth_devs (filter (.≠ node))
             (net_devs <[dev := unhooked d]> (k_net k)));
}.

Lemma wp_stop_hook k vhdr dev d node fb b l c (Q : Z -> kernel -> Prop) :
  core_ok k -> unhookable k vhdr dev d node fb b l c ->
  (forall k', unhook_done k dev d node fb b k' -> Q NETLINK_VLINK_RX_STOP k') ->
  wp (fb_eth_stop_hook_dev vhdr) Q k.
Proof.
  intros Hk [Hc Hfound Hd [Hbr Hrun] (Hrt & Htd & Hlk) Hnode [Hlive Href] Hcpu [Hrcu Hnest]] HQ.
  pose proof Hd as [H0 Hdev]. pose proof Hlive as [(Hf0 & Hreg & _) _ _]. pose proof (reg_live _ _ _ Hreg) as Hb.
  pose proof Hnode as (pre & post & Hlist & Hn0 & Hnd & Hpre).
  unfold fb_eth_stop_hook_dev. rewrite Hc. simpl. wp_step.
  eapply wp_dev_get_by_name; [exact Hfound|exact Hd|]. destruct (Z.eqb_spec dev 0); [done|]. wp_step.
  set (d1 := with_refs (nd_refs d + 1) d). eapply wp_get_dev; [by apply (device_insert _ _ d)|]. fold d1.
  change (fb_eth_dev_is_bridged d1) with (fb_eth_dev_is_bridged d).
  change (nd_flags d1) with (nd_flags d). rewrite Hbr, Hrun. cbn [negb]. wp_step.
  apply wp_locked_devs; [exact Hlk|]. wp_step. wp_step. wp_step.
  eapply wp_of_run; [by eapply (find_node_run _ dev node fb)|]. destruct (Z.eqb_spec node 0); [done|]. wp_step.
  eapply wp_deref; [done|exact Hnd|]. cbn [en_fb]. destruct (Z.eqb_spec fb 0); [done|]. wp_step.
  eapply wp_get_fb; [done|exact Hb|]. destruct (Z.ltb_spec 2 (fb_refcnt b)); [lia|]. wp_step.
  apply wp_locked_devs; [exact Hlk|]. wp_step. set (k1 := upd_net _ _).
  eapply (wp_eth_destroy k1 fb b dev d1 l c); try done.
  { by apply (core_ok_ext k). }
  { destruct Hlive as [(? & [? ? ?] & ?) ? ?]. by split. }
  { by split; [|apply lookup_insert_eq]. }
  intros k2 Hgone. wp_step. eapply (wp_own_grace _ k2 fb b); [exact Hgone|done..|]. intros elem _ k3 Hns.
  destruct Hgone as [F1 F2 F3 (F4 & F5 & F6 & _) F7 _]. wp_step.
  eapply wp_kfree; [done|unfold k3; simpl; rewrite F6; exact Hnd|]. wp_step. unfold dev_put.
  eapply (wp_mod_dev _ dev (unhooked d1)); [split; [done|simpl; rewrite F6; apply lookup_insert_eq]|]. wp_step.
  apply HQ. split; simpl; try done.
  rewrite F6. unfold net_devs, net_nodes, net_eth_devs. simpl. rewrite !insert_insert_eq. f_equal.
  f_equal. unfold unhooked, d1, with_refs, fb_eth_make_dev_unbridged, with_priv_flags. simpl. f_equal. lia.
Qed.
End unhook.

Section claims.
Context `{Nm : NameMap, Ka : KernelApi}.

(** C26: the command to hook a device that no driver uses makes it a registered
    block: the block has the device's name (cut to 15 characters), one
    reference, no factory, this module's handlers and unbound ports; the
    device is marked as bridged with this module's receive handler and holds
    as many references as before; the block is in the list of the module, and
    all other names are as they were. *)
Theorem eth_hook_correct k vhdr dev d :
  core_ok k -> hookable k vhdr dev d -> (0 < k_cpus k)%nat ->
  exists fb b k', fb_eth_start_hook_dev vhdr k = Ret NETLINK_VLINK_RX_STOP k' /\ core_ok k' /\
    registered k' fb b /\ fb_name b = fbname (nd_name d) /\ fb_refcnt b = 1 /\ fb_factory b = 0 /\
    fb_netfb_rx b = Some M_eth /\ fb_event_rx b = Some M_eth /\
    (forall dir, priv_port (k_privs k') M_eth (fb_private_data b) dir = Some IDP_UNKNOWN) /\
    n_devs (k_net k') = <[dev := hooked d]> (n_devs (k_net k)) /\
    (exists node, fb_eth_devs (k_net k') = node :: fb_eth_devs (k_net k) /\
       n_nodes (k_net k') !! node = Some (EthNode fb dev)) /\
    (forall n, n <> fbname (nd_name d) -> ns_lookup k' n = ns_lookup k n).
Proof.
  intros Hk Hh Hcpu. pose proof (heap_next k (core_heap k Hk)) as Hpos.
  exists (64 + k_next k), (own_block M_eth (nd_name d) (upd_next (Z.add 64) k)). apply wp_run_val.
  eapply wp_start_hook; [done|exact Hh|]. intros k' [D1 D2 D3 D4 D5 D6 D7 D8 D9].
  split; [done|]. split; [exact D1|].
  split; [split; [by rewrite D2, lookup_insert_eq|simpl; by rewrite D5, decide_True|]|].
  { simpl. by rewrite D6, decide_True. }
  do 5 (split; [done|]). split; [|split; [by rewrite D7|split]].
  - intros dir. rewrite D3. apply priv_port_Some. exists (eth_fresh dev (k_cpus k)). simpl.
    rewrite Z.add_assoc, lookup_insert_eq. split; [done|]. split; [lia|]. split; [done|]. apply uport_Some.
    rewrite fmap_replicate. split; [by destruct (k_cpus k); [lia|]|]. apply Forall_replicate. by destruct dir.
  - exists (k_next k). rewrite D7. simpl. split; [done|]. apply lookup_insert_eq.
  - intros n Hn. by rewrite D6, decide_False.
Qed.

(** hooking a device and unhooking it while it is down and no grace period
    is pending brings everything back: all blocks, private data, subscriber
    chains, names and IDPs, the device with its references, flags and handler,
    and the module's list. *)
Theorem eth_hook_roundtrip k start stop dev d :
  core_ok k -> hookable k start dev d -> unique_names (n_devs (k_net k)) -> nd_reg d = NETREG_REGISTERED ->
  map_Forall (fun a _ => 0 < a < k_next k) (n_nodes (k_net k)) ->
  Forall (fun a => a < k_next k) (fb_eth_devs (k_net k)) ->
  vm_cmd stop = VLINKNLCMD_STOP_HOOK_DEVICE -> c_str (vm_real_name stop) = nd_name d ->
  has_flag (nd_flags d) IFF_RUNNING = false -> (k_cpu k < k_cpus k)%nat ->
  k_rcu k = [] -> k_rcu_nesting k = 0%nat ->
  exists k', (fb_eth_start_hook_dev start;; fb_eth_stop_hook_dev stop) k = Ret NETLINK_VLINK_RX_STOP k' /\
    k_fblocks k' = k_fblocks k /\ k_privs k' = k_privs k /\ k_subs k' = k_subs k /\
    k_notifs k' = k_notifs k /\ k_net k' = k_net k /\
    (forall n, ns_lookup k' n = ns_lookup k n) /\ (forall i, fbl_lookup k' i = fbl_lookup k i).
Proof.
  intros Hk Hh Hu Hreg Hnodes Hlist Hcmd Hname Hrun Hcpu Hrcu Hnest. pose proof (core_heap k Hk) as [Hpos Hf _ _ Hs Hp].
  pose proof Hh as [_ _ Hpl [[H0 Hdev] _ [Hrt Htd] [[_ HN] _ _ _]] Hlk].
  apply wp_run_val. wp_step. eapply wp_start_hook; [done|exact Hh|]. intros k1 [D1 D2 D3 D4 D5 D6 D7 D8 D9].
  destruct D8 as (S1 & S2 & S3 & S4 & S5 & _).
  eapply (wp_stop_hook k1 stop dev (hooked d) (k_next k) (64 + k_next k) (own_block M_eth (nd_name d) (upd_next (Z.add 64) k))
    (replicate (k_cpus k) (EthPriv (Ports IDP_UNKNOWN IDP_UNKNOWN) dev)) chain_init); [done| |].
  - split; rewrite ?D7; simpl; try done.
    + rewrite Hname. change (nd_name d) with (nd_name (hooked d)). apply dev_by_name_unique; [|apply lookup_insert_eq|done].
      by eapply unique_names_update.
    + split; [done|]. rewrite D7. apply lookup_insert_eq.
    + split; [apply hooked_bridged|done].
    + exists [], (fb_eth_devs (k_net k)). split; [done|]. split; [lia|]. split; [apply lookup_insert_eq|constructor].
    + split; [|lia]. split; simpl.
      * split; [lia|]. split; [|done]. split; simpl.
        -- by rewrite D2, lookup_insert_eq.
        -- by rewrite D5, decide_True.
        -- by rewrite D6, decide_True.
      * split; [lia|]. by rewrite D3, Z.add_assoc, lookup_insert_eq.
      * split; [lia|]. rewrite D4, Z.add_assoc, lookup_insert_eq. split; [done|].
        rewrite chain_members_init. constructor.
    + rewrite S5. by rewrite lookup_replicate_2.
    + by rewrite S2, S3.
  - intros k' [U1 U2 U3 U4 U5 U6 U7 U8]. split; [done|].
    rewrite U1, U2, U3, U4, U8, D2, D3, D4, D7, S1. simpl. rewrite !Z.add_assoc.
    rewrite !delete_insert_id by (by apply above_next).
    split; [done|]. split; [done|]. split; [done|]. split; [done|]. split; [|split].
    + unfold net_nodes, net_eth_devs, net_devs. simpl. destruct (k_net k) as [devs nodes list rt vd lk]. simpl in *.
      f_equal.
      * rewrite insert_insert_eq, unhooked_hooked by done. by apply insert_id.
      * apply delete_insert_id. by apply below_next_fresh.
      * rewrite filter_cons_False by (intros Hne; by apply Hne). apply filter_all. intros a Ha E. subst a.
        rewrite Forall_forall in Hlist. specialize (Hlist _ Ha). lia.
    + intros n. rewrite U7, D6. simpl. case_decide as E; [by rewrite E|done].
    + intros i. rewrite U6, D5. simpl. case_decide as E; [|done]. symmetry. apply core_fresh_idp; [done|]. lia.
Qed.

(** a device that is hooked already is refused, with the result for a
    failure: the flag of a hooked device contains the flag of a virtual one,
    so the test for a virtual device comes first.  Nothing changes. *)
Theorem eth_rehook_refused k vhdr dev d :
  vm_cmd vhdr = VLINKNLCMD_START_HOOK_DEVICE ->
  dev_by_name (c_str (vm_real_name vhdr)) (n_devs (k_net k)) = dev ->
  device k dev d -> fb_eth_dev_is_bridged d = true ->
  fb_eth_start_hook_dev vhdr k = Ret NETLINK_VLINK_RX_EMERG k.
Proof.
  intros Hc Hfound Hd Hb. pose proof Hd as [H0 Hdev].
  assert (Hv : has_flag (nd_priv_flags d) IFF_VLINK_DEV = true).
  { unfold fb_eth_dev_is_bridged, has_flag in *. apply Z.eqb_eq in Hb. apply Z.eqb_eq.
    change IFF_VLINK_DEV with (Z.land IFF_IS_BRIDGED IFF_VLINK_DEV) at 1. by rewrite Z.land_assoc, Hb. }
  assert (Hw : wp (fb_eth_start_hook_dev vhdr) (fun r k' => r = NETLINK_VLINK_RX_EMERG /\ k' = k) k).
  { unfold fb_eth_start_hook_dev. rewrite Hc. simpl. wp_step.
    eapply wp_dev_get_by_name; [exact Hfound|exact Hd|]. destruct (Z.eqb_spec dev 0); [done|]. wp_step.
    eapply wp_get_dev; [by apply (device_insert _ _ d)|]. simpl. rewrite Hv. wp_step. unfold dev_put.
    eapply wp_mod_dev; [by apply (device_insert _ _ d)|]. wp_step. split; [done|]. kernel_eq.
    destruct (k_net k) as [devs ? ? ? ?]. unfold net_devs. simpl in *. f_equal. rewrite insert_insert_eq.
    apply insert_id. rewrite Hdev. f_equal. destruct d. unfold with_refs. simpl. f_equal. lia. }
  apply wp_run_val in Hw as (k' & -> & ->). done.
Qed.

(** a hook for which there is no memory is reported as done: the result is
    the one for success, and nothing is hooked. *)
Theorem eth_hook_oom_reported k vhdr dev d rest :
  vm_cmd vhdr = VLINKNLCMD_START_HOOK_DEVICE ->
  dev_by_name (c_str (vm_real_name vhdr)) (n_devs (k_net k)) = dev ->
  device k dev d -> plain d -> k_oom k = true :: rest ->
  fb_eth_start_hook_dev vhdr k = Ret NETLINK_VLINK_RX_STOP (upd_oom (fun _ => rest) k).
Proof.
  intros Hc Hfound Hd Hpl Hoom. pose proof Hd as [H0 Hdev]. destruct (plain_bits d Hpl) as (P1 & P2 & P3).
  assert (Hw : wp (fb_eth_start_hook_dev vhdr)
            (fun r k' => r = NETLINK_VLINK_RX_STOP /\ k' = upd_oom (fun _ => rest) k) k).
  { unfold fb_eth_start_hook_dev. rewrite Hc. simpl. wp_step.
    eapply wp_dev_get_by_name; [exact Hfound|exact Hd|]. destruct (Z.eqb_spec dev 0); [done|]. wp_step.
    eapply wp_get_dev; [by apply (device_insert _ _ d)|].
    set (d1 := with_refs (nd_refs d + 1) d).
    change (has_flag (nd_priv_flags d1) IFF_VLINK_DEV) with (has_flag (nd_priv_flags d) IFF_VLINK_DEV).
    change (fb_eth_dev_is_bridged d1) with (fb_eth_dev_is_bridged d).
    change (fb_ethvlink_real_dev_is_hooked d1) with (fb_ethvlink_real_dev_is_hooked d).
    rewrite P1, P2, P3. wp_step. apply wp_kmalloc; [simpl; rewrite Hoom; by intros [|]|intros _].
    simpl. wp_step. unfold dev_put. eapply (wp_mod_dev _ dev d1); [split; [done|apply lookup_insert_eq]|].
    wp_step. split; [done|]. kernel_eq; [by rewrite Hoom|].
    destruct (k_net k) as [devs ? ? ? ?]. unfold net_devs. simpl in *. f_equal. rewrite insert_insert_eq.
    apply insert_id. rewrite Hdev. f_equal. destruct d. unfold d1, with_refs. simpl. f_equal. lia. }
  apply wp_run_val in Hw as (k' & -> & ->). done.
Qed.

(** ** Frames *)

(** The block of a device. *)
Definition dev_fb (n : net_state) (dev : addr) : addr :=
  fold_left (fun fb a => match n_nodes n !! a with
                         | Some x => if dev =? en_dev x then en_fb x else fb
                         | None => fb
                         end) (fb_eth_devs n) 0.

Definition nodes_live (n : net_state) : Prop :=
  Forall (fun a => a <> 0 /\ is_Some (n_nodes n !! a)) (fb_eth_devs n).

Lemma find_fb_run k dev :
  nodes_live (k_net k) -> find_fb (fb_eth_devs (k_net k)) dev 0 k = Ret (dev_fb (k_net k) dev) k.
Proof.
  intros HF. unfold dev_fb.
  assert (H : forall l fb, Forall (fun a => a <> 0 /\ is_Some (n_nodes (k_net k) !! a)) l ->
    find_fb l dev fb k = Ret (fold_left (fun fb a => match n_nodes (k_net k) !! a with
      | Some x => if dev =? en_dev x then en_fb x else fb | None => fb end) l fb) k); [|by apply H].
  clear HF. induction l as [|a l IH]; intros fb HF; simpl; [done|]. inversion HF as [|? ? [Ha [x Hx]] HF']; subst.
  erewrite bind_run by (by apply (deref_run (fun k => n_nodes (k_net k)))). rewrite Hx. by apply IH.
Qed.

Lemma share_check_own k skb s : packet k skb s -> skb_share_check skb k = Ret skb k.
Proof.
  intros (H0 & Hs & Hu). unfold skb_share_check. erewrite bind_run by (by apply get_skb_run). by rewrite Hu.
Qed.

Lemma this_eth_priv_run k a l p :
  a <> 0 -> k_privs k !! a = Some (PrivEth l) -> l !! k_cpu k = Some p -> this_eth_priv a k = Ret p k.
Proof.
  intros Ha Hl Hp. unfold this_eth_priv. erewrite bind_run by (by apply eth_priv_run).
  unfold bind, get. by rewrite Hp.
Qed.

(** What becomes of a frame. *)
Definition frame_result (pkts hops : nat) (k : kernel) (skb : addr) (s : sk_buff) (b : fblock) (p : fb_eth_priv) :
    outcome Z :=
  let to := port (ep_port p) TYPE_INGRESS in
  match process_packet pkts hops skb TYPE_INGRESS
          (upd_skbs <[skb := write_next_idp_to_skb s (fb_idp b) to]> k) with
  | Ret _ k' => Ret RX_HANDLER_CONSUMED k'
  | Crash f => Crash f
  end.

Lemma eth_frame_run k pkts hops skb s :
  packet k skb s -> nodes_live (k_net k) ->
  let fb := dev_fb (k_net k) (ei_dev (skb_eth s)) in
  let freed := Ret RX_HANDLER_CONSUMED (upd_skbs (delete skb) k) in
  forall b l p,
  (fb <> 0 -> k_fblocks k !! fb = Some b /\ fb_private_data b <> 0 /\
              k_privs k !! fb_private_data b = Some (PrivEth l) /\ l !! k_cpu k = Some p) ->
  fb_eth_handle_frame [] pkts hops skb k =
    if ei_pkt_type (skb_eth s) =? PACKET_LOOPBACK then Ret RX_HANDLER_PASS k
    else if negb (is_valid_ether_addr (ei_source (skb_eth s))) then freed
    else if fb =? 0 then freed
    else if port (ep_port p) TYPE_INGRESS =? IDP_UNKNOWN then freed
    else frame_result pkts hops k skb s b p.
Proof.
  intros Hpk Hlive fb freed b l p Hfb. pose proof Hpk as (H0 & Hs & Hu). unfold fb_eth_handle_frame.
  erewrite bind_run by (by apply get_skb_run). destruct (_ =? PACKET_LOOPBACK); [done|].
  assert (Hfree : (kfree_skb skb;; ret RX_HANDLER_CONSUMED) k = freed)
    by (by erewrite bind_run by (by eapply kfree_skb_run)).
  destruct (negb (is_valid_ether_addr _)); [done|].
  rewrite (bind_run _ _ _ _ _ (share_check_own k skb s Hpk)). destruct (Z.eqb_spec skb 0); [done|].
  erewrite bind_run by (by apply get_skb_run). erewrite bind_run by reflexivity.
  rewrite (bind_run _ _ _ _ _ (find_fb_run k _ Hlive)). fold fb.
  destruct (Z.eqb_spec fb 0) as [|Hne]; [done|]. destruct (Hfb Hne) as (Hb & Hp0 & Hl & Hp).
  unfold get_fb. rewrite (bind_run _ _ _ _ _ (deref_run k_fblocks fb b k Hne Hb)).
  rewrite (bind_run _ _ _ _ _ (this_eth_priv_run k _ l p Hp0 Hl Hp)). destruct (_ =? IDP_UNKNOWN); [done|].
  unfold mod_skb. rewrite bind_assoc. erewrite bind_run by (by apply get_skb_run).
  erewrite bind_run by reflexivity. unfold frame_result, bind. simpl.
  by destruct (process_packet _ _ _ _ _).
Qed.

(** a frame received on a hooked device, not shared with others, is passed
    on to the rest of the kernel if it is a looped one, enters the engine
    addressed to the ingress port of the device's block if that port is bound,
    and is freed if its source address is not valid, no block is there or the
    port is not bound. *)
Theorem eth_frame_correct k pkts hops skb s :
  packet k skb s -> nodes_live (k_net k) ->
  let fb := dev_fb (k_net k) (ei_dev (skb_eth s)) in
  let freed := Ret RX_HANDLER_CONSUMED (upd_skbs (delete skb) k) in
  forall b l p,
  (fb <> 0 -> k_fblocks k !! fb = Some b /\ fb_private_data b <> 0 /\
              k_privs k !! fb_private_data b = Some (PrivEth l) /\ l !! k_cpu k = Some p) ->
  fb_eth_handle_frame [] pkts hops skb k =
    if ei_pkt_type (skb_eth s) =? PACKET_LOOPBACK then Ret RX_HANDLER_PASS k
    else if negb (is_valid_ether_addr (ei_source (skb_eth s))) then freed
    else if fb =? 0 then freed
    else if port (ep_port p) TYPE_INGRESS =? IDP_UNKNOWN then freed
    else frame_result pkts hops k skb s b p.
Proof. apply eth_frame_run. Qed.

(** the port is looked at before the loop that reads it: when it is unbound
    in between, an idle engine is given a packet for nobody, and the packet is
    neither freed nor queued. *)
Theorem eth_frame_race_leaks k pkts hops skb s b l p q cpu :
  packet k skb s -> nodes_live (k_net k) -> ei_pkt_type (skb_eth s) <> PACKET_LOOPBACK ->
  is_valid_ether_addr (ei_source (skb_eth s)) = true ->
  dev_fb (k_net k) (ei_dev (skb_eth s)) <> 0 ->
  k_fblocks k !! dev_fb (k_net k) (ei_dev (skb_eth s)) = Some b -> fb_private_data b <> 0 ->
  k_privs k !! fb_private_data b = Some (PrivEth l) -> l !! k_cpu k = Some p ->
  port (ep_port p) TYPE_INGRESS <> IDP_UNKNOWN -> port (ep_port q) TYPE_INGRESS = IDP_UNKNOWN ->
  (0 < k_rcu_nesting k)%nat -> k_emdiscs k !! k_cpu k = Some (Disc [] false cpu) ->
  exists k' s', fb_eth_handle_frame [q] (S pkts) (S hops) skb k = Ret RX_HANDLER_CONSUMED k' /\
    k_skbs k' = <[skb := s']> (k_skbs k) /\ skb_users s' = 1 /\ k_emdiscs k' = k_emdiscs k.
Proof.
  intros Hpk Hlive Hlb Hsrc Hne Hb Hp0 Hl Hp Hport Hq Hnest Hdisc. pose proof Hpk as (H0 & Hs & Hu).
  set (s' := write_next_idp_to_skb s (fb_idp b) IDP_UNKNOWN).
  assert (Hrun : fb_eth_handle_frame [q] (S pkts) (S hops) skb k =
    (process_packet (S pkts) (S hops) skb TYPE_INGRESS;; ret RX_HANDLER_CONSUMED) (upd_skbs <[skb := s']> k)).
  { unfold fb_eth_handle_frame. erewrite bind_run by (by apply get_skb_run).
    destruct (Z.eqb_spec (ei_pkt_type (skb_eth s)) PACKET_LOOPBACK); [done|]. rewrite Hsrc. cbn [negb].
    rewrite (bind_run _ _ _ _ _ (share_check_own k skb s Hpk)). destruct (Z.eqb_spec skb 0); [done|].
    erewrite bind_run by (by apply get_skb_run). erewrite bind_run by reflexivity.
    rewrite (bind_run _ _ _ _ _ (find_fb_run k _ Hlive)).
    destruct (Z.eqb_spec (dev_fb (k_net k) (ei_dev (skb_eth s))) 0); [done|].
    unfold get_fb. rewrite (bind_run _ _ _ _ _ (deref_run k_fblocks _ b k Hne Hb)).
    rewrite (bind_run _ _ _ _ _ (this_eth_priv_run k _ l p Hp0 Hl Hp)).
    destruct (Z.eqb_spec (port (ep_port p) TYPE_INGRESS) IDP_UNKNOWN); [done|].
    unfold mod_skb. rewrite bind_assoc. erewrite bind_run by (by apply get_skb_run).
    erewrite bind_run by reflexivity. cbn [fold_left]. by rewrite Hq. }
  destruct (process_packet_nowhere (upd_skbs <[skb := s']> k) pkts hops skb s' TYPE_INGRESS cpu)
    as (k' & Hk' & E1 & E2); [split; [done|split; [apply lookup_insert_eq|done]]|done|done|done|].
  exists k', s'. rewrite Hrun, (bind_run _ _ _ _ _ Hk'). split; [done|]. by rewrite E1, E2.
Qed.

(** ** Sending *)

(** The block of a real device as the engine finds it. *)
Record eth_port (k : kernel) (fb : addr) (b : fblock) (p : fb_eth_priv) (d : net_device) : Prop := {
  ep_block : fb <> 0 /\ k_fblocks k !! fb = Some b;
  ep_priv : fb_private_data b <> 0 /\ exists l, k_privs k !! fb_private_data b = Some (PrivEth l) /\
            l !! k_cpu k = Some p;
  ep_device : device k (ep_dev p) d /\ nd_virt d = None;
}.

(** The packet as it is given to the driver. *)
Definition outgoing (b : fblock) (p : fb_eth_priv) (s : sk_buff) : sk_buff :=
  set_dev (ep_dev p) (write_next_idp_to_skb s (fb_idp b) IDP_UNKNOWN).

(** What a device does with a packet: its driver takes it, and frees it now or
    later; a device that is down frees it. *)
Definition dev_takes (dev : addr) (d : net_device) (skb : addr) (s : sk_buff) (k : kernel) : kernel :=
  if has_flag (nd_flags d) IFF_UP
  then upd_skbs (if nd_late d then <[skb := s]> else delete skb) (upd_net (net_devs <[dev := with_sent skb s d]>) k)
  else upd_skbs (delete skb) k.

Lemma phys_xmit_run k skb s d :
  packet k skb s -> device k (ei_dev (skb_eth s)) d ->
  phys_xmit skb k = Ret (if has_flag (nd_flags d) IFF_UP then NET_XMIT_SUCCESS else NET_XMIT_CN)
                      (dev_takes (ei_dev (skb_eth s)) d skb s k).
Proof.
  intros (H0 & Hs & Hu) Hd. unfold phys_xmit, dev_takes. erewrite bind_run by (by apply get_skb_run).
  rewrite (bind_run _ _ _ _ _ (get_dev_run k _ d Hd)). destruct (has_flag _ _).
  - rewrite (bind_run _ _ _ _ _ (mod_dev_run k _ d _ Hd)). destruct (nd_late d); simpl.
    + unfold ret. f_equal. kernel_eq. by rewrite insert_id.
    + by erewrite bind_run by (eapply kfree_skb_run; [done|exact Hs|done]).
  - by erewrite bind_run by (by eapply kfree_skb_run).
Qed.

Lemma xmit_real_run k n skb s d :
  packet k skb s -> device k (ei_dev (skb_eth s)) d -> nd_virt d = None ->
  dev_queue_xmit_at n skb k = phys_xmit skb k.
Proof.
  intros (H0 & Hs & Hu) Hd Hv. destruct n; cbn [dev_queue_xmit_at]; erewrite bind_run by (by apply get_skb_run);
    rewrite (bind_run _ _ _ _ _ (get_dev_run k _ d Hd)); by rewrite Hv.
Qed.

Lemma dev_takes_put k dev d skb s s0 :
  dev_takes dev d skb s (upd_skbs <[skb := s0]> k) = dev_takes dev d skb s k.
Proof.
  unfold dev_takes. destruct (has_flag _ _), (nd_late d); kernel_eq;
    by rewrite ?insert_insert_eq, ?delete_insert_eq.
Qed.

Lemma eth_netrx_run k fb b p d skb s dir :
  eth_port k fb b p d -> packet k skb s ->
  fb_eth_netrx fb skb dir k = Ret (PPE_DROPPED, dir) (dev_takes (ep_dev p) d skb (outgoing b p s) k).
Proof.
  intros [(H0 & Hb) (Hp0 & l & Hl & Hp) [Hd Hv]] (Hs0 & Hs & Hu). unfold fb_eth_netrx, get_fb.
  rewrite (bind_run _ _ _ _ _ (deref_run k_fblocks fb b k H0 Hb)).
  rewrite (bind_run _ _ _ _ _ (this_eth_priv_run k _ l p Hp0 Hl Hp)).
  unfold mod_skb. rewrite bind_assoc. erewrite bind_run by (by apply get_skb_run).
  erewrite bind_run by reflexivity. rewrite bind_assoc.
  erewrite bind_run by (eapply get_skb_run; [done|apply lookup_insert_eq]). erewrite bind_run by reflexivity.
  match goal with |- (dev_queue_xmit skb;; _) ?k0 = _ => set (k1 := k0) end.
  assert (Hpk : packet k1 skb (outgoing b p s)).
  { split; [done|]. split; [apply lookup_insert_eq|done]. }
  assert (Hx : dev_queue_xmit skb k1 = phys_xmit skb k1) by (by eapply (xmit_real_run k1 _ skb _ d)).
  rewrite (phys_xmit_run k1 skb _ d Hpk Hd) in Hx. rewrite (bind_run _ _ _ _ _ Hx). unfold ret. f_equal.
  unfold k1. change (ei_dev (skb_eth (outgoing b p s))) with (ep_dev p). by rewrite !dev_takes_put.
Qed.

(** a packet that the engine brings to the block of a device is given to
    the driver of that device, with the data unchanged, and no longer belongs
    to the stack; if the device is down it is freed. *)
Theorem eth_netrx_correct k fb b p d skb s dir :
  eth_port k fb b p d -> packet k skb s ->
  fb_eth_netrx fb skb dir k = Ret (PPE_DROPPED, dir) (dev_takes (ep_dev p) d skb (outgoing b p s) k).
Proof. apply eth_netrx_run. Qed.

(** The handler of the device's block as the end of a way. *)
Lemma eth_sink k fb b p d skb s1 k1 dir (P : kernel -> Prop) :
  eth_port k fb b p d -> at_sink k fb b skb s1 k1 -> skb <> 0 -> skb_users s1 = 1 ->
  (forall k3, let out := outgoing b p s1 in
     k_net k3 = k_net (dev_takes (ep_dev p) d skb out k) -> k_skbs k3 = k_skbs (dev_takes (ep_dev p) d skb out k) ->
     k_fblocks k3 = k_fblocks k -> k_emdiscs k3 = k_emdiscs k -> k_cpu k3 = k_cpu k ->
     k_rcu_nesting k3 = k_rcu_nesting k -> P k3) ->
  wp (fb_eth_netrx fb skb dir) (took dir k k1 P) k1.
Proof.
  intros [(H0 & Hb) (Hp0 & l & Hl & Hp) [[Hd0 Hd] Hv]] [A1 A2 A3 (A4 & A5 & A6 & A7 & A8)] Hs0 Hu HP.
  eapply wp_of_run; [eapply (eth_netrx_run k1 fb (bump 1 b) p d skb s1)|].
  - split; [split; [done|by rewrite A1, lookup_insert_eq]|split; [done|]|].
    + exists l. rewrite A5. split; [by apply A3|done].
    + split; [split; [done|by rewrite A4]|done].
  - split; [done|]. by rewrite A2, lookup_insert_eq.
  - change (outgoing (bump 1 b) p s1) with (outgoing b p s1).
    assert (E : forall k, k_fblocks (dev_takes (ep_dev p) d skb (outgoing b p s1) k) = k_fblocks k /\
      k_emdiscs (dev_takes (ep_dev p) d skb (outgoing b p s1) k) = k_emdiscs k /\
      k_cpu (dev_takes (ep_dev p) d skb (outgoing b p s1) k) = k_cpu k /\
      k_rcu_nesting (dev_takes (ep_dev p) d skb (outgoing b p s1) k) = k_rcu_nesting k).
    { intros k0. unfold dev_takes. by destruct (has_flag _ _). }
    destruct (E k1) as (E1 & E2 & E3 & E4). repeat (split; [done|]). intros k3 G1 G2 G3 G4 G5 G6.
    apply HP; try done.
    + rewrite G1. unfold dev_takes. destruct (has_flag _ _); simpl; by rewrite A4.
    + rewrite G2. unfold dev_takes. destruct (has_flag _ _), (nd_late d); simpl; rewrite A2;
        by rewrite ?insert_insert_eq, ?delete_insert_eq.
Qed.

(** C27: two devices with any number of forwarding blocks between them: a frame
    that comes in on a device, and whose way from the ingress port of the
    device's block leads to the block of another device that is up, leaves the
    stack through that other device with its data unchanged; the engine is
    idle again and all references are as before. *)
Theorem eth_bridge k pkts hops skb s b1 l1 p1 l fb2 b2 p2 d2 cpu :
  packet k skb s -> nodes_live (k_net k) -> ei_pkt_type (skb_eth s) <> PACKET_LOOPBACK ->
  is_valid_ether_addr (ei_source (skb_eth s)) = true ->
  let fb1 := dev_fb (k_net k) (ei_dev (skb_eth s)) in
  fb1 <> 0 -> k_fblocks k !! fb1 = Some b1 -> fb_private_data b1 <> 0 ->
  k_privs k !! fb_private_data b1 = Some (PrivEth l1) -> l1 !! k_cpu k = Some p1 ->
  port (ep_port p1) TYPE_INGRESS <> IDP_UNKNOWN ->
  reaches k TYPE_INGRESS (port (ep_port p1) TYPE_INGRESS) l (fb_idp b2) ->
  sink k (fb_idp b2) fb2 b2 M_eth -> eth_port k fb2 b2 p2 d2 -> has_flag (nd_flags d2) IFF_UP = true ->
  (0 < k_rcu_nesting k)%nat -> k_emdiscs k !! k_cpu k = Some (Disc [] false cpu) ->
  exists k' out, fb_eth_handle_frame [] (S pkts) (length l + S hops) skb k = Ret RX_HANDLER_CONSUMED k' /\
    n_devs (k_net k') = <[ep_dev p2 := with_sent skb out d2]> (n_devs (k_net k)) /\
    skb_data out = skb_data s /\
    k_skbs k' = (if nd_late d2 then <[skb := out]> else delete skb) (k_skbs k) /\
    k_fblocks k' = k_fblocks k /\ k_emdiscs k' = k_emdiscs k.
Proof.
  intros Hpk Hlive Hlb Hsrc fb1 Hne Hb1 Hp0 Hl1 Hp1 Hport Hreach Hsink Hep Hup Hnest Hdisc.
  pose proof Hpk as (H0 & Hs & Hu). set (to := port (ep_port p1) TYPE_INGRESS) in *.
  set (s1 := write_next_idp_to_skb s (fb_idp b1) to). set (k1 := upd_skbs <[skb := s1]> k).
  assert (Hw : wp (process_packet (S pkts) (length l + S hops) skb TYPE_INGRESS) (fun r k' => r = PPE_DROPPED /\
    exists out, n_devs (k_net k') = <[ep_dev p2 := with_sent skb out d2]> (n_devs (k_net k)) /\
      skb_data out = skb_data s /\
      k_skbs k' = (if nd_late d2 then <[skb := out]> else delete skb) (k_skbs k) /\
      k_fblocks k' = k_fblocks k /\ k_emdiscs k' = k_emdiscs k) k1).
  { eapply (wp_deliver k1 pkts hops skb s1 TYPE_INGRESS l (fb_idp b2) fb2 b2 M_eth cpu); try done.
    - split; [done|]. split; [apply lookup_insert_eq|done].
    - apply (reaches_same k); [by repeat split|exact Hreach].
    - destruct Hsink. by split.
    - intros k2 s2 Hat Hc. eapply (eth_sink k1 fb2 b2 p2 d2 skb s2 k2); try done.
      + destruct Hep. by split.
      + destruct Hc as (_ & _ & -> & _). exact Hu.
      + intros k3 out G1 G2 G3 G4 _ _. exists out. rewrite G1, G2, G3, G4. unfold dev_takes. rewrite Hup. simpl.
        split; [done|]. split; [apply Hc|]. split; [|done].
        destruct (nd_late d2); by rewrite ?insert_insert_eq, ?delete_insert_eq. }
  apply wp_run_val in Hw as (k' & Hk' & out & E1 & E2 & E3 & E4 & E5).
  exists k', out. rewrite (eth_frame_run k (S pkts) (length l + S hops) skb s Hpk Hlive b1 l1 p1) by done.
  destruct (Z.eqb_spec (ei_pkt_type (skb_eth s)) PACKET_LOOPBACK); [done|]. rewrite Hsrc. cbn [negb].
  destruct (Z.eqb_spec (dev_fb (k_net k) (ei_dev (skb_eth s))) 0); [done|]. unfold frame_result. fold to.
  destruct (Z.eqb_spec to IDP_UNKNOWN); [done|]. fold s1 k1. rewrite Hk'. done.
Qed.
End claims.
