(* ===== verification/FbEthvlinkProps.v ===== *)
(** * Properties of the tagged virtual Ethernet devices (src/fb_ethvlink.c)

    Adding a device and removing it, the tags, which frames reach a virtual
    device, what becomes of packets sent through one, and what happens when the
    carrier goes away. *)
From Stdlib Require Import ZArith Lia.
From stdpp Require Import base gmap numbers countable list.
From S2P Require Import Prelude CString CritbitTree Vlink NameMap Types NetTypes Kernel NetDev EthvlinkDev Fblock FblockNs.
From S2P Require Import FblockLife FblockBind PerCpu FblockCtor Engine FbEthvlink Modules EngineProps EngineSinks ModuleLife.
From S2P Require Import UserctlProps NetDevProps.

Local Open Scope Z_scope.
Local Open Scope kernel_scope.

(** ** Tags *)

Lemma htons_bit z n :
  Z.testbit (htons z) n =
    if decide (0 <= n < 8) then Z.testbit z (n + 8)
    else if decide (8 <= n < 16) then Z.testbit z (n - 8) else false.
Proof.
  destruct (Z.lt_ge_cases n 0) as [|H0].
  { rewrite !decide_False by lia. by apply Z.testbit_neg_r. }
  unfold htons. rewrite Z.lor_spec, Z.shiftl_spec, !Z.land_spec, Z.shiftr_spec by done.
  change 255 with (Z.ones 8). repeat case_decide.
  - rewrite !(Z.testbit_neg_r _ (n - 8)) by lia. rewrite Z.ones_spec_low by lia. by rewrite andb_true_r.
  - rewrite Z.ones_spec_low, (Z.ones_spec_high 8 n) by lia. by rewrite andb_false_r, andb_true_r, orb_false_r.
  - rewrite !Z.ones_spec_high by lia. by rewrite !andb_false_r.
Qed.

Lemma htons_involutive z : 0 <= z < 2 ^ 16 -> htons (htons z) = z.
Proof.
  intros Hz. apply Z.bits_inj'. intros n Hn. rewrite !htons_bit. repeat case_decide; try lia; try (f_equal; lia).
  symmetry. apply Z.bits_above_log2; [lia|]. destruct (Z.eq_dec z 0) as [->|]; [simpl; lia|].
  apply Z.log2_lt_pow2; [lia|]. apply Z.lt_le_trans with (2 ^ 16); [lia|]. apply Z.pow_le_mono_r; lia.
Qed.

Lemma htons_land a b : htons (Z.land a b) = Z.land (htons a) (htons b).
Proof. apply Z.bits_inj'. intros n Hn. rewrite Z.land_spec, !htons_bit. by repeat case_decide; rewrite ?Z.land_spec. Qed.

Lemma htons_ldiff a b : htons (Z.ldiff a b) = Z.ldiff (htons a) (htons b).
Proof.
  apply Z.bits_inj'. intros n Hn. rewrite Z.ldiff_spec, !htons_bit. by repeat case_decide; rewrite ?Z.ldiff_spec.
Qed.

Lemma ldiff_lor_land a m : Z.lor (Z.ldiff a m) (Z.land a m) = a.
Proof.
  apply Z.bits_inj'. intros n Hn. rewrite Z.lor_spec, Z.ldiff_spec, Z.land_spec.
  by destruct (Z.testbit a n), (Z.testbit m n).
Qed.

Lemma tag_exact t h :
  0 <= t < 1024 -> 0 <= h < 2 ^ 16 ->
  (proto_is_lana h = true /\ proto_tag h = t <-> htons h = Z.lor ETH_P_LANA t).
Proof.
  intros Ht Hh. assert (Hd : Z.land t ETH_P_LANA = 0).
  { replace t with (Z.land t 1023); [by rewrite <- Z.land_assoc, Z.land_0_r|].
    change 1023 with (Z.ones 10). rewrite Z.land_ones by lia. apply Z.mod_small. lia. }
  unfold proto_is_lana, proto_tag. rewrite Z.eqb_eq, htons_ldiff, htons_involutive by (vm_compute; split; congruence).
  split.
  - intros [Hl Hg]. rewrite <- (ldiff_lor_land (htons h) ETH_P_LANA), Hg, Z.lor_comm. f_equal.
    rewrite <- (htons_involutive ETH_P_LANA) by (vm_compute; split; congruence). by rewrite <- htons_land, Hl.
  - intros E. split.
    + rewrite <- (htons_involutive h Hh), <- htons_land, E. f_equal. apply Z.bits_inj'. intros n Hn.
      rewrite Z.land_spec, Z.lor_spec. by destruct (Z.testbit ETH_P_LANA n), (Z.testbit t n).
    + rewrite E, Z.lor_comm. by apply lor_ldiff.
Qed.

(** C31: the frames for the virtual device with tag [t] are exactly those whose
    protocol number is [ETH_P_LANA] with [t] in its low 10 bits: a protocol
    field, in network order, passes the two masks of the receive handler as
    one of the stack's with tag [t] if and only if it is that number. *)
Theorem ethvlink_tag_exact t h :
  0 <= t < 1024 -> 0 <= h < 2 ^ 16 ->
  (proto_is_lana h = true /\ proto_tag h = t <-> htons h = Z.lor ETH_P_LANA t).
Proof. apply tag_exact. Qed.

(** ** Registering a device *)

Section register.
Context `{Nm : NameMap, Ka : KernelApi}.

Definition registered_dev (i : Z) (cpus : nat) (d : net_device) : net_device :=
  with_refs (nd_refs d + 1) (with_reg NETREG_REGISTERED (with_ifindex i (with_dstats (Some (replicate cpus dstats_zero)) d))).

Definition net_registered (a : addr) (cpus : nat) (d : net_device) (n : net_state) : net_state :=
  net_ifindex (n_ifindex n + 1) (net_devs <[a := registered_dev (n_ifindex n) cpus d]> n).

Lemma wp_register_netdev k a d (Q : Z -> kernel -> Prop) :
  device k a d -> nd_name d ∉ names_in_use (n_devs (k_net k)) -> k_oom k = [] ->
  n_rtnl (k_net k) = false -> n_todo (k_net k) = [] ->
  Q 0 (upd_net (net_registered a (k_cpus k) d) k) -> wp (register_netdev a) Q k.
Proof.
  intros Hd Hn Hoom Hl Ht HQ. unfold register_netdev, fb_ethvlink_init, alloc_ok, dev_hold. wp_step.
  apply wp_rtnl_lock; [done|]. wp_step. eapply wp_get_dev; [exact Hd|]. wp_steps.
  destruct (decide _) as [Hin|_]; [by destruct Hn|]. wp_steps. simpl. rewrite Hoom. wp_steps.
  pose proof Hd as [H0 Hdev].
  cbn [negb]. wp_steps. dev_step. wp_steps. cbn [negb Z.eqb]. wp_steps.
  dev_step. wp_steps. dev_step. wp_steps. dev_step. wp_steps. apply wp_rtnl_unlock; [done|]. wp_steps.
  match goal with |- Q 0 ?k1 => replace k1 with (upd_net (net_registered a (k_cpus k) d) k); [done|] end.
  kernel_eq. net_eq; [|simpl; by rewrite Hl]. simpl. by rewrite !insert_insert_eq.
Qed.

Lemma names_not_in_use devs name : no_name devs name -> name ∉ names_in_use devs.
Proof.
  intros Hn. unfold names_in_use. rewrite list_elem_of_fmap. intros ([a d] & -> & Hin). simpl in *.
  apply list_elem_of_filter in Hin as [Hr Hin]. apply elem_of_map_to_list in Hin.
  by destruct (map_Forall_lookup_1 _ _ _ _ Hn Hin Hr).
Qed.

Lemma no_name_insert devs name a d :
  no_name devs name -> nd_reg d <> NETREG_REGISTERED \/ nd_name d <> name -> no_name (<[a := d]> devs) name.
Proof. intros Hn Hd. apply map_Forall_insert_2; [|done]. intros Hr. by destruct Hd. Qed.
End register.

(** ** Adding a device *)

(** The driver's part of the device at an address. *)
Definition vdev_at (n : net_state) (a : addr) (v : fb_ethvlink_private) : Prop :=
  a <> 0 /\ exists d, n_devs n !! a = Some d /\ nd_virt d = Some v.

Section add.
Context `{Nm : NameMap, Ka : KernelApi}.

Lemma netdev_priv_run k a v : vdev_at (k_net k) a v -> netdev_priv a k = Ret v k.
Proof.
  intros (H0 & d & Hd & Hv). unfold netdev_priv. erewrite bind_run by (by apply (get_dev_run k a d)). by rewrite Hv.
Qed.

Lemma wp_netdev_priv k a v (Q : fb_ethvlink_private -> kernel -> Prop) :
  vdev_at (k_net k) a v -> Q v k -> wp (netdev_priv a) Q k.
Proof. intros Hv HQ. eapply wp_of_run; [by apply netdev_priv_run|done]. Qed.

(** No virtual device has the tag. *)
Definition tag_free (n : net_state) (t : Z) : Prop :=
  Forall (fun a => exists v, vdev_at n a v /\ vd_tag v <> t) (fb_ethvlink_vdevs n).

Lemma tag_taken_run k t l :
  Forall (fun a => exists v, vdev_at (k_net k) a v /\ vd_tag v <> t) l -> tag_taken l t k = Ret false k.
Proof.
  induction 1 as [|a l (v & Hv & Ht) _ IH]; simpl; [done|].
  rewrite (bind_run _ _ _ _ _ (netdev_priv_run k a v Hv)). by destruct (Z.eqb_spec (vd_tag v) t).
Qed.

(** Devices stay what they are when another one is written. *)
Lemma vdev_at_insert n a v b d :
  n_devs n !! b = None -> vdev_at n a v -> vdev_at (net_devs <[b := d]> n) a v.
Proof.
  intros Hb (H0 & d' & Hd & Hv). split; [done|]. exists d'. split; [|done]. simpl. rewrite lookup_insert_ne; [done|].
  intros ->. congruence.
Qed.

Lemma vdev_at_same n a v b d d' :
  n_devs n !! b = Some d -> nd_virt d' = nd_virt d -> vdev_at n a v -> vdev_at (net_devs <[b := d']> n) a v.
Proof.
  intros Hb E (H0 & d1 & Hd & Hv). split; [done|]. simpl. destruct (decide (a = b)) as [->|].
  - exists d'. rewrite lookup_insert_eq. split; [done|]. rewrite Hb in Hd. injection Hd as ->. by rewrite E.
  - exists d1. by rewrite lookup_insert_ne.
Qed.

Definition vhdr_tag (vhdr : vlinknlmsg) : Z := Z.land (vm_port vhdr) 1023.
Definition virt_name (vhdr : vlinknlmsg) : cstr := c_str (vm_virt_name vhdr).

Record vaddable (k : kernel) (vhdr : vlinknlmsg) (root : addr) (rd : net_device) : Prop := {
  va_cmd : vm_cmd vhdr = VLINKNLCMD_ADD_DEVICE;
  va_virt : no_name (n_devs (k_net k)) (virt_name vhdr) /\ (37 ∉ virt_name vhdr) /\ (length (virt_name vhdr) < IFNAMSIZ)%nat;
  va_real : dev_by_name (c_str (vm_real_name vhdr)) (n_devs (k_net k)) = root /\ device k root rd /\
            has_flag (nd_priv_flags rd) IFF_VLINK_DEV = false;
  va_tag : tag_free (k_net k) (vhdr_tag vhdr);
  va_locks : n_rtnl (k_net k) = false /\ n_todo (k_net k) = [] /\ n_vdevs_lock (k_net k) = false;
  va_own : own_buildable k (virt_name vhdr);
  va_devs : map_Forall (fun a _ => 0 < a < k_next k) (n_devs (k_net k));
}.

Definition vlink_fresh (dev : addr) (n : nat) : priv :=
  PrivEthvlink (replicate n (VlinkInner (Ports IDP_UNKNOWN IDP_UNKNOWN) dev)).

(** The new device: registered with one reference, without a carrier, with
    statistics of zero; [fb] is its block. *)
Definition new_vdev (k : kernel) (vhdr : vlinknlmsg) (root : addr) (rd : net_device) (fb : addr) : net_device :=
  NetDev (virt_name vhdr) (n_ifindex (k_net k)) 1500 ARPHRD_ETHER ether_flags
    (Z.lor (Z.lor 0 (vm_flags vhdr)) IFF_VLINK_DEV) 1 None NETREG_REGISTERED
    (Link true false (l_operstate (nd_link rd) =? IF_OPER_DORMANT) 0)
    (Some (VlinkPriv (vhdr_tag vhdr) (k_next k) root fb)) (Some (replicate (k_cpus k) dstats_zero)) [] false [].

Record add_done (k : kernel) (vhdr : vlinknlmsg) (root : addr) (rd : net_device) (k' : kernel) : Prop := {
  ad_core : core_ok k';
  ad_block : k_fblocks k' = <[64 + k_next k := own_block M_ethvlink (virt_name vhdr) (upd_next (Z.add 64) k)]> (k_fblocks k);
  ad_privs : k_privs k' = <[128 + k_next k := vlink_fresh (k_next k) (k_cpus k)]> (k_privs k);
  ad_subs : k_subs k' = <[192 + k_next k := chain_init]> (k_subs k);
  ad_fbl i : fbl_lookup k' i = if decide (i = k_idp_counter k + 1) then 64 + k_next k else fbl_lookup k i;
  ad_ns n : ns_lookup k' n =
    if decide (n = fbname (virt_name vhdr)) then Some (k_idp_counter k + 1) else ns_lookup k n;
  ad_net : k_net k' = net_vdevs (cons (k_next k)) (net_ifindex (n_ifindex (k_net k) + 1)
             (net_devs <[k_next k := new_vdev k vhdr root rd (64 + k_next k)]> (k_net k)));
  ad_same : k_notifs k' = k_notifs k /\ k_rcu k' = k_rcu k /\ k_rcu_nesting k' = k_rcu_nesting k /\
            k_cpus k' = k_cpus k /\ k_cpu k' = k_cpu k /\ k_skbs k' = k_skbs k /\
            k_factories k' = k_factories k /\ k_emdiscs k' = k_emdiscs k;
  ad_oom : k_oom k' = [];
}.

Lemma wp_locked_vdevs k f (Q : unit -> kernel -> Prop) :
  n_vdevs_lock (k_net k) = false ->
  Q tt (upd_net (net_vdevs f) k) -> wp (locked_vdevs f) Q k.
Proof.
  intros Hl HQ. unfold locked_vdevs. wp_steps. rewrite Hl. wp_steps.
  match goal with |- Q tt ?k1 => replace k1 with (upd_net (net_vdevs f) k); [done|] end.
  kernel_eq. destruct (k_net k); simpl in *. by subst.
Qed.

Lemma wp_vlink_build k a v d (Q : addr -> kernel -> Prop) :
  core_ok k -> vdev_at (k_net k) a v -> device k (vd_self v) d -> own_buildable k (nd_name d) ->
  (forall k1, own_built M_ethvlink (vlink_fresh a) (nd_name d) k k1 ->
     Q (k_next k) (upd_modrefs <[M_ethvlink := module_ref k1 M_ethvlink + 1]> k1)) ->
  wp (fb_ethvlink_build_fblock a) Q k.
Proof.
  intros Hk Hv Hd Hown HQ. unfold fb_ethvlink_build_fblock. wp_step. eapply wp_netdev_priv; [exact Hv|]. wp_step.
  eapply wp_get_dev; [exact Hd|]. apply (wp_own_build M_ethvlink (vlink_fresh a)); [done..|]. intros k1 Hb.
  cbn [negb Z.eqb]. wp_step. unfold wp at 1, module_get, ret. by apply HQ.
Qed.

(** The device as it is registered, before its block is built. *)
Definition bare_vdev (k : kernel) (vhdr : vlinknlmsg) (root : addr) : net_device :=
  with_virt (Some (VlinkPriv (vhdr_tag vhdr) (k_next k) root 0))
    (with_priv_flags (Z.lor (Z.lor 0 (vm_flags vhdr)) IFF_VLINK_DEV)
      (registered_dev (n_ifindex (k_net k)) (k_cpus k) (fb_ethvlink_dev_setup (virt_name vhdr) 0 IFF_XMIT_DST_RELEASE))).

(** Up to the block: the device is registered and the carrier is held. *)
Definition dev_added (k : kernel) (vhdr : vlinknlmsg) (root : addr) (rd : net_device) : kernel :=
  upd_net (fun n => net_ifindex (n_ifindex n + 1)
             (net_devs (fun m => <[k_next k := bare_vdev k vhdr root]> (<[root := with_refs (nd_refs rd + 1) rd]> m)) n))
    (upd_next (Z.add 64) k).

Lemma wp_add_dev_front k vhdr root rd notify (Q : Z -> kernel -> Prop) :
  0 < k_next k -> vaddable k vhdr root rd ->
  wp (fb <- fb_ethvlink_build_fblock (k_next k);;
      mod_dev (k_next k) (set_vd_fb fb);;
      if fb =? 0 then
        unregister_netdevice notify (k_next k);; dev_put root;; free_netdev (k_next k);; ret NETLINK_VLINK_RX_EMERG
      else
        rd <- get_dev root;;
        mod_dev (k_next k) (netif_stacked_transfer_operstate rd);;
        dev_put root;;
        locked_vdevs (cons (k_next k));;
        mod_dev (k_next k) (set_carrier false);;
        ret NETLINK_VLINK_RX_STOP) Q (dev_added k vhdr root rd) ->
  wp (fb_ethvlink_add_dev notify vhdr) Q k.
Proof.
  intros Hpos [Hc (Hno & Hpc & Hlen) (Hreal & Hrd & Hflag) Htag (Hrt & Htd & Hlk) [_ _ Hoom _] Hdevs] HQ.
  pose proof Hrd as [Hr0 Hr]. set (a := k_next k) in *.
  assert (Hfresh : n_devs (k_net k) !! a = None).
  { destruct (n_devs (k_net k) !! a) eqn:E; [|done]. pose proof (map_Forall_lookup_1 _ _ _ _ Hdevs E) as Hx. simpl in Hx. lia. }
  assert (Hra : root <> a) by congruence. assert (Ha0 : a <> 0) by lia.
  unfold fb_ethvlink_add_dev. rewrite Hc. cbn [negb Z.eqb]. fold (virt_name vhdr) (vhdr_tag vhdr).
  change (VLINKNLCMD_ADD_DEVICE =? VLINKNLCMD_ADD_DEVICE) with true. cbn [negb]. wp_step.
  apply wp_dev_get_no_name; [by apply dev_by_name_none|]. cbn [negb Z.eqb]. wp_step.
  eapply wp_dev_get_by_name; [exact Hreal|exact Hrd|]. destruct (Z.eqb_spec root 0); [done|]. wp_step.
  eapply wp_get_dev; [dev_found|]. simpl nd_priv_flags. rewrite Hflag. wp_steps.
  eapply wp_of_run.
  { apply tag_taken_run. eapply Forall_impl; [exact Htag|]. intros x (v & Hv & Hne). exists v. split; [|done].
    by apply (vdev_at_same _ _ _ _ rd). }
  cbv beta iota. wp_step. unfold alloc_netdev. destruct (Nat.leb_spec IFNAMSIZ (length (virt_name vhdr))); [lia|].
  apply wp_kmalloc; [intros _|simpl; by rewrite Hoom]. simpl k_next. fold a.
  destruct (Z.eqb_spec a 0); [done|]. wp_step. unfold dev_alloc_own_name. wp_steps.
  eapply wp_get_dev; [dev_found|]. wp_steps. simpl nd_name.
  rewrite dev_alloc_name_plain; [|done|].
  2:{ apply names_not_in_use. simpl. apply no_name_insert; [|by left].
      apply no_name_insert; [done|]. destruct (decide (nd_reg rd = NETREG_REGISTERED)); [right|by left].
      by apply (map_Forall_lookup_1 _ _ _ _ Hno Hr). }
  wp_steps. dev_step. wp_steps. cbn [negb Z.eqb]. wp_steps.
  eapply (wp_register_netdev _ a (fb_ethvlink_dev_setup (virt_name vhdr) 0 IFF_XMIT_DST_RELEASE)).
  { split; [done|]. simpl. rewrite insert_insert_eq. apply lookup_insert_eq. }
  { apply names_not_in_use. simpl. rewrite insert_insert_eq. apply no_name_insert; [|by left].
    apply no_name_insert; [done|]. destruct (decide (nd_reg rd = NETREG_REGISTERED)); [right|by left].
    by apply (map_Forall_lookup_1 _ _ _ _ Hno Hr). }
  { simpl. by rewrite Hoom. }
  { done. }
  { done. }
  cbn [negb Z.eqb]. wp_steps. dev_step. wp_steps. dev_step. wp_steps. dev_step.
  match goal with |- wp _ _ ?k1 => replace k1 with (dev_added k vhdr root rd); [exact HQ|] end.
  unfold dev_added. kernel_eq; [by rewrite Hoom|].
  net_eq. simpl. rewrite !insert_insert_eq. reflexivity.
Qed.

Lemma wp_add_dev k vhdr root rd notify (Q : Z -> kernel -> Prop) :
  core_ok k -> vaddable k vhdr root rd ->
  (forall k', add_done k vhdr root rd k' -> Q NETLINK_VLINK_RX_STOP k') ->
  wp (fb_ethvlink_add_dev notify vhdr) Q k.
Proof.
  intros Hk Hva HQ. pose proof (heap_next k (core_heap k Hk)) as Hpos.
  apply (wp_add_dev_front k vhdr root rd); [done|done|].
  destruct Hva as [Hc _ (Hreal & Hrd & Hflag) Htag (Hrt & Htd & Hlk) Hown Hdevs]. pose proof Hrd as [Hr0 Hr].
  assert (Hra : root <> k_next k).
  { intros ->. pose proof (map_Forall_lookup_1 _ _ _ _ Hdevs Hr) as Hx. simpl in Hx. lia. }
  assert (Ha0 : k_next k <> 0) by lia. set (a := k_next k) in *. set (k1 := dev_added k vhdr root rd).
  assert (Hk1 : core_ok k1) by (apply (core_ok_next k); try done; simpl; lia). wp_step.
  eapply (wp_vlink_build k1 a (VlinkPriv (vhdr_tag vhdr) a root 0) (bare_vdev k vhdr root)); [done| | | |].
  { split; [done|]. exists (bare_vdev k vhdr root). split; [|done]. apply lookup_insert_eq. }
  { split; [done|]. apply lookup_insert_eq. }
  { by apply (own_buildable_ext k). }
  intros k2 [B1 B2 B3 B4 B5 B6 B7 B8 B9]. change (k_next k1) with (64 + a) in *. wp_step.
  eapply wp_mod_dev; [split; [done|simpl; rewrite B7; apply lookup_insert_eq]|].
  destruct (Z.eqb_spec (64 + a) 0); [lia|]. wp_step.
  eapply wp_get_dev; [split; [done|]; simpl; rewrite B7; rewrite lookup_insert_ne by done; simpl;
                      rewrite lookup_insert_ne by done; apply lookup_insert_eq|]. wp_step.
  dev_step. wp_step. eapply wp_mod_dev.
  { split; [done|]. simpl. rewrite !(lookup_insert_ne _ a root) by done. rewrite B7. simpl.
    rewrite lookup_insert_ne by done. apply lookup_insert_eq. }
  wp_step. apply wp_locked_vdevs; [simpl; rewrite B7; exact Hlk|]. wp_step. eapply wp_mod_dev.
  { split; [done|]. simpl. rewrite (lookup_insert_ne _ root a) by done. apply lookup_insert_eq. }
  wp_step. apply HQ. split; simpl; try done.
  - by apply (core_ok_ext k2).
  - rewrite B3. f_equal. lia.
  - rewrite B4. f_equal. lia.
  - net_eq; simpl; rewrite ?B7; try done. simpl. apply map_eq. intros x.
    destruct (decide (x = a)) as [->|]; [by rewrite !lookup_insert_eq|].
    rewrite (lookup_insert_ne _ a x), (lookup_insert_ne (n_devs (k_net k)) a x) by done.
    destruct (decide (x = root)) as [->|].
    + rewrite lookup_insert_eq, Hr. f_equal. apply refs_back.
    + by rewrite !lookup_insert_ne by done.
Qed.

(** All virtual devices are there, their tags fit in 10 bits and no two have
    the same. *)
Definition tags (n : net_state) (l : list (addr * Z)) : Prop :=
  fb_ethvlink_vdevs n = l.*1 /\ Forall (fun x => 0 <= x.2 < 1024 /\ exists v, vdev_at n x.1 v /\ vd_tag v = x.2) l /\
  NoDup l.*2.

Lemma vhdr_tag_range vhdr : 0 <= vhdr_tag vhdr < 1024.
Proof. unfold vhdr_tag. change 1023 with (Z.ones 10). rewrite Z.land_ones by lia. by apply Z.mod_pos_bound. Qed.

Lemma tags_add k vhdr root rd k' l :
  vaddable k vhdr root rd -> add_done k vhdr root rd k' -> 0 < k_next k -> tags (k_net k) l ->
  tags (k_net k') ((k_next k, vhdr_tag vhdr) :: l).
Proof.
  intros [_ _ _ Htag _ _ Hdevs] [_ _ _ _ _ _ Hnet _ _] Hpos (Hl & HF & Hnd). rewrite Hnet.
  unfold tag_free in Htag. rewrite Hl in Htag. rewrite Forall_forall in HF. split; [simpl; by rewrite Hl|]. split.
  - constructor.
    + split; [apply vhdr_tag_range|]. exists (VlinkPriv (vhdr_tag vhdr) (k_next k) root (64 + k_next k)).
      split; [|done]. split; [simpl; lia|]. eexists. split; [apply lookup_insert_eq|done].
    + apply Forall_forall. intros x Hx. destruct (HF x Hx) as (Hr & v & (H0 & d & Hd & Hv) & E).
      split; [done|]. exists v. split; [|done]. split; [done|]. exists d. split; [|done]. simpl.
      rewrite lookup_insert_ne; [done|]. pose proof (map_Forall_lookup_1 _ _ _ _ Hdevs Hd) as Hb. simpl in Hb. lia.
  - simpl. constructor; [|done]. rewrite list_elem_of_fmap. intros ([a t] & E & Hin). simpl in E. subst t.
    destruct (HF _ Hin) as (_ & v & (_ & d & Hd & Hv) & E). simpl in *. rewrite Forall_forall in Htag.
    destruct (Htag a) as (v' & (_ & d' & Hd' & Hv') & Hne); [apply list_elem_of_fmap; by exists (a, vhdr_tag vhdr)|].
    congruence.
Qed.

(** C28: the command to add a virtual device under a free name, on a carrier
    that is not virtual itself and with a tag no virtual device has (the low
    10 bits of the message's port, of which xt_vlink.h says that it has 8),
    registers the device with that tag on that
    carrier, without a link yet, and a functional block of the device's name
    with unbound ports; the carrier is as before, and the tags of all virtual
    devices stay pairwise different. *)
Theorem ethvlink_add_correct k vhdr root rd notify l :
  core_ok k -> vaddable k vhdr root rd -> (0 < k_cpus k)%nat -> tags (k_net k) l ->
  exists dev fb b d k', fb_ethvlink_add_dev notify vhdr k = Ret NETLINK_VLINK_RX_STOP k' /\ core_ok k' /\
    fb_ethvlink_vdevs (k_net k') = dev :: fb_ethvlink_vdevs (k_net k) /\
    n_devs (k_net k') = <[dev := d]> (n_devs (k_net k)) /\
    nd_name d = virt_name vhdr /\ nd_reg d = NETREG_REGISTERED /\ netif_carrier_ok d = false /\
    nd_virt d = Some (VlinkPriv (vhdr_tag vhdr) dev root fb) /\ tags (k_net k') ((dev, vhdr_tag vhdr) :: l) /\
    registered k' fb b /\ fb_name b = virt_name vhdr /\ fb_refcnt b = 1 /\ fb_factory b = 0 /\
    (forall dir, priv_port (k_privs k') M_ethvlink (fb_private_data b) dir = Some IDP_UNKNOWN) /\
    (forall n, n <> virt_name vhdr -> ns_lookup k' n = ns_lookup k n).
Proof.
  intros Hk Hva Hcpu Htags. pose proof (heap_next k (core_heap k Hk)) as Hpos.
  assert (Hfn : fbname (virt_name vhdr) = virt_name vhdr).
  { destruct Hva as [_ (_ & _ & Hlen) _ _ _ _ _]. apply take_ge. unfold IFNAMSIZ, FBNAMSIZ in *. lia. }
  exists (k_next k), (64 + k_next k), (own_block M_ethvlink (virt_name vhdr) (upd_next (Z.add 64) k)),
    (new_vdev k vhdr root rd (64 + k_next k)).
  apply wp_run_val. eapply wp_add_dev; [done|exact Hva|]. intros k' Hd.
  pose proof (tags_add k vhdr root rd k' l Hva Hd ltac:(lia) Htags) as Ht'.
  destruct Hd as [D1 D2 D3 D4 D5 D6 D7 D8 D9]. rewrite D7 in *.
  do 8 (split; [done|]). split; [exact Ht'|]. split.
  { split; [by rewrite D2, lookup_insert_eq|simpl; by rewrite D5, decide_True|simpl; by rewrite D6, decide_True]. }
  split; [exact Hfn|]. do 2 (split; [done|]). split.
  - intros dir. rewrite D3. apply priv_port_Some. exists (vlink_fresh (k_next k) (k_cpus k)). simpl.
    rewrite Z.add_assoc, lookup_insert_eq. split; [done|]. split; [lia|]. split; [done|]. apply uport_Some.
    rewrite fmap_replicate. split; [by destruct (k_cpus k); [lia|]|]. apply Forall_replicate. by destruct dir.
  - intros n Hn. by rewrite D6, decide_False by (by rewrite Hfn).
Qed.
End add.

(** ** Removing a device *)

Section remove.
Context `{Nm : NameMap, Ka : KernelApi}.

(** The virtual devices on a carrier. *)
Definition on_root (n : net_state) (root : addr) (a : addr) : bool :=
  match n_devs n !! a with
  | Some d => match nd_virt d with Some v => root =? vd_real_dev v | None => false end
  | None => false
  end.

Definition vdevs_live (n : net_state) : Prop := Forall (fun a => exists v, vdev_at n a v) (fb_ethvlink_vdevs n).

Lemma count_vdevs_run k root l : forall c,
  Forall (fun a => exists v, vdev_at (k_net k) a v) l ->
  count_vdevs l root c k = Ret (c + length (filter (fun a => on_root (k_net k) root a = true) l))%nat k.
Proof.
  induction l as [|a l IH]; intros c HF; simpl; [unfold ret; f_equal; lia|].
  inversion HF as [|? ? (v & Hv) HF']; subst. rewrite (bind_run _ _ _ _ _ (netdev_priv_run k a v Hv)).
  rewrite IH by done. f_equal. destruct Hv as (_ & d & Hd & Hvv). rewrite filter_cons.
  assert (E : on_root (k_net k) root a = (root =? vd_real_dev v)) by (unfold on_root; by rewrite Hd, Hvv).
  destruct (root =? vd_real_dev v); case_decide; simpl; try congruence; lia.
Qed.

(** No virtual device is on top of [dev]. *)
Definition no_child (n : net_state) (dev : addr) (l : list addr) : Prop :=
  Forall (fun a => exists v, vdev_at n a v /\ vd_real_dev v <> dev) l.

Lemma remove_vdevs_run k rm dev l : no_child (k_net k) dev l -> remove_vdevs rm l dev k = Ret tt k.
Proof.
  induction 1 as [|a l (v & Hv & Hne) _ IH]; simpl; [done|].
  rewrite (bind_run _ _ _ _ _ (netdev_priv_run k a v Hv)). destruct (Z.eqb_spec (vd_real_dev v) dev); [done|].
  erewrite bind_run by reflexivity. destruct Hv as (H0 & d & Hd & _).
  by rewrite (bind_run _ _ _ _ _ (get_dev_run k a d (conj H0 Hd))).
Qed.

Lemma notify_run k n dev d :
  device k dev d -> nd_reg d = NETREG_UNREGISTERING -> n_vdevs_lock (k_net k) = false ->
  no_child (k_net k) dev (fb_ethvlink_vdevs (k_net k)) -> fb_ethvlink_notify (S n) dev k = Ret tt k.
Proof.
  intros Hd Hr Hl Hc. pose proof Hd as [H0 _]. cbn [fb_ethvlink_notify]. unfold fb_ethvlink_dev_event.
  destruct (Z.eqb_spec dev 0); [done|]. rewrite bind_assoc.
  rewrite (bind_run _ _ _ _ _ (get_dev_run k dev d Hd)). rewrite bool_decide_true by done. cbn [negb].
  rewrite bind_assoc. erewrite bind_run by reflexivity. rewrite Hl. rewrite bind_assoc. erewrite bind_run by reflexivity.
  rewrite bind_assoc. erewrite bind_run by reflexivity. rewrite bind_assoc.
  erewrite bind_run by (by apply remove_vdevs_run). rewrite bind_assoc. erewrite bind_run by reflexivity.
  erewrite bind_run by reflexivity. unfold ret. f_equal. kernel_eq. net_eq. simpl. done.
Qed.

(** A hook that is taken off. *)
Definition unhooked_root (d : net_device) : net_device := fb_ethvlink_make_real_dev_unhooked (with_rx_handler None d).

Lemma wp_unhook_root k root d (Q : unit -> kernel -> Prop) :
  device k root d -> n_rtnl (k_net k) = false -> n_todo (k_net k) = [] ->
  Q tt (upd_net (net_devs <[root := unhooked_root d]>) k) -> wp (unhook_root root) Q k.
Proof.
  intros [H0 Hd] Hl Ht HQ. unfold unhook_root, netdev_rx_handler_unregister. wp_step. apply wp_rtnl_lock; [done|].
  wp_step. dev_step. wp_step. apply wp_rtnl_unlock; [done|]. dev_step.
  match goal with |- Q tt ?k1 => replace k1 with (upd_net (net_devs <[root := unhooked_root d]>) k); [done|] end.
  kernel_eq. net_eq; simpl; [by rewrite insert_insert_eq|done].
Qed.

(** What the message removes. *)
Record vremovable (k : kernel) (vhdr : vlinknlmsg) (dev : addr) (d : net_device) (v : fb_ethvlink_private)
    (b : fblock) (p : priv) (c : chain) (rd : net_device) : Prop := {
  vr_cmd : vm_cmd vhdr = VLINKNLCMD_RM_DEVICE;
  vr_found : dev_by_name (virt_name vhdr) (n_devs (k_net k)) = dev;
  vr_dev : device k dev d /\ nd_virt d = Some v /\ nd_reg d = NETREG_REGISTERED /\ nd_refs d = 1;
  vr_flags : has_flag (nd_priv_flags d) IFF_VLINK_DEV = true /\ has_flag (nd_flags d) IFF_RUNNING = false;
  vr_block : own_live k (vd_fb v) b p c /\ fb_refcnt b <= 2;
  vr_root : vd_real_dev v <> dev /\ device k (vd_real_dev v) rd;
  vr_list : no_child (k_net k) dev (fb_ethvlink_vdevs (k_net k));
  vr_locks : n_rtnl (k_net k) = false /\ n_todo (k_net k) = [] /\ n_vdevs_lock (k_net k) = false;
  vr_rcu : k_rcu k = [] /\ k_rcu_nesting k = 0%nat;
}.

(** The carrier loses its hook with its last virtual device. *)
Definition last_on_root (n : net_state) (root : addr) : bool :=
  (length (filter (fun a => on_root n root a = true) (fb_ethvlink_vdevs n)) =? 1)%nat.

Definition root_after (n : net_state) (root : addr) (rd : net_device) : net_device :=
  if last_on_root n root && fb_ethvlink_real_dev_is_hooked rd then unhooked_root rd else rd.

Record rm_done (k : kernel) (dev : addr) (v : fb_ethvlink_private) (b : fblock) (rd : net_device) (k' : kernel) : Prop := {
  rd_blocks : k_fblocks k' = delete (vd_fb v) (k_fblocks k);
  rd_privs : k_privs k' = delete (fb_private_data b) (k_privs k);
  rd_subs : k_subs k' = delete (fb_others b) (k_subs k);
  rd_notifs : k_notifs k' = k_notifs k;
  rd_rcu : k_rcu k' = [];
  rd_fbl i : fbl_lookup k' i = if decide (i = fb_idp b) then 0 else fbl_lookup k i;
  rd_ns n : ns_lookup k' n = if decide (n = fb_name b) then None else ns_lookup k n;
  rd_net : k_net k' = net_vdevs (filter (.≠ dev))
    (net_devs (fun m => delete dev (<[vd_real_dev v := root_after (k_net k) (vd_real_dev v) rd]> m)) (k_net k));
}.

Lemma net_devs_id k dev d : n_devs (k_net k) !! dev = Some d -> upd_net (net_devs <[dev := d]>) k = k.
Proof. intros Hd. kernel_eq. net_eq. simpl. by apply insert_id. Qed.

(** [dev_close]: the link may change, nothing else. *)
Lemma wp_dev_close k dev d (Q : unit -> kernel -> Prop) :
  device k dev d ->
  (forall d', nd_refs d' = nd_refs d -> nd_virt d' = nd_virt d -> nd_reg d' = nd_reg d ->
     Q tt (upd_net (net_devs <[dev := d']>) k)) ->
  wp (when has_flag (nd_flags d) IFF_UP do
        (fb_ethvlink_stop dev;; mod_dev dev (fun d => with_flags (Z.ldiff (nd_flags d) IFF_UP) d))) Q k.
Proof.
  intros [H0 Hd] HQ. destruct (has_flag _ _).
  - unfold fb_ethvlink_stop. wp_steps. dev_step. wp_steps. dev_step. wp_steps. dev_step.
    match goal with |- Q tt ?k1 => replace k1 with (upd_net (net_devs <[dev :=
      with_flags (Z.ldiff (nd_flags d) IFF_UP) (set_queue false (set_carrier false d))]>) k); [by apply HQ|] end.
    kernel_eq. net_eq. simpl. by rewrite !insert_insert_eq.
  - wp_step. specialize (HQ d eq_refl eq_refl eq_refl). by rewrite net_devs_id in HQ.
Qed.

(** The end of the removal: the block is gone, the device follows. *)
Lemma wp_rm_dev_common k0 k dev d v fb b n (Q : unit -> kernel -> Prop) :
  own_gone k0 fb b k -> k_rcu k0 = [] -> k_rcu_nesting k0 = 0%nat ->
  device k dev d -> nd_virt d = Some v -> nd_reg d = NETREG_REGISTERED -> nd_refs d = 1 ->
  n_rtnl (k_net k) = false -> n_todo (k_net k) = [] -> n_vdevs_lock (k_net k) = false ->
  dev ∉ fb_ethvlink_vdevs (k_net k) -> no_child (k_net k) dev (fb_ethvlink_vdevs (k_net k)) ->
  (forall k', k_fblocks k' = k_fblocks k -> k_privs k' = k_privs k -> k_subs k' = k_subs k ->
     k_notifs k' = k_notifs k -> k_rcu k' = [] -> k_fblmap k' = k_fblmap k ->
     (forall n, ns_lookup k' n = if decide (n = fb_name b) then None else ns_lookup k0 n) ->
     k_net k' = net_devs (delete dev) (k_net k) -> Q tt k') ->
  wp (fb_ethvlink_rm_dev_common (fb_ethvlink_notify (S n)) dev) Q k.
Proof.
  intros Hg Hrcu Hnest [H0 Hd] Hv Hr Hrefs Hl Ht Hlk Hnin Hc HQ. unfold fb_ethvlink_rm_dev_common. wp_step. dev_step.
  wp_step. apply wp_rtnl_lock; [done|]. wp_step. unfold unregister_netdevice. wp_step.
  eapply wp_get_dev; [dev_found|]. simpl nd_reg. rewrite Hr. wp_step.
  apply wp_dev_close; [dev_found|]. intros d1 E1 E2 E3. simpl in E1, E2, E3.
  wp_step. dev_step. wp_step. eapply wp_of_run.
  { apply (notify_run _ n dev (with_reg NETREG_UNREGISTERING d1)); [dev_found|done|exact Hlk|].
    simpl. unfold no_child in *. apply Forall_forall. intros x Hx. rewrite Forall_forall in Hc.
    destruct (Hc x Hx) as (w & (Hx0 & dx & Hdx & Hw) & Hne). exists w. split; [|done]. split; [done|]. exists dx.
    split; [|done]. simpl. by rewrite !lookup_insert_ne by (by intros ->). }
  wp_step. unfold fb_ethvlink_uninit. dev_step. wp_steps. simpl k_rcu_nesting.
  pose proof Hg as [_ _ _ (_ & Hn1 & _) _ _]. rewrite Hn1, Hnest. simpl.
  eapply (wp_own_grace (upd_net _ (upd_net _ (upd_net _ (upd_net _ (upd_net _ k0))))) _ fb b);
    [do 5 apply own_gone_net; exact Hg|done|done|]. intros elem _ k2 Hns. subst k2. wp_steps. unfold dev_put. dev_step. wp_steps.
  unfold rtnl_unlock. wp_steps. simpl n_todo. rewrite Ht. cbn [app netdev_run_todo]. wp_step. dev_step. wp_steps.
  eapply wp_get_dev; [dev_found|]. simpl nd_refs. rewrite E1, Hrefs. change (negb (1 - 1 =? 0)) with false. cbv iota.
  simpl nd_virt. rewrite E2, Hv. unfold free_netdev. wp_steps. eapply wp_get_dev; [dev_found|]. simpl nd_reg.
  eapply wp_kfree; [done|simpl; apply lookup_insert_eq|]. wp_steps.
  apply HQ; [reflexivity..| |].
  { intros m. specialize (Hns m). rewrite !ns_lookup_net in Hns. unfold devs_of. by rewrite !ns_lookup_net. }
  net_eq; [|simpl; by rewrite Hl|simpl; by rewrite Ht]. simpl. apply map_eq. intros x. destruct (decide (x = dev)) as [->|].
  - by rewrite !lookup_delete_eq.
  - rewrite !lookup_delete_ne by done. by rewrite !lookup_insert_ne by done.
Qed.

Lemma wp_rm_dev k vhdr dev d v b p c rd n (Q : Z -> kernel -> Prop) :
  core_ok k -> vdevs_live (k_net k) -> vremovable k vhdr dev d v b p c rd ->
  (forall k', rm_done k dev v b rd k' -> Q NETLINK_VLINK_RX_STOP k') ->
  wp (fb_ethvlink_rm_dev (fb_ethvlink_notify (S n)) vhdr) Q k.
Proof.
  intros Hk Hlive [Hc Hf (Hd & Hv & Hr & Hrefs) (Hf1 & Hf2) (Hol & Hcnt) (Hne & Hrd) Hch (Hl & Ht & Hlk) (Hrcu & Hnest)] HQ.
  pose proof Hd as [H0 Hdd]. pose proof Hrd as [Hr0 Hrdd]. unfold fb_ethvlink_rm_dev. rewrite Hc.
  change (VLINKNLCMD_RM_DEVICE =? VLINKNLCMD_RM_DEVICE) with true. cbn [negb]. fold (virt_name vhdr). wp_step.
  eapply wp_dev_get_by_name; [exact Hf|exact Hd|]. destruct (Z.eqb_spec dev 0); [done|]. wp_step.
  eapply wp_get_dev; [dev_found|]. simpl nd_priv_flags. rewrite Hf1. simpl nd_flags. rewrite Hf2. cbn [negb]. wp_step.
  eapply wp_netdev_priv; [by split; [done|]; eexists; split; [apply lookup_insert_eq|]|]. wp_step.
  eapply wp_get_fb; [apply Hol|apply Hol|]. destruct (Z.ltb_spec 2 (fb_refcnt b)); [lia|]. wp_step.
  eapply wp_of_run; [by eapply put_back|]. wp_steps. eapply wp_of_run; [by apply count_vdevs_run|].
  cbv beta. rewrite Nat.add_0_l. wp_step.
  eapply (wp_mono _ (fun _ k1 => k1 = upd_net (net_devs <[vd_real_dev v := root_after (k_net k) (vd_real_dev v) rd]>) k)).
  { unfold root_after, last_on_root. destruct (_ =? 1)%nat; [|wp_step; symmetry; by apply net_devs_id]. wp_step.
    eapply wp_get_dev; [exact Hrd|]. destruct (fb_ethvlink_real_dev_is_hooked rd).
    - by eapply wp_unhook_root.
    - wp_step. symmetry. by apply net_devs_id. }
  intros _ k1 ->. wp_step. apply wp_locked_vdevs; [done|]. wp_step.
  set (rd' := root_after _ _ rd). set (k2 := upd_net _ (upd_net _ k)).
  unfold fb_ethvlink_destroy_fblock. eapply (wp_own_destroy _ k2 (vd_fb v) b p c).
  { by do 2 apply core_ok_net. }
  { by do 2 apply own_live_net. }
  intros k3 Hg. wp_step. pose proof Hg as [G1 G2 G3 (G4 & G5 & G6 & _) G8 _].
  assert (Hd3 : device k3 dev d) by (split; [done|]; rewrite G6; simpl; by rewrite lookup_insert_ne).
  eapply (wp_rm_dev_common k2 k3 dev d v (vd_fb v) b); try done; try (by rewrite G6).
  { rewrite G6. simpl. rewrite list_elem_of_filter. by intros [? _]. }
  { rewrite G6. unfold no_child. apply Forall_forall. intros x. simpl. rewrite list_elem_of_filter. intros [_ Hx].
    unfold no_child in Hch. rewrite Forall_forall in Hch. destruct (Hch x Hx) as (w & Hw & Hwn). exists w. split; [|done].
    apply (vdev_at_same (k_net k) x w _ rd); [done| |done]. unfold rd', root_after. by destruct (_ && _). }
  intros k' E1 E2 E3 E4 E5 E6 Hns Hnet. wp_step. apply HQ. split;
    [by rewrite E1, G1|by rewrite E2, G2|by rewrite E3, G3|by rewrite E4, G4|done| | |].
  - intros i. unfold fbl_lookup. rewrite E6. fold (fbl_lookup k3 i). rewrite G8. by destruct (decide _).
  - intros m. rewrite Hns. unfold k2. by rewrite !ns_lookup_net.
  - rewrite Hnet, G6. net_eq. reflexivity.
Qed.

(** Every virtual device is there, and so is its carrier. *)
Definition carriers_live (n : net_state) : Prop :=
  Forall (fun a => exists v, vdev_at n a v /\ is_Some (n_devs n !! vd_real_dev v)) (fb_ethvlink_vdevs n).

(** The device that was just added can be removed. *)
Lemma added_removable k vhdr root rd k' vhdr' :
  core_ok k -> vaddable k vhdr root rd -> add_done k vhdr root rd k' -> carriers_live (k_net k) ->
  k_rcu k = [] -> k_rcu_nesting k = 0%nat ->
  vm_cmd vhdr' = VLINKNLCMD_RM_DEVICE -> vm_virt_name vhdr' = vm_virt_name vhdr ->
  vremovable k' vhdr' (k_next k) (new_vdev k vhdr root rd (64 + k_next k))
    (VlinkPriv (vhdr_tag vhdr) (k_next k) root (64 + k_next k))
    (own_block M_ethvlink (virt_name vhdr) (upd_next (Z.add 64) k)) (vlink_fresh (k_next k) (k_cpus k)) chain_init rd.
Proof.
  intros Hk [Hc (Hno & Hpc & Hlen) (Hreal & Hrd & Hflag) Htag (Hrt & Htd & Hlk) Hown Hdevs]
    [D1 D2 D3 D4 D5 D6 D7 (D8 & D9 & D10 & _) _] Hlive Hrcu Hnest Ec Ev.
  pose proof (heap_next k (core_heap k Hk)) as Hpos. pose proof Hrd as [Hr0 Hr].
  assert (Hfresh : n_devs (k_net k) !! k_next k = None) by (by apply below_next_fresh).
  assert (Hne : root <> k_next k) by congruence.
  split; rewrite ?D7; simpl; try done.
  - unfold virt_name. rewrite Ev. fold (virt_name vhdr).
    apply (dev_by_name_new _ _ (new_vdev k vhdr root rd (64 + k_next k))); done.
  - split; [split; [lia|rewrite D7; apply lookup_insert_eq]|done].
  - split; [apply has_flag_lor|done].
  - split; [|done]. split.
    + split; [lia|]. split; [|done].
      split; [by rewrite D2, lookup_insert_eq|simpl; by rewrite D5, decide_True|simpl; by rewrite D6, decide_True].
    + split; [simpl; lia|]. rewrite D3. simpl. by rewrite Z.add_assoc, lookup_insert_eq.
    + split; [simpl; lia|]. rewrite D4. simpl. rewrite Z.add_assoc, lookup_insert_eq. split; [done|].
      by rewrite chain_members_init.
  - split; [done|]. split; [done|]. rewrite D7. simpl. by rewrite lookup_insert_ne.
  - constructor.
    + exists (VlinkPriv (vhdr_tag vhdr) (k_next k) root (64 + k_next k)). split; [|exact Hne]. split; [lia|]. eexists. by split; [apply lookup_insert_eq|].
    + eapply Forall_impl; [exact Hlive|]. intros x (v & Hv & d & Hd). exists v.
      split; [by apply (vdev_at_insert (k_net k))|]. intros E. rewrite E in Hd. congruence.
  - by rewrite D9, D10.
Qed.

(** The new device is the only one on its carrier if there was none before. *)
Lemma last_added n root a d l :
  n_devs n !! a = None -> Forall (fun x => exists v, vdev_at n x v) l -> on_root (net_devs <[a := d]> n) root a = true ->
  (length (filter (fun x => on_root (net_devs <[a := d]> n) root x = true) (a :: l)) =? 1)%nat =
  forallb (fun x => negb (on_root n root x)) l.
Proof.
  intros Ha HF Ho. rewrite filter_cons_True by done. simpl. induction HF as [|x l (v & _ & dx & Hdx & _) _ IH]; [done|].
  assert (E : on_root (net_devs <[a := d]> n) root x = on_root n root x).
  { unfold on_root. simpl. rewrite lookup_insert_ne; [done|]. intros ->. congruence. }
  simpl. rewrite filter_cons, E. by destruct (on_root n root x).
Qed.

(** C29: a virtual device that is added and then removed by its name leaves
    everything as it was: the other devices and the list of virtual devices,
    the blocks with their data and chains, both tables of the core; only the
    carrier loses its hook if no other virtual device is on it. *)
Theorem ethvlink_add_rm_roundtrip k vhdr vhdr' root rd n :
  core_ok k -> vaddable k vhdr root rd -> carriers_live (k_net k) -> k_rcu k = [] -> k_rcu_nesting k = 0%nat ->
  vm_cmd vhdr' = VLINKNLCMD_RM_DEVICE -> vm_virt_name vhdr' = vm_virt_name vhdr ->
  exists k1 k2, fb_ethvlink_add_dev (fb_ethvlink_notify (S n)) vhdr k = Ret NETLINK_VLINK_RX_STOP k1 /\
    fb_ethvlink_rm_dev (fb_ethvlink_notify (S n)) vhdr' k1 = Ret NETLINK_VLINK_RX_STOP k2 /\
    n_devs (k_net k2) = <[root := if forallb (fun a => negb (on_root (k_net k) root a)) (fb_ethvlink_vdevs (k_net k)) &&
                                     fb_ethvlink_real_dev_is_hooked rd then unhooked_root rd else rd]> (n_devs (k_net k)) /\
    fb_ethvlink_vdevs (k_net k2) = fb_ethvlink_vdevs (k_net k) /\
    k_fblocks k2 = k_fblocks k /\ k_privs k2 = k_privs k /\ k_subs k2 = k_subs k /\ k_notifs k2 = k_notifs k /\
    k_rcu k2 = [] /\ (forall i, fbl_lookup k2 i = fbl_lookup k i) /\ (forall m, ns_lookup k2 m = ns_lookup k m).
Proof.
  intros Hk Hva Hlive Hrcu Hnest Ec Ev. pose proof (heap_next k (core_heap k Hk)) as Hpos.
  pose proof (core_heap k Hk) as [_ Hf _ _ Hs Hp].
  destruct (wp_run_val (fb_ethvlink_add_dev (fb_ethvlink_notify (S n)) vhdr) NETLINK_VLINK_RX_STOP
    (add_done k vhdr root rd) k) as (k1 & E1 & Hd).
  { by eapply wp_add_dev. }
  pose proof (added_removable _ _ _ _ _ vhdr' Hk Hva Hd Hlive Hrcu Hnest Ec Ev) as Hrm.
  destruct Hd as [D1 D2 D3 D4 D5 D6 D7 (D8 & _) _]. exists k1.
  destruct (wp_run_val (fb_ethvlink_rm_dev (fb_ethvlink_notify (S n)) vhdr') NETLINK_VLINK_RX_STOP
    (fun k' => rm_done k1 (k_next k) (VlinkPriv (vhdr_tag vhdr) (k_next k) root (64 + k_next k))
       (own_block M_ethvlink (virt_name vhdr) (upd_next (Z.add 64) k)) rd k') k1) as (k2 & E2 & [R1 R2 R3 R4 R5 R6 R7 R8]).
  { eapply wp_rm_dev; [done| |exact Hrm|done].
    eapply Forall_impl; [exact (vr_list _ _ _ _ _ _ _ _ _ Hrm)|]. intros x (w & Hw & _). by exists w. }
  assert (Hfresh : n_devs (k_net k) !! k_next k = None) by (apply below_next_fresh; apply (va_devs _ _ _ _ Hva)).
  assert (Hne : k_next k <> root) by (pose proof (va_real _ _ _ _ Hva) as (_ & [_ ?] & _); congruence).
  exists k2. split; [done|]. split; [done|]. simpl in *. rewrite R8, D7. simpl.
  rewrite R1, R2, R3, R4, D2, D3, D4, D8. rewrite !Z.add_assoc. rewrite !delete_insert_id by (by apply above_next).
  split; [|split; [|do 5 (split; [done|]); split]].
  - unfold root_after, last_on_root. simpl fb_ethvlink_vdevs.
    change (on_root (net_vdevs _ (net_ifindex _ ?n))) with (on_root n).
    rewrite (last_added (k_net k)); [|done| |].
    + apply map_eq. intros x. destruct (decide (x = k_next k)) as [->|].
      * by rewrite lookup_delete_eq, lookup_insert_ne.
      * rewrite lookup_delete_ne by done. destruct (decide (x = root)) as [->|]; [by rewrite !lookup_insert_eq|].
        by rewrite !lookup_insert_ne.
    + eapply Forall_impl; [exact Hlive|]. intros x (w & Hw & _). by exists w.
    + unfold on_root. simpl. rewrite lookup_insert_eq. simpl. apply Z.eqb_refl.
  - rewrite filter_cons_False by (intros Hx; by apply Hx). apply filter_all. intros x Hx ->.
    unfold carriers_live in Hlive. rewrite Forall_forall in Hlive.
    destruct (Hlive _ Hx) as (w & (_ & dx & Hdx & _) & _). congruence.
  - intros i. rewrite R6, D5. simpl. case_decide as E; [|done]. subst. symmetry. apply core_fresh_idp; [done|]. lia.
  - intros m. rewrite R7, D6. case_decide as E; [|done]. subst. by destruct (va_own _ _ _ _ Hva) as [[_ ->] _ _ _].
Qed.
End remove.

(** ** Hooking a carrier *)

Section hook.
Context `{Nm : NameMap, Ka : KernelApi}.

Definition hooked_root (d : net_device) : net_device :=
  fb_ethvlink_make_real_dev_hooked (with_rx_handler (Some M_ethvlink) d).

(** What the two commands do to the device they name. *)
Definition start_hook_spec (d : net_device) : Z * net_device :=
  if has_flag (nd_priv_flags d) IFF_VLINK_DEV then (NETLINK_VLINK_RX_EMERG, d)
  else if fb_ethvlink_real_dev_is_hooked d then (NETLINK_VLINK_RX_STOP, d)
  else match nd_rx_handler d with
       | Some _ => (NETLINK_VLINK_RX_EMERG, d)
       | None => (NETLINK_VLINK_RX_STOP, hooked_root d)
       end.

Definition stop_hook_spec (d : net_device) : Z * net_device :=
  if has_flag (nd_priv_flags d) IFF_VLINK_DEV then (NETLINK_VLINK_RX_EMERG, d)
  else if fb_ethvlink_real_dev_is_hooked d then (NETLINK_VLINK_RX_STOP, unhooked_root d)
  else (NETLINK_VLINK_RX_STOP, d).

Lemma bridged_is_vlink d :
  has_flag (nd_priv_flags d) IFF_VLINK_DEV = false -> fb_eth_dev_is_bridged d = false.
Proof.
  unfold fb_eth_dev_is_bridged, has_flag. intros H. apply Z.eqb_neq in H. apply Z.eqb_neq. intros E. apply H.
  change IFF_VLINK_DEV with (Z.land IFF_IS_BRIDGED IFF_VLINK_DEV) at 1. by rewrite Z.land_assoc, E.
Qed.

(** The device of the result, with the reference taken by the lookup dropped
    again. *)
Ltac dev_done d Hl :=
  match goal with H : ?Q _ ?k2 |- ?Q _ ?k1 => replace k1 with k2; [exact H|] end;
  kernel_eq; net_eq; [simpl; rewrite ?insert_insert_eq; f_equal; destruct d; cbv -[Z.add Z.sub Z.lor Z.ldiff]; f_equal; lia
                     |simpl; rewrite ?Hl; done..].

Lemma wp_start_root_hook k vhdr dev d (Q : Z -> kernel -> Prop) :
  vm_cmd vhdr = VLINKNLCMD_START_HOOK_DEVICE ->
  dev_by_name (c_str (vm_real_name vhdr)) (n_devs (k_net k)) = dev -> device k dev d ->
  n_rtnl (k_net k) = false -> n_todo (k_net k) = [] ->
  Q (start_hook_spec d).1 (upd_net (net_devs <[dev := (start_hook_spec d).2]>) k) ->
  wp (fb_ethvlink_start_hook_dev vhdr) Q k.
Proof.
  intros Hc Hf Hd Hl Ht HQ. pose proof Hd as [H0 Hdd]. unfold fb_ethvlink_start_hook_dev, start_hook_spec in *. rewrite Hc.
  change (VLINKNLCMD_START_HOOK_DEVICE =? VLINKNLCMD_START_HOOK_DEVICE) with true. cbn [negb]. wp_step.
  eapply wp_dev_get_by_name; [exact Hf|exact Hd|]. destruct (Z.eqb_spec dev 0); [done|]. wp_step.
  eapply wp_get_dev; [dev_found|].
  change (fb_eth_dev_is_bridged (with_refs _ d)) with (fb_eth_dev_is_bridged d).
  change (fb_ethvlink_real_dev_is_hooked (with_refs _ d)) with (fb_ethvlink_real_dev_is_hooked d). simpl nd_priv_flags.
  unfold dev_put. destruct (has_flag (nd_priv_flags d) IFF_VLINK_DEV) eqn:E1.
  { wp_step. dev_step. wp_step. dev_done d Hl. }
  rewrite (bridged_is_vlink d E1). destruct (fb_ethvlink_real_dev_is_hooked d).
  { wp_step. dev_step. wp_step. dev_done d Hl. }
  wp_step. apply wp_rtnl_lock; [done|]. wp_step. unfold netdev_rx_handler_register. wp_step.
  eapply wp_get_dev; [dev_found|]. simpl nd_rx_handler. destruct (nd_rx_handler d) eqn:E2.
  - wp_step. wp_step. apply wp_rtnl_unlock; [done|]. cbn [negb]. change (negb (- EBUSY =? 0)) with true. cbv iota.
    wp_step. dev_step. wp_step. dev_done d Hl.
  - wp_step. dev_step. wp_steps. apply wp_rtnl_unlock; [done|]. cbn [negb Z.eqb]. wp_step. dev_step. wp_step.
    dev_step. wp_step. dev_done d Hl.
Qed.

Lemma wp_stop_root_hook k vhdr dev d (Q : Z -> kernel -> Prop) :
  vm_cmd vhdr = VLINKNLCMD_STOP_HOOK_DEVICE ->
  dev_by_name (c_str (vm_real_name vhdr)) (n_devs (k_net k)) = dev -> device k dev d ->
  n_rtnl (k_net k) = false -> n_todo (k_net k) = [] ->
  Q (stop_hook_spec d).1 (upd_net (net_devs <[dev := (stop_hook_spec d).2]>) k) ->
  wp (fb_ethvlink_stop_hook_dev vhdr) Q k.
Proof.
  intros Hc Hf Hd Hl Ht HQ. pose proof Hd as [H0 Hdd]. unfold fb_ethvlink_stop_hook_dev, stop_hook_spec in *. rewrite Hc.
  change (VLINKNLCMD_STOP_HOOK_DEVICE =? VLINKNLCMD_STOP_HOOK_DEVICE) with true. cbn [negb]. wp_step.
  eapply wp_dev_get_by_name; [exact Hf|exact Hd|]. destruct (Z.eqb_spec dev 0); [done|]. wp_step.
  eapply wp_get_dev; [dev_found|].
  change (fb_ethvlink_real_dev_is_hooked (with_refs _ d)) with (fb_ethvlink_real_dev_is_hooked d). simpl nd_priv_flags.
  unfold dev_put. destruct (has_flag (nd_priv_flags d) IFF_VLINK_DEV) eqn:E1.
  { wp_step. dev_step. wp_step. dev_done d Hl. }
  destruct (fb_ethvlink_real_dev_is_hooked d); cbn [negb].
  - wp_step. eapply wp_unhook_root; [dev_found|done|done|]. wp_step. dev_step. wp_step. dev_done d Hl.
  - wp_step. dev_step. wp_step. dev_done d Hl.
Qed.

(** hooking and unhooking a carrier, on every branch.  A virtual device is
    refused, and so is one that has another receive handler; a device that is
    hooked already (or not hooked) is left alone; otherwise the device gets (or
    loses) the driver's handler and flag.  The references to the device are as
    before. *)
Theorem ethvlink_hooks_correct k vhdr dev d :
  dev_by_name (c_str (vm_real_name vhdr)) (n_devs (k_net k)) = dev -> device k dev d ->
  n_rtnl (k_net k) = false -> n_todo (k_net k) = [] ->
  (vm_cmd vhdr = VLINKNLCMD_START_HOOK_DEVICE -> fb_ethvlink_start_hook_dev vhdr k =
     Ret (start_hook_spec d).1 (upd_net (net_devs <[dev := (start_hook_spec d).2]>) k)) /\
  (vm_cmd vhdr = VLINKNLCMD_STOP_HOOK_DEVICE -> fb_ethvlink_stop_hook_dev vhdr k =
     Ret (stop_hook_spec d).1 (upd_net (net_devs <[dev := (stop_hook_spec d).2]>) k)).
Proof.
  intros Hf Hd Hl Ht. split; intros Hc.
  - destruct (wp_run_val _ _ (fun k' => k' = upd_net (net_devs <[dev := (start_hook_spec d).2]>) k) _
      (wp_start_root_hook k vhdr dev d _ Hc Hf Hd Hl Ht (conj eq_refl eq_refl))) as (k' & -> & ->). done.
  - destruct (wp_run_val _ _ (fun k' => k' = upd_net (net_devs <[dev := (stop_hook_spec d).2]>) k) _
      (wp_stop_root_hook k vhdr dev d _ Hc Hf Hd Hl Ht (conj eq_refl eq_refl))) as (k' & -> & ->). done.
Qed.
End hook.
