(* ===== verification/FbEthvlinkFrames.v ===== *)
(** * Frames and packets of the virtual devices (src/fb_ethvlink.c)

    Which virtual device a frame goes to, what becomes of it there, packets
    that are sent through a virtual device, and the statistics. *)
From Stdlib Require Import ZArith Lia.
From stdpp Require Import base gmap numbers countable list.
From S2P Require Import Prelude CString CritbitTree Vlink NameMap Types NetTypes Kernel NetDev EthvlinkDev Fblock FblockNs.
From S2P Require Import FblockLife FblockBind PerCpu FblockCtor Engine FbEthvlink Modules EngineProps EngineSinks ModuleLife.
From S2P Require Import UserctlProps NetDevProps FbEthProps FbEthvlinkProps.

Local Open Scope Z_scope.
Local Open Scope kernel_scope.

(** ** Which device *)

Section frames.
Context `{Nm : NameMap, Ka : KernelApi}.

(** The virtual device with the tag on the carrier. *)
Definition takes_tag (n : net_state) (tag : Z) (root : addr) (a : addr) : bool :=
  match n_devs n !! a with
  | Some d => match nd_virt d with Some v => (tag =? vd_tag v) && (root =? vd_real_dev v) | None => false end
  | None => false
  end.

Definition vdev_for (n : net_state) (tag : Z) (root : addr) : addr :=
  match list_find (fun a => takes_tag n tag root a = true) (fb_ethvlink_vdevs n) with
  | Some (_, a) => a
  | None => 0
  end.

Lemma find_vdev_run k tag root l :
  Forall (fun a => exists v, vdev_at (k_net k) a v) l ->
  find_vdev l tag root k =
    Ret (match list_find (fun a => takes_tag (k_net k) tag root a = true) l with Some (_, a) => a | None => 0 end) k.
Proof.
  induction 1 as [|a l (v & Hv) _ IH]; simpl; [done|]. rewrite (bind_run _ _ _ _ _ (netdev_priv_run k a v Hv)).
  destruct Hv as (_ & d & Hd & Hvv).
  assert (E : takes_tag (k_net k) tag root a = (tag =? vd_tag v) && (root =? vd_real_dev v))
    by (unfold takes_tag; by rewrite Hd, Hvv).
  rewrite E. destruct ((tag =? vd_tag v) && (root =? vd_real_dev v)) eqn:Eb; case_decide; try congruence; [done|].
  rewrite IH. by destruct (list_find _ l) as [[]|].
Qed.

Lemma this_ethvlink_priv_run k a l p :
  a <> 0 -> k_privs k !! a = Some (PrivEthvlink l) -> l !! k_cpu k = Some p -> this_ethvlink_priv a k = Ret p k.
Proof.
  intros Ha Hl Hp. unfold this_ethvlink_priv. erewrite bind_run by (by apply ethvlink_priv_run).
  unfold bind, get. by rewrite Hp.
Qed.

(** A virtual device with its block. *)
Record vlink_port (k : kernel) (a : addr) (v : fb_ethvlink_private) (b : fblock) (p : fb_ethvlink_private_inner) : Prop := {
  vp_dev : vdev_at (k_net k) a v /\ vd_self v = a;
  vp_block : vd_fb v <> 0 /\ k_fblocks k !! vd_fb v = Some b;
  vp_priv : fb_private_data b <> 0 /\ exists l, k_privs k !! fb_private_data b = Some (PrivEthvlink l) /\
            l !! k_cpu k = Some p;
}.

(** What the driver does once the engine has returned: the length of the packet
    is read again. *)
Definition count_rx (skb a : addr) (o : outcome Z) : outcome Z :=
  match o with
  | Ret _ k' =>
      match k_skbs k' !! skb with
      | Some s => (this_dstats a (dstats_rx (skb_len s));; ret RX_HANDLER_CONSUMED) k'
      | None => Crash (Bad_access skb)
      end
  | Crash f => Crash f
  end.

Lemma handle_virt_run k pkts hops skb s a v b p :
  packet k skb s -> vlink_port k a v b p ->
  fb_ethvlink_handle_frame_virt [] pkts hops skb a k =
    if port (vi_port p) TYPE_INGRESS =? IDP_UNKNOWN then Ret NET_RX_SUCCESS (upd_skbs (delete skb) k)
    else (process_packet pkts hops skb TYPE_INGRESS;; ret NET_RX_SUCCESS)
           (upd_skbs <[skb := write_next_idp_to_skb s (fb_idp b) (port (vi_port p) TYPE_INGRESS)]> k).
Proof.
  intros (H0 & Hs & Hu) [(Hv & _) (Hf0 & Hb) (Hp0 & l & Hl & Hp)]. unfold fb_ethvlink_handle_frame_virt.
  rewrite (bind_run _ _ _ _ _ (netdev_priv_run k a v Hv)). unfold get_fb.
  rewrite (bind_run _ _ _ _ _ (deref_run k_fblocks _ b k Hf0 Hb)).
  rewrite (bind_run _ _ _ _ _ (this_ethvlink_priv_run k _ l p Hp0 Hl Hp)). destruct (_ =? IDP_UNKNOWN).
  - by erewrite bind_run by (by eapply kfree_skb_run).
  - unfold mod_skb. rewrite bind_assoc. erewrite bind_run by (by apply get_skb_run). by erewrite bind_run by reflexivity.
Qed.

Lemma get_skb_gone k skb : skb <> 0 -> k_skbs k !! skb = None -> get_skb skb k = Crash (Bad_access skb).
Proof. intros H0 Hs. unfold get_skb, deref. destruct (Z.eqb_spec skb 0); [done|]. by rewrite Hs. Qed.

Lemma vlink_frame_run k pkts hops skb s rd :
  packet k skb s -> vdevs_live (k_net k) -> device k (ei_dev (skb_eth s)) rd ->
  let h := ei_proto (skb_eth s) in
  let a := vdev_for (k_net k) (proto_tag h) (ei_dev (skb_eth s)) in
  let freed := Ret RX_HANDLER_CONSUMED (upd_skbs (delete skb) k) in
  forall v b p, (a <> 0 -> vlink_port k a v b p) ->
  fb_ethvlink_handle_frame [] pkts hops skb k =
    if negb (has_flag (nd_flags rd) IFF_UP) then freed
    else if ei_pkt_type (skb_eth s) =? PACKET_LOOPBACK then Ret RX_HANDLER_PASS k
    else if negb (is_valid_ether_addr (ei_source (skb_eth s))) then freed
    else if negb (proto_is_lana h) then Ret RX_HANDLER_PASS k
    else if a =? 0 then freed
    else if port (vi_port p) TYPE_INGRESS =? IDP_UNKNOWN then Crash (Bad_access skb)
    else count_rx skb a (process_packet pkts hops skb TYPE_INGRESS
           (upd_skbs <[skb := write_next_idp_to_skb s (fb_idp b) (port (vi_port p) TYPE_INGRESS)]> k)).
Proof.
  intros Hpk Hlive Hrd h a freed v b p Hport. pose proof Hpk as (H0 & Hs & Hu). unfold fb_ethvlink_handle_frame.
  erewrite bind_run by (by apply get_skb_run). rewrite (bind_run _ _ _ _ _ (get_dev_run k _ rd Hrd)).
  assert (Hfree : (kfree_skb skb;; ret RX_HANDLER_CONSUMED) k = freed)
    by (by erewrite bind_run by (by eapply kfree_skb_run)).
  destruct (negb (has_flag _ _)); [done|]. destruct (_ =? PACKET_LOOPBACK); [done|].
  destruct (negb (is_valid_ether_addr _)); [done|].
  rewrite (bind_run _ _ _ _ _ (share_check_own k skb s Hpk)). destruct (Z.eqb_spec skb 0); [done|].
  erewrite bind_run by (by apply get_skb_run). fold h. destruct (negb (proto_is_lana h)); [done|].
  erewrite bind_run by reflexivity. rewrite (bind_run _ _ _ _ _ (find_vdev_run k _ _ _ Hlive)).
  fold (vdev_for (k_net k) (proto_tag h) (ei_dev (skb_eth s))). fold a.
  destruct (Z.eqb_spec a 0) as [|Hne]; [done|]. specialize (Hport Hne). pose proof Hport as [(Hv & Hself) _ _].
  rewrite (bind_run _ _ _ _ _ (netdev_priv_run k a v Hv)). unfold bind at 1.
  rewrite (handle_virt_run k pkts hops skb s a v b p Hpk Hport), Hself. destruct (_ =? IDP_UNKNOWN).
  - change (NET_RX_SUCCESS =? NET_RX_SUCCESS) with true. cbv iota. rewrite bind_assoc. unfold bind at 1.
    rewrite get_skb_gone; [done|done|apply lookup_delete_eq].
  - unfold bind at 1. destruct (process_packet _ _ _ _ _) as [r k'|f]; [|done]. cbn [count_rx ret].
    change (NET_RX_SUCCESS =? NET_RX_SUCCESS) with true. cbv iota. rewrite bind_assoc. unfold bind at 1.
    destruct (k_skbs k' !! skb) as [s'|] eqn:E; [by erewrite get_skb_run|by rewrite get_skb_gone].
Qed.

(** C32: a frame received on a hooked carrier, not shared with others: on a
    carrier that is down it is freed; a looped one, or one whose protocol is
    not the stack's, goes to the rest of the kernel; one with an invalid source
    address or a tag that no virtual device on this carrier has is freed; the
    others go to the virtual device with the tag, into the engine from the
    ingress port of its block, and are counted.  A frame for a device whose
    ingress port is not bound is freed and then accessed. *)
Theorem ethvlink_frame_correct k pkts hops skb s rd :
  packet k skb s -> vdevs_live (k_net k) -> device k (ei_dev (skb_eth s)) rd ->
  let h := ei_proto (skb_eth s) in
  let a := vdev_for (k_net k) (proto_tag h) (ei_dev (skb_eth s)) in
  let freed := Ret RX_HANDLER_CONSUMED (upd_skbs (delete skb) k) in
  forall v b p, (a <> 0 -> vlink_port k a v b p) ->
  fb_ethvlink_handle_frame [] pkts hops skb k =
    if negb (has_flag (nd_flags rd) IFF_UP) then freed
    else if ei_pkt_type (skb_eth s) =? PACKET_LOOPBACK then Ret RX_HANDLER_PASS k
    else if negb (is_valid_ether_addr (ei_source (skb_eth s))) then freed
    else if negb (proto_is_lana h) then Ret RX_HANDLER_PASS k
    else if a =? 0 then freed
    else if port (vi_port p) TYPE_INGRESS =? IDP_UNKNOWN then Crash (Bad_access skb)
    else count_rx skb a (process_packet pkts hops skb TYPE_INGRESS
           (upd_skbs <[skb := write_next_idp_to_skb s (fb_idp b) (port (vi_port p) TYPE_INGRESS)]> k)).
Proof. apply vlink_frame_run. Qed.
End frames.

(** ** Sending *)

Section sending.
Context `{Nm : NameMap, Ka : KernelApi}.

(** The block of a virtual device [a] on a real carrier, as the engine finds
    it. *)
Record vlink_sender (k : kernel) (fb : addr) (b : fblock) (a : addr) (v : fb_ethvlink_private)
    (vd : net_device) (st : list pcpu_dstats) (rd : net_device) : Prop := {
  vs_block : fb <> 0 /\ k_fblocks k !! fb = Some b;
  vs_priv : fb_private_data b <> 0 /\ exists l p, k_privs k !! fb_private_data b = Some (PrivEthvlink l) /\
            l !! k_cpu k = Some p /\ vi_vdev p = a;
  vs_dev : device k a vd /\ nd_virt vd = Some v /\ vd_self v = a /\ nd_dstats vd = Some st;
  vs_real : device k (vd_real_dev v) rd /\ nd_virt rd = None;
}.

(** The packet as the carrier gets it. *)
Definition tagged_out (b : fblock) (v : fb_ethvlink_private) (s : sk_buff) : sk_buff :=
  set_dev (vd_real_dev v) (write_next_idp_to_skb s (fb_idp b) IDP_UNKNOWN).

(** The packet sent and counted. *)
Definition sent_net (k : kernel) (a : addr) (v : fb_ethvlink_private) (vd rd : net_device) (st : list pcpu_dstats)
    (skb : addr) (out : sk_buff) : net_state :=
  net_devs (fun m => <[a := with_dstats (Some (alter (dstats_tx (skb_len out)) (k_cpu k) st)) vd]>
                       (<[vd_real_dev v := with_sent skb out rd]> m)) (k_net k).

Lemma this_dstats_run k a d st f :
  device k a d -> nd_dstats d = Some st ->
  this_dstats a f k = Ret tt (upd_net (net_devs <[a := with_dstats (Some (alter f (k_cpu k) st)) d]>) k).
Proof.
  intros Hd Hst. unfold this_dstats. rewrite (bind_run _ _ _ _ _ (get_dev_run k a d Hd)).
  erewrite bind_run by reflexivity. rewrite Hst. by apply mod_dev_run.
Qed.

Lemma start_xmit_run k n skb s a v vd st rd :
  packet k skb s -> device k a vd -> nd_virt vd = Some v -> nd_dstats vd = Some st ->
  device k (vd_real_dev v) rd -> nd_virt rd = None ->
  fb_ethvlink_start_xmit (dev_queue_xmit_at n) skb a k =
    if has_flag (nd_flags rd) IFF_UP && nd_late rd
    then Ret NET_XMIT_SUCCESS (upd_skbs <[skb := set_dev (vd_real_dev v) s]>
           (upd_net (fun _ => sent_net k a v vd rd st skb (set_dev (vd_real_dev v) s)) k))
    else Crash (Bad_access skb).
Proof.
  intros (H0 & Hs & Hu) Hd Hv Hst Hrd Hrv. pose proof Hd as [Ha0 Hda]. pose proof Hrd as [Hr0 Hrda].
  assert (Hne : a <> vd_real_dev v) by (intros E; rewrite E in Hda; congruence).
  unfold fb_ethvlink_start_xmit, fb_ethvlink_queue_xmit. set (out := set_dev (vd_real_dev v) s).
  assert (Hpk : packet (upd_skbs <[skb := out]> k) skb out) by (split; [done|]; split; [apply lookup_insert_eq|done]).
  assert (Hq : (dev_priv <- netdev_priv a;; mod_skb skb (set_dev (vd_real_dev dev_priv));; dev_queue_xmit_at n skb) k =
    Ret (if has_flag (nd_flags rd) IFF_UP then NET_XMIT_SUCCESS else NET_XMIT_CN)
      (dev_takes (vd_real_dev v) rd skb out (upd_skbs <[skb := out]> k))).
  { erewrite bind_run by (apply (netdev_priv_run k a v); split; [done|]; by exists vd).
    unfold mod_skb. rewrite bind_assoc. erewrite bind_run by (by apply get_skb_run). erewrite bind_run by reflexivity.
    etransitivity; [exact (xmit_real_run _ n skb out rd Hpk Hrd Hrv)|]. by apply phys_xmit_run. }
  rewrite (bind_run _ _ _ _ _ Hq). unfold dev_takes. destruct (has_flag (nd_flags rd) IFF_UP) eqn:Eup.
  - change (NET_XMIT_SUCCESS =? NET_XMIT_SUCCESS) with true. cbn [orb]. destruct (nd_late rd) eqn:El; cbn [andb].
    + rewrite bind_assoc. erewrite bind_run by (eapply get_skb_run; [done|apply lookup_insert_eq]).
      erewrite bind_run.
      2:{ apply (this_dstats_run _ a vd st); [|done]. split; [done|]. simpl. by rewrite lookup_insert_ne. }
      unfold ret. f_equal. kernel_eq. by rewrite insert_insert_eq.
    + rewrite bind_assoc. unfold bind at 1. rewrite get_skb_gone; [done|done|apply lookup_delete_eq].
  - change (NET_XMIT_CN =? NET_XMIT_SUCCESS) with false. change (NET_XMIT_CN =? NET_XMIT_CN) with true. cbn [orb andb].
    rewrite bind_assoc. unfold bind at 1. rewrite get_skb_gone; [done|done|apply lookup_delete_eq].
Qed.

Lemma xmit_virt_run k n skb s a v d :
  packet k skb s -> ei_dev (skb_eth s) = a -> device k a d -> nd_virt d = Some v ->
  dev_queue_xmit_at (S n) skb k =
    if has_flag (nd_flags d) IFF_UP then fb_ethvlink_start_xmit (dev_queue_xmit_at n) skb a k
    else Ret (- ENETDOWN) (upd_skbs (delete skb) k).
Proof.
  intros (H0 & Hs & Hu) <- Hd Hv. cbn [dev_queue_xmit_at]. erewrite bind_run by (by apply get_skb_run).
  rewrite (bind_run _ _ _ _ _ (get_dev_run k _ d Hd)), Hv. destruct (has_flag _ _); [done|].
  by erewrite bind_run by (by eapply kfree_skb_run).
Qed.

Lemma vlink_netrx_run k fb b a v vd st rd skb s dir :
  vlink_sender k fb b a v vd st rd -> packet k skb s ->
  let out := tagged_out b v s in
  fb_ethvlink_netrx fb skb dir k =
    if negb (has_flag (nd_flags vd) IFF_UP) then Ret (PPE_DROPPED, dir) (upd_skbs (delete skb) k)
    else if has_flag (nd_flags rd) IFF_UP && nd_late rd
    then Ret (PPE_DROPPED, dir) (upd_skbs <[skb := out]> (upd_net (fun _ => sent_net k a v vd rd st skb out) k))
    else Crash (Bad_access skb).
Proof.
  intros [(Hf0 & Hb) (Hp0 & l & p & Hl & Hp & Ea) (Hd & Hv & Hself & Hst) (Hrd & Hrv)] (H0 & Hs & Hu) out. subst a.
  unfold fb_ethvlink_netrx, get_fb. rewrite (bind_run _ _ _ _ _ (deref_run k_fblocks fb b k Hf0 Hb)).
  rewrite (bind_run _ _ _ _ _ (this_ethvlink_priv_run k _ l p Hp0 Hl Hp)).
  erewrite bind_run by (apply (netdev_priv_run k (vi_vdev p) v); split; [apply Hd|]; exists vd; split; [apply Hd|done]).
  unfold mod_skb. rewrite bind_assoc. erewrite bind_run by (by apply get_skb_run).
  erewrite bind_run by reflexivity. rewrite bind_assoc.
  erewrite bind_run by (eapply get_skb_run; [done|apply lookup_insert_eq]). erewrite bind_run by reflexivity.
  match goal with |- (dev_queue_xmit skb;; _) ?k0 = _ => set (k1 := k0) end.
  set (s1 := write_next_idp_to_skb (set_dev (vd_self v) s) (fb_idp b) IDP_UNKNOWN).
  assert (Hpk : packet k1 skb s1) by (split; [done|]; split; [apply lookup_insert_eq|done]).
  pose proof (xmit_virt_run k1 2 skb s1 (vi_vdev p) v vd Hpk Hself Hd Hv) as Hx. unfold bind at 1.
  change (dev_queue_xmit skb k1) with (dev_queue_xmit_at 3 skb k1). rewrite Hx.
  destruct (has_flag (nd_flags vd) IFF_UP); cbn [negb].
  - rewrite (start_xmit_run k1 2 skb s1 (vi_vdev p) v vd st rd Hpk Hd Hv Hst Hrd Hrv).
    destruct (_ && _); [|done]. unfold ret. f_equal. kernel_eq. by rewrite !insert_insert_eq.
  - unfold ret. f_equal. kernel_eq. by rewrite !delete_insert_eq.
Qed.


(** ** Statistics *)

(** The counters of a device over all CPUs. *)
Definition total (f : pcpu_dstats -> Z) (st : list pcpu_dstats) : Z := foldr (fun s n => f s + n) 0 st.

Lemma u64_idem a b : u64 (u64 a + b) = u64 (a + b).
Proof. unfold u64. by rewrite Zplus_mod_idemp_l. Qed.

Lemma stats64_fold st : forall x,
  fold_left stats64_add st x =
    match st with
    | [] => x
    | _ => Stats64 (u64 (st_tx_bytes x + total ds_tx_bytes st)) (u64 (st_tx_packets x + total ds_tx_packets st))
             (u64 (st_rx_bytes x + total ds_rx_bytes st)) (u64 (st_rx_packets x + total ds_rx_packets st))
    end.
Proof.
  induction st as [|s st IH]; intros x; [done|]. cbn [fold_left]. rewrite IH.
  destruct st as [|s' st]; [simpl; unfold stats64_add; by rewrite !Z.add_0_r|].
  cbn [stats64_add st_tx_bytes st_tx_packets st_rx_bytes st_rx_packets total foldr]. rewrite !u64_idem. f_equal; f_equal; lia.
Qed.

Lemma total_alter f g st cpu s n :
  st !! cpu = Some s -> u64 (f (g s)) = u64 (f s + n) -> u64 (total f (alter g cpu st)) = u64 (total f st + n).
Proof.
  intros Hs E. revert cpu Hs. induction st as [|s0 st IH]; intros [|cpu] Hs; [done..| |].
  - injection Hs as ->. simpl. rewrite <- u64_idem, E, u64_idem. f_equal. lia.
  - change (total f (alter g (S cpu) (s0 :: st))) with (f s0 + total f (alter g cpu st)).
    rewrite Z.add_comm, <- u64_idem, (IH cpu Hs), u64_idem. simpl. f_equal. lia.
Qed.

Definition no_stats : link_stats64 := Stats64 0 0 0 0.

Lemma get_stats64_run k a d st x :
  device k a d -> nd_dstats d = Some st -> fb_ethvlink_get_stats64 a x k = Ret (fold_left stats64_add st x) k.
Proof. intros Hd Hst. unfold fb_ethvlink_get_stats64. by rewrite (bind_run _ _ _ _ _ (get_dev_run k a d Hd)), Hst. Qed.

(** the statistics of a virtual device are the sums over the CPUs: a packet
    sent through the device, whatever CPU sends it, adds one packet and its
    length to what [fb_ethvlink_get_stats64] reports, modulo 2^64, and leaves
    the counts of what was received alone. *)
Theorem ethvlink_stats_sent k fb b a v vd st rd skb s dir :
  vlink_sender k fb b a v vd st rd -> packet k skb s -> (k_cpu k < length st)%nat ->
  has_flag (nd_flags vd) IFF_UP = true -> has_flag (nd_flags rd) IFF_UP && nd_late rd = true ->
  exists k' x x', fb_ethvlink_netrx fb skb dir k = Ret (PPE_DROPPED, dir) k' /\
    fb_ethvlink_get_stats64 a no_stats k = Ret x k /\ fb_ethvlink_get_stats64 a no_stats k' = Ret x' k' /\
    st_tx_packets x' = u64 (st_tx_packets x + 1) /\ st_tx_bytes x' = u64 (st_tx_bytes x + skb_len s) /\
    st_rx_packets x' = st_rx_packets x /\ st_rx_bytes x' = st_rx_bytes x.
Proof.
  intros Hvs Hpk Hcpu Hup Hlate. pose proof Hvs as [_ _ (Hd & _ & _ & Hst) _].
  assert (Hd0 : a <> 0) by apply Hd. set (out := tagged_out b v s).
  set (k' := upd_skbs <[skb := out]> (upd_net (fun _ => sent_net k a v vd rd st skb out) k)).
  exists k', (fold_left stats64_add st no_stats),
    (fold_left stats64_add (alter (dstats_tx (skb_len s)) (k_cpu k) st) no_stats).
  split; [by rewrite (vlink_netrx_run k fb b a v vd st rd skb s dir Hvs Hpk), Hup, Hlate|].
  split; [by eapply get_stats64_run|]. split.
  { eapply get_stats64_run; [split; [done|apply lookup_insert_eq]|done]. }
  destruct (lookup_lt_is_Some_2 _ _ Hcpu) as (s0 & Hs0). rewrite !stats64_fold.
  destruct st as [|s1 st']; [simpl in Hcpu; lia|]. set (st := s1 :: st') in *.
  assert (Hne : alter (dstats_tx (skb_len s)) (k_cpu k) st <> []) by (by destruct (k_cpu k)).
  destruct (alter _ _ st) as [|y l] eqn:E; [done|]. cbn [st_tx_bytes st_tx_packets st_rx_bytes st_rx_packets no_stats].
  rewrite <- E, !Z.add_0_l, !u64_idem. simpl skb_len.
  split; [|split; [|split]].
  - by apply (total_alter _ _ _ _ s0); [|apply Zmod_mod].
  - by apply (total_alter _ _ _ _ s0); [|apply Zmod_mod].
  - rewrite (total_alter _ _ _ _ s0 0); [by rewrite Z.add_0_r|done|by rewrite Z.add_0_r].
  - rewrite (total_alter _ _ _ _ s0 0); [by rewrite Z.add_0_r|done|by rewrite Z.add_0_r].
Qed.
End sending.

(** ** Events of the carrier *)

Section events.
Context `{Nm : NameMap, Ka : KernelApi}.

Lemma transfer_run k dev rd l :
  device k dev rd -> nd_virt rd = None ->
  Forall (fun a => exists v, vdev_at (k_net k) a v /\ vd_self v = a) l ->
  exists m, transfer_operstates l dev k = Ret tt (upd_net (net_devs (fun _ => m)) k) /\
    forall x, m !! x = if decide (x ∈ l /\ on_root (k_net k) dev x = true)
                       then netif_stacked_transfer_operstate rd <$> n_devs (k_net k) !! x else n_devs (k_net k) !! x.
Proof.
  intros Hrd Hrv HF. revert k Hrd HF. induction l as [|a l IH]; intros k Hrd HF.
  { exists (n_devs (k_net k)). split; [unfold ret; simpl; unfold ret; f_equal; kernel_eq; by net_eq|]. intros x.
    rewrite decide_False; [done|]. by rewrite elem_of_nil; intros [? _]. }
  inversion HF as [|? ? (v & Hv & Hself) HF']; subst. cbn [transfer_operstates].
  rewrite (bind_run _ _ _ _ _ (netdev_priv_run k (vd_self v) v Hv)). pose proof Hv as (Ha0 & d & Hd & Hvv).
  assert (Ho : on_root (k_net k) dev (vd_self v) = (dev =? vd_real_dev v)) by (unfold on_root; by rewrite Hd, Hvv).
  rewrite Z.eqb_sym in Ho. destruct (vd_real_dev v =? dev) eqn:E.
  - set (f := netif_stacked_transfer_operstate rd). set (k1 := upd_net (net_devs <[vd_self v := f d]>) k).
    assert (Hne : vd_self v <> dev) by (intros Ex; rewrite Ex in Hd; destruct Hrd; congruence).
    destruct (IH k1) as (m & Hm & Hlook).
    { split; [apply Hrd|]. simpl. rewrite lookup_insert_ne by done. apply Hrd. }
    { eapply Forall_impl; [exact HF'|]. intros x (w & Hw & Hws). exists w. split; [|done].
      by apply (vdev_at_same _ _ _ _ d). }
    exists m. split.
    { rewrite bind_assoc. rewrite (bind_run _ _ _ _ _ (get_dev_run k dev rd Hrd)).
      erewrite bind_run by (apply (mod_dev_run k (vd_self v) d); by split). fold f k1. by rewrite Hm. }
    intros x. rewrite Hlook.
    assert (Hon : on_root (k_net k1) dev x = on_root (k_net k) dev x).
    { unfold on_root. simpl. destruct (decide (x = vd_self v)) as [->|]; [by rewrite lookup_insert_eq, Hd|by rewrite lookup_insert_ne]. }
    rewrite Hon. simpl. destruct (decide (x = vd_self v)) as [->|Hx].
    + rewrite lookup_insert_eq, Hd, (decide_True (P := vd_self v ∈ vd_self v :: l /\ _)) by (split; [by left|done]).
      by destruct (decide _).
    + rewrite lookup_insert_ne by done. apply decide_ext. rewrite elem_of_cons. naive_solver.
  - destruct (IH k Hrd HF') as (m & Hm & Hlook). exists m. split; [exact Hm|]. intros x. rewrite Hlook.
    apply decide_ext. rewrite elem_of_cons. split; [naive_solver|]. intros [[->|Hx] Hon]; [congruence|done].
Qed.

Lemma carrier_change_run rm k dev rd :
  device k dev rd -> nd_virt rd = None ->
  Forall (fun a => exists v, vdev_at (k_net k) a v /\ vd_self v = a) (fb_ethvlink_vdevs (k_net k)) ->
  exists m, fb_ethvlink_dev_event rm NETDEV_CHANGE dev k = Ret NOTIFY_DONE (upd_net (net_devs (fun _ => m)) k) /\
    forall x, m !! x = if decide (x ∈ fb_ethvlink_vdevs (k_net k) /\ on_root (k_net k) dev x = true)
                       then netif_stacked_transfer_operstate rd <$> n_devs (k_net k) !! x else n_devs (k_net k) !! x.
Proof.
  intros Hrd Hrv HF. pose proof Hrd as [H0 _]. unfold fb_ethvlink_dev_event. destruct (Z.eqb_spec dev 0); [done|].
  erewrite bind_run by reflexivity. erewrite bind_run by reflexivity.
  match goal with |- exists m, bind _ _ ?k0 = _ /\ _ => destruct (transfer_run k0 dev rd (fb_ethvlink_vdevs (k_net k0)))
    as (m & Hm & Hlook); [done..|] end.
  exists m. rewrite (bind_run _ _ _ _ _ Hm). by split.
Qed.

(** when the state of a carrier changes, exactly the virtual devices on it
    take over its link: carrier and dormant state; nothing else changes. *)
Theorem ethvlink_carrier_change rm k dev rd :
  device k dev rd -> nd_virt rd = None ->
  Forall (fun a => exists v, vdev_at (k_net k) a v /\ vd_self v = a) (fb_ethvlink_vdevs (k_net k)) ->
  exists m, fb_ethvlink_dev_event rm NETDEV_CHANGE dev k = Ret NOTIFY_DONE (upd_net (net_devs (fun _ => m)) k) /\
    forall x, m !! x = if decide (x ∈ fb_ethvlink_vdevs (k_net k) /\ on_root (k_net k) dev x = true)
                       then netif_stacked_transfer_operstate rd <$> n_devs (k_net k) !! x else n_devs (k_net k) !! x.
Proof. apply carrier_change_run. Qed.

(** The name the driver looks for when it removes a device whose carrier goes
    away: the last character is cut. *)
Definition cut_name (name : cstr) : cstr := take (length name - 1) name.

Definition gone_msg (name : cstr) : vlinknlmsg :=
  Vmsg VLINKNLCMD_RM_DEVICE 0 0 0 (strlcpy (replicate IFNAMSIZ 0) name (length name)).2 (replicate IFNAMSIZ 0).

Lemma rm_unknown notify vhdr k :
  vm_cmd vhdr = VLINKNLCMD_RM_DEVICE -> no_name (n_devs (k_net k)) (c_str (vm_virt_name vhdr)) ->
  fb_ethvlink_rm_dev notify vhdr k = Ret NETLINK_VLINK_RX_EMERG k.
Proof.
  intros Hc Hn. unfold fb_ethvlink_rm_dev. rewrite Hc, Z.eqb_refl. cbn [negb]. unfold dev_get_by_name.
  rewrite bind_assoc. erewrite bind_run by reflexivity. rewrite (dev_by_name_none _ _ Hn). by erewrite bind_run by reflexivity.
Qed.

(** Cut to nothing, or to a name no device has. *)
Definition cut_unknown (n : net_state) (d : net_device) : Prop :=
  cstr_ok (nd_name d) /\ nd_name d <> [] /\ no_name (n_devs n) (cut_name (nd_name d)).

Lemma remove_cut_run k notify dev l :
  Forall (fun a => exists v d, vdev_at (k_net k) a v /\ vd_self v = a /\ n_devs (k_net k) !! a = Some d /\
                     cut_unknown (k_net k) d) l ->
  remove_vdevs (fb_ethvlink_rm_dev notify) l dev k = Ret tt k.
Proof.
  induction 1 as [|a l (v & d & Hv & Hself & Hd & Hok & Hne & Hcut) _ IH]; cbn [remove_vdevs]; [done|].
  rewrite (bind_run _ _ _ _ _ (netdev_priv_run k a v Hv)). assert (Ha : device k a d) by (split; [apply Hv|done]).
  assert (Hrm : (when vd_real_dev v =? dev do (d <- get_dev (vd_self v);;
    fb_ethvlink_rm_dev notify (gone_msg (nd_name d));; ret tt)) k = Ret tt k).
  { destruct (_ =? dev); [|done]. rewrite Hself, (bind_run _ _ _ _ _ (get_dev_run k a d Ha)).
    erewrite bind_run; [done|]. apply rm_unknown; [done|]. simpl. rewrite strlcpy_c_str; [done|done|].
    destruct (nd_name d); simpl; [done|lia]. }
  erewrite bind_run by exact Hrm. by rewrite (bind_run _ _ _ _ _ (get_dev_run k a d Ha)).
Qed.

(** a carrier that goes away leaves its virtual devices behind.  The
    driver means to remove them but looks for their names without the last
    character: unless such a shortened name is that of another device, nothing
    is removed and the devices keep pointing to the carrier. *)
Theorem ethvlink_carrier_gone k notify dev rd :
  device k dev rd -> nd_reg rd = NETREG_UNREGISTERING -> n_vdevs_lock (k_net k) = false ->
  Forall (fun a => exists v d, vdev_at (k_net k) a v /\ vd_self v = a /\ n_devs (k_net k) !! a = Some d /\
                     cut_unknown (k_net k) d) (fb_ethvlink_vdevs (k_net k)) ->
  fb_ethvlink_dev_event (fb_ethvlink_rm_dev notify) NETDEV_UNREGISTER dev k = Ret NOTIFY_DONE k.
Proof.
  intros Hrd Hr Hl HF. pose proof Hrd as [H0 _]. unfold fb_ethvlink_dev_event. destruct (Z.eqb_spec dev 0); [done|].
  rewrite (bind_run _ _ _ _ _ (get_dev_run k dev rd Hrd)). rewrite bool_decide_true by done. cbn [negb].
  erewrite bind_run by reflexivity. rewrite Hl. do 2 erewrite bind_run by reflexivity.
  erewrite bind_run by (by apply remove_cut_run). erewrite bind_run by reflexivity. unfold ret. f_equal.
  kernel_eq. net_eq. simpl. done.
Qed.
End events.
