(* ===== verification/EthvlinkWf.v ===== *)
(** * The table of virtual devices (src/fb_ethvlink.c): well-formedness

    What the driver relies on wherever it follows a pointer of a virtual device,
    and that each of its operations keeps it. *)
From Stdlib Require Import ZArith Lia.
From stdpp Require Import base gmap numbers countable list.
From S2P Require Import Prelude CString CritbitTree Vlink NameMap Types NetTypes Kernel NetDev EthvlinkDev Fblock FblockNs.
From S2P Require Import FblockLife FblockBind PerCpu FblockCtor Engine FbEthvlink Modules EngineProps EngineSinks ModuleLife.
From S2P Require Import UserctlProps NetDevProps FbEthProps FbEthvlinkProps FbEthvlinkFrames.

Local Open Scope Z_scope.
Local Open Scope kernel_scope.

(** A listed virtual device: it is there, its private data lead back to it, its
    tag fits in 10 bits, and its carrier is there and real. *)
Definition vdev_ok (n : net_state) (a : addr) (v : fb_ethvlink_private) : Prop :=
  vdev_at n a v /\ vd_self v = a /\ 0 <= vd_tag v < 1024 /\
  exists rd, n_devs n !! vd_real_dev v = Some rd /\ nd_virt rd = None.

(** All listed devices are well formed, listed once, and no two have the same
    tag. *)
Record vlink_wf (n : net_state) : Prop := {
  wf_devs : Forall (fun a => exists v, vdev_ok n a v) (fb_ethvlink_vdevs n);
  wf_once : NoDup (fb_ethvlink_vdevs n);
  wf_tags a b v w : a ∈ fb_ethvlink_vdevs n -> b ∈ fb_ethvlink_vdevs n ->
    vdev_at n a v -> vdev_at n b w -> vd_tag v = vd_tag w -> a = b;
}.

Lemma vdev_at_fun n a v w : vdev_at n a v -> vdev_at n a w -> v = w.
Proof. intros (_ & d & Hd & Hv) (_ & d' & Hd' & Hw). congruence. Qed.

(** Two tables that agree on what the devices are. *)
Definition same_kinds (m m' : gmap addr net_device) : Prop := forall a, nd_virt <$> m' !! a = nd_virt <$> m !! a.

Lemma same_kinds_update m a d d' : m !! a = Some d -> nd_virt d' = nd_virt d -> same_kinds m (<[a := d']> m).
Proof.
  intros Ha E x. destruct (decide (x = a)) as [->|]; [by rewrite lookup_insert_eq, Ha; simpl; rewrite E|].
  by rewrite lookup_insert_ne.
Qed.

Lemma same_kinds_trans m m' m'' : same_kinds m m' -> same_kinds m' m'' -> same_kinds m m''.
Proof. intros H H' a. by rewrite H', H. Qed.

Lemma vdev_at_kinds n n' a v : same_kinds (n_devs n) (n_devs n') -> vdev_at n' a v <-> vdev_at n a v.
Proof.
  intros Hk. unfold vdev_at. specialize (Hk a).
  split; intros (H0 & d & Hd & Hv); (split; [done|]); rewrite Hd in Hk; simpl in Hk; rewrite Hv in Hk.
  - destruct (n_devs n !! a) as [d'|]; [|done]. simpl in Hk. exists d'. split; [done|]. congruence.
  - destruct (n_devs n' !! a) as [d'|]; [|done]. simpl in Hk. exists d'. split; [done|]. congruence.
Qed.

Lemma wf_kinds n n' :
  vlink_wf n -> same_kinds (n_devs n) (n_devs n') -> fb_ethvlink_vdevs n' = fb_ethvlink_vdevs n -> vlink_wf n'.
Proof.
  intros [Hd Ho Ht] Hk El. split.
  - rewrite El. eapply Forall_impl; [exact Hd|]. intros a (v & Hv & Hs & Hr & rd & Hrd & Hrv). exists v.
    split; [by apply (vdev_at_kinds n)|]. split; [done|]. split; [done|]. pose proof (Hk (vd_real_dev v)) as E.
    rewrite Hrd in E. simpl in E. rewrite Hrv in E. destruct (n_devs n' !! vd_real_dev v) as [rd'|]; [|done].
    simpl in E. exists rd'. split; [done|]. congruence.
  - by rewrite El.
  - intros a b v w. rewrite El, !(vdev_at_kinds n n') by done. apply Ht.
Qed.

(** One more device, at a new address. *)
Lemma wf_add n n' a d v :
  vlink_wf n -> n_devs n !! a = None -> a <> 0 -> nd_virt d = Some v -> vd_self v = a -> 0 <= vd_tag v < 1024 ->
  tag_free n (vd_tag v) -> (exists rd, n_devs n !! vd_real_dev v = Some rd /\ nd_virt rd = None) ->
  n_devs n' = <[a := d]> (n_devs n) -> fb_ethvlink_vdevs n' = a :: fb_ethvlink_vdevs n -> vlink_wf n'.
Proof.
  intros [Hd Ho Ht] Ha H0 Hv Hs Hr Hfree (rd & Hrd & Hrv) En El. rewrite Forall_forall in Hd.
  assert (Hat : forall x w, vdev_at n x w -> vdev_at n' x w).
  { intros x w (Hx & dx & Hdx & Hw). split; [done|]. exists dx. rewrite En, lookup_insert_ne; [done|]. intros ->. congruence. }
  assert (Hreal : forall x rx, n_devs n !! x = Some rx -> n_devs n' !! x = Some rx).
  { intros x rx Hx. rewrite En, lookup_insert_ne; [done|]. intros ->. congruence. }
  assert (Hnew : vdev_at n' a v) by (split; [done|]; exists d; by rewrite En, lookup_insert_eq).
  unfold tag_free in Hfree. rewrite Forall_forall in Hfree.
  assert (Hold : forall x w, x ∈ fb_ethvlink_vdevs n -> vdev_at n' x w -> vdev_at n x w).
  { intros x w Hx Hw. destruct (Hd x Hx) as (w' & Hw' & _). by rewrite (vdev_at_fun n' x w w'); [|done|apply Hat]. }
  split; rewrite ?El.
  - constructor.
    + exists v. do 3 (split; [done|]). exists rd. split; [by apply Hreal|done].
    + apply Forall_forall. intros x Hx. destruct (Hd x Hx) as (w & Hw & Hws & Hwr & rx & Hrx & Hrxv). exists w.
      split; [by apply Hat|]. do 2 (split; [done|]). exists rx. split; [by apply Hreal|done].
  - constructor; [|done]. intros Hin. destruct (Hd a Hin) as (w & (_ & dx & Hdx & _) & _). congruence.
  - assert (Hne : forall x w, x ∈ fb_ethvlink_vdevs n -> vdev_at n' x w -> vd_tag w <> vd_tag v).
    { intros x w Hx Hw. destruct (Hfree x Hx) as (w' & Hw' & Hn). rewrite (vdev_at_fun n x w w'); [done|by apply Hold|done]. }
    intros x y vx vy Hx Hy Hvx Hvy E. apply elem_of_cons in Hx as [->|Hx], Hy as [->|Hy]; [done|..].
    + rewrite (vdev_at_fun n' a vx v) in E by done. by destruct (Hne y vy).
    + rewrite (vdev_at_fun n' a vy v) in E by done. by destruct (Hne x vx).
    + apply (Ht x y vx vy); try done; by apply Hold.
Qed.

(** A virtual device less: it is nobody's carrier. *)
Lemma wf_remove n n' a d v :
  vlink_wf n -> n_devs n !! a = Some d -> nd_virt d = Some v ->
  same_kinds (delete a (n_devs n)) (n_devs n') -> fb_ethvlink_vdevs n' = filter (.≠ a) (fb_ethvlink_vdevs n) -> vlink_wf n'.
Proof.
  intros [Hd Ho Ht] Ha Hv Hk El. rewrite Forall_forall in Hd.
  assert (Hwf : vlink_wf (net_vdevs (filter (.≠ a)) (net_devs (delete a) n))).
  { assert (Hat : forall x w, x <> a -> vdev_at (net_devs (delete a) n) x w <-> vdev_at n x w).
    { intros x w Hx. unfold vdev_at. simpl. by rewrite lookup_delete_ne. }
    split; simpl.
    - apply Forall_forall. intros x. rewrite list_elem_of_filter. intros [Hx Hin].
      destruct (Hd x Hin) as (w & Hw & Hs & Hr & rd & Hrd & Hrv). exists w. split; [by apply Hat|]. do 2 (split; [done|]).
      exists rd. simpl. rewrite lookup_delete_ne; [done|]. intros E. congruence.
    - by apply NoDup_filter.
    - intros x y vx vy. rewrite !list_elem_of_filter. intros [Hx Hix] [Hy Hiy] Hvx Hvy.
      apply (Ht x y vx vy); try done; by apply Hat. }
  by apply (wf_kinds _ n' Hwf).
Qed.

Section operations.
Context `{Nm : NameMap, Ka : KernelApi}.

Lemma root_after_kind n root rd : nd_virt (root_after n root rd) = nd_virt rd.
Proof. unfold root_after. by destruct (_ && _). Qed.

Lemma start_hook_kind d : nd_virt (start_hook_spec d).2 = nd_virt d.
Proof. unfold start_hook_spec. repeat case_match; done. Qed.

Lemma stop_hook_kind d : nd_virt (stop_hook_spec d).2 = nd_virt d.
Proof. unfold stop_hook_spec. repeat case_match; done. Qed.

Lemma upd_kind k a d d' :
  vlink_wf (k_net k) -> n_devs (k_net k) !! a = Some d -> nd_virt d' = nd_virt d ->
  vlink_wf (k_net (upd_net (net_devs <[a := d']>) k)).
Proof. intros Hw Ha E. apply (wf_kinds (k_net k)); [done| |done]. by apply (same_kinds_update _ a d). Qed.

Lemma wf_after_add k vhdr root rd k' :
  0 < k_next k -> vlink_wf (k_net k) -> vaddable k vhdr root rd -> nd_virt rd = None -> add_done k vhdr root rd k' ->
  vlink_wf (k_net k').
Proof.
  intros Hpos Hw Hva Hrv [_ _ _ _ _ _ D7 _ _]. rewrite D7. destruct Hva as [_ _ (_ & [_ Hr] & _) Htag _ _ Hdevs].
  eapply (wf_add (k_net k) _ (k_next k) (new_vdev k vhdr root rd (64 + k_next k))); try done.
  - by apply below_next_fresh.
  - lia.
  - apply vhdr_tag_range.
  - by exists rd.
Qed.

Lemma wf_after_rm k vhdr dev d v b p c rd k' :
  vlink_wf (k_net k) -> vremovable k vhdr dev d v b p c rd -> rm_done k dev v b rd k' -> vlink_wf (k_net k').
Proof.
  intros Hw [_ _ ([_ Hd] & Hv & _) _ _ (Hne & [_ Hrd]) _ _ _] [_ _ _ _ _ _ _ R8]. rewrite R8.
  eapply (wf_remove (k_net k) _ dev d v); [done|done|done| |done]. simpl. intros x.
  destruct (decide (x = dev)) as [->|]; [by rewrite !lookup_delete_eq|]. rewrite !lookup_delete_ne by done.
  by apply (same_kinds_update _ _ rd); [|apply root_after_kind].
Qed.

(** C30: the table of virtual devices stays well formed: every device in the
    list is there, leads back to itself, has a tag of 10 bits that no other has,
    and its carrier is there and is a real device.  Adding a device, removing
    one, hooking and unhooking a carrier, sending a packet through a device and
    a change of a carrier all keep this. *)
Theorem ethvlink_wf_preserved k notify n :
  core_ok k -> vlink_wf (k_net k) ->
  (forall vhdr root rd, vaddable k vhdr root rd -> nd_virt rd = None ->
     exists k', fb_ethvlink_add_dev notify vhdr k = Ret NETLINK_VLINK_RX_STOP k' /\ vlink_wf (k_net k')) /\
  (forall vhdr dev d v b p c rd, vremovable k vhdr dev d v b p c rd ->
     exists k', fb_ethvlink_rm_dev (fb_ethvlink_notify (S n)) vhdr k = Ret NETLINK_VLINK_RX_STOP k' /\ vlink_wf (k_net k')) /\
  (forall vhdr dev d, dev_by_name (c_str (vm_real_name vhdr)) (n_devs (k_net k)) = dev -> device k dev d ->
     n_rtnl (k_net k) = false -> n_todo (k_net k) = [] ->
     (vm_cmd vhdr = VLINKNLCMD_START_HOOK_DEVICE ->
      exists r k', fb_ethvlink_start_hook_dev vhdr k = Ret r k' /\ vlink_wf (k_net k')) /\
     (vm_cmd vhdr = VLINKNLCMD_STOP_HOOK_DEVICE ->
      exists r k', fb_ethvlink_stop_hook_dev vhdr k = Ret r k' /\ vlink_wf (k_net k'))) /\
  (forall fb b a v vd st rd skb s dir r k', vlink_sender k fb b a v vd st rd -> packet k skb s ->
     fb_ethvlink_netrx fb skb dir k = Ret r k' -> vlink_wf (k_net k')) /\
  (forall rm dev rd, device k dev rd -> nd_virt rd = None ->
     exists k', fb_ethvlink_dev_event rm NETDEV_CHANGE dev k = Ret NOTIFY_DONE k' /\ vlink_wf (k_net k')).
Proof.
  intros Hk Hw. pose proof (heap_next k (core_heap k Hk)) as Hpos. split; [|split; [|split; [|split]]].
  - intros vhdr root rd Hva Hrv. apply wp_run_val. eapply wp_add_dev; [done|exact Hva|]. intros k' Hd. split; [done|].
    by apply (wf_after_add k vhdr root rd).
  - intros vhdr dev d v b p c rd Hvr. apply wp_run_val. eapply wp_rm_dev; [done| |exact Hvr|].
    { eapply Forall_impl; [apply Hw|]. intros a (w & Hw' & _). by exists w. }
    intros k' Hd. split; [done|]. by apply (wf_after_rm k vhdr dev d v b p c rd).
  - intros vhdr dev d Hf Hd Hl Ht. split; intros Hc.
    + exists (start_hook_spec d).1. apply wp_run_val. eapply wp_start_root_hook; [done..|]. split; [done|].
      apply (upd_kind k dev d); [done|apply Hd|apply start_hook_kind].
    + exists (stop_hook_spec d).1. apply wp_run_val. eapply wp_stop_root_hook; [done..|]. split; [done|].
      apply (upd_kind k dev d); [done|apply Hd|apply stop_hook_kind].
  - intros fb b a v vd st rd skb s dir r k' Hvs Hpk Hrun. pose proof Hvs as [_ _ ([_ Hd] & Hv & _) ([_ Hrd] & Hrv)].
    rewrite (vlink_netrx_run k fb b a v vd st rd skb s dir Hvs Hpk) in Hrun.
    destruct (negb _); [by injection Hrun as <- <-|]. destruct (_ && _); [|done]. injection Hrun as <- <-.
    apply (wf_kinds (k_net k)); [done| |done]. simpl.
    assert (Hne : a <> vd_real_dev v) by (intros E; rewrite E in Hd; congruence).
    eapply same_kinds_trans; [by apply (same_kinds_update _ (vd_real_dev v) rd (with_sent skb (tagged_out b v s) rd))|].
    by apply (same_kinds_update _ a vd); [rewrite lookup_insert_ne|].
  - intros rm dev rd Hrd Hrv. destruct (carrier_change_run rm k dev rd Hrd Hrv) as (m & Hm & Hlook).
    { eapply Forall_impl; [apply Hw|]. intros a (w & Hw' & Hs & _). by exists w. }
    eexists. split; [exact Hm|]. apply (wf_kinds (k_net k)); [done| |done]. simpl. intros x. rewrite Hlook.
    destruct (decide _); [|done]. by destruct (n_devs (k_net k) !! x).
Qed.
End operations.
