(* ===== verification/FbPflanaProps.v ===== *)
(** * Properties of the sockets (src/fb_pflana.c)

    What reaches a socket's block is queued and read in order, what is sent
    goes to the block of the egress port, and the life of a socket. *)
From Stdlib Require Import ZArith Lia.
From stdpp Require Import base gmap numbers countable list.
From S2P Require Import Prelude CString CritbitTree Vlink NameMap Types NetTypes Kernel NetDev EthvlinkDev Fblock FblockNs.
From S2P Require Import FblockLife FblockBind PerCpu FblockCtor Engine FbPflana Modules EngineProps EngineSinks ModuleLife.
From S2P Require Import UserctlProps NetDevProps.

Local Open Scope Z_scope.
Local Open Scope kernel_scope.

(** ** Receiving *)

Section recv.
Context `{Nm : NameMap, Ka : KernelApi}.

Definition sock_at (k : kernel) (sk : addr) (s : lana_sock) : Prop := sk <> 0 /\ pf_socks (pf k) !! sk = Some s.

Lemma get_sk_run k sk s : sock_at k sk s -> get_sk sk k = Ret s k.
Proof. intros [H0 Hs]. by apply (deref_run (fun k => pf_socks (pf k))). Qed.

Lemma mod_sk_run k sk s f : sock_at k sk s -> mod_sk sk f k = Ret tt (upd_pf (socks_of <[sk := f s]>) k).
Proof. intros Hs. unfold mod_sk. by rewrite (bind_run _ _ _ _ _ (get_sk_run k sk s Hs)). Qed.

Lemma mod_skb_run k skb s f :
  skb <> 0 -> k_skbs k !! skb = Some s -> mod_skb skb f k = Ret tt (upd_skbs <[skb := f s]> k).
Proof. intros H0 Hs. unfold mod_skb. by erewrite bind_run by (by apply get_skb_run). Qed.

Lemma this_pflana_priv_run k a l p :
  a <> 0 -> k_privs k !! a = Some (PrivPflana l) -> l !! k_cpu k = Some p -> this_pflana_priv a k = Ret p k.
Proof.
  intros Ha Hl Hp. unfold this_pflana_priv. erewrite bind_run by (by apply pflana_priv_run).
  unfold bind, get. by rewrite Hp.
Qed.

(** A socket with its block. *)
Record sock_port (k : kernel) (fb : addr) (b : fblock) (p : fb_pflana_priv) (so : lana_sock) : Prop := {
  sp_block : fb <> 0 /\ k_fblocks k !! fb = Some b;
  sp_priv : fb_private_data b <> 0 /\ exists l, k_privs k !! fb_private_data b = Some (PrivPflana l) /\
            l !! k_cpu k = Some p;
  sp_sock : sock_at k (pp_sock_self p) so;
}.

(** There is room for a packet of the length. *)
Definition room (k : kernel) (so : lana_sock) (len : Z) : bool :=
  negb (sk_rcvbuf so <=? rmem k (sk_receive_queue so) + skb_truesize len).

(** The packet in the queue. *)
Definition taken_in (b : fblock) (s : sk_buff) : sk_buff :=
  write_next_idp_to_skb (set_dev 0 s) (fb_idp b) IDP_UNKNOWN.

Definition queued (skb : addr) (so : lana_sock) : lana_sock := with_sk_queue (sk_receive_queue so ++ [skb]) so.

Definition sock_takes (k : kernel) (sk : addr) (so : lana_sock) (b : fblock) (skb : addr) (s : sk_buff) : kernel :=
  if room k so (skb_len s)
  then upd_skbs <[skb := taken_in b s]> (upd_pf (socks_of <[sk := queued skb so]>) k)
  else upd_skbs <[skb := write_next_idp_to_skb s (fb_idp b) IDP_UNKNOWN]> k.

Lemma sock_queue_run k sk so skb s :
  sock_at k sk so -> packet k skb s ->
  sock_queue_rcv_skb sk skb k =
    if room k so (skb_len s)
    then Ret 0 (upd_pf (socks_of <[sk := queued skb so]>) (upd_skbs <[skb := set_dev 0 s]> k))
    else Ret (- ENOMEM) k.
Proof.
  intros Hso (H0 & Hs & Hu). unfold sock_queue_rcv_skb, room. rewrite (bind_run _ _ _ _ _ (get_sk_run k sk so Hso)).
  erewrite bind_run by (by apply get_skb_run). erewrite bind_run by reflexivity. destruct (_ <=? _); [done|]. cbn [negb].
  erewrite bind_run by (by apply mod_skb_run). by erewrite bind_run by (by apply (mod_sk_run _ sk so)).
Qed.

Lemma pflana_netrx_run k fb b p so skb s dir :
  sock_port k fb b p so -> packet k skb s ->
  fb_pflana_netrx fb skb dir k = Ret (PPE_DROPPED, dir) (sock_takes k (pp_sock_self p) so b skb s).
Proof.
  intros [(H0 & Hb) (Hp0 & l & Hl & Hp) Hso] Hpk. pose proof Hpk as (Hs0 & Hs & Hu). unfold fb_pflana_netrx, get_fb.
  rewrite (bind_run _ _ _ _ _ (deref_run k_fblocks fb b k H0 Hb)).
  rewrite (bind_run _ _ _ _ _ (this_pflana_priv_run k _ l p Hp0 Hl Hp)).
  erewrite bind_run by (by apply get_skb_run). rewrite Hu. cbn [negb Z.eqb Pos.eqb]. rewrite bind_assoc.
  unfold bind at 1. rewrite (sock_queue_run k _ so skb s Hso Hpk). unfold sock_takes. destruct (room _ _ _).
  - erewrite bind_run by reflexivity. erewrite bind_run by (apply mod_skb_run; [done|apply lookup_insert_eq]).
    unfold ret. f_equal. kernel_eq. by rewrite insert_insert_eq.
  - erewrite bind_run by reflexivity. by erewrite bind_run by (by apply mod_skb_run).
Qed.

(** a packet that the engine brings to a socket's block, not shared with
    others, is put at the end of the socket's receive queue with its data
    unchanged if the limit of the queue allows it.  If not, it is put into no
    queue and not freed either. *)
Theorem pflana_netrx_correct k fb b p so skb s dir :
  sock_port k fb b p so -> packet k skb s ->
  fb_pflana_netrx fb skb dir k = Ret (PPE_DROPPED, dir)
    (if room k so (skb_len s)
     then upd_skbs <[skb := taken_in b s]> (upd_pf (socks_of <[pp_sock_self p := queued skb so]>) k)
     else upd_skbs <[skb := write_next_idp_to_skb s (fb_idp b) IDP_UNKNOWN]> k).
Proof. apply pflana_netrx_run. Qed.

(** What the caller of [recvmsg] gets from a packet. *)
Definition read_msg (p : sk_buff) (fl len copy_err : Z) : Z * list Z * Z :=
  (if copy_err =? 0 then Z.min len (skb_len p) else copy_err,
   if copy_err =? 0 then take (Z.to_nat (Z.min len (skb_len p))) (skb_data p) else [],
   if len <? skb_len p then Z.lor fl MSG_TRUNC else fl).

Lemma recvmsg_run k sk so skb q p fl len flags wait copy_err :
  sock_at k sk so -> sk_receive_queue so = skb :: q -> packet k skb p ->
  lana_proto_recvmsg sk fl len flags wait copy_err k =
    Ret (read_msg p fl len copy_err)
      (if has_flag flags MSG_PEEK then k
       else upd_skbs (delete skb) (upd_pf (socks_of <[sk := with_sk_queue q so]>) k)).
Proof.
  intros Hso Hq (H0 & Hs & Hu). unfold lana_proto_recvmsg, skb_recv_datagram. rewrite !bind_assoc.
  rewrite (bind_run _ _ _ _ _ (get_sk_run k sk so Hso)), Hq.
  assert (Hres : forall k1 k2 p1, k_skbs k1 !! skb = Some p1 -> skb_len p1 = skb_len p -> skb_data p1 = skb_data p ->
    kfree_skb skb k1 = Ret tt k2 ->
    (p <- get_skb skb;;
     let trunc := len <? skb_len p in
     let copied := if trunc then len else skb_len p in
     let msg_fl := if trunc then Z.lor fl MSG_TRUNC else fl in
     kfree_skb skb;;
     ret (if copy_err =? 0 then copied else copy_err,
          if copy_err =? 0 then take (Z.to_nat copied) (skb_data p) else [], msg_fl)) k1 =
    Ret (read_msg p fl len copy_err) k2).
  { intros k1 k2 p1 H1 El Ed Hf. erewrite bind_run by (by apply get_skb_run). cbv zeta. rewrite El, Ed.
    rewrite (bind_run _ _ _ _ _ Hf). unfold read_msg, ret.
    destruct (Z.ltb_spec len (skb_len p)); [rewrite Z.min_l by lia|rewrite Z.min_r by lia]; done. }
  destruct (has_flag flags MSG_PEEK).
  - rewrite bind_assoc. erewrite bind_run by (by apply mod_skb_run). erewrite bind_run by reflexivity.
    cbv beta iota. destruct (Z.eqb_spec skb 0); [done|]. eapply Hres; [apply lookup_insert_eq|done|done|].
    unfold kfree_skb. erewrite bind_run by (apply get_skb_run; [done|apply lookup_insert_eq]). simpl. rewrite Hu.
    change (1 + 1 =? 1) with false. cbv iota. unfold upd. f_equal. kernel_eq. rewrite insert_insert_eq. apply insert_id.
    rewrite Hs. f_equal. destruct p. simpl in *. by subst.
  - rewrite bind_assoc. rewrite (bind_run _ _ _ _ _ (mod_sk_run k sk so _ Hso)). erewrite bind_run by reflexivity.
    cbv beta iota. destruct (Z.eqb_spec skb 0); [done|]. by eapply (Hres _ _ p); [..|eapply kfree_skb_run].
Qed.

(** C36: reading from a socket.  From an empty queue the caller gets the error of
    waiting, or the end of file after a shutdown.  Otherwise it gets the oldest
    packet, cut to its buffer with a mark that says so; the packet is taken off
    the queue and freed, also when it cannot be copied out, unless the caller
    only peeks: then everything stays as it was. *)
Theorem pflana_recvmsg_correct k sk so fl len flags wait copy_err :
  sock_at k sk so ->
  match sk_receive_queue so with
  | [] => lana_proto_recvmsg sk fl len flags wait copy_err k =
            Ret (if negb (Z.land (sk_shutdown so) RCV_SHUTDOWN =? 0) then 0 else wait, [], fl) k
  | skb :: q => forall p, packet k skb p ->
      lana_proto_recvmsg sk fl len flags wait copy_err k =
        Ret (read_msg p fl len copy_err)
          (if has_flag flags MSG_PEEK then k
           else upd_skbs (delete skb) (upd_pf (socks_of <[sk := with_sk_queue q so]>) k))
  end.
Proof.
  intros Hso. destruct (sk_receive_queue so) as [|skb q] eqn:Hq; [|intros p Hp; by apply recvmsg_run].
  unfold lana_proto_recvmsg, skb_recv_datagram. rewrite bind_assoc.
  rewrite (bind_run _ _ _ _ _ (get_sk_run k sk so Hso)), Hq. erewrite bind_run by reflexivity. cbn [Z.eqb].
  by rewrite (bind_run _ _ _ _ _ (get_sk_run k sk so Hso)).
Qed.

(** ** Delivery *)

Lemma rmem_other k k' q :
  (forall a, a ∈ q -> k_skbs k' !! a = k_skbs k !! a) -> rmem k' q = rmem k q.
Proof.
  intros H. induction q as [|a q IH]; simpl; [done|]. rewrite IH by (intros; apply H; by right). by rewrite (H a) by left.
Qed.

(** A socket's block as the end of a way: the packet is at the end of the
    queue. *)
Lemma sock_sink k fb b p so skb s1 k1 dir (P : kernel -> Prop) :
  sock_port k fb b p so -> at_sink k fb b skb s1 k1 -> skb <> 0 -> skb_users s1 = 1 ->
  skb ∉ sk_receive_queue so -> room k so (skb_len s1) = true ->
  (forall k3, k_net k3 = net_pf (socks_of <[pp_sock_self p := queued skb so]>) (k_net k) ->
     k_skbs k3 = <[skb := taken_in b s1]> (k_skbs k) ->
     k_fblocks k3 = k_fblocks k -> k_emdiscs k3 = k_emdiscs k -> k_cpu k3 = k_cpu k ->
     k_rcu_nesting k3 = k_rcu_nesting k -> P k3) ->
  wp (fb_pflana_netrx fb skb dir) (took dir k k1 P) k1.
Proof.
  intros [(H0 & Hb) (Hp0 & l & Hl & Hp) [Hsk Hso]] [A1 A2 A3 (A4 & A5 & A6 & A7 & A8)] Hs0 Hu Hnin Hroom HP.
  assert (Hr1 : room k1 so (skb_len s1) = true).
  { unfold room in *. rewrite (rmem_other k); [done|]. intros a Ha. rewrite A2, lookup_insert_ne; [done|]. by intros ->. }
  eapply wp_of_run; [eapply (pflana_netrx_run k1 fb (bump 1 b) p so skb s1)|].
  - split; [split; [done|by rewrite A1, lookup_insert_eq]|split; [done|]|].
    + exists l. rewrite A5. split; [by apply A3|done].
    + split; [done|]. unfold pf in *. by rewrite A4.
  - split; [done|]. by rewrite A2, lookup_insert_eq.
  - unfold sock_takes. rewrite Hr1. split; [done|]. do 4 (split; [done|]). intros k3 G1 G2 G3 G4 G5 G6. apply HP; try done.
    + rewrite G1. simpl. by rewrite A4.
    + rewrite G2. simpl. by rewrite A2, insert_insert_eq.
Qed.

(** From anywhere in the stack to the socket. *)
Lemma wp_to_socket k pkts hops skb s dir l fb b p so cpu (P : kernel -> Prop) :
  packet k skb s -> (0 < k_rcu_nesting k)%nat -> k_emdiscs k !! k_cpu k = Some (Disc [] false cpu) ->
  reaches k dir (read_next_idp_from_skb s) l (fb_idp b) -> sink k (fb_idp b) fb b M_pflana ->
  sock_port k fb b p so -> skb ∉ sk_receive_queue so -> room k so (skb_len s) = true ->
  (forall k3 s1, same_content s s1 -> k_net k3 = net_pf (socks_of <[pp_sock_self p := queued skb so]>) (k_net k) ->
     k_skbs k3 = <[skb := taken_in b s1]> (k_skbs k) ->
     k_fblocks k3 = k_fblocks k -> k_emdiscs k3 = k_emdiscs k -> k_cpu k3 = k_cpu k ->
     k_rcu_nesting k3 = k_rcu_nesting k -> P k3) ->
  wp (process_packet (S pkts) (length l + S hops) skb dir) (fun r k' => r = PPE_DROPPED /\ P k') k.
Proof.
  intros Hpk Hn Hd Hreach Hsink Hsp Hnin Hroom HP. eapply (wp_deliver k pkts hops skb s dir l (fb_idp b) fb b M_pflana cpu);
    [done..|]. intros k1 s1 Hat Hc. pose proof Hc as (El & _ & Eu & _). pose proof Hpk as (H0 & _ & Hu).
  eapply (sock_sink k fb b p so skb s1 k1); try done; [by rewrite Eu|by rewrite El|]. intros k3 G1 G2 G3 G4 G5 G6.
  by apply (HP k3 s1).
Qed.
End recv.

(** ** Sending *)

Section send.
Context `{Nm : NameMap, Ka : KernelApi}.

(** The device a socket sends for: the one it is bound to, else the first with
    the hardware type 3. *)
Definition send_dev (k : kernel) (so : lana_sock) : addr :=
  if negb (sk_bound_dev_if so =? 0) || ls_bound so
  then dev_by_index (if ls_bound so then ls_ifindex so else sk_bound_dev_if so) (n_devs (k_net k))
  else listed (fun d => nd_type d =? ETH_P_ALL) (n_devs (k_net k)).

Definition find_send_dev (so : lana_sock) : M addr :=
  if negb (sk_bound_dev_if so =? 0) || ls_bound so
  then dev_get_by_index (if ls_bound so then ls_ifindex so else sk_bound_dev_if so)
  else dev_getfirstbyhwtype ETH_P_ALL.

Definition held_dev (dev : addr) (d : net_device) (k : kernel) : kernel :=
  upd_net (net_devs <[dev := with_refs (nd_refs d + 1) d]>) k.

(** A lookup that takes a reference. *)
Lemma wp_hold k a d (Q : addr -> kernel -> Prop) :
  (a <> 0 -> device k a d) -> Q a (if a =? 0 then k else held_dev a d k) ->
  wp (when negb (a =? 0) do dev_hold a;; ret a) Q k.
Proof.
  intros Hd HQ. wp_step. destruct (Z.eqb_spec a 0) as [E|E]; cbn [negb].
  - by wp_steps.
  - eapply wp_mod_dev; [by apply Hd|]. by wp_step.
Qed.

Lemma wp_find_send_dev k so d (Q : addr -> kernel -> Prop) :
  (send_dev k so <> 0 -> device k (send_dev k so) d) ->
  Q (send_dev k so) (if send_dev k so =? 0 then k else held_dev (send_dev k so) d k) -> wp (find_send_dev so) Q k.
Proof.
  intros Hd HQ. unfold find_send_dev, dev_get_by_index, dev_getfirstbyhwtype, send_dev in *.
  destruct (_ || _); wp_step; wp_step; by apply (wp_hold _ _ d).
Qed.

Lemma dev_put_held k dev d : device k dev d -> dev_put dev (held_dev dev d k) = Ret tt k.
Proof. intros Hd. by eapply put_back. Qed.

Definition target_ok (msg : msghdr) : Prop :=
  exists a, msg_addr msg = Some a /\ sockaddr_size <= u64 (msg_namelen msg) /\ sa_family a = AF_LANA.

(** The device can take a packet of the length. *)
Definition dev_ok (d : net_device) (len : Z) : bool :=
  negb (Z.land (nd_flags d) IFF_UP =? 0) && negb (nd_mtu d <? len).

Definition after_dev (rounds : list fb_pflana_priv) (pkts hops : nat) (sk : addr) (so : lana_sock) (msg : msghdr)
    (len : Z) (dev : addr) : M Z :=
  ok <- (if dev =? 0 then ret false
         else d <- get_dev dev;; ret (dev_ok d len));;
  if negb (ok : bool) then dev_put dev;; ret (- EIO)
  else
    skb <- kmalloc upd_skbs (sent_skb [] 0);;
    if skb =? 0 then dev_put dev;; ret (sock_alloc_err sk len (Z.land (msg_flags msg) MSG_DONTWAIT))
    else if Z.of_nat (length (msg_iov msg)) <? len then
      kfree_skb skb;; dev_put dev;; ret (- EFAULT)
    else
      mod_skb skb (fun _ => sent_skb (take (Z.to_nat len) (msg_iov msg)) dev);;
      dev_put dev;;
      rcu_read_lock;;
      b <- get_fb (ls_fb so);;
      p <- this_pflana_priv (fb_private_data b);;
      let rounds := match rounds with [] => [p] | _ => rounds end in
      mod_skb skb (fun s => fold_left (fun s q =>
        write_next_idp_to_skb s (fb_idp b) (port (pp_port q) TYPE_EGRESS)) rounds s);;
      process_packet pkts hops skb TYPE_EGRESS;;
      rcu_read_unlock;;
      ret len.

Lemma sendmsg_start k sk so rounds pkts hops msg len :
  sock_at k sk so -> target_ok msg ->
  lana_proto_sendmsg rounds pkts hops sk msg len k =
    (dev <- find_send_dev so;; after_dev rounds pkts hops sk so msg len dev) k.
Proof.
  intros Hso (a & Ha & Hlen & Hf). unfold lana_proto_sendmsg. rewrite (bind_run _ _ _ _ _ (get_sk_run k sk so Hso)), Ha.
  destruct (Z.ltb_spec (u64 (msg_namelen msg)) sockaddr_size); [lia|]. rewrite Hf. done.
Qed.

Lemma find_send_dev_run k so d :
  (send_dev k so <> 0 -> device k (send_dev k so) d) ->
  find_send_dev so k = Ret (send_dev k so) (if send_dev k so =? 0 then k else held_dev (send_dev k so) d k).
Proof.
  intros Hd. destruct (wp_run_val (find_send_dev so) (send_dev k so)
    (fun k' => k' = if send_dev k so =? 0 then k else held_dev (send_dev k so) d k) k) as (k' & -> & ->); [|done].
  by apply (wp_find_send_dev k so d).
Qed.

(** The run up to the memory for the packet. *)
Lemma sendmsg_dev k sk so rounds pkts hops msg len d :
  sock_at k sk so -> target_ok msg -> device k (send_dev k so) d ->
  lana_proto_sendmsg rounds pkts hops sk msg len k =
    after_dev rounds pkts hops sk so msg len (send_dev k so) (held_dev (send_dev k so) d k).
Proof.
  intros Hso Ht Hd. rewrite (sendmsg_start k sk so) by done. erewrite bind_run by (by apply (find_send_dev_run k so d)).
  pose proof Hd as [H0 _]. by destruct (Z.eqb_spec (send_dev k so) 0).
Qed.

Lemma dev_ok_run k dev d len :
  device k dev d ->
  (if dev =? 0 then ret false else d <- get_dev dev;; ret (dev_ok d len)) (held_dev dev d k) =
    Ret (dev_ok d len) (held_dev dev d k).
Proof.
  intros [H0 Hd]. destruct (Z.eqb_spec dev 0); [done|].
  assert (E : get_dev dev (held_dev dev d k) = Ret (with_refs (nd_refs d + 1) d) (held_dev dev d k))
    by (apply get_dev_run, (device_insert k dev d); by split).
  by rewrite (bind_run _ _ _ _ _ E).
Qed.

Lemma kmalloc_ok_run {A} put (x : A) k :
  k_oom k = [] -> kmalloc put x k = Ret (k_next k) (put <[k_next k := x]> (upd_next (Z.add 64) k)).
Proof.
  intros Ho. destruct (wp_run_val (kmalloc put x) (k_next k) (fun k' => k' = put <[k_next k := x]> (upd_next (Z.add 64) k)) k)
    as (k' & -> & ->); [|done].
  apply wp_kmalloc; [|by rewrite Ho]. intros _. split; [done|]. do 2 f_equal. destruct k. simpl in *. by subst.
Qed.

Lemma kmalloc_fail_run {A} put (x : A) k :
  head (k_oom k) = Some true -> kmalloc put x k = Ret 0 (upd_oom tail k).
Proof.
  intros Ho. destruct (wp_run_val (kmalloc put x) 0 (fun k' => k' = upd_oom tail k) k) as (k' & -> & ->); [|done].
  apply wp_kmalloc; [|done]. rewrite Ho. intros [E|E]; [by rewrite E in Ho|done].
Qed.

(** what cannot be sent.  A message without an address, with a short one or
    one of another family is refused, and so is one for a device that is down
    or whose MTU is too small; without memory, or when the caller's bytes
    cannot be read, the packet is freed and the device's reference dropped.
    Without any device the reference to none is dropped: a null pointer. *)
Theorem pflana_sendmsg_errors k sk so rounds pkts hops msg len d :
  sock_at k sk so -> (send_dev k so <> 0 -> device k (send_dev k so) d) ->
  let send := lana_proto_sendmsg rounds pkts hops sk msg len k in
  (msg_addr msg = None -> send = Ret (- EDESTADDRREQ) k) /\
  (forall a, msg_addr msg = Some a -> u64 (msg_namelen msg) < sockaddr_size -> send = Ret (- EINVAL) k) /\
  (forall a, msg_addr msg = Some a -> sockaddr_size <= u64 (msg_namelen msg) -> sa_family a <> AF_LANA ->
     send = Ret (- EAFNOSUPPORT) k) /\
  (target_ok msg -> send_dev k so = 0 -> send = Crash Null_deref) /\
  (target_ok msg -> send_dev k so <> 0 -> dev_ok d len = false -> send = Ret (- EIO) k) /\
  (target_ok msg -> send_dev k so <> 0 -> dev_ok d len = true -> head (k_oom k) = Some true ->
     send = Ret (sock_alloc_err sk len (Z.land (msg_flags msg) MSG_DONTWAIT)) (upd_oom tail k)) /\
  (target_ok msg -> send_dev k so <> 0 -> dev_ok d len = true -> k_oom k = [] -> k_next k <> 0 ->
     k_skbs k !! k_next k = None -> Z.of_nat (length (msg_iov msg)) < len ->
     send = Ret (- EFAULT) (upd_next (Z.add 64) k)).
Proof.
  intros Hso Hd send. unfold send.
  assert (Hstart : forall m, lana_proto_sendmsg rounds pkts hops sk m len k =
    match msg_addr m with
    | None => Ret (- EDESTADDRREQ) k
    | Some a => if u64 (msg_namelen m) <? sockaddr_size then Ret (- EINVAL) k
                else if negb (sa_family a =? AF_LANA) then Ret (- EAFNOSUPPORT) k
                else lana_proto_sendmsg rounds pkts hops sk m len k
    end).
  { intros m. unfold lana_proto_sendmsg. rewrite (bind_run _ _ _ _ _ (get_sk_run k sk so Hso)).
    destruct (msg_addr m); [|done]. destruct (_ <? _); [done|]. by destruct (negb _). }
  split; [intros E; by rewrite Hstart, E|]. split.
  { intros a E Hl. rewrite Hstart, E. by destruct (Z.ltb_spec (u64 (msg_namelen msg)) sockaddr_size); [|lia]. }
  split.
  { intros a E Hl Hf. rewrite Hstart, E. destruct (Z.ltb_spec (u64 (msg_namelen msg)) sockaddr_size); [lia|].
    by destruct (Z.eqb_spec (sa_family a) AF_LANA). }
  split; [|split; [|split]].
  - intros Ht E. rewrite (sendmsg_start k sk so) by done. erewrite bind_run by (by apply (find_send_dev_run k so d)).
    by rewrite E.
  - intros Ht Hne Hok. specialize (Hd Hne). rewrite (sendmsg_dev k sk so rounds pkts hops msg len d Hso Ht Hd). unfold after_dev.
    rewrite (bind_run _ _ _ _ _ (dev_ok_run k _ d len Hd)), Hok. cbn [negb].
    by rewrite (bind_run _ _ _ _ _ (dev_put_held k _ d Hd)).
  - intros Ht Hne Hok Ho. specialize (Hd Hne). rewrite (sendmsg_dev k sk so rounds pkts hops msg len d Hso Ht Hd). unfold after_dev.
    rewrite (bind_run _ _ _ _ _ (dev_ok_run k _ d len Hd)), Hok. cbn [negb].
    erewrite bind_run by (by apply kmalloc_fail_run). cbn [Z.eqb].
    change (upd_oom tail (held_dev (send_dev k so) d k)) with (held_dev (send_dev k so) d (upd_oom tail k)).
    by erewrite bind_run by (by apply dev_put_held).
  - intros Ht Hne Hok Ho Hn Hfr Hshort. specialize (Hd Hne). rewrite (sendmsg_dev k sk so rounds pkts hops msg len d Hso Ht Hd). unfold after_dev.
    rewrite (bind_run _ _ _ _ _ (dev_ok_run k _ d len Hd)), Hok. cbn [negb].
    erewrite bind_run by (by apply kmalloc_ok_run).
    change (k_next (held_dev _ _ k)) with (k_next k). destruct (Z.eqb_spec (k_next k) 0); [done|].
    destruct (Z.ltb_spec (Z.of_nat (length (msg_iov msg))) len); [|lia].
    erewrite bind_run by (eapply kfree_skb_run; [done|apply lookup_insert_eq|done]).
    match goal with |- bind _ _ ?k1 = _ => replace k1 with (held_dev (send_dev k so) d (upd_next (Z.add 64) k)) end.
    { by erewrite bind_run by (by apply dev_put_held). }
    kernel_eq. by rewrite delete_insert_id.
Qed.

(** A message that can be sent: the socket, its block, and the device. *)
Record send_ready (k : kernel) (sk : addr) (so : lana_sock) (b : fblock) (p : fb_pflana_priv) (d : net_device)
    (msg : msghdr) (len : Z) : Prop := {
  sr_sock : sock_at k sk so;
  sr_target : target_ok msg;
  sr_dev : device k (send_dev k so) d /\ dev_ok d len = true;
  sr_mem : k_oom k = [] /\ 0 < k_next k /\ k_skbs k !! k_next k = None;
  sr_len : 0 <= len <= Z.of_nat (length (msg_iov msg));
  sr_block : ls_fb so <> 0 /\ k_fblocks k !! ls_fb so = Some b;
  sr_priv : fb_private_data b <> 0 /\ exists l, k_privs k !! fb_private_data b = Some (PrivPflana l) /\
            l !! k_cpu k = Some p;
}.

Definition msg_data (msg : msghdr) (len : Z) : list Z := take (Z.to_nat len) (msg_iov msg).

(** The packet that enters the stack. *)
Definition sent_out (k : kernel) (so : lana_sock) (b : fblock) (p : fb_pflana_priv) (msg : msghdr) (len : Z) : sk_buff :=
  write_next_idp_to_skb (sent_skb (msg_data msg len) (send_dev k so)) (fb_idp b) (port (pp_port p) TYPE_EGRESS).

Definition sending (k : kernel) (so : lana_sock) (b : fblock) (p : fb_pflana_priv) (msg : msghdr) (len : Z) : kernel :=
  upd_rcu_nesting S (upd_skbs <[k_next k := sent_out k so b p msg len]> (upd_next (Z.add 64) k)).

Lemma sendmsg_run k sk so b p d pkts hops msg len :
  send_ready k sk so b p d msg len ->
  lana_proto_sendmsg [] pkts hops sk msg len k =
    (process_packet pkts hops (k_next k) TYPE_EGRESS;; rcu_read_unlock;; ret len) (sending k so b p msg len).
Proof.
  intros [Hso Ht (Hd & Hok) (Ho & Hn & Hfr) Hlen (Hb0 & Hb) (Hp0 & l & Hl & Hp)].
  rewrite (sendmsg_dev k sk so [] pkts hops msg len d Hso Ht Hd). unfold after_dev.
  rewrite (bind_run _ _ _ _ _ (dev_ok_run k _ d len Hd)), Hok. cbn [negb].
  erewrite bind_run by (by apply kmalloc_ok_run). change (k_next (held_dev _ _ k)) with (k_next k).
  destruct (Z.eqb_spec (k_next k) 0); [lia|]. destruct (Z.ltb_spec (Z.of_nat (length (msg_iov msg))) len); [lia|].
  erewrite bind_run by (apply mod_skb_run; [done|apply lookup_insert_eq]). fold (msg_data msg len).
  set (s0 := sent_skb (msg_data msg len) (send_dev k so)).
  match goal with |- bind _ _ ?k1 = _ =>
    replace k1 with (held_dev (send_dev k so) d (upd_skbs <[k_next k := s0]> (upd_next (Z.add 64) k))) end.
  2:{ kernel_eq. by rewrite insert_insert_eq. }
  erewrite bind_run by (by apply dev_put_held). erewrite bind_run by reflexivity. unfold get_fb.
  erewrite bind_run by (by apply (deref_run k_fblocks (ls_fb so) b)).
  erewrite bind_run by (by apply (this_pflana_priv_run _ _ l p)). cbv zeta iota. cbn [fold_left].
  erewrite bind_run by (apply mod_skb_run; [done|apply lookup_insert_eq]).
  f_equal. unfold sending. kernel_eq. by rewrite insert_insert_eq.
Qed.

(** What is on the way of a packet is the same after the packet was made. *)
Lemma sending_same k so b p msg len : same_way k (sending k so b p msg len).
Proof. by repeat split. Qed.

(** C37: from socket to socket.  A message sent on a socket whose egress port
    leads, through any number of forwarding blocks, to the block of another
    socket, is at the end of that socket's queue afterwards with the caller's
    bytes; the engine and the blocks are as before.  If the queue was empty,
    [recvmsg] with a buffer that is large enough returns exactly these bytes,
    and afterwards the queue is empty and the packet is gone. *)
Theorem pflana_send_recv k sk1 so1 b1 p1 d msg len pkts hops l fb2 b2 p2 so2 cpu fl n wait :
  send_ready k sk1 so1 b1 p1 d msg len ->
  reaches k TYPE_EGRESS (port (pp_port p1) TYPE_EGRESS) l (fb_idp b2) -> sink k (fb_idp b2) fb2 b2 M_pflana ->
  sock_port k fb2 b2 p2 so2 -> k_next k ∉ sk_receive_queue so2 -> room k so2 len = true ->
  k_emdiscs k !! k_cpu k = Some (Disc [] false cpu) ->
  exists k1 s1, lana_proto_sendmsg [] (S pkts) (length l + S hops) sk1 msg len k = Ret len k1 /\
    k_net k1 = net_pf (socks_of <[pp_sock_self p2 := queued (k_next k) so2]>) (k_net k) /\
    k_skbs k1 = <[k_next k := s1]> (k_skbs k) /\ skb_data s1 = msg_data msg len /\
    k_fblocks k1 = k_fblocks k /\ k_emdiscs k1 = k_emdiscs k /\ k_rcu_nesting k1 = k_rcu_nesting k /\
    (sk_receive_queue so2 = [] -> len <= n -> exists k2,
       lana_proto_recvmsg (pp_sock_self p2) fl n 0 wait 0 k1 = Ret (len, msg_data msg len, fl) k2 /\
       k_net k2 = k_net k /\ k_skbs k2 = k_skbs k).
Proof.
  intros Hr Hreach Hsink Hsp Hnin Hroom Hdisc. pose proof Hr as [_ _ _ (_ & Hpos & Hfr) Hlen _ _].
  assert (El : skb_len (sent_out k so1 b1 p1 msg len) = len).
  { simpl. unfold msg_data. rewrite length_take. lia. }
  set (s0 := sent_out k so1 b1 p1 msg len) in *. set (k0 := sending k so1 b1 p1 msg len).
  assert (Hw : wp (process_packet (S pkts) (length l + S hops) (k_next k) TYPE_EGRESS) (fun r k' => r = PPE_DROPPED /\
    exists s1, same_content s0 s1 /\ k_net k' = net_pf (socks_of <[pp_sock_self p2 := queued (k_next k) so2]>) (k_net k) /\
      k_skbs k' = <[k_next k := taken_in b2 s1]> (k_skbs k) /\
      k_fblocks k' = k_fblocks k /\ k_emdiscs k' = k_emdiscs k /\ k_rcu_nesting k' = S (k_rcu_nesting k)) k0).
  { eapply (wp_to_socket k0 pkts hops (k_next k) s0 TYPE_EGRESS l fb2 b2 p2 so2 cpu); try done.
    - split; [lia|]. split; [apply lookup_insert_eq|done].
    - simpl. lia.
    - apply (reaches_same k); [apply sending_same|exact Hreach].
    - destruct Hsink. by split.
    - destruct Hsp. by split.
    - unfold room in *. rewrite (rmem_other k), El; [done|]. intros a Ha. simpl. rewrite lookup_insert_ne; [done|].
      by intros <-.
    - intros k3 s1 Hc G1 G2 G3 G4 G5 G6. exists s1. split; [done|]. split; [done|]. rewrite G2. simpl.
      rewrite insert_insert_eq. by rewrite G6. }
  apply wp_run_val in Hw as (k' & Hk' & s1 & Hc & E1 & E2 & E3 & E4 & E5).
  set (k1 := upd_rcu_nesting pred k'). exists k1, (taken_in b2 s1). destruct Hc as (C1 & C2 & C3 & C4).
  split; [|split; [done|split; [done|split; [|split; [done|split; [done|split]]]]]].
  - rewrite (sendmsg_run k sk1 so1 b1 p1 d _ _ msg len Hr), (bind_run _ _ _ _ _ Hk'). done.
  - simpl. by rewrite C2.
  - simpl. by rewrite E5.
  - intros Hq Hn. destruct Hsp as [_ _ [Hs0 Hso]].
    exists (upd_skbs (delete (k_next k)) (upd_pf (socks_of <[pp_sock_self p2 := so2]>) k1)).
    assert (Hso1 : sock_at k1 (pp_sock_self p2) (queued (k_next k) so2)).
    { split; [done|]. unfold pf. simpl. rewrite E1. apply lookup_insert_eq. }
    rewrite (recvmsg_run k1 _ _ (k_next k) [] (taken_in b2 s1) fl n 0 wait 0 Hso1).
    + unfold read_msg. simpl. rewrite C1, C2, El. rewrite Z.min_r by lia. destruct (Z.ltb_spec n len); [lia|].
      split; [|split].
      * f_equal; [|f_equal; f_equal; f_equal; unfold queued; destruct so2; simpl in *; by subst].
        do 2 f_equal. unfold s0, sent_out, msg_data. simpl. rewrite firstn_firstn. by rewrite Nat.min_id.
      * rewrite E1. net_eq. unfold socks_of. simpl. destruct (n_pf (k_net k)) eqn:Epf. unfold pf in Hso. simpl in *.
        rewrite Epf in Hso. f_equal. simpl in *. by rewrite insert_insert_eq, insert_id.
      * rewrite E2. by rewrite delete_insert_id.
    + simpl. by rewrite Hq.
    + split; [lia|]. simpl. rewrite E2, lookup_insert_eq. split; [done|]. simpl. by rewrite C3.
Qed.

(** a message sent on a socket whose egress port is not bound is reported
    as sent with its full length; the packet goes nowhere and is not freed. *)
Theorem pflana_send_unbound k sk so b p d msg len pkts hops cpu :
  send_ready k sk so b p d msg len -> port (pp_port p) TYPE_EGRESS = IDP_UNKNOWN ->
  k_emdiscs k !! k_cpu k = Some (Disc [] false cpu) ->
  exists k1 s1, lana_proto_sendmsg [] (S pkts) (S hops) sk msg len k = Ret len k1 /\
    k_skbs k1 = <[k_next k := s1]> (k_skbs k) /\ skb_users s1 = 1 /\ k_emdiscs k1 = k_emdiscs k.
Proof.
  intros Hr Hp Hdisc. pose proof Hr as [_ _ _ (_ & Hpos & _) _ _ _].
  set (k0 := sending k so b p msg len). set (s0 := sent_out k so b p msg len).
  destruct (process_packet_nowhere k0 pkts hops (k_next k) s0 TYPE_EGRESS cpu) as (k' & Hk' & E1 & E2).
  - split; [lia|]. split; [apply lookup_insert_eq|done].
  - exact Hp.
  - simpl. lia.
  - done.
  - exists (upd_rcu_nesting pred k'), s0. rewrite (sendmsg_run k sk so b p d _ _ msg len Hr), (bind_run _ _ _ _ _ Hk').
    split; [done|]. simpl. by rewrite E1, E2.
Qed.
End send.
