(* ===== verification/EngineOrder.v ===== *)
(** * The backlog is worked off in its order (src/xt_engine.c)

    Packets that wait in the backlog of a CPU and lead to one socket: the
    handler of the timer brings them into the receive queue of the socket in
    the order in which they waited. *)
From Stdlib Require Import ZArith Lia.
From stdpp Require Import base gmap numbers countable list.
From S2P Require Import Prelude CString CritbitTree Vlink NameMap Types NetTypes Kernel NetDev EthvlinkDev Fblock FblockNs.
From S2P Require Import FblockLife FblockBind PerCpu FblockCtor Engine FbPflana Modules EngineProps EngineSinks ModuleLife.
From S2P Require Import UserctlProps NetDevProps FbPflanaProps.

Local Open Scope Z_scope.
Local Open Scope kernel_scope.

Section order.
Context `{Nm : NameMap, Ka : KernelApi}.
(** The state at the start and the socket with its block. *)
Context (k : kernel) (fb : addr) (b : fblock) (p : fb_pflana_priv) (so : lana_sock).
Context (Hsink : sink k (fb_idp b) fb b M_pflana) (Hport : sock_port k fb b p so).

(** The packet leads to the socket's block through fewer than [hops] others. *)
Definition leads_to (hops : nat) (skb : addr) : Prop :=
  exists s l, packet k skb s /\ (length l < hops)%nat /\
    reaches k (read_path_from_skb s) (read_next_idp_from_skb s) l (fb_idp b).

(** The packet is still there with its data. *)
Definition kept (k' : kernel) (a : addr) : Prop :=
  exists s s', k_skbs k !! a = Some s /\ k_skbs k' !! a = Some s' /\
    skb_len s' = skb_len s /\ skb_data s' = skb_data s.

(** The packets [l] have come into the socket's queue, in this order. *)
Record arrived (l : list addr) (k' : kernel) : Prop := {
  ar_way : same_way k k';
  ar_priv : k_privs k' !! fb_private_data b = k_privs k !! fb_private_data b;
  ar_net : k_net k' = net_pf (socks_of <[pp_sock_self p := with_sk_queue (sk_receive_queue so ++ l) so]>) (k_net k);
  ar_kept : Forall (kept k') l;
  ar_others a : a ∉ l -> k_skbs k' !! a = k_skbs k !! a;
  ar_rest : k_core k' = k_core k;
}.

(** The engine's own fields do not matter for it. *)
Lemma arrived_frame l k1 k2 :
  arrived l k1 -> same_way k1 k2 -> k_privs k2 = k_privs k1 -> k_net k2 = k_net k1 -> k_skbs k2 = k_skbs k1 ->
  k_core k2 = k_core k1 -> arrived l k2.
Proof.
  intros [H1 H2 H3 H4 H5 H6] Hw E1 E2 E3 E4. split; [by eapply same_way_trans|by rewrite E1|by rewrite E2| | |by rewrite E4].
  - eapply Forall_impl; [exact H4|]. intros a. unfold kept. by rewrite E3.
  - rewrite E3. exact H5.
Qed.

(** The limit of the queue leaves room for the packets one after the other. *)
Definition room_for (q : list addr) : Prop :=
  forall l, l `prefix_of` q -> rmem k (sk_receive_queue so ++ l) < sk_rcvbuf so.

Lemma rmem_app q1 q2 k' : rmem k' (q1 ++ q2) = rmem k' q1 + rmem k' q2.
Proof. unfold rmem. induction q1 as [|a q1 IH]; simpl; lia. Qed.

Lemma rmem_kept l k' : Forall (kept k') l -> rmem k' l = rmem k l.
Proof.
  induction 1 as [|a l (s & s' & H1 & H2 & H3 & _) Hl IH]; [done|]. simpl. by rewrite IH, H1, H2, H3.
Qed.

Lemma arrived_room l k' skb s q :
  arrived l k' -> room_for (l ++ skb :: q) -> k_skbs k !! skb = Some s ->
  (forall a, a ∈ sk_receive_queue so -> a ∉ l) ->
  room k' (with_sk_queue (sk_receive_queue so ++ l) so) (skb_len s) = true.
Proof.
  intros [_ _ _ Hk Ho _] Hr Hs Hq. unfold room. apply negb_true_iff, Z.leb_gt. simpl.
  rewrite rmem_app, (rmem_kept _ _ Hk), (rmem_other k) by (intros a Ha; by apply Ho, Hq).
  assert (Hp : l ++ [skb] `prefix_of` l ++ skb :: q) by (exists q; by rewrite <- app_assoc).
  specialize (Hr _ Hp). rewrite !rmem_app in Hr. simpl in Hr. rewrite Hs in Hr. lia.
Qed.

Lemma arrived_taken l k1 k2 skb s s' k3 :
  arrived l k1 -> skb ∉ l -> k_skbs k !! skb = Some s -> same_content s s' ->
  same_way k k2 -> k_privs k2 !! fb_private_data b = k_privs k !! fb_private_data b ->
  same_way k2 k3 -> k_privs k3 = k_privs k2 ->
  k_net k3 = net_pf (socks_of <[pp_sock_self p := queued skb (with_sk_queue (sk_receive_queue so ++ l) so)]>) (k_net k1) ->
  k_skbs k3 = <[skb := taken_in b s']> (k_skbs k1) -> k_core k3 = k_core k1 ->
  arrived (l ++ [skb]) k3.
Proof.
  intros [A1 A2 A3 A4 A5 A6] Hl Hs Hc W1 P1 W2 P2 En Es Ecr.
  split; [by eapply same_way_trans|by rewrite P2| | | |by rewrite Ecr].
  - rewrite En, A3. unfold net_pf, socks_of. simpl. rewrite insert_insert_eq. unfold queued. simpl. by rewrite app_assoc.
  - apply Forall_app. split; [|constructor; [|constructor]].
    + apply Forall_forall. intros a Ha. rewrite Forall_forall in A4. unfold kept. rewrite Es, lookup_insert_ne by (by intros ->).
      by apply A4.
    + exists s, (taken_in b s'). rewrite Es. split; [done|]. split; [apply lookup_insert_eq|].
      by destruct Hc as (? & ? & _).
  - intros a Ha. rewrite Es, lookup_insert_ne by set_solver. apply A5. set_solver.
Qed.

(** One packet, on its way to the socket. *)
Lemma arrived_hops l k1 hops skb s w dir r0 :
  arrived l k1 -> packet k skb s -> skb ∉ sk_receive_queue so -> skb ∉ l ->
  reaches k dir (read_next_idp_from_skb s) w (fb_idp b) -> (length w < hops)%nat ->
  room k1 (with_sk_queue (sk_receive_queue so ++ l) so) (skb_len s) = true ->
  exists k2, process_hops hops skb dir r0 k1 = Ret (PPE_DROPPED, dir) k2 /\ arrived (l ++ [skb]) k2 /\
    k_emdiscs k2 = k_emdiscs k1 /\ k_rcu_nesting k2 = k_rcu_nesting k1.
Proof.
  intros Har (H0 & Hs & Hu) Hq Hl Hw Hh Hroom. pose proof Har as [A1 A2 A3 A4 A5 A6].
  assert (Hs1 : k_skbs k1 !! skb = Some s) by (by rewrite A5).
  destruct (reaches_run k dir _ w _ Hw k1 skb s (hops - length w) r0 A1) as (s' & r' & Hc & Hn & E); [done|done|].
  replace (length w + (hops - length w))%nat with hops in E by lia. rewrite E.
  destruct (hops - length w)%nat as [|h] eqn:Eh; [lia|].
  set (k2 := upd_skbs _ _). set (so1 := with_sk_queue (sk_receive_queue so ++ l) so) in *.
  destruct (count_way_fields (skb_len s) w k1) as (F1 & F2 & _ & F4).
  destruct (count_way_rest (skb_len s) w k1) as (G1 & _ & _).
  assert (Hw2 : same_way k k2).
  { eapply same_way_trans; [exact A1|]. destruct (count_way_same (skb_len s) w k1) as (? & ? & ? & ?). by repeat split. }
  pose proof Hw2 as (_ & Eb & Ec & _). destruct Hport as [(Hf0 & Hb) (Hp0 & pl & Hpl & Hpp) (Hk0 & Hso)].
  assert (Hp2 : k_privs k2 !! fb_private_data b = Some (PrivPflana pl)).
  { apply (count_way_priv _ _ _ (PrivPflana pl)); [done|]. by rewrite A2. }
  assert (Es2 : k_skbs k2 = <[skb := s']> (k_skbs k1)) by (simpl; by rewrite F1).
  assert (En2 : k_net k2 = k_net k1 /\ k_core k2 = k_core k1 /\ k_emdiscs k2 = k_emdiscs k1 /\
                k_rcu_nesting k2 = k_rcu_nesting k1) by (simpl; by rewrite count_way_core).
  clearbody k2. destruct En2 as (En2 & Ek2 & Ed2 & Er2).
  assert (Hat : sock_at (upd_fblocks <[fb := bump 1 b]> k2) (pp_sock_self p) so1).
  { split; [done|]. unfold pf. simpl. rewrite En2, A3. apply lookup_insert_eq. }
  assert (Hrm : room (upd_fblocks <[fb := bump 1 b]> k2) so1 (skb_len s') = true).
  { destruct Hc as (-> & _). rewrite <- Hroom. unfold room. do 3 f_equal. apply rmem_other. intros a Ha. simpl.
    rewrite Es2, lookup_insert_ne; [done|]. intros <-. simpl in Ha. set_solver. }
  assert (Hfin : wp (process_hops (S h) skb dir r') (fun x k3 => x = (PPE_DROPPED, dir) /\
    arrived (l ++ [skb]) k3 /\ k_emdiscs k3 = k_emdiscs k1 /\ k_rcu_nesting k3 = k_rcu_nesting k1) k2).
  { eapply (sink_run k k2 dir _ fb b M_pflana skb s'); [exact Hsink|exact Hw2|by rewrite Es2, lookup_insert_eq|done|done|].
    eapply wp_of_run; [apply (pflana_netrx_run _ fb (bump 1 b) p so1 skb s')|].
    - split; [split; [done|apply lookup_insert_eq]|split; [done|]|exact Hat]. exists pl. simpl. by rewrite Ec.
    - split; [done|]. simpl. rewrite Es2. split; [apply lookup_insert_eq|]. by destruct Hc as (_ & _ & -> & _).
    - unfold sock_takes. rewrite Hrm. split; [done|]. split; [simpl; by rewrite Eb|]. split; [done|].
      split; [|by split]. apply (arrived_taken l k1 k2 skb s s'); try done; simpl.
      + by rewrite Hp2.
      + by rewrite En2.
      + by rewrite Es2, insert_insert_eq. }
  apply wp_run_val in Hfin as (k3 & Hrun & Hk3). by exists k3.
Qed.

(** The engine on its way to the next look at the backlog. *)
Definition started (d : engine_disc) (s : sk_buff) (k1 : kernel) : kernel :=
  upd_iostats (fun st => alter (stats_add_bytes (skb_len s)) (k_cpu k1) (alter stats_inc_pkts (k_cpu k1) st))
    (upd_emdiscs <[k_cpu k1 := disc_set_active true d]> k1).

Lemma start_run k1 d skb s (rest : M Z) :
  k_emdiscs k1 !! k_cpu k1 = Some d -> skb <> 0 -> k_skbs k1 !! skb = Some s ->
  (engine_this_cpu_set_active;; engine_inc_pkts_stats;;
   s <- get_skb skb;; engine_add_bytes_stats (skb_len s);; rest) k1 = rest (started d s k1).
Proof.
  intros Hd H0 Hs. unfold engine_this_cpu_set_active.
  erewrite bind_run by (erewrite bind_run by reflexivity; by erewrite bind_run by (by apply emdisc_run)).
  erewrite bind_run by reflexivity. erewrite bind_run by (by apply get_skb_run).
  by erewrite bind_run by reflexivity.
Qed.

Lemma arrived_packet l k1 hops skb s d q :
  arrived l k1 -> leads_to hops skb -> NoDup (sk_receive_queue so ++ l ++ skb :: q) ->
  room_for (l ++ skb :: q) -> k_skbs k !! skb = Some s -> k_emdiscs k1 !! k_cpu k = Some d ->
  exists k2, (forall rest : Z * path_type -> M Z,
   (engine_this_cpu_set_active;; engine_inc_pkts_stats;;
   s1 <- get_skb skb;; engine_add_bytes_stats (skb_len s1);;
   x <- process_hops hops skb (read_path_from_skb s) PPE_ERROR;; rest x) k1 =
   rest (PPE_DROPPED, read_path_from_skb s) k2) /\ arrived (l ++ [skb]) k2 /\
   k_rcu_nesting k2 = k_rcu_nesting k1 /\ k_emdiscs k2 = <[k_cpu k := disc_set_active true d]> (k_emdiscs k1).
Proof.
  intros Har (s0 & w & Hpk & Hlw & Hw) Hnd Hr Hs Hd. pose proof Hpk as (H0 & Hs0 & _).
  rewrite Hs in Hs0. injection Hs0 as <-. pose proof Har as [A1 _ _ _ A5 _]. pose proof A1 as (_ & _ & Ec & _).
  apply NoDup_app in Hnd as (_ & Hn1 & Hn2). apply NoDup_app in Hn2 as (_ & Hn2 & _).
  assert (Hq : skb ∉ sk_receive_queue so) by (intros Hin; apply (Hn1 _ Hin); set_solver).
  assert (Hl : skb ∉ l) by (intros Hin; apply (Hn2 _ Hin); set_solver).
  assert (Hd1 : k_emdiscs k1 !! k_cpu k1 = Some d) by (by rewrite Ec).
  assert (Har1 : arrived l (started d s k1)) by (eapply arrived_frame; [exact Har|by repeat split|done..]).
  destruct (arrived_hops l (started d s k1) hops skb s w (read_path_from_skb s) PPE_ERROR Har1 Hpk Hq Hl Hw Hlw)
    as (k2 & Hrun & Har2 & Ee & En).
  { apply (arrived_room _ _ skb _ q); [done..|]. intros a Ha Hin. apply (Hn1 _ Ha). set_solver. }
  exists k2. split.
  { intros rest. rewrite (start_run k1 d skb s _ Hd1 H0) by (by rewrite A5). by rewrite (bind_run _ _ _ _ _ Hrun). } split; [done|]. split; [done|]. rewrite Ee. simpl. by rewrite Ec.
Qed.

(** The packet and then the backlog. *)
Lemma arrived_pkts q : forall l k1 pkts hops skb d s,
  arrived l k1 -> Forall (leads_to hops) (skb :: q) -> NoDup (sk_receive_queue so ++ l ++ skb :: q) ->
  room_for (l ++ skb :: q) -> k_skbs k !! skb = Some s ->
  k_emdiscs k1 !! k_cpu k = Some d -> ed_queue d = q -> (length q < pkts)%nat ->
  exists k2, process_pkts pkts hops skb (read_path_from_skb s) k1 = Ret PPE_DROPPED k2 /\
    arrived (l ++ skb :: q) k2 /\ k_rcu_nesting k2 = k_rcu_nesting k1 /\
    k_emdiscs k2 = <[k_cpu k := idle d]> (k_emdiscs k1).
Proof.
  induction q as [|skb' q IH]; intros l k1 [|pkts] hops skb d s Har HF Hnd Hr Hs Hd Hq Hp; simpl in Hp; try lia;
    cbn [process_pkts]; apply Forall_cons in HF as [Hj HF].
  - destruct (arrived_packet l k1 hops skb s d []) as (k2 & Hpkt & Har2 & En & Ee); [done..|]. rewrite Hpkt.
    pose proof (ar_way _ _ Har2) as (_ & _ & Ec & _).
    assert (Hd2 : k_emdiscs k2 !! k_cpu k2 = Some (disc_set_active true d)).
    { rewrite Ee, Ec. apply list_lookup_insert_eq. by eapply lookup_lt_Some. }
    erewrite bind_run by (by eapply test_reduce_nil). cbv beta iota. erewrite bind_run by (by apply set_inactive_run).
    eexists. split; [reflexivity|]. split; [eapply arrived_frame; [exact Har2|by repeat split|done..]|].
    split; [done|]. simpl. rewrite Ee, Ec, list_insert_insert_eq. unfold idle, disc_set_active. simpl. by rewrite Hq.
  - destruct (arrived_packet l k1 hops skb s d (skb' :: q)) as (k2 & Hpkt & Har2 & En & Ee); [done..|]. rewrite Hpkt.
    pose proof (ar_way _ _ Har2) as (_ & _ & Ec & _).
    assert (Hd2 : k_emdiscs k2 !! k_cpu k2 = Some (disc_set_active true d)).
    { rewrite Ee, Ec. apply list_lookup_insert_eq. by eapply lookup_lt_Some. }
    pose proof HF as ((s' & _ & (H0' & Hs' & _) & _) & _)%Forall_cons.
    assert (Hs2 : k_skbs k2 !! skb' = Some s').
    { rewrite (ar_others _ _ Har2); [done|]. intros Hin. apply NoDup_app in Hnd as (_ & _ & Hnd).
      rewrite (cons_middle skb), app_assoc in Hnd. apply NoDup_app in Hnd as (_ & Hnd & _). apply (Hnd _ Hin). by left. }
    erewrite bind_run by (eapply test_reduce_cons; [exact Hd2|exact Hq|done|exact Hs2]). cbv beta iota.
    destruct (IH (l ++ [skb]) (upd_emdiscs <[k_cpu k2 := disc_set_queue q (disc_set_active true d)]> k2) pkts hops skb'
      (disc_set_queue q (disc_set_active true d)) s') as (k3 & Hrun & Har3 & En3 & Ee3); try done; try lia.
    + eapply arrived_frame; [exact Har2|by repeat split|done..].
    + by rewrite <- app_assoc.
    + by rewrite <- app_assoc.
    + simpl. rewrite Ee, Ec. apply list_lookup_insert_eq. rewrite length_insert. by eapply lookup_lt_Some.
    + exists k3. split; [exact Hrun|]. rewrite <- app_assoc in Har3. split; [exact Har3|].
      split; [rewrite En3; exact En|]. rewrite Ee3. simpl. by rewrite Ee, Ec, !list_insert_insert_eq.
Qed.
End order.

Lemma same_queue `{Nm : NameMap, Ka : KernelApi} k sk so :
  sock_at k sk so -> net_pf (socks_of <[sk := with_sk_queue (sk_receive_queue so ++ []) so]>) (k_net k) = k_net k.
Proof.
  intros [_ Hs]. rewrite app_nil_r. replace (with_sk_queue _ so) with so by (by destruct so).
  unfold pf in Hs. destruct (k_net k) as [? ? ? ? ? ? ? ? ? n]. destruct n. simpl in *. unfold net_pf, socks_of. simpl.
  by rewrite insert_id.
Qed.

(** C17: packets wait in the backlog of a CPU, all of them with a way to the
    same socket, whose queue has room for them.  The handler of the CPU's timer
    brings them into the socket's receive queue in the order in which they
    waited, behind what is there already, each with its length and data; the
    backlog is empty then and the engine idle, other packets, the blocks and
    the lock are as they were, and the timer is armed again. *)
Theorem timer_delivers_in_order `{Nm : NameMap, Ka : KernelApi} k pkts hops d fb b p so :
  k_emdiscs k !! k_cpu k = Some d -> ed_active d = false -> ed_cpu d = k_cpu k -> ed_queue d <> [] ->
  sink k (fb_idp b) fb b M_pflana -> sock_port k fb b p so ->
  Forall (leads_to k b hops) (ed_queue d) -> NoDup (sk_receive_queue so ++ ed_queue d) ->
  room_for k so (ed_queue d) -> (length (ed_queue d) <= pkts)%nat ->
  exists k', engine_timer_handler pkts hops (k_cpu k) k = Ret tt k' /\
    sock_at k' (pp_sock_self p) (with_sk_queue (sk_receive_queue so ++ ed_queue d) so) /\
    Forall (kept k k') (ed_queue d) /\ (forall a, a ∉ ed_queue d -> k_skbs k' !! a = k_skbs k !! a) /\
    k_emdiscs k' = <[k_cpu k := Disc [] false (k_cpu k)]> (k_emdiscs k) /\ k_fblocks k' = k_fblocks k /\
    k_rcu_nesting k' = k_rcu_nesting k /\ rearmed (k_cpu k) k k'.
Proof.
  intros Hd Ha Hc Hq Hsink Hport HF Hnd Hr Hp. destruct (ed_queue d) as [|skb q] eqn:Eq; [done|].
  pose proof HF as ((s & _ & (H0 & Hs & _) & _) & _)%Forall_cons.
  set (k1 := upd_emdiscs <[k_cpu k := disc_set_queue q d]> (upd_rcu_nesting S k)).
  assert (Har : arrived k b p so [] k1).
  { split; [by repeat split|done| |done|done|done]. exact (eq_sym (same_queue k _ so (sp_sock _ _ _ _ _ Hport))). }
  destruct (arrived_pkts k fb b p so Hsink Hport q [] k1 pkts hops skb (disc_set_queue q d) s Har HF Hnd Hr Hs)
    as (k2 & Hrun & Har2 & En & Ee); [|done|simpl in Hp; lia|].
  { simpl. apply list_lookup_insert_eq. by eapply lookup_lt_Some. }
  pose proof Har2 as [(_ & Eb & Ec & _) _ Enet Hk Ho Ecore].
  destruct (timer_process_run k pkts hops d skb q s PPE_DROPPED k2) as (k' & Hrun' & Hre & G1 & G2 & G3 & G4 & G5); try done.
  exists k'. split; [exact Hrun'|]. split; [|split_and!].
  - split; [apply Hport|]. unfold pf. rewrite G5, Enet. apply lookup_insert_eq.
  - eapply Forall_impl; [exact Hk|]. intros a. unfold kept. by rewrite G4.
  - intros a Ha'. rewrite G4. by apply Ho.
  - rewrite G3, Ee. simpl. rewrite list_insert_insert_eq. unfold idle. simpl. by rewrite Hc.
  - by rewrite G1.
  - done.
  - done.
Qed.
