(* ===== verification/FbPflanaLife.v ===== *)
(** * The life of a socket (src/fb_pflana.c)

    Creating a socket with its block, giving the block back, releasing the
    socket, and loading and unloading the module. *)
From Stdlib Require Import ZArith Lia.
From stdpp Require Import base gmap numbers countable list.
From S2P Require Import Prelude CString CritbitTree Vlink NameMap Types NetTypes Kernel NetDev EthvlinkDev Fblock FblockNs.
From S2P Require Import FblockLife FblockBind PerCpu FblockCtor Engine FbPflana Modules EngineProps EngineSinks ModuleLife.
From S2P Require Import UserctlProps NetDevProps FbPflanaProps.

Local Open Scope Z_scope.
Local Open Scope kernel_scope.

Section life.
Context `{Nm : NameMap, Ka : KernelApi}.
Variable ptr_text : addr -> cstr.

Definition sock_name (sk : addr) : cstr := take 31 (ptr_text sk).

Definition sock_fresh (sk : addr) (n : nat) : priv :=
  PrivPflana (replicate n (PflanaPriv (Ports IDP_UNKNOWN IDP_UNKNOWN) sk)).

(** A change of private data keeps the invariant. *)
Lemma core_ok_priv k a x y :
  core_ok k -> k_privs k !! a = Some x -> core_ok (upd_privs <[a := y]> k).
Proof.
  intros Hk Ha. pose proof (core_heap k Hk) as [Hp Hf He Hn Hs Hpr].
  destruct Hk as [_ Hns Hc Hfb Hnm]. split; [|by apply (ns_ok_ext k)|done..]. split; try done.
  by apply (below_next_update k _ _ _ x).
Qed.

Lemma wp_get_sk k sk s (Q : lana_sock -> kernel -> Prop) : sock_at k sk s -> Q s k -> wp (get_sk sk) Q k.
Proof. intros Hs HQ. eapply wp_of_run; [by apply get_sk_run|done]. Qed.

Lemma wp_mod_sk k sk s f (Q : unit -> kernel -> Prop) :
  sock_at k sk s -> Q tt (upd_pf (socks_of <[sk := f s]>) k) -> wp (mod_sk sk f) Q k.
Proof. intros Hs HQ. eapply wp_of_run; [by apply mod_sk_run|done]. Qed.

Lemma wp_sock_build k name (Q : addr -> kernel -> Prop) :
  core_ok k -> own_buildable k name ->
  (forall k1, own_built M_pflana (sock_fresh 0) name k k1 ->
     Q (k_next k) (upd_modrefs <[M_pflana := module_ref k1 M_pflana + 1]> k1)) ->
  wp (fb_pflana_build_fblock name) Q k.
Proof.
  intros Hk Hown HQ. unfold fb_pflana_build_fblock. apply (wp_own_build M_pflana (sock_fresh 0)); [done..|]. intros k1 Hb.
  cbn [negb Z.eqb]. wp_step. unfold wp at 1, module_get, ret. by apply HQ.
Qed.

(** The block of a socket that is there: built, and knowing its socket. *)
Record sk_inited (sk : addr) (so : lana_sock) (k k' : kernel) : Prop := {
  si_core : core_ok k';
  si_blocks : k_fblocks k' = <[k_next k := own_block M_pflana (sock_name sk) k]> (k_fblocks k);
  si_privs : k_privs k' = <[64 + k_next k := sock_fresh sk (k_cpus k)]> (k_privs k);
  si_subs : k_subs k' = <[128 + k_next k := chain_init]> (k_subs k);
  si_fbl i : fbl_lookup k' i = if decide (i = k_idp_counter k + 1) then k_next k else fbl_lookup k i;
  si_ns n : ns_lookup k' n =
    if decide (n = fbname (sock_name sk)) then Some (k_idp_counter k + 1) else ns_lookup k n;
  si_net : k_net k' = net_pf (socks_of <[sk := with_ls_fb (k_next k) so]>) (k_net k);
  si_same : k_notifs k' = k_notifs k /\ k_rcu k' = k_rcu k /\ k_rcu_nesting k' = k_rcu_nesting k /\
            k_cpus k' = k_cpus k /\ k_cpu k' = k_cpu k /\ k_skbs k' = k_skbs k /\
            k_factories k' = k_factories k /\ k_emdiscs k' = k_emdiscs k;
  si_oom : k_oom k' = [];
}.

Lemma wp_sk_init k sk so (Q : Z -> kernel -> Prop) :
  core_ok k -> own_buildable k (sock_name sk) -> sock_at k sk so ->
  (forall k', sk_inited sk so k k' -> Q 0 k') -> wp (lana_sk_init ptr_text sk) Q k.
Proof.
  intros Hk Hown [Hsk0 Hso] HQ. pose proof (heap_next k (core_heap k Hk)) as Hpos. unfold lana_sk_init. wp_step.
  apply wp_sock_build; [done..|]. intros k1 [B1 B2 B3 B4 B5 B6 B7 B8 B9]. wp_step.
  eapply (wp_mod_sk _ sk so); [split; [done|]; unfold pf in *; simpl; by rewrite B7|].
  destruct (Z.eqb_spec (k_next k) 0); [lia|]. wp_step.
  eapply wp_get_fb; [lia|simpl; rewrite B2; apply lookup_insert_eq|]. wp_step.
  eapply wp_of_run.
  { apply pflana_priv_run; [simpl; lia|]. simpl. rewrite B3. apply lookup_insert_eq. }
  wp_steps. apply HQ. split; simpl; try done.
  - assert (Hp : k_privs k1 !! (64 + k_next k) = Some (sock_fresh 0 (k_cpus k))) by (rewrite B3; apply lookup_insert_eq).
    apply (core_ok_ext (upd_privs <[64 + k_next k := sock_fresh sk (k_cpus k)]> k1)); try done.
    + by apply (core_ok_priv _ _ (sock_fresh 0 (k_cpus k))).
    + simpl. do 2 f_equal. by rewrite fmap_replicate.
  - rewrite B3, insert_insert_eq. by rewrite fmap_replicate.
  - rewrite B7. done.
Qed.

(** ** Creating *)

(** The protocol a creator gets, or the error. *)
Definition protocol_for (type protocol : Z) (capable : bool) : Z + Z :=
  if protocol =? LANA_PROTO_AUTO then
    if type =? SOCK_RAW then if negb capable then inl (- EPERM) else inr LANA_PROTO_RAW
    else inl (- EPROTONOSUPPORT)
  else inr protocol.

Definition proto_known (k : kernel) (protocol : Z) : bool :=
  negb ((protocol <? 0) || (LANA_NPROTO <=? protocol)) && negb (nth (Z.to_nat protocol) (proto_tab (pf k)) 0 =? 0).

(** The new socket. *)
Definition new_sock (k : kernel) (type protocol : Z) : lana_sock :=
  LanaSock 1 [] sysctl_rmem_default 0 0 protocol type true (64 + k_next k) 0 false.

Record sock_created (k : kernel) (sock : addr) (type protocol : Z) (k' : kernel) : Prop := {
  sc_core : core_ok k';
  sc_blocks : k_fblocks k' =
    <[64 + k_next k := own_block M_pflana (sock_name (k_next k)) (upd_next (Z.add 64) k)]> (k_fblocks k);
  sc_privs : k_privs k' = <[128 + k_next k := sock_fresh (k_next k) (k_cpus k)]> (k_privs k);
  sc_subs : k_subs k' = <[192 + k_next k := chain_init]> (k_subs k);
  sc_fbl i : fbl_lookup k' i = if decide (i = k_idp_counter k + 1) then 64 + k_next k else fbl_lookup k i;
  sc_ns n : ns_lookup k' n =
    if decide (n = fbname (sock_name (k_next k))) then Some (k_idp_counter k + 1) else ns_lookup k n;
  sc_net : k_net k' = net_pf (fun p => sockets_of <[sock := Socket type (k_next k)]>
             (socks_of <[k_next k := new_sock k type protocol]> p)) (k_net k);
  sc_same : k_notifs k' = k_notifs k /\ k_rcu k' = k_rcu k /\ k_rcu_nesting k' = k_rcu_nesting k /\
            k_cpus k' = k_cpus k /\ k_cpu k' = k_cpu k /\ k_skbs k' = k_skbs k;
}.

Lemma wp_create k sock so capable protocol p (Q : Z -> kernel -> Prop) :
  core_ok k -> sock <> 0 -> pf_sockets (pf k) !! sock = Some so ->
  protocol_for (so_type so) protocol capable = inr p -> proto_known k p = true ->
  own_buildable k (sock_name (k_next k)) ->
  (forall k', sock_created k sock (so_type so) p k' -> Q 0 k') ->
  wp (lana_family_create ptr_text true capable sock protocol) Q k.
Proof.
  intros Hk Hs0 Hso Hch Hkn Hown HQ. pose proof (heap_next k (core_heap k Hk)) as Hpos.
  unfold lana_family_create. cbn [negb]. wp_step. eapply wp_deref; [done|exact Hso|].
  fold (protocol_for (so_type so) protocol capable). rewrite Hch. unfold proto_known in Hkn.
  apply andb_true_iff in Hkn as [Hr Hlp]. unfold pflana_proto_get. wp_step.
  apply negb_true_iff in Hr, Hlp. rewrite Hr. wp_steps. rewrite Hlp. wp_step. unfold sk_alloc.
  pose proof (ok_oom _ _ Hown) as Hoom. apply wp_kmalloc; [intros _|by rewrite Hoom].
  destruct (Z.eqb_spec (k_next k) 0); [lia|]. wp_step.
  match goal with |- wp _ _ ?k0 => set (k1 := k0) end.
  assert (Hk1 : core_ok k1) by (apply (core_ok_next k); try done; simpl; lia).
  eapply (wp_sk_init k1 (k_next k) (LanaSock 0 [] 0 0 0 0 0 false 0 0 false)); [done| | |].
  { apply (own_buildable_ext k); try done. simpl. by rewrite Hoom. }
  { split; [lia|]. unfold pf. simpl. apply lookup_insert_eq. }
  intros k2 [B1 B2 B3 B4 B5 B6 B7 B8 B9]. cbn [Z.ltb Z.compare]. wp_step. unfold sock_init_data. wp_step.
  eapply wp_deref; [done|unfold pf; simpl; rewrite B7; exact Hso|]. wp_step.
  eapply (wp_mod_sk k2 (k_next k)); [split; [lia|]; unfold pf; rewrite B7; simpl; apply lookup_insert_eq|]. wp_steps.
  eapply wp_mod_sk; [split; [lia|]; apply lookup_insert_eq|]. wp_step. unfold lana_proto_init. wp_step.
  eapply wp_mod_sk; [split; [lia|]; apply lookup_insert_eq|]. wp_steps.
  eapply wp_mod_sk; [split; [lia|]; apply lookup_insert_eq|]. wp_step. apply HQ.
  assert (Ea : forall e, e + k_next k1 = e + 64 + k_next k) by (intros; simpl; lia).
  split; simpl; try done.
  - by apply (core_ok_ext k2).
  - rewrite B3, Ea. done.
  - rewrite B4, Ea. done.
  - rewrite B7. unfold k1. net_eq. unfold socks_of, sockets_of, with_sk_protocol, with_sk_destruct, with_ls_dev, new_sock. simpl.
    by rewrite !insert_insert_eq.
  - by destruct B8 as (-> & -> & -> & -> & -> & -> & _).
Qed.

(** C34: creating a socket, for the protocol that is asked for or, if none is,
    for a raw socket of a privileged creator.  There is a new socket with one
    reference and an empty queue, and a registered block named after its
    address, with unbound ports, whose private data on every CPU lead back to
    the socket. *)
Theorem pflana_create_correct k sock so capable protocol p :
  core_ok k -> sock <> 0 -> pf_sockets (pf k) !! sock = Some so ->
  protocol_for (so_type so) protocol capable = inr p -> proto_known k p = true ->
  own_buildable k (sock_name (k_next k)) -> (0 < k_cpus k)%nat ->
  exists sk fb b s k', lana_family_create ptr_text true capable sock protocol k = Ret 0 k' /\ core_ok k' /\
    pf_sockets (pf k') = <[sock := Socket (so_type so) sk]> (pf_sockets (pf k)) /\
    pf_socks (pf k') = <[sk := s]> (pf_socks (pf k)) /\
    sk_refcnt s = 1 /\ sk_receive_queue s = [] /\ sk_protocol s = p /\ ls_fb s = fb /\ ls_bound s = false /\
    registered k' fb b /\ fb_name b = fbname (sock_name sk) /\ fb_refcnt b = 1 /\ fb_netfb_rx b = Some M_pflana /\
    (forall dir, priv_port (k_privs k') M_pflana (fb_private_data b) dir = Some IDP_UNKNOWN) /\
    (forall cpu, (cpu < k_cpus k)%nat -> exists l, k_privs k' !! fb_private_data b = Some (PrivPflana l) /\
       pp_sock_self <$> l !! cpu = Some sk) /\
    (forall n, n <> fbname (sock_name sk) -> ns_lookup k' n = ns_lookup k n).
Proof.
  intros Hk Hs0 Hso Hch Hkn Hown Hcpu. pose proof (heap_next k (core_heap k Hk)) as Hpos.
  exists (k_next k), (64 + k_next k), (own_block M_pflana (sock_name (k_next k)) (upd_next (Z.add 64) k)),
    (new_sock k (so_type so) p).
  apply wp_run_val. eapply wp_create; [done..|]. intros k' [D1 D2 D3 D4 D5 D6 D7 D8]. unfold pf. rewrite D7.
  split; [done|]. split; [exact D1|]. do 7 (split; [done|]). split.
  { split; [by rewrite D2, lookup_insert_eq|simpl; by rewrite D5, decide_True|simpl; by rewrite D6, decide_True]. }
  do 3 (split; [done|]).
  assert (Hp : k_privs k' !! (64 + (64 + k_next k)) = Some (sock_fresh (k_next k) (k_cpus k)))
    by (rewrite D3, Z.add_assoc; apply lookup_insert_eq).
  split; [|split].
  - intros dir. apply priv_port_Some. exists (sock_fresh (k_next k) (k_cpus k)). simpl. rewrite Hp. split; [done|]. split; [lia|].
    split; [done|]. apply uport_Some.
    rewrite fmap_replicate. split; [by destruct (k_cpus k); [lia|]|]. apply Forall_replicate. by destruct dir.
  - intros cpu Hlt. simpl. rewrite Hp. eexists. split; [done|]. by rewrite lookup_replicate_2.
  - intros n Hn. by rewrite D6, decide_False.
Qed.

(** a socket is refused outside the initial name space, to a creator who
    names no protocol and is not privileged or does not want a raw socket, and
    for a protocol that is not registered; nothing has changed then. *)
Theorem pflana_create_refused k sock so init_net capable protocol :
  sock <> 0 -> pf_sockets (pf k) !! sock = Some so ->
  (init_net = false \/
   match protocol_for (so_type so) protocol capable with inl _ => True | inr p => proto_known k p = false end) ->
  lana_family_create ptr_text init_net capable sock protocol k =
    Ret (if negb init_net then - EAFNOSUPPORT
         else match protocol_for (so_type so) protocol capable with inl err => err | inr _ => - EPROTONOSUPPORT end) k.
Proof.
  intros Hs0 Hso Href. unfold lana_family_create. destruct init_net; [|done]. cbn [negb].
  destruct Href as [Hf|Href]; [done|].
  rewrite (bind_run _ _ _ _ _ (deref_run (fun k => pf_sockets (pf k)) sock so k Hs0 Hso)).
  fold (protocol_for (so_type so) protocol capable). destruct (protocol_for _ _ _) as [err|p]; [done|].
  unfold proto_known in Href. unfold pflana_proto_get.
  destruct ((p <? 0) || (LANA_NPROTO <=? p)); cbn [negb andb] in Href.
  - by erewrite bind_run by reflexivity.
  - apply negb_false_iff in Href. rewrite bind_assoc. erewrite bind_run by reflexivity. erewrite bind_run by reflexivity.
    by rewrite Href.
Qed.

(** Without memory for the block: the socket has no reference to drop yet, its
    count becomes negative, and it stays for ever. *)
Theorem pflana_create_leaks k sock so capable protocol p rest :
  0 < k_next k -> sock <> 0 -> pf_sockets (pf k) !! sock = Some so ->
  protocol_for (so_type so) protocol capable = inr p -> proto_known k p = true ->
  k_oom k = false :: true :: rest ->
  exists s k', lana_family_create ptr_text true capable sock protocol k = Ret (- ENOMEM) k' /\
    pf_socks (pf k') = <[k_next k := s]> (pf_socks (pf k)) /\ sk_refcnt s = -1 /\
    pf_sockets (pf k') = pf_sockets (pf k) /\ k_fblocks k' = k_fblocks k.
Proof.
  intros Hpos Hs0 Hso Hch Hkn Hoom. exists (LanaSock (-1) [] 0 0 0 0 0 false 0 0 false). apply wp_run_val.
  unfold lana_family_create. cbn [negb]. wp_step. eapply wp_deref; [done|exact Hso|].
  fold (protocol_for (so_type so) protocol capable). rewrite Hch. unfold proto_known in Hkn.
  apply andb_true_iff in Hkn as [Hr Hlp]. unfold pflana_proto_get. wp_step.
  apply negb_true_iff in Hr, Hlp. rewrite Hr. wp_steps. rewrite Hlp. wp_step. unfold sk_alloc.
  apply wp_kmalloc; [intros _|by rewrite Hoom]. destruct (Z.eqb_spec (k_next k) 0); [lia|]. wp_step.
  unfold lana_sk_init, fb_pflana_build_fblock, alloc_fblock. wp_steps.
  apply wp_kmalloc; [simpl; rewrite Hoom; by intros [|]|]. intros _. do 3 (cbn [Z.eqb]; wp_steps).
  eapply wp_mod_sk; [split; [lia|]; apply lookup_insert_eq|]. cbn [Z.eqb]. wp_step.
  change (- ENOMEM <? 0) with true. cbv iota. wp_step. unfold sock_put. wp_step.
  eapply wp_mod_sk; [split; [lia|]; apply lookup_insert_eq|]. wp_step.
  eapply wp_get_sk; [split; [lia|]; apply lookup_insert_eq|]. simpl sk_refcnt. change (s32 (0 - 1) =? 0) with false. cbv iota.
  wp_steps. split; [done|]. unfold pf. simpl. by rewrite !insert_insert_eq.
Qed.

(** ** The end of a socket *)

Lemma get_bound_none k fb b p l dir :
  fb <> 0 -> k_fblocks k !! fb = Some b -> fb_private_data b <> 0 ->
  k_privs k !! fb_private_data b = Some (PrivPflana l) -> l !! k_cpu k = Some p ->
  port (pp_port p) dir = IDP_UNKNOWN -> get_bound_fblock fb dir k = Ret 0 k.
Proof.
  intros H0 Hb Hp0 Hl Hp Hport. unfold get_bound_fblock, get_fb.
  rewrite (bind_run _ _ _ _ _ (deref_run k_fblocks fb b k H0 Hb)).
  rewrite (bind_run _ _ _ _ _ (this_pflana_priv_run k _ l p Hp0 Hl Hp)). by rewrite Hport.
Qed.

(** a socket's block that is built and given back while its ports are
    unbound leaves no trace: after a grace period all blocks, their data and
    chains, names and IDPs are as before. *)
Theorem pflana_init_free k sk so :
  core_ok k -> own_buildable k (sock_name sk) -> sock_at k sk so -> (k_cpu k < k_cpus k)%nat ->
  k_rcu k = [] -> k_rcu_nesting k = 0%nat ->
  exists k', (lana_sk_init ptr_text sk;; lana_sk_free sk;; grace_period) k = Ret tt k' /\
    k_fblocks k' = k_fblocks k /\ k_privs k' = k_privs k /\ k_subs k' = k_subs k /\
    (forall n, ns_lookup k' n = ns_lookup k n) /\ (forall i, fbl_lookup k' i = fbl_lookup k i).
Proof.
  intros Hk Hown Hso Hcpu Hrcu Hnest. pose proof (core_heap k Hk) as [Hpos Hf _ _ Hs Hp].
  apply wp_run_val. wp_step. eapply wp_sk_init; [done..|]. intros k1 [D1 D2 D3 D4 D5 D6 D7 (S1 & S2 & S3 & S4 & S5 & _) D9].
  set (b := own_block M_pflana (sock_name sk) k) in *. set (fb := k_next k) in *.
  assert (Hpr : k_privs k1 !! fb_private_data b = Some (sock_fresh sk (k_cpus k))) by (rewrite D3; apply lookup_insert_eq).
  assert (Hnone : forall dir, get_bound_fblock fb dir k1 = Ret 0 k1).
  { intros dir. eapply (get_bound_none k1 fb b); [unfold fb; lia|by rewrite D2, lookup_insert_eq|simpl; lia|exact Hpr| |].
    - by rewrite S5, lookup_replicate_2.
    - by destruct dir. }
  wp_step. unfold lana_sk_free. wp_step. eapply (wp_get_sk k1 sk (with_ls_fb fb so)).
  { split; [apply Hso|]. unfold pf. rewrite D7. apply lookup_insert_eq. }
  wp_step. eapply wp_of_run; [apply Hnone|]. cbn [negb Z.eqb]. wp_steps. eapply wp_of_run; [apply Hnone|]. cbn [negb Z.eqb].
  wp_steps. unfold fb_pflana_destroy_fblock. eapply (wp_own_destroy _ k1 fb b (sock_fresh sk (k_cpus k)) chain_init); [done| |].
  { split.
    - split; [unfold fb; lia|]. split; [|done].
      split; [by rewrite D2, lookup_insert_eq|simpl; by rewrite D5, decide_True|simpl; by rewrite D6, decide_True].
    - split; [simpl; lia|done].
    - split; [simpl; lia|]. rewrite D4. split; [apply lookup_insert_eq|]. by rewrite chain_members_init. }
  intros k2 Hg. eapply (wp_own_grace k1 k2 fb b); [exact Hg|by rewrite S2|by rewrite S3|]. intros elem _ k3 Hns.
  pose proof Hg as [G1 G2 G3 _ G5 _]. split; [done|]. unfold k3. simpl. rewrite G1, G2, G3, D2, D3, D4. unfold fb. simpl.
  rewrite (delete_insert_id (k_fblocks k)) by (by apply below_next_fresh).
  rewrite !delete_insert_id by (by apply above_next). do 3 (split; [done|]). split.
  - intros n. rewrite Hns, D6. simpl. case_decide as E; [|done]. subst. symmetry. by destruct Hown as [[_ ?] _ _ _].
  - intros i. change (fbl_lookup (upd_elems _ (upd_rcu _ k2)) i) with (fbl_lookup k2 i). rewrite G5, D5. simpl.
    case_decide as E; [|done]. subst. symmetry. apply core_fresh_idp; [done|]. lia.
Qed.

(** C35: closing a socket from which all packets were read accesses it after it
    was freed: the last reference is dropped, which frees the socket, before
    its block is looked up in it. *)
Theorem pflana_release_freed k sock type sk so :
  sock <> 0 -> pf_sockets (pf k) !! sock = Some (Socket type sk) -> sock_at k sk so ->
  sk_refcnt so = 1 -> sk_receive_queue so = [] -> lana_raw_release sock k = Crash (Bad_access sk).
Proof.
  intros Hs0 Hsock [Hsk0 Hso] Hr Hq. unfold lana_raw_release.
  rewrite (bind_run _ _ _ _ _ (deref_run (fun k => pf_sockets (pf k)) sock (Socket type sk) k Hs0 Hsock)). cbv zeta. cbn [so_sk so_type].
  destruct (Z.eqb_spec sk 0); [done|]. erewrite bind_run by reflexivity.
  match goal with |- bind _ _ ?k0 = _ => set (k1 := k0) end.
  assert (Hput : exists k2, lana_proto_close sk k1 = Ret tt k2 /\ pf_socks (pf k2) !! sk = None).
  { apply wp_run_val. unfold lana_proto_close, sock_put. wp_step. eapply (wp_mod_sk k1 sk so); [by split|]. wp_step.
    eapply wp_get_sk; [split; [done|]; apply lookup_insert_eq|]. simpl sk_refcnt. rewrite Hr.
    change (s32 (1 - 1) =? 0) with true. cbv iota. wp_step. simpl sk_destruct.
    assert (Hend : forall k2 : kernel, wp (upd (upd_pf (socks_of (delete sk))))
      (fun r k' => r = tt /\ pf_socks (pf k') !! sk = None) k2).
    { intros k2. wp_step. split; [done|]. unfold pf. simpl. apply lookup_delete_eq. }
    destruct (sk_destruct so); [|wp_step; apply Hend]. unfold lana_proto_destruct. wp_step.
    eapply wp_get_sk; [split; [done|]; apply lookup_insert_eq|]. simpl sk_receive_queue. rewrite Hq. cbn [skb_queue_purge].
    wp_steps. eapply wp_mod_sk; [split; [done|]; apply lookup_insert_eq|]. apply Hend. }
  destruct Hput as (k2 & E & Hgone). rewrite (bind_run _ _ _ _ _ E). unfold lana_sk_free. rewrite !bind_assoc.
  unfold bind at 1, get_sk, deref. destruct (Z.eqb_spec sk 0); [done|]. by rewrite Hgone.
Qed.
End life.

(** ** The module *)

Section pflana_module.
Context `{Nm : NameMap, Ka : KernelApi}.

Lemma grace_idle k : k_rcu k = [] -> grace_period k = Ret tt k.
Proof.
  intros Hr. unfold grace_period. erewrite bind_run by reflexivity. destruct (_ <? _)%nat; [done|].
  erewrite bind_run by reflexivity. rewrite Hr. erewrite bind_run by reflexivity. unfold ret. simpl. f_equal.
  destruct k. simpl in *. by subst.
Qed.

Definition with_pf (p : pf_state) (k : kernel) : kernel := upd_pf (fun _ => p) k.

Lemma with_pf_id k p : pf k = p -> with_pf p k = k.
Proof. intros <-. kernel_eq. by net_eq. Qed.

Lemma wp_grace_idle k (Q : unit -> kernel -> Prop) : k_rcu k = [] -> Q tt k -> wp grace_period Q k.
Proof. intros Hr HQ. eapply wp_of_run; [by apply grace_idle|done]. Qed.

(** The module's protocol object, and the state before and after it is
    loaded. *)
Definition raw_object : lana_protocol := LanaProtocol LANA_PROTO_RAW M_pflana.

Definition tab_empty (socks : gmap addr lana_sock) (sockets : gmap addr socket) (lps : gmap addr lana_protocol)
    (family : bool) : pf_state := Pf socks sockets lps [0; 0] false false family.
Definition tab_loaded (socks : gmap addr lana_sock) (sockets : gmap addr socket) (lps : gmap addr lana_protocol)
    (family : bool) : pf_state := Pf socks sockets lps [0; lana_proto_raw] false true family.

Lemma wp_register_raw k socks sockets lps family (Q : Z -> kernel -> Prop) :
  lps !! lana_proto_raw = Some raw_object -> k_rcu k = [] -> k_oom k = [] ->
  Q 0 (with_pf (tab_loaded socks sockets lps family) k) ->
  wp (pflana_proto_register LANA_PROTO_RAW lana_proto_raw) Q (with_pf (tab_empty socks sockets lps family) k).
Proof.
  intros Hlp Hr Ho HQ. unfold pflana_proto_register. cbn [orb Z.ltb Z.compare].
  change (lana_proto_raw =? 0) with false. change (LANA_PROTO_RAW <? 0) with false.
  change (LANA_NPROTO <=? LANA_PROTO_RAW) with false. cbn [orb]. wp_steps. simpl nth. cbn [negb Z.eqb]. wp_step.
  unfold alloc_ok. wp_steps. simpl k_oom. rewrite Ho. wp_steps. cbn [negb]. wp_steps.
  unfold get_lp. eapply wp_deref; [done|exact Hlp|]. wp_steps. unfold locked_tab. wp_steps. simpl proto_tab_lock. cbv iota.
  wp_steps. apply wp_grace_idle; [exact Hr|]. simpl lp_owner. rewrite bool_decide_true by done. cbn [negb]. wp_steps.
  match goal with |- Q 0 ?k1 => replace k1 with (with_pf (tab_loaded socks sockets lps family) k); [done|] end.
  unfold with_pf, tab_loaded. kernel_eq. net_eq. unfold lps_of, tab_of, tab_lock_of, registered_of. simpl.
  by rewrite insert_id.
Qed.

Lemma wp_unregister_raw k socks sockets lps family (Q : unit -> kernel -> Prop) :
  lps !! lana_proto_raw = Some raw_object -> k_rcu k = [] ->
  Q tt (with_pf (tab_empty socks sockets lps family) k) ->
  wp (pflana_proto_unregister lana_proto_raw) Q (with_pf (tab_loaded socks sockets lps family) k).
Proof.
  intros Hlp Hr HQ. unfold pflana_proto_unregister. change (lana_proto_raw =? 0) with false. cbv iota. wp_step.
  unfold get_lp. eapply wp_deref; [done|exact Hlp|]. simpl lp_protocol. change (LANA_PROTO_RAW <? 0) with false.
  change (LANA_NPROTO <=? LANA_PROTO_RAW) with false. cbn [orb]. wp_steps. simpl nth.
  change (lana_proto_raw =? 0) with false. change (lana_proto_raw =? lana_proto_raw) with true. cbn [negb]. wp_step.
  unfold locked_tab. wp_steps. simpl proto_tab_lock. cbv iota. wp_steps. apply wp_grace_idle; [exact Hr|]. wp_steps.
  simpl lp_owner. rewrite bool_decide_true by done. cbn [negb]. wp_steps. exact HQ.
Qed.

(** loading the module registers the raw protocol and the family, and
    unloading brings everything back.  If the family is taken, loading fails
    and the protocol that was registered is taken back. *)
Theorem pflana_module_roundtrip k socks sockets lps :
  lps !! lana_proto_raw = Some raw_object -> k_rcu k = [] -> k_oom k = [] ->
  (pf k = tab_empty socks sockets lps false ->
   exists k1, init_fb_pflana_module k = Ret 0 k1 /\ proto_known k1 LANA_PROTO_RAW = true /\
     pf_family_registered (pf k1) = true /\ cleanup_fb_pflana_module k1 = Ret tt k) /\
  (pf k = tab_empty socks sockets lps true -> init_fb_pflana_module k = Ret (- EEXIST) k).
Proof.
  intros Hlp Hr Ho. split; intros Hpf.
  - exists (with_pf (tab_loaded socks sockets lps true) k).
    assert (Hi : exists k1, init_fb_pflana_module k = Ret 0 k1 /\ k1 = with_pf (tab_loaded socks sockets lps true) k).
    { apply wp_run_val.
      match goal with |- wp ?m ?Q k => cut (forall k0, k0 = k -> wp m Q k0); [by intros H; apply H|] end.
      intros k0 E. rewrite <- (with_pf_id k _ Hpf) in E. subst k0. unfold init_fb_pflana_module, init_fb_pflana. wp_steps.
      apply (wp_register_raw k socks sockets lps false); [done..|]. cbn [negb Z.eqb]. unfold sock_register. wp_steps.
      simpl pf_family_registered. cbv iota. wp_steps. cbn [negb Z.eqb]. wp_step. done. }
    destruct Hi as (k1 & Hi & ->). split; [exact Hi|]. do 2 (split; [done|]).
    assert (Hc : exists k2, cleanup_fb_pflana_module (with_pf (tab_loaded socks sockets lps true) k) = Ret tt k2 /\
                   k2 = with_pf (tab_empty socks sockets lps false) k).
    { apply wp_run_val. unfold cleanup_fb_pflana_module, cleanup_fb_pflana, sock_unregister. wp_step.
      apply wp_grace_idle; [exact Hr|]. wp_steps. apply wp_grace_idle; [exact Hr|].
      change (Z.to_nat LANA_NPROTO) with 2%nat. cbn [unregister_protos]. wp_steps. simpl nth.
      unfold pflana_proto_unregister at 1. cbn [Z.eqb]. wp_steps. simpl nth.
      apply (wp_unregister_raw k socks sockets lps false); [done..|]. wp_steps. done. }
    destruct Hc as (k2 & -> & ->). by rewrite with_pf_id.
  - assert (Hi : exists k1, init_fb_pflana_module k = Ret (- EEXIST) k1 /\ k1 = with_pf (tab_empty socks sockets lps true) k).
    { apply wp_run_val.
      match goal with |- wp ?m ?Q k => cut (forall k0, k0 = k -> wp m Q k0); [by intros H; apply H|] end.
      intros k0 E. rewrite <- (with_pf_id k _ Hpf) in E. subst k0. unfold init_fb_pflana_module, init_fb_pflana. wp_steps.
      apply (wp_register_raw k socks sockets lps true); [done..|]. cbn [negb Z.eqb]. unfold sock_register. wp_steps.
      simpl pf_family_registered. cbv iota. wp_steps. change (negb (- EEXIST =? 0)) with true. cbv iota. wp_step.
      apply (wp_unregister_raw k socks sockets lps true); [done..|]. wp_step. done. }
    destruct Hi as (k1 & -> & ->). by rewrite with_pf_id.
Qed.
End pflana_module.
