(* ===== verification/NetPaths.v ===== *)
(** * From the wire to a socket and from a socket to the wire

    The virtual devices (src/fb_ethvlink.c), the Ethernet block (src/fb_eth.c),
    the engine (src/xt_engine.c) and the sockets (src/fb_pflana.c) together. *)
From Stdlib Require Import ZArith Lia.
From stdpp Require Import base gmap numbers countable list.
From S2P Require Import Prelude CString CritbitTree Vlink NameMap Types NetTypes Kernel NetDev EthvlinkDev Fblock FblockNs.
From S2P Require Import FblockLife FblockBind PerCpu FblockCtor Engine FbEthvlink FbPflana Modules EngineProps EngineSinks ModuleLife.
From S2P Require Import UserctlProps NetDevProps FbEthProps FbEthvlinkProps FbEthvlinkFrames FbPflanaProps.

Local Open Scope Z_scope.
Local Open Scope kernel_scope.

Section paths.
Context `{Nm : NameMap, Ka : KernelApi}.

(** The virtual device a frame is for: the frame's protocol number carries the
    device's tag, and the device is up to the engine. *)
Record frame_for (k : kernel) (s : sk_buff) (a : addr) (v : fb_ethvlink_private) (vd : net_device)
    (st : list pcpu_dstats) (b : fblock) (p : fb_ethvlink_private_inner) : Prop := {
  ff_carrier : exists rd, device k (ei_dev (skb_eth s)) rd /\ has_flag (nd_flags rd) IFF_UP = true;
  ff_frame : ei_pkt_type (skb_eth s) <> PACKET_LOOPBACK /\ is_valid_ether_addr (ei_source (skb_eth s)) = true;
  ff_tag : 0 <= vd_tag v < 1024 /\ 0 <= ei_proto (skb_eth s) < 2 ^ 16 /\
           htons (ei_proto (skb_eth s)) = Z.lor ETH_P_LANA (vd_tag v);
  ff_vdev : vdev_for (k_net k) (vd_tag v) (ei_dev (skb_eth s)) = a;
  ff_dev : device k a vd /\ nd_dstats vd = Some st;
  ff_port : vlink_port k a v b p /\ port (vi_port p) TYPE_INGRESS <> IDP_UNKNOWN;
}.

(** a frame with the tag of a virtual device, whose way from the ingress
    port of the device's block leads through any number of forwarding blocks to
    the block of a socket with room in its queue, is at the end of that queue
    afterwards with its data unchanged, and the virtual device has counted one
    packet and its length on this CPU. *)
Theorem frame_to_socket k pkts hops skb s a v vd st b p l fb2 b2 p2 so2 cpu :
  packet k skb s -> vdevs_live (k_net k) -> frame_for k s a v vd st b p ->
  reaches k TYPE_INGRESS (port (vi_port p) TYPE_INGRESS) l (fb_idp b2) -> sink k (fb_idp b2) fb2 b2 M_pflana ->
  sock_port k fb2 b2 p2 so2 -> skb ∉ sk_receive_queue so2 -> room k so2 (skb_len s) = true ->
  (0 < k_rcu_nesting k)%nat -> k_emdiscs k !! k_cpu k = Some (Disc [] false cpu) ->
  exists k' s', fb_ethvlink_handle_frame [] (S pkts) (length l + S hops) skb k = Ret RX_HANDLER_CONSUMED k' /\
    k_skbs k' = <[skb := s']> (k_skbs k) /\ skb_data s' = skb_data s /\ skb_len s' = skb_len s /\
    pf_socks (pf k') = <[pp_sock_self p2 := queued skb so2]> (pf_socks (pf k)) /\
    n_devs (k_net k') =
      <[a := with_dstats (Some (alter (dstats_rx (skb_len s)) (k_cpu k) st)) vd]> (n_devs (k_net k)) /\
    k_fblocks k' = k_fblocks k /\ k_emdiscs k' = k_emdiscs k /\ skb_users s' = 1.
Proof.
  intros Hpk Hlive [(rd & Hrd & Hup) (Hlb & Hsrc) (Ht & Hh & Htag) Ha (Hd & Hst) (Hvp & Hport)] Hreach Hsink Hsp Hnin Hroom Hn Hdisc.
  apply tag_exact in Htag as [Hlana Htg]; [|done..]. pose proof Hpk as (H0 & Hs & Hu).
  set (to := port (vi_port p) TYPE_INGRESS) in *. set (s1 := write_next_idp_to_skb s (fb_idp b) to).
  set (k1 := upd_skbs <[skb := s1]> k).
  assert (Hw : wp (process_packet (S pkts) (length l + S hops) skb TYPE_INGRESS) (fun r k' => r = PPE_DROPPED /\
    exists s2, same_content s1 s2 /\ k_net k' = net_pf (socks_of <[pp_sock_self p2 := queued skb so2]>) (k_net k) /\
      k_skbs k' = <[skb := taken_in b2 s2]> (k_skbs k) /\
      k_fblocks k' = k_fblocks k /\ k_emdiscs k' = k_emdiscs k /\ k_cpu k' = k_cpu k) k1).
  { eapply (wp_to_socket k1 pkts hops skb s1 TYPE_INGRESS l fb2 b2 p2 so2 cpu); try done.
    - split; [done|]. split; [apply lookup_insert_eq|done].
    - apply (reaches_same k); [by repeat split|exact Hreach].
    - destruct Hsink. by split.
    - destruct Hsp. by split.
    - unfold room in *. rewrite (rmem_other k); [done|]. intros x Hx. simpl. rewrite lookup_insert_ne; [done|].
      by intros <-.
    - intros k3 s2 Hc G1 G2 G3 G4 G5 G6. exists s2. split; [done|]. split; [done|]. rewrite G2. simpl.
      by rewrite insert_insert_eq. }
  apply wp_run_val in Hw as (k2 & Hk2 & s2 & (C1 & C2 & C3 & _) & E1 & E2 & E3 & E4 & E5).
  assert (Hd2 : device k2 a vd) by (split; [apply Hd|]; rewrite E1; apply Hd).
  exists (upd_net (net_devs <[a := with_dstats (Some (alter (dstats_rx (skb_len s)) (k_cpu k) st)) vd]>) k2), (taken_in b2 s2).
  split.
  - rewrite (vlink_frame_run k _ _ skb s rd Hpk Hlive Hrd v b p) by (rewrite Htg, Ha; done).
    rewrite Hup, Hsrc, Hlana, Htg, Ha. cbn [negb]. destruct (Z.eqb_spec (ei_pkt_type (skb_eth s)) PACKET_LOOPBACK); [done|].
    destruct (Z.eqb_spec a 0); [by destruct Hd|]. fold to. destruct (Z.eqb_spec to IDP_UNKNOWN); [done|]. fold s1 k1.
    rewrite Hk2. unfold count_rx. rewrite E2, lookup_insert_eq.
    erewrite bind_run by (by apply (this_dstats_run k2 a vd st)). rewrite E5. simpl. by rewrite C1.
  - split; [exact E2|]. split; [exact C2|]. split; [exact C1|]. unfold pf. simpl. rewrite E1. do 4 (split; [done|]). by rewrite C3.
Qed.

(** a message sent on a socket whose way leads from the egress port through
    any number of forwarding blocks to the block of a real device that is up
    leaves the machine through that device with the caller's bytes. *)
Theorem socket_to_wire k sk so b p d msg len pkts hops l fb2 b2 p2 d2 cpu :
  send_ready k sk so b p d msg len ->
  reaches k TYPE_EGRESS (port (pp_port p) TYPE_EGRESS) l (fb_idp b2) -> sink k (fb_idp b2) fb2 b2 M_eth ->
  eth_port k fb2 b2 p2 d2 -> has_flag (nd_flags d2) IFF_UP = true ->
  k_emdiscs k !! k_cpu k = Some (Disc [] false cpu) ->
  exists k' out, lana_proto_sendmsg [] (S pkts) (length l + S hops) sk msg len k = Ret len k' /\
    n_devs (k_net k') = <[ep_dev p2 := with_sent (k_next k) out d2]> (n_devs (k_net k)) /\
    skb_data out = msg_data msg len /\
    k_skbs k' = (if nd_late d2 then <[k_next k := out]> (k_skbs k) else k_skbs k) /\
    k_fblocks k' = k_fblocks k /\ k_emdiscs k' = k_emdiscs k /\ k_rcu_nesting k' = k_rcu_nesting k.
Proof.
  intros Hr Hreach Hsink Hep Hup Hdisc. pose proof Hr as [_ _ _ (_ & Hpos & Hfr) _ _ _].
  set (s0 := sent_out k so b p msg len). set (k0 := sending k so b p msg len).
  assert (Hw : wp (process_packet (S pkts) (length l + S hops) (k_next k) TYPE_EGRESS) (fun r k' => r = PPE_DROPPED /\
    exists out, n_devs (k_net k') = <[ep_dev p2 := with_sent (k_next k) out d2]> (n_devs (k_net k)) /\
      skb_data out = msg_data msg len /\
      k_skbs k' = (if nd_late d2 then <[k_next k := out]> (k_skbs k) else k_skbs k) /\
      k_fblocks k' = k_fblocks k /\ k_emdiscs k' = k_emdiscs k /\ k_rcu_nesting k' = S (k_rcu_nesting k)) k0).
  { eapply (wp_deliver k0 pkts hops (k_next k) s0 TYPE_EGRESS l (fb_idp b2) fb2 b2 M_eth cpu); try done.
    - split; [lia|]. split; [apply lookup_insert_eq|done].
    - simpl. lia.
    - apply (reaches_same k); [apply sending_same|exact Hreach].
    - destruct Hsink. by split.
    - intros k2 s2 Hat Hc. eapply (eth_sink k0 fb2 b2 p2 d2 (k_next k) s2 k2); try done; [|lia| |].
      + destruct Hep. by split.
      + destruct Hc as (_ & _ & -> & _). done.
      + intros k3 out G1 G2 G3 G4 _ G6. exists out. rewrite G1, G2, G3, G4, G6. unfold dev_takes. rewrite Hup. simpl.
        split; [done|]. split; [apply Hc|]. split; [|done].
        destruct (nd_late d2); simpl; rewrite ?insert_insert_eq; [done|]. by rewrite delete_insert_id. }
  apply wp_run_val in Hw as (k2 & Hk2 & out & E1 & E2 & E3 & E4 & E5 & E6). exists (upd_rcu_nesting pred k2), out.
  rewrite (sendmsg_run k sk so b p d _ _ msg len Hr), (bind_run _ _ _ _ _ Hk2). split; [done|]. simpl. by rewrite E6.
Qed.
End paths.
