(* ===== verification/UserTools.v ===== *)
(** * The command line tools (usr/fbctl.c, usr/vlink.c)

    Each tool turns its arguments into one netlink message.  The result of a
    run is the message it sends with the length in its header, or what it does
    instead; the socket calls themselves are not modelled.  The theorems
    compose the tools with the receivers in the kernel. *)
From Stdlib Require Import ZArith Lia.
From stdpp Require Import base gmap numbers countable list.
From S2P Require Import Prelude CString CritbitTree Vlink NameMap Types Kernel Fblock Builder Userctl.

Local Open Scope Z_scope.

(** ** Common *)

(** What a run of a tool comes to; [Overruns]: it reads behind the memory it
    may read. *)
Inductive run_result (A : Type) :=
| Panics
| Prints_usage
| Prints_version
| Overruns
| Runs (cmd : cstr)
| Sends (nlmsg_type nlmsg_len : Z) (m : A).
Arguments Panics {A}.
Arguments Overruns {A}.
Arguments Prints_usage {A}.
Arguments Prints_version {A}.
Arguments Runs {A}.
Arguments Sends {A}.

(** [!strncmp (word, arg, strlen (word))] *)
Definition starts (word arg : cstr) : bool := strncmp word arg (length word) =? 0.

(** [strlcpy (field, src, size)] into the field at [off]. *)
Definition put_field (buf : list Z) (off : nat) (src : cstr) (size : nat) : list Z :=
  take off buf ++ (strlcpy (drop off buf) src size).2.

(** [NLMSG_SPACE]: header and payload, rounded up to four bytes. *)
Definition NLMSG_SPACE (len : Z) : Z := (len + 16 + 3) / 4 * 4.

(** [euid] is 0 and the real user id the same. *)
Definition check_for_root (euid uid : Z) : bool := (euid =? 0) && (euid =? uid).

(** The words of the command lines. *)
Definition w_help : cstr := [104; 101; 108; 112].
Definition w_version : cstr := [118; 101; 114; 115; 105; 111; 110].
Definition w_preload : cstr := [112; 114; 101; 108; 111; 97; 100].
Definition w_add : cstr := [97; 100; 100].
Definition w_set : cstr := [115; 101; 116].
Definition w_rm : cstr := [114; 109].
Definition w_bind : cstr := [98; 105; 110; 100].
Definition w_unbind : cstr := [117; 110] ++ w_bind.
Definition w_replace : cstr := [114; 101; 112; 108; 97; 99; 101].
Definition w_replace_drop : cstr := w_replace ++ [45; 100; 114; 111; 112].
Definition w_subscribe : cstr := [115; 117; 98; 115; 99; 114; 105; 98; 101].
Definition w_unsubscribe : cstr := [117; 110] ++ w_subscribe.
Definition w_ethernet : cstr := [101; 116; 104; 101; 114; 110; 101; 116].
Definition w_hook : cstr := [104; 111; 111; 107].
Definition w_unhook : cstr := [117; 110] ++ w_hook.

(** ** fbctl *)

Definition USERCTLGRP_CONF : Z := 21.

Definition send_netlink (lmsg : lananlmsg) : run_result lananlmsg :=
  Sends USERCTLGRP_CONF (NLMSG_SPACE lananlmsg_size) lmsg.

(** [memset (&lmsg, 0, sizeof (lmsg))] and the command. *)
Definition zero_buff : list Z := replicate USERCTL_BUF_LEN 0.

(** The two strings of an add or a tuple message. *)
Definition two_names (a b : cstr) : list Z :=
  put_field (put_field zero_buff 0 a FBNAMSIZ) FBNAMSIZ b FBNAMSIZ.

Definition do_add (argv : list cstr) : run_result lananlmsg :=
  match argv with
  | [name; type] => send_netlink (Lananlmsg NETLINK_USERCTL_CMD_ADD (two_names name type))
  | _ => Prints_usage
  end.

Definition do_set (argv : list cstr) : run_result lananlmsg :=
  match argv with
  | [name; option] => send_netlink (Lananlmsg NETLINK_USERCTL_CMD_SET
      (put_field (put_field zero_buff 0 name FBNAMSIZ) FBNAMSIZ option (USERCTL_BUF_LEN - FBNAMSIZ)))
  | _ => Prints_usage
  end.

Definition do_rm (argv : list cstr) : run_result lananlmsg :=
  match argv with
  | [name] => send_netlink (Lananlmsg NETLINK_USERCTL_CMD_RM (put_field zero_buff 0 name FBNAMSIZ))
  | _ => Prints_usage
  end.

Definition do_bind (argv : list cstr) : run_result lananlmsg :=
  match argv with
  | [name1; name2] => send_netlink (Lananlmsg NETLINK_USERCTL_CMD_BIND (two_names name1 name2))
  | _ => Prints_usage
  end.

Definition do_unbind (argv : list cstr) : run_result lananlmsg :=
  match argv with
  | [name1; name2] => send_netlink (Lananlmsg NETLINK_USERCTL_CMD_UNBIND (two_names name1 name2))
  | _ => Prints_usage
  end.

Definition do_replace (argv : list cstr) (drop : bool) : run_result lananlmsg :=
  match argv with
  | [name1; name2] => send_netlink (Lananlmsg NETLINK_USERCTL_CMD_REPLACE
      (<[(2 * FBNAMSIZ)%nat := if drop then 1 else 0]> (two_names name1 name2)))
  | _ => Prints_usage
  end.

Definition do_subscribe (argv : list cstr) : run_result lananlmsg :=
  match argv with
  | [name1; name2] => send_netlink (Lananlmsg NETLINK_USERCTL_CMD_SUBSCRIBE (two_names name1 name2))
  | _ => Prints_usage
  end.

Definition do_unsubscribe (argv : list cstr) : run_result lananlmsg :=
  match argv with
  | [name1; name2] => send_netlink (Lananlmsg NETLINK_USERCTL_CMD_UNSUBSCRIBE (two_names name1 name2))
  | _ => Prints_usage
  end.

(** [do_preload]: [env] is the memory that can be read at the value of
    FBCFG_PRELOAD_DIR: the string, its NUL and what lies behind it; [memcpy]
    reads 256 bytes of it, however long the string is.  [owner_of] is the owner
    of a regular file ([None] if it cannot be opened or is not one); the command
    is run by a shell and [exit_status] its result. *)
Definition do_preload (env : option (list Z)) (euid : Z) (owner_of : cstr -> option Z)
    (exit_status : cstr -> Z) (argv : list cstr) : run_result lananlmsg :=
  match argv with
  | [module] =>
      let run_cmd cmd := if exit_status cmd =? 0 then Runs cmd else Panics in
      match env with
      | None => run_cmd (take 511 ([109; 111; 100; 112; 114; 111; 98; 101; 32] ++ module))
      | Some dir =>
          if (length dir <? 256)%nat then Overruns else
          let file := take 319 (c_str (take 255 dir) ++ module ++ [46; 107; 111]) in
          match owner_of file with
          | None => Panics
          | Some uid =>
              if negb (uid =? euid) then Panics
              else run_cmd (take 511 ([105; 110; 115; 109; 111; 100; 32] ++ file))
          end
      end
  | _ => Panics
  end.

Definition fbctl_main (preload : list cstr -> run_result lananlmsg) (euid uid : Z) (argv : list cstr) :
    run_result lananlmsg :=
  if negb (check_for_root euid uid) then Panics
  else
    match argv with
    | [] | [_] => Prints_usage
    | _ :: word :: args =>
        if starts w_help word then Prints_usage
        else if starts w_version word then Prints_version
        else if starts w_preload word then preload args
        else if starts w_add word then do_add args
        else if starts w_set word then do_set args
        else if starts w_rm word then do_rm args
        else if starts w_bind word then do_bind args
        else if starts w_unbind word then do_unbind args
        else if starts w_replace word then do_replace args false
        else if starts w_replace_drop word then do_replace args true
        else if starts w_subscribe word then do_subscribe args
        else if starts w_unsubscribe word then do_unsubscribe args
        else Prints_usage
    end.

(** ** vlink *)

(** [atoi], which is [(int) strtol (s, NULL, 10)]: white space, a sign, decimal
    digits. *)
Fixpoint atoi_digits (acc : Z) (s : cstr) : Z :=
  match s with
  | c :: s' => if (48 <=? c) && (c <=? 57) then atoi_digits (10 * acc + (c - 48)) s' else acc
  | [] => acc
  end.

Fixpoint skip_space (s : cstr) : cstr :=
  match s with
  | c :: s' => if (c =? 32) || ((9 <=? c) && (c <=? 13)) then skip_space s' else s
  | [] => []
  end.

(** [strtol] in base 10: the value, cut to the range of a [long]. *)
Definition strtol10 (s : cstr) : Z :=
  Z.max (- 2 ^ 63) (Z.min (2 ^ 63 - 1)
    match skip_space s with
    | 45 :: s' => - atoi_digits 0 s'
    | 43 :: s' => atoi_digits 0 s'
    | s' => atoi_digits 0 s'
    end).

Definition atoi (s : cstr) : Z := s32 (strtol10 s).

Definition zero_name : list Z := replicate IFNAMSIZ 0.

Definition do_ethernet (argv : list cstr) : run_result vlinknlmsg :=
  match argv with
  | [] => Prints_usage
  | word :: args =>
      let send cmd port virt real :=
        Sends VLINKNLGRP_ETHERNET (NLMSG_SPACE vlinknlmsg_size)
          (Vmsg cmd 0 0 port (put_field zero_name 0 virt IFNAMSIZ) real) in
      match args with
      | [name; rootdev; port] =>
          if starts w_add word then
            send VLINKNLCMD_ADD_DEVICE (Z.land 65535 (atoi port)) name
              (put_field zero_name 0 rootdev IFNAMSIZ)
          else Prints_usage
      | [name] =>
          if starts w_rm word then send VLINKNLCMD_RM_DEVICE 0 name zero_name
          else if starts w_hook word then
            send VLINKNLCMD_START_HOOK_DEVICE 0 name (put_field zero_name 0 name IFNAMSIZ)
          else if starts w_unhook word then
            send VLINKNLCMD_STOP_HOOK_DEVICE 0 name (put_field zero_name 0 name IFNAMSIZ)
          else Prints_usage
      | _ => Prints_usage
      end
  end.

Definition vlink_main (euid uid : Z) (argv : list cstr) : run_result vlinknlmsg :=
  if negb (check_for_root euid uid) then Panics
  else
    match argv with
    | [] | [_] => Prints_usage
    | _ :: word :: args =>
        if starts w_help word then Prints_usage
        else if starts w_version word then Prints_version
        else if starts w_ethernet word then do_ethernet args
        else Prints_usage
    end.

(** ** What the kernel reads *)

Lemma c_str_prefix buf n l : (length (c_str buf) < n)%nat -> 0 ∈ buf -> c_str (take n buf ++ l) = c_str buf.
Proof.
  revert n. induction buf as [|c buf IH]; intros n Hn Hin; [by apply not_elem_of_nil in Hin|].
  destruct n as [|n]; [lia|]. simpl in *. destruct (Z.eqb_spec c 0); [done|].
  simpl in Hn. f_equal. apply IH; [lia|]. apply elem_of_cons in Hin as [E|Hin]; [congruence|exact Hin].
Qed.

Lemma c_str_insert buf n v : (length (c_str buf) < n)%nat -> c_str (<[n := v]> buf) = c_str buf.
Proof.
  revert n. induction buf as [|c buf IH]; intros n Hn; [done|].
  destruct n as [|n]; [lia|]. simpl in *. destruct (Z.eqb_spec c 0); [done|].
  simpl in Hn. f_equal. apply IH. lia.
Qed.

Lemma put_field_length buf off src size :
  (off + size <= length buf)%nat -> length (put_field buf off src size) = length buf.
Proof.
  intros Hl. unfold put_field. rewrite length_app, strlcpy_length, length_take, length_drop;
    [lia|]. rewrite length_drop. lia.
Qed.

Lemma put_field_read buf off src size :
  cstr_ok src -> (0 < size)%nat -> (off <= length buf)%nat ->
  c_str (drop off (put_field buf off src size)) = take (size - 1) src.
Proof.
  intros Hs Hn Ho. unfold put_field. rewrite drop_app_length' by (rewrite length_take; lia).
  by apply strlcpy_c_str.
Qed.

(** A later field does not disturb an earlier one. *)
Lemma put_field_before buf off src size off' src' size' :
  cstr_ok src -> (0 < size)%nat -> (off + size <= off')%nat -> (off' <= length buf)%nat ->
  c_str (drop off (put_field (put_field buf off src size) off' src' size')) = take (size - 1) src.
Proof.
  intros Hs Hn Ho Hl. pose proof (put_field_read buf off src size Hs Hn) as Hr.
  set (b1 := put_field buf off src size) in *.
  assert (Hl1 : length b1 = length buf) by (by apply put_field_length; lia).
  unfold put_field. rewrite drop_app_le by (rewrite length_take; lia).
  rewrite skipn_firstn_comm, c_str_prefix; [apply Hr; lia| |].
  - rewrite Hr by lia. rewrite length_take. lia.
  - unfold b1, put_field. rewrite drop_app_length' by (rewrite length_take; lia).
    by apply strlcpy_terminated.
Qed.

(** Ground inequalities about the sizes of the fields. *)
Ltac sizes := rewrite ?put_field_length by (apply Nat.leb_le; vm_compute; reflexivity);
  apply Nat.leb_le; vm_compute; reflexivity.

Lemma two_names_read cmd a b :
  cstr_ok a -> cstr_ok b ->
  msg_name (Lananlmsg cmd (two_names a b)) = fbname a /\
  msg_second (Lananlmsg cmd (two_names a b)) = fbname b.
Proof.
  intros Ha Hb. split.
  - apply (put_field_before zero_buff 0 a FBNAMSIZ FBNAMSIZ b FBNAMSIZ); [done|sizes..].
  - apply (put_field_read _ FBNAMSIZ b FBNAMSIZ); [done|sizes..].
Qed.

(** The flag behind the two names. *)
Lemma replace_msg_read cmd a b v :
  cstr_ok a -> cstr_ok b ->
  let m := Lananlmsg cmd (<[(2 * FBNAMSIZ)%nat := v]> (two_names a b)) in
  msg_name m = fbname a /\ msg_second m = fbname b /\ msg_drop_priv m = negb (v =? 0).
Proof.
  intros Ha Hb m. destruct (two_names_read cmd a b Ha Hb) as [E1 E2].
  assert (Hl : length (two_names a b) = USERCTL_BUF_LEN).
  { unfold two_names. rewrite !put_field_length; [done|sizes..]. }
  unfold msg_name, msg_second, msg_drop_priv, msg_str in *. simpl lm_buff in *.
  rewrite drop_0 in E1. split_and!.
  - rewrite drop_0, c_str_insert; [done|]. rewrite E1. unfold fbname. rewrite length_take.
    unfold FBNAMSIZ. lia.
  - rewrite drop_insert_ge by (unfold FBNAMSIZ; lia). rewrite c_str_insert; [done|].
    rewrite E2. unfold fbname. rewrite length_take. unfold FBNAMSIZ. lia.
  - rewrite (nth_lookup_some _ _ _ v); [done|]. apply list_lookup_insert_eq. rewrite Hl. sizes.
Qed.

(** A directory of fewer than 255 characters with nothing behind its NUL that
    can be read makes [do_preload] read past the end of it. *)
Lemma do_preload_overruns dir module euid owner_of exit_status :
  (length dir < 255)%nat -> do_preload (Some (dir ++ [0])) euid owner_of exit_status [module] = Overruns.
Proof.
  intros Hd. unfold do_preload.
  assert (E : (length (dir ++ [0%Z]) <? 256)%nat = true) by (apply Nat.ltb_lt; rewrite length_app; simpl; lia).
  by rewrite E.
Qed.

(** When the memory can be read, the directory is the string, cut to 255
    characters, and only a file of the caller is loaded. *)
Lemma do_preload_loads dir after module euid owner_of exit_status cmd :
  cstr_ok dir -> (256 <= length (dir ++ 0%Z :: after))%nat ->
  do_preload (Some (dir ++ 0 :: after)) euid owner_of exit_status [module] = Runs cmd ->
  exists file, file = take 319 (take 255 dir ++ module ++ [46; 107; 111]) /\ owner_of file = Some euid /\
    exit_status cmd = 0 /\ cmd = take 511 ([105; 110; 115; 109; 111; 100; 32] ++ file).
Proof.
  intros Hd Hlen. unfold do_preload. rewrite (proj2 (Nat.ltb_ge _ _) Hlen).
  assert (E : c_str (take 255 (dir ++ 0 :: after)) = take 255 dir).
  { clear Hlen. generalize 255%nat. induction Hd as [|c dir Hc Hd IH]; intros [|n]; simpl; try done.
    destruct (Z.eqb_spec c 0); [lia|]. by rewrite IH. }
  rewrite E. set (file := take 319 _). destruct (owner_of file) as [uid|] eqn:Eo; [|done].
  destruct (Z.eqb_spec uid euid) as [->|]; [|done]. cbn [negb].
  destruct (Z.eqb_spec (exit_status (take 511 ([105; 110; 115; 109; 111; 100; 32] ++ file))) 0) as [E0|]; [|done].
  injection 1 as <-. by exists file.
Qed.

Section delivery.
Context `{Nm : NameMap, Ka : KernelApi, !FblockOps}.
Variable preload : list cstr -> run_result lananlmsg.

(** The commands with two block (or type) names, and what the kernel runs. *)
Definition tuple_commands : list (cstr * (lananlmsg -> M Z)) :=
  [(w_add, userctl_add); (w_bind, userctl_bind); (w_unbind, userctl_unbind);
   (w_subscribe, userctl_subscribe); (w_unsubscribe, userctl_unsubscribe)].

(** C25: a command line of fbctl with two names becomes one message, which the
    kernel does not discard, for which it runs the handler of that command,
    and in which it reads the two names, each cut to 15 characters. *)
Theorem fbctl_tuple_delivered prog word h a b :
  (word, h) ∈ tuple_commands -> cstr_ok a -> cstr_ok b ->
  exists len m, fbctl_main preload 0 0 [prog; word; a; b] = Sends USERCTLGRP_CONF len m /\
    __userctl_rcv true len m = h m /\ msg_name m = fbname a /\ msg_second m = fbname b.
Proof.
  intros Hin Ha Hb. unfold tuple_commands in Hin. rewrite !elem_of_cons, elem_of_nil in Hin.
  destruct Hin as [E|[E|[E|[E|[E|[]]]]]]; injection E as -> ->;
    (eexists _, _; split; [reflexivity|]; split; [reflexivity|]; by apply two_names_read).
Qed.

(** "fbctl rm name" and "fbctl set name option" reach their handlers with
    the name cut to 15 characters and the option to 1483. *)
Theorem fbctl_rm_set_delivered prog a o :
  cstr_ok a -> cstr_ok o ->
  (exists len m, fbctl_main preload 0 0 [prog; w_rm; a] = Sends USERCTLGRP_CONF len m /\
     __userctl_rcv true len m = userctl_remove m /\ msg_name m = fbname a) /\
  (exists len m, fbctl_main preload 0 0 [prog; w_set; a; o] = Sends USERCTLGRP_CONF len m /\
     __userctl_rcv true len m = userctl_set m /\ msg_name m = fbname a /\ msg_second m = take 1483 o).
Proof.
  intros Ha Ho. split; (eexists _, _; split; [reflexivity|]; split; [reflexivity|]).
  - apply (put_field_read zero_buff 0 a FBNAMSIZ); [done|sizes..].
  - split.
    + apply (put_field_before zero_buff 0 a FBNAMSIZ FBNAMSIZ o (USERCTL_BUF_LEN - FBNAMSIZ));
        [done|sizes..].
    + apply (put_field_read _ FBNAMSIZ o (USERCTL_BUF_LEN - FBNAMSIZ)); [done|sizes..].
Qed.

(** a command word that starts with "replace-drop" is taken for "replace":
    the message asks to keep the private data. *)
Theorem fbctl_replace_drop_shadowed prog rest a b :
  cstr_ok a -> cstr_ok b ->
  exists len m, fbctl_main preload 0 0 [prog; w_replace_drop ++ rest; a; b] = Sends USERCTLGRP_CONF len m /\
    __userctl_rcv true len m = userctl_replace m /\ msg_name m = fbname a /\ msg_second m = fbname b /\
    msg_drop_priv m = false.
Proof.
  intros Ha Hb. eexists _, _. split; [reflexivity|]. split; [reflexivity|].
  by apply (replace_msg_read _ a b 0).
Qed.
End delivery.

Section vdelivery.
Context {W : Type} (rx : Z -> vlinknlmsg -> W -> Z * W).

Lemma name_read src : cstr_ok src -> c_str (put_field zero_name 0 src IFNAMSIZ) = take 15 src.
Proof. intros Hs. apply (put_field_read zero_name 0 src IFNAMSIZ); [done|sizes..]. Qed.

(** The receiver looks the Ethernet subsystem up and offers it the message. *)
Definition offered (len : Z) (m : vlinknlmsg) : Prop := forall s : vstate (W := W),
  __vlink_rcv rx true len VLINKNLGRP_ETHERNET m s =
    (sys ← __vlink_subsys_find VLINKNLGRP_ETHERNET s;
     if sys =? 0 then Some (- EINVAL, s) else __vlink_invoke rx sys m s).

(** the commands of the vlink tool become one message to the Ethernet
    subsystem that the kernel does not discard, with the device names cut to
    15 characters and, for a new device, the port modulo 2^16. *)
Theorem vlink_tool_delivered prog name root port :
  cstr_ok name -> cstr_ok root ->
  (exists len m, vlink_main 0 0 [prog; w_ethernet; w_add; name; root; port] =
       Sends VLINKNLGRP_ETHERNET len m /\ offered len m /\ vm_cmd m = VLINKNLCMD_ADD_DEVICE /\
     c_str (vm_virt_name m) = take 15 name /\ c_str (vm_real_name m) = take 15 root /\
     vm_port m = atoi port mod 2 ^ 16) /\
  (exists len m, vlink_main 0 0 [prog; w_ethernet; w_rm; name] =
       Sends VLINKNLGRP_ETHERNET len m /\ offered len m /\ vm_cmd m = VLINKNLCMD_RM_DEVICE /\
     c_str (vm_virt_name m) = take 15 name) /\
  (exists len m, vlink_main 0 0 [prog; w_ethernet; w_hook; root] =
       Sends VLINKNLGRP_ETHERNET len m /\ offered len m /\ vm_cmd m = VLINKNLCMD_START_HOOK_DEVICE /\
     c_str (vm_real_name m) = take 15 root) /\
  (exists len m, vlink_main 0 0 [prog; w_ethernet; w_unhook; root] =
       Sends VLINKNLGRP_ETHERNET len m /\ offered len m /\ vm_cmd m = VLINKNLCMD_STOP_HOOK_DEVICE /\
     c_str (vm_real_name m) = take 15 root).
Proof.
  intros Hn Hr. repeat split; (eexists _, _; split; [reflexivity|]; split; [done|]; split; [done|]);
    simpl; rewrite ?name_read by done; try done.
  split; [done|]. split; [done|]. change 65535 with (Z.ones 16). rewrite Z.land_comm. by apply Z.land_ones.
Qed.
End vdelivery.
