(* ===== verification/EthSystem.v ===== *)
(** * From the command line to a hooked device

    The vlink tool (usr/vlink.c), the virtual link subsystem (src/xt_vlink.c)
    and the Ethernet module (src/fb_eth.c) together: loading the module, and
    the way of a command to its callback. *)
From Stdlib Require Import ZArith Lia.
From stdpp Require Import base gmap numbers countable list.
From S2P Require Import Prelude CString CritbitTree Vlink NameMap Types NetTypes Kernel NetDev EthvlinkDev Fblock FblockNs FblockLife.
From S2P Require Import FblockBind FblockCtor Engine FbEth Modules ModuleLife UserctlProps NetDevProps FbEthProps UserTools.

Local Open Scope Z_scope.

Section system.
Context `{Nm : NameMap, Ka : KernelApi}.

Definition eth_owner : Z := Z.of_nat (modid_code M_eth).

(** The module's subsystem is in the table with its two callbacks. *)
Record eth_loaded (s : vstate (W := fault + kernel)) : Prop := {
  el_found : __vlink_subsys_find VLINKNLGRP_ETHERNET s = Some fb_eth_sys;
  el_sys : v_subsys s !! fb_eth_sys =
    Some (Subsys [101; 116; 104] VLINKNLGRP_ETHERNET 0 eth_owner fb_eth_start_hook_dev_cb);
  el_start : v_cbs s !! fb_eth_start_hook_dev_cb =
    Some (Callback NETLINK_VLINK_PRIO_HIGH 1 fb_eth_stop_hook_dev_cb);
  el_stop : v_cbs s !! fb_eth_stop_hook_dev_cb = Some (Callback NETLINK_VLINK_PRIO_HIGH 2 0);
}.

Definition empty_table : list addr := replicate MAX_VLINK_SUBSYSTEMS 0.

(** The virtual link subsystem around a machine. *)
Definition vlink_on (k : kernel) : vstate (W := fault + kernel) := Vstate empty_table ∅ ∅ false 0 ∅ (inr k).

Lemma scan_empty (s : vstate (W := fault + kernel)) type :
  register_scan s type empty_table 0 (-1) = Some (inr 0).
Proof. reflexivity. Qed.

(** The list of callbacks of the module: the second one goes behind the first
    of the same priority. *)
Lemma add_two (s : vstate (W := fault + kernel)) :
  v_subsys s !! fb_eth_sys = Some (Subsys [101; 116; 104] VLINKNLGRP_ETHERNET 0 eth_owner 0) ->
  v_cbs s !! fb_eth_start_hook_dev_cb = Some (Callback NETLINK_VLINK_PRIO_HIGH 1 0) ->
  v_cbs s !! fb_eth_stop_hook_dev_cb = Some (Callback NETLINK_VLINK_PRIO_HIGH 2 0) ->
  exists s', ('(_, s) ← vlink_add_callback fb_eth_sys fb_eth_start_hook_dev_cb s;
              '(_, s) ← vlink_add_callback fb_eth_sys fb_eth_stop_hook_dev_cb s; Some (0, s)) = Some (0, s') /\
    v_table s' = v_table s /\ v_locked s' = v_locked s /\ v_world s' = v_world s /\
    v_owner_refs s' = v_owner_refs s /\
    v_subsys s' = <[fb_eth_sys := Subsys [101; 116; 104] VLINKNLGRP_ETHERNET 0 eth_owner
                                   fb_eth_start_hook_dev_cb]> (v_subsys s) /\
    v_cbs s' !! fb_eth_start_hook_dev_cb = Some (Callback NETLINK_VLINK_PRIO_HIGH 1 fb_eth_stop_hook_dev_cb) /\
    v_cbs s' !! fb_eth_stop_hook_dev_cb = Some (Callback NETLINK_VLINK_PRIO_HIGH 2 0).
Proof.
  intros Hs H1 H2. unfold vlink_add_callback, __vlink_add_callback. simpl. rewrite H1. simpl. rewrite Hs. simpl.
  rewrite Hs. simpl. rewrite (lookup_insert_ne (v_cbs s) fb_eth_start_hook_dev_cb fb_eth_stop_hook_dev_cb), H2 by done. simpl.
  unfold cbs_fuel. simpl. rewrite !lookup_insert_eq. simpl. rewrite lookup_insert_eq. simpl.
  match goal with |- context [add_walk ?f _ _ _] => destruct f as [|n] eqn:E end.
  { apply map_size_empty_iff in E. by apply insert_non_empty in E. }
  simpl. rewrite lookup_insert_eq. simpl. rewrite lookup_insert_eq. simpl.
  rewrite (lookup_insert_ne _ fb_eth_stop_hook_dev_cb fb_eth_start_hook_dev_cb), lookup_insert_eq by done. simpl.
  eexists. split; [reflexivity|]. simpl. do 5 (split; [done|]).
  rewrite lookup_insert_eq. split; [done|]. by rewrite lookup_insert_ne, lookup_insert_eq.
Qed.

Lemma init_module_loaded (s : vstate (W := fault + kernel)) :
  v_table s = empty_table -> v_locked s = false ->
  exists s', init_fb_eth_module (fb_eth_objects s) = Some (0, s') /\ eth_loaded s' /\
    v_locked s' = false /\ v_world s' = v_world s /\ v_owner_refs s' = v_owner_refs s.
Proof.
  intros Ht Hl. unfold init_fb_eth_module, vlink_subsys_register, vlink_lock. simpl. rewrite Hl. simpl.
  rewrite lookup_insert_eq. simpl. rewrite Ht, scan_empty. simpl.
  match goal with |- context [vlink_add_callback fb_eth_sys fb_eth_start_hook_dev_cb ?x] => set (s1 := x) end.
  destruct (add_two s1) as (s' & Hs' & E1 & E2 & E3 & E4 & E5 & E6 & E7).
  - apply lookup_insert_eq.
  - apply lookup_insert_eq.
  - by simpl; rewrite lookup_insert_ne, lookup_insert_eq.
  - exists s'. split; [exact Hs'|]. split; [|by rewrite E2, E3, E4]. split; [|by rewrite E5, lookup_insert_eq|done|done].
    unfold __vlink_subsys_find. rewrite E1. simpl. by rewrite E5, lookup_insert_eq.
Qed.

Lemma find_scan_locked b (s : vstate (W := fault + kernel)) type l :
  find_scan (set_locked b s) type l = find_scan s type l.
Proof.
  induction l as [|p l IH]; simpl; [done|]. rewrite IH. by destruct (p =? 0).
Qed.

Lemma loaded_locked b s : eth_loaded s -> eth_loaded (set_locked b s).
Proof.
  intros [Hf Hs H1 H2]. split; try done. unfold __vlink_subsys_find in *. by rewrite find_scan_locked.
Qed.

(** A command to hook a device that the module's callback answers with
    success is counted as a hook at the module. *)
Lemma rcv_start s len m k k' :
  eth_loaded s -> v_world s = inr k -> vlink_min_len <= len ->
  vm_cmd m = VLINKNLCMD_START_HOOK_DEVICE ->
  fb_eth_start_hook_dev m k = Ret NETLINK_VLINK_RX_STOP k' ->
  __vlink_rcv fb_eth_rx true len VLINKNLGRP_ETHERNET m s =
    Some (NETLINK_VLINK_RX_STOP, add_owner_refs eth_owner 1 (set_world (inr k') s)).
Proof.
  intros [Hf Hs H1 H2] Hw Hlen Hc Hrun. unfold __vlink_rcv. simpl.
  destruct (Z.ltb_spec len vlink_min_len); [lia|]. rewrite Hf. simpl. unfold __vlink_invoke. rewrite Hs. simpl.
  rewrite H1. simpl. unfold fb_eth_rx, in_world. simpl. by rewrite Hw, Hrun, Hc.
Qed.

(** the whole way of a hook: with the module loaded into an empty table,
    the command "vlink ethernet hook <device>" is delivered to the module and
    makes the device a functional block, and the module gets the reference
    that keeps it loaded. *)
Theorem eth_tool_hooks s k prog dev d :
  v_table s = empty_table -> v_locked s = false -> v_world s = inr k ->
  core_ok k -> buildable k dev d -> plain d -> n_eth_lock (k_net k) = false ->
  unique_names (n_devs (k_net k)) -> nd_reg d = NETREG_REGISTERED -> (length (nd_name d) < IFNAMSIZ)%nat ->
  exists s1 len m s2 k', init_fb_eth_module (fb_eth_objects s) = Some (0, s1) /\
    vlink_main 0 0 [prog; w_ethernet; w_hook; nd_name d] = Sends VLINKNLGRP_ETHERNET len m /\
    vlink_rcv fb_eth_rx [(true, len, VLINKNLGRP_ETHERNET, m)] s1 = Some s2 /\
    v_world s2 = inr k' /\ hook_done k dev d k' /\ v_locked s2 = false /\
    v_owner_refs s2 !! eth_owner = Some (default 0 (v_owner_refs s !! eth_owner) + 1).
Proof.
  intros Ht Hl Hw Hk Hb Hpl Hlk Hu Hreg Hlen. pose proof Hb as [[H0 Hdev] _ _ [[Hn _] _ _ _]].
  destruct (init_module_loaded s Ht Hl) as (s1 & Hi & He & Hl1 & Hw1 & Ho1).
  set (m := Vmsg VLINKNLCMD_START_HOOK_DEVICE 0 0 0 (put_field zero_name 0 (nd_name d) IFNAMSIZ)
              (put_field zero_name 0 (nd_name d) IFNAMSIZ)).
  assert (Hname : c_str (vm_real_name m) = nd_name d).
  { simpl. rewrite name_read by done. apply take_ge. unfold IFNAMSIZ in Hlen. lia. }
  assert (Hh : hookable k m dev d).
  { split; try done. rewrite Hname. by apply dev_by_name_unique. }
  assert (Hrun : exists k', fb_eth_start_hook_dev m k = Ret NETLINK_VLINK_RX_STOP k' /\ hook_done k dev d k').
  { apply wp_run_val. eapply wp_start_hook; [done|exact Hh|]. by intros k'. }
  destruct Hrun as (k' & Hrun & Hd).
  exists s1, (NLMSG_SPACE vlinknlmsg_size), m,
    (vlink_unlock (add_owner_refs eth_owner 1 (set_world (inr k') (set_locked true s1)))), k'. split; [done|]. split; [reflexivity|].
  split; [|split; [reflexivity|split; [done|split; [done|]]]].
  - unfold vlink_rcv, vlink_lock. rewrite Hl1. cbn [mbind option_bind rcv_msgs].
    rewrite (rcv_start (set_locked true s1) _ m k k'); [reflexivity|by apply loaded_locked|by simpl; rewrite Hw1|done|done|done].
  - simpl. by rewrite lookup_insert_eq, Ho1.
Qed.

(** a hook that fails for lack of memory is answered with success and
    counted as one: the module holds a reference for a device that is not
    hooked. *)
Theorem eth_failed_hook_counted s k len m dev d rest :
  eth_loaded s -> v_world s = inr k -> vlink_min_len <= len ->
  vm_cmd m = VLINKNLCMD_START_HOOK_DEVICE ->
  dev_by_name (c_str (vm_real_name m)) (n_devs (k_net k)) = dev ->
  device k dev d -> plain d -> k_oom k = true :: rest ->
  __vlink_rcv fb_eth_rx true len VLINKNLGRP_ETHERNET m s =
    Some (NETLINK_VLINK_RX_STOP, add_owner_refs eth_owner 1 (set_world (inr (upd_oom (fun _ => rest) k)) s)).
Proof.
  intros He Hw Hlen Hc Hf Hd Hpl Hoom. apply (rcv_start s len m k); try done. by apply (eth_hook_oom_reported k m dev d).
Qed.
End system.
