(* ===== verification/VlinkSystem.v ===== *)
(** * From the command line to a virtual device

    The vlink tool (usr/vlink.c), the virtual link subsystem (src/xt_vlink.c)
    and the module of the virtual devices (src/fb_ethvlink.c) together. *)
From Stdlib Require Import ZArith Lia.
From stdpp Require Import base gmap numbers countable list.
From S2P Require Import Prelude CString CritbitTree Vlink NameMap Types NetTypes Kernel NetDev EthvlinkDev Fblock FblockNs FblockLife.
From S2P Require Import FblockBind FblockCtor Engine FbEth FbEthvlink Modules ModuleLife UserctlProps NetDevProps FbEthvlinkProps UserTools EthSystem.

Local Open Scope Z_scope.

Section system.
Context `{Nm : NameMap, Ka : KernelApi}.

Definition fb_ethvlink_rx (f : Z) (vhdr : vlinknlmsg) : fault + kernel -> Z * (fault + kernel) :=
  in_world (fb_ethvlink_callback f vhdr).

(** The module loaded around a machine: the two callbacks of high priority come
    before the others. *)
Definition vlink_loaded (k : kernel) : vstate (W := fault + kernel) :=
  match init_fb_ethvlink_module 0 (fb_ethvlink_objects (vlink_on k)) with Some (_, s) => s | None => vlink_on k end.

Lemma init_vlink_loaded k :
  init_fb_ethvlink_module 0 (fb_ethvlink_objects (vlink_on k)) = Some (0, vlink_loaded k) /\
  v_world (vlink_loaded k) = inr k /\ v_locked (vlink_loaded k) = false.
Proof. split; [|split]; vm_compute; reflexivity. Qed.

(** The module's subsystem in a table, with its callbacks in their order. *)
Record ethvlink_in (s : vstate (W := fault + kernel)) : Prop := {
  vi_found : __vlink_subsys_find VLINKNLGRP_ETHERNET s = Some fb_ethvlink_sys;
  vi_sys : exists name, v_subsys s !! fb_ethvlink_sys =
    Some (Subsys name VLINKNLGRP_ETHERNET 0 6 fb_ethvlink_start_hook_dev_cb);
  vi_start : v_cbs s !! fb_ethvlink_start_hook_dev_cb =
    Some (Callback NETLINK_VLINK_PRIO_HIGH 5 fb_ethvlink_stop_hook_dev_cb);
  vi_stop : v_cbs s !! fb_ethvlink_stop_hook_dev_cb =
    Some (Callback NETLINK_VLINK_PRIO_HIGH 6 fb_ethvlink_add_dev_cb);
  vi_add : v_cbs s !! fb_ethvlink_add_dev_cb = Some (Callback NETLINK_VLINK_PRIO_NORM 3 fb_ethvlink_rm_dev_cb);
  vi_rm : v_cbs s !! fb_ethvlink_rm_dev_cb = Some (Callback NETLINK_VLINK_PRIO_NORM 4 0);
  vi_fuel : exists n, cbs_fuel s = S (S (S (S n)));
}.

Lemma loaded_in b k : ethvlink_in (set_locked b (vlink_loaded k)).
Proof.
  split; [vm_compute; reflexivity|eexists; vm_compute; reflexivity|vm_compute; reflexivity..|].
  exists 1%nat. vm_compute. reflexivity.
Qed.

Lemma init_ethvlink k :
  exists s1, init_fb_ethvlink_module 0 (fb_ethvlink_objects (vlink_on k)) = Some (0, s1) /\
    v_world s1 = inr k /\ v_locked s1 = false /\ ethvlink_in (set_locked true s1) /\
    exists s3, init_fb_eth_module (fb_eth_objects s1) = Some (- EBUSY, s3).
Proof.
  exists (vlink_loaded k). destruct (init_vlink_loaded k) as (Hi & Hw & Hl).
  split; [exact Hi|]. split; [exact Hw|]. split; [exact Hl|]. split; [apply loaded_in|].
  eexists. vm_compute. reflexivity.
Qed.

(** A callback that does not want the message, and one that takes it. *)
Lemma walk_next fuel owner hb prio f next m ret s :
  hb <> 0 -> v_cbs s !! hb = Some (Callback prio f next) ->
  fb_ethvlink_rx f m (v_world s) = (NETLINK_VLINK_RX_NXT, v_world s) ->
  invoke_walk fb_ethvlink_rx (S fuel) owner hb m ret s =
    invoke_walk fb_ethvlink_rx fuel owner next m NETLINK_VLINK_RX_NXT s.
Proof.
  intros H0 Hcb Hrx. cbn [invoke_walk]. destruct (Z.eqb_spec hb 0); [done|]. rewrite Hcb. cbn [mbind option_bind vc_rx].
  rewrite Hrx. change (stops_emerg NETLINK_VLINK_RX_NXT) with false. change (stops_ok NETLINK_VLINK_RX_NXT) with false.
  cbv iota. cbn [vc_next]. by destruct s.
Qed.

Lemma walk_stop fuel owner hb prio f next m ret s w :
  hb <> 0 -> v_cbs s !! hb = Some (Callback prio f next) ->
  fb_ethvlink_rx f m (v_world s) = (NETLINK_VLINK_RX_STOP, w) ->
  vm_cmd m <> VLINKNLCMD_START_HOOK_DEVICE -> vm_cmd m <> VLINKNLCMD_STOP_HOOK_DEVICE ->
  invoke_walk fb_ethvlink_rx (S fuel) owner hb m ret s = Some (NETLINK_VLINK_RX_STOP, set_world w s).
Proof.
  intros H0 Hcb Hrx H1 H2. cbn [invoke_walk]. destruct (Z.eqb_spec hb 0); [done|]. rewrite Hcb. cbn [mbind option_bind vc_rx].
  rewrite Hrx. change (stops_emerg NETLINK_VLINK_RX_STOP) with false. change (stops_ok NETLINK_VLINK_RX_STOP) with true.
  cbv iota. destruct (Z.eqb_spec (vm_cmd m) VLINKNLCMD_START_HOOK_DEVICE); [done|].
  by destruct (Z.eqb_spec (vm_cmd m) VLINKNLCMD_STOP_HOOK_DEVICE).
Qed.

Lemma start_skips m k :
  vm_cmd m <> VLINKNLCMD_START_HOOK_DEVICE -> fb_ethvlink_rx 5 m (inr k) = (NETLINK_VLINK_RX_NXT, inr k).
Proof.
  intros Hc. unfold fb_ethvlink_rx, fb_ethvlink_callback, in_world. cbn [Z.eqb Pos.eqb]. unfold fb_ethvlink_start_hook_dev.
  by destruct (Z.eqb_spec (vm_cmd m) VLINKNLCMD_START_HOOK_DEVICE).
Qed.

Lemma stop_skips m k :
  vm_cmd m <> VLINKNLCMD_STOP_HOOK_DEVICE -> fb_ethvlink_rx 6 m (inr k) = (NETLINK_VLINK_RX_NXT, inr k).
Proof.
  intros Hc. unfold fb_ethvlink_rx, fb_ethvlink_callback, in_world. cbn [Z.eqb Pos.eqb]. unfold fb_ethvlink_stop_hook_dev.
  by destruct (Z.eqb_spec (vm_cmd m) VLINKNLCMD_STOP_HOOK_DEVICE).
Qed.

(** The command to add a device reaches its callback. *)
Lemma rcv_add s k k' len m :
  ethvlink_in s -> v_world s = inr k -> vlink_min_len <= len -> vm_cmd m = VLINKNLCMD_ADD_DEVICE ->
  fb_ethvlink_add_dev notifier m k = Ret NETLINK_VLINK_RX_STOP k' ->
  __vlink_rcv fb_ethvlink_rx true len VLINKNLGRP_ETHERNET m s = Some (NETLINK_VLINK_RX_STOP, set_world (inr k') s).
Proof.
  intros [Hf (name & Hs) H5 H6 H3 H4 (n & Hfuel)] Hw Hlen Hc Hrun. unfold __vlink_rcv. cbn [negb].
  destruct (Z.ltb_spec len vlink_min_len); [lia|]. rewrite Hf. cbn [mbind option_bind].
  change (fb_ethvlink_sys =? 0) with false. cbv iota. unfold __vlink_invoke. rewrite Hs. cbn [mbind option_bind].
  rewrite Hfuel. cbn [vs_head vs_owner].
  erewrite walk_next; [|done|exact H5|rewrite Hw; apply start_skips; by rewrite Hc].
  erewrite walk_next; [|done|exact H6|rewrite Hw; apply stop_skips; by rewrite Hc].
  eapply walk_stop; [done|exact H3| |by rewrite Hc|by rewrite Hc]. rewrite Hw. unfold fb_ethvlink_rx, fb_ethvlink_callback, in_world.
  cbn [Z.eqb Pos.eqb]. by rewrite Hrun.
Qed.

(** C40: the whole way of a new virtual device: with the module loaded, the
    command "vlink ethernet add <name> <carrier> <port>" becomes a message that
    passes the module's hook callbacks and whose callback adds the device.
    While this module is loaded the other Ethernet module cannot be: its
    subsystem is refused with -EBUSY. *)
Theorem ethvlink_tool_adds k prog name root port a rd :
  core_ok k -> cstr_ok name -> cstr_ok root -> (length name < IFNAMSIZ)%nat -> (length root < IFNAMSIZ)%nat ->
  let m := Vmsg VLINKNLCMD_ADD_DEVICE 0 0 (Z.land 65535 (atoi port)) (put_field zero_name 0 name IFNAMSIZ)
             (put_field zero_name 0 root IFNAMSIZ) in
  vaddable k m a rd ->
  exists s1 len s2 k', init_fb_ethvlink_module 0 (fb_ethvlink_objects (vlink_on k)) = Some (0, s1) /\
    vlink_main 0 0 [prog; w_ethernet; w_add; name; root; port] = Sends VLINKNLGRP_ETHERNET len m /\
    vlink_rcv fb_ethvlink_rx [(true, len, VLINKNLGRP_ETHERNET, m)] s1 = Some s2 /\
    v_world s2 = inr k' /\ add_done k m a rd k' /\ virt_name m = name /\ c_str (vm_real_name m) = root /\
    (exists s3, init_fb_eth_module (fb_eth_objects s1) = Some (- EBUSY, s3)).
Proof.
  intros Hk Hn Hr Hln Hlr m Hva. destruct (init_ethvlink k) as (s1 & Hi & Hw & Hl & Hin & Hex).
  destruct (wp_run_val (fb_ethvlink_add_dev notifier m) NETLINK_VLINK_RX_STOP (add_done k m a rd) k) as (k' & Hrun & Hd).
  { apply (wp_add_dev k m a rd); [done|done|]. by intros k'. }
  exists s1, (NLMSG_SPACE vlinknlmsg_size), (vlink_unlock (set_world (inr k') (set_locked true s1))), k'.
  split; [exact Hi|]. split; [reflexivity|]. split; [|split; [reflexivity|split; [exact Hd|]]].
  - unfold vlink_rcv, vlink_lock. rewrite Hl. cbn [mbind option_bind rcv_msgs].
    rewrite (rcv_add (set_locked true s1) k k'); [reflexivity|exact Hin|exact Hw|done|done|exact Hrun].
  - unfold virt_name. simpl vm_virt_name. simpl vm_real_name. rewrite !name_read by done.
    rewrite !take_ge by (unfold IFNAMSIZ in *; lia). do 2 (split; [done|]). exact Hex.
Qed.
End system.
