(* ===== verification/Scenarios.v ===== *)
(** * Concrete runs

    Executions of the model from a freshly booted machine with two CPUs, the
    crit-bit trees of CritbitTree.v and the reference instance of the kernel
    interfaces.  They witness that the hypotheses of the general theorems can
    be met, and show a use after free that a sequence of ordinary control
    commands leads to. *)
From Stdlib Require Import ZArith Lia.
From stdpp Require Import base gmap numbers countable list.
From S2P Require Import Prelude CString Digits CritbitTree LinkedList NameMap Types Kernel Fblock FblockNs.
From S2P Require Import FblockLife FblockBind PerCpu FblockCtor Engine FbDummy FbTee FbCounter.
From S2P Require Import Modules EngineProps FbProps ModuleLife Builder Userctl UserctlProps.

Local Open Scope Z_scope.
Local Open Scope kernel_scope.

(** The state after a command; the state before it if it crashes. *)
Definition run {A} (m : M A) (k : kernel) : kernel :=
  match m k with Ret _ k' => k' | Crash _ => k end.

(** Messages: strings padded with NUL. *)
Definition pad (n : nat) (s : list Z) : list Z := s ++ replicate (n - length s) 0.
Definition msg (cmd : Z) (s1 s2 : cstr) : lananlmsg :=
  Lananlmsg cmd (pad USERCTL_BUF_LEN (pad FBNAMSIZ s1 ++ pad FBNAMSIZ s2)).

Definition name_a : cstr := [97].
Definition name_b : cstr := [98].
Definition dummy_type : cstr := fac_type fb_dummy_factory.

Definition add_a : lananlmsg := msg NETLINK_USERCTL_CMD_ADD name_a dummy_type.
Definition add_b : lananlmsg := msg NETLINK_USERCTL_CMD_ADD name_b dummy_type.
Definition ab : lananlmsg := msg 0 name_a name_b.

(** Module loaded; block a; blocks a and b. *)
Definition demo0 : kernel := boot 2.
Definition demo1 : kernel := run (init_fb_module M_dummy) demo0.
Definition demo2 : kernel := run (userctl_add add_a) demo1.
Definition demo3 : kernel := run (userctl_add add_b) demo2.
Definition fb_a : addr := 4096.
Definition fb_b : addr := 4352.
Definition block (k : kernel) (a : addr) : fblock := default ctor_fblock (k_fblocks k !! a).

(** Ground facts. *)
Ltac vc := vm_compute; repeat econstructor; discriminate.
Ltac vd := apply (bool_decide_unpack _); vm_compute; constructor.

Lemma run_wp {A} (m : M A) (Q : A -> kernel -> Prop) (P : kernel -> Prop) k :
  wp m Q k -> (forall a k', Q a k' -> P k') -> P (run m k).
Proof. unfold wp, run. destruct (m k); [eauto|done]. Qed.

Lemma run_value (m : M Z) k r :
  match m k with Ret a _ => a =? r | Crash _ => false end = true -> m k = Ret r (run m k).
Proof. unfold run. destruct (m k); [|done]. by intros ->%Z.eqb_eq. Qed.

Lemma run_values (m : M (list Z)) k r :
  match m k with Ret a _ => bool_decide (a = r) | Crash _ => false end = true -> m k = Ret r (run m k).
Proof. unfold run. destruct (m k); [|done]. by intros ->%bool_decide_eq_true. Qed.

Lemma run_bad_access {A} (m : M A) k p :
  match m k with Crash (Bad_access q) => q =? p | _ => false end = true -> m k = Crash (Bad_access p).
Proof. destruct (m k) as [|[]]; try done. by intros ->%Z.eqb_eq. Qed.

Lemma demo1_loaded : core_ok demo1 /\ type_loaded demo1 M_dummy fb_dummy_factory.
Proof.
  unfold demo1. eapply (run_wp _ _ (fun k => core_ok k /\ type_loaded k M_dummy fb_dummy_factory)).
  - apply (init_module_wp demo0 M_dummy fb_dummy_factory); [done|apply nm_empty_ok|done|done].
  - intros r k' (_ & Ht & _ & E). split; [|done]. rewrite E.
    by apply (core_ok_ext demo0); [apply boot_core_ok|..].
Qed.

Lemma core_after_add k lmsg m f :
  core_ok k -> addable k lmsg m f ->
  core_ok (run (userctl_add lmsg) k) /\ type_loaded (run (userctl_add lmsg) k) m f.
Proof.
  intros Hk Ha. eapply (run_wp _ (fun _ k' => core_ok k' /\ type_loaded k' m f)); [|done].
  apply (wp_add k lmsg m f); [done..|]. intros k1 Hd _.
  destruct (added_core _ _ _ _ Hk Hd) as (Hk' & _). split; [done|].
  destruct Ha as [[(Ef & Hok & Hv & Hfac) _] _ _ _ _ _ _].
  destruct Hd as [_ _ _ _ _ _ _ (E1 & E2 & _) _ _]. unfold type_loaded. simpl. by rewrite E1, E2.
Qed.

Lemma demo1_addable : addable demo1 add_a M_dummy fb_dummy_factory.
Proof.
  split; [split; [apply (proj2 demo1_loaded)|vc]|split; vc|vc..].
Qed.

Lemma demo2_core : core_ok demo2 /\ type_loaded demo2 M_dummy fb_dummy_factory.
Proof. apply core_after_add; [apply (proj1 demo1_loaded)|apply demo1_addable]. Qed.

Lemma demo2_addable : addable demo2 add_b M_dummy fb_dummy_factory.
Proof.
  split; [split; [apply (proj2 demo2_core)|vc]|split; vc|vc..].
Qed.

Lemma demo3_core : core_ok demo3 /\ type_loaded demo3 M_dummy fb_dummy_factory.
Proof. apply core_after_add; [apply (proj1 demo2_core)|apply demo2_addable]. Qed.

Lemma demo3_a : registered demo3 fb_a (block demo3 fb_a).
Proof. split; vc. Qed.

Lemma demo3_b : registered demo3 fb_b (block demo3 fb_b).
Proof. split; vc. Qed.

(** a bound on top of b; a third block c besides. *)
Definition chain_of (k : kernel) (a : addr) : chain :=
  default chain_init (k_subs k !! fb_others (block k a)).

Definition demo4 : kernel :=
  bound fb_a fb_b (block demo3 fb_a) (block demo3 fb_b) M_dummy M_dummy
    (chain_of demo3 fb_a) (chain_of demo3 fb_b) demo3.

Definition name_c : cstr := [99].
Definition add_c : lananlmsg := msg NETLINK_USERCTL_CMD_ADD name_c dummy_type.
Definition demo5 : kernel := run (userctl_add add_c) demo4.
Definition fb_c : addr := 4736.

Lemma demo3_bindable :
  bindable demo3 fb_a fb_b (block demo3 fb_a) (block demo3 fb_b) M_dummy M_dummy
    (chain_of demo3 fb_a) (chain_of demo3 fb_b).
Proof. split; vc. Qed.

Lemma bound_loaded fb1 fb2 b1 b2 m1 m2 c1 c2 k m f :
  type_loaded k m f -> type_loaded (bound fb1 fb2 b1 b2 m1 m2 c1 c2 k) m f.
Proof. done. Qed.

Lemma demo4_core : core_ok demo4.
Proof. apply bound_core; [apply (proj1 demo3_core)|apply demo3_bindable]. Qed.

Lemma demo4_addable : addable demo4 add_c M_dummy fb_dummy_factory.
Proof.
  split; [split; [apply bound_loaded, (proj2 demo3_core)|vc]|split; vc|vc..].
Qed.

Lemma demo5_core : core_ok demo5.
Proof. apply core_after_add with M_dummy fb_dummy_factory; [apply demo4_core|apply demo4_addable]. Qed.

(** ** Namespace *)

(** A block that is constructed but not registered. *)
Definition half (name : cstr) : kernel := constructed M_dummy (fresh_priv M_dummy) name demo3.
Definition half_block (name : cstr) : fblock := new_block M_dummy name demo3.

Lemma half_core name : core_ok (half name).
Proof. exact (constructed_core _ _ _ demo3 (proj1 demo3_core)). Qed.

Lemma half_unregistered name : cstr_ok name -> unregistered (half name) (k_next demo3) (half_block name).
Proof. exact (constructed_unregistered _ _ _ demo3 (proj1 demo3_core)). Qed.

Lemma names_ok : cstr_ok name_a /\ cstr_ok name_b /\ cstr_ok name_c.
Proof. repeat split; vc. Qed.

Lemma register_namespace_correct_witness :
  exists k', register_fblock_namespace (k_next demo3) (half name_c) = Ret 0 k' /\
    core_ok k' /\ resolve k' name_c = k_next demo3.
Proof.
  destruct (register_namespace_correct (half name_c) (k_next demo3) (half_block name_c))
    as (k' & Hr & Hk & _ & _ & Hn & _);
    [apply half_core|apply half_unregistered, names_ok|vc|vc|vc|].
  exists k'. split; [exact Hr|]. split; [exact Hk|exact Hn].
Defined.

Lemma register_namespace_clash_witness :
  exists k', register_fblock_namespace (k_next demo3) (half name_a) = Ret (- EEXIST) k' /\
    (forall n, ns_lookup k' n = ns_lookup (half name_a) n) /\
    fbl_lookup k' (k_idp_counter (half name_a) + 1) = k_next demo3.
Proof.
  apply (register_namespace_clash (half name_a) (k_next demo3) (half_block name_a));
    [apply half_core|apply half_unregistered, names_ok|vc|vc|vc].
Defined.

Lemma search_fblock_n_correct_witness :
  exists p b, search_fblock_n (Some name_a) demo3 = Ret p (upd_fblocks <[p := bump 1 b]> demo3) /\
    p <> 0 /\ registered demo3 p b /\ fb_name b = name_a /\ fb_idp b = 1.
Proof.
  pose proof (search_fblock_n_correct demo3 name_a (proj1 demo3_core) (proj1 names_ok)) as H.
  assert (E : ns_lookup demo3 name_a = Some 1) by vc. rewrite E in H. exact H.
Defined.

Lemma unregister_namespace_correct_witness :
  exists k', unregister_fblock_namespace_no_rcu fb_a demo3 = Ret tt k' /\
    block_unregistered fb_a (block demo3 fb_a) demo3 k' /\ resolve k' (fb_name (block demo3 fb_a)) = 0.
Proof. apply (unregister_namespace_correct demo3 fb_a); [apply (proj1 demo3_core)|apply demo3_a]. Defined.

Lemma register_unregister_roundtrip_witness :
  exists k', (register_fblock_namespace (k_next demo3);;
              unregister_fblock_namespace_no_rcu (k_next demo3)) (half name_c) = Ret tt k' /\
    core_ok k' /\ (forall n, ns_lookup k' n = ns_lookup (half name_c) n) /\
    (forall i, fbl_lookup k' i = fbl_lookup (half name_c) i).
Proof.
  apply (register_unregister_roundtrip (half name_c) (k_next demo3) (half_block name_c));
    [apply half_core|apply half_unregistered, names_ok|vc|vc|vc].
Defined.

Lemma change_mapping_correct_witness :
  exists k', change_fblock_namespace_mapping name_a 7 demo3 = Ret 0 k' /\
    get_fblock_namespace_mapping name_a k' = Ret 7 k' /\ ns_lookup k' name_b = Some 2.
Proof.
  destruct (change_mapping_correct demo3 name_a 7 (core_ns _ (proj1 demo3_core)) (proj1 names_ok))
    as (r & k' & Hr & _ & H).
  assert (E : ns_lookup demo3 name_a = Some 1) by vc. rewrite E in H. destruct H as (-> & Hg & Ho).
  exists k'. split; [exact Hr|]. split; [exact Hg|]. rewrite (Ho name_b) by done. vc.
Defined.

(** Two blocks before the counter leaves 32 bits. *)
Definition last_idp : kernel := upd_idp_counter (fun _ => 2 ^ 32 - 2) demo3.

Lemma idps_distinct_witness :
  (exists l k', idps 3 demo3 = Ret l k' /\ NoDup l /\ (IDP_UNKNOWN ∉ l) /\ (length l = 3)%nat) /\
  exists l k' k'', idps 1 last_idp = Ret l k' /\ provide_new_fblock_idp k' = Ret IDP_UNKNOWN k''.
Proof.
  split.
  - destruct (idps_distinct demo3 3) as (l & k' & H & Hd & Hu & Hl & _); [vc|vc|].
    exists l, k'. split; [exact H|]. split; [exact Hd|]. split; [exact Hu|exact Hl].
  - destruct (idps_distinct last_idp 1) as (l & k' & H & _ & _ & _ & _ & Ho); [vc|vc|].
    assert (E : match idps 1 last_idp with Ret _ k => k_idp_counter k | Crash _ => 0 end = 2 ^ 32 - 1) by vc.
    rewrite H in E. destruct (Ho E) as [k'' Hk'']. exists l, k', k''. split; [exact H|exact Hk''].
Defined.

(** ** Binding *)

Abbreviation blk_a := (block demo3 fb_a).
Abbreviation blk_b := (block demo3 fb_b).

Lemma bind_correct_witness :
  exists k', __fblock_bind fb_a fb_b demo3 = Ret 0 k' /\
    ev_port (k_privs k') M_dummy (fb_private_data blk_a) TYPE_EGRESS = Some (fb_idp blk_b) /\
    ev_port (k_privs k') M_dummy (fb_private_data blk_b) TYPE_INGRESS = Some (fb_idp blk_a).
Proof.
  destruct (bind_correct demo3 fb_a fb_b _ _ _ _ _ _ demo3_bindable) as (k' & H & H1 & H2 & _);
    [vc..|]. exists k'. split; [exact H|]. split; [exact H1|exact H2].
Defined.

Lemma bind_unbind_roundtrip_witness :
  exists k', (__fblock_bind fb_a fb_b;; __fblock_unbind fb_a fb_b) demo3 = Ret 0 k' /\
    k_fblocks k' = k_fblocks demo3 /\ k_privs k' = k_privs demo3 /\
    is_Some (k_notifs k' !! k_next demo3) /\ is_Some (k_notifs k' !! (64 + k_next demo3)).
Proof.
  destruct (bind_unbind_roundtrip demo3 fb_a fb_b _ _ _ _ _ _ demo3_bindable) as (k' & H & H1 & H2 & _ & H3);
    [vc..|]. exists k'. split; [exact H|]. split; [exact H1|]. split; [exact H2|exact H3].
Defined.

(** c on top of b, whose ingress port a already has. *)
Lemma demo5_bindable :
  bindable demo5 fb_c fb_b (block demo5 fb_c) (block demo5 fb_b) M_dummy M_dummy
    (chain_of demo5 fb_c) (chain_of demo5 fb_b).
Proof. split; vc. Qed.

Lemma bind_rollback_witness : fblock_bind fb_c fb_b demo5 = Ret (- EBUSY) demo5.
Proof. apply (bind_rollback demo5 fb_c fb_b _ _ _ _ _ _ 1 demo5_bindable); vc. Defined.

Lemma unbind_not_bound_witness : fblock_unbind fb_c fb_b demo5 = Ret (- EBUSY) demo5.
Proof. apply (unbind_not_bound demo5 fb_c fb_b _ _ _ _ _ _ 0 demo5_bindable); vc. Defined.

(** ** Life of a block *)

Lemma ctor_correct_witness :
  exists fb b k', mod_ctor M_dummy name_c demo3 = Ret fb k' /\ core_ok k' /\ registered k' fb b /\
    fb_name b = name_c /\ fb_refcnt b = 1.
Proof.
  destruct (ctor_correct M_dummy name_c demo3)
    as (fb & b & k' & H & Hk & _ & _ & _ & Hr & Hn & Hc & _);
    [done|apply (proj1 demo3_core)|apply names_ok|vc..|].
  exists fb, b, k'. split; [exact H|]. split; [exact Hk|]. split; [exact Hr|]. split; [|exact Hc].
  rewrite Hn. vc.
Defined.

Lemma demo3_doomed : doomed demo3 fb_a blk_a M_dummy fb_dummy_factory (chain_of demo3 fb_a).
Proof. split; vc. Qed.

Lemma last_put_frees_witness :
  exists k1 k2, put_fblock fb_a demo3 = Ret tt k1 /\ grace_period k1 = Ret tt k2 /\
    k_fblocks k2 = delete fb_a (k_fblocks demo3).
Proof.
  destruct (last_put_frees demo3 fb_a _ _ _ _ demo3_doomed) as (k1 & H1 & _ & _ & _ & H2); [vc|vc|].
  destruct H2 as (k2 & H2 & H3 & _); [vc|].
  exists k1, k2. split; [exact H1|]. split; [exact H2|exact H3].
Defined.

Lemma ctor_clash_dangling_witness :
  exists k', fb_dummy_ctor name_a demo3 = Ret 0 k' /\
    search_fblock (k_idp_counter demo3 + 1) k' = Crash (Bad_access (k_next demo3)).
Proof.
  destruct (ctor_clash_dangling name_a demo3) as (k' & H & _ & _ & _ & _ & Hs);
    [apply (proj1 demo3_core)|apply names_ok|vc..|].
  exists k'. split; [exact H|exact Hs].
Defined.

(** ** Commands *)

Lemma userctl_add_correct_witness :
  exists fb b k', userctl_add add_c demo4 = Ret 0 k' /\ core_ok k' /\ registered k' fb b /\
    fb_name b = name_c /\ fb_refcnt b = 1.
Proof.
  destruct (userctl_add_correct demo4 add_c M_dummy fb_dummy_factory demo4_core demo4_addable)
    as (fb & b & k' & H & Hk & _ & _ & _ & Hr & Hn & Hc & _).
  exists fb, b, k'. split; [exact H|]. split; [exact Hk|]. split; [exact Hr|]. split; [|exact Hc].
  rewrite Hn. vc.
Defined.

Lemma userctl_remove_correct_witness :
  exists k', userctl_remove ab demo3 = Ret 0 k' /\ removed demo3 fb_a blk_a k'.
Proof.
  apply (userctl_remove_correct demo3 ab fb_a blk_a fb_dummy_factory (proj1 demo3_core) demo3_a); vc.
Defined.

(** a has been bound: b and its own subscription refer to it. *)
Lemma userctl_remove_busy_witness : userctl_remove ab demo4 = Ret (- EBUSY) demo4.
Proof.
  apply (userctl_remove_busy demo4 ab fb_a (block demo4 fb_a) demo4_core); [split; vc|vc..].
Defined.

Lemma add_remove_roundtrip_witness :
  exists k1 k2 k', userctl_add add_c demo4 = Ret 0 k1 /\ is_Some (ns_lookup k1 name_c) /\
    userctl_remove add_c k1 = Ret 0 k2 /\ ns_lookup k2 name_c = None /\
    grace_period k2 = Ret tt k' /\ k_fblocks k' = k_fblocks demo4.
Proof.
  destruct (add_remove_roundtrip demo4 add_c M_dummy fb_dummy_factory demo4_core demo4_addable)
    as (fb & b & k1 & k2 & k' & H1 & _ & _ & [_ _ Hn] & Hname & _ & H2 & _ & H3 & _ & H4 & H5 & _); [done|vc|vc|].
  exists k1, k2, k'. split; [exact H1|]. split; [rewrite Hname in Hn; exists (fb_idp b); exact Hn|].
  split; [exact H2|]. split; [exact H3|]. split; [exact H4|exact H5].
Defined.

(** c takes the place of a, which is bound to b. *)
Definition ac : lananlmsg := msg NETLINK_USERCTL_CMD_REPLACE name_a name_c.

Lemma demo5_replaceable :
  replaceable demo5 ac fb_a fb_c (block demo5 fb_a) (block demo5 fb_c) fb_dummy_factory fb_dummy_factory
    [4608] [].
Proof. split; [split; split; vc|vc..]. Qed.

Lemma userctl_replace_correct_witness :
  exists k', userctl_replace ac demo5 = Ret 0 k' /\ core_ok k' /\ resolve k' (msg_name ac) = fb_c.
Proof.
  destruct (userctl_replace_correct demo5 ac _ _ _ _ _ _ _ _ demo5_core demo5_replaceable)
    as (k' & H & Hk & _ & Hr & _).
  exists k'. split; [exact H|]. split; [exact Hk|exact Hr].
Defined.

(** ** Packets *)

(** Two packets for a, which passes them to b, which drops them: one is given
    to the engine, the other waits in the backlog. *)
Definition pkt (len : Z) : sk_buff := Skb len [] (LanaInf 1 0 0 0 0 TYPE_EGRESS) 1 (EthInfo 0 0 [] 0).
Definition skb1 : addr := 65536.
Definition skb2 : addr := 65600.

Definition way_ab : list fblock := [block demo4 fb_a; block demo4 fb_b].
Definition job1 : job := Job skb1 (pkt 100) way_ab PPE_DROPPED.
Definition job2 : job := Job skb2 (pkt 40) way_ab PPE_DROPPED.

Definition traffic (active : bool) : kernel :=
  upd_emdiscs <[0%nat := Disc [skb2] active 0]>
    (upd_rcu_nesting S (upd_skbs (fun _ => {[ skb1 := pkt 100; skb2 := pkt 40 ]}) demo4)).

Lemma traffic_way active : travels (traffic active) TYPE_EGRESS 1 way_ab PPE_DROPPED.
Proof.
  apply (travels_step _ _ 1 _ 2); [destruct active; vc|done|].
  apply travels_drop. destruct active; vc.
Qed.

Lemma traffic_jobs active :
  job_ok (traffic active) 3 TYPE_EGRESS job1 /\ job_ok (traffic active) 3 TYPE_EGRESS job2.
Proof. split; (split; [vc|split; [apply traffic_way|vc]]). Qed.

Lemma process_packet_correct_witness :
  exists k', process_packet 2 3 skb1 TYPE_EGRESS (traffic false) = Ret PPE_DROPPED k' /\
    k_fblocks k' = k_fblocks (traffic false) /\
    k_emdiscs k' !! 0%nat = Some (Disc [] false 0) /\
    k_iostats k' !! 0%nat = Some (Iostats 140 2 4 0 0).
Proof.
  destruct (process_packet_correct (traffic false) 2 3 TYPE_EGRESS job1 [job2]
              (Disc [skb2] false 0) (Iostats 0 0 0 0 0)) as (k' & H & H1 & H2 & _ & H3);
    [vc|vc|vc|vc|apply traffic_jobs|constructor; [apply traffic_jobs|constructor]|vd|vc|vc|vc|].
  exists k'. split; [exact H|]. split; [exact H1|]. split; [exact H2|]. exact H3.
Defined.

Lemma process_packet_active_witness :
  process_packet 2 3 skb1 TYPE_INGRESS (traffic true) =
    Ret 0 (upd_emdiscs <[0%nat := Disc [skb2; skb1] true 0]>
            (upd_skbs <[skb1 := write_path_to_skb (pkt 100) TYPE_INGRESS]> (traffic true))).
Proof.
  apply (process_packet_active (traffic true) 2 3 skb1 (pkt 100) TYPE_INGRESS (Disc [skb2] true 0)); vc.
Defined.

Lemma timer_handler_correct_witness :
  (exists k', engine_timer_handler 2 3 0 (traffic false) = Ret tt k' /\
    k_emdiscs k' !! 0%nat = Some (Disc [] false 0) /\ k_rcu_nesting k' = 1%nat /\ k_skbs k' !! skb2 = None /\
    k_skbs k' !! skb1 = Some (pkt 100) /\ 0%nat ∈ cr_timers (k_core k')) /\
  (exists k', engine_timer_handler 2 3 0 (traffic true) = Ret tt k' /\
    k_emdiscs k' !! 0%nat = Some (Disc [skb2] true 0)).
Proof.
  split.
  - destruct (timer_handler_correct (traffic false) 2 3 0 (Disc [skb2] false 0)) as (_ & Hw); [vc|].
    destruct (Hw eq_refl [job2]) as (k' & H & Ht & _ & H1 & H2 & H3);
      [vc|vc|vc|constructor; [apply traffic_jobs|constructor]|vd|vc|].
    exists k'. split; [exact H|]. split; [exact H2|]. split; [exact H1|]. split; [rewrite H3; vc|].
    split; [rewrite H3; vc|]. apply Ht. by left.
  - destruct (timer_handler_correct (traffic true) 2 3 0 (Disc [skb2] true 0)) as (Hw & _); [vc|].
    destruct (Hw eq_refl) as (k' & H & _ & _ & _ & H2 & _). exists k'. split; [exact H|]. rewrite H2. vc.
Defined.

(** b bound on top of a as well: a cycle. *)
Definition ring : kernel :=
  upd_rcu_nesting S (upd_skbs (fun _ => {[ skb1 := pkt 100 ]})
    (bound fb_b fb_a (block demo4 fb_b) (block demo4 fb_a) M_dummy M_dummy
       (chain_of demo4 fb_b) (chain_of demo4 fb_a) demo4)).

Lemma ring_closed : closed_way ring TYPE_EGRESS (fun i => i = 1 \/ i = 2).
Proof.
  intros i [-> | ->]; [exists (block ring fb_a), 2|exists (block ring fb_b), 1];
    (split; [vc|split; [done|]]); [by right|by left].
Qed.

Lemma process_packet_cycle_witness :
  process_packet 1 1000 skb1 TYPE_EGRESS ring = Crash Endless_loop.
Proof.
  apply (process_packet_cycle ring TYPE_EGRESS (fun i => i = 1 \/ i = 2) 1 1000 skb1 (pkt 100)
           (Disc [] false 0) ring_closed); [vc..|by left|vc].
Defined.

(** A tee and a counter in place of a. *)
Definition with_priv_a (p : priv) : kernel := upd_privs <[4160 := p]> (traffic false).

Definition tee_k : kernel := with_priv_a (PrivTee (replicate 2 (TeePriv (Ports 0 2) 7))).

Lemma tee_copies_witness :
  exists k', fb_tee_netrx [] fb_a skb1 TYPE_EGRESS
      tee_k = Ret (PPE_SUCCESS, TYPE_EGRESS) k' /\
    k_skbs k' !! skb1 = Some (write_next_idp_to_skb (pkt 100) 1 2) /\
    exists c, k_skbs k' !! k_next tee_k = Some c /\ skb_len c = 100 /\ read_next_idp_from_skb c = 7.
Proof.
  destruct (tee_copies tee_k fb_a
              (block demo4 fb_a) (replicate 2 (TeePriv (Ports 0 2) 7)) (TeePriv (Ports 0 2) 7) skb1 (pkt 100)
              TYPE_EGRESS (Disc [skb2] false 0)) as (k' & H & H1 & (c & Hc & _ & Hl & Hn & _) & _); [vc..|].
  exists k'. split; [exact H|]. split; [exact H1|]. exists c. split; [exact Hc|]. split; [exact Hl|exact Hn].
Defined.

Definition counts : list fb_counter_priv :=
  [CounterPriv (Ports 0 2) 12 1000; CounterPriv (Ports 0 2) 30 234].

(** "42 1234". *)
Lemma counter_proc_show_correct_witness :
  fb_counter_proc_show (replicate 2 []) fb_a (with_priv_a (PrivCounter counts)) =
    Ret [52; 50; 32; 49; 50; 51; 52; 10] (with_priv_a (PrivCounter counts)).
Proof.
  apply (counter_proc_show_correct (with_priv_a (PrivCounter counts)) fb_a (block demo4 fb_a) counts
           (replicate 2 [])); vc.
Defined.

(** "24 2000" for a CPU that counted 12 packets. *)
Lemma counter_proc_show_torn_witness :
  let p := CounterPriv (Ports 0 2) 12 1000 in
  fb_counter_proc_show [[p]] fb_a (with_priv_a (PrivCounter [p])) =
    Ret [50; 52; 32; 50; 48; 48; 48; 10] (with_priv_a (PrivCounter [p])).
Proof.
  intros p. apply (counter_proc_show_torn (with_priv_a (PrivCounter [p])) fb_a (block demo4 fb_a) p p); vc.
Defined.

Lemma dummy_option_run n key val b k :
  fn_self n <> 0 -> k_fblocks k !! fn_self n = Some b ->
  mod_event_rx M_dummy n (FBLOCK_SET_OPT key val) k = Ret NOTIFY_OK k.
Proof.
  intros H0 Hb. simpl. unfold fb_dummy_event. cbv zeta. by rewrite (event_start _ _ _ _ H0 Hb).
Qed.

(** The option "k=v=w" to a dummy block. *)
Lemma set_option_correct_witness :
  exists k, fblock_set_option fb_a (Some [107; 61; 118; 61; 119]) demo3 = Ret NOTIFY_OK k.
Proof.
  eexists. apply (set_option_correct demo3 fb_a blk_a M_dummy [107] [118; 61; 119] NOTIFY_OK
    (upd_fblocks <[fb_a := bump 1 blk_a]> (upd_rcu_nesting S demo3)));
    [vc|vc|vc|vc| |eapply dummy_option_run; vc|vc].
  intros H. apply list_elem_of_singleton in H. done.
Defined.

(** ** Use after free

    Unbinding leaves the notifier of the first block in the chain of the
    second and the other way round.  When both blocks are removed later, the
    second removal calls a notifier whose block is gone. *)

Definition rm_a : lananlmsg := msg NETLINK_USERCTL_CMD_RM name_a [].
Definition rm_b : lananlmsg := msg NETLINK_USERCTL_CMD_RM name_b [].

Definition bind_unbind_remove_both : M (list Z) :=
  r1 <- userctl_add add_a;;
  r2 <- userctl_add add_b;;
  r3 <- userctl_bind ab;;
  r4 <- userctl_unbind ab;;
  r5 <- userctl_remove rm_b;;
  grace_period;;
  r6 <- userctl_remove rm_a;;
  ret [r1; r2; r3; r4; r5; r6].

(** two blocks are added, bound, unbound and removed again, and every
    one of the six commands returns 0; the grace period after the last
    removal makes the kernel access the block that was freed before. *)
Theorem removal_after_unbind_crashes :
  exists k, bind_unbind_remove_both demo1 = Ret [0; 0; 0; 0; 0; 0] k /\ k_fblocks k !! fb_b = None /\
    grace_period k = Crash (Bad_access fb_b).
Proof.
  exists (run bind_unbind_remove_both demo1).
  split; [apply (run_values bind_unbind_remove_both demo1)|split; [|apply run_bad_access]];
    vm_compute; reflexivity.
Qed.
