(* ===== verification/Runs.v ===== *)
(** * Concrete runs, continued

    The core module, the files under /proc, the command line tools and the
    packet filter block, on the machine of Scenarios.v. *)
From Stdlib Require Import ZArith Lia.
From stdpp Require Import base gmap numbers countable list.
From S2P Require Import Prelude CString Digits CritbitTree Text LinkedList Vlink VlinkProps NameMap Types Engine Kernel Fblock FblockNs.
From S2P Require Import FbBpf FbBpfProps FbDummy Modules Procfs Builder Core Userctl UserTools Scenarios.

Local Open Scope Z_scope.
Local Open Scope kernel_scope.

(** ** The core module *)

(** The control socket cannot be created. *)
Lemma core_init_rollback_witness :
  init_lana_core_module 0 (fails_at 8 [] (bare 2)) = Ret (- ENOMEM) (bare 2).
Proof. apply (core_init_rollback 0 2 8 []); [lia|vd|lia]. Defined.

Lemma core_init_timers_witness :
  exists k, init_lana_core_module 0 (fails_at 11 [] (bare 2)) = Ret (- ENOMEM) k /\
    1%nat ∈ cr_timers (k_core k) /\ engine_timer_handler 1 1 1 k = Crash Freed_percpu.
Proof.
  destruct (core_init_timers 0 2 [] 1 1 1) as (k & H & _ & H'); [lia|]. exists k. split; [exact H|exact H'].
Defined.

Lemma core_init_unnoticed_witness :
  exists k, init_lana_core_module 0 (fails_at 6 [] (bare 2)) = Ret 0 k /\
    cleanup_lana_core_module k = Crash Null_deref.
Proof.
  destruct (core_init_unnoticed 0 2 6) as (k & H & _ & H'); [by left|]. exists k. split; [exact H|exact H'].
Defined.

(** ** /proc *)

(** a and b, each subscribed to the other. *)
Definition demo4_text : cstr :=
  block_line dec fb_a (block demo4 fb_a) dummy_type [2] ++ block_line dec fb_b (block demo4 fb_b) dummy_type [1].

Lemma demo4_shows fb r fn :
  (fb, r, fn) ∈ [(fb_a, 2, 4608); (fb_b, 1, 4672)] ->
  shows dec demo4 fb (block_line dec fb (block demo4 fb) dummy_type [r]).
Proof.
  rewrite !elem_of_cons, elem_of_nil. intros [E|[E|[]]]; injection E as -> -> ->.
  - exists (block demo4 fb_a), dummy_type, [4608], [Notifier fb_a (Some M_dummy) 0 0 2].
    split_and!; [done|vc|right; split; [vc|exists fb_dummy_factory; split; vc]|vc|vc|vc].
  - exists (block demo4 fb_b), dummy_type, [4672], [Notifier fb_b (Some M_dummy) 0 0 1].
    split_and!; [done|vc|right; split; [vc|exists fb_dummy_factory; split; vc]|vc|vc|vc].
Qed.

Lemma procfs_fblocks_correct_witness :
  exists page', procfs_fblocks dec (replicate 4096 0) demo4 = Ret (length demo4_text, page') demo4 /\
    take (length demo4_text) page' = demo4_text.
Proof.
  destruct (procfs_fblocks_correct dec demo4 (replicate 4096 0) demo4_text) as (page' & H & Ht & _).
  - vc.
  - change (seqZ 0 (k_idp_counter demo4 + 1)) with [0; 1; 2]. apply listing_skip; [vc|].
    unfold demo4_text. rewrite <- (app_nil_r (block_line _ fb_b _ _ _)).
    apply listing_block; [vc|apply (demo4_shows fb_a 2 4608); vc|].
    apply listing_block; [vc|apply (demo4_shows fb_b 1 4672); vc|]. constructor.
  - apply Nat.ltb_lt. vm_compute. reflexivity.
  - exists page'. split; [exact H|exact Ht].
Defined.

(** ** The tools *)

Definition no_preload (argv : list cstr) : run_result lananlmsg := Panics.
Definition fbctl : cstr := [102; 98; 99; 116; 108].

(** "fbctl bind a b" *)
Lemma fbctl_tuple_delivered_witness :
  exists len m, fbctl_main no_preload 0 0 [fbctl; w_bind; name_a; name_b] = Sends USERCTLGRP_CONF len m /\
    __userctl_rcv true len m = userctl_bind m /\ msg_name m = name_a /\ msg_second m = name_b.
Proof.
  destruct (fbctl_tuple_delivered no_preload fbctl w_bind userctl_bind name_a name_b)
    as (len & m & H & Hr & H1 & H2); [|vd|vd|].
  - unfold tuple_commands. rewrite !elem_of_cons. right. by left.
  - exists len, m. split; [exact H|]. split; [exact Hr|]. split; [rewrite H1|rewrite H2]; vc.
Defined.

Lemma fbctl_rm_set_delivered_witness :
  exists len m, fbctl_main no_preload 0 0 [fbctl; w_rm; name_a] = Sends USERCTLGRP_CONF len m /\
    __userctl_rcv true len m = userctl_remove m /\ msg_name m = name_a.
Proof.
  destruct (fbctl_rm_set_delivered no_preload fbctl name_a [120; 61; 49]) as [(len & m & H & Hr & Hn) _]; [vd|vd|].
  exists len, m. split; [exact H|]. split; [exact Hr|]. rewrite Hn. vc.
Defined.

(** "fbctl replace-drop a b" *)
Lemma fbctl_replace_drop_shadowed_witness :
  exists len m, fbctl_main no_preload 0 0 [fbctl; w_replace_drop; name_a; name_b] = Sends USERCTLGRP_CONF len m /\
    msg_drop_priv m = false.
Proof.
  destruct (fbctl_replace_drop_shadowed no_preload fbctl [] name_a name_b) as (len & m & H & _ & _ & _ & Hd);
    [vd|vd|].
  exists len, m. split; [exact H|exact Hd].
Defined.

(** "vlink ethernet add a b 7" *)
Lemma vlink_tool_delivered_witness :
  exists len m, vlink_main 0 0 [fbctl; w_ethernet; w_add; name_a; name_b; [55]] =
      Sends VLINKNLGRP_ETHERNET len m /\ c_str (vm_virt_name m) = name_a /\ vm_port m = 7.
Proof.
  destruct (vlink_tool_delivered sys_rx fbctl name_a name_b [55]) as [(len & m & H & _ & _ & Hv & _ & Hp) _];
    [vd|vd|].
  exists len, m. split; [exact H|]. split; [rewrite Hv; vc|rewrite Hp; vc].
Defined.

(** ** A packet filter *)

Definition bpf_type : cstr := fac_type fb_bpf_factory.
Definition demo_f : kernel :=
  run (userctl_add (msg NETLINK_USERCTL_CMD_ADD name_a bpf_type)) (run (init_fb_module M_bpf) demo0).
Definition no_filter : fb_bpf_priv := BpfPriv (Ports IDP_UNKNOWN IDP_UNKNOWN) None.

Lemma demo_f_block : bpf_block demo_f fb_a (block demo_f fb_a) fb_bpf_factory [no_filter; no_filter].
Proof. split; split; vc. Qed.

(** ldh [12]; jeq #0x800, 0, 1; ret #0xffffffff; ret #0 *)
Definition ip_filter : list sock_filter :=
  [Insn 40 0 0 12; Insn 21 0 1 2048; Insn 6 0 0 4294967295; Insn 6 0 0 0].

Lemma bpf_write_correct_witness :
  fb_bpf_proc_write fb_a (Z.of_nat (length (show_prog ip_filter))) (show_prog ip_filter) [0] demo_f =
    Ret (Z.of_nat (length (show_prog ip_filter)))
      (set_filters (block demo_f fb_a) (Some ip_filter) [no_filter; no_filter] demo_f).
Proof.
  apply (bpf_write_correct demo_f fb_a (block demo_f fb_a) fb_bpf_factory [no_filter; no_filter] _
    (show_prog ip_filter) [0] ip_filter demo_f_block); vc.
Defined.

Lemma bpf_filter_roundtrip_witness :
  exists k', fb_bpf_proc_write fb_a (Z.of_nat (length (show_prog ip_filter))) (show_prog ip_filter) [0] demo_f =
      Ret (Z.of_nat (length (show_prog ip_filter))) k' /\
    fb_bpf_proc_show_filter fb_a (upd_cpu (fun _ => 1%nat) k') =
      Ret (show_head ++ show_prog ip_filter) (upd_cpu (fun _ => 1%nat) k') /\
    fb_bpf_proc_write fb_a (Z.of_nat (length (show_head ++ show_prog ip_filter))) (show_head ++ show_prog ip_filter) [0]
      k' = Ret (- ENOMEM) k'.
Proof.
  destruct (bpf_filter_roundtrip demo_f fb_a (block demo_f fb_a) fb_bpf_factory [no_filter; no_filter] ip_filter
    0 [] 1%nat demo_f_block) as (k' & H & _ & H1 & H2); [vc|vd|vc|vc|vc|vc|].
  exists k'. split; [exact H|]. split; [exact H1|exact H2].
Defined.

Lemma bpf_write_overruns_witness :
  fb_bpf_proc_write fb_a (Z.of_nat (length (show_prog ip_filter))) (show_prog ip_filter) [] demo_f =
    Crash Overrun.
Proof. apply (bpf_write_overruns demo_f fb_a ip_filter); [vc|vd|done|vc]. Defined.

(** A text of 16385 bytes. *)
Lemma bpf_write_refused_witness : fb_bpf_proc_write fb_a 16385 [] [] demo_f = Ret (- EINVAL) demo_f.
Proof.
  apply (proj1 (bpf_write_refused demo_f fb_a (block demo_f fb_a) fb_bpf_factory [no_filter; no_filter]
    16385 [] [] demo_f_block ltac:(vc))). vc.
Defined.

(** A packet of 60 bytes at a filter that keeps 40. *)
Definition short_filter : fb_bpf_priv := BpfPriv (Ports 7 8) (Some [Insn 6 0 0 40]).
Definition demo_g : kernel :=
  upd_skbs <[64 := Skb 60 [] (LanaInf 0 0 0 0 0 TYPE_INGRESS) 1 (EthInfo 0 0 [] 0)]>
    (upd_privs <[fb_private_data (block demo_f fb_a) := PrivBpf [short_filter; short_filter]]> demo_f).

Lemma bpf_netrx_correct_witness :
  fb_bpf_netrx fb_a 64 TYPE_INGRESS demo_g = Ret (PPE_DROPPED, TYPE_INGRESS) (upd_skbs (delete 64) demo_g).
Proof.
  rewrite (bpf_netrx_correct demo_g fb_a (block demo_f fb_a) fb_bpf_factory [short_filter; short_filter]
    short_filter 64 (Skb 60 [] (LanaInf 0 0 0 0 0 TYPE_INGRESS) 1 (EthInfo 0 0 [] 0)) TYPE_INGRESS); [done| |vc..].
  split; split; vc.
Defined.
