(* ===== verification/EthRuns.v ===== *)
(** * Concrete runs of the Ethernet block

    A machine with two network devices, on the machine of Scenarios.v: the
    devices are hooked over the control interface, bound to each other, and a
    frame crosses them. *)
From Stdlib Require Import ZArith Lia.
From stdpp Require Import base gmap numbers countable list.
From S2P Require Import Prelude CString CritbitTree Vlink NameMap Types NetTypes Kernel NetDev EthvlinkDev Fblock FblockNs FblockLife FblockBind.
From S2P Require Import PerCpu FblockCtor Engine FbEth Modules EngineProps EngineSinks ModuleLife UserctlProps NetDevProps FbEthProps UserTools.
From S2P Require Import EthSystem Scenarios.

Local Open Scope Z_scope.
Local Open Scope kernel_scope.

Definition eth0 : addr := 256.
Definition eth1 : addr := 320.
Definition name0 : cstr := [101; 116; 104; 48].
Definition name1 : cstr := [101; 116; 104; 49].

(** A real device that is up (the flag RUNNING is not one the kernel keeps
    there), with a driver that frees packets at once. *)
Definition nic (name : cstr) (i : Z) : net_device :=
  NetDev name i 1500 1 IFF_UP 0 1 None NETREG_REGISTERED (Link true true false 6) None None [] false [].
Definition dev0 : net_device := nic name0 1.
Definition dev1 : net_device := nic name1 2.

Definition machine : kernel :=
  upd_net (net_devs (fun _ => {[ eth0 := dev0; eth1 := dev1 ]})) (boot 2).

Definition hook_msg (cmd : Z) (name : cstr) : vlinknlmsg :=
  Vmsg cmd 0 0 0 (pad IFNAMSIZ name) (pad IFNAMSIZ name).
Definition start0 : vlinknlmsg := hook_msg VLINKNLCMD_START_HOOK_DEVICE name0.
Definition start1 : vlinknlmsg := hook_msg VLINKNLCMD_START_HOOK_DEVICE name1.
Definition stop0 : vlinknlmsg := hook_msg VLINKNLCMD_STOP_HOOK_DEVICE name0.

Lemma machine_core : core_ok machine.
Proof. apply core_ok_net, boot_core_ok. Qed.

Lemma machine_names : unique_names (n_devs (k_net machine)).
Proof.
  intros a a' d d'. simpl. rewrite !lookup_insert_Some, !lookup_singleton_Some.
  intros [[<- <-]|[_ [<- <-]]] [[<- <-]|[_ [<- <-]]] _ _ E; done.
Qed.

Lemma machine_buildable : buildable machine eth0 dev0.
Proof. split; [vc|vc|vc|split; vc]. Qed.

Lemma machine_hookable : hookable machine start0 eth0 dev0.
Proof. split; [vc|vc|vc|apply machine_buildable|vc]. Qed.

Lemma eth_hook_correct_witness :
  exists fb b k', fb_eth_start_hook_dev start0 machine = Ret NETLINK_VLINK_RX_STOP k' /\
    registered k' fb b /\ fb_name b = name0 /\
    n_devs (k_net k') = <[eth0 := hooked dev0]> (n_devs (k_net machine)).
Proof.
  destruct (eth_hook_correct machine start0 eth0 dev0 machine_core machine_hookable)
    as (fb & b & k' & H & _ & Hr & Hn & _ & _ & _ & _ & _ & Hd & _); [vd|].
  exists fb, b, k'. split; [exact H|]. split; [exact Hr|]. split; [rewrite Hn; vc|exact Hd].
Defined.

Lemma eth_hook_roundtrip_witness :
  exists k', (fb_eth_start_hook_dev start0;; fb_eth_stop_hook_dev stop0) machine = Ret NETLINK_VLINK_RX_STOP k' /\
    k_fblocks k' = k_fblocks machine /\ k_net k' = k_net machine.
Proof.
  destruct (eth_hook_roundtrip machine start0 stop0 eth0 dev0 machine_core machine_hookable machine_names)
    as (k' & H & Hf & _ & _ & _ & Hn & _); [vc|apply map_Forall_empty|constructor|vc|vc|vc|vd|vc|vc|].
  exists k'. split; [exact H|]. split; [exact Hf|exact Hn].
Defined.

(** Both devices hooked, the block of the first one above the other's: what
    comes in on the first device goes to the second. *)
Definition hooked1 : kernel := run (fb_eth_start_hook_dev start0) machine.
Definition hooked2 : kernel := run (fb_eth_start_hook_dev start1) hooked1.
Definition fb_eth0 : addr := 4160.
Definition fb_eth1 : addr := 4480.
Definition bridged : kernel := run (fblock_bind fb_eth1 fb_eth0) hooked2.

Lemma eth_rehook_refused_witness : fb_eth_start_hook_dev start0 hooked1 = Ret NETLINK_VLINK_RX_EMERG hooked1.
Proof. apply (eth_rehook_refused hooked1 start0 eth0 (hooked dev0)); vc. Defined.

(** A frame of 60 bytes received on a device, from a unicast address. *)
Definition frame (src : list Z) (dev : addr) : sk_buff :=
  Skb 60 [] (LanaInf 0 0 0 0 0 TYPE_INGRESS) 1 (EthInfo dev 0 src 2048).
Definition station : list Z := [2; 0; 0; 0; 0; 1].

(** The frame is at the receive handler of its device. *)
Definition arrives (s : sk_buff) (k : kernel) : kernel :=
  upd_rcu_nesting S (upd_skbs (fun _ => {[ skb1 := s ]}) k).

Definition port0 : fb_eth_priv := EthPriv (Ports 2 0) eth0.
Definition port1 : fb_eth_priv := EthPriv (Ports 0 1) eth1.

Lemma arrives_packet src dev k : packet (arrives (frame src dev) k) skb1 (frame src dev).
Proof. split; [done|]. split; [apply lookup_singleton_eq|done]. Qed.

Lemma arrives_net s k : k_net (arrives s k) = k_net k.
Proof. reflexivity. Qed.

Lemma arrives_fblocks s k : k_fblocks (arrives s k) = k_fblocks k.
Proof. reflexivity. Qed.

Lemma arrives_fbl s k i : fbl_lookup (arrives s k) i = fbl_lookup k i.
Proof. reflexivity. Qed.

Lemma arrives_privs s k : k_privs (arrives s k) = k_privs k /\ k_cpu (arrives s k) = k_cpu k.
Proof. done. Qed.

Lemma bridged_live s : nodes_live (k_net (arrives s bridged)).
Proof. unfold nodes_live. rewrite arrives_net. vd. Qed.

(** The source address is a group address. *)
Lemma eth_frame_correct_witness :
  let s := frame [3; 0; 0; 0; 0; 1] eth0 in
  fb_eth_handle_frame [] 1 2 skb1 (arrives s bridged) =
    Ret RX_HANDLER_CONSUMED (upd_skbs (delete skb1) (arrives s bridged)).
Proof.
  cbv zeta. rewrite (eth_frame_correct (arrives (frame [3; 0; 0; 0; 0; 1] eth0) bridged) 1 2 skb1
    (frame [3; 0; 0; 0; 0; 1] eth0) (arrives_packet _ _ _) (bridged_live _)
    (block bridged fb_eth0) [port0; port0] port0); [done|intros _; vc].
Defined.

(** The port is unbound while the frame is handled. *)
Lemma eth_frame_race_leaks_witness :
  exists k' s', fb_eth_handle_frame [EthPriv (Ports 0 0) eth0] 1 2 skb1 (arrives (frame station eth0) bridged) =
      Ret RX_HANDLER_CONSUMED k' /\ k_skbs k' !! skb1 = Some s'.
Proof.
  destruct (eth_frame_race_leaks (arrives (frame station eth0) bridged) 0 1 skb1 (frame station eth0)
    (block bridged fb_eth0) [port0; port0] port0 (EthPriv (Ports 0 0) eth0) 0) as (k' & s' & H & Hs & _);
    [apply arrives_packet|apply bridged_live|vc..|].
  exists k', s'. split; [exact H|]. rewrite Hs. apply lookup_insert_eq.
Defined.

Lemma eth1_port s : eth_port (arrives s bridged) fb_eth1 (block bridged fb_eth1) port1 (hooked dev1).
Proof.
  destruct (arrives_privs s bridged) as [E1 E2]. split; [rewrite arrives_fblocks; vc| |].
  - rewrite E1, E2. split; [vc|]. exists [port1; port1]. vc.
  - split; [|vc]. unfold device. rewrite arrives_net. vc.
Qed.

Lemma eth_netrx_correct_witness :
  let s := frame station eth0 in
  fb_eth_netrx fb_eth1 skb1 TYPE_EGRESS (arrives s bridged) =
    Ret (PPE_DROPPED, TYPE_EGRESS)
      (dev_takes eth1 (hooked dev1) skb1 (outgoing (block bridged fb_eth1) port1 s) (arrives s bridged)).
Proof.
  cbv zeta. apply (eth_netrx_correct (arrives (frame station eth0) bridged) fb_eth1 (block bridged fb_eth1) port1
    (hooked dev1) skb1 (frame station eth0) TYPE_EGRESS); [apply eth1_port|apply arrives_packet].
Defined.

Lemma eth1_sink s : sink (arrives s bridged) 2 fb_eth1 (block bridged fb_eth1) M_eth.
Proof.
  split; [|rewrite arrives_fblocks; vc|vc]. rewrite arrives_fbl. vc.
Qed.

(** The frame crosses the machine. *)
Lemma eth_bridge_witness :
  exists k' out, fb_eth_handle_frame [] 1 1 skb1 (arrives (frame station eth0) bridged) = Ret RX_HANDLER_CONSUMED k' /\
    n_devs (k_net k') !! eth1 = Some (with_sent skb1 out (hooked dev1)) /\ skb_data out = [].
Proof.
  destruct (eth_bridge (arrives (frame station eth0) bridged) 0 0 skb1 (frame station eth0) (block bridged fb_eth0)
    [port0; port0] port0 [] fb_eth1 (block bridged fb_eth1) port1 (hooked dev1) 0)
    as (k' & out & H & Hd & Ho & _);
    [apply arrives_packet|apply bridged_live|vc|vc|vc|vc|vc|vc|vc|vc|apply reaches_here|apply eth1_sink
    |apply eth1_port|vc|vc|vc|].
  exists k', out. split; [exact H|]. split; [|exact Ho]. rewrite Hd. apply lookup_insert_eq.
Defined.

(** "vlink ethernet hook eth0" *)
Lemma eth_tool_hooks_witness :
  exists s1 len m s2 k', init_fb_eth_module (fb_eth_objects (vlink_on machine)) = Some (0, s1) /\
    vlink_main 0 0 [[118]; w_ethernet; w_hook; name0] = Sends VLINKNLGRP_ETHERNET len m /\
    vlink_rcv fb_eth_rx [(true, len, VLINKNLGRP_ETHERNET, m)] s1 = Some s2 /\
    v_world s2 = inr k' /\ hook_done machine eth0 dev0 k'.
Proof.
  destruct (eth_tool_hooks (vlink_on machine) machine [118] eth0 dev0 eq_refl eq_refl eq_refl
    machine_core machine_buildable) as (s1 & len & m & s2 & k' & H1 & H2 & H3 & H4 & H5 & _);
    [vc|vc|apply machine_names|vc|vd|].
  exists s1, len, m, s2, k'. split; [exact H1|]. split; [exact H2|]. split; [exact H3|]. split; [exact H4|exact H5].
Defined.

(** No memory is left. *)
Definition starved : kernel := upd_oom (fun _ => [true]) machine.
Definition loaded : vstate (W := fault + kernel) :=
  default (vlink_on starved) (snd <$> init_fb_eth_module (fb_eth_objects (vlink_on starved))).

Lemma loaded_ok : eth_loaded loaded /\ v_world loaded = inr starved.
Proof.
  destruct (init_module_loaded (vlink_on starved) eq_refl eq_refl) as (s' & H & He & _ & Hw & _).
  unfold loaded. rewrite H. split; [exact He|exact Hw].
Qed.

Lemma eth_failed_hook_counted_witness :
  __vlink_rcv fb_eth_rx true vlink_min_len VLINKNLGRP_ETHERNET start0 loaded =
    Some (NETLINK_VLINK_RX_STOP, add_owner_refs eth_owner 1 (set_world (inr (upd_oom (fun _ => []) starved)) loaded)).
Proof.
  destruct loaded_ok as [He Hw].
  apply (eth_failed_hook_counted loaded starved vlink_min_len start0 eth0 dev0 [] He Hw); [lia|vc..].
Defined.
