(* ===== verification/VlinkRuns.v ===== *)
(** * Concrete runs of the virtual devices and the sockets

    On the machine of EthRuns.v: a virtual device is added on a carrier, frames
    and packets go through it, and sockets are created, bound and used. *)
From Stdlib Require Import ZArith Lia.
From stdpp Require Import base gmap numbers countable list.
From S2P Require Import Prelude CString CritbitTree Vlink NameMap Types NetTypes Kernel NetDev EthvlinkDev Fblock FblockNs FblockLife FblockBind.
From S2P Require Import PerCpu FblockCtor Engine FbEth FbEthvlink FbPflana Modules EngineProps EngineSinks ModuleLife UserctlProps NetDevProps.
From S2P Require Import FbEthProps FbEthvlinkProps FbEthvlinkFrames EthvlinkWf FbPflanaProps EngineOrder FbPflanaLife NetPaths.
From S2P Require Import UserTools EthSystem VlinkSystem Scenarios EthRuns.

Local Open Scope Z_scope.
Local Open Scope kernel_scope.

(** ** A virtual device *)

(** The carrier's driver frees packets when they were sent. *)
Definition carrier : net_device :=
  NetDev name0 1 1500 1 IFF_UP 0 1 None NETREG_REGISTERED (Link true true false 6) None None [] true [].
Definition plain_machine : kernel :=
  upd_net (net_ifindex 3) (upd_net (net_devs (fun _ => {[ eth0 := carrier; eth1 := dev1 ]})) (boot 2)).

Definition name_v : cstr := [118; 49].
Definition vdev_msg (cmd port : Z) : vlinknlmsg := Vmsg cmd 0 0 port (pad IFNAMSIZ name_v) (pad IFNAMSIZ name0).
Definition add_v : vlinknlmsg := vdev_msg VLINKNLCMD_ADD_DEVICE 5.
Definition rm_v : vlinknlmsg := vdev_msg VLINKNLCMD_RM_DEVICE 0.

Lemma plain_core : core_ok plain_machine.
Proof. do 2 apply core_ok_net. apply boot_core_ok. Qed.

Lemma plain_names name : name <> name0 -> name <> name1 -> no_name (n_devs (k_net plain_machine)) name.
Proof.
  intros H0 H1 a d. simpl. rewrite lookup_insert_Some, lookup_singleton_Some. intros [[<- <-]|[_ [<- <-]]] _ E; by subst.
Qed.

Lemma plain_addable : vaddable plain_machine add_v eth0 carrier.
Proof.
  split; [vc| |vc|apply Forall_nil_2|vc|split; vc|].
  - split; [by apply plain_names|]. split; [vd|vd].
  - vd.
Qed.

Lemma ethvlink_tag_exact_witness :
  (proto_is_lana 1452 = true /\ proto_tag 1452 = 5 <-> htons 1452 = Z.lor ETH_P_LANA 5).
Proof. apply (ethvlink_tag_exact 5 1452); lia. Defined.

Lemma ethvlink_add_correct_witness :
  exists dev d k', fb_ethvlink_add_dev notifier add_v plain_machine = Ret NETLINK_VLINK_RX_STOP k' /\
    fb_ethvlink_vdevs (k_net k') = [dev] /\ n_devs (k_net k') !! dev = Some d /\ nd_name d = name_v.
Proof.
  destruct (ethvlink_add_correct plain_machine add_v eth0 carrier notifier [] plain_core plain_addable)
    as (dev & fb & b & d & k' & H & _ & Hl & Hd & Hn & _); [vd|by split; [|split; constructor]|].
  exists dev, d, k'. split; [exact H|]. split; [exact Hl|]. split; [rewrite Hd; apply lookup_insert_eq|exact Hn].
Defined.

Lemma ethvlink_add_rm_roundtrip_witness :
  exists k1 k2, fb_ethvlink_add_dev notifier add_v plain_machine = Ret NETLINK_VLINK_RX_STOP k1 /\
    fb_ethvlink_rm_dev notifier rm_v k1 = Ret NETLINK_VLINK_RX_STOP k2 /\
    k_fblocks k2 = k_fblocks plain_machine /\ fb_ethvlink_vdevs (k_net k2) = [].
Proof.
  destruct (ethvlink_add_rm_roundtrip plain_machine add_v rm_v eth0 carrier 1 plain_core plain_addable)
    as (k1 & k2 & H1 & H2 & _ & Hl & Hf & _); [constructor|vc..|].
  exists k1, k2. split; [exact H1|]. split; [exact H2|]. split; [exact Hf|exact Hl].
Defined.

Definition hook_carrier : vlinknlmsg := vdev_msg VLINKNLCMD_START_HOOK_DEVICE 0.

Lemma ethvlink_hooks_correct_witness :
  fb_ethvlink_start_hook_dev hook_carrier plain_machine =
    Ret NETLINK_VLINK_RX_STOP (upd_net (net_devs <[eth0 := hooked_root carrier]>) plain_machine).
Proof. apply (ethvlink_hooks_correct plain_machine hook_carrier eth0 carrier); vc. Defined.

(** ** Frames and packets *)

(** The device added and set up. *)
Definition vdev1 : addr := 4096.
Definition fb_v1 : addr := 4160.
Definition with_vdev : kernel := run (fb_ethvlink_add_dev notifier add_v) plain_machine.
Definition vdev_up : kernel :=
  upd_net (net_devs (alter (fun d => with_flags (Z.lor (nd_flags d) IFF_UP) d) vdev1)) with_vdev.
Definition dev_of (k : kernel) (a : addr) : net_device := default carrier (n_devs (k_net k) !! a).
Definition v1_priv : fb_ethvlink_private := VlinkPriv 5 vdev1 eth0 fb_v1.
Definition zero_stats : list pcpu_dstats := [dstats_zero; dstats_zero].

(** A frame for the device with tag [t], as the receive handler sees it. *)
Definition tagged (t : Z) : sk_buff :=
  Skb 60 [7; 8; 9] (LanaInf 0 0 0 0 0 TYPE_INGRESS) 1 (EthInfo eth0 0 station (htons (Z.lor ETH_P_LANA t))).

Lemma arrives_packet' s k : skb_users s = 1 -> packet (arrives s k) skb1 s.
Proof. intros Hu. split; [done|]. split; [apply lookup_singleton_eq|done]. Qed.

Lemma vdev_up_live : vdevs_live (k_net vdev_up).
Proof.
  apply Forall_forall. intros a Ha. assert (E : fb_ethvlink_vdevs (k_net vdev_up) = [vdev1]) by vc. rewrite E in Ha.
  apply list_elem_of_singleton in Ha as ->. exists v1_priv. split; [done|]. exists (dev_of vdev_up vdev1). vc.
Qed.

Lemma vdev_up_sender s :
  vlink_sender (arrives s vdev_up) fb_v1 (block with_vdev fb_v1) vdev1 v1_priv (dev_of vdev_up vdev1) zero_stats carrier.
Proof.
  destruct (arrives_privs s vdev_up) as [E1 E2]. split; unfold device; rewrite ?arrives_fblocks, ?arrives_net, ?E1, ?E2; [vc| |vc|vc].
  split; [vc|]. exists (replicate 2 (VlinkInner (Ports 0 0) vdev1)), (VlinkInner (Ports 0 0) vdev1). vc.
Qed.

(** No device has the tag. *)
Lemma ethvlink_frame_correct_witness :
  fb_ethvlink_handle_frame [] 1 2 skb1 (arrives (tagged 9) vdev_up) =
    Ret RX_HANDLER_CONSUMED (upd_skbs (delete skb1) (arrives (tagged 9) vdev_up)).
Proof.
  rewrite (ethvlink_frame_correct (arrives (tagged 9) vdev_up) 1 2 skb1 (tagged 9) carrier)
    with (v := v1_priv) (b := block with_vdev fb_v1) (p := VlinkInner (Ports 0 0) vdev1).
  - rewrite arrives_net. replace (vdev_for _ _ _) with 0 by vc. done.
  - by apply arrives_packet'.
  - rewrite arrives_net. apply vdev_up_live.
  - unfold device. rewrite arrives_net. vc.
  - rewrite arrives_net. replace (vdev_for _ _ _) with 0 by vc. done.
Defined.


Lemma ethvlink_stats_sent_witness :
  exists k' x x', fb_ethvlink_netrx fb_v1 skb1 TYPE_EGRESS (arrives (tagged 5) vdev_up) = Ret (PPE_DROPPED, TYPE_EGRESS) k' /\
    fb_ethvlink_get_stats64 vdev1 no_stats k' = Ret x' k' /\ st_tx_packets x' = u64 (st_tx_packets x + 1).
Proof.
  destruct (ethvlink_stats_sent (arrives (tagged 5) vdev_up) fb_v1 (block with_vdev fb_v1) vdev1 v1_priv
    (dev_of vdev_up vdev1) zero_stats carrier skb1 (tagged 5) TYPE_EGRESS (vdev_up_sender _))
    as (k' & x & x' & H & _ & Hx' & Hp & _); [by apply arrives_packet'|vd|vc|vc|].
  exists k', x, x'. split; [exact H|]. split; [exact Hx'|exact Hp].
Defined.

(** The carrier goes away; the driver looks for "v". *)
Definition leaving : kernel := upd_net (net_devs <[eth0 := with_reg NETREG_UNREGISTERING carrier]>) with_vdev.

Lemma ethvlink_carrier_gone_witness :
  fb_ethvlink_dev_event (fb_ethvlink_rm_dev notifier) NETDEV_UNREGISTER eth0 leaving = Ret NOTIFY_DONE leaving.
Proof.
  apply (ethvlink_carrier_gone leaving notifier eth0 (with_reg NETREG_UNREGISTERING carrier)); [vc|vc|vc|].
  assert (E : fb_ethvlink_vdevs (k_net leaving) = [vdev1]) by vc. rewrite E. constructor; [|constructor].
  exists v1_priv, (dev_of leaving vdev1). split; [split; [done|]; exists (dev_of leaving vdev1); vc|].
  split; [vc|]. split; [vc|]. split; [vd|]. split; [vc|]. unfold no_name. vd.
Defined.

Lemma ethvlink_carrier_change_witness :
  exists m, fb_ethvlink_dev_event (fb_ethvlink_rm_dev notifier) NETDEV_CHANGE eth0 with_vdev =
      Ret NOTIFY_DONE (upd_net (net_devs (fun _ => m)) with_vdev) /\
    netif_carrier_ok <$> m !! vdev1 = Some true.
Proof.
  destruct (ethvlink_carrier_change (fb_ethvlink_rm_dev notifier) with_vdev eth0 carrier) as (m & H & Hm); [vc|vc| |].
  - assert (E : fb_ethvlink_vdevs (k_net with_vdev) = [vdev1]) by vc. rewrite E. constructor; [|constructor].
    exists v1_priv. split; [split; [done|]; exists (dev_of with_vdev vdev1); vc|vc].
  - exists m. split; [exact H|]. rewrite Hm, decide_True; [vc|]. split; [vd|vc].
Defined.

Lemma ethvlink_wf_preserved_witness :
  exists k', fb_ethvlink_add_dev notifier add_v plain_machine = Ret NETLINK_VLINK_RX_STOP k' /\ vlink_wf (k_net k').
Proof.
  destruct (ethvlink_wf_preserved plain_machine notifier 0 plain_core) as [H _].
  - split; [constructor|constructor|]. intros a b v w Ha. by apply elem_of_nil in Ha.
  - exact (H add_v eth0 carrier plain_addable eq_refl).
Defined.

(** ** Sockets *)

(** Some text for a pointer. *)
Definition ptr_hex (a : addr) : cstr := [48; 120; 97 + (a / 64) mod 26].

Definition sock1 : addr := 384.
Definition sock2 : addr := 448.
Definition raw_socket : socket := Socket SOCK_RAW 0.

(** The module is loaded and two sockets are to be created. *)
Definition sock_machine : kernel :=
  upd_pf (fun _ => tab_loaded ∅ {[ sock1 := raw_socket; sock2 := raw_socket ]} {[ lana_proto_raw := raw_object ]} true)
    plain_machine.

Lemma sock_core : core_ok sock_machine.
Proof. apply core_ok_net, plain_core. Qed.

Lemma pflana_create_correct_witness :
  exists sk fb b s k', lana_family_create ptr_hex true true sock1 LANA_PROTO_AUTO sock_machine = Ret 0 k' /\
    pf_socks (pf k') !! sk = Some s /\ ls_fb s = fb /\ registered k' fb b.
Proof.
  destruct (pflana_create_correct ptr_hex sock_machine sock1 raw_socket true LANA_PROTO_AUTO LANA_PROTO_RAW sock_core)
    as (sk & fb & b & s & k' & H & _ & _ & Hs & _ & _ & _ & Hf & _ & Hr & _); [vc|vc|vc|vc|split; vc|vd|].
  exists sk, fb, b, s, k'. split; [exact H|]. split; [rewrite Hs; apply lookup_insert_eq|]. split; [exact Hf|exact Hr].
Defined.

Lemma pflana_create_refused_witness :
  lana_family_create ptr_hex true false sock1 LANA_PROTO_AUTO sock_machine = Ret (- EPERM) sock_machine.
Proof. apply (pflana_create_refused ptr_hex sock_machine sock1 raw_socket true false LANA_PROTO_AUTO); [done|vc|by right]. Defined.

Lemma pflana_create_leaks_witness :
  let k := upd_oom (fun _ => [false; true]) sock_machine in
  exists s k', lana_family_create ptr_hex true true sock1 LANA_PROTO_AUTO k = Ret (- ENOMEM) k' /\
    pf_socks (pf k') !! 4096 = Some s /\ sk_refcnt s = -1.
Proof.
  cbv zeta. destruct (pflana_create_leaks ptr_hex (upd_oom (fun _ => [false; true]) sock_machine) sock1 raw_socket true
    LANA_PROTO_AUTO LANA_PROTO_RAW []) as (s & k' & H & Hs & Hr & _); [vc|vc|vc|vc|vc|vc|].
  exists s, k'. split; [exact H|]. split; [rewrite Hs; apply lookup_insert_eq|exact Hr].
Defined.

(** Both sockets, the first above the second: what the first sends the second
    gets. *)
Definition create (sock : addr) : M Z := lana_family_create ptr_hex true true sock LANA_PROTO_AUTO.
Definition one_socket : kernel := run (create sock1) sock_machine.
Definition two_sockets : kernel := run (create sock2) one_socket.
Definition sk1 : addr := so_sk (default raw_socket (pf_sockets (pf one_socket) !! sock1)).
Definition sk2 : addr := so_sk (default raw_socket (pf_sockets (pf two_sockets) !! sock2)).
Definition no_sock : lana_sock := LanaSock 0 [] 0 0 0 0 0 false 0 0 false.
Definition sk_of (k : kernel) (sk : addr) : lana_sock := default no_sock (pf_socks (pf k) !! sk).
Definition fb_s1 : addr := 4160.
Definition fb_s2 : addr := 4480.
Definition bind_dev (sock : addr) : M Z := lana_raw_bind sock (Sockaddr AF_LANA [1]) 16.
Definition linked : kernel := run (fblock_bind fb_s1 fb_s2) (run (bind_dev sock1) two_sockets).
Definition hello : msghdr := Msghdr (Some (Sockaddr AF_LANA [])) 16 [1; 2; 3] 0.

Definition s1_port : fb_pflana_priv := PflanaPriv (Ports 0 2) sk1.
Definition s2_port : fb_pflana_priv := PflanaPriv (Ports 1 0) sk2.

Lemma linked_ready : send_ready linked sk1 (sk_of linked sk1) (block linked fb_s1) s1_port carrier hello 3.
Proof.
  split; [vc| |vc|vc|vc|vc|].
  - exists (Sockaddr AF_LANA []). vc.
  - split; [vc|]. exists [s1_port; s1_port]. vc.
Qed.

Lemma linked_port : sock_port linked fb_s2 (block linked fb_s2) s2_port (sk_of linked sk2).
Proof. split; [vc| |vc]. split; [vc|]. exists [s2_port; s2_port]. vc. Qed.

Lemma pflana_send_recv_witness :
  exists k1 k2, lana_proto_sendmsg [] 1 1 sk1 hello 3 linked = Ret 3 k1 /\
    lana_proto_recvmsg sk2 0 100 0 (- EAGAIN) 0 k1 = Ret (3, [1; 2; 3], 0) k2 /\ k_skbs k2 = k_skbs linked.
Proof.
  destruct (pflana_send_recv linked sk1 (sk_of linked sk1) (block linked fb_s1) s1_port carrier hello 3 0 0 [] fb_s2
    (block linked fb_s2) s2_port (sk_of linked sk2) 0 0 100 (- EAGAIN) linked_ready)
    as (k1 & s1 & H & _ & _ & _ & _ & _ & _ & Hr); [|split; vc|apply linked_port|vd|vc|vc|].
  { replace (port (pp_port s1_port) TYPE_EGRESS) with (fb_idp (block linked fb_s2)) by vc. apply reaches_here. }
  destruct (Hr ltac:(vc) ltac:(vc)) as (k2 & H2 & _ & Hs). exists k1, k2. split; [exact H|]. split; [exact H2|exact Hs].
Defined.

Lemma linked_port_arrives s : sock_port (arrives s linked) fb_s2 (block linked fb_s2) s2_port (sk_of linked sk2).
Proof.
  destruct linked_port as [P1 P2 P3]. destruct (arrives_privs s linked) as [E1 E2].
  split; [by rewrite arrives_fblocks|by rewrite E1, E2|]. unfold sock_at, pf in *. by rewrite arrives_net.
Qed.

Lemma pflana_netrx_correct_witness :
  fb_pflana_netrx fb_s2 skb1 TYPE_INGRESS (arrives (tagged 5) linked) = Ret (PPE_DROPPED, TYPE_INGRESS)
    (upd_skbs <[skb1 := taken_in (block linked fb_s2) (tagged 5)]>
       (upd_pf (socks_of <[pp_sock_self s2_port := queued skb1 (sk_of linked sk2)]>) (arrives (tagged 5) linked))).
Proof.
  pose proof (pflana_netrx_correct (arrives (tagged 5) linked) fb_s2 (block linked fb_s2) s2_port (sk_of linked sk2)
    skb1 (tagged 5) TYPE_INGRESS (linked_port_arrives _) (arrives_packet' (tagged 5) linked eq_refl)) as H.
  assert (Hroom : room (arrives (tagged 5) linked) (sk_of linked sk2) (skb_len (tagged 5)) = true) by vc.
  rewrite Hroom in H. exact H.
Defined.

(** Two packets for the second socket wait in the backlog of CPU 0. *)
Definition for_s2 (data : list Z) : sk_buff :=
  Skb (Z.of_nat (length data)) data (LanaInf 2 0 0 0 0 TYPE_INGRESS) 1 (EthInfo 0 0 [] 0).
Definition waiting : kernel :=
  upd_emdiscs <[0%nat := Disc [skb1; skb2] false 0]>
    (upd_skbs (fun _ => {[ skb1 := for_s2 [7; 8]; skb2 := for_s2 [9] ]}) linked).

Lemma waiting_leads : Forall (leads_to waiting (block linked fb_s2) 1) [skb1; skb2].
Proof.
  assert (H : forall data, reaches waiting TYPE_INGRESS (read_next_idp_from_skb (for_s2 data)) [] (fb_idp (block linked fb_s2))).
  { intros data. replace (fb_idp (block linked fb_s2)) with (read_next_idp_from_skb (for_s2 data)) by vc. apply reaches_here. }
  constructor; [|constructor; [|constructor]].
  - exists (for_s2 [7; 8]), []. split; [vc|]. split; [vc|]. apply H.
  - exists (for_s2 [9]), []. split; [vc|]. split; [vc|]. apply H.
Qed.

Lemma waiting_room : room_for waiting (sk_of linked sk2) [skb1; skb2].
Proof.
  intros l [l' E]. destruct l as [|a l]; [vc|]. injection E as <- E. destruct l as [|a l]; [vc|]. injection E as <- E.
  destruct l; [vc|done].
Qed.

Lemma timer_delivers_in_order_witness :
  exists k', engine_timer_handler 2 1 0 waiting = Ret tt k' /\
    pf_socks (pf k') !! sk2 = Some (with_sk_queue [skb1; skb2] (sk_of linked sk2)).
Proof.
  destruct (timer_delivers_in_order waiting 2 1 (Disc [skb1; skb2] false 0) fb_s2 (block linked fb_s2) s2_port
    (sk_of linked sk2)) as (k' & H & (_ & Hs) & _);
    [vc|vc|vc|vc|split; vc| |exact waiting_leads|vd|exact waiting_room|vc|].
  - split; [vc| |vc]. split; [vc|]. exists [s2_port; s2_port]. vc.
  - exists k'. split; [exact H|]. replace (pp_sock_self s2_port) with sk2 in Hs by vc.
    replace (sk_receive_queue (sk_of linked sk2)) with (@nil addr) in Hs by vc. exact Hs.
Defined.

(** The second socket after a packet has come. *)
Definition got_one : kernel :=
  upd_skbs (fun _ => {[ skb1 := for_s2 [7; 8] ]}) (upd_pf (socks_of <[sk2 := with_sk_queue [skb1] (sk_of linked sk2)]>) linked).

(** Nothing has arrived, and the caller does not wait; and a packet of two
    bytes read into a buffer of one. *)
Lemma pflana_recvmsg_correct_witness :
  lana_proto_recvmsg sk2 0 100 0 (- EAGAIN) 0 linked = Ret (- EAGAIN, [], 0) linked /\
  exists k', lana_proto_recvmsg sk2 0 1 0 (- EAGAIN) 0 got_one = Ret (1, [7], MSG_TRUNC) k' /\ k_skbs k' !! skb1 = None.
Proof.
  split.
  - assert (Hs : sock_at linked sk2 (sk_of linked sk2)) by vc.
    pose proof (pflana_recvmsg_correct linked sk2 (sk_of linked sk2) 0 100 0 (- EAGAIN) 0 Hs) as H.
    replace (sk_receive_queue (sk_of linked sk2)) with (@nil addr) in H by vc. rewrite H.
    replace (sk_shutdown (sk_of linked sk2)) with 0 by vc. done.
  - assert (Hs : sock_at got_one sk2 (with_sk_queue [skb1] (sk_of linked sk2))) by (split; [vc|apply lookup_insert_eq]).
    pose proof (pflana_recvmsg_correct got_one sk2 _ 0 1 0 (- EAGAIN) 0 Hs (for_s2 [7; 8]) ltac:(vc)) as H.
    eexists. split; [exact H|]. apply lookup_delete_eq.
Defined.

Lemma pflana_sendmsg_errors_witness :
  lana_proto_sendmsg [] 1 1 sk2 hello 3 linked = Crash Null_deref.
Proof.
  apply (pflana_sendmsg_errors linked sk2 (sk_of linked sk2) [] 1 1 hello 3 carrier).
  - vc.
  - intros H. destruct H. vc.
  - exists (Sockaddr AF_LANA []). vc.
  - vc.
Defined.

(** The second socket is bound to a device, but its egress port is not. *)
Definition alone : kernel := run (bind_dev sock2) linked.

Lemma pflana_send_unbound_witness :
  exists k1 s1, lana_proto_sendmsg [] 1 1 sk2 hello 3 alone = Ret 3 k1 /\ k_skbs k1 !! k_next alone = Some s1.
Proof.
  destruct (pflana_send_unbound alone sk2 (sk_of alone sk2) (block alone fb_s2) s2_port carrier hello 3 0 0 0)
    as (k1 & s1 & H & Hs & _); [|vc|vc|].
  - split; [vc| |vc|vc|vc|vc|].
    + exists (Sockaddr AF_LANA []). vc.
    + split; [vc|]. exists [s2_port; s2_port]. vc.
  - exists k1, s1. split; [exact H|]. rewrite Hs. apply lookup_insert_eq.
Defined.

Lemma pflana_init_free_witness :
  let k := upd_pf (socks_of <[sock1 := no_sock]>) sock_machine in
  exists k', (lana_sk_init ptr_hex sock1;; lana_sk_free sock1;; grace_period) k = Ret tt k' /\
    k_fblocks k' = k_fblocks k /\ k_privs k' = k_privs k.
Proof.
  cbv zeta. destruct (pflana_init_free ptr_hex (upd_pf (socks_of <[sock1 := no_sock]>) sock_machine) sock1 no_sock)
    as (k' & H & H1 & H2 & _); [apply core_ok_net, sock_core|split; vc|vc|vd|vc|vc|].
  exists k'. split; [exact H|]. split; [exact H1|exact H2].
Defined.

Lemma pflana_release_freed_witness : lana_raw_release sock1 one_socket = Crash (Bad_access sk1).
Proof. apply (pflana_release_freed one_socket sock1 SOCK_RAW sk1 (sk_of one_socket sk1)); vc. Defined.

Lemma pflana_module_roundtrip_witness :
  let k := upd_pf (fun _ => tab_empty ∅ ∅ {[ lana_proto_raw := raw_object ]} false) plain_machine in
  exists k1, init_fb_pflana_module k = Ret 0 k1 /\ cleanup_fb_pflana_module k1 = Ret tt k.
Proof.
  cbv zeta. destruct (pflana_module_roundtrip (upd_pf (fun _ => tab_empty ∅ ∅ {[ lana_proto_raw := raw_object ]} false) plain_machine)
    ∅ ∅ {[ lana_proto_raw := raw_object ]}) as [H _]; [vc|vc|vc|].
  destruct (H eq_refl) as (k1 & H1 & _ & _ & H2). exists k1. split; [exact H1|exact H2].
Defined.

(** ** From the wire to a socket and back *)

(** The virtual device below a socket. *)
Definition vdev_socket : kernel :=
  run (create sock1) (upd_pf (fun _ => pf sock_machine) vdev_up).
Definition sk_v : addr := 4416.
Definition fb_sv : addr := 4480.
Definition tower : kernel := run (fblock_bind fb_sv fb_v1) vdev_socket.
Definition v1_port : fb_ethvlink_private_inner := VlinkInner (Ports 2 0) vdev1.
Definition sv_port : fb_pflana_priv := PflanaPriv (Ports 0 1) sk_v.
Definition incoming : kernel := arrives (tagged 5) tower.

Lemma tower_vport : vlink_port incoming vdev1 v1_priv (block tower fb_v1) v1_port.
Proof.
  unfold incoming. destruct (arrives_privs (tagged 5) tower) as [E1 E2].
  split; rewrite ?arrives_fblocks, ?arrives_net, ?E1, ?E2.
  - split; [|vc]. split; [done|]. exists (dev_of tower vdev1). vc.
  - vc.
  - split; [vc|]. exists [v1_port; v1_port]. vc.
Qed.

Lemma tower_frame :
  frame_for incoming (tagged 5) vdev1 v1_priv (dev_of tower vdev1) zero_stats (block tower fb_v1) v1_port.
Proof.
  split; [exists carrier| | | | |split; [apply tower_vport|vc]]; unfold incoming, device; rewrite ?arrives_net; try vc.
Qed.

Lemma tower_port : sock_port incoming fb_sv (block tower fb_sv) sv_port (sk_of tower sk_v).
Proof.
  unfold incoming. destruct (arrives_privs (tagged 5) tower) as [E1 E2].
  split; unfold sock_at, pf; rewrite ?arrives_fblocks, ?arrives_net, ?E1, ?E2; [vc| |vc].
  split; [vc|]. exists [sv_port; sv_port]. vc.
Qed.

Lemma tower_live : vdevs_live (k_net incoming).
Proof.
  unfold incoming. rewrite arrives_net. assert (E : fb_ethvlink_vdevs (k_net tower) = [vdev1]) by vc.
  unfold vdevs_live. rewrite E. constructor; [|constructor]. exists v1_priv. split; [done|]. exists (dev_of tower vdev1). vc.
Qed.

Lemma frame_to_socket_witness :
  exists k' s', fb_ethvlink_handle_frame [] 1 1 skb1 incoming = Ret RX_HANDLER_CONSUMED k' /\
    k_skbs k' !! skb1 = Some s' /\ skb_data s' = [7; 8; 9] /\
    pf_socks (pf k') !! sk_v = Some (queued skb1 (sk_of tower sk_v)).
Proof.
  destruct (frame_to_socket incoming 0 0 skb1 (tagged 5) vdev1 v1_priv (dev_of tower vdev1) zero_stats (block tower fb_v1)
    v1_port [] fb_sv (block tower fb_sv) sv_port (sk_of tower sk_v) 0) as (k' & s' & H & Hs & Hd & _ & Hq & _);
    [by apply arrives_packet'|apply tower_live|apply tower_frame| |split; vc|apply tower_port|vd|vc|vc|vc|].
  { replace (port (vi_port v1_port) TYPE_INGRESS) with (fb_idp (block tower fb_sv)) by vc. apply reaches_here. }
  exists k', s'. split; [exact H|]. split; [rewrite Hs; apply lookup_insert_eq|]. split; [exact Hd|].
  rewrite Hq. apply lookup_insert_eq.
Defined.

(** A socket above the block of a real device. *)
Definition fb_nic : addr := 4160.
Definition fb_out : addr := 4480.
Definition wired : kernel :=
  run (fblock_bind fb_out fb_nic) (run (bind_dev sock1) (run (create sock1) (run (fb_eth_start_hook_dev start1) sock_machine))).
Definition out_port : fb_pflana_priv := PflanaPriv (Ports 0 1) sk_v.
Definition nic_port : fb_eth_priv := EthPriv (Ports 2 0) eth1.

Lemma wired_ready : send_ready wired sk_v (sk_of wired sk_v) (block wired fb_out) out_port carrier hello 3.
Proof.
  split; [vc| |vc|vc|vc|vc|].
  - exists (Sockaddr AF_LANA []). vc.
  - split; [vc|]. exists [out_port; out_port]. vc.
Qed.

Lemma socket_to_wire_witness :
  exists k' out, lana_proto_sendmsg [] 1 1 sk_v hello 3 wired = Ret 3 k' /\
    n_devs (k_net k') !! eth1 = Some (with_sent (k_next wired) out (hooked dev1)) /\ skb_data out = [1; 2; 3].
Proof.
  destruct (socket_to_wire wired sk_v (sk_of wired sk_v) (block wired fb_out) out_port carrier hello 3 0 0 [] fb_nic
    (block wired fb_nic) nic_port (hooked dev1) 0 wired_ready) as (k' & out & H & Hd & Ho & _); [|split; vc| |vc|vc|].
  - replace (port (pp_port out_port) TYPE_EGRESS) with (fb_idp (block wired fb_nic)) by vc. apply reaches_here.
  - split; [vc| |vc]. split; [vc|]. exists [nic_port; nic_port]. vc.
  - exists k', out. split; [exact H|]. split; [rewrite Hd; apply lookup_insert_eq|exact Ho].
Defined.

(** "vlink ethernet add v1 eth0 5" *)
Lemma ethvlink_tool_adds_witness :
  exists s1 len s2 k', init_fb_ethvlink_module 0 (fb_ethvlink_objects (vlink_on plain_machine)) = Some (0, s1) /\
    vlink_main 0 0 [[118]; w_ethernet; w_add; name_v; name0; [53]] = Sends VLINKNLGRP_ETHERNET len add_v /\
    vlink_rcv fb_ethvlink_rx [(true, len, VLINKNLGRP_ETHERNET, add_v)] s1 = Some s2 /\ v_world s2 = inr k'.
Proof.
  destruct (ethvlink_tool_adds plain_machine [118] name_v name0 [53] eth0 carrier plain_core)
    as (s1 & len & s2 & k' & H1 & H2 & H3 & H4 & _); [vd|vd|vd|vd|exact plain_addable|].
  exists s1, len, s2, k'. split; [exact H1|]. split; [exact H2|]. split; [exact H3|exact H4].
Defined.
