(* ===== verification/Process.v ===== *)
(** * A process of the demo application

    The voice demo under app/ is an ordinary user process.  Its state is its
    heap and the calls it has made: to the kernel, to the libraries it is
    linked with (ALSA, CELT, Speex) and to the output functions of the C
    library.  What a call answers is up to the environment, a function of all
    the calls made before and the call itself; it is an argument of the
    development ([Env]).

    A run ends with a value, with [exit], or does something C gives no meaning
    to: an access outside a block, to a freed block or through NULL, a use of
    memory that was never written, an overflow of a signed integer. *)
From Stdlib Require Import ZArith Lia.
From stdpp Require Import base gmap numbers list strings.
From S2P Require Import Prelude CString.

Local Open Scope Z_scope.

(** ** Data *)

(** [struct pollfd]; the events that came are written by [poll], and [None]
    before that in a block that was not cleared. *)
Record pollfd := Pollfd { pfd_fd : Z; pfd_events : Z; pfd_revents : option Z }.

(** [struct alsa_dev] of app/alsa.c *)
Record alsa_dev := AlsaDev {
  ad_name : addr;
  ad_channels : Z;
  ad_period : Z;
  ad_capture_handle : Z;
  ad_playback_handle : Z;
  ad_read_fds : Z;
  ad_read_fd : addr;
  ad_write_fds : Z;
  ad_write_fd : addr;
}.

(** A block of the heap.  [malloc] gives bytes that are not written yet
    ([None]); a block takes the type it is first used with. *)
Inductive block :=
| Bytes (l : list (option Z))
| Dev (d : alsa_dev)
| Fds (l : list (option pollfd)).

(** ** Calls *)

Inductive call :=
(* output *)
| Print_stderr (msg : string)
| Print_stdout (msg : string)
| Print_progress (in_ out : Z)
(* ALSA: hardware parameters *)
| snd_pcm_hw_params_malloc
| snd_pcm_hw_params_any (h p : Z)
| snd_pcm_hw_params_set_access (h p access : Z)
| snd_pcm_hw_params_set_format (h p format : Z)
| snd_pcm_hw_params_set_rate_near (h p rate dir : Z)
| snd_pcm_hw_params_set_channels (h p channels : Z)
| snd_pcm_hw_params_set_period_size_near (h p size dir : Z)
| snd_pcm_hw_params_set_periods (h p periods dir : Z)
| snd_pcm_hw_params_set_buffer_size_near (h p size : Z)
| snd_pcm_hw_params (h p : Z)
| snd_pcm_hw_params_free (p : Z)
(* ALSA: software parameters *)
| snd_pcm_sw_params_malloc
| snd_pcm_sw_params_current (h p : Z)
| snd_pcm_sw_params_set_avail_min (h p n : Z)
| snd_pcm_sw_params_set_start_threshold (h p n : Z)
| snd_pcm_sw_params (h p : Z)
| snd_pcm_sw_params_free (p : Z)
(* ALSA: streams *)
| snd_pcm_open (name : cstr) (stream mode : Z)
| snd_pcm_close (h : Z)
| snd_pcm_link (h1 h2 : Z)
| snd_pcm_prepare (h : Z)
| snd_pcm_start (h : Z)
| snd_pcm_poll_descriptors_count (h : Z)
| snd_pcm_poll_descriptors (h space : Z)
| snd_pcm_poll_descriptors_revents (h : Z) (pfds : list (option pollfd))
| snd_pcm_readi (h len : Z)
| snd_pcm_writei (h : Z) (pcm : list Z) (len : Z)
(* CELT *)
| celt_mode_create (rate frame_size : Z)
| celt_encoder_create (mode channels : Z)
| celt_decoder_create (mode channels : Z)
| celt_encode (enc : Z) (pcm : list Z) (len : Z)
| celt_decode (dec : Z) (data : option (list Z)) (len : Z)
(* Speex *)
| jitter_buffer_init (step : Z)
| jitter_buffer_set_margin (jitter margin : Z)
| jitter_buffer_put (jitter : Z) (data : list Z) (timestamp span sequence : Z)
| jitter_buffer_tick (jitter : Z)
| jitter_buffer_get (jitter len span : Z)
| speex_echo_state_init (frame_size filter_length : Z)
| speex_echo_set_sampling_rate (echo rate : Z)
(* system calls *)
| sys_socket (domain type protocol : Z)
| sys_bind (sd family : Z) (data : list Z)
| sys_ioctl_ifindex (sd : Z) (name : cstr)
| sys_recv (sd len flags : Z)
| sys_sendto (sd : Z) (data : list Z) (flags family : Z) (addr_data : list Z)
| sys_close (sd : Z)
| sys_poll (pfds : list (option pollfd)) (timeout : Z)
| sys_getchar
| sys_dup (fd : Z)
| sys_sched_get_priority_min (policy : Z)
| sys_sched_setscheduler (policy priority : Z)
| sys_setitimer (usec : Z)
| sys_sigaction (signal flags : Z)
(* signals that were delivered since the process last looked *)
| Signals.

(** What a call answers: its result, a number it stores through a pointer, and
    the bytes, samples or descriptors it fills in. *)
Record reply := Reply {
  r_ret : Z;
  r_val : Z;
  r_data : list Z;
  r_fds : list pollfd;
}.

Class Env := env : list call -> call -> reply.

(** ** State and monad *)

Record process := Process {
  p_mem : gmap addr block;
  p_next : addr;
  p_oom : list bool;
  p_calls : list call;
}.

Inductive undefined :=
| Null_pointer
| Bad_pointer (a : addr)
| Out_of_bounds
| Uninitialised
| Signed_overflow
| Wrong_type
| Division_by_zero.

Inductive result (A : Type) :=
| Done (a : A) (p : process)
| Exit (status : Z) (p : process)
| Undef (why : undefined) (p : process).
Arguments Done {A}.
Arguments Exit {A}.
Arguments Undef {A}.

Definition P (A : Type) : Type := process -> result A.

Definition pret {A} (a : A) : P A := fun p => Done a p.
Definition undef {A} (u : undefined) : P A := fun p => Undef u p.
Definition pbind {A B} (m : P A) (f : A -> P B) : P B :=
  fun p => match m p with Done a p' => f a p' | Exit s p' => Exit s p' | Undef u p' => Undef u p' end.

Declare Scope process_scope.
Delimit Scope process_scope with P.
Notation "x <- m ;; c" := (pbind m (fun x => c))
  (at level 100, m at next level, right associativity) : process_scope.
Notation "m ;; c" := (pbind m (fun _ => c))
  (at level 100, right associativity) : process_scope.
Notation "'when' b 'do' m" := (if b then m else pret tt)
  (at level 60, right associativity) : process_scope.
Local Open Scope process_scope.

Definition with_mem (f : gmap addr block -> gmap addr block) (p : process) : process :=
  Process (f (p_mem p)) (p_next p) (p_oom p) (p_calls p).
Definition with_call (c : call) (p : process) : process :=
  Process (p_mem p) (p_next p) (p_oom p) (p_calls p ++ [c]).

Definition do_call `{Env} (c : call) : P reply :=
  fun p => Done (env (p_calls p) c) (with_call c p).

(** [exit (EXIT_FAILURE)] *)
Definition EXIT_FAILURE : Z := 1.
Definition exit {A} (status : Z) : P A := fun p => Exit status p.

(** ** Memory *)

Definition size_max : Z := 2 ^ 64 - 1.

(** Sizes of the structs on a 64-bit machine. *)
Definition pollfd_size : Z := 8.
Definition alsa_dev_size : Z := 64.
Definition short_size : Z := 2.

Definition block_size (b : block) : Z :=
  match b with
  | Bytes l => Z.of_nat (length l)
  | Dev _ => alsa_dev_size
  | Fds l => pollfd_size * Z.of_nat (length l)
  end.

(** The first multiple of [n] from [a] on. *)
Definition align (n a : Z) : Z := (a + n - 1) / n * n.

(** The allocator: [p_oom] tells which of the next requests fail; addresses
    are handed out once, at a multiple of [n], and blocks do not overlap. *)
Definition allocated (n : Z) (size : Z) (p : process) : process :=
  let a := align n (p_next p) in
  Process (<[a := Bytes (replicate (Z.to_nat size) None)]> (p_mem p)) (a + size) (tail (p_oom p)) (p_calls p).
Definition refused (p : process) : process :=
  Process (p_mem p) (p_next p) (tail (p_oom p)) (p_calls p).
Definition no_memory (p : process) : bool := default false (head (p_oom p)).

Definition alloc (n size : Z) : P addr := fun p =>
  if no_memory p then Done 0 (refused p) else Done (align n (p_next p)) (allocated n size p).

Definition malloc (size : Z) : P addr := alloc 16 size.
Definition valloc (size : Z) : P addr := alloc 4096 size.

Definition is_pow2 (n : Z) : bool := (0 <? n) && (Z.land n (n - 1) =? 0).

(** [posix_memalign]: the error and the pointer. *)
Definition posix_memalign (alignment size : Z) : P (Z * addr) :=
  if negb (is_pow2 alignment) || negb (alignment mod 8 =? 0) then pret (EINVAL, 0)
  else a <- alloc alignment size;; pret (if a =? 0 then ENOMEM else 0, a).

Definition get_block (a : addr) : P block := fun p =>
  if a =? 0 then Undef Null_pointer p
  else match p_mem p !! a with Some b => Done b p | None => Undef (Bad_pointer a) p end.
Definition set_block (a : addr) (b : block) : P unit := fun p => Done tt (with_mem <[a := b]> p).

(** [free]: nothing for NULL. *)
Definition free (a : addr) : P unit :=
  if a =? 0 then pret tt
  else get_block a;; fun p => Done tt (with_mem (delete a) p).

Definition get_bytes (a : addr) : P (list (option Z)) :=
  b <- get_block a;; match b with Bytes l => pret l | _ => undef Wrong_type end.

(** [n] bytes at [a + off], and storing bytes there. *)
Definition read_at (a : addr) (off n : Z) : P (list (option Z)) :=
  l <- get_bytes a;;
  if (off <? 0) || (n <? 0) || (Z.of_nat (length l) <? off + n) then undef Out_of_bounds
  else pret (take (Z.to_nat n) (drop (Z.to_nat off) l)).

Definition put_at (l : list (option Z)) (off : nat) (v : list (option Z)) : list (option Z) :=
  take off l ++ v ++ drop (off + length v) l.

Definition write_at (a : addr) (off : Z) (v : list (option Z)) : P unit :=
  l <- get_bytes a;;
  if (off <? 0) || (Z.of_nat (length l) <? off + Z.of_nat (length v)) then undef Out_of_bounds
  else set_block a (Bytes (put_at l (Z.to_nat off) v)).

(** [memcpy] between two blocks. *)
Definition memcpy (dest src : addr) (n : Z) : P addr :=
  if (dest =? src) && (0 <? n) then undef Out_of_bounds
  else v <- read_at src 0 n;; write_at dest 0 v;; pret dest.

Definition memset (dest : addr) (c n : Z) : P unit :=
  write_at dest 0 (replicate (Z.to_nat n) (Some c)).

(** [realloc] to [size] bytes: the contents move, the rest is not written. *)
Definition realloc (a size : Z) : P addr :=
  l <- get_bytes a;;
  b <- malloc size;;
  if b =? 0 then pret 0
  else
    write_at b 0 (take (Z.to_nat size) l);;
    free a;;
    pret b.

(** The number of bytes before the NUL. *)
Fixpoint scan_nul (l : list (option Z)) : undefined + nat :=
  match l with
  | [] => inl Out_of_bounds
  | None :: _ => inl Uninitialised
  | Some b :: l' =>
      if b =? 0 then inr 0%nat
      else match scan_nul l' with inr n => inr (S n) | inl u => inl u end
  end.

Definition strlen (a : addr) : P Z :=
  l <- get_bytes a;;
  match scan_nul l with inr n => pret (Z.of_nat n) | inl u => undef u end.

(** ** Rules *)

Lemma pbind_run {A B} (m : P A) (f : A -> P B) p a p' : m p = Done a p' -> pbind m f p = f a p'.
Proof. unfold pbind. by intros ->. Qed.

Lemma pbind_exit {A B} (m : P A) (f : A -> P B) p s p' : m p = Exit s p' -> pbind m f p = Exit s p'.
Proof. unfold pbind. by intros ->. Qed.

Lemma pbind_undef {A B} (m : P A) (f : A -> P B) p u p' : m p = Undef u p' -> pbind m f p = Undef u p'.
Proof. unfold pbind. by intros ->. Qed.

Lemma pbind_assoc {A B C} (m : P A) (f : A -> P B) (g : B -> P C) p :
  pbind (pbind m f) g p = pbind m (fun a => pbind (f a) g) p.
Proof. unfold pbind. by destruct (m p). Qed.

(** The other ends of a run. *)
Inductive ending := Exited (status : Z) | Undefined (why : undefined).

(** [pwp m Q E p]: the run of [m] from [p] ends in a value and a state of [Q],
    or otherwise, in a state of [E]. *)
Definition pwp {A} (m : P A) (Q : A -> process -> Prop) (E : ending -> process -> Prop) (p : process) : Prop :=
  match m p with Done a p' => Q a p' | Exit s p' => E (Exited s) p' | Undef u p' => E (Undefined u) p' end.

Lemma pwp_bind {A B} (m : P A) (f : A -> P B) Q E p :
  pwp m (fun a => pwp (f a) Q E) E p -> pwp (pbind m f) Q E p.
Proof. unfold pwp, pbind. by destruct (m p). Qed.

Lemma pwp_mono {A} (m : P A) (Q Q' : A -> process -> Prop) (E E' : ending -> process -> Prop) p :
  pwp m Q E p -> (forall a p', Q a p' -> Q' a p') -> (forall s p', E s p' -> E' s p') -> pwp m Q' E' p.
Proof. unfold pwp. destruct (m p); auto. Qed.

Lemma pwp_run {A} (m : P A) Q p :
  pwp m Q (fun _ _ => False) p <-> exists a p', m p = Done a p' /\ Q a p'.
Proof.
  unfold pwp. destruct (m p) as [a p'|s p'|u p']; split; try done; [eauto| |by intros (? & ? & ? & ?)..].
  by intros (? & ? & [= -> ->] & ?).
Qed.

Lemma pwp_of_run {A} (m : P A) (Q : A -> process -> Prop) E p a p' : m p = Done a p' -> Q a p' -> pwp m Q E p.
Proof. unfold pwp. by intros ->. Qed.

Lemma align_spec n a : 0 < n -> a <= align n a < a + n /\ align n a mod n = 0.
Proof.
  intros Hn. unfold align. rewrite Z_mod_mult. split; [|done].
  pose proof (Z.div_mod (a + n - 1) n ltac:(lia)). pose proof (Z.mod_pos_bound (a + n - 1) n Hn). nia.
Qed.

(** Blocks lie below [p_next] and none is empty. *)
Definition heap_ok (p : process) : Prop :=
  0 < p_next p /\
  forall a b, p_mem p !! a = Some b -> 0 < a /\ 0 < block_size b /\ a + block_size b <= p_next p.

(** A block that is handed out is new, and the heap stays in order. *)
Lemma heap_fresh p n : heap_ok p -> 0 < n -> align n (p_next p) <> 0 /\ p_mem p !! align n (p_next p) = None.
Proof.
  intros [H0 H] Hn. destruct (align_spec n (p_next p) Hn) as [? _]. split; [lia|].
  destruct (p_mem p !! _) as [b|] eqn:Hb; [|done]. apply H in Hb. lia.
Qed.

Lemma allocated_ok p n size : heap_ok p -> 0 < n -> 0 < size -> heap_ok (allocated n size p).
Proof.
  intros [H0 H] Hn Hs. destruct (align_spec n (p_next p) Hn) as [? _].
  split; simpl; [lia|]. intros a b [[<- <-]|[? Hb]]%lookup_insert_Some; simpl.
  - rewrite length_replicate. lia.
  - apply H in Hb. lia.
Qed.

(** A block can be given another contents that is not larger. *)
Lemma heap_set p a b b' :
  heap_ok p -> p_mem p !! a = Some b -> 0 < block_size b' <= block_size b -> heap_ok (with_mem <[a := b']> p).
Proof.
  intros [H0 H1] Hb Hsz. split; [done|]. intros a' b''. simpl.
  intros [[<- <-]|[? Hb']]%lookup_insert_Some; [|by apply H1]. destruct (H1 _ _ Hb). lia.
Qed.

Lemma get_bytes_run p a l : a <> 0 -> p_mem p !! a = Some (Bytes l) -> get_bytes a p = Done l p.
Proof.
  intros Ha Hl. unfold get_bytes, pbind, get_block. destruct (Z.eqb_spec a 0); [done|]. by rewrite Hl.
Qed.

Lemma read_at_run p a l off n :
  a <> 0 -> p_mem p !! a = Some (Bytes l) -> 0 <= off -> 0 <= n -> off + n <= Z.of_nat (length l) ->
  read_at a off n p = Done (take (Z.to_nat n) (drop (Z.to_nat off) l)) p.
Proof.
  intros Ha Hl Ho Hn Hb. unfold read_at. rewrite (pbind_run _ _ _ _ _ (get_bytes_run _ _ _ Ha Hl)).
  destruct (Z.ltb_spec off 0), (Z.ltb_spec n 0), (Z.ltb_spec (Z.of_nat (length l)) (off + n)); simpl; try lia. done.
Qed.

Lemma write_at_run p a l off v :
  a <> 0 -> p_mem p !! a = Some (Bytes l) -> 0 <= off -> off + Z.of_nat (length v) <= Z.of_nat (length l) ->
  write_at a off v p = Done tt (with_mem <[a := Bytes (put_at l (Z.to_nat off) v)]> p).
Proof.
  intros Ha Hl Ho Hb. unfold write_at. rewrite (pbind_run _ _ _ _ _ (get_bytes_run _ _ _ Ha Hl)).
  destruct (Z.ltb_spec off 0), (Z.ltb_spec (Z.of_nat (length l)) (off + Z.of_nat (length v))); simpl; try lia. done.
Qed.

Lemma put_at_0 l v : length l = length v -> put_at l 0 v = v.
Proof. intros Hl. unfold put_at. rewrite take_0, drop_ge by (simpl; lia). simpl. by rewrite app_nil_r. Qed.

Lemma free_run p a b : a <> 0 -> p_mem p !! a = Some b -> free a p = Done tt (with_mem (delete a) p).
Proof.
  intros Ha Hb. unfold free, pbind, get_block. destruct (Z.eqb_spec a 0); [done|]. by rewrite Hb.
Qed.

Lemma scan_nul_str s rest : cstr_ok s -> scan_nul ((Some <$> s) ++ Some 0 :: rest) = inr (length s).
Proof.
  induction 1 as [|b s Hb _ IH]; csimpl; [done|]. destruct (Z.eqb_spec b 0); [lia|]. by rewrite IH.
Qed.

(** The string [s] is at [a]. *)
Definition str_at (p : process) (a : addr) (s : cstr) : Prop :=
  a <> 0 /\ cstr_ok s /\ exists rest, p_mem p !! a = Some (Bytes ((Some <$> s) ++ Some 0 :: rest)).

Lemma strlen_run p a s : str_at p a s -> strlen a p = Done (Z.of_nat (length s)) p.
Proof.
  intros (Ha & Hs & rest & Hl). unfold strlen. rewrite (pbind_run _ _ _ _ _ (get_bytes_run _ _ _ Ha Hl)).
  cbv beta. by rewrite scan_nul_str.
Qed.
