(* ===== verification/XMalloc.v ===== *)
(** * Memory and strings of the demo application (app/xmalloc.c,
      app/strlcpy.c, app/die.h)

    Allocation functions that return memory or end the program.  The theorems
    say which of the two, and what is in the memory. *)
From Stdlib Require Import ZArith Lia.
From stdpp Require Import base gmap numbers list strings.
From S2P Require Import Prelude CString Process.

Local Open Scope Z_scope.
Local Open Scope process_scope.

Section xmalloc.
Context `{Env}.

(** ** die.h *)

Definition die {A} : P A := exit EXIT_FAILURE.

Definition whine (msg : string) : P unit := do_call (Print_stderr msg);; pret tt.
Definition info (msg : string) : P unit := do_call (Print_stdout msg);; pret tt.

Definition panic {A} (msg : string) : P A := do_call (Print_stderr msg);; die.

Definition BUG_ON (cond : bool) (msg : string) : P unit :=
  if cond then whine "BUG: ";; do_call (Print_stderr msg);; die else pret tt.

(** ** strlcpy.c *)

Definition app_strlcpy (dest src : addr) (size : Z) : P Z :=
  ret <- strlen src;;
  (if negb (size =? 0) then
     let len := if size <=? ret then size - 1 else ret in
     memcpy dest src len;;
     write_at dest len [Some 0]
   else pret tt);;
  pret ret.

(** ** xmalloc.c

    [size_t] has 64 bits. *)

Definition xmalloc (size : Z) : P addr :=
  (when size =? 0 do panic "xmalloc: zero size");;
  ptr <- malloc size;;
  (when ptr =? 0 do panic "xmalloc: out of memory (allocating %zu bytes)");;
  pret ptr.

Definition xvalloc (size : Z) : P addr :=
  (when size =? 0 do panic "xmalloc: zero size");;
  ptr <- valloc size;;
  (when ptr =? 0 do panic "xvalloc: out of memory (allocating %zu bytes)");;
  pret ptr.

Definition xzmalloc (size : Z) : P addr :=
  (when size =? 0 do panic "xzmalloc: zero size");;
  ptr <- malloc size;;
  (when ptr =? 0 do panic "xzmalloc: out of memory (allocating %zu bytes)");;
  memset ptr 0 size;;
  pret ptr.

Definition xmalloc_aligned (size alignment : Z) : P addr :=
  (when size =? 0 do panic "xmalloc_aligned: zero size");;
  x <- posix_memalign alignment size;;
  (when negb (x.1 =? 0) do panic "xmalloc_aligned: out of memory (allocating %zu bytes)");;
  pret x.2.

Definition xmallocz (size : Z) : P addr :=
  (when u64 (size + 1) <? size do panic "xmallocz: data too large to fit into virtual memory space");;
  ptr <- xmalloc (u64 (size + 1));;
  write_at ptr size [Some 0];;
  pret ptr.

Definition xmemdupz (data : addr) (len : Z) : P addr :=
  ptr <- xmallocz len;;
  memcpy ptr data len.

Definition SIZE_T_MAX : Z := size_max.

Definition xrealloc (ptr : addr) (nmemb size : Z) : P addr :=
  let new_size := u64 (nmemb * size) in
  (when new_size =? 0 do panic "xrealloc: zero size");;
  (if nmemb =? 0 then undef Division_by_zero
   else when SIZE_T_MAX / nmemb <? size do panic "xrealloc: nmemb * size > SIZE_T_MAX");;
  new_ptr <- (if ptr =? 0 then malloc new_size else realloc ptr new_size);;
  (when new_ptr =? 0 do panic "xrealloc: out of memory (size %zu bytes)");;
  pret new_ptr.

Definition xfree (ptr : addr) : P unit :=
  (when ptr =? 0 do panic "xfree: NULL pointer given as argument");;
  free ptr.

Definition xstrdup (str : addr) : P addr :=
  n <- strlen str;;
  let len := u64 (n + 1) in
  cp <- xmalloc len;;
  app_strlcpy cp str len;;
  pret cp.

Definition xstrndup (str : addr) (size : Z) : P addr :=
  n <- strlen str;;
  let len := u64 (n + 1) in
  let len := if size <? len then size else len in
  cp <- xmalloc len;;
  app_strlcpy cp str len;;
  pret cp.

Definition xdup (fd : Z) : P Z :=
  r <- do_call (sys_dup fd);;
  (when r_ret r <? 0 do panic "xdup: dup failed");;
  pret (r_ret r).

(** ** What the functions do *)

(** The program prints [msg] and ends with status 1. *)
Definition dies {A} (msg : string) (p : process) : result A := Exit EXIT_FAILURE (with_call (Print_stderr msg) p).

Lemma panic_run {A} msg p : panic (A:=A) msg p = dies msg p.
Proof. done. Qed.

Lemma alloc_run n size p :
  alloc n size p = if no_memory p then Done 0 (refused p) else Done (align n (p_next p)) (allocated n size p).
Proof. done. Qed.

(** Every allocation function dies for a size of 0 or when there is no memory;
    otherwise it returns the new block. *)
Lemma xmalloc_run size p :
  heap_ok p ->
  xmalloc size p =
    if size =? 0 then dies "xmalloc: zero size" p
    else if no_memory p then dies "xmalloc: out of memory (allocating %zu bytes)" (refused p)
    else Done (align 16 (p_next p)) (allocated 16 size p).
Proof.
  intros Hok. unfold xmalloc. destruct (size =? 0); [done|]. unfold pbind at 1. simpl.
  unfold pbind at 1, malloc. rewrite alloc_run. destruct (no_memory p); [done|].
  destruct (heap_fresh p 16 Hok ltac:(lia)) as [Hne _]. by rewrite (proj2 (Z.eqb_neq _ _) Hne).
Qed.

Lemma xvalloc_run size p :
  heap_ok p ->
  xvalloc size p =
    if size =? 0 then dies "xmalloc: zero size" p
    else if no_memory p then dies "xvalloc: out of memory (allocating %zu bytes)" (refused p)
    else Done (align 4096 (p_next p)) (allocated 4096 size p).
Proof.
  intros Hok. unfold xvalloc. destruct (size =? 0); [done|]. unfold pbind at 1. simpl.
  unfold pbind at 1, valloc. rewrite alloc_run. destruct (no_memory p); [done|].
  destruct (heap_fresh p 4096 Hok ltac:(lia)) as [Hne _]. by rewrite (proj2 (Z.eqb_neq _ _) Hne).
Qed.

(** The state after a new block was filled. *)
Definition filled (n : Z) (l : list (option Z)) (p : process) : process :=
  with_mem <[align n (p_next p) := Bytes l]> (allocated n (Z.of_nat (length l)) p).

Lemma filled_ok n l p : heap_ok p -> 0 < n -> (0 < length l)%nat -> heap_ok (filled n l p).
Proof.
  intros Hok Hn Hl. unfold filled. eapply heap_set; [apply allocated_ok; [done..|lia]|apply lookup_insert_eq|].
  simpl. rewrite length_replicate. lia.
Qed.

Lemma fill_run n size l p :
  heap_ok p -> 0 < n -> size = Z.of_nat (length l) ->
  write_at (align n (p_next p)) 0 l (allocated n size p) = Done tt (filled n l p).
Proof.
  intros Hok Hn ->. destruct (heap_fresh p n Hok Hn) as [Hne _].
  erewrite write_at_run; [|done|apply lookup_insert_eq|lia|by rewrite length_replicate; lia].
  unfold filled. rewrite put_at_0; [done|]. rewrite length_replicate. lia.
Qed.

Lemma xzmalloc_run size p :
  heap_ok p -> 0 <= size ->
  xzmalloc size p =
    if size =? 0 then dies "xzmalloc: zero size" p
    else if no_memory p then dies "xzmalloc: out of memory (allocating %zu bytes)" (refused p)
    else Done (align 16 (p_next p)) (filled 16 (replicate (Z.to_nat size) (Some 0)) p).
Proof.
  intros Hok Hs. unfold xzmalloc. destruct (size =? 0); [done|]. unfold pbind at 1. simpl.
  unfold pbind at 1, malloc. rewrite alloc_run. destruct (no_memory p); [done|].
  destruct (heap_fresh p 16 Hok ltac:(lia)) as [Hne _]. rewrite (proj2 (Z.eqb_neq _ _) Hne).
  unfold memset. unfold pbind at 1. simpl.
  erewrite pbind_run; [|apply fill_run; [done|lia|rewrite length_replicate; lia]]. done.
Qed.

Lemma xfree_run a b p :
  a <> 0 -> p_mem p !! a = Some b -> xfree a p = Done tt (with_mem (delete a) p).
Proof.
  intros Ha Hb. unfold xfree. rewrite (proj2 (Z.eqb_neq _ _) Ha). unfold pbind. simpl. by eapply free_run.
Qed.

(** *** Strings *)

(** [strlcpy] on memory: the source cut to the room, a NUL, and the rest of
    the destination as it was. *)
Lemma app_strlcpy_run dest src size str ld p :
  str_at p src str -> dest <> 0 -> dest <> src -> p_mem p !! dest = Some (Bytes ld) ->
  0 < size <= Z.of_nat (length ld) ->
  let len := Nat.min (Z.to_nat (size - 1)) (length str) in
  app_strlcpy dest src size p =
    Done (Z.of_nat (length str))
      (with_mem <[dest := Bytes ((Some <$> take len str) ++ Some 0 :: drop (len + 1) ld)]> p).
Proof.
  intros Hs Hd Hne Hld Hsz len. unfold app_strlcpy.
  rewrite (pbind_run _ _ _ _ _ (strlen_run _ _ _ Hs)). cbv beta.
  destruct (Z.eqb_spec size 0); [lia|]. cbn [negb].
  assert (Hlen : (if size <=? Z.of_nat (length str) then size - 1 else Z.of_nat (length str)) = Z.of_nat len).
  { unfold len. case_bool; lia. }
  rewrite Hlen. destruct Hs as (Hs0 & Hok & rest & Hsrc).
  assert (Hl : (len <= length str)%nat) by lia.
  unfold pbind at 1. unfold pbind at 1. unfold memcpy. rewrite (proj2 (Z.eqb_neq _ _) Hne). cbn [andb].
  erewrite pbind_run; [|eapply read_at_run; [done|done|lia|lia|rewrite length_app, length_fmap; lia]].
  rewrite Nat2Z.id, drop_0, take_app_le by (rewrite length_fmap; lia).
  rewrite <- fmap_take.
  assert (Hlt : length (Some <$> take len str) = len) by (rewrite length_fmap, length_take; lia).
  erewrite pbind_run; [|eapply write_at_run; [done|done|lia|rewrite Hlt; lia]].
  unfold pret at 1.
  erewrite write_at_run; [|done|apply lookup_insert_eq|lia|].
  - unfold with_mem. simpl. rewrite insert_insert_eq. do 4 f_equal. unfold put_at. cbn [Z.to_nat].
    rewrite take_0, Hlt, Nat2Z.id. cbn [app length Nat.add].
    rewrite take_app_le, take_ge by lia. f_equal. f_equal.
    replace (len + 1)%nat with (length (Some <$> take len str) + 1)%nat at 1 by lia.
    rewrite drop_app_add, drop_drop. done.
  - unfold put_at. rewrite !length_app, length_take, length_drop, Hlt. simpl. lia.
Qed.

(** On a buffer of bytes it is [strlcpy] of CString. *)
Lemma app_strlcpy_refines dest src size str buf p :
  str_at p src str -> dest <> 0 -> dest <> src -> p_mem p !! dest = Some (Bytes (Some <$> buf)) ->
  0 < size <= Z.of_nat (length buf) ->
  app_strlcpy dest src size p =
    Done (Z.of_nat (strlcpy buf str (Z.to_nat size)).1)
      (with_mem <[dest := Bytes (Some <$> (strlcpy buf str (Z.to_nat size)).2)]> p).
Proof.
  intros Hs Hd Hne Hb Hsz.
  erewrite app_strlcpy_run; [|done..|by rewrite length_fmap]. unfold strlcpy.
  destruct (Nat.eqb_spec (Z.to_nat size) 0); [lia|]. cbn [fst snd].
  rewrite !fmap_app, fmap_drop. cbn [fmap list_fmap app].
  replace (if (Z.to_nat size <=? length str)%nat then (Z.to_nat size - 1)%nat else length str)
    with (Nat.min (Z.to_nat (size - 1)) (length str)) by (case_bool; lia). done.
Qed.

(** The state after a new block was written by [strlcpy]. *)
Lemma dup_run str s len p :
  heap_ok p -> str_at p str s -> 0 < len -> (Z.to_nat len <= length s + 1)%nat ->
  (cp <- xmalloc len;; app_strlcpy cp str len;; pret cp) p =
    if no_memory p then dies "xmalloc: out of memory (allocating %zu bytes)" (refused p)
    else Done (align 16 (p_next p)) (filled 16 (Some <$> (take (Z.to_nat len - 1) s ++ [0])) p).
Proof.
  intros Hok Hs Hl Hls. unfold pbind at 1. rewrite (xmalloc_run _ _ Hok).
  destruct (Z.eqb_spec len 0); [lia|]. destruct (no_memory p); [done|].
  destruct (heap_fresh p 16 Hok ltac:(lia)) as [Hne Hnew]. set (a := align 16 (p_next p)) in *.
  assert (Has : a <> str). { intros Heq. destruct Hs as (_ & _ & r & Hr). by rewrite <- Heq, Hnew in Hr. }
  erewrite pbind_run; [|apply (app_strlcpy_run a str len s (replicate (Z.to_nat len) None))].
  - unfold pret, filled. fold a. rewrite length_fmap, length_app, length_take.
    rewrite Nat.min_l by lia. unfold with_mem, allocated. fold a. simpl. rewrite !insert_insert_eq.
    rewrite fmap_app, drop_ge by (rewrite length_replicate; lia).
    rewrite Nat.min_l by lia. f_equal. f_equal; [|lia]. do 5 f_equal. lia.
  - destruct Hs as (? & ? & r & Hr). split; [done|]. split; [done|]. exists r. simpl. fold a.
    by rewrite lookup_insert_ne.
  - done.
  - done.
  - apply lookup_insert_eq.
  - rewrite length_replicate. lia.
Qed.

(** [xstrdup] returns a new block with exactly the string and its NUL.
    [xstrndup] returns one with the string cut to [size - 1] characters, so
    that block and NUL fit into [size] bytes, and ends the program for a size
    of 0; both end it when there is no memory.  No other block changes. *)
Theorem xstrdup_correct str s size p :
  heap_ok p -> str_at p str s -> Z.of_nat (length s) < size_max -> 0 <= size < 2 ^ 64 ->
  xstrdup str p =
    (if no_memory p then dies "xmalloc: out of memory (allocating %zu bytes)" (refused p)
     else Done (align 16 (p_next p)) (filled 16 (Some <$> (s ++ [0])) p)) /\
  xstrndup str size p =
    (if size =? 0 then dies "xmalloc: zero size" p
     else if no_memory p then dies "xmalloc: out of memory (allocating %zu bytes)" (refused p)
     else Done (align 16 (p_next p)) (filled 16 (Some <$> (take (Z.to_nat size - 1) s ++ [0])) p)).
Proof.
  intros Hok Hs Hsm Hsz. unfold xstrdup, xstrndup.
  rewrite !(pbind_run _ _ _ _ _ (strlen_run _ _ _ Hs)). cbv beta zeta.
  unfold size_max in Hsm. rewrite u64_small by lia. split.
  - rewrite (dup_run str s) by (done || lia). replace (Z.to_nat _ - 1)%nat with (length s) by lia.
    by rewrite take_ge.
  - destruct (Z.eqb_spec size 0) as [->|Hne].
    + destruct (Z.ltb_spec 0 (Z.of_nat (length s) + 1)); [|lia].
      unfold pbind at 1. by rewrite (xmalloc_run _ _ Hok).
    + case_bool; rewrite (dup_run str s) by (done || lia); [done|].
      by rewrite !(take_ge s) by lia.
Qed.

(** *** Sizes that do not fit *)

(** The test of [xrealloc] is exact: a product above [SIZE_T_MAX] is found by
    the division. *)
Lemma product_fits nmemb size :
  0 < nmemb < 2 ^ 64 -> 0 <= size < 2 ^ 64 -> (SIZE_T_MAX / nmemb <? size) = (2 ^ 64 <=? nmemb * size).
Proof.
  intros Hn Hs. unfold SIZE_T_MAX, size_max.
  pose proof (Z.div_mod (2 ^ 64 - 1) nmemb ltac:(lia)). pose proof (Z.mod_pos_bound (2 ^ 64 - 1) nmemb ltac:(lia)).
  destruct (Z.ltb_spec ((2 ^ 64 - 1) / nmemb) size), (Z.leb_spec (2 ^ 64) (nmemb * size)); try done; nia.
Qed.

(** The contents after a change of the size to [n]. *)
Definition resized (l : list (option Z)) (n : nat) : list (option Z) :=
  take n l ++ replicate (n - length l) None.

Lemma put_at_resized l n : put_at (replicate n None) 0 (take n l) = resized l n.
Proof.
  unfold put_at, resized. rewrite take_0, length_take, drop_replicate. simpl. f_equal. f_equal. lia.
Qed.

(** C39: [xrealloc] of [nmemb] elements never returns a block that is too
    small: it dies if the product is 0 or does not fit into 64 bits (and never
    divides by 0), or if there is no memory; otherwise the new block has exactly
    [nmemb * size] bytes, the first ones those of the old block, which is
    freed. *)
Theorem xrealloc_correct ptr l nmemb size p :
  heap_ok p -> 0 <= nmemb < 2 ^ 64 -> 0 <= size < 2 ^ 64 ->
  (ptr = 0 /\ l = [] \/ ptr <> 0 /\ p_mem p !! ptr = Some (Bytes l)) ->
  let n := nmemb * size in
  let a := align 16 (p_next p) in
  xrealloc ptr nmemb size p =
    if n mod 2 ^ 64 =? 0 then dies "xrealloc: zero size" p
    else if 2 ^ 64 <=? n then dies "xrealloc: nmemb * size > SIZE_T_MAX" p
    else if no_memory p then dies "xrealloc: out of memory (size %zu bytes)" (refused p)
    else Done a (Process (<[a := Bytes (resized l (Z.to_nat n))]> (delete ptr (p_mem p)))
                   (a + n) (tail (p_oom p)) (p_calls p)).
Proof.
  intros Hok Hn Hs Hptr n a. unfold xrealloc. fold n. change (u64 n) with (n mod 2 ^ 64).
  destruct (Z.eqb_spec (n mod 2 ^ 64) 0) as [_|Hz]; [done|].
  assert (Hnm : nmemb <> 0) by (intros ->; apply Hz; unfold n; by rewrite Z.mul_0_l).
  rewrite (proj2 (Z.eqb_neq _ _) Hnm), product_fits by lia. fold n.
  unfold pbind at 1. unfold pbind at 1. destruct (Z.leb_spec (2 ^ 64) n) as [_|Hfit]; [done|].
  rewrite Z.mod_small in * by (unfold n; nia).
  destruct (heap_fresh p 16 Hok ltac:(lia)) as [Hne Hnew]. fold a in Hne, Hnew.
  assert (Hn0 : 0 < n) by (unfold n in *; nia). cbn [pret].
  destruct Hptr as [[-> ->]|[Hp Hl]].
  - rewrite Z.eqb_refl. unfold pbind at 1, malloc. rewrite alloc_run. destruct (no_memory p); [done|].
    fold a. rewrite (proj2 (Z.eqb_neq _ _) Hne). unfold pbind, pret. f_equal.
    unfold allocated. fold a. f_equal. unfold resized. rewrite take_nil. simpl. rewrite Nat.sub_0_r.
    rewrite delete_id; [done|]. destruct (p_mem p !! 0) as [b|] eqn:Hb; [|done]. apply Hok in Hb. lia.
  - rewrite (proj2 (Z.eqb_neq _ _) Hp). unfold realloc.
    assert (Hap : a <> ptr) by (intros Heq; by rewrite <- Heq, Hnew in Hl).
    rewrite pbind_assoc, (pbind_run _ _ _ _ _ (get_bytes_run _ _ _ Hp Hl)), pbind_assoc.
    unfold pbind at 1, malloc. rewrite alloc_run. destruct (no_memory p); [done|].
    fold a. rewrite (proj2 (Z.eqb_neq _ _) Hne). rewrite pbind_assoc.
    erewrite pbind_run; [|apply (write_at_run _ a (replicate (Z.to_nat n) None)); [done|apply lookup_insert_eq|lia|]].
    2: { rewrite length_take, length_replicate. lia. }
    rewrite pbind_assoc. erewrite pbind_run; [|apply (free_run _ _ (Bytes l)); [done|]].
    2: { simpl. fold a. by rewrite !lookup_insert_ne. }
    unfold pbind, pret. rewrite (proj2 (Z.eqb_neq _ _) Hne). f_equal. unfold with_mem, allocated. simpl. fold a.
    f_equal. rewrite insert_insert_eq, put_at_resized. by rewrite delete_insert_ne.
Qed.

(** [xmemdupz] returns a copy with a NUL behind it; the one length whose block
    would have 2^64 bytes is refused. *)
Lemma xmemdupz_correct data l len p :
  heap_ok p -> data <> 0 -> p_mem p !! data = Some (Bytes l) -> 0 <= len <= Z.of_nat (length l) -> len < 2 ^ 64 ->
  xmemdupz data len p =
    if len =? size_max then dies "xmallocz: data too large to fit into virtual memory space" p
    else if no_memory p then dies "xmalloc: out of memory (allocating %zu bytes)" (refused p)
    else Done (align 16 (p_next p)) (filled 16 (take (Z.to_nat len) l ++ [Some 0]) p).
Proof.
  intros Hok Hd Hl Hlen Hlt. unfold xmemdupz, xmallocz, size_max.
  destruct (Z.eqb_spec len (2 ^ 64 - 1)) as [->|Hne0]; [done|].
  rewrite u64_small by lia. rewrite (proj2 (Z.ltb_ge _ _)) by lia.
  rewrite pbind_assoc. unfold pbind at 1. cbn [pret].
  rewrite pbind_assoc. unfold pbind at 1. rewrite (xmalloc_run _ _ Hok).
  rewrite (proj2 (Z.eqb_neq (len + 1) 0)) by lia. destruct (no_memory p); [done|].
  destruct (heap_fresh p 16 Hok ltac:(lia)) as [Hne Hnew]. set (a := align 16 (p_next p)) in *.
  assert (Had : a <> data) by (intros Heq; by rewrite <- Heq, Hnew in Hl).
  rewrite pbind_assoc. erewrite pbind_run.
  2: { apply (write_at_run _ a (replicate (Z.to_nat (len + 1)) None)); [done|apply lookup_insert_eq|lia|].
       rewrite length_replicate. simpl. lia. }
  unfold pbind at 1. cbn [pret]. unfold memcpy. rewrite (proj2 (Z.eqb_neq _ _) Had). cbn [andb].
  assert (Hlt' : length (take (Z.to_nat len) l) = Z.to_nat len) by (rewrite length_take; lia).
  erewrite pbind_run; [|apply (read_at_run _ data l); [done| |lia..]].
  2: { simpl. fold a. by rewrite !lookup_insert_ne. }
  erewrite pbind_run; [|eapply write_at_run; [done|apply lookup_insert_eq|lia|]].
  2: { unfold put_at. rewrite drop_0, Hlt', !length_app, length_take, length_drop, length_replicate. simpl. lia. }
  unfold pret, filled, with_mem, allocated. fold a. simpl. rewrite !insert_insert_eq, length_app, Hlt'.
  f_equal. f_equal; [|simpl; lia]. do 2 f_equal. unfold put_at at 1. rewrite drop_0, Hlt'. simpl.
  f_equal. unfold put_at. rewrite take_replicate, drop_app_length' by (rewrite length_replicate; lia).
  simpl. by rewrite drop_ge by (rewrite length_replicate; lia).
Qed.

(** [xmalloc_aligned] returns an aligned block; an alignment that is not a
    power of two, or not a multiple of the size of a pointer, ends the program
    with the message about memory. *)
Lemma xmalloc_aligned_correct size alignment p :
  heap_ok p -> size <> 0 ->
  xmalloc_aligned size alignment p =
    (if negb (is_pow2 alignment) || negb (alignment mod 8 =? 0)
     then dies "xmalloc_aligned: out of memory (allocating %zu bytes)" p
     else if no_memory p then dies "xmalloc_aligned: out of memory (allocating %zu bytes)" (refused p)
     else Done (align alignment (p_next p)) (allocated alignment size p)) /\
  (is_pow2 alignment = true -> align alignment (p_next p) mod alignment = 0).
Proof.
  intros Hok Hs. split.
  - unfold xmalloc_aligned, posix_memalign. rewrite (proj2 (Z.eqb_neq _ _) Hs). unfold pbind at 1. cbn [pret].
    destruct (is_pow2 alignment) eqn:Hp; [|done]. destruct (alignment mod 8 =? 0); [|done].
    unfold is_pow2 in Hp. apply andb_true_iff in Hp as [?%Z.ltb_lt _]. cbn [negb orb].
    rewrite pbind_assoc. unfold pbind at 1. rewrite alloc_run. destruct (no_memory p); [done|].
    destruct (heap_fresh p alignment Hok ltac:(lia)) as [Hne _].
    unfold pbind at 1. cbn [pret fst snd]. by rewrite (proj2 (Z.eqb_neq _ _) Hne).
  - intros Hp. apply align_spec. unfold is_pow2 in Hp. apply andb_true_iff in Hp as [?%Z.ltb_lt _]. lia.
Qed.
End xmalloc.
