(* ===== verification/Alsa.v ===== *)
(** * Sound devices of the demo application (app/alsa.c)

    A sound device is opened for capture and playback, its descriptors are
    polled together with the socket, and frames of samples are read and written.
    The ALSA library itself is behind the calls of [Process]. *)
From Stdlib Require Import ZArith Lia.
From stdpp Require Import base gmap numbers list strings.
From S2P Require Import Prelude CString Process XMalloc.

Local Open Scope Z_scope.
Local Open Scope process_scope.

Definition PERIODS : Z := 3.
Definition SND_PCM_STREAM_PLAYBACK : Z := 0.
Definition SND_PCM_STREAM_CAPTURE : Z := 1.
Definition SND_PCM_ACCESS_RW_INTERLEAVED : Z := 3.
Definition SND_PCM_FORMAT_S16_LE : Z := 2.
Definition EPIPE : Z := 32.
Definition POLLIN : Z := 1.
Definition POLLOUT : Z := 4.

(** ** Typed blocks *)

Definition dev_zero : alsa_dev := AlsaDev 0 0 0 0 0 0 0 0 0.
Definition fd_zero : pollfd := Pollfd 0 0 (Some 0).

#[export] Instance bytes_eq_dec : EqDecision (list (option Z)) := _.

(** Memory that is all zero can be used as a struct of zeros. *)
Definition as_dev (b : block) : option alsa_dev :=
  match b with
  | Dev d => Some d
  | Bytes l => if decide (l = replicate (Z.to_nat alsa_dev_size) (Some 0)) then Some dev_zero else None
  | Fds _ => None
  end.

(** [n] descriptors in bytes: eight zeros are a descriptor of zeros, other
    bytes are not one yet. *)
Fixpoint fds_of (n : nat) (l : list (option Z)) : list (option pollfd) :=
  match n with
  | O => []
  | S n' => (if decide (take 8 l = replicate 8 (Some 0)) then Some fd_zero else None) :: fds_of n' (drop 8 l)
  end.

Definition as_fds (b : block) : option (list (option pollfd)) :=
  match b with
  | Dev _ => None
  | Bytes l => Some (fds_of (length l / 8) l)
  | Fds l => Some l
  end.

Definition get_dev (a : addr) : P alsa_dev :=
  b <- get_block a;;
  match as_dev b with Some d => pret d | None => undef Wrong_type end.
Definition mod_dev (a : addr) (f : alsa_dev -> alsa_dev) : P unit :=
  d <- get_dev a;; set_block a (Dev (f d)).

Definition get_fds (a : addr) : P (list (option pollfd)) :=
  b <- get_block a;;
  match as_fds b with Some l => pret l | None => undef Wrong_type end.

(** [a[i]] and storing it. *)
Definition fd_at (a : addr) (i : nat) : P (option pollfd) :=
  l <- get_fds a;;
  match l !! i with Some x => pret x | None => undef Out_of_bounds end.
Definition set_fd_at (a : addr) (i : nat) (x : option pollfd) : P unit :=
  l <- get_fds a;;
  if (i <? length l)%nat then set_block a (Fds (<[i := x]> l)) else undef Out_of_bounds.

(** The string at an address, for a library that reads it. *)
Fixpoint take_str (l : list (option Z)) : undefined + cstr :=
  match l with
  | [] => inl Out_of_bounds
  | None :: _ => inl Uninitialised
  | Some b :: l' =>
      if b =? 0 then inr []
      else match take_str l' with inr s => inr (b :: s) | inl u => inl u end
  end.

Definition string_at (a : addr) : P cstr :=
  l <- get_bytes a;;
  match take_str l with inr s => pret s | inl u => undef u end.

(** Samples of 16 bits, the low byte first. *)
Fixpoint samples_of (l : list Z) : list Z :=
  match l with
  | lo :: hi :: l' => ((lo + 256 * hi + 2 ^ 15) mod 2 ^ 16 - 2 ^ 15) :: samples_of l'
  | _ => []
  end.

Definition initialised {A} (l : list (option A)) : P (list A) :=
  match mapM id l with Some v => pret v | None => undef Uninitialised end.

Definition samples_at (a n : Z) : P (list Z) :=
  l <- read_at a 0 (short_size * n);;
  v <- initialised l;;
  pret (samples_of v).

(** ** Fields *)

Definition set_name (v : addr) (d : alsa_dev) : alsa_dev :=
  AlsaDev v (ad_channels d) (ad_period d) (ad_capture_handle d) (ad_playback_handle d) (ad_read_fds d)
    (ad_read_fd d) (ad_write_fds d) (ad_write_fd d).
Definition set_channels (v : Z) (d : alsa_dev) : alsa_dev :=
  AlsaDev (ad_name d) v (ad_period d) (ad_capture_handle d) (ad_playback_handle d) (ad_read_fds d)
    (ad_read_fd d) (ad_write_fds d) (ad_write_fd d).
Definition set_period (v : Z) (d : alsa_dev) : alsa_dev :=
  AlsaDev (ad_name d) (ad_channels d) v (ad_capture_handle d) (ad_playback_handle d) (ad_read_fds d)
    (ad_read_fd d) (ad_write_fds d) (ad_write_fd d).
Definition set_capture_handle (v : Z) (d : alsa_dev) : alsa_dev :=
  AlsaDev (ad_name d) (ad_channels d) (ad_period d) v (ad_playback_handle d) (ad_read_fds d)
    (ad_read_fd d) (ad_write_fds d) (ad_write_fd d).
Definition set_playback_handle (v : Z) (d : alsa_dev) : alsa_dev :=
  AlsaDev (ad_name d) (ad_channels d) (ad_period d) (ad_capture_handle d) v (ad_read_fds d)
    (ad_read_fd d) (ad_write_fds d) (ad_write_fd d).
Definition set_read_fds (v : Z) (d : alsa_dev) : alsa_dev :=
  AlsaDev (ad_name d) (ad_channels d) (ad_period d) (ad_capture_handle d) (ad_playback_handle d) v
    (ad_read_fd d) (ad_write_fds d) (ad_write_fd d).
Definition set_read_fd (v : addr) (d : alsa_dev) : alsa_dev :=
  AlsaDev (ad_name d) (ad_channels d) (ad_period d) (ad_capture_handle d) (ad_playback_handle d) (ad_read_fds d)
    v (ad_write_fds d) (ad_write_fd d).
Definition set_write_fds (v : Z) (d : alsa_dev) : alsa_dev :=
  AlsaDev (ad_name d) (ad_channels d) (ad_period d) (ad_capture_handle d) (ad_playback_handle d) (ad_read_fds d)
    (ad_read_fd d) v (ad_write_fd d).
Definition set_write_fd (v : addr) (d : alsa_dev) : alsa_dev :=
  AlsaDev (ad_name d) (ad_channels d) (ad_period d) (ad_capture_handle d) (ad_playback_handle d) (ad_read_fds d)
    (ad_read_fd d) (ad_write_fds d) v.

Section alsa.
Context `{Env}.

(** ** Set-up *)

(** A call whose negative result ends the program with a message. *)
Definition must (c : call) (msg : string) : P reply :=
  r <- do_call c;;
  (when r_ret r <? 0 do panic msg);;
  pret r.

Definition alsa_set_hw_params (handle rate channels period : Z) : P unit :=
  r <- must snd_pcm_hw_params_malloc "Cannot allocate hardware parameters: %s";;
  let hw_params := r_val r in
  must (snd_pcm_hw_params_any handle hw_params) "Cannot initialize hardware parameters: %s";;
  must (snd_pcm_hw_params_set_access handle hw_params SND_PCM_ACCESS_RW_INTERLEAVED) "Cannot set access type: %s";;
  must (snd_pcm_hw_params_set_format handle hw_params SND_PCM_FORMAT_S16_LE) "Cannot set sample format: %s";;
  must (snd_pcm_hw_params_set_rate_near handle hw_params rate 0) "Cannot set sample rate: %s";;
  must (snd_pcm_hw_params_set_channels handle hw_params channels) "Cannot set channel number: %s";;
  r <- must (snd_pcm_hw_params_set_period_size_near handle hw_params (u64 period) 0) "Cannot set period size: %s";;
  let period_size := r_val r in
  must (snd_pcm_hw_params_set_periods handle hw_params PERIODS 0) "Cannot set period number: %s";;
  let buffer_size := u64 (period_size * PERIODS) in
  must (snd_pcm_hw_params_set_buffer_size_near handle hw_params buffer_size) "Cannot set buffer size: %s";;
  must (snd_pcm_hw_params handle hw_params) "Cannot set capture parameters: %s";;
  do_call (snd_pcm_hw_params_free hw_params);;
  pret tt.

Definition alsa_set_sw_params (handle period : Z) (thres : bool) : P unit :=
  r <- must snd_pcm_sw_params_malloc "Cannot allocate software parameters: %s";;
  let sw_params := r_val r in
  must (snd_pcm_sw_params_current handle sw_params) "Cannot initialize software parameters: %s";;
  must (snd_pcm_sw_params_set_avail_min handle sw_params (u64 period)) "Cannot set minimum available count: %s";;
  (when thres do
     (must (snd_pcm_sw_params_set_start_threshold handle sw_params (u64 period)) "Cannot set start mode: %s";; pret tt));;
  must (snd_pcm_sw_params handle sw_params) "Cannot set software parameters: %s";;
  do_call (snd_pcm_sw_params_free sw_params);;
  pret tt.

(** The literal "plughw:0,0" in the program's data. *)
Definition default_devname : addr := 16.

(** The descriptors of a stream: [space] of them are asked for, and all have
    to come. *)
Definition poll_descriptors (handle : Z) (a : addr) (space : Z) (msg : string) : P unit :=
  r <- do_call (snd_pcm_poll_descriptors handle space);;
  l <- get_fds a;;
  (if (length l <? length (r_fds r))%nat then undef Out_of_bounds
   else set_block a (Fds ((Some <$> r_fds r) ++ drop (length (r_fds r)) l)));;
  (when negb (u32 (r_ret r) =? space) do panic msg).

Definition alsa_open (devname : addr) (rate channels period : Z) : P addr :=
  let devname := if devname =? 0 then default_devname else devname in
  dev <- xzmalloc alsa_dev_size;;
  name <- xstrdup devname;;
  mod_dev dev (set_name name);;
  mod_dev dev (set_channels channels);;
  mod_dev dev (set_period period);;
  s <- string_at name;;
  r <- must (snd_pcm_open s SND_PCM_STREAM_CAPTURE 0) "Cannot open audio capture device %s: %s";;
  mod_dev dev (set_capture_handle (r_val r));;
  alsa_set_hw_params (r_val r) rate channels period;;
  alsa_set_sw_params (r_val r) period false;;
  s <- string_at name;;
  r <- must (snd_pcm_open s SND_PCM_STREAM_PLAYBACK 0) "Cannot open audio playback device %s: %s";;
  mod_dev dev (set_playback_handle (r_val r));;
  alsa_set_hw_params (r_val r) rate channels period;;
  alsa_set_sw_params (r_val r) period true;;
  d <- get_dev dev;;
  do_call (snd_pcm_link (ad_capture_handle d) (ad_playback_handle d));;
  must (snd_pcm_prepare (ad_capture_handle d)) "Cannot prepare audio interface: %s";;
  must (snd_pcm_prepare (ad_playback_handle d)) "Cannot prepare audio interface: %s";;
  r <- do_call (snd_pcm_poll_descriptors_count (ad_capture_handle d));;
  let read_fds := u32 (r_ret r) in
  mod_dev dev (set_read_fds read_fds);;
  r <- do_call (snd_pcm_poll_descriptors_count (ad_playback_handle d));;
  let write_fds := u32 (r_ret r) in
  mod_dev dev (set_write_fds write_fds);;
  read_fd <- xzmalloc (read_fds * pollfd_size);;
  mod_dev dev (set_read_fd read_fd);;
  poll_descriptors (ad_capture_handle d) read_fd read_fds "Cannot obtain capture file descriptors: %s";;
  write_fd <- xzmalloc (write_fds * pollfd_size);;
  mod_dev dev (set_write_fd write_fd);;
  poll_descriptors (ad_playback_handle d) write_fd write_fds "Cannot obtain playback file descriptors: %s";;
  pret dev.

Definition alsa_close (dev : addr) : P unit :=
  d <- get_dev dev;;
  do_call (snd_pcm_close (ad_capture_handle d));;
  do_call (snd_pcm_close (ad_playback_handle d));;
  xfree (ad_name d);;
  xfree (ad_read_fd d);;
  xfree (ad_write_fd d);;
  xfree dev.

(** ** Samples *)

(** What a library stores at the start of a buffer. *)
Definition stored (buf : list (option Z)) (v : list Z) : P (list (option Z)) :=
  if (length buf <? length v)%nat then undef Out_of_bounds else pret ((Some <$> v) ++ drop (length v) buf).

(** The result and the buffer. *)
Definition alsa_read (dev : addr) (pcm : list (option Z)) (len : Z) : P (Z * list (option Z)) :=
  d <- get_dev dev;;
  r <- do_call (snd_pcm_readi (ad_capture_handle d) len);;
  pcm <- stored pcm (r_data r);;
  if negb (u64 (r_ret r) =? len) && (r_ret r <? 0) then
    (if r_ret r =? - EPIPE then info "An overrun has occured, reseting capture!"
     else info "Read from audio interface failed: %s");;
    r <- do_call (snd_pcm_prepare (ad_capture_handle d));;
    (when r_ret r <? 0 do info "Error preparing interface: %s");;
    r <- do_call (snd_pcm_start (ad_capture_handle d));;
    (when r_ret r <? 0 do info "Error preparing interface: %s");;
    pret (r_ret r, pcm)
  else pret (r_ret r, pcm).

Definition alsa_write (dev : addr) (pcm : list Z) (len : Z) : P Z :=
  d <- get_dev dev;;
  r <- do_call (snd_pcm_writei (ad_playback_handle d) pcm len);;
  if negb (u64 (r_ret r) =? len) && (r_ret r <? 0) then
    (if r_ret r =? - EPIPE then info "An underrun has occured, reseting playback!"
     else info "Write to audio interface failed: %s");;
    r <- do_call (snd_pcm_prepare (ad_playback_handle d));;
    (when r_ret r <? 0 do info "Error preparing interface: %s");;
    pret (r_ret r)
  else pret (r_ret r).

(** ** Polling *)

(** [n] descriptors from the [off]-th on, as a library reads them. *)
Definition fds_part (a : addr) (off n : Z) : P (list (option pollfd)) :=
  l <- get_fds a;;
  if Z.of_nat (length l) <? off + n then undef Out_of_bounds
  else pret (take (Z.to_nat n) (drop (Z.to_nat off) l)).

Definition revents_at (a : addr) (i : nat) : P Z :=
  x <- fd_at a i;;
  match x ≫= pfd_revents with Some v => pret v | None => undef Uninitialised end.

Definition alsa_cap_ready (dev pfds : addr) : P Z :=
  d <- get_dev dev;;
  l <- fds_part pfds 0 (ad_read_fds d);;
  r <- do_call (snd_pcm_poll_descriptors_revents (ad_capture_handle d) l);;
  if r_ret r <? 0 then
    whine "error in alsa_cap_ready: %s";;
    v <- revents_at pfds 0;;
    pret (Z.land v POLLIN)
  else pret (Z.land (u16 (r_val r)) POLLIN).

Definition alsa_play_ready (dev pfds : addr) : P Z :=
  d <- get_dev dev;;
  l <- fds_part pfds (ad_read_fds d) (ad_write_fds d);;
  r <- do_call (snd_pcm_poll_descriptors_revents (ad_playback_handle d) l);;
  if r_ret r <? 0 then
    whine "error in alsa_play_ready: %s";;
    v <- revents_at pfds 1;;
    pret (Z.land v POLLOUT)
  else pret (Z.land (u16 (r_val r)) POLLOUT).

Definition alsa_start (dev : addr) : P unit :=
  d <- get_dev dev;;
  let len := ad_period d * ad_channels d in
  (when negb ((- 2 ^ 31 <=? len) && (len <? 2 ^ 31)) do undef Signed_overflow);;
  pcm <- xzmalloc (u64 (u64 len * short_size));;
  s <- samples_at pcm len;;
  alsa_write dev s (u64 (ad_period d));;
  s <- samples_at pcm len;;
  alsa_write dev s (u64 (ad_period d));;
  xfree pcm;;
  do_call (snd_pcm_start (ad_capture_handle d));;
  do_call (snd_pcm_start (ad_playback_handle d));;
  pret tt.

Definition alsa_nfds (dev : addr) : P Z :=
  d <- get_dev dev;; pret (u32 (ad_read_fds d + ad_write_fds d)).

(** [for (i = from; i < from + n; ++i) pfds[i + off] = src[i]] *)
Fixpoint copy_fds (src pfds : addr) (off from n : nat) : P unit :=
  match n with
  | O => pret tt
  | S n' =>
      x <- fd_at src from;;
      set_fd_at pfds (from + off) x;;
      copy_fds src pfds off (S from) n'
  end.

Definition alsa_getfds (dev pfds : addr) (nfds : Z) : P unit :=
  n <- alsa_nfds dev;;
  BUG_ON (nfds <? n) "%s";;
  d <- get_dev dev;;
  copy_fds (ad_read_fd d) pfds 0 0 (Z.to_nat (ad_read_fds d));;
  copy_fds (ad_write_fd d) pfds (Z.to_nat (ad_read_fds d)) 0 (Z.to_nat (ad_write_fds d)).
End alsa.
