(* ===== verification/AlsaProps.v ===== *)
(** * Theorems on the sound devices (app/alsa.c)

    Opening, closing and polling a sound device, whatever the ALSA library
    answers. *)
From Stdlib Require Import ZArith Lia.
From stdpp Require Import base gmap numbers list strings.
From S2P Require Import Prelude CString Process XMalloc Alsa.

Local Open Scope Z_scope.
Local Open Scope process_scope.

Section alsa.
Context `{Env}.

(** ** Rules *)

(** Calls of the sound library and messages. *)
Definition is_sound (c : call) : Prop :=
  match c with
  | Print_stderr _ | Print_stdout _
  | snd_pcm_hw_params_malloc | snd_pcm_hw_params_any _ _ | snd_pcm_hw_params_set_access _ _ _
  | snd_pcm_hw_params_set_format _ _ _ | snd_pcm_hw_params_set_rate_near _ _ _ _
  | snd_pcm_hw_params_set_channels _ _ _ | snd_pcm_hw_params_set_period_size_near _ _ _ _
  | snd_pcm_hw_params_set_periods _ _ _ _ | snd_pcm_hw_params_set_buffer_size_near _ _ _
  | snd_pcm_hw_params _ _ | snd_pcm_hw_params_free _ | snd_pcm_sw_params_malloc
  | snd_pcm_sw_params_current _ _ | snd_pcm_sw_params_set_avail_min _ _ _
  | snd_pcm_sw_params_set_start_threshold _ _ _ | snd_pcm_sw_params _ _ | snd_pcm_sw_params_free _
  | snd_pcm_open _ _ _ | snd_pcm_close _ | snd_pcm_link _ _ | snd_pcm_prepare _ | snd_pcm_start _
  | snd_pcm_poll_descriptors_count _ | snd_pcm_poll_descriptors _ _ | snd_pcm_poll_descriptors_revents _ _
  | snd_pcm_readi _ _ | snd_pcm_writei _ _ _ => True
  | _ => False
  end.

(** Only such calls were made since [base]. *)
Definition sound_since (base : list call) (p : process) : Prop :=
  exists new, p_calls p = base ++ new /\ Forall is_sound new.

Lemma sound_refl p : sound_since (p_calls p) p.
Proof. exists []. by rewrite app_nil_r. Qed.

Lemma sound_trans base p p' : sound_since base p -> sound_since (p_calls p) p' -> sound_since base p'.
Proof.
  intros (l1 & H1 & F1) (l2 & H2 & F2). exists (l1 ++ l2). rewrite H2, H1, <- app_assoc. split; [done|].
  by apply Forall_app.
Qed.

(** Library calls leave the memory alone. *)
Definition same_mem (p p' : process) : Prop :=
  p_mem p' = p_mem p /\ p_next p' = p_next p /\ p_oom p' = p_oom p /\ sound_since (p_calls p) p'.

Lemma same_mem_refl p : same_mem p p.
Proof. split; [done|]. split; [done|]. split; [done|]. apply sound_refl. Qed.

Lemma same_mem_trans p1 p2 p3 : same_mem p1 p2 -> same_mem p2 p3 -> same_mem p1 p3.
Proof.
  intros (? & ? & ? & S1) (? & ? & ? & S2). repeat (split; [congruence|]). by eapply sound_trans.
Qed.

Lemma same_mem_heap p p' : same_mem p p' -> heap_ok p -> heap_ok p'.
Proof. intros (H1 & H2 & _). unfold heap_ok. by rewrite H1, H2. Qed.

Lemma same_mem_call c p : is_sound c -> same_mem p (with_call c p).
Proof. intros Hc. repeat (split; [done|]). exists [c]. split; [done|]. by constructor. Qed.

(** The exits of this file are those of [panic]. *)
Abbreviation dead := (fun (e : ending) (_ : process) => e = Exited EXIT_FAILURE).

Lemma pwp_call c Q E p :
  is_sound c -> (forall r p', r = env (p_calls p) c -> same_mem p p' -> Q r p') -> pwp (do_call c) Q E p.
Proof. intros Hc HQ. unfold pwp, do_call. apply HQ; [done|]. by apply same_mem_call. Qed.

Lemma pwp_must c msg Q p :
  is_sound c -> (forall r p', r = env (p_calls p) c -> 0 <= r_ret r -> same_mem p p' -> Q r p') -> pwp (must c msg) Q dead p.
Proof.
  intros Hc HQ. unfold must. apply pwp_bind, pwp_call; [done|]. intros r p' Hr Hm. apply pwp_bind.
  destruct (Z.ltb_spec (r_ret r) 0); [done|]. unfold pwp at 1, pret. by apply HQ.
Qed.

(** Steps through a sequence of library calls. *)
Ltac call_step :=
  match goal with
  | |- pwp (pbind _ _) _ _ _ => apply pwp_bind
  | |- pwp (do_call _) _ _ _ => apply pwp_call; [exact I|]; intros
  | |- pwp (must _ _) _ _ _ => apply pwp_must; [exact I|]; intros
  end; cbv beta.
Ltac mem_trans := repeat (eapply same_mem_trans; [eassumption|]); apply same_mem_refl.

Lemma hw_params_wp handle rate channels period p :
  pwp (alsa_set_hw_params handle rate channels period) (fun _ => same_mem p) dead p.
Proof. unfold alsa_set_hw_params. do 40 try call_step. unfold pwp, pret. mem_trans. Qed.

Lemma sw_params_wp handle period thres p :
  pwp (alsa_set_sw_params handle period thres) (fun _ => same_mem p) dead p.
Proof.
  unfold alsa_set_sw_params. do 8 try call_step. destruct thres.
  - do 2 call_step. unfold pwp at 1, pret. do 8 try call_step. unfold pwp, pret. mem_trans.
  - unfold pwp at 1, pret. do 8 try call_step. unfold pwp, pret. mem_trans.
Qed.

(** ** Memory *)

Lemma pwp_xzmalloc size Q p :
  heap_ok p -> 0 <= size ->
  (forall a p', a <> 0 -> p_mem p !! a = None -> heap_ok p' -> p_calls p' = p_calls p ->
     p_mem p' = <[a := Bytes (replicate (Z.to_nat size) (Some 0))]> (p_mem p) -> 0 < size -> Q a p') ->
  pwp (xzmalloc size) Q dead p.
Proof.
  intros Hok Hs HQ. unfold pwp. rewrite (xzmalloc_run _ _ Hok Hs).
  destruct (Z.eqb_spec size 0); [done|]. destruct (no_memory p); [done|].
  destruct (heap_fresh p 16 Hok ltac:(lia)) as [Hne Hnew]. apply HQ; try done; [| |lia].
  - apply filled_ok; [done|lia|]. rewrite length_replicate. lia.
  - unfold filled. simpl. by rewrite insert_insert_eq.
Qed.

Lemma pwp_xstrdup str s Q p :
  heap_ok p -> str_at p str s -> Z.of_nat (length s) < size_max ->
  (forall a p', a <> 0 -> p_mem p !! a = None -> heap_ok p' -> p_calls p' = p_calls p ->
     p_mem p' = <[a := Bytes (Some <$> (s ++ [0]))]> (p_mem p) -> Q a p') ->
  pwp (xstrdup str) Q dead p.
Proof.
  intros Hok Hstr Hs HQ. unfold pwp. unfold xstrdup.
  rewrite (pbind_run _ _ _ _ _ (strlen_run _ _ _ Hstr)). cbv beta zeta.
  unfold size_max in Hs. rewrite u64_small, (dup_run str s) by (done || lia).
  destruct (no_memory p); [done|]. destruct (heap_fresh p 16 Hok ltac:(lia)) as [Hne Hnew].
  replace (Z.to_nat (Z.of_nat (length s) + 1) - 1)%nat with (length s) by lia. rewrite take_ge by lia.
  apply HQ; try done.
  - apply filled_ok; [done|lia|]. rewrite length_fmap, length_app. simpl. lia.
  - unfold filled. simpl. by rewrite insert_insert_eq.
Qed.

Lemma alsa_dev_run p a b d : a <> 0 -> p_mem p !! a = Some b -> as_dev b = Some d -> get_dev a p = Done d p.
Proof.
  intros Ha Hb Hd. unfold get_dev, pbind, get_block. rewrite (proj2 (Z.eqb_neq _ _) Ha), Hb. by rewrite Hd.
Qed.

Lemma get_fds_run p a b l : a <> 0 -> p_mem p !! a = Some b -> as_fds b = Some l -> get_fds a p = Done l p.
Proof.
  intros Ha Hb Hd. unfold get_fds, pbind, get_block. rewrite (proj2 (Z.eqb_neq _ _) Ha), Hb. by rewrite Hd.
Qed.

Lemma as_dev_size b d : as_dev b = Some d -> block_size b = alsa_dev_size.
Proof.
  destruct b as [l|d'|l]; simpl; try done. destruct (decide _) as [->|]; [|done]. done.
Qed.

Lemma pwp_mod_dev a f b d Q E p :
  heap_ok p -> a <> 0 -> p_mem p !! a = Some b -> as_dev b = Some d ->
  (forall p', heap_ok p' -> p_calls p' = p_calls p -> p_mem p' = <[a := Dev (f d)]> (p_mem p) -> Q tt p') ->
  pwp (mod_dev a f) Q E p.
Proof.
  intros Hok Ha Hb Hd HQ. unfold mod_dev, pwp. rewrite (pbind_run _ _ _ _ _ (alsa_dev_run _ _ _ _ Ha Hb Hd)).
  cbn. apply HQ; try done. eapply heap_set; [done..|]. simpl. by rewrite (as_dev_size b d).
Qed.

Lemma take_str_ok s rest : cstr_ok s -> take_str ((Some <$> s) ++ Some 0 :: rest) = inr s.
Proof. induction 1 as [|b s Hb _ IH]; csimpl; [done|]. destruct (Z.eqb_spec b 0); [lia|]. by rewrite IH. Qed.

Lemma string_at_run p a s :
  a <> 0 -> cstr_ok s -> p_mem p !! a = Some (Bytes (Some <$> (s ++ [0]))) -> string_at a p = Done s p.
Proof.
  intros Ha Hs Hb. unfold string_at. rewrite (pbind_run _ _ _ _ _ (get_bytes_run _ _ _ Ha Hb)). cbv beta.
  rewrite fmap_app. cbn [fmap list_fmap]. by rewrite take_str_ok.
Qed.

Lemma fds_of_zero n : fds_of n (replicate (8 * n) (Some 0)) = replicate n (Some fd_zero).
Proof.
  induction n as [|n IH]; [done|]. replace (8 * S n)%nat with (8 + 8 * n)%nat by lia.
  rewrite replicate_add. cbn [fds_of]. rewrite take_app_length' by done. rewrite drop_app_length' by done.
  rewrite decide_True by done. by rewrite IH.
Qed.

Lemma as_fds_zero n : as_fds (Bytes (replicate (8 * n) (Some 0))) = Some (replicate n (Some fd_zero)).
Proof.
  unfold as_fds. rewrite length_replicate. replace (8 * n / 8)%nat with n.
  - by rewrite fds_of_zero.
  - by rewrite Nat.mul_comm, Nat.div_mul.
Qed.

(** ** Opening and closing *)

(** ALSA stores no more descriptors than there is room for. *)
Definition descriptors_fit : Prop :=
  forall calls h space, 0 <= space -> Z.of_nat (length (r_fds (env calls (snd_pcm_poll_descriptors h space)))) <= space.

Lemma pwp_poll_descriptors handle a n msg Q p :
  descriptors_fit -> heap_ok p -> a <> 0 -> p_mem p !! a = Some (Bytes (replicate (8 * n) (Some 0))) ->
  (forall p' l, heap_ok p' -> sound_since (p_calls p) p' -> (length l <= n)%nat ->
     p_mem p' = <[a := Fds ((Some <$> l) ++ replicate (n - length l) (Some fd_zero))]> (p_mem p) -> Q tt p') ->
  pwp (poll_descriptors handle a (Z.of_nat n) msg) Q dead p.
Proof.
  intros Hfit Hok Ha Hb HQ. unfold poll_descriptors. apply pwp_bind, pwp_call; [exact I|]. intros r p1 Hr Hm1.
  pose proof (Hfit (p_calls p) handle (Z.of_nat n) ltac:(lia)) as Hl. rewrite <- Hr in Hl.
  assert (Hok1 : heap_ok p1) by (by eapply same_mem_heap). destruct Hm1 as (Hm & _ & _ & Hs1).
  apply pwp_bind. eapply pwp_of_run; [eapply get_fds_run; [done|by rewrite Hm|apply as_fds_zero]|].
  apply pwp_bind. rewrite length_replicate. destruct (Nat.ltb_spec n (length (r_fds r))); [lia|].
  unfold pwp at 1, set_block. rewrite drop_replicate.
  set (p2 := with_mem _ p1).
  assert (HQ2 : Q tt p2).
  { apply (HQ p2 (r_fds r)); [|done|lia|unfold p2; simpl; by rewrite Hm].
    destruct (proj2 Hok _ _ Hb) as (_ & Hpos & _). cbn [block_size] in Hpos. rewrite length_replicate in Hpos.
    eapply heap_set; [done|by rewrite Hm|]. cbn [block_size].
    rewrite length_app, length_fmap, !length_replicate. unfold pollfd_size. lia. }
  destruct (negb _); [done|]. exact HQ2.
Qed.

Section opening.
Variable base : list call.

(** While a device is opened its struct is at [dev], beside the rest [m] of
    the heap; [base] are the calls made before. *)
Definition holds (p : process) (dev : addr) (d : alsa_dev) (m : gmap addr block) : Prop :=
  heap_ok p /\ dev <> 0 /\ p_mem p = <[dev := Dev d]> m /\ sound_since base p.

Lemma holds_same p p' dev d m : same_mem p p' -> holds p dev d m -> holds p' dev d m.
Proof. intros Hs (? & ? & ? & ?). split; [by eapply same_mem_heap|]. split; [done|]. destruct Hs as (? & _ & _ & ?).
  split; [congruence|]. by eapply sound_trans. Qed.

Lemma holds_get p dev d m : holds p dev d m -> get_dev dev p = Done d p.
Proof. intros (? & ? & Hm & _). eapply alsa_dev_run; [done|rewrite Hm; apply lookup_insert_eq|done]. Qed.

Lemma holds_mod dev f d m Q E p :
  holds p dev d m -> (forall p', holds p' dev (f d) m -> Q tt p') -> pwp (mod_dev dev f) Q E p.
Proof.
  intros (Hok & H0 & Hm & Hs) HQ. eapply pwp_mod_dev; [done|done|rewrite Hm; apply lookup_insert_eq|done|].
  intros p' Hok' Hc Hm'. apply HQ. split; [done|]. split; [done|]. unfold sound_since.
  by rewrite Hm', Hm, Hc, insert_insert_eq.
Qed.

Lemma holds_xzmalloc size dev d m Q p :
  holds p dev d m -> 0 <= size ->
  (forall a p', a <> 0 -> a <> dev -> m !! a = None -> 0 < size ->
     holds p' dev d (<[a := Bytes (replicate (Z.to_nat size) (Some 0))]> m) -> Q a p') ->
  pwp (xzmalloc size) Q dead p.
Proof.
  intros (Hok & H0 & Hm & Hss) Hs HQ. apply pwp_xzmalloc; [done..|]. intros a p' Ha Hnew Hok' Hc Hm' Hs'.
  rewrite Hm in Hnew. apply lookup_insert_None in Hnew as [Hn Hne]. apply HQ; [done..|].
  split; [done|]. split; [done|]. unfold sound_since. rewrite Hm', Hm, Hc. split; [by apply insert_insert_ne|done].
Qed.

Lemma holds_poll handle a n msg dev d m Q p :
  descriptors_fit -> holds p dev d m -> a <> 0 -> a <> dev ->
  m !! a = Some (Bytes (replicate (8 * n) (Some 0))) ->
  (forall p' l, length l = n -> Forall is_Some l -> holds p' dev d (<[a := Fds l]> m) -> Q tt p') ->
  pwp (poll_descriptors handle a (Z.of_nat n) msg) Q dead p.
Proof.
  intros Hfit (Hok & H0 & Hm & Hs) Ha Had Hb HQ.
  apply pwp_poll_descriptors; [done..|by rewrite Hm, lookup_insert_ne|]. intros p' l Hok' Hs' Hl Hm'.
  eapply HQ; [| |split; [done|]; split; [done|]; split; [rewrite Hm', Hm; by apply insert_insert_ne|by eapply sound_trans]].
  2: { apply Forall_app. split; [apply Forall_fmap, Forall_true; by eexists|]. apply Forall_replicate. by eexists. }
  rewrite length_app, length_fmap, length_replicate. lia.
Qed.

(** A number of descriptors ALSA has announced. *)
Definition announced (n : Z) : Prop :=
  exists calls h, n = u32 (r_ret (env calls (snd_pcm_poll_descriptors_count h))).

(** A device as [alsa_open] leaves it: its struct, name and descriptors are
    four new blocks, and the rest of the heap is [m]. *)
Record dev_open (p : process) (dev : addr) (d : alsa_dev) (s : cstr) (m : gmap addr block) : Prop := {
  do_holds : exists lr lw,
    length lr = Z.to_nat (ad_read_fds d) /\ length lw = Z.to_nat (ad_write_fds d) /\
    Forall is_Some lr /\ Forall is_Some lw /\
    holds p dev d (<[ad_write_fd d := Fds lw]> (<[ad_read_fd d := Fds lr]>
                    (<[ad_name d := Bytes (Some <$> (s ++ [0]))]> m)));
  do_count : 0 < ad_read_fds d < 2 ^ 32 /\ 0 < ad_write_fds d < 2 ^ 32;
  do_announced : announced (ad_read_fds d) /\ announced (ad_write_fds d);
  do_null : ad_name d <> 0 /\ ad_read_fd d <> 0 /\ ad_write_fd d <> 0;
  do_new : m !! dev = None /\ m !! ad_name d = None /\ m !! ad_read_fd d = None /\ m !! ad_write_fd d = None;
  do_nodup : NoDup [dev; ad_name d; ad_read_fd d; ad_write_fd d];
}.

(** The string a device is opened with. *)
Definition devname_at (p : process) (devname : addr) (s : cstr) : Prop :=
  str_at p (if devname =? 0 then default_devname else devname) s /\ Z.of_nat (length s) < size_max.

(** The last part of [alsa_open]: the descriptors of both streams. *)
Lemma open_fds_wp h1 h2 msg1 msg2 p dev d m nr nw :
  descriptors_fit -> holds p dev d m -> 0 <= nr < 2 ^ 32 -> 0 <= nw < 2 ^ 32 ->
  pwp (read_fd <- xzmalloc (nr * pollfd_size);;
       mod_dev dev (set_read_fd read_fd);;
       poll_descriptors h1 read_fd nr msg1;;
       write_fd <- xzmalloc (nw * pollfd_size);;
       mod_dev dev (set_write_fd write_fd);;
       poll_descriptors h2 write_fd nw msg2;;
       pret dev)
    (fun dev' p' => dev' = dev /\ exists rfd wfd lr lw,
       length lr = Z.to_nat nr /\ length lw = Z.to_nat nw /\ Forall is_Some lr /\ Forall is_Some lw /\ rfd <> 0 /\ wfd <> 0 /\ rfd <> dev /\ wfd <> dev /\
       rfd <> wfd /\ m !! rfd = None /\ m !! wfd = None /\ 0 < nr /\ 0 < nw /\
       holds p' dev (set_write_fd wfd (set_read_fd rfd d)) (<[wfd := Fds lw]> (<[rfd := Fds lr]> m))) dead p.
Proof.
  intros Hfit Hh Hnr Hnw. unfold pollfd_size.
  assert (Hz : forall n, 0 <= n -> Z.to_nat (n * 8) = (8 * Z.to_nat n)%nat) by lia.
  apply pwp_bind. eapply holds_xzmalloc; [exact Hh|lia|]. intros rfd p1 Hr0 Hrd Hrm Hnr0 Hh1.
  apply pwp_bind. eapply holds_mod; [exact Hh1|]. intros p2 Hh2.
  apply pwp_bind. rewrite <- (Z2Nat.id nr) at 1 by lia. rewrite Hz in Hh2 by lia.
  eapply (holds_poll _ _ _ _ dev); [done|exact Hh2|done|done|apply lookup_insert_eq|].
  intros p3 lr Hlr Hsr Hh3. rewrite insert_insert_eq in Hh3.
  apply pwp_bind. eapply holds_xzmalloc; [exact Hh3|lia|]. intros wfd p4 Hw0 Hwd Hwm Hnw0 Hh4.
  apply pwp_bind. eapply holds_mod; [exact Hh4|]. intros p5 Hh5.
  apply pwp_bind. rewrite <- (Z2Nat.id nw) at 1 by lia. rewrite Hz in Hh5 by lia.
  eapply (holds_poll _ _ _ _ dev); [done|exact Hh5|done|done|apply lookup_insert_eq|].
  intros p6 lw Hlw Hsw Hh6. rewrite insert_insert_eq in Hh6.
  apply lookup_insert_None in Hwm as [Hwm Hrw].
  split; [done|]. exists rfd, wfd, lr, lw. repeat (split; [lia || done|]). exact Hh6.
Qed.

(** One step of [alsa_open] that leaves the rest of the heap alone. *)
Ltac open_step Hname :=
  apply pwp_bind;
  match goal with
  | Hh : holds ?p ?dev _ _ |- pwp ?m _ _ ?p =>
      let Hs := fresh in
      match m with
      | mod_dev _ _ => eapply holds_mod; [exact Hh|]; clear Hh; intros ? Hh
      | get_dev _ => eapply pwp_of_run; [exact (holds_get _ _ _ _ Hh)|]
      | string_at _ => eapply pwp_of_run; [exact (Hname _ _ Hh)|]
      | must _ _ => apply pwp_must; [exact I|]; intros ? ? _ _ Hs; apply (holds_same _ _ _ _ _ Hs) in Hh; clear Hs
      | do_call _ => apply pwp_call; [exact I|]; intros ? ? ? Hs; apply (holds_same _ _ _ _ _ Hs) in Hh; clear Hs
      | alsa_set_hw_params _ _ _ _ => eapply pwp_mono; [apply hw_params_wp| |done]; intros ? ? Hs; cbv beta in Hs;
          apply (holds_same _ _ _ _ _ Hs) in Hh; clear Hs
      | alsa_set_sw_params _ _ _ => eapply pwp_mono; [apply sw_params_wp| |done]; intros ? ? Hs; cbv beta in Hs;
          apply (holds_same _ _ _ _ _ Hs) in Hh; clear Hs
      end
  end; cbv beta zeta.

Lemma alsa_open_wp devname s rate channels period p :
  descriptors_fit -> heap_ok p -> sound_since base p -> devname_at p devname s ->
  pwp (alsa_open devname rate channels period)
    (fun dev p' => exists d, dev_open p' dev d s (p_mem p) /\ ad_channels d = channels /\ ad_period d = period) dead p.
Proof.
  intros Hfit Hok Hbase (Hstr & Hlen). unfold alsa_open. set (str := if devname =? 0 then _ else _) in *. cbv zeta.
  apply pwp_bind, pwp_xzmalloc; [done|done|]. intros dev p1 Hd0 Hdnew Hok1 Hc1 Hm1 _.
  assert (Hds : dev <> str). { destruct Hstr as (_ & _ & r & Hr). intros Heq. rewrite Heq in Hdnew. by rewrite Hr in Hdnew. }
  assert (Hstr1 : str_at p1 str s).
  { destruct Hstr as (? & ? & r & Hr). split; [done|]. split; [done|]. exists r. by rewrite Hm1, lookup_insert_ne. }
  apply pwp_bind, (pwp_xstrdup str s); [done..|]. intros name p2 Hn0 Hnnew Hok2 Hc2 Hm2.
  rewrite Hm1 in Hnnew. apply lookup_insert_None in Hnnew as [Hnnew Hnd].
  set (m1 := <[name := Bytes (Some <$> s ++ [0])]> (p_mem p)).
  apply pwp_bind. eapply pwp_mod_dev; [done|done| | |].
  { rewrite Hm2, Hm1, lookup_insert_ne by done. apply lookup_insert_eq. }
  { unfold as_dev. by rewrite decide_True. }
  intros p3 Hok3 Hc3 Hm3. assert (Hh : holds p3 dev (set_name name dev_zero) m1).
  { split; [done|]. split; [done|]. rewrite Hm3, Hm2, Hm1. unfold m1.
    split; [by rewrite (insert_insert_ne _ name dev), insert_insert_eq|]. unfold sound_since. by rewrite Hc3, Hc2, Hc1. }
  assert (Hname : forall p' d, holds p' dev d m1 -> string_at name p' = Done s p').
  { intros p' d (_ & _ & Hm' & _). eapply string_at_run; [done|apply Hstr|].
    rewrite Hm', lookup_insert_ne by done. apply lookup_insert_eq. }
  clear Hok Hok1 Hok2 Hok3 Hm1 Hm2 Hm3 Hc1 Hc2 Hc3 Hstr1. revert Hh. generalize p3. clear p1 p2 p3. intros p3 Hh.
  do 20 open_step Hname.
  eapply pwp_mono; [eapply (open_fds_wp _ _ _ _ _ dev); [done|exact Hh|apply u32_range..]| |done].
  cbv beta. intros ? p9 (-> & rfd & wfd & lr & lw & Hlr & Hlw & Hsr & Hsw & Hr0 & Hw0 & Hrd & Hwd & Hrw & Hrm & Hwm & Hnr & Hnw & Hh').
  apply lookup_insert_None in Hrm as [Hrm Hrn]. apply lookup_insert_None in Hwm as [Hwm Hwn].
  match type of Hh' with holds _ _ ?d _ => exists d end. split; [|split; reflexivity]. split; simpl; try done.
  - exists lr, lw. done.
  - pose proof (u32_range (r_ret r4)). pose proof (u32_range (r_ret r5)). lia.
  - split; eexists _, _; by f_equal; f_equal.
  - repeat constructor; rewrite ?not_elem_of_cons; repeat split; auto using not_elem_of_nil.
Qed.
(** Closing gives the four blocks back. *)
Lemma alsa_close_wp p dev d s m :
  dev_open p dev d s m -> exists p', alsa_close dev p = Done tt p' /\ p_mem p' = m /\
    p_calls p' = p_calls p ++ [snd_pcm_close (ad_capture_handle d); snd_pcm_close (ad_playback_handle d)].
Proof.
  intros [(lr & lw & _ & _ & _ & _ & Hh) _ _ (Hn0 & Hr0 & Hw0) (Hdm & Hnm & Hrm & Hwm) Hnd].
  rewrite !NoDup_cons, !not_elem_of_cons in Hnd. destruct Hnd as ((Hdn & Hdr & Hdw & _) & (Hnr & Hnw & _) & (Hrw & _) & _).
  unfold alsa_close. rewrite (pbind_run _ _ _ _ _ (holds_get _ _ _ _ Hh)).
  unfold pbind at 1, do_call at 1. unfold pbind at 1, do_call at 1.
  destruct Hh as (_ & Hd0 & Hm & _).
  erewrite pbind_run; [|eapply xfree_run; [done|simpl; rewrite Hm, !lookup_insert_ne by congruence; apply lookup_insert_eq]].
  erewrite pbind_run; [|eapply xfree_run; [done|simpl; rewrite lookup_delete_ne, Hm, !lookup_insert_ne by congruence; apply lookup_insert_eq]].
  erewrite pbind_run; [|eapply xfree_run; [done|simpl; rewrite !lookup_delete_ne, Hm, !lookup_insert_ne by congruence; apply lookup_insert_eq]].
  erewrite xfree_run; [|done|simpl; rewrite !lookup_delete_ne, Hm by congruence; apply lookup_insert_eq].
  eexists. split; [reflexivity|]. split; [|simpl; by rewrite <- app_assoc]. simpl. rewrite Hm.
  rewrite (delete_insert_ne _ (ad_name d) dev), (delete_insert_ne _ (ad_name d) (ad_write_fd d)),
    (delete_insert_ne _ (ad_name d) (ad_read_fd d)), delete_insert_id by congruence.
  rewrite (delete_insert_ne _ (ad_read_fd d) dev), (delete_insert_ne _ (ad_read_fd d) (ad_write_fd d)), delete_insert_id by congruence.
  rewrite (delete_insert_ne _ (ad_write_fd d) dev), (delete_insert_id _ (ad_write_fd d)) by congruence.
  by rewrite delete_insert_id.
Qed.

End opening.

(** C38: whatever ALSA answers, opening a sound device is defined: it returns a
    device or ends the program with status 1.  A device that is returned has
    the channels and the period asked for, and its name and as many descriptors
    as ALSA announced in blocks of its own, and only ALSA was called; closing it closes both streams and
    leaves the heap exactly as it was before it was opened. *)
Theorem alsa_open_close devname s rate channels period p :
  descriptors_fit -> heap_ok p -> devname_at p devname s ->
  match alsa_open devname rate channels period p with
  | Done dev p' => exists d,
      dev_open (p_calls p) p' dev d s (p_mem p) /\ ad_channels d = channels /\ ad_period d = period /\
      exists p'', alsa_close dev p' = Done tt p'' /\ p_mem p'' = p_mem p /\
        p_calls p'' = p_calls p' ++ [snd_pcm_close (ad_capture_handle d); snd_pcm_close (ad_playback_handle d)]
  | Exit status _ => status = EXIT_FAILURE
  | Undef _ _ => False
  end.
Proof.
  intros Hfit Hok Hn. pose proof (alsa_open_wp (p_calls p) devname s rate channels period p Hfit Hok (sound_refl p) Hn) as Hw.
  unfold pwp in Hw. destruct (alsa_open _ _ _ _ p) as [dev p'|st p'|u p']; [|by injection Hw|done].
  destruct Hw as (d & Hd & Hc & Hp). exists d. split; [done|]. split; [done|]. split; [done|]. by eapply alsa_close_wp.
Qed.

(** ** The descriptors for [poll] *)

Lemma as_fds_size b l : as_fds b = Some l -> pollfd_size * Z.of_nat (length l) <= block_size b.
Proof.
  destruct b as [l'|d|l']; unfold as_fds, block_size; [|done|by intros [= ->]]. intros Heq.
  assert (l = fds_of (length l' / 8) l') as -> by congruence.
  assert (Hl : forall n l, length (fds_of n l) = n) by (induction n; simpl; auto).
  rewrite Hl. unfold pollfd_size. pose proof (Nat.Div0.mul_div_le (length l') 8). lia.
Qed.

Lemma set_fd_run p a b l i x :
  a <> 0 -> p_mem p !! a = Some b -> as_fds b = Some l -> (i < length l)%nat ->
  set_fd_at a i x p = Done tt (with_mem <[a := Fds (<[i := x]> l)]> p).
Proof.
  intros Ha Hb Hl Hi. unfold set_fd_at. rewrite (pbind_run _ _ _ _ _ (get_fds_run _ _ _ _ Ha Hb Hl)).
  cbv beta. by destruct (Nat.ltb_spec i (length l)); [|lia].
Qed.

(** The loop copies the rest of the source behind what it has copied. *)
Lemma copy_fds_run src ls pfds b l off from n p :
  src <> 0 -> pfds <> 0 -> src <> pfds -> p_mem p !! src = Some (Fds ls) ->
  p_mem p !! pfds = Some b -> as_fds b = Some l -> (from + n = length ls)%nat -> (length ls + off <= length l)%nat ->
  exists p' b', copy_fds src pfds off from n p = Done tt p' /\
    p_mem p' = <[pfds := b']> (p_mem p) /\
    as_fds b' = Some (take (from + off) l ++ drop from ls ++ drop (length ls + off) l) /\
    p_next p' = p_next p /\ p_oom p' = p_oom p /\ p_calls p' = p_calls p /\ (heap_ok p -> heap_ok p').
Proof.
  intros Hs0 Hp0 Hne Hs. revert from l b p Hs. induction n as [|n IH]; intros from l b p Hs Hb Hl Hn Hlen.
  - exists p, b. split; [done|]. split; [by rewrite insert_id|]. split; [|done].
    replace from with (length ls) by lia. rewrite (drop_ge ls) by lia. simpl. by rewrite take_drop.
  - cbn [copy_fds]. destruct (lookup_lt_is_Some_2 ls from ltac:(lia)) as [x Hx].
    unfold fd_at. rewrite pbind_assoc, (pbind_run _ _ _ _ _ (get_fds_run _ _ _ _ Hs0 Hs eq_refl)). cbv beta.
    rewrite Hx. unfold pbind at 1, pret at 1.
    erewrite pbind_run; [|eapply set_fd_run; [done|done|done|lia]].
    destruct (IH (S from) (<[(from + off)%nat := x]> l) (Fds (<[(from + off)%nat := x]> l))
                (with_mem <[pfds := Fds (<[(from + off)%nat := x]> l)]> p))
      as (p' & b' & Hrun & Hm & Hb' & Hrest); [simpl; by rewrite lookup_insert_ne|apply lookup_insert_eq|done|lia| |].
    { by rewrite length_insert. }
    exists p', b'. split; [exact Hrun|]. split; [rewrite Hm; simpl; by rewrite insert_insert_eq|].
    split.
    2: { destruct Hrest as (? & ? & ? & Hok). repeat (split; [done|]). intros Hp. apply Hok. eapply heap_set; [done..|].
         pose proof (as_fds_size _ _ Hl) as Hsz. cbn [block_size]. rewrite length_insert.
         unfold pollfd_size in *. lia. }
    rewrite Hb'. f_equal. rewrite (drop_S ls x from Hx).
    rewrite (drop_insert_lt _ _ (from + off)) by lia. cbn [Nat.add].
    rewrite (take_S_r _ _ x) by (apply list_lookup_insert_eq; lia).
    rewrite take_insert_ge by lia. by rewrite <- app_assoc.
Qed.

(** A device and a table for its descriptors. *)
Record fds_ready (p : process) (dev : addr) (d : alsa_dev) (lr lw : list (option pollfd)) (pfds : addr)
    (l : list (option pollfd)) : Prop := {
  fr_dev : dev <> 0 /\ p_mem p !! dev = Some (Dev d);
  fr_read : ad_read_fd d <> 0 /\ p_mem p !! ad_read_fd d = Some (Fds lr) /\ Z.of_nat (length lr) = ad_read_fds d;
  fr_write : ad_write_fd d <> 0 /\ p_mem p !! ad_write_fd d = Some (Fds lw) /\ Z.of_nat (length lw) = ad_write_fds d;
  fr_pfds : pfds <> 0 /\ pfds <> dev /\ ad_read_fd d <> pfds /\ ad_write_fd d <> pfds /\
            exists b, p_mem p !! pfds = Some b /\ as_fds b = Some l;
  fr_small : ad_read_fds d + ad_write_fds d < 2 ^ 32;
}.

(** [alsa_getfds] stores the descriptors of the capture stream, then those of
    the playback stream, and leaves the rest of the table; a table that is too
    small ends the program. *)
Lemma alsa_getfds_run p dev d lr lw pfds l nfds :
  fds_ready p dev d lr lw pfds l -> (length lr + length lw <= length l)%nat ->
  if nfds <? ad_read_fds d + ad_write_fds d
  then exists p', alsa_getfds dev pfds nfds p = Exit EXIT_FAILURE p'
  else exists p' b', alsa_getfds dev pfds nfds p = Done tt p' /\ p_mem p' = <[pfds := b']> (p_mem p) /\
    as_fds b' = Some (lr ++ lw ++ drop (length lr + length lw) l) /\
    p_next p' = p_next p /\ p_oom p' = p_oom p /\ p_calls p' = p_calls p /\ (heap_ok p -> heap_ok p').
Proof.
  intros [(Hd0 & Hd) (Hr0 & Hr & Hlr) (Hw0 & Hw & Hlw) (Hp0 & Hpd & Hrp & Hwp & b & Hb & Hl) Hsm] Hlen.
  unfold alsa_getfds, alsa_nfds. rewrite pbind_assoc, (pbind_run _ _ _ _ _ (alsa_dev_run _ _ _ _ Hd0 Hd eq_refl)).
  rewrite u32_small by lia. destruct (Z.ltb_spec nfds (ad_read_fds d + ad_write_fds d)) as [Hlt|Hge].
  { eexists. unfold pbind at 1, pret at 1, BUG_ON. by rewrite (proj2 (Z.ltb_lt _ _) Hlt). }
  rewrite (pbind_run (pret _) _ p _ p eq_refl), (proj2 (Z.ltb_ge _ _) Hge).
  rewrite (pbind_run (BUG_ON false "%s") _ p tt p eq_refl), (pbind_run _ _ _ _ _ (alsa_dev_run _ _ _ _ Hd0 Hd eq_refl)).
  destruct (copy_fds_run (ad_read_fd d) lr pfds b l 0 0 (Z.to_nat (ad_read_fds d)) p)
    as (p1 & b1 & Hrun & Hm1 & Hb1 & Hn1 & Ho1 & Hc1 & Hk1); try done; [lia|lia|].
  rewrite (pbind_run _ _ _ _ _ Hrun). cbn [Nat.add take app] in Hb1. rewrite Nat.add_0_r, drop_0 in Hb1.
  destruct (copy_fds_run (ad_write_fd d) lw pfds b1 (lr ++ drop (length lr) l) (Z.to_nat (ad_read_fds d)) 0
    (Z.to_nat (ad_write_fds d)) p1) as (p2 & b2 & Hrun2 & Hm2 & Hb2 & Hn2 & Ho2 & Hc2 & Hk2); try done.
  - by rewrite Hm1, lookup_insert_ne.
  - rewrite Hm1. apply lookup_insert_eq.
  - lia.
  - rewrite length_app, length_drop. lia.
  - exists p2, b2. split; [done|]. rewrite Hm2, Hm1, insert_insert_eq. split; [done|].
    split; [|repeat (split; [congruence|]); auto].
    rewrite Hb2. replace (Z.to_nat (ad_read_fds d)) with (length lr) by lia. cbn [Nat.add].
    rewrite drop_0, take_app_length, Nat.add_comm. do 3 f_equal. by rewrite drop_app_add, drop_drop.
Qed.

(** ** Starting *)

Lemma samples_zero n : samples_of (replicate (2 * n) 0) = replicate n 0.
Proof.
  induction n as [|n IH]; [done|]. replace (2 * S n)%nat with (S (S (2 * n))) by lia. simpl. by rewrite <- IH at 1.
Qed.

Lemma samples_at_run p a n :
  a <> 0 -> p_mem p !! a = Some (Bytes (replicate (Z.to_nat (short_size * n)) (Some 0))) -> 0 <= n ->
  samples_at a n p = Done (replicate (Z.to_nat n) 0) p.
Proof.
  intros Ha Hb Hn. unfold samples_at, short_size in *.
  erewrite pbind_run; [|eapply read_at_run; [done|done|lia|lia|rewrite length_replicate; lia]].
  rewrite drop_0, take_ge by (rewrite length_replicate; lia). unfold initialised.
  rewrite <- fmap_replicate. unfold pbind at 1. rewrite mapM_fmap_Some by done. cbn [pret].
  replace (Z.to_nat (2 * n)) with (2 * Z.to_nat n)%nat by lia. by rewrite samples_zero.
Qed.

Lemma alsa_write_same dev d pcm len p :
  dev <> 0 -> p_mem p !! dev = Some (Dev d) -> pwp (alsa_write dev pcm len) (fun _ => same_mem p) dead p.
Proof.
  intros H0 Hd. unfold alsa_write, info. apply pwp_bind. eapply pwp_of_run; [by eapply alsa_dev_run|].
  do 2 call_step. destruct (_ && _); [|unfold pwp, pret; mem_trans].
  apply pwp_bind. destruct (_ =? _); do 2 call_step; unfold pwp at 1, pret at 1; do 2 call_step;
    apply pwp_bind; (destruct (_ <? 0); [do 2 call_step|]; unfold pwp, pret; mem_trans).
Qed.
(** [alsa_start] writes two periods of silence and starts both streams; the
    heap is as before. *)
Lemma alsa_start_wp dev d p :
  heap_ok p -> dev <> 0 -> p_mem p !! dev = Some (Dev d) -> 0 < ad_period d * ad_channels d < 2 ^ 31 ->
  pwp (alsa_start dev) (fun _ p' => p_mem p' = p_mem p /\ sound_since (p_calls p) p') dead p.
Proof.
  intros Hok H0 Hd Hlen. unfold alsa_start. set (len := ad_period d * ad_channels d) in *.
  apply pwp_bind. eapply pwp_of_run; [by eapply alsa_dev_run|]. cbv zeta. fold len.
  destruct (Z.leb_spec (- 2 ^ 31) len); [|lia]. destruct (Z.ltb_spec len (2 ^ 31)); [|lia]. cbn [andb negb].
  apply pwp_bind. unfold pwp at 1, pret at 1. rewrite (u64_small len) by lia.
  rewrite u64_small by (unfold short_size; lia). rewrite (Z.mul_comm len).
  apply pwp_bind, pwp_xzmalloc; [done|unfold short_size; lia|]. intros pcm p1 Hp0 Hnew Hok1 Hc1 Hm1 _.
  assert (Hpd : pcm <> dev) by (intros ->; by rewrite Hd in Hnew).
  assert (Hmem : forall p', p_mem p' = p_mem p1 -> samples_at pcm len p' = Done (replicate (Z.to_nat len) 0) p').
  { intros p' Hm. apply samples_at_run; [done| |lia]. rewrite Hm, Hm1. apply lookup_insert_eq. }
  assert (Hdev : forall p', p_mem p' = p_mem p1 -> p_mem p' !! dev = Some (Dev d)).
  { intros p' ->. by rewrite Hm1, lookup_insert_ne. }
  apply pwp_bind. eapply pwp_of_run; [by apply Hmem|].
  apply pwp_bind. eapply pwp_mono; [apply (alsa_write_same dev d); [done|by apply Hdev]| |done].
  cbv beta. intros ? p2 Hs2. apply pwp_bind. eapply pwp_of_run; [apply Hmem, Hs2|].
  apply pwp_bind. eapply pwp_mono; [apply (alsa_write_same dev d); [done|apply Hdev, Hs2]| |done].
  cbv beta. intros ? p3 Hs3. pose proof (same_mem_trans _ _ _ Hs2 Hs3) as (Hm3 & _ & _ & Hs).
  apply pwp_bind. eapply pwp_of_run; [eapply xfree_run; [done|rewrite Hm3, Hm1; apply lookup_insert_eq]|].
  do 4 call_step. unfold pwp, pret.
  match goal with Ha : same_mem (with_mem _ _) ?q, Hb : same_mem ?q _ |- _ =>
    pose proof (same_mem_trans _ _ _ Ha Hb) as (Hm5 & _ & _ & Hs5) end.
  split; [rewrite Hm5; simpl; rewrite Hm3, Hm1; by apply delete_insert_id|].
  rewrite <- Hc1. eapply sound_trans; [exact Hs|exact Hs5].
Qed.

Lemma fds_of_none n : fds_of n (replicate (8 * n) None) = replicate n None.
Proof.
  induction n as [|n IH]; [done|]. replace (8 * S n)%nat with (8 + 8 * n)%nat by lia.
  rewrite replicate_add. cbn [fds_of]. rewrite take_app_length' by done. rewrite drop_app_length' by done.
  rewrite decide_False by done. by rewrite IH.
Qed.

Lemma as_fds_none n : as_fds (Bytes (replicate (8 * n) None)) = Some (replicate n None).
Proof.
  unfold as_fds. rewrite length_replicate. replace (8 * n / 8)%nat with n.
  - by rewrite fds_of_none.
  - by rewrite Nat.mul_comm, Nat.div_mul.
Qed.
End alsa.
