(* ===== verification/Voe.v ===== *)
(** * Voice over Ethernet (app/voe.c)

    The demo sends the sound of a microphone over a LANA socket and plays what
    comes in.  A message starts with an Ethernet header and a timestamp of four
    bytes, followed by one encoded frame; what is received starts with the
    timestamp.

    Signals are delivered between two rounds of the main loop: the handlers
    only set [sigint], print and restart the timer, and the loop looks at
    [sigint] nowhere else.  The arrays on the stack ([msg], [pcm],
    [outpacket]) are lists; [None] is a place that was not written yet. *)
From Stdlib Require Import ZArith Lia.
From stdpp Require Import base gmap numbers list strings.
From S2P Require Import Prelude CString Digits Process XMalloc Alsa.

Local Open Scope Z_scope.
Local Open Scope process_scope.

Definition AF_INET : Z := 2.
Definition SOCK_DGRAM : Z := 2.
Definition VOE_AF_LANA : Z := 27.
Definition VOE_SOCK_RAW : Z := 3.
Definition SCHED_FIFO : Z := 1.
Definition SIGINT : Z := 2.
Definition SIGALRM : Z := 14.
Definition SA_SIGINFO : Z := 4.
Definition SA_RESTART : Z := 268435456.

Definition MAX_MSG : Z := 1500.
Definition SAMPLING_RATE : Z := 48000.
Definition FRAME_SIZE : Z := 256.
Definition PACKETSIZE : Z := 43.
Definition CHANNELS : Z := 1.
Definition interval : Z := 100.

(** A sum of [int]s: leaving the range is undefined. *)
Definition int_add (a b : Z) : P Z :=
  if (- 2 ^ 31 <=? a + b) && (a + b <? 2 ^ 31) then pret (a + b) else undef Signed_overflow.

(** An [int] in memory: four bytes, the low one first. *)
Definition int_bytes (n : Z) : list Z := (fun i => u8 (Z.shiftr (u32 n) (8 * i))) <$> [0; 1; 2; 3].
Definition int_of (l : list Z) : Z :=
  s32 (nth 0 l 0 + 2 ^ 8 * nth 1 l 0 + 2 ^ 16 * nth 2 l 0 + 2 ^ 24 * nth 3 l 0).

(** ** MAC addresses *)

Definition is_space (c : Z) : bool := (c =? 32) || ((9 <=? c) && (c <=? 13)).

Fixpoint skip_space (s : cstr) : cstr :=
  match s with
  | c :: s' => if is_space c then skip_space s' else s
  | [] => []
  end.

(** The longest prefix of digits, and the rest. *)
Fixpoint span_hex (s : cstr) : cstr * cstr :=
  match s with
  | c :: s' => if is_digit 16 c then let '(d, r) := span_hex s' in (c :: d, r) else ([], s)
  | [] => ([], [])
  end.

(** The conversion "%x": white space, a sign, "0x", digits.  [None] when there
    is no number. *)
Definition scan_x (s : cstr) : option (Z * cstr) :=
  let s := skip_space s in
  let '(neg, s) :=
    match s with
    | c :: s' => if c =? 45 then (true, s') else if c =? 43 then (false, s') else (false, s)
    | [] => (false, s)
    end in
  let s := match s with
           | a :: b :: s' => if (a =? 48) && ((b =? 120) || (b =? 88)) then s' else s
           | _ => s
           end in
  let '(d, rest) := span_hex s in
  match d with
  | [] => None
  | _ => let v := digits_val 16 0 d in Some (if neg then - v else v, rest)
  end.

(** [sscanf] with [n] conversions "%x" with colons between them: the values
    that were read. *)
Fixpoint sscanf_x (n : nat) (s : cstr) : list Z :=
  match n with
  | O => []
  | S n' =>
      match scan_x s with
      | None => []
      | Some (v, rest) =>
          v :: match rest with
               | c :: rest' => if c =? 58 then sscanf_x n' rest' else []
               | [] => []
               end
      end
  end.

(** A number that does not fit into an [unsigned int], and a value that was not
    read, have no meaning. *)
Definition hack_mac (src : cstr) : P (list Z) :=
  let l := sscanf_x 6 src in
  if negb (forallb (fun v => (- 2 ^ 32 <? v) && (v <? 2 ^ 32)) l) then undef Out_of_bounds
  else if (length l <? 6)%nat then undef Uninitialised
  else pret (u8 <$> l).

(** ** State of the main loop *)

(** What does not change in the loop. *)
Record voe_conf := VoeConf {
  v_sd : Z;
  v_dev : addr;
  v_pfds : addr;
  v_nfds : Z;
  v_enc : Z;
  v_dec : Z;
  v_jitter : Z;
  v_idx : Z;
  v_mac_own : list Z;
  v_mac_remote : list Z;
}.

Record voe_state := VoeState {
  l_sigint : bool;
  l_pkts_in : Z;
  l_pkts_out : Z;
  l_msg : list (option Z);
  l_send_timestamp : Z;
  l_recv_started : bool;
}.

(** [sa.sa_data] *)
Definition sa_bytes (idx : Z) : list Z := u8 idx :: replicate 13 0.

(** [poll] stores the events of each descriptor; an interrupted one stores
    nothing. *)
Fixpoint with_revents (l : list (option pollfd)) (revs : list Z) : list (option pollfd) :=
  match l, revs with
  | f :: l', r :: revs' =>
      ((fun f => Pollfd (pfd_fd f) (pfd_events f) (Some r)) <$> f) :: with_revents l' revs'
  | _, _ => l
  end.

(** The message that is sent for a frame. *)
Definition outpacket (remote own : list Z) (timestamp : Z) (frame : list Z) : list Z :=
  remote ++ own ++ [172; 220] ++ int_bytes timestamp ++ frame.

Section voe.
Context `{Env}.

(** ** Signals *)

Definition blubber (n : Z) : Z := nth (Z.to_nat (u32 n mod 4)) [45; 92; 124; 47] 0.

Definition sighandler (nr : Z) (st : voe_state) : voe_state :=
  if nr =? SIGINT then
    VoeState true (l_pkts_in st) (l_pkts_out st) (l_msg st) (l_send_timestamp st) (l_recv_started st)
  else st.

Definition timer_elapsed (st : voe_state) : P unit :=
  do_call (Print_progress (blubber (l_pkts_in st)) (blubber (l_pkts_out st)));;
  do_call (sys_setitimer interval);;
  pret tt.

(** The handlers of the signals that were delivered, in their order. *)
Fixpoint deliver (signals : list Z) (st : voe_state) : P voe_state :=
  match signals with
  | [] => pret st
  | nr :: l =>
      (when nr =? SIGALRM do timer_elapsed st);;
      deliver l (sighandler nr st)
  end.

(** [register_signal] and [register_signal_f] of app/signals.h *)
Definition register_signal (signal : Z) : P unit := do_call (sys_sigaction signal SA_RESTART);; pret tt.
Definition register_signal_f (signal flags : Z) : P unit := do_call (sys_sigaction signal flags);; pret tt.

Definition device_ifindex (ifname : cstr) : P Z :=
  r <- do_call (sys_socket AF_INET SOCK_DGRAM 0);;
  let sock := r_ret r in
  if sock <? 0 then pret sock
  else if (16 <? length ifname)%nat then undef Out_of_bounds
  else
    r <- do_call (sys_ioctl_ifindex sock ifname);;
    let index := if r_ret r =? 0 then r_val r else -1 in
    do_call (sys_close sock);;
    pret index.

(** ** One round of the main loop *)

(** A message that was received goes to the jitter buffer. *)
Definition voe_receive (c : voe_conf) (st : voe_state) : P voe_state :=
  let msg := replicate (Z.to_nat MAX_MSG) (Some 0) in
  r <- do_call (sys_recv (v_sd c) MAX_MSG 0);;
  msg <- stored msg (r_data r);;
  let n := r_ret r in
  if n <=? 0 then
    pret (VoeState (l_sigint st) (l_pkts_in st) (l_pkts_out st) msg (l_send_timestamp st) (l_recv_started st))
  else
    pkts_in <- int_add (l_pkts_in st) 1;;
    ts <- initialised (take 4 msg);;
    let recv_timestamp := int_of ts in
    let len := u32 (n - 4) in
    (when MAX_MSG <? 4 + len do undef Out_of_bounds);;
    data <- initialised (take (Z.to_nat len) (drop 4 msg));;
    do_call (jitter_buffer_put (v_jitter c) data (u32 recv_timestamp) FRAME_SIZE 0);;
    pret (VoeState (l_sigint st) pkts_in (l_pkts_out st) msg (l_send_timestamp st) true).

(** A frame is played: the next one of the jitter buffer, or silence before
    the first message. *)
Definition voe_play (c : voe_conf) (st : voe_state) : P voe_state :=
  let pcm := replicate (Z.to_nat (FRAME_SIZE * CHANNELS)) (Some 0) in
  x <- (if l_recv_started st then
          do_call (jitter_buffer_tick (v_jitter c));;
          r <- do_call (jitter_buffer_get (v_jitter c) MAX_MSG FRAME_SIZE);;
          msg <- stored (l_msg st) (r_data r);;
          let len := u32 (r_val r) in
          (when MAX_MSG <? len do undef Out_of_bounds);;
          data <- initialised (take (Z.to_nat len) msg);;
          r <- do_call (celt_decode (v_dec c) (if len =? 0 then None else Some data) len);;
          pcm <- stored pcm (r_data r);;
          pret (msg, pcm)
        else pret (l_msg st, pcm));;
  let '(msg, pcm) := x in
  samples <- initialised pcm;;
  alsa_write (v_dev c) samples FRAME_SIZE;;
  pret (VoeState (l_sigint st) (l_pkts_in st) (l_pkts_out st) msg (l_send_timestamp st) (l_recv_started st)).

(** A frame is recorded, encoded and sent. *)
Definition voe_capture (c : voe_conf) (st : voe_state) : P voe_state :=
  let pcm := replicate (Z.to_nat (FRAME_SIZE * CHANNELS)) None in
  let out := replicate (Z.to_nat MAX_MSG) None in
  x <- alsa_read (v_dev c) pcm FRAME_SIZE;;
  samples <- initialised x.2;;
  r <- do_call (celt_encode (v_enc c) samples PACKETSIZE);;
  tail <- stored (drop 18 out) (r_data r);;
  let out := (Some <$> (v_mac_remote c ++ v_mac_own c ++ [172; 220] ++ int_bytes (l_send_timestamp st))) ++ tail in
  send_timestamp <- int_add (l_send_timestamp st) FRAME_SIZE;;
  data <- initialised (take (Z.to_nat (PACKETSIZE + 4 + 6 + 6 + 2)) out);;
  r <- do_call (sys_sendto (v_sd c) data 0 VOE_AF_LANA (sa_bytes (v_idx c)));;
  (when r_ret r <? 0 do panic "cannot send to socket");;
  pkts_out <- int_add (l_pkts_out st) 1;;
  pret (VoeState (l_sigint st) (l_pkts_in st) pkts_out (l_msg st) send_timestamp (l_recv_started st)).

Definition voe_poll (c : voe_conf) : P unit :=
  l <- get_fds (v_pfds c);;
  r <- do_call (sys_poll l (-1));;
  set_block (v_pfds c) (Fds (with_revents l (r_data r))).

Definition voe_round (c : voe_conf) (st : voe_state) : P voe_state :=
  voe_poll c;;
  revents <- revents_at (v_pfds c) (Z.to_nat (v_nfds c));;
  st <- (if negb (Z.land revents POLLIN =? 0) then voe_receive c st else pret st);;
  play <- alsa_play_ready (v_dev c) (v_pfds c);;
  st <- (if negb (play =? 0) then voe_play c st else pret st);;
  cap <- alsa_cap_ready (v_dev c) (v_pfds c);;
  if negb (cap =? 0) then voe_capture c st else pret st.

(** [while (!sigint)], at most [fuel] rounds; [None] when they are not
    enough. *)
Fixpoint voe_loop (fuel : nat) (c : voe_conf) (st : voe_state) : P (option voe_state) :=
  r <- do_call Signals;;
  st <- deliver (r_data r) st;;
  if l_sigint st then pret (Some st)
  else
    match fuel with
    | O => pret None
    | S fuel' => st <- voe_round c st;; voe_loop fuel' c st
    end.

(** ** The program *)

Definition eth0 : cstr := [101; 116; 104; 48].

(** The socket, bound to the device. *)
Definition voe_socket : P (Z * Z) :=
  idx <- device_ifindex eth0;;
  (when idx <? 0 do panic "device_ifindex fucked up!");;
  r <- do_call (sys_socket VOE_AF_LANA VOE_SOCK_RAW 0);;
  let sd := r_ret r in
  (when sd <? 0 do panic "%s: cannot open socket");;
  r <- do_call (sys_bind sd VOE_AF_LANA (sa_bytes idx));;
  (when r_ret r <? 0 do panic "bind fucked up!");;
  pret (sd, idx).

(** The descriptors of the sound device, then the socket, whose [revents]
    stays as [malloc] left it. *)
Definition voe_pfds (dev : addr) (sd : Z) : P (addr * Z) :=
  nfds <- alsa_nfds dev;;
  let nfds := s32 nfds in
  n <- int_add nfds 1;;
  pfds <- xmalloc (u64 (pollfd_size * u64 n));;
  alsa_getfds dev pfds (u32 nfds);;
  (if nfds <? 0 then undef Out_of_bounds else set_fd_at pfds (Z.to_nat nfds) (Some (Pollfd sd POLLIN None)));;
  pret (pfds, nfds).

(** From the opening of the sound device to the end of the program. *)
Definition voe_session (fuel : nat) (sd idx : Z) (mac_own mac_remote : list Z) (devname : addr) : P (option Z) :=
  dev <- alsa_open devname SAMPLING_RATE CHANNELS FRAME_SIZE;;
  r <- do_call (celt_mode_create SAMPLING_RATE FRAME_SIZE);;
  let mode := r_val r in
  enc <- do_call (celt_encoder_create mode CHANNELS);;
  dec <- do_call (celt_decoder_create mode CHANNELS);;
  r <- do_call (sys_sched_get_priority_min SCHED_FIFO);;
  r <- do_call (sys_sched_setscheduler SCHED_FIFO (r_ret r));;
  (when negb (r_ret r =? 0) do whine "sched_setscheduler error!");;
  x <- voe_pfds dev sd;;
  jitter <- do_call (jitter_buffer_init FRAME_SIZE);;
  do_call (jitter_buffer_set_margin (r_val jitter) FRAME_SIZE);;
  echo <- do_call (speex_echo_state_init FRAME_SIZE (10 * FRAME_SIZE));;
  do_call (speex_echo_set_sampling_rate (r_val echo) SAMPLING_RATE);;
  register_signal_f SIGALRM SA_SIGINFO;;
  alsa_start dev;;
  do_call (Print_stdout "ALSA started!");;
  do_call (sys_setitimer interval);;
  let c := VoeConf sd dev x.1 x.2 (r_val enc) (r_val dec) (r_val jitter) idx mac_own mac_remote in
  st <- voe_loop fuel c (VoeState false 0 0 (replicate (Z.to_nat MAX_MSG) None) 0 false);;
  match st with
  | None => pret None
  | Some _ =>
      do_call (sys_setitimer 0);;
      do_call (sys_close sd);;
      pret (Some 0)
  end.

Definition voe_main (fuel : nat) (argv : list addr) : P (option Z) :=
  match argv with
  | [_; devname; lmac; rmac] =>
      register_signal SIGINT;;
      s <- string_at lmac;;
      mac_own <- hack_mac s;;
      s <- string_at rmac;;
      mac_remote <- hack_mac s;;
      x <- voe_socket;;
      do_call (Print_stdout "If ready hit key!");;
      do_call sys_getchar;;
      voe_session fuel x.1 x.2 mac_own mac_remote devname
  | _ => panic "Usage %s plughw:0,0 <lmac in xx:xx:xx:xx:xx:xx> <rmac>"
  end.
End voe.
