(* ===== verification/VoeProps.v ===== *)
(** * Theorems on the voice demo (app/voe.c)

    The laws of the libraries are what they document, errors included.  Under
    these laws the main loop does something undefined only after an answer it
    does not check for, or after very many frames; the messages it sends are a
    stream of frames with increasing timestamps; it ends on the signal. *)
From Stdlib Require Import ZArith Lia.
From stdpp Require Import base gmap numbers list strings.
From S2P Require Import Prelude CString Digits Process XMalloc Alsa AlsaProps Voe.

Local Open Scope Z_scope.
Local Open Scope process_scope.

(** The messages sent, in order. *)
Definition sent_by (c : call) : option (list Z) :=
  match c with sys_sendto _ data _ _ _ => Some data | _ => None end.
Definition sends (calls : list call) : list (list Z) := omap sent_by calls.

(** The process has polled. *)
Definition is_poll (c : call) : bool := match c with sys_poll _ _ => true | _ => false end.
Definition polled (calls : list call) : Prop := Exists is_poll calls.

Lemma polled_prefix l1 l2 : l1 `prefix_of` l2 -> polled l1 -> polled l2.
Proof. intros [k ->] Hl. apply Exists_app. by left. Qed.

Lemma sends_app l1 l2 : sends (l1 ++ l2) = sends l1 ++ sends l2.
Proof. apply omap_app. Qed.

(** A stream: frame [i] is sent with timestamp [256 * i]. *)
Definition stream (remote own : list Z) (l : list (list Z)) : Prop :=
  exists frames, Forall (fun f => length f = 43%nat) frames /\
    l = imap (fun i f => outpacket remote own (FRAME_SIZE * Z.of_nat i) f) frames.

Lemma stream_snoc remote own l f :
  stream remote own l -> length f = 43%nat ->
  stream remote own (l ++ [outpacket remote own (FRAME_SIZE * Z.of_nat (length l)) f]).
Proof.
  intros (fs & Hfs & ->) Hf. exists (fs ++ [f]). rewrite Forall_app, imap_app, length_imap. split; [by repeat constructor|].
  simpl. by rewrite Nat.add_0_r.
Qed.

(** The counters after [n] rounds, and the buffer. *)
Record counted (n : Z) (st : voe_state) : Prop := {
  ct_in : 0 <= l_pkts_in st <= n;
  ct_out : 0 <= l_pkts_out st;
  ct_ts : l_send_timestamp st = FRAME_SIZE * l_pkts_out st;
  ct_msg : length (l_msg st) = Z.to_nat MAX_MSG;
}.

(** What a step of the round keeps. *)
Abbreviation unsent n st := (fun st' : voe_state =>
  counted n st' /\ l_pkts_out st' = l_pkts_out st /\ l_sigint st' = l_sigint st).

(** How often the process has looked for signals. *)
Definition ticks (calls : list call) : nat :=
  length (omap (fun c => match c with Signals => Some tt | _ => None end) calls).

Lemma ticks_prefix l1 l2 : l1 `prefix_of` l2 -> (ticks l1 <= ticks l2)%nat.
Proof. intros [k ->]. unfold ticks. rewrite omap_app, length_app. lia. Qed.

Lemma ticks_snoc l : ticks (l ++ [Signals]) = S (ticks l).
Proof. unfold ticks. rewrite omap_app, length_app. simpl. lia. Qed.

Lemma sends_prefix l1 l2 : l1 `prefix_of` l2 -> (length (sends l1) <= length (sends l2))%nat.
Proof. intros [k ->]. rewrite sends_app, length_app. lia. Qed.

Section voe.
Context `{Env}.

(** What the libraries and the kernel promise of their answers, errors
    included. *)
Record env_ok : Prop := {
  eo_fit : descriptors_fit;
  (* no more descriptors than a process can have open (NR_OPEN) *)
  eo_count : forall calls h, 0 <= r_ret (env calls (snd_pcm_poll_descriptors_count h)) <= 1048576;
  (* poll stores the events of all descriptors, or fails *)
  eo_poll : forall calls l t, let r := env calls (sys_poll l t) in 0 <= r_ret r -> length (r_data r) = length l;
  (* what is received fits into the buffer and is as long as the result says *)
  eo_recv : forall calls sd len fl, 0 <= len -> let r := env calls (sys_recv sd len fl) in
    Z.of_nat (length (r_data r)) <= len /\ (0 < r_ret r -> r_ret r = Z.of_nat (length (r_data r)));
  (* so do samples, encoded bytes, decoded samples and frames of the jitter buffer *)
  eo_readi : forall calls h len, 0 <= len -> let r := env calls (snd_pcm_readi h len) in
    Z.of_nat (length (r_data r)) <= len /\ (0 <= r_ret r -> r_ret r = Z.of_nat (length (r_data r)));
  eo_encode : forall calls e pcm len, 0 <= len -> let r := env calls (celt_encode e pcm len) in
    Z.of_nat (length (r_data r)) <= len /\ (0 <= r_ret r -> r_ret r = Z.of_nat (length (r_data r)));
  eo_decode : forall calls d data len, Z.of_nat (length (r_data (env calls (celt_decode d data len)))) <= FRAME_SIZE;
  eo_get : forall calls j len span, 0 <= len -> let r := env calls (jitter_buffer_get j len span) in
    r_val r = Z.of_nat (length (r_data r)) /\ r_val r <= len;
}.

(** ** Answers the demo does not check for *)

(** A message shorter than a timestamp; an overrun, an error or a short read of
    the microphone; an error of the encoder; a first poll that fails. *)
Definition unchecked (calls : list call) (c : call) : Prop :=
  let r := env calls c in
  match c with
  | sys_recv _ _ _ => 0 < r_ret r < 4
  | snd_pcm_readi _ len => r_ret r < len
  | celt_encode _ _ len => r_ret r < len
  | sys_poll _ _ => r_ret r < 0 /\ ~ polled calls
  | _ => False
  end.

(** The run got such an answer, or has sent [2 ^ 23 - 1] frames, or has done
    [2 ^ 31 - 1] rounds. *)
Definition faulted (calls : list call) : Prop :=
  (exists pre c, pre ++ [c] `prefix_of` calls /\ unchecked pre c) \/
  2 ^ 23 - 1 <= Z.of_nat (length (sends calls)) \/ 2 ^ 31 - 1 <= Z.of_nat (ticks calls).

Lemma faulted_prefix l1 l2 : l1 `prefix_of` l2 -> faulted l1 -> faulted l2.
Proof.
  intros Hp [(pre & c & Hc & Hu)|[Hs|Ht]].
  - left. exists pre, c. split; [by etrans|done].
  - right. left. pose proof (sends_prefix _ _ Hp). lia.
  - right. right. pose proof (ticks_prefix _ _ Hp). lia.
Qed.

Lemma faulted_app l k : faulted l -> faulted (l ++ k).
Proof. apply faulted_prefix. by apply prefix_app_r. Qed.

Lemma faulted_call l c : unchecked l c -> faulted (l ++ [c]).
Proof. intros Hu. left. by exists l, c. Qed.

(** How a run may end other than by returning. *)
Definition ends (e : ending) (p : process) : Prop :=
  match e with Exited s => s = EXIT_FAILURE | Undefined _ => faulted (p_calls p) end.

Lemma pwp_ends {A} (m : P A) (Q Q' : A -> process -> Prop) p :
  pwp m Q (fun e _ => e = Exited EXIT_FAILURE) p -> (forall a p', Q a p' -> Q' a p') -> pwp m Q' ends p.
Proof. intros Hm HQ. eapply pwp_mono; [exact Hm|exact HQ|]. by intros ? ? ->. Qed.

Hypothesis Henv : env_ok.

(** ** Memory in the loop *)

(** The device and the descriptors are there, [sent] was sent, and [base] are
    the first calls of the process. *)
Record good (base : list call) (c : voe_conf) (d : alsa_dev) (sent : list (list Z)) (p : process) : Prop := {
  g_dev : v_dev c <> 0 /\ p_mem p !! v_dev c = Some (Dev d);
  g_fds : v_pfds c <> 0 /\ v_pfds c <> v_dev c /\ exists b l, p_mem p !! v_pfds c = Some b /\ as_fds b = Some l /\
            Forall is_Some l /\ Z.of_nat (length l) = ad_read_fds d + ad_write_fds d + 1;
  g_nfds : v_nfds c = ad_read_fds d + ad_write_fds d /\ 0 < ad_read_fds d /\ 0 < ad_write_fds d;
  g_polled : polled (p_calls p) -> faulted (p_calls p) \/
               exists b l, p_mem p !! v_pfds c = Some b /\ as_fds b = Some l /\
               Forall (fun x => is_Some (x ≫= pfd_revents)) l;
  g_sent : sends (p_calls p) = sent;
  g_base : base `prefix_of` p_calls p;
}.

(** A call that neither sends nor polls. *)
Definition quiet (x : call) : bool := negb (is_poll x) && bool_decide (sent_by x = None).

Lemma polled_snoc l x : is_poll x = false -> polled (l ++ [x]) -> polled l.
Proof. intros Hx [?|[Hy|[]%Exists_nil]%Exists_cons]%Exists_app; [done|]. by rewrite Hx in Hy. Qed.

Lemma good_call base c d sent p x : good base c d sent p -> quiet x = true -> good base c d sent (with_call x p).
Proof.
  intros [? ? ? Hp ? ?] [Hx%negb_true_iff Hs%bool_decide_eq_true]%andb_true_iff. split; try done; simpl.
  - intros Hl. destruct (Hp (polled_snoc _ _ Hx Hl)) as [Hf|?]; [|by right].
    left. by apply faulted_app.
  - rewrite sends_app. simpl. rewrite Hs. by rewrite app_nil_r.
  - by apply prefix_app_r.
Qed.

Lemma good_rebase base c d sent p : good base c d sent p -> good (p_calls p) c d sent p.
Proof. intros []. by split. Qed.

Lemma good_weaken base base' c d sent p :
  base' `prefix_of` base -> good base c d sent p -> good base' c d sent p.
Proof. intros Hb []. split; try done. by etrans. Qed.

Lemma pwp_good base c d sent x Q E p :
  good base c d sent p -> quiet x = true ->
  (forall r p', r = env (p_calls p) x -> good base c d sent p' -> Q r p') -> pwp (do_call x) Q E p.
Proof. intros Hg Hx HQ. unfold pwp, do_call. apply HQ; [done|]. by apply good_call. Qed.

Lemma pwp_do_call x (Q : reply -> process -> Prop) E p :
  Q (env (p_calls p) x) (with_call x p) -> pwp (do_call x) Q E p.
Proof. done. Qed.

Lemma pwp_ret {A} (a : A) (Q : A -> process -> Prop) E p : Q a p -> pwp (pret a) Q E p.
Proof. done. Qed.

Lemma good_get base c d sent p : good base c d sent p -> get_dev (v_dev c) p = Done d p.
Proof. intros [[? ?] _ _ _ _ _]. by eapply alsa_dev_run. Qed.

(** One step of the loop's code: calls that send nothing. *)
Ltac good_step :=
  lazymatch goal with
  | |- pwp (pbind (pbind _ _) _) _ _ _ => apply pwp_bind
  | |- pwp (pbind _ _) _ _ _ => apply pwp_bind
  | |- pwp (pret _) _ _ _ => apply pwp_ret
  | Hg : good _ _ _ _ ?p |- pwp (do_call _) _ _ ?p =>
      eapply pwp_good; [exact Hg|done|]; clear Hg; intros ? ? ? Hg
  | Hg : good _ _ _ _ ?p |- pwp (get_dev _) _ _ ?p => eapply pwp_of_run; [exact (good_get _ _ _ _ _ Hg)|]
  | |- pwp (if ?b then _ else _) _ _ _ => destruct b eqn:?
  | |- pwp (info _) _ _ _ => unfold info
  | |- pwp (whine _) _ _ _ => unfold whine
  | |- pwp (panic _) _ _ _ => reflexivity
  end; cbv beta.
Ltac good_steps := repeat good_step.

Lemma mapM_some {A} (l : list A) : mapM id (Some <$> l) = Some l.
Proof. by apply mapM_fmap_Some. Qed.

Lemma initialised_run {A} (l : list A) p : initialised (Some <$> l) p = Done l p.
Proof. unfold initialised. by rewrite mapM_some. Qed.

Lemma initialised_none {A} (l : list (option A)) p : None ∈ l -> initialised l p = Undef Uninitialised p.
Proof.
  intros Hl. unfold initialised. destruct (mapM id l) as [v|] eqn:E; [|done].
  apply mapM_Some in E. apply list_elem_of_lookup in Hl as [i Hi].
  by destruct (Forall2_lookup_l _ _ _ _ _ E Hi) as (y & _ & Hy).
Qed.

(** A value that was not written is used only after a fault. *)
Lemma pwp_initialised {A} (l : list (option A)) (Q : list A -> process -> Prop) p :
  (forall v, l = Some <$> v -> Q v p) -> (exists v, l = Some <$> v) \/ faulted (p_calls p) -> pwp (initialised l) Q ends p.
Proof.
  intros HQ Hl. unfold pwp, initialised. destruct (mapM id l) as [v|] eqn:E.
  - apply HQ. apply mapM_Some in E. clear -E. induction E as [|x y l k Hxy _ IH]; [done|]. rewrite fmap_cons, <- IH. by f_equal.
  - destruct Hl as [[v ->]|Hf]; [|exact Hf]. by rewrite mapM_some in E.
Qed.

Lemma stored_run buf v p :
  (length v <= length buf)%nat -> stored buf v p = Done ((Some <$> v) ++ drop (length v) buf) p.
Proof. intros Hl. unfold stored. by destruct (Nat.ltb_spec (length buf) (length v)); [lia|]. Qed.

(** ** The steps of a round *)

Lemma alsa_write_wp base c d sent pcm len p :
  good base c d sent p -> pwp (alsa_write (v_dev c) pcm len) (fun _ => good base c d sent) ends p.
Proof. intros Hg. unfold alsa_write. good_steps; assumption. Qed.

(** A whole frame is read, unless the device could not be read. *)
Lemma alsa_read_wp base c d sent p :
  good base c d sent p ->
  pwp (alsa_read (v_dev c) (replicate (Z.to_nat (FRAME_SIZE * CHANNELS)) None) FRAME_SIZE)
    (fun x p' => good base c d sent p' /\ ((exists v, x.2 = Some <$> v) \/ faulted (p_calls p'))) ends p.
Proof.
  intros Hg. unfold alsa_read. do 2 good_step. apply pwp_bind. apply pwp_do_call.
  set (x := snd_pcm_readi (ad_capture_handle d) FRAME_SIZE).
  assert (Hg1 : good base c d sent (with_call x p)) by (by apply good_call).
  destruct (eo_readi Henv (p_calls p) (ad_capture_handle d) FRAME_SIZE ltac:(done)) as [Hl Hret]. fold x in Hl, Hret.
  assert (Hu : r_ret (env (p_calls p) x) < FRAME_SIZE -> faulted (p_calls p ++ [x])) by (apply (faulted_call (p_calls p) x)).
  generalize dependent (env (p_calls p) x). intros r Hl Hret Hu. unfold FRAME_SIZE, CHANNELS in *. apply pwp_bind.
  eapply pwp_of_run; [apply stored_run; rewrite length_replicate; lia|].
  destruct (Z.ltb_spec (r_ret r) 256) as [Hlt|Hge].
  - specialize (Hu Hlt). pose proof (g_base _ _ _ _ _ Hg1) as Hb. apply good_rebase in Hg1.
    apply (pwp_mono _ (fun _ => good (p_calls p ++ [x]) c d sent) _ ends); [good_steps; done| |done].
    intros y p' Hg'. split; [by eapply good_weaken|]. right. by eapply faulted_prefix; [apply (g_base _ _ _ _ _ Hg')|].
  - destruct (Z.ltb_spec (r_ret r) 0); [lia|]. rewrite andb_false_r. apply pwp_ret. split; [done|]. left.
    rewrite drop_ge by (rewrite length_replicate; lia). rewrite app_nil_r. by eexists.
Qed.

Lemma with_revents_length l revs : length (with_revents l revs) = length l.
Proof. revert revs. induction l as [|f l IH]; intros [|r revs]; simpl; auto. Qed.

Lemma with_revents_some l revs : Forall is_Some l -> Forall is_Some (with_revents l revs).
Proof.
  intros Hl. revert revs. induction Hl as [|f l [x ->] Hl IH]; intros [|r revs]; simpl; constructor; eauto.
Qed.

Lemma good_fds base c d sent p :
  good base c d sent p -> exists l, get_fds (v_pfds c) p = Done l p /\ Forall is_Some l /\
    Z.of_nat (length l) = ad_read_fds d + ad_write_fds d + 1.
Proof.
  intros [_ (H0 & _ & b & l & Hb & Hl & Hs & Hn) _ _ _ _]. exists l. split; [by eapply get_fds_run|done].
Qed.

Lemma with_revents_all l revs :
  Forall is_Some l -> length revs = length l -> Forall (fun x => is_Some (x ≫= pfd_revents)) (with_revents l revs).
Proof.
  intros Hl. revert revs. induction Hl as [|f l [x ->] Hl IH]; intros [|r revs] Hr; simplify_eq/=; constructor; [done|].
  by apply IH.
Qed.

Lemma with_revents_keep l revs :
  Forall (fun x => is_Some (x ≫= pfd_revents)) l -> Forall (fun x => is_Some (x ≫= pfd_revents)) (with_revents l revs).
Proof.
  intros Hl. revert revs. induction Hl as [|f l [x Hx] Hl IH]; intros [|r revs]; simpl; constructor; eauto.
  by destruct f.
Qed.

(** After the first poll the events of all descriptors are there, and stay
    there. *)
Lemma voe_poll_wp base c d sent p :
  good base c d sent p -> pwp (voe_poll c) (fun _ p' => good base c d sent p' /\ polled (p_calls p')) ends p.
Proof.
  intros Hg. unfold voe_poll. apply pwp_bind. destruct (good_fds _ _ _ _ _ Hg) as (l & Hrun & Hs & Hn).
  eapply pwp_of_run; [exact Hrun|]. apply pwp_bind. apply pwp_do_call. unfold pwp, set_block.
  destruct Hg as [[Hd0 Hd] (Hp0 & Hne & b & l' & Hb & Hl & _) Hnf Hpol Hsent Hpre].
  assert (l' = l) as -> by (rewrite (get_fds_run _ _ _ _ Hp0 Hb Hl) in Hrun; congruence). split.
  2: { simpl. apply Exists_app. right. by constructor. }
  split; simpl; try done.
  - by rewrite lookup_insert_ne.
  - split; [done|]. split; [done|]. eexists _, _. split; [apply lookup_insert_eq|]. split; [done|].
    split; [by apply with_revents_some|]. by rewrite with_revents_length.
  - intros _. destruct (Exists_dec is_poll (p_calls p)) as [Hy|Hno].
    + destruct (Hpol Hy) as [Hf|(b2 & l2 & Hb2 & Hl2 & Hall)].
      { left. by apply faulted_app. }
      simplify_eq. right. eexists _, _. split; [apply lookup_insert_eq|]. split; [done|]. by apply with_revents_keep.
    + destruct (decide (0 <= r_ret (env (p_calls p) (sys_poll l (-1))))) as [Hret|Hneg].
      * right. eexists _, _. split; [apply lookup_insert_eq|]. split; [done|].
        apply with_revents_all; [done|]. by apply (eo_poll Henv).
      * left. apply faulted_call. split; [lia|done].
  - by rewrite sends_app, Hsent, app_nil_r.
  - by apply prefix_app_r.
Qed.

Lemma revents_wp base c d sent i Q p :
  good base c d sent p -> polled base -> Z.of_nat i <= ad_read_fds d + ad_write_fds d ->
  (forall v, Q v p) -> pwp (revents_at (v_pfds c) i) Q ends p.
Proof.
  intros Hg Hb Hi HQ. destruct (good_fds _ _ _ _ _ Hg) as (l & Hrun & Hs & Hn). unfold revents_at, fd_at.
  do 2 apply pwp_bind. eapply pwp_of_run; [exact Hrun|].
  destruct (lookup_lt_is_Some_2 l i ltac:(lia)) as [x Hx]. rewrite Hx. apply pwp_ret.
  destruct (x ≫= pfd_revents) as [v|] eqn:Ev; [by apply pwp_ret|].
  destruct (g_polled _ _ _ _ _ Hg) as [Hf|(b & l' & Hb' & Hl' & Hall)]; [by eapply polled_prefix; [apply Hg|]|exact Hf|].
  destruct (g_fds _ _ _ _ _ Hg) as (H0 & _). rewrite (get_fds_run _ _ _ _ H0 Hb' Hl') in Hrun. simplify_eq.
  destruct (Forall_lookup_1 _ _ _ _ Hall Hx) as [v Hv]. congruence.
Qed.

Lemma fds_part_wp base c d sent off n Q p :
  good base c d sent p -> off + n <= ad_read_fds d + ad_write_fds d ->
  (forall l, Q l p) -> pwp (fds_part (v_pfds c) off n) Q ends p.
Proof.
  intros Hg Hi HQ. destruct (good_fds _ _ _ _ _ Hg) as (l & Hrun & Hs & Hn). unfold fds_part.
  apply pwp_bind. eapply pwp_of_run; [exact Hrun|].
  destruct (Z.ltb_spec (Z.of_nat (length l)) (off + n)); [lia|]. apply pwp_ret, HQ.
Qed.

Lemma alsa_play_ready_wp base c d sent p :
  good base c d sent p -> polled base -> pwp (alsa_play_ready (v_dev c) (v_pfds c)) (fun _ => good base c d sent) ends p.
Proof.
  intros Hg Hpoll. destruct (g_nfds _ _ _ _ _ Hg) as (_ & Hr & Hw). unfold alsa_play_ready. do 3 good_step.
  eapply fds_part_wp; [exact Hg|lia|]. intros l. good_steps; [|assumption].
  eapply revents_wp; [exact Hg|done|lia|]. intros v. by apply pwp_ret.
Qed.

Lemma alsa_cap_ready_wp base c d sent p :
  good base c d sent p -> polled base -> pwp (alsa_cap_ready (v_dev c) (v_pfds c)) (fun _ => good base c d sent) ends p.
Proof.
  intros Hg Hpoll. destruct (g_nfds _ _ _ _ _ Hg) as (_ & Hr & Hw). unfold alsa_cap_ready. do 3 good_step.
  eapply fds_part_wp; [exact Hg|lia|]. intros l. good_steps; [|assumption].
  eapply revents_wp; [exact Hg|done|lia|]. intros v. by apply pwp_ret.
Qed.

Lemma int_add_run a b p : - 2 ^ 31 <= a + b < 2 ^ 31 -> int_add a b p = Done (a + b) p.
Proof.
  intros Hr. unfold int_add. by destruct (Z.leb_spec (- 2 ^ 31) (a + b)), (Z.ltb_spec (a + b) (2 ^ 31)); try lia.
Qed.

(** A sum overflows only after a fault. *)
Lemma pwp_int_add a b (Q : Z -> process -> Prop) p :
  - 2 ^ 31 <= a + b -> (a + b < 2 ^ 31 -> Q (a + b) p) -> (2 ^ 31 <= a + b -> faulted (p_calls p)) ->
  pwp (int_add a b) Q ends p.
Proof.
  intros Hlo HQ Hf. unfold pwp, int_add. destruct (Z.leb_spec (- 2 ^ 31) (a + b)); [|lia].
  destruct (Z.ltb_spec (a + b) (2 ^ 31)); simpl; [by apply HQ|by apply Hf].
Qed.

Lemma voe_receive_wp base c d sent n st p :
  good base c d sent p -> counted n st -> n <= Z.of_nat (ticks base) ->
  pwp (voe_receive c st) (fun st' p' => good base c d sent p' /\ unsent (n + 1) st st') ends p.
Proof.
  intros Hg [Hin Hout Hts Hmsg] Hn. unfold voe_receive. cbv zeta. apply pwp_bind. apply pwp_do_call.
  set (x := sys_recv (v_sd c) MAX_MSG 0).
  assert (Hg1 : good base c d sent (with_call x p)) by (by apply good_call).
  destruct (eo_recv Henv (p_calls p) (v_sd c) MAX_MSG 0 ltac:(done)) as [Hl Hret]. fold x in Hl, Hret.
  assert (Hu : 0 < r_ret (env (p_calls p) x) < 4 -> faulted (p_calls p ++ [x])) by (apply (faulted_call (p_calls p) x)).
  set (v := r_data (env (p_calls p) x)) in *. set (ret := r_ret (env (p_calls p) x)) in *.
  apply pwp_bind. unfold MAX_MSG in *. eapply pwp_of_run; [apply stored_run; rewrite length_replicate; lia|].
  assert (Hlen : length ((Some <$> v) ++ drop (length v) (replicate (Z.to_nat 1500) (Some 0))) = Z.to_nat 1500).
  { rewrite length_app, length_fmap, length_drop, length_replicate. lia. }
  destruct (Z.leb_spec ret 0) as [|Hpos].
  { apply pwp_ret. split; [done|]. split; [|done]. split; simpl; (lia || done). }
  specialize (Hret Hpos). apply pwp_bind, pwp_int_add; [lia| |].
  2: { intros Hov. right. right. pose proof (ticks_prefix _ _ (g_base _ _ _ _ _ Hg1)). lia. }
  intros Hlt. apply pwp_bind. rewrite drop_replicate, <- fmap_replicate, <- fmap_app. rewrite <- fmap_take.
  eapply pwp_of_run; [apply initialised_run|]. apply pwp_bind.
  destruct (Z.ltb_spec ret 4) as [Hshort|H4].
  - specialize (Hu ltac:(lia)). destruct (Z.ltb_spec 1500 (4 + u32 (ret - 4))); [exact Hu|].
    pose proof (Z.mod_unique (ret - 4) (2 ^ 32) (-1) (ret - 4 + 2 ^ 32)) as Hm. unfold u32 in *. lia.
  - rewrite u32_small by lia. destruct (Z.ltb_spec 1500 (4 + (ret - 4))); [lia|]. apply pwp_ret. apply pwp_bind.
    rewrite <- fmap_drop, <- fmap_take. eapply pwp_of_run; [apply initialised_run|].
    good_steps. split; [done|]. split; [|done].
    rewrite drop_replicate, <- fmap_replicate, <- fmap_app in Hlen. split; simpl; (lia || done).
Qed.

Lemma voe_play_wp base c d sent n st p :
  good base c d sent p -> counted n st ->
  pwp (voe_play c st) (fun st' p' => good base c d sent p' /\ unsent n st st') ends p.
Proof.
  intros Hg [Hin Hout Hts Hmsg]. unfold voe_play. cbv zeta.
  apply pwp_bind. apply (pwp_mono _ (fun x p' => good base c d sent p' /\ length x.1 = Z.to_nat MAX_MSG /\
    exists v, x.2 = Some <$> v) _ ends); [| |done].
  - destruct (l_recv_started st).
    2: { apply pwp_ret. split; [done|]. split; [done|]. exists (replicate (Z.to_nat (FRAME_SIZE * CHANNELS)) 0).
         by rewrite fmap_replicate. }
    do 4 good_step. apply pwp_bind.
    match goal with Hr : ?x = env (p_calls ?q) (jitter_buffer_get _ _ _) |- _ => rename x into rg; destruct (eo_get Henv (p_calls q) (v_jitter c) MAX_MSG FRAME_SIZE ltac:(done)) as [Hval Hle];
      rewrite <- Hr in Hval, Hle end.
    eapply pwp_of_run; [apply stored_run; rewrite Hmsg; unfold MAX_MSG in *; lia|].
    unfold MAX_MSG in *. rewrite u32_small by lia. destruct (Z.ltb_spec 1500 (r_val rg)); [lia|]. do 2 good_step.
    apply pwp_bind. rewrite take_app_le by (rewrite length_fmap; lia). rewrite take_ge by (rewrite length_fmap; lia).
    eapply pwp_of_run; [apply initialised_run|]. do 2 good_step. apply pwp_bind.
    match goal with Hr : ?x = env (p_calls ?q) (celt_decode ?y ?z ?w) |- _ =>
      pose proof (eo_decode Henv (p_calls q) y z w) as Hd; rewrite <- Hr in Hd end.
    unfold FRAME_SIZE, CHANNELS in *.
    eapply pwp_of_run; [apply stored_run; rewrite length_replicate; lia|]. apply pwp_ret. split; [done|]. split.
    + simpl. rewrite length_app, length_fmap, length_drop. lia.
    + rewrite drop_replicate, <- fmap_replicate, <- fmap_app. by eexists.
  - intros [msg pcm] p1 (Hg1 & Hl & v & Hv). cbn [fst snd] in *. subst pcm. apply pwp_bind.
    eapply pwp_of_run; [apply initialised_run|]. apply pwp_bind.
    eapply pwp_mono; [by eapply alsa_write_wp| |done]. intros ? p2 Hg2. apply pwp_ret.
    split; [done|]. split; [|done]. by split.
Qed.

(** A round sends at most one message: the next one of the stream. *)
Lemma voe_capture_wp base c d sent n st p :
  good base c d sent p -> counted n st -> l_pkts_out st = Z.of_nat (length sent) ->
  length (v_mac_remote c) = 6%nat -> length (v_mac_own c) = 6%nat ->
  pwp (voe_capture c st) (fun st' p' => counted n st' /\ l_sigint st' = l_sigint st /\
    l_pkts_out st' = l_pkts_out st + 1 /\
    exists f, length f = 43%nat /\
      good base c d (sent ++ [outpacket (v_mac_remote c) (v_mac_own c) (l_send_timestamp st) f]) p') ends p.
Proof.
  intros Hg [Hin Hout Hts Hmsg] Hsent Hm1 Hm2. unfold voe_capture. cbv zeta. apply pwp_bind.
  eapply pwp_mono; [by eapply alsa_read_wp| |done]. intros [ret pcm] p1 (Hg1 & Hv). cbn [snd] in *.
  apply pwp_bind, pwp_initialised; [|exact Hv]. clear Hg Hv p. intros v _.
  apply pwp_bind. apply pwp_do_call. set (x := celt_encode (v_enc c) v PACKETSIZE).
  assert (Hg2 : good base c d sent (with_call x p1)) by (by apply good_call).
  destruct (eo_encode Henv (p_calls p1) (v_enc c) v PACKETSIZE ltac:(done)) as [Hl Hret]. fold x in Hl, Hret.
  assert (Hu : r_ret (env (p_calls p1) x) < PACKETSIZE -> faulted (p_calls p1 ++ [x])) by (apply (faulted_call (p_calls p1) x)).
  set (f := r_data (env (p_calls p1) x)) in *. unfold PACKETSIZE, FRAME_SIZE in *.
  apply pwp_bind. eapply pwp_of_run; [apply stored_run; rewrite length_drop, length_replicate; unfold MAX_MSG; lia|].
  apply pwp_bind, pwp_int_add; [lia| |].
  2: { intros Hov. right. left. rewrite (g_sent _ _ _ _ _ Hg2). lia. }
  intros Hlt. set (hdr := v_mac_remote c ++ v_mac_own c ++ [172; 220] ++ int_bytes (l_send_timestamp st)).
  assert (Hh : length hdr = 18%nat) by (unfold hdr; rewrite !length_app, Hm1, Hm2; done).
  apply pwp_bind. destruct (decide (length f = 43%nat)) as [Hf|Hf].
  2: { unfold pwp. rewrite initialised_none; [apply Hu; lia|]. apply list_elem_of_lookup. exists (18 + length f)%nat.
       rewrite lookup_take_lt by lia. rewrite lookup_app_r by (rewrite length_fmap; lia). rewrite length_fmap, Hh.
       rewrite lookup_app_r by (rewrite length_fmap; lia). rewrite length_fmap, lookup_drop, lookup_drop.
       apply lookup_replicate_2. unfold MAX_MSG. lia. }
  replace (take _ ((Some <$> hdr) ++ _)) with (Some <$> (hdr ++ f)).
  2: { rewrite app_assoc, <- fmap_app, take_app_length'; [done|]. rewrite length_fmap, length_app. lia. }
  eapply pwp_of_run; [apply initialised_run|]. apply pwp_bind. apply pwp_do_call.
  apply pwp_bind. destruct (r_ret _ <? 0); [reflexivity|]. apply pwp_ret. apply pwp_bind.
  eapply pwp_of_run; [apply int_add_run; lia|]. apply pwp_ret. split; [split; simpl; unfold FRAME_SIZE; (lia || done)|].
  split; [done|]. split; [done|]. exists f. split; [done|].
  destruct Hg2 as [? ? ? Hp Hs ?]. split; try done; simpl in *.
  - intros Hl'. apply polled_snoc in Hl'; [|done]. destruct (Hp Hl') as [Hf'|?]; [|by right].
    left. by apply faulted_app.
  - rewrite sends_app, Hs. simpl. unfold outpacket, hdr. by rewrite <- !app_assoc.
  - by apply prefix_app_r.
Qed.

(** The handlers of signals. *)
Lemma deliver_wp base c d sent n l st p :
  good base c d sent p -> counted n st ->
  pwp (deliver l st) (fun st' p' => good base c d sent p' /\ counted n st' /\ l_pkts_out st' = l_pkts_out st /\
    (l_sigint st' = true <-> l_sigint st = true \/ SIGINT ∈ l)) ends p.
Proof.
  intros Hg. revert st p Hg. induction l as [|nr l IH]; intros st p Hg Hc; simpl.
  - apply pwp_ret. split; [done|]. split; [done|]. split; [done|]. rewrite elem_of_nil. tauto.
  - apply pwp_bind. apply (pwp_mono _ (fun _ => good base c d sent) _ ends); [| |done].
    { unfold timer_elapsed. good_steps; done. }
    clear p Hg. intros ? p Hg. assert (Hc' : counted n (sighandler nr st)).
    { destruct Hc. unfold sighandler. by destruct (nr =? SIGINT). }
    eapply pwp_mono; [by apply IH| |done]. cbv beta. intros st' p' (Hg' & Hc'' & Ho & Hs).
    split; [done|]. split; [done|]. unfold sighandler in *. destruct (Z.eqb_spec nr SIGINT) as [->|Hne]; simpl in *.
    + split; [done|]. rewrite Hs, elem_of_cons. tauto.
    + split; [done|]. rewrite Hs, elem_of_cons. intuition congruence.
Qed.
End voe.

(** ** The main loop *)

Section loop.
Context `{Env}.
Hypothesis Henv : env_ok.

Lemma voe_round_wp base c d sent n st p :
  good base c d sent p -> counted n st -> n <= Z.of_nat (ticks base) -> l_pkts_out st = Z.of_nat (length sent) ->
  length (v_mac_remote c) = 6%nat -> length (v_mac_own c) = 6%nat -> stream (v_mac_remote c) (v_mac_own c) sent ->
  pwp (voe_round c st) (fun st' p' => counted (n + 1) st' /\ l_sigint st' = l_sigint st /\
    exists sent', good base c d sent' p' /\ l_pkts_out st' = Z.of_nat (length sent') /\
      stream (v_mac_remote c) (v_mac_own c) sent' /\ sent `prefix_of` sent') ends p.
Proof.
  intros Hg Hc Hn Hlen Hm1 Hm2 Hstr. unfold voe_round. destruct (g_nfds _ _ _ _ _ Hg) as (Hnf & ? & ?).
  apply pwp_bind. eapply pwp_mono; [by eapply voe_poll_wp| |done]. clear Hg. intros ? p1 [Hg1 Hpoll].
  pose proof (good_rebase _ _ _ _ _ Hg1) as Hg. pose proof (g_base _ _ _ _ _ Hg1) as Hpre.
  revert Hpoll Hpre Hg. generalize (p_calls p1) as base1. intros base1 Hpoll Hpre Hg.
  apply pwp_bind. eapply revents_wp; [exact Hg|done|lia|]. intros v. apply pwp_bind.
  apply (pwp_mono _ (fun st' p' => good base1 c d sent p' /\ unsent (n + 1) st st') _ ends); [| |done].
  { destruct (negb _); [eapply voe_receive_wp; [done..|]; pose proof (ticks_prefix _ _ Hpre); lia|]. apply pwp_ret. split; [done|]. split; [|done].
    destruct Hc. split; (lia || done). }
  clear Hg Hg1 p1. intros st1 p1 (Hg & Hc1 & Ho1 & Hs1). apply pwp_bind.
  eapply pwp_mono; [by eapply alsa_play_ready_wp| |done]. clear Hg. intros pl p2 Hg. apply pwp_bind.
  apply (pwp_mono _ (fun st' p' => good base1 c d sent p' /\ unsent (n + 1) st1 st') _ ends); [| |done].
  { destruct (negb _); [by eapply voe_play_wp|]. by apply pwp_ret. }
  clear Hg p2. intros st2 p2 (Hg & Hc2 & Ho2 & Hs2). apply pwp_bind.
  eapply pwp_mono; [by eapply alsa_cap_ready_wp| |done]. clear Hg. intros cp p3 Hg.
  destruct (negb _).
  - eapply pwp_mono; [apply (voe_capture_wp Henv base1 c d sent (n + 1)); (done || congruence)| |done].
    cbv beta. intros st3 p4 (Hc3 & Hs3 & Ho3 & f & Hf & Hg4).
    split; [done|]. split; [congruence|]. eexists. split; [by eapply good_weaken|].
    rewrite (ct_ts _ _ Hc2), Ho2, Ho1, Hlen. split; [rewrite length_app; simpl; lia|].
    split; [by apply stream_snoc|]. by apply prefix_app_r.
  - apply pwp_ret. split; [done|]. split; [congruence|]. exists sent.
    split; [by eapply good_weaken|]. split; [congruence|]. done.
Qed.

(** The loop sends a stream and ends by the signal; if the rounds are not
    enough, the signal had not come at the last test. *)
Lemma voe_loop_wp c d fuel : forall base sent n st p,
  good base c d sent p -> counted n st -> n <= Z.of_nat (ticks (p_calls p)) ->
  l_pkts_out st = Z.of_nat (length sent) -> l_sigint st = false ->
  length (v_mac_remote c) = 6%nat -> length (v_mac_own c) = 6%nat -> stream (v_mac_remote c) (v_mac_own c) sent ->
  pwp (voe_loop fuel c st) (fun r p' =>
    (exists sent', good base c d sent' p' /\ stream (v_mac_remote c) (v_mac_own c) sent' /\ sent `prefix_of` sent') /\
    (r = None -> exists calls, (ticks (p_calls p) + fuel <= ticks calls)%nat /\ SIGINT ∉ r_data (env calls Signals)))
    ends p.
Proof.
  induction fuel as [|fuel IH]; intros base sent n st p Hg Hc Hn Hlen Hsig Hm1 Hm2 Hstr; simpl;
    apply pwp_bind; unfold pwp at 1, do_call; cbv beta; set (r := env (p_calls p) Signals);
    (assert (Hg1 : good (p_calls p ++ [Signals]) c d sent (with_call Signals p)) by (change (p_calls p ++ [Signals]) with (p_calls (with_call Signals p)); by apply (good_rebase base), good_call));
    apply pwp_bind; (eapply pwp_mono; [by apply (deliver_wp (p_calls p ++ [Signals]) c d sent n)| |done]); cbv beta;
    intros st1 p2 (Hg2 & Hc2 & Ho2 & Hs2); rewrite Hsig in Hs2;
    (assert (Hbase : base `prefix_of` p_calls p ++ [Signals]) by (apply prefix_app_r, Hg));
    (destruct (l_sigint st1) eqn:Hs1; [apply pwp_ret; split; [|done]; exists sent; split; [|done];
      by eapply good_weaken|]);
    (assert (Hno : SIGINT ∉ r_data r) by (intros Hin; destruct Hs2 as [_ Hs2]; discriminate Hs2; by right)).
  - apply pwp_ret. split; [exists sent; split; [|done]; by eapply good_weaken|].
    intros _. exists (p_calls p). split; [lia|done].
  - apply pwp_bind. eapply pwp_mono; [apply (voe_round_wp (p_calls p ++ [Signals]) c d sent n st1 p2 Hg2 Hc2); (done || congruence || (rewrite ticks_snoc; lia))| |done].
    cbv beta. intros st3 p3 (Hc3 & Hs3 & sent3 & Hg3 & Ho3 & Hstr3 & Hpre).
    eapply pwp_mono; [apply (IH base sent3 (n + 1) st3 p3); (done || congruence || idtac)| |done].
    + by eapply good_weaken.
    + pose proof (ticks_prefix _ _ (g_base _ _ _ _ _ Hg3)) as Hp. rewrite ticks_snoc in Hp. lia.
    + cbv beta. intros r4 p4 ((sent4 & Hg4 & Hstr4 & Hpre4) & Hend).
      split; [exists sent4; split; [done|]; split; [done|]; by etrans|].
      intros ->. destruct (Hend eq_refl) as (calls & Ht & Hns). exists calls. split; [|done].
      pose proof (ticks_prefix _ _ (g_base _ _ _ _ _ Hg3)) as Hp. rewrite ticks_snoc in Hp. lia.
Qed.
End loop.
