(* ===== verification/VoeMain.v ===== *)
(** * The voice demo as a whole (app/voe.c)

    MAC addresses of the command line, the set-up and the complete program. *)
From Stdlib Require Import ZArith Lia.
From stdpp Require Import base gmap numbers list strings.
From S2P Require Import Prelude CString Digits Process XMalloc Alsa AlsaProps Voe VoeProps.

Local Open Scope Z_scope.
Local Open Scope process_scope.

(** ** MAC addresses *)

(** A byte as two hexadecimal digits, an address as six of them with colons
    between. *)
Definition hex2 (b : Z) : cstr := [digit_char (b / 16); digit_char (b mod 16)].
Fixpoint mac_text (l : list Z) : cstr :=
  match l with
  | [] => []
  | [b] => hex2 b
  | b :: l' => hex2 b ++ [58] ++ mac_text l'
  end.

Lemma digit_char_plain d : 0 <= d < 16 ->
  is_space (digit_char d) = false /\ (digit_char d =? 45) = false /\ (digit_char d =? 43) = false /\
  (digit_char d =? 120) = false /\ (digit_char d =? 88) = false /\ is_digit 16 (digit_char d) = true.
Proof.
  intros Hd. pose proof (all_below (fun d => negb (is_space (digit_char d)) && negb (digit_char d =? 45) &&
    negb (digit_char d =? 43) && negb (digit_char d =? 120) && negb (digit_char d =? 88) &&
    is_digit 16 (digit_char d)) 16 eq_refl d Hd) as Hall.
  rewrite !andb_true_iff, !negb_true_iff in Hall. tauto.
Qed.

(** One byte is read up to a character that is no digit. *)
Lemma scan_x_hex2 b rest :
  is_byte b -> match rest with c :: _ => is_digit 16 c = false | [] => True end ->
  scan_x (hex2 b ++ rest) = Some (b, rest).
Proof.
  intros Hb Hrest. unfold is_byte in Hb.
  assert (H1 : 0 <= b / 16 < 16) by (split; [apply Z.div_pos|apply Z.div_lt_upper_bound]; lia).
  pose proof (Z.mod_pos_bound b 16 ltac:(lia)) as H2.
  destruct (digit_char_plain _ H1) as (S1 & M1 & P1 & _ & _ & D1).
  destruct (digit_char_plain _ H2) as (_ & _ & _ & X2 & Y2 & D2).
  unfold scan_x. cbn [hex2 app skip_space]. rewrite S1, M1, P1, X2, Y2, andb_false_r. cbn [span_hex]. rewrite D1, D2.
  assert (Hs : span_hex rest = ([], rest)) by (destruct rest as [|c rest]; simpl; [done|by rewrite Hrest]).
  rewrite Hs. unfold digits_val. cbn [fold_left]. rewrite !digit_char_val by lia. simpl.
  do 2 f_equal. pose proof (Z.div_mod b 16 ltac:(done)) as Hdm. clear - Hdm. lia.
Qed.

Lemma sscanf_mac l : Forall is_byte l -> l <> [] -> sscanf_x (length l) (mac_text l) = l.
Proof.
  induction l as [|b l IH]; [done|]. intros [Hb Hl]%Forall_cons _. destruct l as [|b' l].
  - cbn [length sscanf_x mac_text]. rewrite <- (app_nil_r (hex2 b)), scan_x_hex2; [done..|]. done.
  - change (mac_text (b :: b' :: l)) with (hex2 b ++ [58] ++ mac_text (b' :: l)). cbn [length sscanf_x].
    rewrite scan_x_hex2 by done. simpl app. cbv iota beta. rewrite Z.eqb_refl. f_equal. by apply IH.
Qed.

(** Reading a MAC address that was written as usual gives its bytes. *)
Lemma hack_mac_text l p : Forall is_byte l -> length l = 6%nat -> hack_mac (mac_text l) p = Done l p.
Proof.
  intros Hb Hl. unfold hack_mac.
  assert (Hs : sscanf_x 6 (mac_text l) = l) by (rewrite <- Hl; apply sscanf_mac; [done|by intros ->]).
  rewrite Hs. cbv zeta.
  assert (Hall : forallb (fun v => (- 2 ^ 32 <? v) && (v <? 2 ^ 32)) l = true).
  { apply forallb_forall. intros v Hv%list_elem_of_In. pose proof (proj1 (Forall_forall _ _) Hb v Hv) as Hbv.
    unfold is_byte in Hbv. apply andb_true_iff. split; apply Z.ltb_lt; lia. }
  rewrite Hall, Hl. simpl. unfold pret. f_equal.
  rewrite <- (list_fmap_id l) at 2. apply list_fmap_ext. intros i x Hx.
  pose proof (Forall_lookup_1 _ _ _ _ Hb Hx) as Hbv. unfold is_byte in Hbv. unfold u8. by rewrite Z.mod_small.
Qed.

Section main.
Context `{Env}.
Hypothesis Henv : env_ok.

(** ** The set-up *)

(** What was sent, and whether the process has polled. *)
Definition traffic (calls : list call) : list (list Z) * list call := (sends calls, filter is_poll calls).

Lemma traffic_app l1 l2 : traffic (l1 ++ l2) = ((traffic l1).1 ++ (traffic l2).1, (traffic l1).2 ++ (traffic l2).2).
Proof. unfold traffic. by rewrite sends_app, filter_app. Qed.

Lemma traffic_quiet l x : quiet x = true -> traffic (l ++ [x]) = traffic l.
Proof.
  intros [Hx%negb_true_iff Hs%bool_decide_eq_true]%andb_true_iff. rewrite traffic_app. unfold traffic. simpl.
  rewrite Hs, filter_cons_False by (rewrite Hx; tauto). by rewrite !app_nil_r.
Qed.

(** Nothing was sent and no poll was made. *)
Abbreviation silent calls := (traffic calls = ([], [])).

Lemma silent_not_polled calls : silent calls -> ~ polled calls.
Proof.
  intros [= _ Hf] Hp. apply Exists_exists in Hp as (x & Hx & Hpoll).
  eapply elem_of_nil. rewrite <- Hf. by apply list_elem_of_filter.
Qed.

(** The same memory, and nothing more was sent or polled. *)
Definition idle (p p' : process) : Prop :=
  p_mem p' = p_mem p /\ p_next p' = p_next p /\ traffic (p_calls p') = traffic (p_calls p).

Lemma idle_heap p p' : idle p p' -> heap_ok p -> heap_ok p'.
Proof. intros (H1 & H2 & _). unfold heap_ok. by rewrite H1, H2. Qed.

Lemma sound_traffic base p : sound_since base p -> traffic (p_calls p) = traffic base.
Proof.
  intros (new & -> & Hnew). rewrite traffic_app.
  assert (traffic new = ([], [])) as ->; [|simpl; by rewrite !app_nil_r].
  induction Hnew as [|c new Hc _ IH]; [done|]. assert (quiet c = true) as Hq by (by destruct c).
  change (c :: new) with ([c] ++ new). rewrite traffic_app, IH.
  by rewrite (traffic_quiet [] c Hq : traffic [c] = _).
Qed.

(** A state that comes from [p0] by quiet calls. *)
Lemma pwp_idle p0 c Q E p :
  idle p0 p -> quiet c = true -> (forall r p', idle p0 p' -> Q r p') -> pwp (do_call c) Q E p.
Proof.
  intros (H1 & H2 & H3) Hc HQ. unfold pwp, do_call. apply HQ. repeat (split; [done|]). simpl. by rewrite traffic_quiet.
Qed.

Ltac idle_step :=
  lazymatch goal with
  | |- pwp (pbind _ _) _ _ _ => apply pwp_bind
  | |- pwp (pret _) _ _ _ => apply pwp_ret
  | Hi : idle _ ?p |- pwp (do_call _) _ _ ?p => eapply (pwp_idle _ _ _ _ _ Hi); [done|]; clear Hi; intros ? ? Hi
  | |- pwp (if ?b then _ else _) _ _ _ => destruct b eqn:?
  | |- pwp (panic _) _ _ _ => reflexivity
  | |- pwp (whine _) _ _ _ => unfold whine
  | |- pwp (register_signal _) _ _ _ => unfold register_signal
  | |- pwp (register_signal_f _ _) _ _ _ => unfold register_signal_f
  end; cbv beta.

Lemma voe_socket_wp p0 p :
  idle p0 p -> pwp voe_socket (fun _ => idle p0) ends p.
Proof. intros Hi. unfold voe_socket, device_ifindex. repeat idle_step; done. Qed.

Lemma string_at_str p a s : str_at p a s -> string_at a p = Done s p.
Proof.
  intros (Ha & Hs & rest & Hb). unfold string_at. rewrite (pbind_run _ _ _ _ _ (get_bytes_run _ _ _ Ha Hb)).
  cbv beta. by rewrite take_str_ok.
Qed.

Lemma str_at_mem p p' a s : p_mem p' = p_mem p -> str_at p a s -> str_at p' a s.
Proof. intros Hm. unfold str_at. by rewrite Hm. Qed.

(** The table of descriptors: those of the device and the socket. *)
Lemma voe_pfds_wp base p dev d s m sd :
  dev_open base p dev d s m -> heap_ok p -> ad_read_fds d + ad_write_fds d < 2 ^ 31 - 1 ->
  pwp (voe_pfds dev sd) (fun x p' => heap_ok p' /\ p_calls p' = p_calls p /\
    x.2 = ad_read_fds d + ad_write_fds d /\ x.1 <> 0 /\ x.1 <> dev /\ p_mem p' !! dev = Some (Dev d) /\
    exists b l, p_mem p' !! x.1 = Some b /\ as_fds b = Some l /\ Forall is_Some l /\
      Z.of_nat (length l) = ad_read_fds d + ad_write_fds d + 1) ends p.
Proof.
  intros [(lr & lw & Hlr & Hlw & Hsr & Hsw & Hh) (Hcr & Hcw) _ (Hn0 & Hr0 & Hw0) _ Hnd] Hok Hsm.
  rewrite !NoDup_cons, !not_elem_of_cons in Hnd.
  destruct Hnd as ((Hdn & Hdr & Hdw & _) & (Hnr & Hnw & _) & (Hrw & _) & _).
  pose proof (holds_get _ _ _ _ _ Hh) as Hget. destruct Hh as (_ & Hd0 & Hm & _).
  unfold voe_pfds, alsa_nfds. set (n := ad_read_fds d + ad_write_fds d) in *.
  assert (Hnn : 0 < n < 2 ^ 31) by (unfold n; lia). assert (Hll : (length lr + length lw)%nat = Z.to_nat n) by (clear - Hlr Hlw Hcr Hcw; lia).
  do 2 apply pwp_bind. eapply pwp_of_run; [exact Hget|]. apply pwp_ret. fold n.
  rewrite u32_small, s32_small by lia. apply pwp_bind. eapply pwp_of_run; [apply int_add_run; lia|].
  rewrite (u64_small (n + 1)), u64_small by (unfold pollfd_size; lia).
  apply pwp_bind. unfold pwp at 1. rewrite (xmalloc_run _ _ Hok). unfold pollfd_size.
  destruct (Z.eqb_spec (8 * (n + 1)) 0); [lia|]. destruct (no_memory p); [done|].
  pose proof (allocated_ok p 16 (8 * (n + 1)) Hok ltac:(lia) ltac:(lia)) as Hok1.
  destruct (heap_fresh p 16 Hok ltac:(lia)) as [Hp0 Hnew].
  set (pfds := align 16 (p_next p)) in *. set (p1 := allocated 16 (8 * (n + 1)) p) in *.
  assert (Hm1 : p_mem p1 = <[pfds := Bytes (replicate (Z.to_nat (8 * (n + 1))) None)]> (p_mem p)) by done.
  assert (Hc1 : p_calls p1 = p_calls p) by done. clearbody p1 pfds.
  assert (Hold : forall a b, p_mem p !! a = Some b -> pfds <> a /\ p_mem p1 !! a = Some b).
  { intros a b Ha. assert (pfds <> a) by (intros <-; congruence). split; [done|]. by rewrite Hm1, lookup_insert_ne. }
  destruct (Hold dev (Dev d)) as [Hpd Hd1]; [rewrite Hm; apply lookup_insert_eq|].
  destruct (Hold (ad_read_fd d) (Fds lr)) as [Hpr Hr1]; [rewrite Hm, !lookup_insert_ne by done; apply lookup_insert_eq|].
  destruct (Hold (ad_write_fd d) (Fds lw)) as [Hpw Hw1]; [rewrite Hm, !lookup_insert_ne by done; apply lookup_insert_eq|].
  assert (Hready : fds_ready p1 dev d lr lw pfds (replicate (Z.to_nat (n + 1)) None)).
  { split; [by split|split; [done|]; split; [exact Hr1|clear - Hlr Hcr; lia]|
      split; [done|]; split; [exact Hw1|clear - Hlw Hcw; lia]| |fold n; clear - Hnn; lia].
    split; [done|]. split; [done|]. split; [congruence|]. split; [congruence|]. eexists.
    split; [rewrite Hm1; apply lookup_insert_eq|]. replace (Z.to_nat (8 * (n + 1))) with (8 * Z.to_nat (n + 1))%nat by (clear - Hnn; lia).
    apply as_fds_none. }
  pose proof (alsa_getfds_run p1 dev d lr lw pfds _ (u32 n) Hready) as Hget1.
  rewrite length_replicate, u32_small in Hget1 by (clear - Hnn; lia). fold n in Hget1. rewrite Z.ltb_irrefl in Hget1.
  destruct Hget1 as (p2 & b2 & Hrun & Hm2 & Hb2 & _ & _ & Hc2 & Hk2); [clear - Hnn Hll; lia|].
  rewrite u32_small by lia. apply pwp_bind. eapply pwp_of_run; [exact Hrun|].
  rewrite (proj2 (Z.ltb_ge n 0)) by (clear - Hnn; lia). rewrite drop_replicate in Hb2.
  assert (Hone : (Z.to_nat (n + 1) - (length lr + length lw))%nat = 1%nat) by (clear - Hnn Hll; lia). rewrite Hone in Hb2.
  apply pwp_bind. assert (Hl2 : length (lr ++ lw ++ replicate 1 (@None pollfd)) = Z.to_nat (n + 1)).
  { rewrite !length_app. simpl. clear - Hnn Hll. lia. }
  assert (Hb2' : p_mem p2 !! pfds = Some b2) by (rewrite Hm2; apply lookup_insert_eq).
  eapply pwp_of_run; [eapply set_fd_run; [done|exact Hb2'|exact Hb2|rewrite Hl2; clear - Hnn; lia]|].
  apply pwp_ret. cbn [fst snd]. split.
  { eapply heap_set; [by apply Hk2|exact Hb2'|]. pose proof (as_fds_size _ _ Hb2) as Hsz. cbn [block_size].
    rewrite length_insert. rewrite Hl2 in *. unfold pollfd_size in *. clear - Hsz Hnn. lia. }
  split; [simpl; by rewrite Hc2, Hc1|]. repeat (split; [done|]).
  split; [simpl; by rewrite lookup_insert_ne, Hm2, lookup_insert_ne|].
  eexists _, _. split; [cbn [with_mem p_mem]; apply lookup_insert_eq|]. split; [done|]. rewrite length_insert, Hl2. split; [|clear - Hnn; lia].
  replace (Z.to_nat n) with (length (lr ++ lw) + 0)%nat by (rewrite length_app; clear - Hll; lia).
  rewrite app_assoc, insert_app_r. simpl. rewrite !Forall_app. repeat (split || constructor); auto.
Qed.

(** ** The program *)

(** The command line: the name of the sound device and two MAC addresses. *)
Record command_line (p : process) (argv : list addr) (s : cstr) (own remote : list Z) : Prop := {
  cl_argv : exists a0 devname lmac rmac, argv = [a0; devname; lmac; rmac] /\ devname_at p devname s /\
              str_at p lmac (mac_text own) /\ str_at p rmac (mac_text remote);
  cl_own : Forall is_byte own /\ length own = 6%nat;
  cl_remote : Forall is_byte remote /\ length remote = 6%nat;
}.

(** The interrupt comes at the latest when the process looks for the [k]-th
    time (from 0). *)
Definition sigint_by (k : nat) : Prop :=
  forall calls, (k <= ticks calls)%nat -> SIGINT ∈ r_data (env calls Signals).

(** The end of a run: [None] if the rounds were not enough, or 0, the timer
    stopped and the socket closed last. *)
Definition run_end (fuel : nat) (r : option Z) (p : process) : Prop :=
  match r with
  | None => forall k, sigint_by k -> (fuel < k)%nat
  | Some v => v = 0 /\ exists calls sd, p_calls p = calls ++ [sys_setitimer 0; sys_close sd]
  end.

Lemma voe_session_wp fuel sd idx own remote devname s p :
  heap_ok p -> silent (p_calls p) -> devname_at p devname s ->
  length own = 6%nat -> length remote = 6%nat ->
  pwp (voe_session fuel sd idx own remote devname)
    (fun r p' => stream remote own (sends (p_calls p')) /\ run_end fuel r p') ends p.
Proof.
  intros Hok Hs0 Hdn Ho Hr. unfold voe_session.
  apply pwp_bind. eapply pwp_ends; [eapply (alsa_open_wp (p_calls p)); [apply Henv|done|apply sound_refl|done]|].
  cbv beta. intros dev p1 (d & Hd & Hch & Hpe).
  pose proof (do_count _ _ _ _ _ _ Hd) as [Hcr Hcw].
  assert (Hsm : ad_read_fds d + ad_write_fds d < 2 ^ 31 - 1).
  { destruct (do_announced _ _ _ _ _ _ Hd) as [(c1 & h1 & ->) (c2 & h2 & ->)].
    pose proof (eo_count Henv c1 h1). pose proof (eo_count Henv c2 h2). rewrite !u32_small by lia. lia. }
  destruct (do_holds _ _ _ _ _ _ Hd) as (lr & lw & _ & _ & _ & _ & (Hok1 & Hd0 & Hm1 & Hs1)).
  apply sound_traffic in Hs1. rewrite Hs0 in Hs1.
  assert (Hi : idle p1 p1) by done. do 10 idle_step.
  apply pwp_bind, (pwp_mono _ (fun _ => idle p1) _ ends); [repeat idle_step; done| |done]. clear Hi. intros ? p2 Hi. cbv beta in Hi.
  assert (Hd2 : dev_open (p_calls p2) p2 dev d s (p_mem p)).
  { destruct Hd as [(lr' & lw' & ? & ? & ? & ? & (_ & _ & Hm' & _)) ? ? ? ? ?]. split; try done. exists lr', lw'.
    repeat (split; [done|]). split; [by eapply idle_heap|]. split; [done|]. split; [|apply sound_refl].
    destruct Hi as (-> & _). done. }
  apply pwp_bind. eapply pwp_mono; [eapply voe_pfds_wp; [exact Hd2|by eapply idle_heap|done]| |done].
  cbv beta. intros [pfds nfds] p3 (Hok3 & Hc3 & Hnf & Hp0 & Hpd & Hdev3 & b & l & Hb & Hl & Hls & Hln). cbn [fst snd] in *.
  assert (Hs3 : silent (p_calls p3)) by (rewrite Hc3; destruct Hi as (_ & _ & ->); done).
  clear Hi Hc3. assert (Hi : idle p3 p3) by done. do 13 idle_step.
  match goal with |- pwp _ _ _ ?q => rename q into p4 end. apply pwp_bind.
  eapply pwp_ends; [eapply (alsa_start_wp dev d); [by eapply idle_heap|done|destruct Hi as (-> & _); done|]|].
  { rewrite Hch, Hpe. done. }
  cbv beta. intros ? p5 (Hm5 & Hs5%sound_traffic). destruct Hi as (Hm4 & _ & Hs4). rewrite Hs4, Hs3 in Hs5. rewrite Hm4 in Hm5.
  clear Hm4 Hs4 p4. assert (Hi : idle p5 p5) by done. do 4 idle_step.
  match goal with |- pwp _ _ _ ?q => rename q into p6 end. destruct Hi as (Hm6 & _ & Hs6). rewrite Hs5 in Hs6.
  apply pwp_bind. eapply pwp_mono; [eapply (voe_loop_wp Henv _ d fuel (p_calls p6) [] 0)| |done]; try done; try lia.
  - split; try done.
    + rewrite Hm6, Hm5. done.
    + split; [done|]. split; [done|]. rewrite Hm6, Hm5. eauto 10.
    + split; [done|lia].
    + intros Hp. by apply silent_not_polled in Hs6.
    + by injection Hs6.
  - exists []. split; [constructor|done].
  - cbv beta. intros res p7 ((sent' & Hg & Hstr & _) & Hend). destruct res as [st'|].
    + apply pwp_bind. unfold pwp at 1, do_call. apply pwp_bind. unfold pwp at 1, do_call. apply pwp_ret.
      pose proof (g_sent _ _ _ _ _ Hg) as Hsent. simpl. split.
      * rewrite !sends_app, Hsent. simpl. by rewrite !app_nil_r.
      * split; [done|]. exists (p_calls p7), sd. by rewrite <- app_assoc.
    + apply pwp_ret. rewrite (g_sent _ _ _ _ _ Hg). split; [done|]. intros k Hk.
      destruct (Hend eq_refl) as (calls & Ht & Hns). destruct (decide (k <= fuel)%nat) as [Hle|]; [|lia].
      destruct Hns. apply Hk. lia.
Qed.

Lemma voe_main_wp fuel argv s own remote p :
  heap_ok p -> silent (p_calls p) -> command_line p argv s own remote ->
  pwp (voe_main fuel argv) (fun r p' => stream remote own (sends (p_calls p')) /\ run_end fuel r p') ends p.
Proof.
  intros Hok Hs0 [(a0 & devname & lmac & rmac & -> & Hdn & Hl & Hr) (Ho & Ho6) (Hrm & Hr6)].
  assert (Hi : idle p p) by done. unfold voe_main. do 5 idle_step. apply pwp_bind.
  assert (Hmem : forall q, idle p q -> p_mem q = p_mem p) by (by intros ? (? & _)).
  eapply pwp_of_run; [eapply string_at_str, str_at_mem; [by apply Hmem|exact Hl]|].
  apply pwp_bind. eapply pwp_of_run; [by apply hack_mac_text|].
  apply pwp_bind. eapply pwp_of_run; [eapply string_at_str, str_at_mem; [by apply Hmem|exact Hr]|].
  apply pwp_bind. eapply pwp_of_run; [by apply hack_mac_text|].
  apply pwp_bind. eapply pwp_mono; [by eapply (voe_socket_wp p)| |done]. clear Hi. intros [sd idx] p1 Hi. cbv beta in Hi.
  do 4 idle_step. eapply voe_session_wp; try done.
  - by eapply idle_heap.
  - destruct Hi as (_ & _ & ->). done.
  - destruct Hdn as [Hdn ?]. split; [|done]. eapply str_at_mem; [by apply Hmem|done].
Qed.

(** C19: the voice demo as a whole, started with the name of a sound device and
    two MAC addresses, for any number of rounds of its loop and with libraries
    that keep to what they document, errors included.  If it ends it returns 0
    with the timer stopped and the socket closed; it ends if the interrupt
    comes within the rounds.  What it sends is a stream: message [i] is the
    Ethernet header with the remote and the own address and the protocol
    0xacdc, the timestamp [256 * i] and 43 bytes of sound.  Every early exit
    has status 1.  And it does something undefined only when the run has got an
    answer the program does not check for (a message of one to three bytes, an
    overrun, an error or a short read of the microphone, an error of the
    encoder, an interrupted first poll), or has sent [2 ^ 23 - 1] frames, or
    has done [2 ^ 31 - 1] rounds. *)
Theorem voe_main_correct fuel argv s own remote p :
  heap_ok p -> p_calls p = [] -> command_line p argv s own remote ->
  match voe_main fuel argv p with
  | Done r p' => stream remote own (sends (p_calls p')) /\ run_end fuel r p'
  | Exit status _ => status = EXIT_FAILURE
  | Undef _ p' => faulted (p_calls p')
  end.
Proof.
  intros Hok Hc Hl. assert (Hs : silent (p_calls p)) by (by rewrite Hc).
  pose proof (voe_main_wp fuel argv s own remote p Hok Hs Hl) as Hw. unfold pwp in Hw. by destruct (voe_main fuel argv p).
Qed.
End main.
