(* ===== verification/VoeNet.v ===== *)
(** * Voice messages through the stack

    The demo (app/voe.c) on two machines with the modules of src/ between
    them: a message the first one sends leaves its machine through a hooked
    device; on the second machine a virtual device with tag 220, the low bits
    of the demo's protocol number 0xacdc, takes the frame and hands it to the
    socket the second demo reads from.

    Also what the demo leaves undefined: short messages, failed reads and the
    end of the timestamps. *)
From Stdlib Require Import ZArith Lia.
From stdpp Require Import base gmap numbers countable list strings.
From S2P Require Import Prelude CString Process XMalloc Alsa AlsaProps Voe VoeProps.
From S2P Require Import CritbitTree Vlink NameMap Types NetTypes Kernel NetDev EthvlinkDev Fblock FblockNs.
From S2P Require Import FblockLife FblockBind PerCpu FblockCtor Engine FbEthvlink FbPflana Modules EngineProps EngineSinks ModuleLife.
From S2P Require Import UserctlProps NetDevProps FbEthProps FbEthvlinkProps FbEthvlinkFrames FbPflanaProps NetPaths.

Local Open Scope Z_scope.

(** ** Integers in messages *)

Lemma int_bytes_length n : length (int_bytes n) = 4%nat.
Proof. done. Qed.

(** Four bytes of a number make the number. *)
Lemma le_bytes m :
  0 <= m < 2 ^ 32 ->
  u8 (Z.shiftr m 0) + 2 ^ 8 * u8 (Z.shiftr m 8) + 2 ^ 16 * u8 (Z.shiftr m 16) + 2 ^ 24 * u8 (Z.shiftr m 24) = m.
Proof.
  intros Hm. rewrite !Z.shiftr_div_pow2 by lia. unfold u8. rewrite Z.pow_0_r, Z.div_1_r.
  pose proof (Z.div_mod m (2 ^ 8)). pose proof (Z.div_mod (m / 2 ^ 8) (2 ^ 8)). pose proof (Z.div_mod (m / 2 ^ 16) (2 ^ 8)).
  assert (E1 : m / 2 ^ 16 = m / 2 ^ 8 / 2 ^ 8) by (by rewrite Z.div_div).
  assert (E2 : m / 2 ^ 24 = m / 2 ^ 16 / 2 ^ 8) by (by rewrite Z.div_div).
  rewrite (Z.mod_small (m / 2 ^ 24)) by (split; [apply Z.div_pos|apply Z.div_lt_upper_bound]; lia). lia.
Qed.

Lemma s32_u32 n : s32 (u32 n) = s32 n.
Proof. unfold s32, u32. by rewrite Zplus_mod_idemp_l. Qed.

(** What was stored is read back. *)
Lemma int_roundtrip n : - 2 ^ 31 <= n < 2 ^ 31 -> int_of (int_bytes n) = n.
Proof.
  intros Hn. unfold int_of, int_bytes. cbn [fmap list_fmap nth].
  change (8 * 0) with 0. change (8 * 1) with 8. change (8 * 2) with 16. change (8 * 3) with 24.
  rewrite le_bytes by apply u32_range. by rewrite s32_u32, s32_small.
Qed.

(** ** Receiving *)

(** A message of a timestamp and a frame is given to the jitter buffer with
    exactly these. *)
Lemma voe_receive_run `{Env} c st p ts f :
  - 2 ^ 31 <= ts < 2 ^ 31 -> Z.of_nat (length f) <= MAX_MSG - 4 -> 0 <= l_pkts_in st < 2 ^ 31 - 1 ->
  env (p_calls p) (sys_recv (v_sd c) MAX_MSG 0) =
    Reply (4 + Z.of_nat (length f)) 0 (int_bytes ts ++ f) [] ->
  exists st', voe_receive c st p =
      Done st' (with_call (jitter_buffer_put (v_jitter c) f (u32 ts) FRAME_SIZE 0)
                  (with_call (sys_recv (v_sd c) MAX_MSG 0) p)) /\
    l_pkts_in st' = l_pkts_in st + 1 /\ l_recv_started st' = true.
Proof.
  intros Hts Hf Hin Henv. unfold voe_receive. unfold pbind at 1, do_call at 1. rewrite Henv. cbn [r_data r_ret].
  unfold MAX_MSG in *.
  erewrite pbind_run; [|apply stored_run; rewrite length_app, int_bytes_length, length_replicate; lia].
  destruct (Z.leb_spec (4 + Z.of_nat (length f)) 0); [lia|].
  erewrite pbind_run; [|apply int_add_run; lia].
  rewrite drop_replicate, <- fmap_replicate, <- fmap_app. rewrite <- fmap_take.
  erewrite pbind_run; [|apply initialised_run]. rewrite <- app_assoc.
  replace (u32 (4 + Z.of_nat (length f) - 4)) with (Z.of_nat (length f)) by (rewrite u32_small; lia).
  destruct (Z.ltb_spec 1500 (4 + Z.of_nat (length f))); [lia|]. unfold pbind at 1. cbn [pret].
  rewrite <- fmap_drop, <- fmap_take. erewrite pbind_run; [|apply initialised_run].
  rewrite (take_app_length' (int_bytes ts)) by done. rewrite (drop_app_length' (int_bytes ts)) by done.
  rewrite Nat2Z.id, take_app_length, int_roundtrip by done. unfold pbind, do_call, pret.
  eexists. split; [reflexivity|]. done.
Qed.

(** ** What is undefined *)

(** A read that fails writes nothing. *)
Lemma alsa_read_fails `{Env} dev d pcm len p :
  dev <> 0 -> p_mem p !! dev = Some (Process.Dev d) ->
  r_data (env (p_calls p) (snd_pcm_readi (ad_capture_handle d) len)) = [] ->
  exists ret p', alsa_read dev pcm len p = Done (ret, pcm) p'.
Proof.
  intros Hd0 Hd Hr. unfold alsa_read, info. rewrite (pbind_run _ _ _ _ _ (alsa_dev_run p _ _ _ Hd0 Hd eq_refl)).
  unfold pbind at 1, do_call at 1. unfold stored. rewrite Hr. unfold pbind, pret, do_call. simpl.
  repeat match goal with |- context [if ?b then _ else _] => destruct b end; by eexists _, _.
Qed.

(** C20: four things the demo does not survive.  A message of one to three
    bytes is shorter than the timestamp: its length, unsigned, is nearly 2^32
    and the jitter buffer is told to read beyond the message.  When the sound
    device cannot be read, after an overrun, the samples that are encoded were
    never written.  The timestamp overflows after 2^23 frames.  And when the
    first poll is interrupted, as the timer that was just started may do, the
    events of the socket that are looked at were never written. *)
Theorem voe_undefined `{Env} c st p d :
  v_dev c <> 0 -> p_mem p !! v_dev c = Some (Process.Dev d) -> 0 <= l_pkts_in st < 2 ^ 31 - 1 ->
  (forall n data, 0 < n < 4 -> Z.of_nat (length data) = n ->
     env (p_calls p) (sys_recv (v_sd c) MAX_MSG 0) = Reply n 0 data [] ->
     exists p', voe_receive c st p = Undef Out_of_bounds p') /\
  (forall r, env (p_calls p) (snd_pcm_readi (ad_capture_handle d) FRAME_SIZE) = r -> r_ret r < 0 -> r_data r = [] ->
     exists p', voe_capture c st p = Undef Uninitialised p') /\
  (forall data out, let call1 := snd_pcm_readi (ad_capture_handle d) FRAME_SIZE in
     l_send_timestamp st = FRAME_SIZE * (2 ^ 23 - 1) ->
     env (p_calls p) call1 = Reply FRAME_SIZE 0 data [] -> Z.of_nat (length data) = FRAME_SIZE ->
     env (p_calls p ++ [call1]) (celt_encode (v_enc c) data PACKETSIZE) = Reply PACKETSIZE 0 out [] ->
     Z.of_nat (length out) = PACKETSIZE -> exists p', voe_capture c st p = Undef Signed_overflow p') /\
  (forall l, v_pfds c <> 0 -> p_mem p !! v_pfds c = Some (Fds l) ->
     l !! Z.to_nat (v_nfds c) = Some (Some (Pollfd (v_sd c) POLLIN None)) ->
     r_data (env (p_calls p) (sys_poll l (-1))) = [] -> exists p', voe_round c st p = Undef Uninitialised p').
Proof.
  intros Hd0 Hd Hin. pose proof (alsa_dev_run p _ _ _ Hd0 Hd eq_refl) as Hget. split; [|split; [|split]].
  - intros n data Hn Hl He. unfold voe_receive. unfold pbind at 1, do_call at 1. rewrite He. cbn [r_data r_ret].
    unfold MAX_MSG in *.
    erewrite pbind_run; [|apply stored_run; rewrite length_replicate; lia].
    destruct (Z.leb_spec n 0); [lia|]. erewrite pbind_run; [|apply int_add_run; lia].
    rewrite drop_replicate, <- fmap_replicate, <- fmap_app. rewrite <- fmap_take.
    erewrite pbind_run; [|apply initialised_run].
    assert (Hu : u32 (n - 4) = 2 ^ 32 + n - 4).
    { unfold u32. replace (n - 4) with ((2 ^ 32 + n - 4) + (-1) * 2 ^ 32) by lia. rewrite Z_mod_plus_full.
      apply Z.mod_small. lia. }
    rewrite Hu. destruct (Z.ltb_spec 1500 (4 + (2 ^ 32 + n - 4))); [by eexists|lia].
  - intros r Hr Hneg Hnil. unfold voe_capture.
    destruct (alsa_read_fails (v_dev c) d (replicate (Z.to_nat (FRAME_SIZE * CHANNELS)) None) FRAME_SIZE p)
      as (ret & p' & Hread); [done|done|by rewrite Hr|]. rewrite (pbind_run _ _ _ _ _ Hread). by eexists.
  - cbv zeta. intros data out Hts H1 Hl1 H2 Hl2. unfold voe_capture, alsa_read, FRAME_SIZE, CHANNELS, PACKETSIZE in *.
    rewrite pbind_assoc, (pbind_run _ _ _ _ _ Hget), pbind_assoc. unfold pbind at 1, do_call at 1. rewrite H1. cbn [r_data r_ret].
    rewrite pbind_assoc. erewrite pbind_run; [|apply stored_run; rewrite length_replicate; lia].
    rewrite drop_ge by (rewrite length_replicate; lia). rewrite app_nil_r. cbn [andb negb].
    change (negb (u64 256 =? 256) && (256 <? 0)) with false. unfold pbind at 1, pret at 1. cbn [snd].
    erewrite pbind_run; [|apply initialised_run].
    unfold pbind at 1, do_call at 1. cbn [p_calls with_call]. rewrite H2. cbn [r_data].
    erewrite pbind_run; [|apply stored_run; rewrite length_drop, length_replicate; unfold MAX_MSG; lia].
    rewrite Hts. by eexists.
  - intros l Hp0 Hl Hsock Hpoll. unfold voe_round, voe_poll. rewrite pbind_assoc.
    rewrite (pbind_run _ _ _ _ _ (AlsaProps.get_fds_run p _ _ _ Hp0 Hl eq_refl)). unfold pbind at 1 2, do_call at 1.
    rewrite Hpoll. replace (with_revents l []) with l by (by destruct l). unfold set_block, revents_at, fd_at.
    rewrite !pbind_assoc. erewrite pbind_run; [|eapply (AlsaProps.get_fds_run _ (v_pfds c) _ l); [done|apply lookup_insert_eq|done]].
    rewrite Hsock. by eexists.
Qed.

(** ** From one demo to the other *)

(** A frame of these bytes as a driver hands it to the receive handler
    ([eth_type_trans]): the Ethernet header is taken off and noted. *)
Record arrived (bytes : list Z) (s : sk_buff) : Prop := {
  ar_data : skb_data s = drop 14 bytes /\ skb_len s = Z.of_nat (length (drop 14 bytes));
  ar_source : ei_source (skb_eth s) = take 6 (drop 6 bytes);
  ar_proto : ei_proto (skb_eth s) = nth 12 bytes 0 + 256 * nth 13 bytes 0;
}.

(** The address and the bytes the demo passes to [sendto]. *)
Definition voice_msg (idx : Z) (data : list Z) : msghdr :=
  Msghdr (Some (Sockaddr VOE_AF_LANA (sa_bytes idx))) sockaddr_size data 0.

(** The tag of the demo's protocol number. *)
Definition voice_tag : Z := 220.

Section voice.
Context `{Nm : NameMap, Ka : KernelApi}.

(** A virtual device with the demo's tag on the carrier the frame came from. *)
Record tuned (k : kernel) (s : sk_buff) (a : addr) (v : fb_ethvlink_private) (vd : net_device)
    (st : list pcpu_dstats) (b : fblock) (p : fb_ethvlink_private_inner) : Prop := {
  tu_carrier : exists rd, device k (ei_dev (skb_eth s)) rd /\ has_flag (nd_flags rd) IFF_UP = true;
  tu_frame : ei_pkt_type (skb_eth s) <> PACKET_LOOPBACK;
  tu_tag : vd_tag v = voice_tag;
  tu_vdev : vdev_for (k_net k) voice_tag (ei_dev (skb_eth s)) = a;
  tu_dev : device k a vd /\ nd_dstats vd = Some st;
  tu_port : vlink_port k a v b p /\ port (vi_port p) TYPE_INGRESS <> IDP_UNKNOWN;
}.

Section packet.
Context (remote own : list Z) (ts : Z) (f : list Z).
Hypothesis Hremote : length remote = 6%nat.
Hypothesis Hown : length own = 6%nat.

Lemma outpacket_payload : drop 14 (outpacket remote own ts f) = int_bytes ts ++ f.
Proof.
  unfold outpacket. rewrite (app_assoc remote own), (app_assoc (remote ++ own)).
  apply drop_app_length'. rewrite !length_app, Hremote, Hown. done.
Qed.

Lemma outpacket_source : take 6 (drop 6 (outpacket remote own ts f)) = own.
Proof. unfold outpacket. rewrite drop_app_length' by done. by apply take_app_length'. Qed.

Lemma outpacket_proto i : nth (12 + i) (outpacket remote own ts f) 0 = nth i ([172; 220] ++ int_bytes ts ++ f) 0.
Proof.
  unfold outpacket. rewrite app_assoc, app_nth2 by (rewrite length_app, Hremote, Hown; lia).
  rewrite length_app, Hremote, Hown. f_equal. lia.
Qed.

Lemma outpacket_length : length (outpacket remote own ts f) = (18 + length f)%nat.
Proof. unfold outpacket. rewrite !length_app, Hremote, Hown, int_bytes_length. done. Qed.

(** The frame of a voice message is for the device with the demo's tag. *)
Lemma tuned_frame_for k s a v vd st b p :
  is_valid_ether_addr own = true -> arrived (outpacket remote own ts f) s -> tuned k s a v vd st b p ->
  frame_for k s a v vd st b p.
Proof.
  intros Hv [_ Hsrc Hpr] [H1 H2 H3 H4 H5 H6]. rewrite outpacket_source in Hsrc.
  pose proof (outpacket_proto 0) as E0. pose proof (outpacket_proto 1) as E1. simpl in E0, E1. rewrite E0, E1 in Hpr.
  split; try done.
  - by rewrite Hsrc.
  - rewrite Hpr, H3. done.
  - by rewrite H3.
Qed.
End packet.

(** C18: from one demo to the other.  On the first machine the demo's [sendto],
    on a socket whose way leads to a hooked device that is up, returns the
    length of the message, and the device is given a frame of exactly the
    message's bytes.  On the second machine the frame, received on the carrier
    of a virtual device with tag 220 above which, through any number of
    forwarding blocks, there is a socket with an empty queue, is read from this
    socket without the Ethernet header, and the receiver of the demo there
    passes the frame with the sender's timestamp to its jitter buffer. *)
Theorem voice_end_to_end remote own ts f idx
    k1 sk1 so1 b1 p1 d1 pkts1 hops1 l1 fb1 c1 q1 nic cpu1
    k2 pkts2 hops2 skb s a v vd stats b p l2 fb2 b2 p2 so2 cpu2 wait :
  length remote = 6%nat -> length own = 6%nat -> is_valid_ether_addr own = true ->
  - 2 ^ 31 <= ts < 2 ^ 31 -> length f = 43%nat ->
  (* the first machine *)
  send_ready k1 sk1 so1 b1 p1 d1 (voice_msg idx (outpacket remote own ts f)) 61 ->
  reaches k1 TYPE_EGRESS (port (pp_port p1) TYPE_EGRESS) l1 (fb_idp c1) -> sink k1 (fb_idp c1) fb1 c1 M_eth ->
  eth_port k1 fb1 c1 q1 nic -> has_flag (nd_flags nic) IFF_UP = true ->
  k_emdiscs k1 !! k_cpu k1 = Some (Disc [] false cpu1) ->
  (* the second machine *)
  packet k2 skb s -> arrived (outpacket remote own ts f) s -> vdevs_live (k_net k2) -> tuned k2 s a v vd stats b p ->
  reaches k2 TYPE_INGRESS (port (vi_port p) TYPE_INGRESS) l2 (fb_idp b2) -> sink k2 (fb_idp b2) fb2 b2 M_pflana ->
  sock_port k2 fb2 b2 p2 so2 -> sk_receive_queue so2 = [] -> room k2 so2 47 = true ->
  (0 < k_rcu_nesting k2)%nat -> k_emdiscs k2 !! k_cpu k2 = Some (Disc [] false cpu2) ->
  (exists k1' out,
     lana_proto_sendmsg [] (S pkts1) (length l1 + S hops1) sk1 (voice_msg idx (outpacket remote own ts f)) 61 k1 = Ret 61 k1' /\
     n_devs (k_net k1') = <[ep_dev q1 := with_sent (k_next k1) out nic]> (n_devs (k_net k1)) /\
     skb_data out = outpacket remote own ts f) /\
  (exists k2' k2'', fb_ethvlink_handle_frame [] (S pkts2) (length l2 + S hops2) skb k2 = Ret RX_HANDLER_CONSUMED k2' /\
     lana_proto_recvmsg (pp_sock_self p2) 0 MAX_MSG 0 wait 0 k2' = Ret (47, int_bytes ts ++ f, 0) k2'') /\
  (forall (E : Env) c st pr, 0 <= l_pkts_in st < 2 ^ 31 - 1 ->
     E (p_calls pr) (sys_recv (v_sd c) MAX_MSG 0) = Reply 47 0 (int_bytes ts ++ f) [] ->
     exists st', voe_receive (H := E) c st pr =
       Done st' (with_call (jitter_buffer_put (v_jitter c) f (u32 ts) FRAME_SIZE 0)
                   (with_call (sys_recv (v_sd c) MAX_MSG 0) pr))).
Proof.
  intros Hr6 Ho6 Hval Hts Hf Hs1 Hre1 Hsi1 Hep Hup Hd1 Hpk Har Hlive Htu Hre2 Hsi2 Hsp Hq Hroom Hn Hd2.
  assert (Hpay : length (int_bytes ts ++ f) = 47%nat) by (rewrite length_app, int_bytes_length, Hf; done).
  split; [|split].
  - destruct (socket_to_wire k1 sk1 so1 b1 p1 d1 _ 61 pkts1 hops1 l1 fb1 c1 q1 nic cpu1 Hs1 Hre1 Hsi1 Hep Hup Hd1)
      as (k1' & out & H1 & H2 & H3 & _). exists k1', out. split; [done|]. split; [done|].
    rewrite H3. unfold msg_data, voice_msg. cbn [msg_iov]. apply take_ge. rewrite outpacket_length by done. lia.
  - destruct (ar_data _ _ Har) as [Hdata Hlen]. rewrite outpacket_payload in Hdata, Hlen by done. rewrite Hpay in Hlen.
    destruct (frame_to_socket k2 pkts2 hops2 skb s a v vd stats b p l2 fb2 b2 p2 so2 cpu2) as
      (k2' & s' & H1 & H2 & H3 & H4 & H5 & _ & _ & _ & Hu); try done.
    { by eapply (tuned_frame_for remote own ts f). }
    { rewrite Hq. apply not_elem_of_nil. }
    { by rewrite Hlen. }
    exists k2'. eexists. split; [exact H1|].
    rewrite (recvmsg_run k2' (pp_sock_self p2) (queued skb so2) skb [] s').
    + unfold read_msg. rewrite H3, H4, Hdata, Hlen. change (Z.min MAX_MSG (Z.of_nat 47)) with 47.
      change (MAX_MSG <? Z.of_nat 47) with false. rewrite take_ge by (rewrite Hpay; lia). reflexivity.
    + destruct Hsp as [_ _ [? _]]. split; [done|]. rewrite H5. apply lookup_insert_eq.
    + unfold queued. simpl. by rewrite Hq.
    + split; [apply Hpk|]. split; [rewrite H2; apply lookup_insert_eq|done].
  - intros E c st pr Hin He. destruct (voe_receive_run c st pr ts f) as (st' & Hrun & _); [done|unfold MAX_MSG; lia|done| |].
    + rewrite Hf. exact He.
    + by exists st'.
Qed.
End voice.
