(* ===== verification/AppRuns.v ===== *)
(** * Concrete runs of the demo application

    A process with the strings of a command line, an environment that answers
    every call, and two machines for a voice message; they hold the witnesses
    of the theorems on app/. *)
From Stdlib Require Import ZArith Lia.
From stdpp Require Import base gmap numbers countable list strings.
From S2P Require Import CritbitTree Vlink NameMap Types NetTypes Kernel NetDev EthvlinkDev Fblock FblockNs FblockLife FblockBind.
From S2P Require Import PerCpu FblockCtor Engine FbEth FbEthvlink FbPflana Modules EngineProps EngineSinks ModuleLife UserctlProps NetDevProps.
From S2P Require Import FbEthProps FbEthvlinkProps FbEthvlinkFrames FbPflanaProps FbPflanaLife NetPaths.
From S2P Require Import UserTools EthSystem VlinkSystem Scenarios EthRuns VlinkRuns.
From S2P Require Import Prelude CString Process XMalloc Alsa AlsaProps Voe VoeProps VoeMain VoeNet.

Local Open Scope Z_scope.

(** ** The process *)

Definition own_mac : list Z := [2; 0; 0; 0; 0; 1].
Definition remote_mac : list Z := [2; 0; 0; 0; 0; 255].
Definition plughw : cstr := [112; 108; 117; 103; 104; 119; 58; 48; 44; 48].

Definition str_block (s : cstr) : Process.block := Bytes (Some <$> (s ++ [0])).
Definition demo_argv : list addr := [256; 16; 64; 128].
Definition demo : process :=
  Process {[ 16 := str_block plughw; 64 := str_block (mac_text own_mac); 128 := str_block (mac_text remote_mac);
             256 := str_block [118; 111; 101] ]} 4096 [] [].

Lemma heap_ok_check p :
  0 < p_next p -> map_Forall (fun a b => 0 < a /\ 0 < block_size b /\ a + block_size b <= p_next p) (p_mem p) -> heap_ok p.
Proof. intros H0 H1. split; [done|exact H1]. Qed.

Lemma demo_heap : heap_ok demo.
Proof. apply heap_ok_check; [vd|vd]. Qed.

Lemma demo_str a s : a <> 0 -> cstr_ok s -> p_mem demo !! a = Some (str_block s) -> str_at demo a s.
Proof.
  intros Ha Hs Hb. split; [done|]. split; [done|]. exists []. rewrite Hb. unfold str_block. by rewrite fmap_app.
Qed.

(** Microphone, loudspeaker and socket are always ready; the interrupt comes at
    the third look. *)
Definition demo_env : Env := fun calls c =>
  match c with
  | snd_pcm_poll_descriptors_count _ => Reply 1 0 [] []
  | snd_pcm_poll_descriptors _ n => Reply n 0 [] (replicate (Z.to_nat n) (Pollfd 7 1 (Some 0)))
  | snd_pcm_poll_descriptors_revents _ _ => Reply 0 5 [] []
  | snd_pcm_readi _ n => Reply n 0 (replicate (Z.to_nat n) 3) []
  | snd_pcm_writei _ _ n => Reply n 0 [] []
  | celt_encode _ _ n => Reply n 0 (replicate (Z.to_nat n) 9) []
  | sys_recv _ n _ => if 47 <=? n then Reply 47 0 (replicate 47 1) [] else Reply (- EAGAIN) 0 [] []
  | sys_sendto _ data _ _ _ => Reply (Z.of_nat (length data)) 0 [] []
  | jitter_buffer_get _ _ _ => Reply 0 0 [] []
  | sys_poll l _ => Reply 3 0 (replicate (length l) 5) []
  | Signals => Reply 0 0 (if (2 <=? ticks calls)%nat then [SIGINT] else [SIGALRM]) []
  | _ => Reply 0 1 [] []
  end.

Lemma demo_env_ok : env_ok (H := demo_env).
Proof.
  split.
  - intros calls h n Hn. cbn. rewrite length_replicate. lia.
  - intros calls h. cbn. lia.
  - intros calls l t r _. apply length_replicate.
  - intros calls sd len fl Hlen. cbn. destruct (Z.leb_spec 47 len); cbn; unfold EAGAIN; lia.
  - intros calls h len Hlen. cbn. rewrite length_replicate. lia.
  - intros calls e pcm len Hlen. cbn. rewrite length_replicate. lia.
  - intros calls d data len. cbn. unfold FRAME_SIZE. lia.
  - intros calls j len span Hlen. cbn. lia.
Qed.

(** ** Witnesses *)

Lemma xstrdup_correct_witness :
  xstrdup (H := demo_env) 16 demo = Done 4096 (filled 16 (Some <$> (plughw ++ [0])) demo) /\
  xstrndup (H := demo_env) 16 7 demo = Done 4096 (filled 16 (Some <$> (take 6 plughw ++ [0])) demo).
Proof.
  apply (xstrdup_correct (H := demo_env) 16 plughw 7 demo demo_heap); [apply demo_str; [done|vd|reflexivity]|done|done].
Defined.

Lemma xrealloc_correct_witness :
  xrealloc (H := demo_env) 0 (2 ^ 33) (2 ^ 33) demo = dies "xrealloc: zero size" demo /\
  xrealloc (H := demo_env) 256 3 2 demo =
    Done 4096 (Process (<[4096 := Bytes ((Some <$> [118; 111; 101; 0]) ++ [None; None])]>
                          (delete 256 (p_mem demo))) 4102 [] []).
Proof.
  split.
  - exact (xrealloc_correct (H := demo_env) 0 [] (2 ^ 33) (2 ^ 33) demo demo_heap ltac:(lia) ltac:(lia) ltac:(left; done)).
  - exact (xrealloc_correct (H := demo_env) 256 (Some <$> [118; 111; 101; 0]) 3 2 demo demo_heap ltac:(lia) ltac:(lia) ltac:(right; done)).
Defined.

Lemma demo_devname : devname_at demo 16 plughw.
Proof. split; [apply demo_str; [done|vd|reflexivity]|done]. Qed.

Lemma alsa_open_close_witness :
  match alsa_open (H := demo_env) 16 SAMPLING_RATE CHANNELS FRAME_SIZE demo with
  | Done dev p' => exists d, dev_open (H := demo_env) (p_calls demo) p' dev d plughw (p_mem demo) /\ ad_channels d = CHANNELS /\
      exists p'', alsa_close (H := demo_env) dev p' = Done tt p'' /\ p_mem p'' = p_mem demo
  | _ => False
  end.
Proof.
  pose proof (alsa_open_close (H := demo_env) 16 plughw SAMPLING_RATE CHANNELS FRAME_SIZE demo
    (eo_fit (H := demo_env) demo_env_ok) demo_heap demo_devname) as Hw.
  destruct (alsa_open 16 SAMPLING_RATE CHANNELS FRAME_SIZE demo) as [dev p'|st p'|u p'] eqn:Ho.
  - destruct Hw as (d & Hd & Hc & _ & p'' & H1 & H2 & _). exists d. split; [exact Hd|]. split; [exact Hc|].
    exists p''. split; [exact H1|exact H2].
  - exfalso. vm_compute in Ho. discriminate Ho.
  - exact Hw.
Defined.

Lemma demo_command_line : command_line demo demo_argv plughw own_mac remote_mac.
Proof.
  split; [|split; [vd|done]..]. exists 256, 16, 64, 128. split; [done|]. split; [exact demo_devname|].
  split; (apply demo_str; [done|vd|reflexivity]).
Qed.

(** Two rounds are played, recorded and sent before the interrupt, and the
    program returns. *)
Lemma voe_main_correct_witness :
  exists p', voe_main (H := demo_env) 5 demo_argv demo = Done (Some 0) p' /\
    length (sends (p_calls p')) = 2%nat /\ stream remote_mac own_mac (sends (p_calls p')) /\
    run_end (H := demo_env) 5 (Some 0) p'.
Proof.
  pose proof (voe_main_correct (H := demo_env) demo_env_ok 5 demo_argv plughw own_mac remote_mac demo demo_heap eq_refl
    demo_command_line) as Hw.
  assert (Hrun : match voe_main (H := demo_env) 5 demo_argv demo with
                 | Done (Some 0) p' => length (sends (p_calls p')) = 2%nat
                 | _ => False end) by (vm_compute; reflexivity).
  destruct (voe_main 5 demo_argv demo) as [[[]|] p'| |]; try done. exists p'. split; [done|]. split; [exact Hrun|exact Hw].
Defined.

(** An environment that sends two bytes, one whose microphone overruns, one
    that interrupts every poll, and a process in the loop. *)
Definition short_env : Env := fun calls c =>
  match c with sys_recv _ _ _ => Reply 2 0 [1; 2] [] | _ => demo_env calls c end.
Definition overrun_env : Env := fun calls c =>
  match c with snd_pcm_readi _ _ => Reply (- EPIPE) 0 [] [] | _ => demo_env calls c end.
Definition interrupt_env : Env := fun calls c =>
  match c with sys_poll _ _ => Reply (-1) 0 [] [] | _ => demo_env calls c end.
Definition loop_conf : voe_conf := VoeConf 3 512 1024 2 1 1 1 1 own_mac remote_mac.
Definition loop_start : voe_state := VoeState false 0 0 (replicate (Z.to_nat MAX_MSG) None) 0 false.
Definition loop_late : voe_state :=
  VoeState false 0 0 (replicate (Z.to_nat MAX_MSG) None) (FRAME_SIZE * (2 ^ 23 - 1)) false.
Definition loop_fds : list (option pollfd) :=
  [Some (Pollfd 7 1 (Some 0)); Some (Pollfd 7 1 (Some 0)); Some (Pollfd 3 POLLIN None)].
Definition loop_process : process := Process {[ 512 := Process.Dev dev_zero; 1024 := Fds loop_fds ]} 4096 [] [].

Lemma voe_undefined_witness :
  (exists p', voe_receive (H := short_env) loop_conf loop_start loop_process = Undef Out_of_bounds p') /\
  (exists p', voe_capture (H := overrun_env) loop_conf loop_start loop_process = Undef Uninitialised p') /\
  (exists p', voe_capture (H := demo_env) loop_conf loop_late loop_process = Undef Signed_overflow p') /\
  (exists p', voe_round (H := interrupt_env) loop_conf loop_start loop_process = Undef Uninitialised p').
Proof.
  split; [|split; [|split]].
  - refine (proj1 (voe_undefined (H := short_env) loop_conf loop_start loop_process dev_zero _ _ _) 2 [1; 2] _ _ _); done.
  - refine (proj1 (proj2 (voe_undefined (H := overrun_env) loop_conf loop_start loop_process dev_zero _ _ _)) _ eq_refl _ _); done.
  - refine (proj1 (proj2 (proj2 (voe_undefined (H := demo_env) loop_conf loop_late loop_process dev_zero _ _ _)))
              (replicate 256 3) (replicate 43 9) _ _ _ _ _); done.
  - refine (proj2 (proj2 (proj2 (voe_undefined (H := interrupt_env) loop_conf loop_start loop_process dev_zero _ _ _)))
              loop_fds _ _ _ _); done.
Defined.

(** ** Two machines *)

(** A virtual device with the demo's tag below a socket. *)
Definition add_voice : vlinknlmsg := vdev_msg VLINKNLCMD_ADD_DEVICE voice_tag.
Definition voice_vdev : kernel :=
  upd_net (net_devs (alter (fun d => with_flags (Z.lor (nd_flags d) IFF_UP) d) vdev1))
    (run (fb_ethvlink_add_dev notifier add_voice) plain_machine).
Definition listener : kernel :=
  run (fblock_bind fb_sv fb_v1) (run (create sock1) (upd_pf (fun _ => pf sock_machine) voice_vdev)).
Definition voice_priv : fb_ethvlink_private := VlinkPriv voice_tag vdev1 EthRuns.eth0 fb_v1.

Definition frame0 : list Z := replicate 43 9.
Definition message0 : list Z := outpacket remote_mac own_mac 512 frame0.

Definition on_wire : sk_buff :=
  Skb 47 (drop 14 message0) (LanaInf 0 0 0 0 0 TYPE_INGRESS) 1
    (EthInfo EthRuns.eth0 0 own_mac (nth 12 message0 0 + 256 * nth 13 message0 0)).
Definition heard : kernel := arrives on_wire listener.

Lemma speaker_ready :
  send_ready wired sk_v (sk_of wired sk_v) (Scenarios.block wired fb_out) out_port carrier (voice_msg 1 message0) 61.
Proof.
  split; [vc| |vc|vc|vc|vc|].
  - exists (Sockaddr VOE_AF_LANA (sa_bytes 1)). vc.
  - split; [vc|]. exists [out_port; out_port]. vc.
Qed.

Lemma heard_vport : vlink_port heard vdev1 voice_priv (Scenarios.block listener fb_v1) v1_port.
Proof.
  unfold heard. destruct (arrives_privs on_wire listener) as [E1 E2].
  split; rewrite ?arrives_fblocks, ?arrives_net, ?E1, ?E2.
  - split; [|vc]. split; [done|]. exists (dev_of listener vdev1). vc.
  - vc.
  - split; [vc|]. exists [v1_port; v1_port]. vc.
Qed.

Lemma heard_tuned :
  tuned heard on_wire vdev1 voice_priv (dev_of listener vdev1) zero_stats (Scenarios.block listener fb_v1) v1_port.
Proof.
  split; [exists carrier| | | | |split; [apply heard_vport|vc]]; unfold heard, device; rewrite ?arrives_net; try vc.
Qed.

Lemma heard_port : sock_port heard fb_sv (Scenarios.block listener fb_sv) sv_port (sk_of listener sk_v).
Proof.
  unfold heard. destruct (arrives_privs on_wire listener) as [E1 E2].
  split; unfold sock_at, pf; rewrite ?arrives_fblocks, ?arrives_net, ?E1, ?E2; [vc| |vc].
  split; [vc|]. exists [sv_port; sv_port]. vc.
Qed.

Lemma heard_live : vdevs_live (k_net heard).
Proof.
  unfold heard. rewrite arrives_net. assert (E : fb_ethvlink_vdevs (k_net listener) = [vdev1]) by vc.
  unfold vdevs_live. rewrite E. constructor; [|constructor]. exists voice_priv. split; [done|].
  exists (dev_of listener vdev1). vc.
Qed.

Lemma voice_end_to_end_witness :
  (exists k1' out, lana_proto_sendmsg [] 1 1 sk_v (voice_msg 1 message0) 61 wired = Ret 61 k1' /\ skb_data out = message0) /\
  (exists k2' k2'', fb_ethvlink_handle_frame [] 1 1 skb1 heard = Ret RX_HANDLER_CONSUMED k2' /\
     lana_proto_recvmsg sk_v 0 MAX_MSG 0 (- EAGAIN) 0 k2' = Ret (47, int_bytes 512 ++ frame0, 0) k2'').
Proof.
  destruct (voice_end_to_end remote_mac own_mac 512 frame0 1
    wired sk_v (sk_of wired sk_v) (Scenarios.block wired fb_out) out_port carrier 0 0 [] fb_nic (Scenarios.block wired fb_nic)
    nic_port (hooked dev1) 0
    heard 0 0 skb1 on_wire vdev1 voice_priv (dev_of listener vdev1) zero_stats (Scenarios.block listener fb_v1) v1_port
    [] fb_sv (Scenarios.block listener fb_sv) sv_port (sk_of listener sk_v) 0 (- EAGAIN))
    as ((k1' & out & H1 & _ & H2) & (k2' & k2'' & H3 & H4) & _).
  - done.
  - done.
  - done.
  - lia.
  - done.
  - apply speaker_ready.
  - replace (port (pp_port out_port) TYPE_EGRESS) with (fb_idp (Scenarios.block wired fb_nic)) by vc. apply reaches_here.
  - split; vc.
  - split; [vc| |vc]. split; [vc|]. exists [nic_port; nic_port]. vc.
  - vc.
  - vc.
  - by apply arrives_packet'.
  - split; vc.
  - apply heard_live.
  - apply heard_tuned.
  - replace (port (vi_port v1_port) TYPE_INGRESS) with (fb_idp (Scenarios.block listener fb_sv)) by vc. apply reaches_here.
  - split; vc.
  - apply heard_port.
  - vc.
  - vc.
  - vc.
  - vc.
  - split; [exists k1', out|exists k2', k2'']; (split; [assumption|assumption]).
Defined.
